(* ===== verification/_CoqProject ===== *)
-Q . S2P
Prelude.v
SeqArith.v
Ring.v
Queue.v
Window.v
TxState.v
RxState.v
Socks.v
Text.v
Pnet.v
Wire.v
Layers.v
Packet.v
PacketText.v
Frames.v
Forwarder.v
Flow.v
Crates.v
Redirector.v
Preserve.v
Workers.v
Conn.v
Session.v
Progress.v
Dispatch.v
Stream.v
Isolation.v
Ports.v
Safety.v
Delivery.v
Datagram.v
CacheText.v
Interface.v
Main.v
