(* ===== verification/Prelude.v ===== *)
(** * pcap2socks: a verification library

    pcap2socks reads the Ethernet frames of a device (the source), ends its TCP
    connections and UDP datagrams as if it were the other side, and passes
    their contents to a SOCKS5 proxy; what the proxy answers goes back to the
    source in frames that the program builds.  This library models the program
    and proves what makes it correct.

    ** The parts of the program and where they are modelled

    Caches (cache/mod.rs).
    - [SeqArith]: the arithmetic on [u32] sequence numbers that the sources
      write out at each use, and [Timer] of lib.rs.
    - [Ring]: the buffer manipulation that both caches share.
    - [Queue]: [Queue], the bytes that were sent and not acknowledged, with
      their clocks.
    - [Window]: [Window], the bytes that came out of order, with the map of the
      filled ranges as an association list sorted by key.
    - [CacheText]: the [Display] texts of both, and the unit tests of the
      repository evaluated on the model.

    Connections (lib.rs).
    - [TxState]: [TcpTxState], the direction to the source.
    - [RxState]: [TcpRxState], the direction from the source.

    Packets (packet/).
    - [Pnet]: the interface of the crate pnet as the classes [Pnet], [PnetLaws]
      and [PnetTypes]; [Wire]: an instance with the formats of the RFCs.
    - [Layers]: the layers, their constructors, getters and serialization.
    - [Packet]: [Indicator], [Fragmentation] and [Defraggler].
    - [PacketText]: the [Display] texts of the layers, the indicator and the
      states of a connection, and the brief of a frame.
    - [Frames]: whatever the program builds can be serialized.

    The two halves (lib.rs).
    - [Forwarder]: [Forwarder], which sends frames to the source, in a state and
      error monad over its record; the pcap sender is the class [Device].
    - [Flow]: what its methods leave alone, and that it implements the traits
      [ForwardStream] and [ForwardDatagram] as their users need.
    - [Redirector]: [Redirector], which handles the frames of the source, in a
      state and error monad; the crates lru and ipnetwork are the classes of
      [Crates], with laws and instances.

    The SOCKS client (socks/mod.rs, socks/socks/mod.rs).
    - [Socks]: the stream and datagram workers with their tasks as steps, the
      header of datagrams, connection and association.

    The program (main.rs, pcap/mod.rs).
    - [Text]: what it uses of the standard library to print and parse addresses.
    - [Interface]: the list of the interfaces and the choice of one.
    - [Main]: the flags, the presets, the parameters for the user, the address
      of the proxy and the start of the redirector.

    Interactions.
    - [Workers]: the invariant [rd_ok] of the redirector and of its schedule, and
      that the turns of the tasks keep it.
    - [Preserve]: a small logic for what a handler leaves unchanged, whatever
      it returns.
    - [Conn]: one connection in the middle of a handler: turns, critical
      sections, reports, sending, cleaning up.
    - [Session]: the TCP handlers; [Progress]: the progress of a connection;
      [Dispatch]: from the bytes of a frame to the handlers; [Stream]: what no
      handler changes; [Isolation]: what a frame does to other connections;
      [Ports]: the UDP ports; [Safety]: no frame that the code can take stops
      the redirector; [Delivery]: a stream over many frames; [Datagram]:
      datagrams, whole and in fragments, from the frame to the proxy.

    ** How the code is modelled

    A Rust integer is a [Z] with its bound; truncation, checked and overflowing
    arithmetic are written out, and an overflow panics as it does with the
    checks of a debug build.  A call returns [Done], panics ([Panic]) or is
    still running when its fuel is used up ([Hang]); [io::Result] is
    [io_result].  A method that changes [self] returns the new record; the
    methods of [Forwarder] and [Redirector] are in the monads [FM] and [RM].
    Readings of the clock, random numbers and the answers of sockets are
    arguments; what is written to a socket or the device is kept in the state.
    A HashMap is a [gmap].

    The handlers and the tasks of the workers run on several threads and share
    the forwarder behind a mutex.  A critical section of a handler is one step
    ([with_tx]), and so is a turn of a task ([run_worker]).  The redirector
    carries a schedule ([rd_turns]): before every critical section and at every
    point where a handler waits for the proxy it draws the turns that the tasks
    take there ([rm_turn]).  The theorems hold for every schedule, that is for
    every interleaving of the critical sections and the turns; a theorem that
    needs a handler without interruption says so ([rd_turns r = []]).  The traits
    through which the tasks call the forwarder are the classes [ForwardStream]
    and [ForwardDatagram]; the theorems about the tasks are proved against
    [ForwardStreamLaws], which [Flow] discharges.

    The pcap device is arbitrary: [send_to] of the class [Device] takes the
    frame, has no room or fails with any error, and the code passes the error on
    with its question mark.  A theorem about a method that sends says what its
    result can be ([answered]: success or an error of the device); a frame that
    "was sent" or "was handed to the device" is one for which [send_to] was
    called, whatever it answered ([fw_sent]).  Only [stream_drains] and
    [zero_mss_never_returns] assume that the device takes every frame
    ([device_ok]), and say so.

    What the other side can do is limited where the code panics, and nowhere
    else: by [event_ok] for the datagrams of the proxy in the turns of the tasks
    (IPv4, not shorter than the header; part of the invariant), by [bind_ok] for
    its answer to an association, and by [frame_ok] for the frames of the source.
    The statements that need one of them name it.

    Loops whose recursion is not structural have fuel: the segmentation and the
    fragmentation get one more than the bytes they cut, and the search of the
    window one more than its ranges.  The theorems about these functions state
    that they return [Done], so the fuel is enough; [zero_mss_never_returns]
    shows the one input on which no fuel is.

    ** What the theorems show

    - From the wire to the proxy: [frame_data_delivered] (whatever the order,
      overlap, repetition and padding, the proxy has a prefix of the stream and
      that is what is acknowledged), on [window_reassembles];
      [stream_in_order_delivered] (a stream that is sent in order and that the
      proxy takes is delivered to the last byte, whatever frames about other
      connections come in between).
    - No frame that the code can take stops it: [frame_safe] (every handler
      returns on every branch and keeps the invariant [sound] of the connections,
      the bindings and the fragments) and [open_safe] (so does a run); the
      conditions on a frame, [frame_ok], name the places where the code panics.
      [frame_isolated]: a frame changes no connection but the one of its segment,
      or of the segment that it completes ([touched]).
    - From the proxy to the source: [stream_task_forwards], [forward_appends],
      [send_tcp_ack_conserves], [send_tcp_ack_raw_segments], [tick_resends] and
      [retransmit_without_exact] (nothing is lost or reordered, and exactly what
      no SACK covers is sent again while the numbers do not wrap), and
      [stream_drains] (everything is sent in the end when the source acknowledges
      and no task takes a turn); the state of a connection
      refines a list of bytes ([tx_refines_fifo]), on [queue_append_refines] and
      [queue_invalidate_refines].
    - The life of a connection: [tcp_syn_opens], [tcp_ack_drops_acknowledged],
      [tcp_fin_half_closes], [tcp_rst_removes], [workers_keep_invariant].
    - UDP: the three structures of the bindings refine one list
      ([udp_bind_refines], [udp_unbind_refines]), and a port that is reused keeps
      the source of its worker; datagrams reach the proxy,
      whole ([frame_datagram_sent]) and in fragments of any order
      ([fragments_datagram_sent], on [defrag_any_order]), and their answers the
      source ([udp_reply_reaches_source], [socks_datagram_roundtrip]); what the
      program cuts into fragments is put together again
      ([send_udp_reassembles]).
    - Frames: [foreign_frame_ignored], [arp_request_answered],
      [brief_names_connection], and the options and lengths of TCP headers.
    - The start: [main_setup_total] (for a source that is not the network of all
      addresses), [interface_exact], [info_mask_longest], [resolvable_host].
    - Where the code does not do what it means to: [seq_add_wrap_off_by_one],
      [window_append_old_segment_panics], [zero_mss_never_returns],
      [sack_across_wrap_resends], [tx_ack_clears_uncovered_fin],
      [fin_overtakes_queue], and further
      theorems beside the components: [socks_foreign_datagram_panics],
      [edges_merge_forgets], [queue_poll_drops_running_clock],
      [tx_srtt_ignores_previous], [tick_always_waits_max_rto],
      [fragment_out_of_range_panics], [duplicate_never_completes],
      [udp_reuse_keeps_source], [task_after_clean_up_panics].

    Sequence numbers are those of the code: they wrap at 2^32-1, so the theorems
    about streams speak of a peer that counts in the same way, which a real one
    does until its numbers wrap.

    ** What is not modelled

    - The moment between the look of a task at the flags of its worker and its
      lock of the forwarder: a turn of a task is one step, so a connection is not
      removed in between.  [task_after_clean_up_panics] shows what the code does
      when it is.
    - The waits between polls of the tasks, and the reading of the device by the
      operating system: the model has what they deliver.
    - The colours of the log, and the messages below the level of a warning.
    - The parsing of the arguments (structopt), the resolver, pnet, lru,
      ipnetwork, async_socks5 and the interface crates: parameters.

    ** Plan

    Progress of several connections at once under a fair schedule; TCP segments
    in fragments. *)

From stdpp Require Export base tactics option list list_numbers numbers strings.
From stdpp Require Export gmap.
From Stdlib Require Export ZArith Lia.

#[global] Open Scope Z_scope.

(** ** Machine integers

    Every Rust integer is a [Z]; the width is an explicit bound.  [usize] is
    the 64-bit one of the platforms the program is built for. *)

Definition u8_max : Z := 255.
Definition u16_max : Z := 65535.
Definition u32_max : Z := 4294967295.
Definition u64_max : Z := 18446744073709551615.
Definition usize_max : Z := u64_max.

Definition is_u8 (x : Z) : Prop := 0 <= x <= u8_max.
Definition is_u16 (x : Z) : Prop := 0 <= x <= u16_max.
Definition is_u32 (x : Z) : Prop := 0 <= x <= u32_max.
Definition is_u64 (x : Z) : Prop := 0 <= x <= u64_max.
Definition is_usize (x : Z) : Prop := 0 <= x <= usize_max.

Create HintDb ints.
#[export] Hint Unfold u8_max u16_max u32_max u64_max usize_max
  is_u8 is_u16 is_u32 is_u64 is_usize : ints.

(** [x as u8] and the like: truncation to the low bits. *)
Definition as_u8 (x : Z) : Z := x mod 256.
Definition as_u16 (x : Z) : Z := x mod 65536.
Definition as_u32 (x : Z) : Z := x mod 4294967296.
Definition as_u64 (x : Z) : Z := x mod 18446744073709551616.

(** [a.checked_add(b)], [a.checked_sub(b)] and [a.checked_mul(b)] at a width
    whose largest value is [m]. *)
Definition checked_add (m a b : Z) : option Z :=
  if a + b <=? m then Some (a + b) else None.
Definition checked_sub (a b : Z) : option Z :=
  if b <=? a then Some (a - b) else None.
Definition checked_mul (m a b : Z) : option Z :=
  if a * b <=? m then Some (a * b) else None.

(** [o.unwrap_or(d)]. *)
Definition unwrap_or {A} (o : option A) (d : A) : A :=
  match o with Some a => a | None => d end.

(** ** Outcomes of a computation

    A call returns ([Done]), panics, or, for a loop that is run with fuel,
    is still running when the fuel is used up ([Hang]). *)

Inductive outcome (A : Type) : Type :=
| Done (a : A)
| Panic
| Hang.
Arguments Done {A} a.
Arguments Panic {A}.
Arguments Hang {A}.

#[export] Instance outcome_ret : MRet outcome := fun A a => Done a.
#[export] Instance outcome_bind : MBind outcome := fun A B f m =>
  match m with Done a => f a | Panic => Panic | Hang => Hang end.

Lemma outcome_bind_Done {A B} (f : A -> outcome B) (a : A) :
  mbind f (Done a) = f a.
Proof. reflexivity. Qed.
Lemma outcome_bind_Panic {A B} (f : A -> outcome B) :
  mbind f Panic = Panic.
Proof. reflexivity. Qed.
Lemma outcome_bind_Hang {A B} (f : A -> outcome B) :
  mbind f Hang = Hang.
Proof. reflexivity. Qed.

(** A bind that returns was fed by a first part that returned. *)
Lemma outcome_bind_Done_inv {A B} (f : A -> outcome B) (m : outcome A) (b : B) :
  mbind f m = Done b -> exists a, m = Done a /\ f a = Done b.
Proof. destruct m; simpl; try discriminate. eauto. Qed.

(** [o.unwrap()]. *)
Definition unwrap {A} (o : option A) : outcome A :=
  match o with Some a => Done a | None => Panic end.

(** Plain [+], [-] and [*]: overflow panics, as in a build with overflow
    checks.  Where a theorem shows a result to be [Done], no check fires and a
    build without them computes the same value. *)
Definition int_add (m a b : Z) : outcome Z :=
  if a + b <=? m then Done (a + b) else Panic.
Definition int_sub (a b : Z) : outcome Z :=
  if b <=? a then Done (a - b) else Panic.
Definition int_mul (m a b : Z) : outcome Z :=
  if a * b <=? m then Done (a * b) else Panic.
Definition usize_add := int_add usize_max.
Definition usize_mul := int_mul usize_max.
(** [a % b] and [a / b] panic when [b] is zero. *)
Definition int_rem (a b : Z) : outcome Z :=
  if b =? 0 then Panic else Done (a mod b).
Definition int_div (a b : Z) : outcome Z :=
  if b =? 0 then Panic else Done (a / b).
(** [a << n] panics when [n] is not below the width [w]; bits shifted out are
    lost. *)
Definition int_shl (w a n : Z) : outcome Z :=
  if n <? w then Done (Z.shiftl a n mod 2 ^ w) else Panic.
Definition int_shr (w a n : Z) : outcome Z :=
  if n <? w then Done (Z.shiftr a n) else Panic.

(** ** I/O results *)

Inductive ErrorKind : Set :=
| EOther | EInvalidInput | EInvalidData | ENotConnected | EWriteZero
| ENotFound | ETimedOut.

#[export] Instance ErrorKind_eq_dec : EqDecision ErrorKind.
Proof. solve_decision. Defined.

(** [io::Error]: the kind and the message it was built with. *)
Record IoError : Set := mkIoError { err_kind : ErrorKind; err_msg : string }.

#[export] Instance IoError_eq_dec : EqDecision IoError.
Proof. solve_decision. Defined.

Inductive io_result (A : Type) : Type :=
| Ok (a : A)
| Err (e : IoError).
Arguments Ok {A} a.
Arguments Err {A} e.

(** [r.unwrap()] on a result. *)
Definition unwrap_io {A} (r : io_result A) : outcome A :=
  match r with Ok a => Done a | Err _ => Panic end.

(** ** Byte strings and Z-indexed lists *)

(** A [u8] is a [Z]; [bytes_ok] says that a list holds bytes. *)
Abbreviation byte := Z (only parsing).
Definition bytes_ok (l : list byte) : Prop := Forall is_u8 l.

(** [l.len()]. *)
Definition len {A} (l : list A) : Z := Z.of_nat (length l).

(** [l[i]] where [i] is known to be in range. *)
Definition zat (l : list Z) (i : Z) : Z := nth (Z.to_nat i) l 0.

Definition ztake {A} (n : Z) (l : list A) : list A := take (Z.to_nat n) l.
Definition zdrop {A} (n : Z) (l : list A) : list A := drop (Z.to_nat n) l.

(** The list [f 0, ..., f (n - 1)]. *)
Definition tabulate (n : Z) (f : Z -> Z) : list Z := map f (seqZ 0 n).

(** [l[a..b]]: panics unless [a <= b <= l.len()]. *)
Definition slice {A} (l : list A) (a b : Z) : outcome (list A) :=
  if (0 <=? a) && (a <=? b) && (b <=? len l)
  then Done (ztake (b - a) (zdrop a l)) else Panic.

(** [l[i]] with its bounds check. *)
Definition index {A} (l : list A) (i : Z) : outcome A :=
  if 0 <=? i then unwrap (l !! Z.to_nat i) else Panic.

(** [buf] with [src] written at [off]. *)
Definition blit {A} (buf : list A) (off : Z) (src : list A) : list A :=
  ztake off buf ++ src ++ zdrop (off + len src) buf.

(** [buf[a..b].copy_from_slice(src)]. *)
Definition copy_from_slice {A} (buf : list A) (a b : Z) (src : list A)
  : outcome (list A) :=
  if (0 <=? a) && (a <=? b) && (b <=? len buf) && (len src =? b - a)
  then Done (blit buf a src) else Panic.

(** [buf.copy_within(a..b, dest)]: a memmove inside [buf]. *)
Definition copy_within {A} (buf : list A) (a b dest : Z) : outcome (list A) :=
  if (0 <=? a) && (a <=? b) && (b <=? len buf) && (dest <=? len buf - (b - a))
  then Done (blit buf dest (ztake (b - a) (zdrop a buf))) else Panic.

(** [buf.resize(n, 0)] and [vec![0u8; n]]. *)
Definition zeros (n : Z) : list byte := replicate (Z.to_nat n) 0.
Definition resize (buf : list byte) (n : Z) : list byte :=
  ztake n buf ++ zeros (n - len buf).

(** ** Addresses *)

(** An [Ipv4Addr] is its [u32] value, a [SocketAddrV4] an address and a port. *)
Abbreviation Ipv4Addr := Z (only parsing).
Definition ipv4_unspecified : Ipv4Addr := 0.
Definition SocketAddrV4 : Set := (Z * Z)%type.
Definition sa_ip (a : SocketAddrV4) : Ipv4Addr := a.1.
Definition sa_port (a : SocketAddrV4) : Z := a.2.

#[export] Instance SocketAddrV4_eq_dec : EqDecision SocketAddrV4.
Proof. unfold SocketAddrV4. apply _. Defined.
#[export] Instance SocketAddrV4_countable : Countable SocketAddrV4.
Proof. unfold SocketAddrV4. apply _. Defined.

(** *** Lengths *)

Lemma len_nonneg {A} (l : list A) : 0 <= len l.
Proof. unfold len; lia. Qed.
Lemma len_nil {A} : len (@nil A) = 0.
Proof. reflexivity. Qed.
Lemma len_cons {A} (a : A) l : len (a :: l) = 1 + len l.
Proof. unfold len; simpl length; lia. Qed.
Lemma len_app {A} (l k : list A) : len (l ++ k) = len l + len k.
Proof. unfold len; rewrite length_app; lia. Qed.
Lemma len_ztake {A} n (l : list A) : len (ztake n l) = Z.min (Z.max 0 n) (len l).
Proof. unfold len, ztake; rewrite length_take; lia. Qed.
Lemma len_zdrop {A} n (l : list A) : len (zdrop n l) = Z.max 0 (len l - Z.max 0 n).
Proof. unfold len, zdrop; rewrite length_drop; lia. Qed.
Lemma len_tabulate n f : len (tabulate n f) = Z.max 0 n.
Proof. unfold len, tabulate. rewrite length_map, length_seqZ. lia. Qed.
Lemma len_zeros n : len (zeros n) = Z.max 0 n.
Proof. unfold len, zeros. rewrite length_replicate. lia. Qed.
Lemma len_map {A B} (f : A -> B) l : len (map f l) = len l.
Proof. unfold len. by rewrite length_map. Qed.

Create Rewrite HintDb zlist.
#[export] Hint Rewrite @len_nil @len_cons @len_app @len_ztake @len_zdrop
  @len_tabulate @len_zeros @len_map : zlist.

Lemma len_blit {A} (buf : list A) off src :
  0 <= off -> off + len src <= len buf -> len (blit buf off src) = len buf.
Proof.
  intros. unfold blit. pose proof (len_nonneg src).
  autorewrite with zlist. lia.
Qed.
Lemma len_resize buf n : 0 <= n -> len (resize buf n) = n.
Proof. intros. unfold resize. autorewrite with zlist. pose proof (len_nonneg buf). lia. Qed.
Lemma len_0 {A} (l : list A) : len l = 0 -> l = [].
Proof. destruct l; [done|]. rewrite len_cons. pose proof (len_nonneg l). lia. Qed.

(** *** Reading an index *)

Lemma zat_cons a l i : 0 <= i -> zat (a :: l) i = if i =? 0 then a else zat l (i - 1).
Proof.
  intros. unfold zat. destruct (Z.eqb_spec i 0) as [->|]; [done|].
  replace (Z.to_nat i) with (S (Z.to_nat (i - 1))) by lia. done.
Qed.
Lemma zat_app l k i :
  0 <= i -> zat (l ++ k) i = if i <? len l then zat l i else zat k (i - len l).
Proof.
  intros. unfold zat, len. destruct (Z.ltb_spec i (Z.of_nat (length l))).
  - rewrite app_nth1; [done|lia].
  - rewrite app_nth2; [|lia]. f_equal. lia.
Qed.
Lemma zat_ztake n l i : 0 <= i < n -> zat (ztake n l) i = zat l i.
Proof.
  intros. unfold zat, ztake.
  revert l i n H. induction l as [|a l IH]; intros i n H.
  - rewrite take_nil. done.
  - destruct (Z.to_nat n) as [|m] eqn:E; [lia|]. simpl.
    destruct (Z.to_nat i) as [|j] eqn:Ej; [done|].
    specialize (IH (i - 1) (n - 1) ltac:(lia)).
    replace (Z.to_nat (n - 1)) with m in IH by lia.
    replace (Z.to_nat (i - 1)) with j in IH by lia. done.
Qed.
Lemma zat_zdrop n l i : 0 <= i -> 0 <= n -> zat (zdrop n l) i = zat l (n + i).
Proof.
  intros. unfold zat, zdrop. rewrite Z2Nat.inj_add by lia.
  generalize (Z.to_nat n) (Z.to_nat i). clear. intros n i.
  revert n. induction l as [|a l IH]; intros [|n]; simpl; try done.
  destruct i; done.
Qed.
Lemma zat_overflow l i : len l <= i -> zat l i = 0.
Proof. intros. unfold zat, len in *. apply nth_overflow. lia. Qed.
Lemma nth_map_seqZ (f : Z -> Z) n m i :
  (i < Z.to_nat m)%nat -> nth i (map f (seqZ n m)) 0 = f (n + Z.of_nat i).
Proof.
  intros. rewrite (nth_indep _ 0 (f 0)) by (rewrite length_map, length_seqZ; lia).
  rewrite map_nth. f_equal.
  apply (nth_lookup_Some _ _ 0). apply lookup_seqZ. lia.
Qed.
Lemma zat_tabulate n f i : 0 <= i < n -> zat (tabulate n f) i = f i.
Proof.
  intros. unfold zat, tabulate. rewrite nth_map_seqZ by lia. f_equal. lia.
Qed.
Lemma zat_blit buf off src i :
  0 <= off -> off + len src <= len buf -> 0 <= i ->
  zat (blit buf off src) i =
  if (off <=? i) && (i <? off + len src) then zat src (i - off) else zat buf i.
Proof.
  intros. pose proof (len_nonneg src). unfold blit.
  rewrite zat_app by lia. autorewrite with zlist.
  destruct (Z.ltb_spec i (Z.min (Z.max 0 off) (len buf))).
  - rewrite zat_ztake by lia. destruct (Z.leb_spec off i); [lia|done].
  - destruct (Z.leb_spec off i); [|lia]. simpl. rewrite zat_app by lia.
    replace (i - Z.min (Z.max 0 off) (len buf)) with (i - off) by lia.
    destruct (Z.ltb_spec (i - off) (len src)), (Z.ltb_spec i (off + len src)); try lia.
    rewrite zat_zdrop by lia. f_equal. lia.
Qed.
Lemma zat_resize buf n i : 0 <= i < len buf -> i < n -> zat (resize buf n) i = zat buf i.
Proof.
  intros. unfold resize. rewrite zat_app by lia. autorewrite with zlist.
  destruct (Z.ltb_spec i (Z.min (Z.max 0 n) (len buf))); [|lia].
  apply zat_ztake; lia.
Qed.

(** Two lists of the same length with the same elements are equal. *)
Lemma zat_ext l k :
  len l = len k -> (forall i, 0 <= i < len l -> zat l i = zat k i) -> l = k.
Proof.
  intros Hl Hz. apply (nth_ext l k 0 0); [unfold len in Hl; lia|].
  intros n Hn. specialize (Hz (Z.of_nat n)). unfold zat, len in Hz.
  rewrite Nat2Z.id in Hz. apply Hz. lia.
Qed.

Lemma ztake_blit (buf : list Z) off src k :
  0 <= k <= off -> off + len src <= len buf -> ztake k (blit buf off src) = ztake k buf.
Proof.
  intros. pose proof (len_nonneg src). apply zat_ext; [rewrite !len_ztake, len_blit; lia|].
  intros i Hi. rewrite len_ztake, len_blit in Hi by lia. rewrite !zat_ztake, zat_blit by lia.
  destruct (Z.leb_spec off i); [lia|done].
Qed.

Lemma zdrop_blit (buf : list Z) off src k :
  0 <= off -> off + len src <= k -> k <= len buf -> zdrop k (blit buf off src) = zdrop k buf.
Proof.
  intros. pose proof (len_nonneg src). apply zat_ext; [rewrite !len_zdrop, len_blit; lia|].
  intros i Hi. rewrite len_zdrop, len_blit in Hi by lia. rewrite !zat_zdrop, zat_blit by lia.
  destruct (Z.ltb_spec (k + i) (off + len src)); [lia|]. by rewrite andb_false_r.
Qed.

Lemma zdrop_blit_exact (buf : list Z) off src :
  0 <= off -> off + len src = len buf -> zdrop off (blit buf off src) = src.
Proof.
  intros. pose proof (len_nonneg src). apply zat_ext; [rewrite len_zdrop, len_blit; lia|].
  intros i Hi. rewrite len_zdrop, len_blit in Hi by lia. rewrite zat_zdrop, zat_blit by lia.
  destruct (Z.leb_spec off (off + i)), (Z.ltb_spec (off + i) (off + len src)); try lia.
  simpl. f_equal. lia.
Qed.

(** *** Take and drop *)

Lemma ztake_all {A} n (l : list A) : len l <= n -> ztake n l = l.
Proof. intros. unfold ztake, len in *. apply take_ge. lia. Qed.
Lemma ztake_0 {A} n (l : list A) : n <= 0 -> ztake n l = [].
Proof. intros. unfold ztake. replace (Z.to_nat n) with 0%nat by lia. done. Qed.
Lemma zdrop_0 {A} n (l : list A) : n <= 0 -> zdrop n l = l.
Proof. intros. unfold zdrop. replace (Z.to_nat n) with 0%nat by lia. done. Qed.
Lemma zdrop_all {A} n (l : list A) : len l <= n -> zdrop n l = [].
Proof. intros. unfold zdrop, len in *. apply drop_ge. lia. Qed.
Lemma ztake_zdrop {A} n (l : list A) : ztake n l ++ zdrop n l = l.
Proof. apply take_drop. Qed.
Lemma ztake_app {A} n (l k : list A) : len l = n -> ztake n (l ++ k) = l.
Proof. intros. unfold ztake, len in *. rewrite take_app_length'; [done|lia]. Qed.
Lemma zdrop_app {A} n (l k : list A) : len l = n -> zdrop n (l ++ k) = k.
Proof. intros. unfold zdrop, len in *. rewrite drop_app_length'; [done|lia]. Qed.
Lemma ztake_ztake {A} n m (l : list A) : n <= m -> ztake n (ztake m l) = ztake n l.
Proof. intros. unfold ztake. rewrite take_take. f_equal. lia. Qed.
Lemma zdrop_ztake {A} k n (l : list A) :
  0 <= k <= n -> zdrop k (ztake n l) = ztake (n - k) (zdrop k l).
Proof. intros. unfold zdrop, ztake. rewrite skipn_firstn_comm. f_equal. lia. Qed.
Lemma zdrop_zdrop {A} n m (l : list A) :
  0 <= n -> 0 <= m -> zdrop n (zdrop m l) = zdrop (m + n) l.
Proof. intros. unfold zdrop. rewrite drop_drop. f_equal. lia. Qed.

(** *** Slices and copies that succeed *)

Lemma slice_Done {A} (l : list A) a b :
  0 <= a <= b -> b <= len l -> slice l a b = Done (ztake (b - a) (zdrop a l)).
Proof.
  intros. unfold slice.
  destruct (Z.leb_spec 0 a), (Z.leb_spec a b), (Z.leb_spec b (len l)); simpl; try lia. done.
Qed.
Lemma slice_inv {A} (l : list A) a b r :
  slice l a b = Done r -> (a <= b <= len l) /\ r = ztake (b - a) (zdrop a l).
Proof. unfold slice. destruct (_ && _) eqn:E; [|done]. intros [= <-]. split; [lia|done]. Qed.
Lemma copy_from_slice_Done {A} (buf : list A) a b src :
  0 <= a -> len src = b - a -> b <= len buf ->
  copy_from_slice buf a b src = Done (blit buf a src).
Proof.
  intros. unfold copy_from_slice. pose proof (len_nonneg src).
  destruct (Z.leb_spec 0 a), (Z.leb_spec a b), (Z.leb_spec b (len buf)),
    (Z.eqb_spec (len src) (b - a)); simpl; try lia. done.
Qed.
Lemma copy_within_Done {A} (buf : list A) a b dest :
  0 <= a <= b -> b <= len buf -> dest + (b - a) <= len buf ->
  copy_within buf a b dest = Done (blit buf dest (ztake (b - a) (zdrop a buf))).
Proof.
  intros. unfold copy_within.
  destruct (Z.leb_spec 0 a), (Z.leb_spec a b), (Z.leb_spec b (len buf)),
    (Z.leb_spec dest (len buf - (b - a))); simpl; try lia. done.
Qed.

(** ** Tactics *)

(** Case analysis on the Z comparisons of the goal. *)
Ltac zcase :=
  match goal with
  | |- context [?a <? ?b] => destruct (Z.ltb_spec a b)
  | |- context [?a <=? ?b] => destruct (Z.leb_spec a b)
  | |- context [?a =? ?b] => destruct (Z.eqb_spec a b)
  end.
Ltac zcases := repeat (zcase; simpl; try lia).

(** Case analysis on the Z comparisons of a hypothesis. *)
Ltac zcase_in H :=
  match type of H with
  | context [?a <? ?b] => destruct (Z.ltb_spec a b)
  | context [?a <=? ?b] => destruct (Z.leb_spec a b)
  | context [?a =? ?b] => destruct (Z.eqb_spec a b)
  end.

(** Linear arithmetic that knows the widths. *)
Ltac ilia :=
  unfold is_u8, is_u16, is_u32, is_u64, is_usize, usize_max,
    u8_max, u16_max, u32_max, u64_max in *; lia.

(** Arithmetic on lengths. *)
Ltac zl := repeat (rewrite len_blit by zl); autorewrite with zlist; lia.

(** Runs the first part of a bind, at the head of an equation, with a lemma
    that says it returns. *)
Ltac orun lem :=
  match goal with
  | |- mbind ?f ?m = _ =>
      let H := fresh in
      eassert (m = Done _) as H; [apply lem; try zl | rewrite H; clear H; rewrite outcome_bind_Done]
  end.

Lemma int_sub_Done a b : b <= a -> int_sub a b = Done (a - b).
Proof. intros. unfold int_sub. zcase; [done|lia]. Qed.
Lemma int_add_Done m a b : a + b <= m -> int_add m a b = Done (a + b).
Proof. intros. unfold int_add. zcase; [done|lia]. Qed.
Lemma int_mul_Done m a b : a * b <= m -> int_mul m a b = Done (a * b).
Proof. intros. unfold int_mul. zcase; [done|lia]. Qed.
Lemma int_rem_Done a b : b <> 0 -> int_rem a b = Done (a mod b).
Proof. intros. unfold int_rem. zcase; [lia|done]. Qed.

(** A cast is in range. *)
Lemma as_u8_range x : is_u8 (as_u8 x).
Proof. unfold as_u8. pose proof (Z.mod_pos_bound x 256). ilia. Qed.
Lemma as_u16_range x : is_u16 (as_u16 x).
Proof. unfold as_u16. pose proof (Z.mod_pos_bound x 65536). ilia. Qed.
Lemma as_u32_range x : is_u32 (as_u32 x).
Proof. unfold as_u32. pose proof (Z.mod_pos_bound x 4294967296). ilia. Qed.
Lemma as_u8_id x : is_u8 x -> as_u8 x = x.
Proof. intros. unfold as_u8. apply Z.mod_small. ilia. Qed.
Lemma as_u16_id x : is_u16 x -> as_u16 x = x.
Proof. intros. unfold as_u16. apply Z.mod_small. ilia. Qed.
Lemma as_u32_id x : is_u32 x -> as_u32 x = x.
Proof. intros. unfold as_u32. apply Z.mod_small. ilia. Qed.
#[export] Hint Resolve as_u8_range as_u16_range as_u32_range : ints.

(** Runs the head of the first bind of the goal, with a lemma that says it
    returns and a tactic for the lemma's conditions. *)
Tactic Notation "ostep" uconstr(lem) "by" tactic3(tac) :=
  match goal with
  | |- context [@mbind _ _ ?A ?B ?f ?m] =>
      let H := fresh in
      eassert (m = Done _) as H; [apply lem; tac | rewrite H; clear H; rewrite outcome_bind_Done]
  end.
