(* ===== verification/SeqArith.v ===== *)
(** * Sequence numbers and timers

    The [u32] sequence-number arithmetic that [cache/mod.rs] and [lib.rs] write
    out at every use (a checked operation with a fallback closure), and the
    [Timer] of [lib.rs].  The lemmas make the arithmetic usable by the caches;
    the theorems relate it to arithmetic modulo 2^32. *)

From S2P Require Import Prelude.

(** ** The two idioms *)

(** [a.checked_add(n).unwrap_or_else(|| n - (u32::MAX - a))]. *)
Definition seq_add (a n : Z) : Z :=
  match checked_add u32_max a n with
  | Some r => r
  | None => n - (u32_max - a)
  end.

(** [a.checked_sub(b).unwrap_or_else(|| a + (u32::MAX - b))]. *)
Definition seq_sub (a b : Z) : Z :=
  match checked_sub a b with
  | Some r => r
  | None => a + (u32_max - b)
  end.

(** [a.checked_add(1).unwrap_or(0)]. *)
Definition seq_succ (a : Z) : Z := unwrap_or (checked_add u32_max a 1) 0.

(** The largest distance at which a sequence number counts as ahead. *)
Definition MAX_U32_WINDOW_SIZE : Z := 16 * 1024 * 1024.

(** [distance as usize <= MAX_U32_WINDOW_SIZE], the test that orders two
    sequence numbers: [a] is at or after [b]. *)
Definition seq_ahead (a b : Z) : bool := seq_sub a b <=? MAX_U32_WINDOW_SIZE.

(** Unfolds the arithmetic down to linear integer arithmetic. *)
Ltac seq_lia :=
  unfold seq_ahead, seq_succ, unwrap_or, seq_add, seq_sub, checked_add, checked_sub,
    is_u32, u32_max, MAX_U32_WINDOW_SIZE in *;
  repeat match goal with
    | |- context [if ?a <=? ?b then _ else _] => destruct (Z.leb_spec a b)
    | H : context [if ?a <=? ?b then _ else _] |- _ => destruct (Z.leb_spec a b)
    end; try lia.

(** ** Lemmas *)

Section lemmas.
Implicit Types a b n m : Z.

Lemma seq_add_0 a : is_u32 a -> seq_add a 0 = a.
Proof. intros. seq_lia. Qed.

Lemma seq_add_u32 a n : is_u32 a -> is_u32 n -> is_u32 (seq_add a n).
Proof. intros. seq_lia. Qed.

Lemma seq_sub_u32 a b : is_u32 a -> is_u32 b -> is_u32 (seq_sub a b).
Proof. intros. seq_lia. Qed.

Lemma seq_succ_u32 a : is_u32 a -> is_u32 (seq_succ a).
Proof. intros. seq_lia. Qed.

Lemma seq_sub_diag a : is_u32 a -> seq_sub a a = 0.
Proof. intros. seq_lia. Qed.

(** The subtraction of the fallback closure does not underflow, and the
    addition of the other one does not overflow. *)
Lemma seq_add_fallback a n :
  is_u32 a -> is_u32 n -> checked_add u32_max a n = None -> u32_max - a <= n.
Proof. unfold checked_add. intros ??. zcase; [done|]. ilia. Qed.

Lemma seq_sub_fallback a b :
  is_u32 a -> is_u32 b -> checked_sub a b = None -> a + (u32_max - b) <= u32_max.
Proof. unfold checked_sub. intros ??. zcase; [done|]. ilia. Qed.

Lemma seq_add_assoc a n m :
  is_u32 a -> 0 <= n -> 0 <= m -> n + m <= u32_max ->
  seq_add (seq_add a n) m = seq_add a (n + m).
Proof. intros. seq_lia. Qed.

(** The distance from the number [d] past [s] to [x], where [x] is [k] past
    [s]: behind if [d <= k], otherwise the complement. *)
Lemma seq_sub_add_r x s d :
  is_u32 x -> is_u32 s -> 0 <= d <= u32_max ->
  seq_sub x (seq_add s d) =
  if d <=? seq_sub x s then seq_sub x s - d else u32_max - (d - seq_sub x s).
Proof. intros. seq_lia. Qed.

(** The number [d] past [s], counted from [x], [k] past [s]. *)
Lemma seq_add_rebase x s d :
  is_u32 x -> is_u32 s -> seq_sub x s < d <= u32_max ->
  seq_add s d = seq_add x (d - seq_sub x s).
Proof. intros. seq_lia. Qed.

Lemma seq_sub_add a n :
  is_u32 a -> 0 <= n < u32_max -> seq_sub (seq_add a n) a = n.
Proof. intros. seq_lia. Qed.

(** Distances between two numbers that are both counted from [s]. *)
Lemma seq_sub_add_add s n m :
  is_u32 s -> 0 <= n < u32_max -> 0 <= m < u32_max ->
  seq_sub (seq_add s n) (seq_add s m) = if m <=? n then n - m else u32_max - (m - n).
Proof. intros. seq_lia. Qed.

Lemma seq_add_as_u32 a n : 0 <= n <= u32_max -> seq_add a (as_u32 n) = seq_add a n.
Proof. intros. unfold as_u32. rewrite Z.mod_small; [done|ilia]. Qed.

Lemma seq_add_sub x s :
  is_u32 x -> is_u32 s -> x <> 0 \/ s = 0 -> seq_add s (seq_sub x s) = x.
Proof. intros. seq_lia. Qed.
End lemmas.

#[export] Hint Resolve seq_add_u32 seq_sub_u32 : ints.

(** ** Timers *)

(** An [Instant] and a [Duration] are counted in nanoseconds. *)
Abbreviation Instant := Z (only parsing).
Abbreviation Duration := Z (only parsing).
Definition from_millis (ms : Z) : Duration := ms * 1000000.
Definition as_millis (d : Duration) : Z := d / 1000000.

(** [instant.elapsed()] read when the clock shows [now]. *)
Definition elapsed (now instant : Instant) : Duration := Z.max 0 (now - instant).

Record Timer : Set := mkTimer { t_instant : Instant; t_timeout : Duration }.

#[export] Instance Timer_eq_dec : EqDecision Timer.
Proof. solve_decision. Defined.

Definition timer_new (now : Instant) (timeout : Z) : Timer :=
  {| t_instant := now; t_timeout := from_millis timeout |}.
Definition timer_elapsed (now : Instant) (t : Timer) : Duration := elapsed now (t_instant t).
Definition timer_is_timedout (now : Instant) (t : Timer) : bool :=
  t_timeout t <? timer_elapsed now t.

(** ** Theorems *)

(** A cursor that is moved forward by [n] with the code's addition is at
    distance [n] by the code's subtraction, for every start and every [n] below
    [u32::MAX]: the two idioms are inverse to each other across the wrap. *)
Theorem seq_sub_add_roundtrip (a n : Z) :
  is_u32 a -> 0 <= n < u32_max ->
  is_u32 (seq_add a n) /\ seq_sub (seq_add a n) a = n /\ seq_ahead (seq_add a n) a = (n <=? MAX_U32_WINDOW_SIZE).
Proof.
  intros Ha Hn. unfold seq_ahead. rewrite seq_sub_add by done.
  repeat split; try done; seq_lia.
Qed.

Lemma seq_sub_add_roundtrip_witness :
  is_u32 (seq_add 4294967290 10) /\ seq_sub (seq_add 4294967290 10) 4294967290 = 10
  /\ seq_ahead (seq_add 4294967290 10) 4294967290 = (10 <=? MAX_U32_WINDOW_SIZE).
Proof. apply (seq_sub_add_roundtrip 4294967290 10); ilia. Defined.

(** C36. When the addition wraps, the code's result is one more than the sum
    modulo 2^32 which TCP prescribes: the fallback subtracts [u32::MAX], not
    2^32.  Without a wrap the two agree. *)
Theorem seq_add_wrap_off_by_one (a n : Z) :
  is_u32 a -> is_u32 n ->
  seq_add a n = (a + n) mod 4294967296 + (if u32_max <? a + n then 1 else 0).
Proof.
  intros Ha Hn. unfold seq_add, checked_add, is_u32, u32_max in *.
  destruct (Z.leb_spec (a + n) 4294967295), (Z.ltb_spec 4294967295 (a + n)); try lia.
  - rewrite Z.mod_small; lia.
  - replace (a + n) with (a + n - 4294967296 + 1 * 4294967296) by lia.
    rewrite Z.mod_add, Z.mod_small; lia.
Qed.

Lemma seq_add_wrap_off_by_one_witness :
  seq_add 4294967295 1 = (4294967295 + 1) mod 4294967296 + (if u32_max <? 4294967295 + 1 then 1 else 0).
Proof. apply (seq_add_wrap_off_by_one 4294967295 1); ilia. Defined.
