(* ===== verification/Ring.v ===== *)
(** * Ring buffers

    The buffer manipulation that [Queue] and [Window] of [cache/mod.rs] share:
    growing a ring in place, writing a payload that may run over the end, and
    reading one back.  A ring is a list with a head; [ring_at] is the byte at
    an offset from the head. *)

From S2P Require Import Prelude.

(** [x.checked_sub(buffer.len()).unwrap_or(x)]. *)
Definition ring_index (n x : Z) : Z := unwrap_or (checked_sub x n) x.

(** [self.head.checked_add(n).unwrap_or_else(|| n - (usize::MAX - self.head))]
    followed by [checked_sub(self.buffer.len())]: the position [n] past the
    head. *)
Definition ring_tail (buffer : list byte) (head n : Z) : Z :=
  let tmp := match checked_add usize_max head n with
             | Some r => r
             | None => n - (usize_max - head)
             end in
  ring_index (len buffer) tmp.

(** Resizes the buffer to [new_len] and moves the wrapped part, the bytes from
    the begin of the buffer to the tail, behind the old end as far as it fits. *)
Definition ring_extend (buffer : list byte) (head prev_tail new_len : Z)
  : outcome (list byte) :=
  let prev_len := len buffer in
  let buffer := resize buffer new_len in
  if prev_tail <=? head then
    grown ← int_sub new_len prev_len;
    let len_a := Z.min prev_tail grown in
    buffer ← copy_within buffer 0 len_a prev_len;
    len_b ← int_sub prev_tail len_a;
    if 0 <? len_b then copy_within buffer len_a (len_a + len_b) 0 else mret buffer
  else mret buffer.

(** Writes the payload at [tail], and what does not fit before the end of the
    buffer at its begin. *)
Definition ring_write (buffer : list byte) (tail : Z) (payload : list byte)
  : outcome (list byte) :=
  room ← int_sub (len buffer) tail;
  let len_a := Z.min room (len payload) in
  payload_a ← slice payload 0 len_a;
  buffer ← copy_from_slice buffer tail (tail + len_a) payload_a;
  let len_b := len payload - len_a in
  if 0 <? len_b then
    payload_b ← slice payload len_a (len payload);
    copy_from_slice buffer 0 len_b payload_b
  else mret buffer.

(** Reads [size] bytes from [head] on, going on at the begin of the buffer. *)
Definition ring_read (buffer : list byte) (head size : Z) : outcome (list byte) :=
  room ← int_sub (len buffer) head;
  let len_a := Z.min size room in
  part_a ← slice buffer head (head + len_a);
  payload ← copy_from_slice (zeros size) 0 len_a part_a;
  let len_b := size - len_a in
  if 0 <? len_b then
    part_b ← slice buffer 0 len_b;
    copy_from_slice payload len_a size part_b
  else mret payload.

(** The byte at offset [i] from the head. *)
Definition ring_at (buffer : list byte) (head i : Z) : byte :=
  zat buffer (ring_index (len buffer) (head + i)).

(** The head of a ring is inside the buffer (an empty buffer has head 0). *)
Definition head_ok (buffer : list byte) (head : Z) : Prop :=
  0 <= head /\ (head < len buffer \/ head = 0).

Ltac ring_unfold :=
  unfold ring_at, ring_index, ring_tail, unwrap_or, checked_sub, checked_add, head_ok in *.

(** Splits on a [ring_index] in the goal. *)
Lemma ring_index_spec n x :
  0 <= x -> (x < n /\ ring_index n x = x) \/ (n <= x /\ ring_index n x = x - n).
Proof. intros. ring_unfold. zcase; lia. Qed.

Lemma ring_tail_index buffer head n :
  head + n <= usize_max -> ring_tail buffer head n = ring_index (len buffer) (head + n).
Proof. intros. unfold ring_tail, checked_add. zcase; [done|lia]. Qed.

(** Decides a ring goal: splits the index comparisons and compares indices. *)
Ltac ring_ext :=
  ring_unfold; zcases; rewrite ?zat_ztake by lia; rewrite ?zat_zdrop by lia; f_equal; lia.

Lemma ring_read_at buffer head size :
  0 <= head <= len buffer -> 0 <= size <= len buffer ->
  ring_read buffer head size = Done (tabulate size (ring_at buffer head)).
Proof.
  intros Hh Hs. unfold ring_read. orun int_sub_Done. orun @slice_Done.
  orun @copy_from_slice_Done. zcase.
  - orun @slice_Done.
    rewrite copy_from_slice_Done by zl. f_equal. apply zat_ext; [zl|].
    intros i Hi. rewrite !len_blit in Hi by zl. autorewrite with zlist in Hi.
    rewrite zat_tabulate by lia. rewrite !zat_blit by zl. autorewrite with zlist. ring_ext.
  - unfold mret, outcome_ret. f_equal. apply zat_ext; [zl|].
    intros i Hi. rewrite len_blit in Hi by zl. autorewrite with zlist in Hi.
    rewrite zat_tabulate by lia. rewrite zat_blit by zl. autorewrite with zlist. ring_ext.
Qed.

(** A payload written at offset [d] from the head changes exactly the offsets
    [d, d + payload.len()). *)
Lemma ring_write_at buffer head d payload :
  head_ok buffer head -> 0 <= d -> d + len payload <= len buffer ->
  exists buffer',
    ring_write buffer (ring_index (len buffer) (head + d)) payload = Done buffer'
    /\ len buffer' = len buffer
    /\ forall i, 0 <= i < len buffer ->
       ring_at buffer' head i =
       if (d <=? i) && (i <? d + len payload) then zat payload (i - d) else ring_at buffer head i.
Proof.
  intros Hh Hd Hl. pose proof (len_nonneg payload).
  set (t := ring_index (len buffer) (head + d)).
  assert (0 <= t <= len buffer) by (unfold t; unfold head_ok in Hh; destruct (ring_index_spec (len buffer) (head + d)); lia).
  assert (Ht : (t = head + d /\ head + d < len buffer) \/ (t = head + d - len buffer /\ len buffer <= head + d))
    by (unfold t; unfold head_ok in Hh; destruct (ring_index_spec (len buffer) (head + d)); lia).
  clearbody t. eexists. split; [|split].
  - unfold ring_write. orun int_sub_Done. orun @slice_Done. orun @copy_from_slice_Done.
    instantiate (1 := if 0 <? len payload - (len buffer - t) `min` len payload then _ else _).
    zcase; [|done]. orun @slice_Done. apply copy_from_slice_Done; zl.
  - zcase; zl.
  - intros i Hi. unfold ring_at at 1. unfold head_ok in *.
    destruct (ring_index_spec (len buffer) (head + i)) as [[? E]|[? E]]; [lia| |];
    zcase; rewrite !len_blit by zl; rewrite E; rewrite !zat_blit by zl;
    autorewrite with zlist; ring_ext.
Qed.

(** Growing the ring keeps the bytes at the offsets below [size]. *)
Lemma ring_extend_at buffer head size new_len :
  head_ok buffer head -> 0 <= size <= len buffer -> len buffer < new_len ->
  exists buffer',
    ring_extend buffer head (ring_index (len buffer) (head + size)) new_len = Done buffer'
    /\ len buffer' = new_len
    /\ forall i, 0 <= i < size -> ring_at buffer' head i = ring_at buffer head i.
Proof.
  intros Hh Hs Hn. pose proof (len_nonneg buffer).
  assert (Hr : forall i, 0 <= i < len buffer -> zat (resize buffer new_len) i = zat buffer i)
    by (intros; apply zat_resize; lia).
  assert (Hrl : len (resize buffer new_len) = new_len) by (apply len_resize; lia).
  unfold ring_extend. set (t := ring_index (len buffer) (head + size)).
  assert (Ht : (t = head + size /\ head + size < len buffer) \/ (t = head + size - len buffer /\ len buffer <= head + size))
    by (unfold t; unfold head_ok in Hh; destruct (ring_index_spec (len buffer) (head + size)); lia).
  clearbody t. generalize dependent (resize buffer new_len). intros buf Hr Hrl.
  unfold head_ok in Hh.
  destruct (Z.leb_spec t head) as [Hle|Hgt].
  2: { exists buf. split; [done|]. split; [done|]. intros i Hi. unfold ring_at. rewrite Hrl.
       destruct (ring_index_spec new_len (head + i)) as [[? ->]|[? ->]]; [lia| |lia].
       destruct (ring_index_spec (len buffer) (head + i)) as [[? ->]|[? ->]]; [lia| |lia].
       apply Hr. lia. }
  eexists. split; [|split].
  - orun int_sub_Done. orun @copy_within_Done. orun int_sub_Done.
    instantiate (1 := if 0 <? t - t `min` (new_len - len buffer) then _ else _).
    zcase; [|done]. apply copy_within_Done; zl.
  - zcase; zl.
  - intros i Hi. unfold ring_at.
    assert (Hc : head + i < len buffer \/ len buffer <= head + i) by lia.
    zcase; rewrite !len_blit by zl; rewrite Hrl;
      destruct (ring_index_spec new_len (head + i)) as [[? ->]|[? ->]]; try lia;
      destruct (ring_index_spec (len buffer) (head + i)) as [[? ->]|[? ->]]; try lia;
      repeat (rewrite zat_blit by zl); autorewrite with zlist; rewrite ?len_blit by zl;
      autorewrite with zlist; zcases;
      rewrite ?zat_ztake by lia; rewrite ?zat_zdrop by lia;
      repeat (rewrite zat_blit by zl); autorewrite with zlist; zcases;
      rewrite ?zat_ztake by lia; rewrite ?zat_zdrop by lia; rewrite Hr by lia; f_equal; lia.
Qed.

(** Moving the head by [d] shifts the offsets by [d]. *)
Lemma ring_at_shift buffer head d i :
  head_ok buffer head -> 0 <= d -> 0 <= i -> d + i < len buffer ->
  ring_at buffer (ring_index (len buffer) (head + d)) i = ring_at buffer head (d + i).
Proof. intros. ring_ext. Qed.

Lemma ring_index_head_ok buffer head d :
  head_ok buffer head -> 0 <= d <= len buffer -> head_ok buffer (ring_index (len buffer) (head + d)).
Proof. intros. ring_unfold. zcase; lia. Qed.

(** [(head + (d % len)) % len]. *)
Lemma ring_advance buffer head d :
  head_ok buffer head -> 0 < d <= len buffer -> head + len buffer <= usize_max ->
  (r ← int_rem d (len buffer); sum ← int_add usize_max head r; int_rem sum (len buffer))
  = Done (ring_index (len buffer) (head + d)).
Proof.
  intros Hh Hd Hm. unfold head_ok in Hh. rewrite int_rem_Done by lia. simpl.
  destruct (Z.eq_dec d (len buffer)) as [->|Hne].
  - rewrite Z.mod_same by lia. rewrite int_add_Done by lia. simpl. rewrite int_rem_Done by lia.
    f_equal. rewrite Z.add_0_r, Z.mod_small by lia.
    destruct (ring_index_spec (len buffer) (head + len buffer)) as [[? ->]|[? ->]]; lia.
  - rewrite (Z.mod_small d) by lia. rewrite int_add_Done by lia. simpl. rewrite int_rem_Done by lia.
    f_equal. destruct (ring_index_spec (len buffer) (head + d)) as [[? ->]|[? ->]]; [lia| |].
    + apply Z.mod_small. lia.
    + replace (head + d) with (head + d - len buffer + 1 * len buffer) at 1 by lia.
      rewrite Z.mod_add, Z.mod_small; lia.
Qed.
