(* ===== verification/Queue.v ===== *)
(** * The send cache: [cache::Queue]

    A growing ring buffer with the sequence number of its first byte and a
    clock for each appended segment.  [Forwarder] keeps the bytes that are sent
    and not yet acknowledged in it.  The abstract value of a queue is its
    sequence number and the list [queue_content] of the bytes it holds; the
    theorems state every operation on that value. *)

From S2P Require Import Prelude SeqArith Ring.

(** ** State *)

Record Queue : Set := mkQueue {
  q_buffer : list byte;
  q_capacity : Z;
  q_sequence : Z;
  q_head : Z;
  q_size : Z;
  q_clocks : list (Z * Timer);
  q_retrans : option Z
}.

#[export] Instance Queue_eq_dec : EqDecision Queue.
Proof. solve_decision. Defined.

Definition q_with_buffer (q : Queue) (b : list byte) : Queue :=
  mkQueue b (q_capacity q) (q_sequence q) (q_head q) (q_size q) (q_clocks q) (q_retrans q).
Definition q_with_size (q : Queue) (n : Z) : Queue :=
  mkQueue (q_buffer q) (q_capacity q) (q_sequence q) (q_head q) n (q_clocks q) (q_retrans q).
Definition q_with_clocks (q : Queue) (c : list (Z * Timer)) : Queue :=
  mkQueue (q_buffer q) (q_capacity q) (q_sequence q) (q_head q) (q_size q) c (q_retrans q).
Definition q_with_retrans (q : Queue) (r : option Z) : Queue :=
  mkQueue (q_buffer q) (q_capacity q) (q_sequence q) (q_head q) (q_size q) (q_clocks q) r.

(** ** Operations *)

(** The bytes a [(u32, Timer)] takes in the [VecDeque] of clocks, and the
    largest allocation, [isize::MAX] bytes. *)
Definition clock_entry_size : Z := 40.
Definition isize_max : Z := 9223372036854775807.

(** [VecDeque::with_capacity] panics on a capacity of more than [isize::MAX]
    bytes. *)
Definition queue_with_capacity (capacity sequence : Z) : outcome Queue :=
  if capacity * clock_entry_size <=? isize_max then
    Done (mkQueue [] capacity sequence 0 0 [] None)
  else Panic.

Definition queue_new (sequence : Z) : outcome Queue :=
  queue_with_capacity usize_max sequence.

Definition queue_len (q : Queue) : Z := q_size q.
Definition queue_is_empty (q : Queue) : bool := q_size q =? 0.
Definition queue_remaining (q : Queue) : outcome Z := int_sub (q_capacity q) (q_size q).
Definition queue_tail (q : Queue) : Z := ring_tail (q_buffer q) (q_head q) (q_size q).
Definition queue_recv_next (q : Queue) : Z := seq_add (q_sequence q) (as_u32 (q_size q)).

(** The part of [append] that makes room for [n] more bytes. *)
Definition queue_reserve (q : Queue) (n : Z) : outcome (list byte) :=
  free ← int_sub (len (q_buffer q)) (q_size q);
  if free <? n then
    let prev_tail := queue_tail q in
    tripled ← usize_mul (len (q_buffer q)) 3;
    wanted ← usize_add (q_size q) n;
    let new_len := Z.min (q_capacity q) (Z.max (tripled / 2) wanted) in
    ring_extend (q_buffer q) (q_head q) prev_tail new_len
  else mret (q_buffer q).

Definition queue_append (now : Instant) (q : Queue) (payload : list byte) (rto : Z)
  : outcome (Queue * io_result unit) :=
  remaining ← queue_remaining q;
  if remaining <? len payload then
    mret (q, Err (mkIoError EOther "queue is full"))
  else
    buffer ← queue_reserve q (len payload);
    let q := q_with_buffer q buffer in
    let sequence := seq_add (q_sequence q) (as_u32 (q_size q)) in
    let q := q_with_clocks q (q_clocks q ++ [(sequence, timer_new now rto)]) in
    buffer ← ring_write (q_buffer q) (queue_tail q) payload;
    let q := q_with_buffer q buffer in
    size ← usize_add (q_size q) (len payload);
    mret (q_with_size q size, Ok tt).

(** The loop of [invalidate_to] that pops the clocks of acknowledged segments.
    [recv_next] is the receive next of the queue, [retrans] the end of the last
    retransmission. *)
Fixpoint queue_pop_clocks (now : Instant) (sequence recv_next : Z) (retrans : option Z)
    (clocks : list (Z * Timer)) (rtt : option Duration)
  : list (Z * Timer) * option Duration :=
  match clocks with
  | [] => ([], rtt)
  | (begin, timer) :: rest =>
      let next := match rest with [] => recv_next | (s, _) :: _ => s end in
      if seq_ahead sequence begin && seq_ahead sequence next then
        let rtt :=
          if negb (timer_is_timedout now timer) then
            match rtt with
            | Some _ => rtt
            | None =>
                match retrans with
                | Some r => if seq_ahead r sequence then None
                            else Some (timer_elapsed now timer)
                | None => Some (timer_elapsed now timer)
                end
            end
          else rtt in
        queue_pop_clocks now sequence recv_next retrans rest rtt
      else if seq_ahead sequence begin then ((sequence, timer) :: rest, rtt)
      else (clocks, rtt)
  end.

Definition queue_invalidate_to (now : Instant) (q : Queue) (sequence : Z)
  : outcome (Queue * option Duration) :=
  let size := seq_sub sequence (q_sequence q) in
  if size <=? MAX_U32_WINDOW_SIZE then
    let new_size := unwrap_or (checked_sub (q_size q) size) 0 in
    head ← (if new_size =? 0 then mret 0
            else
              r ← int_rem size (len (q_buffer q));
              sum ← usize_add (q_head q) r;
              int_rem sum (len (q_buffer q)));
    let q := mkQueue (q_buffer q) (q_capacity q) sequence head new_size
               (q_clocks q) (q_retrans q) in
    let '(clocks, rtt) :=
      queue_pop_clocks now sequence (queue_recv_next q) (q_retrans q) (q_clocks q) None in
    let q := q_with_clocks q clocks in
    let retrans :=
      match q_retrans q with
      | Some r => if seq_ahead (q_sequence q) r then None else Some r
      | None => None
      end in
    mret (q_with_retrans q retrans, rtt)
  else mret (q, None).

Definition queue_get (q : Queue) (sequence size : Z) : outcome (io_result (list byte)) :=
  if size =? 0 then mret (Ok [])
  else
    let distance := seq_sub sequence (q_sequence q) in
    if q_size q <? distance then
      mret (Err (mkIoError EInvalidInput "queue at the certain sequence does not exist"))
    else if q_size q - distance <? size then
      mret (Err (mkIoError EInvalidInput "request size too big"))
    else
      head ← usize_add (q_head q) distance;
      let head := ring_index (len (q_buffer q)) head in
      payload ← ring_read (q_buffer q) head size;
      mret (Ok payload).

Definition queue_get_all (q : Queue) : outcome (list byte) :=
  r ← queue_get q (q_sequence q) (q_size q);
  unwrap_io r.

(** The sequence number of the first clock that is not timed out. *)
Fixpoint queue_first_fresh (now : Instant) (clocks : list (Z * Timer)) : option Z :=
  match clocks with
  | [] => None
  | (s, timer) :: rest =>
      if negb (timer_is_timedout now timer) then Some s else queue_first_fresh now rest
  end.

Definition queue_get_timed_out (now : Instant) (q : Queue) : outcome (list byte) :=
  match queue_first_fresh now (q_clocks q) with
  | Some recv_next =>
      let size := seq_sub recv_next (q_sequence q) in
      r ← queue_get q (q_sequence q) size;
      unwrap_io r
  | None => queue_get_all q
  end.

(** The loop of [get_timed_out_and_update] over the clocks. *)
Fixpoint queue_update_clocks (recv_next sequence : Z) (timer : Timer)
    (clocks : list (Z * Timer)) : list (Z * Timer) :=
  match clocks with
  | [] => []
  | (next_sequence, _) :: rest =>
      if seq_ahead recv_next next_sequence then queue_update_clocks recv_next sequence timer rest
      else (sequence, timer) :: clocks
  end.

Definition queue_get_timed_out_and_update (now : Instant) (q : Queue) (rto : Z)
  : outcome (Queue * list byte) :=
  match queue_first_fresh now (q_clocks q) with
  | Some recv_next =>
      let size := seq_sub recv_next (q_sequence q) in
      let q := q_with_clocks q
        (queue_update_clocks recv_next (q_sequence q) (timer_new now rto) (q_clocks q)) in
      let q := q_with_retrans q (Some recv_next) in
      r ← queue_get q (q_sequence q) size;
      payload ← unwrap_io r;
      mret (q, payload)
  | None =>
      let q := q_with_clocks q [(q_sequence q, timer_new now rto)] in
      let q := q_with_retrans q (Some (queue_recv_next q)) in
      payload ← queue_get_all q;
      mret (q, payload)
  end.

(** ** Abstraction and invariant *)

(** The bytes the queue holds, first byte first. *)
Definition queue_content (q : Queue) : list byte :=
  tabulate (q_size q) (ring_at (q_buffer q) (q_head q)).

(** The clocks stand, in order, at offsets of the held bytes: the sequence
    number of each is that of an offset in [[lo, hi]], where the offsets do not
    decrease along the list. *)
Fixpoint clocks_ok (s lo hi : Z) (clocks : list (Z * Timer)) : Prop :=
  match clocks with
  | [] => True
  | (c, _) :: rest => exists d, lo <= d <= hi /\ c = seq_add s d /\ clocks_ok s d hi rest
  end.

(** The largest capacity for which two distances of the window, one ahead and
    one behind, cannot be confused. *)
Definition max_cache_capacity : Z := u32_max - MAX_U32_WINDOW_SIZE - 1.

Record queue_wf (q : Queue) : Prop := {
  qwf_sequence : is_u32 (q_sequence q);
  qwf_capacity : q_capacity q <= max_cache_capacity;
  qwf_buffer : len (q_buffer q) <= q_capacity q;
  qwf_size : 0 <= q_size q <= len (q_buffer q);
  qwf_head : head_ok (q_buffer q) (q_head q);
  qwf_clocks : clocks_ok (q_sequence q) 0 (q_size q) (q_clocks q)
}.

Ltac cap_lia :=
  unfold max_cache_capacity, MAX_U32_WINDOW_SIZE, is_u32, is_usize, usize_max, u64_max, u32_max in *;
  lia.

(** ** Lemmas *)

Lemma clocks_ok_weaken s lo hi lo' hi' clocks :
  lo' <= lo -> hi <= hi' -> clocks_ok s lo hi clocks -> clocks_ok s lo' hi' clocks.
Proof.
  revert lo lo'. induction clocks as [|[c t] rest IH]; intros lo lo' Hlo Hhi; [done|].
  intros (d & Hd & -> & Hr). exists d. repeat split; try lia. by apply (IH d).
Qed.

Lemma clocks_ok_app s lo hi clocks c t d :
  lo <= d -> hi <= d -> c = seq_add s d -> clocks_ok s lo hi clocks ->
  clocks_ok s lo d (clocks ++ [(c, t)]).
Proof.
  revert lo. induction clocks as [|[c0 t0] rest IH]; intros lo Hlo Hhi Hc; simpl.
  - intros _. exists d. repeat split; [lia|lia|done].
  - intros (e & He & -> & Hr). exists e. repeat split; try lia. apply IH; auto; lia.
Qed.

Lemma len_queue_content q : 0 <= q_size q -> len (queue_content q) = q_size q.
Proof. intros. unfold queue_content. autorewrite with zlist. lia. Qed.

Lemma queue_remaining_Done q : queue_wf q -> queue_remaining q = Done (q_capacity q - q_size q).
Proof. intros []. apply int_sub_Done. lia. Qed.

(** Making room keeps the content, and makes room. *)
Lemma queue_reserve_spec q n :
  queue_wf q -> 0 <= n -> q_size q + n <= q_capacity q ->
  exists buffer,
    queue_reserve q n = Done buffer
    /\ len (q_buffer q) <= len buffer <= q_capacity q
    /\ q_size q + n <= len buffer
    /\ head_ok buffer (q_head q)
    /\ forall i, 0 <= i < q_size q -> ring_at buffer (q_head q) i = ring_at (q_buffer q) (q_head q) i.
Proof.
  intros [Hs Hc Hb Hz Hh _] Hn Hfit. unfold queue_reserve, usize_mul, usize_add.
  rewrite int_sub_Done by lia. simpl. zcase.
  - rewrite int_mul_Done by cap_lia. simpl. rewrite int_add_Done by cap_lia. simpl.
    unfold queue_tail. rewrite ring_tail_index by (unfold head_ok in Hh; cap_lia).
    set (new_len := Z.min _ _).
    assert (len (q_buffer q) < new_len <= q_capacity q /\ q_size q + n <= new_len)
      by (unfold new_len; lia).
    destruct (ring_extend_at (q_buffer q) (q_head q) (q_size q) new_len) as (b & -> & Hl & Hat);
      [done|lia|lia|].
    exists b. split; [done|]. split; [lia|]. split; [lia|]. split; [unfold head_ok in *; lia|done].
  - exists (q_buffer q). split; [done|]. split; [lia|]. split; [lia|]. done.
Qed.

(** Appending what fits appends it to the content. *)
Lemma queue_append_ok now q payload rto :
  queue_wf q -> q_size q + len payload <= q_capacity q ->
  exists q',
    queue_append now q payload rto = Done (q', Ok tt)
    /\ queue_wf q'
    /\ queue_content q' = queue_content q ++ payload
    /\ q_sequence q' = q_sequence q
    /\ q_capacity q' = q_capacity q
    /\ q_size q' = q_size q + len payload
    /\ q_clocks q' = q_clocks q ++ [(queue_recv_next q, timer_new now rto)]
    /\ q_retrans q' = q_retrans q.
Proof.
  intros Hwf Hfit. pose proof (len_nonneg payload). unfold queue_append.
  rewrite queue_remaining_Done by done. simpl. zcase; [lia|].
  destruct (queue_reserve_spec q (len payload)) as (b & -> & Hb1 & Hb2 & Hhb & Hat); [done..|].
  simpl. destruct Hwf as [Hs Hc Hb Hz Hh Hk].
  unfold queue_tail. simpl. rewrite ring_tail_index by (unfold head_ok in Hh; cap_lia).
  destruct (ring_write_at b (q_head q) (q_size q) payload) as (b' & -> & Hb' & Hw); [done|lia|lia|].
  simpl. unfold usize_add. rewrite int_add_Done by cap_lia. simpl.
  eexists. split; [done|]. split; [|split; [|done]].
  - constructor; simpl; try lia; [done| |].
    + unfold head_ok in *. lia.
    + rewrite seq_add_as_u32 by cap_lia.
      apply (clocks_ok_weaken _ 0 (q_size q)); [lia|lia|].
      by apply (clocks_ok_app _ _ (q_size q)); [lia|lia| |].
  - unfold queue_content. simpl. apply zat_ext; [zl|]. intros i Hi.
    autorewrite with zlist in Hi. rewrite zat_tabulate by lia.
    rewrite zat_app by lia. autorewrite with zlist. rewrite Hw by lia.
    zcases; [rewrite zat_tabulate by lia; apply Hat; lia|f_equal; lia].
Qed.

Lemma queue_append_full now q payload rto :
  queue_wf q -> q_capacity q < q_size q + len payload ->
  queue_append now q payload rto = Done (q, Err (mkIoError EOther "queue is full")).
Proof.
  intros Hwf Hfit. unfold queue_append. rewrite queue_remaining_Done by done. simpl.
  zcase; [done|lia].
Qed.

(** [get] answers from the content, and never panics. *)
Lemma queue_get_spec q x n :
  queue_wf q -> is_u32 x -> 0 <= n ->
  let distance := seq_sub x (q_sequence q) in
  queue_get q x n = Done (
    if n =? 0 then Ok []
    else if q_size q <? distance then
      Err (mkIoError EInvalidInput "queue at the certain sequence does not exist")
    else if q_size q - distance <? n then
      Err (mkIoError EInvalidInput "request size too big")
    else Ok (ztake n (zdrop distance (queue_content q)))).
Proof.
  intros [Hs Hc Hb Hz Hh Hk] Hx Hn distance. unfold queue_get. fold distance.
  assert (0 <= distance) by (pose proof (seq_sub_u32 x (q_sequence q) Hx Hs); cap_lia).
  destruct (Z.eqb_spec n 0); [done|]. destruct (Z.ltb_spec (q_size q) distance); [done|].
  destruct (Z.ltb_spec (q_size q - distance) n); [done|].
  unfold usize_add. rewrite int_add_Done by (unfold head_ok in Hh; cap_lia). simpl.
  pose proof (ring_index_head_ok (q_buffer q) (q_head q) distance Hh ltac:(lia)).
  rewrite ring_read_at by (unfold head_ok in *; lia). simpl.
  unfold mret, outcome_ret. do 2 f_equal. apply zat_ext.
  { unfold queue_content. zl. }
  intros i Hi. autorewrite with zlist in Hi. rewrite zat_tabulate by lia.
  rewrite ring_at_shift by (done || lia).
  rewrite zat_ztake, zat_zdrop by lia. unfold queue_content. by rewrite zat_tabulate by lia.
Qed.

Lemma queue_get_ok q d n :
  queue_wf q -> 0 <= d -> 0 <= n -> d + n <= q_size q ->
  queue_get q (seq_add (q_sequence q) d) n = Done (Ok (ztake n (zdrop d (queue_content q)))).
Proof.
  intros Hwf Hd Hn Hfit. pose proof Hwf as [].
  rewrite queue_get_spec; [|done| apply seq_add_u32; [done|cap_lia] |done].
  cbv zeta. rewrite seq_sub_add by (done || cap_lia).
  zcases; [|done]. by rewrite ztake_0 by lia.
Qed.

Lemma queue_get_all_ok q : queue_wf q -> queue_get_all q = Done (queue_content q).
Proof.
  intros Hwf. pose proof Hwf as []. unfold queue_get_all.
  rewrite <- (seq_add_0 (q_sequence q)) by done.
  rewrite queue_get_ok by (done || lia). simpl.
  rewrite zdrop_0, ztake_all by (rewrite ?len_queue_content; lia). done.
Qed.

(** *** Clocks under an acknowledgement *)

Section clocks.
Context (s x : Z) (Hs : is_u32 s) (Hx : is_u32 x).
Let k := seq_sub x s.

Lemma clocks_ok_rebase lo hi clocks :
  k < lo -> hi <= u32_max -> clocks_ok s lo hi clocks -> clocks_ok x (lo - k) (hi - k) clocks.
Proof.
  revert lo. induction clocks as [|[c t] rest IH]; intros lo Hlo Hhi; [done|].
  intros (d & Hd & -> & Hr). exists (d - k). repeat split; [lia|lia| |].
  - apply seq_add_rebase; [done..|]. fold k. lia.
  - apply IH; [lia|lia|done].
Qed.

Lemma seq_ahead_clock d :
  k <= MAX_U32_WINDOW_SIZE -> 0 <= d <= max_cache_capacity ->
  seq_ahead x (seq_add s d) = (d <=? k).
Proof.
  intros Hk Hd. unfold seq_ahead. rewrite seq_sub_add_r by (done || cap_lia).
  assert (0 <= k) by (pose proof (seq_sub_u32 x s Hx Hs); fold k in H; cap_lia).
  fold k. unfold max_cache_capacity, u32_max in *. zcases.
Qed.

Lemma queue_pop_clocks_ok now retrans lo hi clocks rtt :
  k <= MAX_U32_WINDOW_SIZE -> 0 <= lo -> hi <= max_cache_capacity ->
  clocks_ok s lo hi clocks ->
  clocks_ok x 0 (Z.max 0 (hi - k))
    (queue_pop_clocks now x (seq_add x (Z.max 0 (hi - k))) retrans clocks rtt).1.
Proof.
  intros Hk Hlo Hhi. assert (Hk0 : 0 <= k) by (pose proof (seq_sub_u32 x s Hx Hs); fold k in H; cap_lia).
  revert lo Hlo rtt. induction clocks as [|[c t] rest IH]; intros lo Hlo rtt; [done|].
  intros (d & Hd & -> & Hr). cbn [queue_pop_clocks].
  rewrite seq_ahead_clock by lia.
  destruct (Z.leb_spec d k); cbn [andb].
  2: { apply (clocks_ok_weaken _ (d - k) (hi - k)); [lia|lia|].
       exists (d - k). repeat split; [lia|lia| |].
       - apply seq_add_rebase; [done..|]. fold k. cap_lia.
       - apply clocks_ok_rebase; [lia|cap_lia|done]. }
  destruct (seq_ahead x _) eqn:E.
  { apply (IH d); [lia|done]. }
  exists 0. repeat split; [lia|lia|by rewrite seq_add_0|].
  destruct rest as [|[c' t'] rest]; [done|]. destruct Hr as (d' & Hd' & -> & Hr).
  rewrite seq_ahead_clock in E by lia. apply Z.leb_gt in E.
  exists (d' - k). repeat split; [lia|lia| |].
  - apply seq_add_rebase; [done..|]. fold k. cap_lia.
  - apply (clocks_ok_weaken _ (d' - k) (hi - k)); [lia|lia|].
    apply clocks_ok_rebase; [lia|cap_lia|done].
Qed.
End clocks.

(** An acknowledgement within the window drops the acknowledged bytes. *)
Lemma queue_invalidate_to_ok now q x :
  queue_wf q -> is_u32 x -> seq_sub x (q_sequence q) <= MAX_U32_WINDOW_SIZE ->
  exists q' rtt,
    queue_invalidate_to now q x = Done (q', rtt)
    /\ queue_wf q'
    /\ q_sequence q' = x
    /\ q_capacity q' = q_capacity q
    /\ q_size q' = Z.max 0 (q_size q - seq_sub x (q_sequence q))
    /\ queue_content q' = zdrop (seq_sub x (q_sequence q)) (queue_content q).
Proof.
  intros Hwf Hx Hk. pose proof Hwf as [Hs Hc Hb Hz Hh Hcl]. unfold queue_invalidate_to.
  pose proof (seq_sub_u32 x (q_sequence q) Hx Hs) as Hk0.
  set (k := seq_sub x (q_sequence q)) in *. assert (0 <= k) by ilia. zcase; [|lia].
  assert (Hn : unwrap_or (checked_sub (q_size q) k) 0 = Z.max 0 (q_size q - k))
    by (unfold unwrap_or, checked_sub; zcase; lia).
  rewrite Hn. clear Hn. set (n := Z.max 0 (q_size q - k)).
  set (h := if n =? 0 then 0 else ring_index (len (q_buffer q)) (q_head q + k)).
  match goal with |- context [mbind _ ?m] => assert (m = Done h) as -> end.
  { unfold h. destruct (Z.eqb_spec n 0); [done|]. unfold usize_add.
    destruct (Z.eq_dec k 0) as [->|]; [|apply ring_advance; [done|lia|unfold head_ok in Hh; cap_lia]].
    rewrite int_rem_Done by lia. simpl. rewrite Z.mod_0_l by lia.
    unfold head_ok in Hh. rewrite int_add_Done by cap_lia. simpl. rewrite int_rem_Done by lia.
    rewrite Z.mod_small by lia. f_equal. destruct (ring_index_spec (len (q_buffer q)) (q_head q + 0)); lia. }
  simpl. unfold queue_recv_next. simpl. rewrite seq_add_as_u32 by cap_lia.
  pose proof (queue_pop_clocks_ok (q_sequence q) x Hs Hx now (q_retrans q) 0 (q_size q) (q_clocks q) None
    ltac:(fold k; lia) ltac:(lia) ltac:(lia) Hcl) as Hpop. fold k n in Hpop.
  destruct (queue_pop_clocks _ _ _ _ _ _) as [clocks rtt]. simpl in Hpop.
  eexists _, _. split; [done|]. simpl. split; [|split; [done|split; [done|split; [done|]]]].
  - constructor; simpl; try done; [ilia|]. unfold h. zcase; [unfold head_ok; lia|].
    apply ring_index_head_ok; [done|ilia].
  - unfold queue_content. simpl. apply zat_ext; [zl|].
    intros i Hi. autorewrite with zlist in Hi. rewrite zat_tabulate by lia.
    rewrite zat_zdrop by ilia. rewrite zat_tabulate by ilia.
    unfold h. zcase; [lia|]. apply ring_at_shift; [done|ilia|ilia|ilia].
Qed.

Lemma queue_invalidate_to_stale now q x :
  MAX_U32_WINDOW_SIZE < seq_sub x (q_sequence q) ->
  queue_invalidate_to now q x = Done (q, None).
Proof. intros. unfold queue_invalidate_to. zcase; [lia|done]. Qed.

(** *** Timed out bytes *)

(** How many bytes precede the first segment whose clock has not timed out. *)
Definition queue_timed_out_size (now : Instant) (q : Queue) : Z :=
  match queue_first_fresh now (q_clocks q) with
  | Some c => seq_sub c (q_sequence q)
  | None => q_size q
  end.

Lemma queue_first_fresh_ok now s lo hi clocks c :
  0 <= lo -> clocks_ok s lo hi clocks -> queue_first_fresh now clocks = Some c ->
  exists d, lo <= d <= hi /\ c = seq_add s d.
Proof.
  revert lo. induction clocks as [|[c0 t] rest IH]; intros lo Hlo; simpl; [done|].
  intros (d & Hd & -> & Hr). destruct (negb _).
  - intros [= <-]. eauto.
  - intros Hf. destruct (IH d) as (e & He & ->); [lia|done|done|]. exists e. split; [lia|done].
Qed.

Lemma queue_update_clocks_ok recv_next s timer lo hi clocks :
  is_u32 s -> 0 <= lo -> 0 <= hi -> clocks_ok s lo hi clocks ->
  clocks_ok s 0 hi (queue_update_clocks recv_next s timer clocks).
Proof.
  intros Hs. revert lo. induction clocks as [|[c t] rest IH]; intros lo Hlo Hhi; [done|].
  intros (d & Hd & -> & Hr). cbn [queue_update_clocks]. destruct (seq_ahead _ _).
  - apply (IH d); [lia|lia|done].
  - exists 0. repeat split; [lia|lia|by rewrite seq_add_0|].
    exists d. repeat split; [lia|lia|done].
Qed.

Lemma queue_timed_out_ok now q rto :
  queue_wf q ->
  exists q',
    queue_get_timed_out_and_update now q rto
      = Done (q', ztake (queue_timed_out_size now q) (queue_content q))
    /\ queue_wf q'
    /\ q_sequence q' = q_sequence q /\ q_capacity q' = q_capacity q /\ q_size q' = q_size q
    /\ queue_content q' = queue_content q.
Proof.
  intros Hwf. pose proof Hwf as [Hs Hc Hb Hz Hh Hk].
  unfold queue_get_timed_out_and_update, queue_timed_out_size.
  destruct (queue_first_fresh now (q_clocks q)) as [c|] eqn:Ef.
  - destruct (queue_first_fresh_ok now (q_sequence q) 0 (q_size q) (q_clocks q) c) as (d & Hd & ->);
      [lia|done|done|]. rewrite seq_sub_add by (done || cap_lia).
    set (q1 := q_with_retrans _ _).
    assert (Hwf1 : queue_wf q1).
    { constructor; try done. simpl. apply (queue_update_clocks_ok _ _ _ 0); [done|lia|lia|done]. }
    pose proof (queue_get_ok q1 0 d Hwf1 ltac:(lia) ltac:(lia) ltac:(simpl; lia)) as Hg.
    simpl in Hg. rewrite seq_add_0 in Hg by done. simpl. rewrite Hg. simpl.
    exists q1. split; [|done]. by rewrite zdrop_0 by lia.
  - set (q1 := q_with_retrans _ _).
    assert (Hwf1 : queue_wf q1).
    { constructor; try done. simpl. exists 0. repeat split; [lia|lia|by rewrite seq_add_0]. }
    rewrite queue_get_all_ok by done. simpl. exists q1. split; [|done].
    rewrite ztake_all; [done|]. rewrite len_queue_content; lia.
Qed.

Lemma queue_get_timed_out_ok now q :
  queue_wf q ->
  queue_get_timed_out now q = Done (ztake (queue_timed_out_size now q) (queue_content q)).
Proof.
  intros Hwf. pose proof Hwf as [Hs Hc Hb Hz Hh Hk].
  unfold queue_get_timed_out, queue_timed_out_size.
  destruct (queue_first_fresh now (q_clocks q)) as [c|] eqn:Ef.
  - destruct (queue_first_fresh_ok now (q_sequence q) 0 (q_size q) (q_clocks q) c) as (d & Hd & ->);
      [lia|done|done|]. rewrite seq_sub_add by (done || cap_lia).
    pose proof (queue_get_ok q 0 d Hwf ltac:(lia) ltac:(lia) ltac:(lia)) as Hg.
    rewrite seq_add_0 in Hg by done. rewrite Hg. simpl. by rewrite zdrop_0 by lia.
  - rewrite queue_get_all_ok by done. rewrite ztake_all; [done|]. rewrite len_queue_content; lia.
Qed.

Lemma queue_with_capacity_ok capacity sequence :
  is_u32 sequence -> 0 <= capacity <= max_cache_capacity ->
  exists q, queue_with_capacity capacity sequence = Done q
    /\ queue_wf q /\ queue_content q = [] /\ q_sequence q = sequence /\ q_size q = 0
    /\ q_capacity q = capacity.
Proof.
  intros Hs Hc. unfold queue_with_capacity, clock_entry_size, isize_max.
  zcase; [|cap_lia]. eexists. split; [done|]. split; [|done].
  constructor; simpl; rewrite ?len_nil; try done; try lia. unfold head_ok. lia.
Qed.

(** ** Runs of operations *)

(** The operations of a queue with their arguments; the clock reading is an
    argument of those that read it. *)
Inductive queue_op : Set :=
| QAppend (now : Instant) (payload : list byte) (rto : Z)
| QInvalidateTo (now : Instant) (sequence : Z)
| QGet (sequence size : Z)
| QGetTimedOut (now : Instant)
| QGetTimedOutAndUpdate (now : Instant) (rto : Z).

Definition queue_op_ok (op : queue_op) : Prop :=
  match op with
  | QInvalidateTo _ x => is_u32 x
  | QGet x n => is_u32 x /\ 0 <= n
  | _ => True
  end.

Definition queue_run (q : Queue) (op : queue_op) : outcome Queue :=
  match op with
  | QAppend now payload rto => r ← queue_append now q payload rto; mret r.1
  | QInvalidateTo now x => r ← queue_invalidate_to now q x; mret r.1
  | QGet x n => r ← queue_get q x n; mret q
  | QGetTimedOut now => r ← queue_get_timed_out now q; mret q
  | QGetTimedOutAndUpdate now rto => r ← queue_get_timed_out_and_update now q rto; mret r.1
  end.

(** The states of a queue between two operations. *)
Inductive queue_reachable : Queue -> Prop :=
| qr_new capacity sequence q :
    is_u32 sequence -> 0 <= capacity <= max_cache_capacity ->
    queue_with_capacity capacity sequence = Done q -> queue_reachable q
| qr_step q op q' :
    queue_reachable q -> queue_op_ok op -> queue_run q op = Done q' -> queue_reachable q'.

Lemma queue_run_ok q op :
  queue_wf q -> queue_op_ok op -> exists q', queue_run q op = Done q' /\ queue_wf q'.
Proof.
  intros Hwf. destruct op as [now payload rto|now x|x n|now|now rto]; simpl; intros Hop.
  - destruct (Z.le_gt_cases (q_size q + len payload) (q_capacity q)) as [Hle|Hgt].
    + destruct (queue_append_ok now q payload rto Hwf Hle) as (q' & -> & ? & _). eauto.
    + rewrite queue_append_full by (done || lia). eauto.
  - destruct (Z.le_gt_cases (seq_sub x (q_sequence q)) MAX_U32_WINDOW_SIZE) as [Hle|Hgt].
    + destruct (queue_invalidate_to_ok now q x Hwf Hop Hle) as (q' & rtt & -> & ? & _). eauto.
    + rewrite queue_invalidate_to_stale by lia. eauto.
  - destruct Hop. rewrite queue_get_spec by done. eauto.
  - rewrite queue_get_timed_out_ok by done. eauto.
  - destruct (queue_timed_out_ok now q rto Hwf) as (q' & -> & ? & _). eauto.
Qed.

Lemma queue_reachable_wf q : queue_reachable q -> queue_wf q.
Proof.
  induction 1 as [c s q Hs Hc Hq|q op q' _ IH Hop Hrun].
  - destruct (queue_with_capacity_ok c s Hs Hc) as (q' & Hq' & ? & _). congruence.
  - destruct (queue_run_ok q op IH Hop) as (q2 & ? & ?). congruence.
Qed.

(** ** Theorems *)

(** [append] refines list append: a payload that fits is added behind the
    bytes the queue holds, whatever the position of the head and however often
    the buffer had to grow; one that does not fit is refused with the queue
    unchanged.  The invariant is kept and nothing panics. *)
Theorem queue_append_refines (now : Instant) (q : Queue) (payload : list byte) (rto : Z) :
  queue_wf q ->
  exists q' r,
    queue_append now q payload rto = Done (q', r)
    /\ queue_wf q'
    /\ q_sequence q' = q_sequence q
    /\ if q_size q + len payload <=? q_capacity q
       then r = Ok tt /\ queue_content q' = queue_content q ++ payload
       else r = Err (mkIoError EOther "queue is full") /\ q' = q.
Proof.
  intros Hwf. zcase.
  - destruct (queue_append_ok now q payload rto) as (q' & -> & ? & ? & ? & _); [done..|].
    exists q', (Ok tt). auto.
  - rewrite queue_append_full by done. eauto 10.
Qed.

(** A queue of capacity 9 after the appends and the acknowledgement of the
    first unit test of the module. *)
Definition queue_example : Queue :=
  mkQueue [8; 9; 2; 3; 4; 5; 6; 7] 9 6 6 4 [(6, mkTimer 0 0); (8, mkTimer 0 0)] None.

Lemma queue_example_wf : queue_wf queue_example.
Proof.
  constructor; unfold queue_example, head_ok; simpl;
    try (unfold len; simpl; cap_lia).
  exists 0. repeat split; [lia|lia|]. exists 2. repeat split; lia.
Qed.

Lemma queue_append_refines_witness :
  exists q' r,
    queue_append 0 queue_example [10; 11; 12; 13; 14] 0 = Done (q', r)
    /\ queue_wf q'
    /\ q_sequence q' = q_sequence queue_example
    /\ if q_size queue_example + len [10; 11; 12; 13; 14] <=? q_capacity queue_example
       then r = Ok tt /\ queue_content q' = queue_content queue_example ++ [10; 11; 12; 13; 14]
       else r = Err (mkIoError EOther "queue is full") /\ q' = queue_example.
Proof. apply (queue_append_refines 0 queue_example [10; 11; 12; 13; 14] 0 queue_example_wf). Defined.

(** [invalidate_to] drops exactly the acknowledged prefix: for an
    acknowledgement at most [MAX_U32_WINDOW_SIZE] ahead the content loses as
    many bytes as it is ahead (all of them when it is beyond the end) and the
    queue starts at the acknowledged number; any other one changes nothing. *)
Theorem queue_invalidate_refines (now : Instant) (q : Queue) (sequence : Z) :
  queue_wf q -> is_u32 sequence ->
  exists q' rtt,
    queue_invalidate_to now q sequence = Done (q', rtt)
    /\ queue_wf q'
    /\ if seq_ahead sequence (q_sequence q)
       then q_sequence q' = sequence
            /\ queue_content q' = zdrop (seq_sub sequence (q_sequence q)) (queue_content q)
       else q' = q /\ rtt = None.
Proof.
  intros Hwf Hx. unfold seq_ahead. zcase.
  - destruct (queue_invalidate_to_ok now q sequence) as (q' & rtt & -> & ? & ? & _ & _ & ?);
      [done..|]. eauto 10.
  - rewrite queue_invalidate_to_stale by done. eauto 10.
Qed.

Lemma queue_invalidate_refines_witness :
  exists q' rtt,
    queue_invalidate_to 0 queue_example 9 = Done (q', rtt)
    /\ queue_wf q'
    /\ if seq_ahead 9 (q_sequence queue_example)
       then q_sequence q' = 9
            /\ queue_content q' = zdrop (seq_sub 9 (q_sequence queue_example)) (queue_content queue_example)
       else q' = queue_example /\ rtt = None.
Proof. apply (queue_invalidate_refines 0 queue_example 9 queue_example_wf). ilia. Defined.

(** Round trip of the send cache: what was appended is what [get] returns,
    at the sequence number it was given, also when the numbers or the buffer
    wrap in between. *)
Theorem queue_append_get_roundtrip (now : Instant) (q : Queue) (payload : list byte) (rto : Z) :
  queue_wf q -> q_size q + len payload <= q_capacity q ->
  exists q',
    queue_append now q payload rto = Done (q', Ok tt)
    /\ queue_get q' (queue_recv_next q) (len payload) = Done (Ok payload)
    /\ queue_get_all q' = Done (queue_content q ++ payload).
Proof.
  intros Hwf Hfit. pose proof Hwf as []. pose proof (len_nonneg payload).
  destruct (queue_append_ok now q payload rto) as (q' & -> & Hwf' & Hcon & Hseq & _ & Hsize & _);
    [done..|].
  exists q'. split; [done|]. split.
  - unfold queue_recv_next. rewrite seq_add_as_u32 by cap_lia. rewrite <- Hseq.
    rewrite queue_get_ok by (done || lia). rewrite Hcon.
    rewrite zdrop_app, ztake_all by (rewrite ?len_queue_content; lia). done.
  - by rewrite queue_get_all_ok, Hcon by done.
Qed.

Lemma queue_append_get_roundtrip_witness :
  exists q',
    queue_append 0 queue_example [10; 11; 12; 13; 14] 0 = Done (q', Ok tt)
    /\ queue_get q' (queue_recv_next queue_example) (len [10; 11; 12; 13; 14]) = Done (Ok [10; 11; 12; 13; 14])
    /\ queue_get_all q' = Done (queue_content queue_example ++ [10; 11; 12; 13; 14]).
Proof.
  apply (queue_append_get_roundtrip 0 queue_example [10; 11; 12; 13; 14] 0 queue_example_wf).
  vm_compute. discriminate.
Defined.

(** C32. No operation panics in a reachable state, and the invariant holds
    there: no index is out of range, no subtraction underflows, and the
    [unwrap] calls of [get_all] and [get_timed_out_and_update] never fail. *)
Theorem queue_reachable_safe (q : Queue) (op : queue_op) :
  queue_reachable q -> queue_op_ok op ->
  queue_wf q /\ exists q', queue_run q op = Done q' /\ queue_reachable q'.
Proof.
  intros Hr Hop. pose proof (queue_reachable_wf q Hr) as Hwf. split; [done|].
  destruct (queue_run_ok q op Hwf Hop) as (q' & Hrun & _).
  exists q'. split; [done|]. by apply (qr_step q op).
Qed.

Lemma queue_reachable_safe_witness :
  queue_wf (mkQueue [] 9 5 0 0 [] None)
  /\ exists q', queue_run (mkQueue [] 9 5 0 0 [] None) (QAppend 0 [1; 2] 1000) = Done q'
     /\ queue_reachable q'.
Proof.
  apply (queue_reachable_safe (mkQueue [] 9 5 0 0 [] None) (QAppend 0 [1; 2] 1000)); [|done].
  apply (qr_new 9 5); [ilia|cap_lia|reflexivity].
Defined.

(** [get_timed_out_and_update] returns the bytes up to the first segment
    whose clock has not timed out, and keeps the bytes. *)
Theorem queue_timed_out_prefix (now : Instant) (q : Queue) (rto : Z) :
  queue_wf q ->
  exists q' payload,
    queue_get_timed_out_and_update now q rto = Done (q', payload)
    /\ queue_wf q'
    /\ payload = ztake (queue_timed_out_size now q) (queue_content q)
    /\ queue_content q' = queue_content q
    /\ queue_get_timed_out now q = Done payload.
Proof.
  intros Hwf. destruct (queue_timed_out_ok now q rto Hwf) as (q' & -> & Hwf' & _ & _ & _ & Hc).
  eexists _, _. split; [done|]. rewrite queue_get_timed_out_ok by done. auto.
Qed.

Lemma queue_timed_out_prefix_witness :
  exists q' payload,
    queue_get_timed_out_and_update 1 queue_example 5 = Done (q', payload)
    /\ queue_wf q'
    /\ payload = ztake (queue_timed_out_size 1 queue_example) (queue_content queue_example)
    /\ queue_content q' = queue_content queue_example
    /\ queue_get_timed_out 1 queue_example = Done payload.
Proof. apply (queue_timed_out_prefix 1 queue_example 5 queue_example_wf). Defined.

(** A poll forgets the clock of a segment that is not timed out: if the
    last clock of the queue is the only one and is still running, the poll
    leaves no clock behind, and the next poll returns every held byte, at
    whatever time it comes. *)
Theorem queue_poll_drops_running_clock (now now' : Instant) (q : Queue) (c : Z) (t : Timer) (rto rto' : Z) :
  queue_wf q -> q_clocks q = [(c, t)] -> timer_is_timedout now t = false ->
  exists q1 q2 payload,
    queue_get_timed_out_and_update now q rto = Done (q1, payload)
    /\ q_clocks q1 = []
    /\ queue_get_timed_out_and_update now' q1 rto' = Done (q2, queue_content q).
Proof.
  intros Hwf Hc Ht. pose proof Hwf as [Hs ? ? ? ? Hk]. rewrite Hc in Hk. destruct Hk as (d & Hd & -> & _).
  destruct (queue_timed_out_ok now q rto Hwf) as (q1 & E1 & Hwf1 & _ & _ & Hsz & Hcon).
  assert (Hcl : q_clocks q1 = []).
  { revert E1. unfold queue_get_timed_out_and_update. rewrite Hc. simpl. rewrite Ht. simpl.
    unfold seq_ahead. rewrite seq_sub_diag by (apply seq_add_u32; [done|cap_lia]). simpl.
    intros (r & _ & E)%outcome_bind_Done_inv. apply outcome_bind_Done_inv in E as (p & _ & E).
    injection E as <- _. done. }
  destruct (queue_timed_out_ok now' q1 rto' Hwf1) as (q2 & E2 & _).
  eexists q1, q2, _. split; [done|]. split; [done|]. rewrite E2. do 2 f_equal.
  unfold queue_timed_out_size. rewrite Hcl. simpl. rewrite Hcon, ztake_all; [done|].
  rewrite len_queue_content; lia.
Qed.

Lemma queue_poll_drops_running_clock_witness :
  exists q1 q2 payload,
    queue_get_timed_out_and_update 1 (mkQueue [1; 2] 9 5 0 2 [(5, mkTimer 0 1000)] None) 60000 = Done (q1, payload)
    /\ q_clocks q1 = []
    /\ queue_get_timed_out_and_update 2 q1 60000
       = Done (q2, queue_content (mkQueue [1; 2] 9 5 0 2 [(5, mkTimer 0 1000)] None)).
Proof.
  apply (queue_poll_drops_running_clock 1 2 (mkQueue [1; 2] 9 5 0 2 [(5, mkTimer 0 1000)] None)
           5 (mkTimer 0 1000)); [|reflexivity|reflexivity].
  constructor; unfold head_ok; simpl; try (unfold len; simpl; cap_lia).
  exists 0. repeat split; lia.
Defined.
