(* ===== verification/Window.v ===== *)
(** * The receive cache: [cache::Window]

    A ring buffer that takes segments in any order and hands out the bytes
    that are contiguous from its sequence number on.  [Redirector] keeps one
    for each TCP connection.  The filled ranges are kept in a [BTreeMap] from
    the begin of a range, a [u64] that does not wrap, to its length: here an
    association list in the order of the keys.  The theorems state the
    operations over the byte stream the segments are taken from. *)

From S2P Require Import Prelude SeqArith Ring.

(** ** [BTreeMap<u64, usize>] *)

Abbreviation edge_map := (list (Z * Z)) (only parsing).

Fixpoint edges_get (key : Z) (es : edge_map) : option Z :=
  match es with
  | [] => None
  | (k, v) :: rest => if k =? key then Some v else edges_get key rest
  end.

Fixpoint edges_insert (key value : Z) (es : edge_map) : edge_map :=
  match es with
  | [] => [(key, value)]
  | (k, v) :: rest =>
      if key <? k then (key, value) :: es
      else if k =? key then (key, value) :: rest
      else (k, v) :: edges_insert key value rest
  end.

Definition edges_remove (key : Z) (es : edge_map) : edge_map :=
  List.filter (fun e => negb (e.1 =? key)) es.
Arguments edges_remove : simpl never.

(** [edges.range((Included(a), Included(b)))]. *)
Definition edges_range (a b : Z) (es : edge_map) : edge_map :=
  List.filter (fun e => (a <=? e.1) && (e.1 <=? b)) es.

(** ** State *)

Record Window : Set := mkWindow {
  w_buffer : list byte;
  w_capacity : Z;
  w_sequence : Z;
  w_head : Z;
  w_size : Z;
  w_edges : edge_map
}.

#[export] Instance Window_eq_dec : EqDecision Window.
Proof. solve_decision. Defined.

Definition w_with_buffer (w : Window) (b : list byte) : Window :=
  mkWindow b (w_capacity w) (w_sequence w) (w_head w) (w_size w) (w_edges w).
Definition w_with_size (w : Window) (n : Z) : Window :=
  mkWindow (w_buffer w) (w_capacity w) (w_sequence w) (w_head w) n (w_edges w).
Definition w_with_edges (w : Window) (es : edge_map) : Window :=
  mkWindow (w_buffer w) (w_capacity w) (w_sequence w) (w_head w) (w_size w) es.

(** ** Operations *)

Definition window_with_capacity (capacity sequence : Z) : Window :=
  mkWindow [] capacity sequence 0 0 [].
Definition window_new (sequence : Z) : Window := window_with_capacity usize_max sequence.

Definition window_len (w : Window) : Z := w_size w.
Definition window_is_empty (w : Window) : bool := w_size w =? 0.
Definition window_remaining (w : Window) : outcome Z := int_sub (w_capacity w) (w_size w).
Definition window_recv_next (w : Window) : Z := seq_add (w_sequence w) (as_u32 (w_size w)).
Definition window_tail (w : Window) : Z := ring_tail (w_buffer w) (w_head w) (w_size w).

(** The first part of [append]: a segment that begins before the window loses
    its begin.  [None] stands for the early [return Ok(None)]; otherwise the
    sequence number, the payload and their distance from the window. *)
Definition window_trim (w : Window) (sequence : Z) (payload : list byte)
  : outcome (option (Z * list byte * Z)) :=
  let sub_sequence := seq_sub sequence (w_sequence w) in
  if MAX_U32_WINDOW_SIZE <? sub_sequence then
    let recv_next := seq_add sequence (as_u32 (len payload)) in
    sub_recv_next_to_sequence ←
      match checked_sub recv_next (w_sequence w) with
      | Some r => mret r
      | None => int_add u32_max sequence (u32_max - recv_next)
      end;
    if 0 <? sub_recv_next_to_sequence then
      sub_sequence ← int_sub (w_sequence w) sequence;
      payload ← slice payload sub_sequence (len payload);
      mret (Some (w_sequence w, payload, 0))
    else mret None
  else mret (Some (sequence, payload, sub_sequence)).

(** The part of [append] that grows the buffer to hold [size] bytes. *)
Definition window_reserve (w : Window) (size : Z) : outcome (list byte) :=
  if len (w_buffer w) <? size then
    let prev_tail := window_tail w in
    tripled ← usize_mul (len (w_buffer w)) 3;
    let new_len := Z.min (w_capacity w) (Z.max (tripled / 2) size) in
    ring_extend (w_buffer w) (w_head w) prev_tail new_len
  else mret (w_buffer w).

(** The new value of [size] after a segment at [sequence]. *)
Definition window_next_size (w : Window) (sequence : Z) (payload : list byte) : outcome Z :=
  let recv_next := seq_add sequence (as_u32 (len payload)) in
  let record_recv_next := seq_add (w_sequence w) (as_u32 (w_size w)) in
  let sub_recv_next := seq_sub recv_next record_recv_next in
  if sub_recv_next <=? MAX_U32_WINDOW_SIZE then usize_add (w_size w) sub_recv_next
  else mret (w_size w).

(** The part of [append] that stores the payload and updates the size. *)
Definition window_store (w : Window) (sequence : Z) (payload : list byte) (sub_sequence size : Z)
  : outcome Window :=
  buffer ← window_reserve w size;
  let w := w_with_buffer w buffer in
  buffer ← ring_write (w_buffer w) (ring_tail (w_buffer w) (w_head w) sub_sequence) payload;
  let w := w_with_buffer w buffer in
  new_size ← window_next_size w sequence payload;
  mret (w_with_size w new_size).

(** The loop that takes out the ranges that begin in the new segment.  [stop] is the
    end of the merged range so far. *)
Fixpoint window_select (fuel : nat) (sequence n : Z) (es : edge_map) (stop : Z)
  : outcome (edge_map * Z) :=
  match fuel with
  | O => Hang
  | S fuel =>
      let popped := edges_range sequence (sequence + n) es in
      let stop := fold_left (fun m e => Z.max m (e.1 + e.2)) popped stop in
      match popped with
      | [] => mret (es, stop)
      | _ => window_select fuel sequence n
               (fold_left (fun es e => edges_remove e.1 es) popped es) stop
      end
  end.

(** The last key below [sequence]. *)
Definition edges_prev_key (sequence : Z) (es : edge_map) : option Z :=
  fold_left (fun prev e => if e.1 <? sequence then Some e.1 else prev) es None.

(** Merges the range of [n] bytes at [sequence], a key, into the ranges. *)
Definition edges_merge (es : edge_map) (sequence n : Z) : outcome edge_map :=
  '(es, stop) ← window_select (S (length es)) sequence n es (sequence + n);
  let size := stop - sequence in
  match edges_prev_key sequence es with
  | Some prev_key =>
      prev_size ← unwrap (edges_get prev_key es);
      if sequence <=? prev_key + prev_size then
        mret (edges_insert prev_key (size + (sequence - prev_key)) es)
      else mret (edges_insert sequence size es)
  | None => mret (edges_insert sequence size es)
  end.

(** The block of [append] that inserts and merges ranges. *)
Definition window_merge (w : Window) (sequence n : Z) : outcome edge_map :=
  let sequence := if sequence <? w_sequence w then sequence + u32_max else sequence in
  edges_merge (w_edges w) sequence n.

(** The loop that moves the keys back after the sequence number wrapped. *)
Fixpoint window_shrink (keys : list Z) (es : edge_map) : outcome edge_map :=
  match keys with
  | [] => mret es
  | key :: keys =>
      value ← unwrap (edges_get key es);
      key' ← int_sub key u32_max;
      window_shrink keys (edges_insert key' value (edges_remove key es))
  end.

(** The last part of [append]: hands out the first range if it begins at the
    sequence number of the window. *)
Definition window_pop (w : Window) : outcome (Window * option (list byte)) :=
  first_key ← unwrap (fst <$> head (w_edges w));
  if as_u32 first_key =? w_sequence w then
    size ← unwrap (edges_get first_key (w_edges w));
    let es := edges_remove first_key (w_edges w) in
    es ← (if u32_max - w_sequence w <? size then window_shrink (map fst es) es else mret es);
    cont_payload ← ring_read (w_buffer w) (w_head w) size;
    let sequence := seq_add (w_sequence w) (as_u32 size) in
    r ← int_rem size (len (w_buffer w));
    sum ← usize_add (w_head w) r;
    head ← int_rem sum (len (w_buffer w));
    new_size ← int_sub (w_size w) (len cont_payload);
    mret (mkWindow (w_buffer w) (w_capacity w) sequence head new_size es, Some cont_payload)
  else mret (w, None).

Definition window_append (w : Window) (sequence : Z) (payload : list byte)
  : outcome (Window * io_result (option (list byte))) :=
  trimmed ← window_trim w sequence payload;
  match trimmed with
  | None => mret (w, Ok None)
  | Some (sequence, payload, sub_sequence) =>
      size ← usize_add sub_sequence (len payload);
      if w_capacity w <? size then mret (w, Err (mkIoError EOther "window is full"))
      else
        w ← window_store w sequence payload sub_sequence size;
        es ← window_merge w sequence (len payload);
        let w := w_with_edges w es in
        '(w, r) ← window_pop w;
        mret (w, Ok r)
  end.

(** The filled ranges, as [u32] sequence numbers. *)
Definition window_filled (w : Window) : list (Z * Z) :=
  map (fun e =>
    let begin := as_u32 (unwrap_or (checked_sub e.1 u32_max) e.1) in
    (begin, seq_add begin (as_u32 e.2))) (w_edges w).

(** The unit tests of the module that exercise the merging. *)
Example window_test_overflow :
  (r0 ← window_append (window_with_capacity 9 0) 6 [6; 7];
   r1 ← window_append r0.1 0 [0; 1; 2; 3; 4];
   r2 ← window_append r1.1 8 [8; 9];
   r3 ← window_append r2.1 10 [10; 11; 12; 13];
   mret (r3.1, r1.2, r3.2))
  = Done (mkWindow [9; 10; 11; 12; 13; 0; 6; 7; 8] 9 5 5 9 [(6, 8)], Ok (Some [0; 1; 2; 3; 4]), Ok None).
Proof. reflexivity. Qed.

(** ** Sorted ranges *)

(** Ranges after [lo], in order, not empty, with a gap before each, and up to
    [hi]. *)
Fixpoint edges_ok (lo hi : Z) (es : edge_map) : Prop :=
  match es with
  | [] => True
  | (k, n) :: rest => lo < k /\ 0 < n /\ k + n <= hi /\ edges_ok (k + n) hi rest
  end.

(** The end of the last range. *)
Fixpoint last_end (lo : Z) (es : edge_map) : Z :=
  match es with
  | [] => lo
  | (k, n) :: rest => last_end (k + n) rest
  end.

(** Position [p] lies in one of the ranges. *)
Definition covered (es : edge_map) (p : Z) : Prop :=
  Exists (fun e => e.1 <= p < e.1 + e.2) es.

(** Weakens a bound on the keys. *)
Ltac fimpl H := eapply Forall_impl; [exact H|]; intros [? ?]; simpl in *; lia.

Section edges.
Implicit Types es : list (Z * Z).

Lemma edges_ok_weaken lo lo' hi hi' es :
  lo' <= lo -> hi <= hi' -> edges_ok lo hi es -> edges_ok lo' hi' es.
Proof.
  revert lo lo'. induction es as [|[k n] r IH]; intros lo lo' Hlo Hhi; [done|].
  intros (? & ? & ? & ?). repeat split; try lia. by apply (IH (k + n)); [lia| |].
Qed.

Lemma edges_ok_app lo hi es es' :
  edges_ok lo hi (es ++ es') <-> edges_ok lo hi es /\ edges_ok (last_end lo es) hi es'.
Proof.
  revert lo. induction es as [|[k n] r IH]; intros lo; simpl; [tauto|]. rewrite IH. tauto.
Qed.

Lemma edges_ok_keys lo hi es : edges_ok lo hi es -> Forall (fun e => lo < e.1) es.
Proof.
  revert lo. induction es as [|[k n] r IH]; intros lo; [constructor|].
  intros (? & ? & ? & Hr). constructor; [done|].
  eapply Forall_impl; [apply (IH _ Hr)|]. simpl. lia.
Qed.

Lemma last_end_bounds lo hi es :
  lo <= hi -> edges_ok lo hi es -> lo <= last_end lo es <= hi.
Proof.
  revert lo. induction es as [|[k n] r IH]; intros lo Hlo; simpl; [lia|].
  intros (? & ? & ? & Hr). specialize (IH (k + n) ltac:(lia) Hr). lia.
Qed.

Lemma edges_ok_shift c lo hi es :
  edges_ok lo hi es -> edges_ok (lo - c) (hi - c) (map (fun e => (e.1 - c, e.2)) es).
Proof.
  revert lo. induction es as [|[k n] r IH]; intros lo; [done|]. simpl.
  intros (? & ? & ? & Hr). repeat split; try lia.
  replace (k - c + n) with (k + n - c) by lia. by apply IH.
Qed.

Lemma edges_split c lo hi es :
  edges_ok lo hi es ->
  exists l r, es = l ++ r /\ Forall (fun e => e.1 < c) l /\ Forall (fun e => c <= e.1) r.
Proof.
  revert lo. induction es as [|[k n] rest IH]; intros lo Hes.
  { exists [], []. repeat constructor. }
  destruct (Z.lt_ge_cases k c) as [Hlt|Hge].
  - destruct Hes as (? & ? & ? & Hr). destruct (IH _ Hr) as (l & r & -> & Hl & Hrr).
    exists ((k, n) :: l), r. split; [done|]. split; [by constructor|done].
  - exists [], ((k, n) :: rest). split; [done|]. split; [constructor|].
    destruct Hes as (? & ? & ? & Hr). constructor; [done|].
    eapply Forall_impl; [apply (edges_ok_keys _ _ _ Hr)|]. simpl. lia.
Qed.

Lemma filter_all (f : Z * Z -> bool) es :
  Forall (fun e => f e = true) es -> List.filter f es = es.
Proof. induction 1 as [|e es He _ IH]; simpl; [done|]. by rewrite He, IH. Qed.

Lemma filter_none (f : Z * Z -> bool) es :
  Forall (fun e => f e = false) es -> List.filter f es = [].
Proof. induction 1 as [|e es He _ IH]; simpl; [done|]. by rewrite He, IH. Qed.

Lemma edges_range_split a b l m r :
  Forall (fun e => e.1 < a) l -> Forall (fun e => a <= e.1 <= b) m -> Forall (fun e => b < e.1) r ->
  edges_range a b (l ++ m ++ r) = m.
Proof.
  intros Hl Hm Hr. unfold edges_range. rewrite !List.filter_app.
  rewrite (filter_none _ l), (filter_all _ m), (filter_none _ r); [by rewrite app_nil_r| | |].
  all: eapply Forall_impl; [eassumption|]; intros [k v]; cbn [fst]; intros;
    destruct (Z.leb_spec a k), (Z.leb_spec k b); simpl; lia || done.
Qed.

(** Removing the keys of [m] from sorted ranges. *)
Lemma edges_remove_keys l m r :
  Forall (fun e => Forall (fun e' => e'.1 <> e.1) (l ++ r)) m ->
  fold_left (fun es e => edges_remove e.1 es) m (l ++ m ++ r) = l ++ r.
Proof.
  intros Hm.
  assert (H : forall m' m : list (Z * Z), Forall (fun e => Forall (fun e' => e'.1 <> e.1) (l ++ r)) m' ->
    (forall e, In e m -> In e.1 (map fst m')) ->
    fold_left (fun es e => edges_remove e.1 es) m' (l ++ m ++ r) = l ++ r).
  { clear. induction m' as [|e m' IH]; intros m Hm Hin; simpl.
    - destruct m as [|e m]; [done|]. destruct (Hin e). by left.
    - apply Forall_cons in Hm as [He Hm]. unfold edges_remove. rewrite !List.filter_app.
      apply Forall_app in He as [Hel Her].
      rewrite (filter_all _ l), (filter_all _ r).
      + apply IH; [done|]. intros e' He'. apply filter_In in He' as [He' Hne].
        destruct (Hin e' He') as [Heq|]; [|done].
        destruct (Z.eqb_spec e'.1 e.1); [done|congruence].
      + eapply Forall_impl; [exact Her|]. intros e' Hne. simpl. by destruct (Z.eqb_spec e'.1 e.1).
      + eapply Forall_impl; [exact Hel|]. intros e' Hne. simpl. by destruct (Z.eqb_spec e'.1 e.1). }
  apply H; [done|]. intros e He. by apply in_map.
Qed.

Lemma edges_prev_key_spec c l r :
  Forall (fun e => e.1 < c) l -> Forall (fun e => c <= e.1) r ->
  edges_prev_key c (l ++ r) = fst <$> last l.
Proof.
  intros Hl Hr. unfold edges_prev_key. rewrite fold_left_app.
  assert (H1 : forall es p, Forall (fun e => c <= e.1) es ->
    fold_left (fun prev e => if e.1 <? c then Some e.1 else prev) es p = p).
  { clear. induction es as [|e es IH]; intros p Hes; [done|].
    apply Forall_cons in Hes as [He Hes]. simpl. zcase; [lia|]. by apply IH. }
  rewrite H1 by done. clear Hr H1.
  destruct l as [|e l _] using rev_ind; [done|].
  rewrite last_snoc. apply Forall_app in Hl as [_ He].
  apply Forall_cons in He as [He _]. rewrite fold_left_app. simpl. zcase; [done|lia].
Qed.

(** Insertion between the smaller and the larger keys. *)
Lemma edges_insert_app k v l r :
  Forall (fun e => e.1 < k) l -> Forall (fun e => k < e.1) r ->
  edges_insert k v (l ++ r) = l ++ (k, v) :: r.
Proof.
  intros Hl Hr. induction Hl as [|[k0 v0] l Hk Hl IH]; cbn [app edges_insert].
  - destruct Hr as [|[k1 v1] r Hk Hr]; [done|]. simpl in *. zcase; [done|lia].
  - simpl in *. destruct (Z.ltb_spec k k0); [lia|]. destruct (Z.eqb_spec k0 k); [lia|].
    by rewrite IH.
Qed.

Lemma edges_insert_replace k v v0 l r :
  Forall (fun e => e.1 < k) l -> edges_insert k v (l ++ (k, v0) :: r) = l ++ (k, v) :: r.
Proof.
  intros Hl. induction Hl as [|[k1 v1] l Hk Hl IH]; cbn [app edges_insert].
  - rewrite Z.ltb_irrefl, Z.eqb_refl. done.
  - simpl in *. destruct (Z.ltb_spec k k1); [lia|]. destruct (Z.eqb_spec k1 k); [lia|].
    by rewrite IH.
Qed.

Lemma edges_get_app k v l r :
  Forall (fun e => e.1 < k) l -> edges_get k (l ++ (k, v) :: r) = Some v.
Proof.
  intros Hl. induction Hl as [|[k1 v1] l Hk Hl IH]; cbn [app edges_get].
  - by rewrite Z.eqb_refl.
  - simpl in *. destruct (Z.eqb_spec k1 k); [lia|]. done.
Qed.

Lemma edges_remove_head k v r :
  Forall (fun e => k < e.1) r -> edges_remove k ((k, v) :: r) = r.
Proof.
  intros Hr. unfold edges_remove. simpl. rewrite Z.eqb_refl. simpl. apply filter_all.
  eapply Forall_impl; [exact Hr|]. intros [k1 v1]. simpl. intros. by destruct (Z.eqb_spec k1 k); [lia|].
Qed.

Lemma fold_max_end e0 lo hi m :
  edges_ok lo hi m ->
  fold_left (fun x e => Z.max x (e.1 + e.2)) m e0
  = match m with [] => e0 | _ => Z.max e0 (last_end lo m) end.
Proof.
  revert e0 lo. induction m as [|[k n] m IH]; intros e0 lo; [done|].
  intros (? & ? & ? & Hm). cbn [fold_left fst snd last_end]. rewrite (IH _ (k + n)) by done.
  destruct m as [|[k' n'] m]; simpl; [lia|].
  simpl in Hm. destruct Hm as (? & ? & ? & Hm).
  pose proof (last_end_bounds (k' + n') hi m ltac:(lia) Hm). lia.
Qed.

Lemma last_end_snoc lo es k n : last_end lo (es ++ [(k, n)]) = k + n.
Proof. revert lo. induction es as [|[k0 n0] es IH]; intros lo; simpl; [done|]. apply IH. Qed.

Lemma edges_ok_raise c lo hi es :
  Forall (fun e => c < e.1) es -> edges_ok lo hi es -> edges_ok c hi es.
Proof.
  destruct es as [|[k n] es]; [done|]. intros [Hk _]%Forall_cons (? & ? & ? & ?). done.
Qed.

(** The selection loop ends, with the ranges that begin in [[a, a + n]] taken
    out and their end in [stop]. *)
Lemma window_select_spec a n lo hi l m r stop :
  0 <= n ->
  Forall (fun e => e.1 < a) l -> Forall (fun e => a <= e.1 <= a + n) m ->
  Forall (fun e => a + n < e.1) r -> edges_ok lo hi m ->
  window_select (S (length (l ++ m ++ r))) a n (l ++ m ++ r) stop
  = Done (l ++ r, match m with [] => stop | _ => Z.max stop (last_end lo m) end).
Proof.
  intros Hn Hl Hm Hr Hok. cbn [window_select]. rewrite edges_range_split by done.
  rewrite (fold_max_end _ lo hi) by done.
  destruct m as [|e0 m0] eqn:Em; [done|]. rewrite <- Em in *.
  rewrite edges_remove_keys.
  2: { eapply Forall_impl; [exact Hm|]. intros [k v] He. apply Forall_app. split; [fimpl Hl|fimpl Hr]. }
  destruct (length (l ++ m ++ r)) as [|fuel] eqn:El.
  { rewrite !length_app, Em in El. simpl in El. lia. }
  cbn [window_select]. change (l ++ r) with (l ++ [] ++ r).
  rewrite edges_range_split by (done || constructor). done.
Qed.

Lemma covered_key es p :
  covered es p -> exists k n, (k, n) ∈ es /\ k <= p < k + n.
Proof. intros ([k n] & ? & ?)%Exists_exists. eauto. Qed.

Lemma covered_in lo hi es p : edges_ok lo hi es -> covered es p -> lo < p < last_end lo es.
Proof.
  intros Hok Hc. revert lo Hok. induction Hc as [[k n] es Hp|[k n] es _ IH]; intros lo (? & ? & ? & Hr); simpl.
  - simpl in Hp. pose proof (last_end_bounds (k + n) hi es ltac:(lia) Hr). lia.
  - specialize (IH _ Hr). lia.
Qed.

(** What the selection loop leaves: the ranges [l] before the segment and [r]
    behind the merged range, which ends at [stop]. *)
Lemma edges_select_spec a n s hi es :
  0 < n -> s <= a -> edges_ok s hi es ->
  exists l r stop,
    window_select (S (length es)) a n es (a + n) = Done (l ++ r, stop)
    /\ Forall (fun e => e.1 < a) l /\ edges_ok s hi l
    /\ a + n <= stop <= Z.max hi (a + n)
    /\ Forall (fun e => a < e.1) r /\ edges_ok stop (Z.max hi (a + n)) r
    /\ (forall p, covered (l ++ r) p \/ a + n <= p < stop -> covered es p)
    /\ (forall p, covered es p -> covered (l ++ r) p \/ a <= p < stop)
    /\ (forall e, e ∈ l ++ r -> e ∈ es).
Proof.
  intros Hn Ha Hes.
  destruct (edges_split a s hi es Hes) as (l & mr & -> & Hl & Hmr).
  apply edges_ok_app in Hes as [Hokl Hokmr].
  destruct (edges_split (a + n + 1) _ _ mr Hokmr) as (m & r & -> & Hm & Hr).
  apply edges_ok_app in Hokmr as [Hokm Hokr]. set (lo := last_end s l) in *.
  apply Forall_app in Hmr as [Hm' _].
  assert (Hm2 : Forall (fun e => a <= e.1 <= a + n) m).
  { apply Forall_and. split; [fimpl Hm'|fimpl Hm]. }
  assert (Hr2 : forall c, c <= a + n -> Forall (fun e => c < e.1) r).
  { intros c Hc. fimpl Hr. }
  rewrite (window_select_spec a n lo hi l m r) by (done || lia || (apply Hr2; lia)).
  set (stop := match m with [] => a + n | _ => Z.max (a + n) (last_end lo m) end).
  assert (Hstop : a + n <= stop <= Z.max hi (a + n)).
  { unfold stop. destruct m as [|[k0 n0] m']; [lia|].
    simpl in Hokm. destruct Hokm as (? & ? & ? & Hx). simpl.
    pose proof (last_end_bounds (k0 + n0) hi m' ltac:(lia) Hx). lia. }
  exists l, r, stop. split; [done|]. split; [done|]. split; [done|]. split; [done|].
  split; [apply Hr2; lia|]. split.
  - apply (edges_ok_weaken stop _ hi); [lia|lia|]. unfold stop. destruct m as [|e m']; simpl.
    + apply (edges_ok_raise _ (last_end lo [])); [apply Hr2; lia|done].
    + destruct (Z.max_spec (a + n) (last_end lo (e :: m'))) as [[? E]|[? E]]; simpl in E; rewrite E.
      * done.
      * apply (edges_ok_raise _ (last_end lo (e :: m'))); [apply Hr2; lia|done].
  - split; [|split; [|intros e; rewrite !elem_of_app; tauto]]; unfold covered; intros p; rewrite !Exists_app.
    2: { intros [?|[Hp|?]]; [tauto| |tauto]. right. fold (covered m p) in Hp.
         unfold stop. destruct m as [|e m']; [by apply Exists_nil in Hp|].
         pose proof (covered_in _ _ _ _ Hokm Hp). apply covered_key in Hp as (k & n0 & Hin & ?).
         rewrite Forall_forall in Hm2. specialize (Hm2 _ Hin). simpl in *. lia. }
    intros [[?|?]|Hp]; [tauto|tauto|].
    right. left. clear -Hp Hm2. unfold stop in Hp. destruct m as [|[mk mv] m0 _] using rev_ind; [lia|].
    rewrite last_end_snoc in Hp. apply Forall_app in Hm2 as [_ Hk].
    apply Forall_cons in Hk as [Hk _]. simpl in Hk. apply Exists_app. right. left. simpl.
    destruct (m0 ++ [(mk, mv)]) eqn:E; [by destruct m0|]. lia.
Qed.

Lemma edges_ok_snoc_keys s hi l k n :
  edges_ok s hi (l ++ [(k, n)]) -> Forall (fun e => e.1 < k) l /\ last_end s l < k.
Proof.
  intros [Hl (Hk & _)]%edges_ok_app. split; [|done]. revert s Hl Hk.
  induction l as [|[k0 n0] l IH]; intros s; [constructor|].
  intros (? & ? & ? & Hx) Hlt. constructor; [|by apply (IH (k0 + n0))].
  simpl in *. pose proof (last_end_bounds (k0 + n0) hi l ltac:(lia) Hx). lia.
Qed.

(** The shape of the merged ranges: ranges [l] before, one range from [b] to
    [stop] that holds the segment, and ranges [r] behind.  Every position of
    the result outside the segment was covered before. *)
Lemma edges_merge_shape a n s hi es :
  0 < n -> s <= a -> edges_ok s hi es ->
  exists l b stop r,
    edges_merge es a n = Done (l ++ (b, stop - b) :: r)
    /\ edges_ok s hi l /\ (last_end s l < b \/ (l = [] /\ b = a)) /\ b <= a
    /\ a + n <= stop <= Z.max hi (a + n) /\ edges_ok stop (Z.max hi (a + n)) r
    /\ (forall p, covered (l ++ (b, stop - b) :: r) p -> covered es p \/ a <= p < a + n)
    /\ ((forall k m, (k, m) ∈ es -> k < a -> k + m < a \/ k + m <= a + n) ->
        forall p, covered es p -> covered (l ++ (b, stop - b) :: r) p).
Proof.
  intros Hn Ha Hes.
  destruct (edges_select_spec a n s hi es Hn Ha Hes) as (l & r & stop & E & Hl & Hokl & Hstop & Hra & Hr & Hcov & Hkeep & Hsub).
  unfold edges_merge. rewrite E. simpl.
  rewrite edges_prev_key_spec; [|done|fimpl Hra].
  assert (Hc : forall l' b, (forall p, covered l' p \/ b <= p < a -> covered (l ++ r) p) ->
     forall p, covered (l' ++ (b, stop - b) :: r) p -> covered es p \/ a <= p < a + n).
  { intros l' b Hb p. unfold covered at 1. rewrite Exists_app, Exists_cons. simpl.
    intros [Hp|[Hp|Hp]]; [left; apply Hcov; left; apply Hb; by left| |
      left; apply Hcov; left; apply Exists_app; by right].
    destruct (Z.lt_ge_cases p a); [left; apply Hcov; left; apply Hb; right; lia|].
    destruct (Z.lt_ge_cases p (a + n)); [right; lia|]. left. apply Hcov. right. lia. }
  assert (Hself : forall p, covered l p \/ a <= p < a -> covered (l ++ r) p)
    by (intros p [?|?]; [apply Exists_app; by left|lia]).
  destruct l as [|[pk pn] l0 _] using rev_ind.
  - simpl. exists [], a, stop, r.
    assert (edges_insert a (stop - a) r = (a, stop - a) :: r) as ->
      by (apply (edges_insert_app a _ [] r); done || constructor).
    repeat split; try done; try lia; [by right|by apply (Hc [])|].
    intros _ p [?|?]%Hkeep; [by right|left; simpl; lia].
  - rewrite last_snoc. simpl. destruct (edges_ok_snoc_keys _ _ _ _ _ Hokl) as [Hkl0 Hpk].
    rewrite <- app_assoc. simpl. rewrite edges_get_app by done. simpl.
    pose proof Hl as [_ [Hpa _]%Forall_cons]%Forall_app. simpl in Hpa.
    destruct (Z.leb_spec a (pk + pn)) as [Hmerge|Hno].
    + exists l0, pk, stop, r. rewrite edges_insert_replace by done.
      replace (stop - a + (a - pk)) with (stop - pk) by lia.
      pose proof Hokl as [Hokl0 _]%edges_ok_app.
      repeat split; try done; try lia.
      * apply Hc. intros p Hp. apply Exists_app. left.
        apply Exists_app. destruct Hp as [?|?]; [by left|right; left; simpl; lia].
      * intros Hin p. unfold covered. rewrite Exists_app, Exists_cons. cbn [fst snd].
        intros Hp%Hkeep. unfold covered in Hp. rewrite !Exists_app, Exists_cons, Exists_nil in Hp.
        cbn [fst snd] in Hp. destruct Hp as [[[?|[Hp|[]]]|?]|?]; [tauto| |tauto|right; left; lia].
        right. left. assert (pk + pn <= a + n); [|lia].
        destruct (Hin pk pn) as [?|?]; [apply Hsub; rewrite !elem_of_app, list_elem_of_singleton; auto|lia|lia|lia].
    + replace (l0 ++ (pk, pn) :: r) with ((l0 ++ [(pk, pn)]) ++ r) by (by rewrite <- app_assoc).
      rewrite edges_insert_app by done. exists (l0 ++ [(pk, pn)]), a, stop, r.
      rewrite last_end_snoc. repeat split; try done; try lia; [by apply Hc|].
      intros _ p. unfold covered. rewrite (Exists_app _ (l0 ++ _)), Exists_cons. cbn [fst snd].
      intros [Hp|Hp]%Hkeep; [|right; left; lia]. apply Exists_app in Hp. tauto.
Qed.
End edges.

(** ** Invariant *)

Record window_wf (w : Window) : Prop := {
  wwf_sequence : is_u32 (w_sequence w);
  wwf_capacity : w_capacity w <= MAX_U32_WINDOW_SIZE;
  wwf_buffer : len (w_buffer w) <= w_capacity w;
  wwf_size : 0 <= w_size w <= len (w_buffer w);
  wwf_head : head_ok (w_buffer w) (w_head w);
  wwf_edges : edges_ok (w_sequence w) (w_sequence w + w_size w) (w_edges w)
}.

(** The filled bytes of the window satisfy [F], by their position from the
    sequence number of the window on; and the case that they are those of a
    stream. *)
Definition window_sat (w : Window) (F : Z -> byte -> Prop) : Prop :=
  forall i, 0 <= i -> covered (w_edges w) (w_sequence w + i) -> F i (ring_at (w_buffer w) (w_head w) i).
Definition window_holds (w : Window) (f : Z -> byte) : Prop := window_sat w (fun i b => b = f i).

Ltac win_lia := unfold MAX_U32_WINDOW_SIZE, is_u32, usize_max, u64_max, u32_max in *; lia.

(** ** Lemmas on the parts of [append] *)

(** The key of a segment counts from the sequence number of the window. *)
Lemma window_key x s :
  is_u32 x -> is_u32 s -> (if x <? s then x + u32_max else x) = s + seq_sub x s.
Proof. intros. unfold seq_sub, checked_sub. zcases. Qed.

Lemma covered_bounds lo hi es p : edges_ok lo hi es -> covered es p -> lo < p < hi.
Proof.
  intros Hok Hc. revert lo Hok. induction Hc as [[k n] es Hp|[k n] es _ IH]; intros lo (? & ? & ? & Hr).
  - simpl in Hp. lia.
  - specialize (IH _ Hr). lia.
Qed.

Lemma window_reserve_spec w size :
  window_wf w -> size <= w_capacity w ->
  exists buffer,
    window_reserve w size = Done buffer
    /\ len (w_buffer w) <= len buffer <= w_capacity w
    /\ size <= len buffer
    /\ head_ok buffer (w_head w)
    /\ forall i, 0 <= i < w_size w -> ring_at buffer (w_head w) i = ring_at (w_buffer w) (w_head w) i.
Proof.
  intros [Hs Hc Hb Hz Hh _] Hfit. unfold window_reserve, usize_mul. zcase.
  - rewrite int_mul_Done by win_lia. simpl.
    unfold window_tail. rewrite ring_tail_index by (unfold head_ok in Hh; win_lia).
    set (new_len := Z.min _ _).
    assert (len (w_buffer w) < new_len <= w_capacity w /\ size <= new_len) by (unfold new_len; lia).
    destruct (ring_extend_at (w_buffer w) (w_head w) (w_size w) new_len) as (b & -> & Hl & Hat);
      [done|lia|lia|].
    exists b. split; [done|]. split; [lia|]. split; [lia|]. split; [unfold head_ok in *; lia|done].
  - exists (w_buffer w). split; [done|]. split; [lia|]. split; [lia|]. done.
Qed.

Lemma window_next_size_ok w x payload :
  is_u32 (w_sequence w) -> is_u32 x -> 0 <= w_size w <= MAX_U32_WINDOW_SIZE -> 0 < len payload ->
  seq_sub x (w_sequence w) + len payload <= MAX_U32_WINDOW_SIZE ->
  window_next_size w x payload = Done (Z.max (w_size w) (seq_sub x (w_sequence w) + len payload)).
Proof.
  intros Hs Hx Hz Hn Hd. pose proof (seq_sub_u32 x (w_sequence w) Hx Hs).
  unfold window_next_size. rewrite !seq_add_as_u32 by win_lia.
  assert (seq_add x (len payload) = seq_add (w_sequence w) (seq_sub x (w_sequence w) + len payload))
    as -> by seq_lia.
  rewrite seq_sub_add_add by win_lia. unfold usize_add.
  destruct (Z.leb_spec (w_size w) (seq_sub x (w_sequence w) + len payload)).
  - zcase; [|win_lia]. rewrite int_add_Done by win_lia. f_equal. lia.
  - zcase; [win_lia|]. unfold mret, outcome_ret. f_equal. lia.
Qed.

Lemma window_shrink_app l r lo hi :
  edges_ok lo hi r -> u32_max <= lo -> hi - u32_max <= lo ->
  (forall e, e ∈ l -> e.1 < lo - u32_max) ->
  window_shrink (map fst r) (l ++ r) = Done (l ++ map (fun e => (e.1 - u32_max, e.2)) r).
Proof.
  intros Hr Hlo Hhi. revert l lo Hr Hlo Hhi. induction r as [|[k n] r IH]; intros l lo Hr Hlo Hhi Hl; [done|].
  destruct Hr as (Hk & Hn & Hkn & Hr). cbn [map window_shrink fst snd].
  assert (Hl' : Forall (fun e => e.1 < lo - u32_max) l) by (apply Forall_forall; apply Hl).
  rewrite edges_get_app by (fimpl Hl'). simpl. rewrite int_sub_Done by lia. simpl.
  pose proof (edges_ok_keys _ _ _ Hr) as Hrk.
  assert (edges_remove k (l ++ (k, n) :: r) = l ++ r) as ->.
  { unfold edges_remove. rewrite List.filter_app. rewrite (filter_all _ l).
    - f_equal. apply (edges_remove_head k n r). fimpl Hrk.
    - eapply Forall_impl; [exact Hl'|]. intros [k1 v1] ?. simpl in *. by destruct (Z.eqb_spec k1 k); [lia|]. }
  rewrite edges_insert_app by (fimpl Hl' || fimpl Hrk).
  replace (l ++ (k - u32_max, n) :: r) with ((l ++ [(k - u32_max, n)]) ++ r) by (by rewrite <- app_assoc).
  rewrite (IH _ (k + n)); [by rewrite <- app_assoc|done|lia|lia|].
  intros e [?%Hl|He%list_elem_of_singleton]%elem_of_app; [lia|]. subst e. simpl. lia.
Qed.

Lemma window_shrink_all r lo hi :
  edges_ok lo hi r -> u32_max <= lo -> hi - u32_max <= lo ->
  window_shrink (map fst r) r = Done (map (fun e => (e.1 - u32_max, e.2)) r).
Proof.
  intros. apply (window_shrink_app [] r lo hi); [done..|].
  intros e He. by apply elem_of_nil in He.
Qed.

Lemma covered_shift c es p :
  covered (map (fun e => (e.1 - c, e.2)) es) p -> covered es (p + c).
Proof.
  unfold covered. induction es as [|[k n] es IH]; simpl; rewrite ?Exists_nil, ?Exists_cons; [done|].
  simpl. intros [?|?]; [left; lia|right; auto].
Qed.

(** The first range is at the begin of the window: it is handed out. *)
Lemma window_pop_some w m r :
  is_u32 (w_sequence w) -> w_capacity w <= MAX_U32_WINDOW_SIZE -> len (w_buffer w) <= w_capacity w ->
  w_size w <= len (w_buffer w) -> head_ok (w_buffer w) (w_head w) ->
  w_edges w = (w_sequence w, m) :: r -> 0 < m <= w_size w ->
  edges_ok (w_sequence w + m) (w_sequence w + w_size w) r ->
  exists w',
    window_pop w = Done (w', Some (tabulate m (ring_at (w_buffer w) (w_head w))))
    /\ window_wf w' /\ w_capacity w' = w_capacity w
    /\ w_sequence w' = seq_add (w_sequence w) m
    /\ w_size w' = w_size w - m
    /\ forall i, 0 <= i -> covered (w_edges w') (w_sequence w' + i) ->
         covered r (w_sequence w + m + i)
         /\ ring_at (w_buffer w') (w_head w') i = ring_at (w_buffer w) (w_head w) (m + i).
Proof.
  intros Hs Hc Hb Hz Hh He Hm Hr. unfold window_pop. rewrite He. simpl.
  unfold as_u32. rewrite Z.mod_small by ilia. rewrite Z.eqb_refl. simpl.
  pose proof (edges_ok_keys _ _ _ Hr) as Hrk.
  rewrite edges_remove_head by (fimpl Hrk).
  set (c := if u32_max - w_sequence w <? m then u32_max else 0).
  assert (Hseq : seq_add (w_sequence w) m = w_sequence w + m - c)
    by (unfold c, seq_add, checked_add; zcases).
  assert ((if u32_max - w_sequence w <? m then window_shrink (map fst r) r else mret r)
          = Done (map (fun e => (e.1 - c, e.2)) r)) as ->.
  { unfold c. zcase; [apply (window_shrink_all r (w_sequence w + m) (w_sequence w + w_size w)); [done|win_lia|win_lia]|].
    unfold mret, outcome_ret. f_equal. symmetry. rewrite <- (map_id r) at 2. apply map_ext.
    intros [k n]. simpl. f_equal. lia. }
  simpl. rewrite ring_read_at by (unfold head_ok in Hh; lia). simpl.
  rewrite Z.mod_small by win_lia. rewrite Hseq. autorewrite with zlist.
  replace (Z.max 0 m) with m by lia. unfold usize_add.
  assert (Hhd : (q_r ← int_rem m (len (w_buffer w)); sum ← int_add usize_max (w_head w) q_r; int_rem sum (len (w_buffer w)))
     = Done (ring_index (len (w_buffer w)) (w_head w + m))) by (apply ring_advance; [done|lia|unfold head_ok in Hh; win_lia]).
  revert Hhd. rewrite int_rem_Done by lia. simpl. rewrite int_add_Done
    by (pose proof (Z.mod_pos_bound m (len (w_buffer w))); unfold head_ok in Hh; win_lia). simpl.
  intros ->. simpl. rewrite int_sub_Done by lia. simpl.
  eexists. split; [done|]. simpl. split; [constructor; simpl|split; [done|split; [done|split; [done|]]]].
  - rewrite <- Hseq. apply seq_add_u32; [done|win_lia].
  - done.
  - done.
  - lia.
  - apply ring_index_head_ok; [done|lia].
  - replace (w_sequence w + m - c + (w_size w - m)) with (w_sequence w + w_size w - c) by lia.
    by apply edges_ok_shift.
  - intros i Hi Hcov. apply covered_shift in Hcov.
    replace (w_sequence w + m - c + i + c) with (w_sequence w + m + i) in Hcov by lia.
    split; [done|]. pose proof (covered_bounds _ _ _ _ Hr Hcov).
    apply ring_at_shift; [done|lia|lia|lia].
Qed.

(** The first range begins later: nothing is handed out. *)
Lemma window_pop_none w :
  is_u32 (w_sequence w) -> w_size w <= MAX_U32_WINDOW_SIZE -> w_edges w <> [] ->
  edges_ok (w_sequence w) (w_sequence w + w_size w) (w_edges w) ->
  window_pop w = Done (w, None).
Proof.
  intros Hs Hz Hne Hok. unfold window_pop. destruct (w_edges w) as [|[k n] r]; [done|].
  destruct Hok as (? & ? & ? & _). simpl.
  destruct (Z.eqb_spec (as_u32 k) (w_sequence w)) as [E|]; [|done]. exfalso. unfold as_u32 in E.
  destruct (Z.lt_ge_cases k 4294967296).
  - rewrite Z.mod_small in E; win_lia.
  - replace k with (k - 4294967296 + 1 * 4294967296) in E by lia.
    rewrite Z.mod_add, Z.mod_small in E; win_lia.
Qed.

(** ** [append] *)

(** A segment inside the window, up to the point where ranges are merged: the
    buffer holds the segment and the old bytes. *)
Lemma window_store_ok w x payload F :
  window_wf w -> is_u32 x -> 0 < len payload ->
  seq_sub x (w_sequence w) + len payload <= w_capacity w ->
  window_sat w F ->
  (forall i, 0 <= i < len payload -> F (seq_sub x (w_sequence w) + i) (zat payload i)) ->
  let d := seq_sub x (w_sequence w) in
  exists buffer,
    window_store w x payload d (d + len payload)
    = Done (w_with_size (w_with_buffer w buffer) (Z.max (w_size w) (d + len payload)))
    /\ len buffer <= w_capacity w /\ Z.max (w_size w) (d + len payload) <= len buffer
    /\ head_ok buffer (w_head w)
    /\ forall i, 0 <= i -> covered (w_edges w) (w_sequence w + i) \/ d <= i < d + len payload ->
         F i (ring_at buffer (w_head w) i).
Proof.
  intros Hwf Hx Hn Hfit Hf Hp d. pose proof Hwf as [Hs Hc Hb Hz Hh He].
  assert (0 <= d) by (pose proof (seq_sub_u32 x _ Hx Hs); unfold d; ilia). fold d in Hfit, Hp.
  destruct (window_reserve_spec w (d + len payload) Hwf Hfit) as (b & Eb & Hb1 & Hb2 & Hhb & Hat).
  destruct (ring_write_at b (w_head w) d payload) as (b' & Ew & Hb' & Hw); [done|lia|lia|].
  exists b'. split; [|split; [lia|split; [lia|split]]].
  - unfold window_store. rewrite Eb. simpl. rewrite ring_tail_index by (unfold head_ok in *; win_lia).
    rewrite Ew. simpl. rewrite window_next_size_ok by (simpl; fold d; win_lia). done.
  - unfold head_ok in *. lia.
  - intros i Hi Hci. assert (i < len b).
    { destruct Hci as [Hci|]; [|lia]. pose proof (covered_bounds _ _ _ _ He Hci). lia. }
    rewrite Hw by lia. destruct (Z.leb_spec d i), (Z.ltb_spec i (d + len payload)); simpl.
    2-4: destruct Hci as [Hci|]; [|lia]; pose proof (covered_bounds _ _ _ _ He Hci);
         rewrite Hat by lia; by apply Hf.
    replace i with (d + (i - d)) at 1 by lia. apply Hp. lia.
Qed.

Lemma covered_range l b n r p : b <= p < b + n -> covered (l ++ (b, n) :: r) p.
Proof. intros. apply Exists_app. right. left. done. Qed.

(** The state of [append] before the last part: the ranges have the shape of
    [edges_merge_shape] and the covered bytes are those of the stream. *)
Lemma window_append_merged w x payload F :
  window_wf w -> is_u32 x -> 0 < len payload ->
  seq_sub x (w_sequence w) + len payload <= w_capacity w ->
  window_sat w F ->
  (forall i, 0 <= i < len payload -> F (seq_sub x (w_sequence w) + i) (zat payload i)) ->
  exists w1 l k stop r,
    window_append w x payload = ('(w, r) ← window_pop w1; mret (w, Ok r))
    /\ w_capacity w1 = w_capacity w /\ w_sequence w1 = w_sequence w
    /\ len (w_buffer w1) <= w_capacity w1
    /\ w_size w <= w_size w1 <= len (w_buffer w1)
    /\ head_ok (w_buffer w1) (w_head w1)
    /\ w_edges w1 = l ++ (k, stop - k) :: r
    /\ edges_ok (w_sequence w) (w_sequence w + w_size w) l
    /\ (last_end (w_sequence w) l < k \/ (l = [] /\ k = w_sequence w + seq_sub x (w_sequence w)))
    /\ k <= w_sequence w + seq_sub x (w_sequence w)
    /\ w_sequence w + seq_sub x (w_sequence w) + len payload <= stop <= w_sequence w + w_size w1
    /\ edges_ok stop (w_sequence w + w_size w1) r
    /\ window_sat w1 F.
Proof.
  intros Hwf Hx Hn Hfit Hf Hp. pose proof Hwf as [Hs Hc Hb Hz Hh He].
  destruct (window_store_ok w x payload F Hwf Hx Hn Hfit Hf Hp) as (b & Estore & Hb1 & Hb2 & Hhb & Hbf).
  assert (0 <= seq_sub x (w_sequence w)) as Hd by (pose proof (seq_sub_u32 x _ Hx Hs); ilia).
  pose proof (window_key x (w_sequence w) Hx Hs) as Hkey.
  unfold window_append, window_trim. remember (seq_sub x (w_sequence w)) as d eqn:Ed.
  destruct (Z.ltb_spec MAX_U32_WINDOW_SIZE d); [lia|].
  unfold mret at 1, outcome_ret at 1. rewrite outcome_bind_Done.
  unfold usize_add. rewrite int_add_Done by win_lia. rewrite outcome_bind_Done.
  destruct (Z.ltb_spec (w_capacity w) (d + len payload)); [lia|].
  rewrite Estore, outcome_bind_Done. unfold window_merge. cbn [w_sequence w_edges w_with_size w_with_buffer].
  rewrite Hkey.
  destruct (edges_merge_shape (w_sequence w + d) (len payload) (w_sequence w) (w_sequence w + w_size w) (w_edges w))
    as (l & k & stop & r & -> & Hl & Hlk & Hka & Hstop & Hr & Hcov & _); [lia|lia|done|].
  rewrite outcome_bind_Done.
  replace (Z.max (w_sequence w + w_size w) (w_sequence w + d + len payload))
    with (w_sequence w + Z.max (w_size w) (d + len payload)) in * by lia.
  eexists _, l, k, stop, r. split; [reflexivity|].
  cbn [w_sequence w_edges w_with_size w_with_buffer w_with_edges w_capacity w_size w_buffer w_head].
  repeat (split; [done || lia|]). intros i Hi.
  cbn [w_sequence w_edges w_with_size w_with_buffer w_with_edges w_buffer w_head].
  intros Hci. apply Hbf; [done|]. destruct (Hcov _ Hci); [by left|right; lia].
Qed.

Lemma seq_sub_0 x s : is_u32 x -> is_u32 s -> seq_sub x s = 0 -> x = s \/ (x = 0 /\ s = u32_max).
Proof. intros. seq_lia. Qed.

(** A segment at the begin of the window is handed out, with the bytes that
    follow it. *)
Lemma window_append_begin w x payload F :
  window_wf w -> is_u32 x -> 0 < len payload <= w_capacity w ->
  seq_sub x (w_sequence w) = 0 -> window_sat w F ->
  (forall i, 0 <= i < len payload -> F i (zat payload i)) ->
  exists w' p,
    window_append w x payload = Done (w', Ok (Some p)) /\ window_wf w' /\ w_capacity w' = w_capacity w
    /\ len payload <= len p <= w_capacity w /\ (forall i, 0 <= i < len p -> F i (zat p i))
    /\ w_sequence w' = seq_add (w_sequence w) (len p)
    /\ window_sat w' (fun i => F (len p + i)).
Proof.
  intros Hwf Hx Hn Hd Hf Hp. pose proof Hwf as [Hs Hc Hb Hz Hh He].
  destruct (window_append_merged w x payload F) as
    (w1 & l & k & stop & r & -> & Ecap & Eseq & Hb1 & Hz1 & Hh1 & Hes & Hl & Hlk & Hka & Hstop & Hr & Hf1);
    try done; try lia; [by rewrite Hd|]. rewrite Hd in *.
  pose proof (last_end_bounds (w_sequence w) (w_sequence w + w_size w) l ltac:(lia) Hl).
  assert (l = [] /\ k = w_sequence w) as [-> ->] by (destruct Hlk as [?|[-> ->]]; [lia|split; [done|lia]]).
  destruct (window_pop_some w1 (stop - w_sequence w) r) as (w2 & -> & Hwf2 & Hcap & Hseq & Hsz & Hh2);
    rewrite ?Eseq; try done; try lia.
  { replace (w_sequence w + (stop - w_sequence w)) with stop by lia. done. }
  rewrite outcome_bind_Done. eexists w2, _. split; [reflexivity|]. split; [done|]. split; [congruence|].
  autorewrite with zlist. replace (Z.max 0 (stop - w_sequence w)) with (stop - w_sequence w) by lia.
  split; [lia|]. split; [|split; [congruence|]].
  - intros i Hi. rewrite zat_tabulate by lia. apply Hf1; [lia|]. rewrite Hes, Eseq. apply (covered_range []). lia.
  - intros i Hi Hci. destruct (Hh2 i Hi Hci) as [Hci' ->].
    apply Hf1; [lia|].
    rewrite Hes. right. replace (w_sequence w1 + (stop - w_sequence w + i))
      with (w_sequence w1 + (stop - w_sequence w) + i) by lia. done.
Qed.

(** A segment behind a gap is kept. *)
Lemma window_append_gap w x payload F :
  window_wf w -> is_u32 x -> 0 < len payload -> 0 < seq_sub x (w_sequence w) ->
  seq_sub x (w_sequence w) + len payload <= w_capacity w -> window_sat w F ->
  (forall i, 0 <= i < len payload -> F (seq_sub x (w_sequence w) + i) (zat payload i)) ->
  exists w',
    window_append w x payload = Done (w', Ok None) /\ window_wf w' /\ w_capacity w' = w_capacity w
    /\ w_sequence w' = w_sequence w /\ window_sat w' F
    /\ (forall i, 0 <= i < len payload ->
         covered (w_edges w') (w_sequence w + seq_sub x (w_sequence w) + i)).
Proof.
  intros Hwf Hx Hn Hd Hfit Hf Hp. pose proof Hwf as [Hs Hc Hb Hz Hh He].
  destruct (window_append_merged w x payload F) as
    (w1 & l & k & stop & r & -> & Ecap & Eseq & Hb1 & Hz1 & Hh1 & Hes & Hl & Hlk & Hka & Hstop & Hr & Hf1);
    try done.
  pose proof (last_end_bounds (w_sequence w) (w_sequence w + w_size w) l ltac:(lia) Hl).
  assert (Hok1 : edges_ok (w_sequence w) (w_sequence w + w_size w1) (l ++ (k, stop - k) :: r)).
  { apply edges_ok_app. split; [apply (edges_ok_weaken (w_sequence w) _ (w_sequence w + w_size w)); [lia|lia|done]|].
    repeat split; [destruct Hlk as [?|[-> ->]]; cbn [last_end]; lia|lia|lia|].
    by replace (k + (stop - k)) with stop by lia. }
  rewrite window_pop_none; rewrite ?Eseq, ?Hes; [|done|win_lia|by destruct l|done].
  rewrite outcome_bind_Done. exists w1. split; [reflexivity|].
  split; [constructor; rewrite ?Eseq, ?Hes; try done; lia|]. split; [done|]. split; [done|].
  split; [done|]. intros i Hi. rewrite Hes. apply covered_range. lia.
Qed.

(** ** Segments that begin before the window *)

(** The begin of such a segment is cut off.  The numbers do not wrap between
    the begin of the segment and its end. *)
Lemma window_trim_overlap w b payload :
  is_u32 (w_sequence w) -> 0 < b <= w_sequence w -> b < u32_max - MAX_U32_WINDOW_SIZE ->
  b <= len payload -> w_sequence w - b + len payload <= u32_max ->
  window_trim w (w_sequence w - b) payload
  = Done (if len payload =? b then None else Some (w_sequence w, zdrop b payload, 0)).
Proof.
  intros Hs Hb Hw Hn Hmax. unfold window_trim.
  assert (seq_sub (w_sequence w - b) (w_sequence w) = u32_max - b) as -> by seq_lia.
  destruct (Z.ltb_spec MAX_U32_WINDOW_SIZE (u32_max - b)); [|lia].
  rewrite seq_add_as_u32 by ilia.
  assert (seq_add (w_sequence w - b) (len payload) = w_sequence w - b + len payload) as -> by seq_lia.
  unfold checked_sub. zcase; [|lia]. unfold mret at 1, outcome_ret at 1. rewrite outcome_bind_Done.
  destruct (Z.ltb_spec 0 (w_sequence w - b + len payload - w_sequence w)), (Z.eqb_spec (len payload) b); try lia.
  - rewrite int_sub_Done, outcome_bind_Done by lia.
    replace (w_sequence w - (w_sequence w - b)) with b by lia.
    rewrite slice_Done by lia. rewrite outcome_bind_Done. rewrite ztake_all by zl. done.
  - done.
Qed.

(** An overlapping segment is handled as the rest of it at the begin of the
    window. *)
Lemma window_append_overlap w b payload :
  is_u32 (w_sequence w) -> 0 < b <= w_sequence w -> b < u32_max - MAX_U32_WINDOW_SIZE ->
  b <= len payload -> w_sequence w - b + len payload <= u32_max ->
  window_append w (w_sequence w - b) payload
  = if len payload =? b then Done (w, Ok None) else window_append w (w_sequence w) (zdrop b payload).
Proof.
  intros Hs Hb Hw Hn Hmax. unfold window_append at 1. rewrite window_trim_overlap by done.
  rewrite outcome_bind_Done. zcase; [done|].
  unfold window_append, window_trim. rewrite seq_sub_diag by done. zcase; [|done].
  unfold MAX_U32_WINDOW_SIZE in *. lia.
Qed.

(** *** Segments in reach of the window *)

(** Where a segment may lie for [append] to handle it: at or behind the begin
    of the window, or across it without a wrap of its numbers. *)
Definition in_reach (w : Window) (x : Z) (payload : list byte) : Prop :=
  is_u32 x /\ 0 < len payload <= u16_max
  /\ (seq_ahead x (w_sequence w) = true
      \/ (0 < w_sequence w - x <= len payload /\ w_sequence w - x < u32_max - MAX_U32_WINDOW_SIZE
          /\ x + len payload <= u32_max)).

(** What [append] leaves for its answer. *)
Definition appended (w w' : Window) (r : io_result (option (list byte))) : Prop :=
  window_wf w' /\ w_capacity w' = w_capacity w
  /\ match r with
     | Err _ => w' = w
     | Ok None => w_sequence w' = w_sequence w
     | Ok (Some p) => 0 < len p <= w_capacity w /\ w_sequence w' = seq_add (w_sequence w) (len p)
     end.

Lemma window_append_refused w x payload :
  is_u32 x -> is_u32 (w_sequence w) -> len payload <= usize_max - u32_max ->
  seq_ahead x (w_sequence w) = true -> w_capacity w < seq_sub x (w_sequence w) + len payload ->
  window_append w x payload = Done (w, Err (mkIoError EOther "window is full")).
Proof.
  intros Hx Hs Hn Ha Hfull. unfold window_append, window_trim. unfold seq_ahead in Ha. apply Z.leb_le in Ha.
  destruct (Z.ltb_spec MAX_U32_WINDOW_SIZE (seq_sub x (w_sequence w))); [lia|].
  unfold mret at 1, outcome_ret at 1. rewrite outcome_bind_Done.
  pose proof (len_nonneg payload). pose proof (seq_sub_u32 x _ Hx Hs). unfold usize_add.
  ostep int_add_Done by ilia. by destruct (Z.ltb_spec (w_capacity w) (seq_sub x (w_sequence w) + len payload)); [|lia].
Qed.

Lemma window_append_ahead w x payload :
  window_wf w -> is_u32 x -> 0 < len payload <= u16_max -> seq_ahead x (w_sequence w) = true ->
  exists w' r, window_append w x payload = Done (w', r) /\ appended w w' r.
Proof.
  intros Hwf Hx Hn Ha. pose proof Hwf as [Hs Hc _ _ _ _]. pose proof (seq_sub_u32 x _ Hx Hs) as Hd.
  assert (Hsat : window_sat w (fun _ _ => True)) by done.
  destruct (Z.lt_ge_cases (w_capacity w) (seq_sub x (w_sequence w) + len payload)).
  - rewrite window_append_refused by (done || ilia). eexists w, _. split; [done|]. by split.
  - destruct (Z.eq_dec (seq_sub x (w_sequence w)) 0).
    + destruct (window_append_begin w x payload (fun _ _ => True)) as (w' & p & -> & Hwf' & Hc' & Hp & _ & Hs' & _);
        try done; [lia|]. exists w', (Ok (Some p)). split; [done|]. split; [done|]. split; [done|]. split; [lia|done].
    + destruct (window_append_gap w x payload (fun _ _ => True)) as (w' & -> & Hwf' & Hc' & Hs' & _);
        try done; [lia|ilia|]. exists w', (Ok None). split; [done|]. by split.
Qed.

Lemma window_append_safe w x payload :
  window_wf w -> in_reach w x payload ->
  exists w' r, window_append w x payload = Done (w', r) /\ appended w w' r.
Proof.
  intros Hwf (Hx & Hn & [Ha|(Hb & Hbw & Hmax)]); [by apply window_append_ahead|].
  pose proof Hwf as [Hs _ _ _ _ _]. replace x with (w_sequence w - (w_sequence w - x)) by lia.
  rewrite window_append_overlap by ilia. zcase.
  - exists w, (Ok None). split; [done|]. by split.
  - apply window_append_ahead; [done|done|rewrite len_zdrop; ilia|]. unfold seq_ahead, seq_sub, checked_sub.
    destruct (Z.leb_spec (w_sequence w) (w_sequence w)); [|lia]. rewrite Z.sub_diag. done.
Qed.

(** ** Theorems *)

(** The states of a receive window that is fed with segments of the stream
    [f], and the bytes handed out so far.  A segment may come in any order and
    overlap others; it begins [d] bytes behind the begin of the window, or [b]
    bytes before it. *)
Inductive receives (f : Z -> byte) (capacity isn : Z) : Window -> list byte -> Prop :=
| receives_new : receives f capacity isn (window_with_capacity capacity isn) []
| receives_segment w out d payload w' r :
    receives f capacity isn w out ->
    0 < len payload -> 0 <= d -> d + len payload <= capacity ->
    (forall i, 0 <= i < len payload -> zat payload i = f (len out + d + i)) ->
    window_append w (seq_add (w_sequence w) d) payload = Done (w', Ok r) ->
    receives f capacity isn w' (out ++ default [] r)
| receives_overlap w out b payload w' r :
    receives f capacity isn w out ->
    0 < b <= w_sequence w -> b < u32_max - MAX_U32_WINDOW_SIZE ->
    b <= len payload -> w_sequence w - b + len payload <= u32_max -> len payload - b <= capacity ->
    (forall i, b <= i < len payload -> zat payload i = f (len out + i - b)) ->
    window_append w (w_sequence w - b) payload = Done (w', Ok r) ->
    receives f capacity isn w' (out ++ default [] r).

Section reassembly.
Context (f : Z -> byte) (capacity isn : Z).
Context (Hcap : 0 <= capacity <= MAX_U32_WINDOW_SIZE) (Hisn : is_u32 isn).

Definition receives_inv (w : Window) (out : list byte) : Prop :=
  window_wf w /\ w_capacity w = capacity
  /\ out = tabulate (len out) f /\ window_holds w (fun i => f (len out + i)).

Lemma tabulate_app n m g : 0 <= n -> 0 <= m ->
  tabulate n g ++ tabulate m (fun i => g (n + i)) = tabulate (n + m) g.
Proof.
  intros. apply zat_ext; [zl|]. intros i Hi. autorewrite with zlist in Hi.
  rewrite zat_app by lia. autorewrite with zlist.
  rewrite (zat_tabulate (n + m)) by lia. zcase; rewrite zat_tabulate by lia; f_equal; lia.
Qed.

(** A segment inside the window is accepted and keeps the invariant; one at
    its begin is handed out. *)
Lemma receives_inv_segment w out d payload :
  receives_inv w out -> 0 < len payload -> 0 <= d -> d + len payload <= capacity ->
  (forall i, 0 <= i < len payload -> zat payload i = f (len out + d + i)) ->
  exists w' r, window_append w (seq_add (w_sequence w) d) payload = Done (w', Ok r)
    /\ receives_inv w' (out ++ default [] r)
    /\ (d = 0 -> len payload <= len (default [] r))
    /\ w_sequence w' = seq_add (w_sequence w) (len (default [] r))
    /\ len (default [] r) <= capacity.
Proof.
  intros (Hwf & Ec & Eout & Hf) Hn Hd Hfit Hp. pose proof Hwf as [Hs Hc Hb Hz Hh He].
  assert (Hx : is_u32 (seq_add (w_sequence w) d)) by (apply seq_add_u32; [done|win_lia]).
  assert (Hsd : seq_sub (seq_add (w_sequence w) d) (w_sequence w) = d)
    by (apply seq_sub_add; [done|win_lia]).
  destruct (Z.eq_dec d 0) as [->|Hd0].
  - destruct (window_append_begin w (seq_add (w_sequence w) 0) payload (fun i b => b = f (len out + i)))
      as (w' & p & -> & Hwf' & Hc' & Hlp & Hpp & Es & Hf'); try done; try lia.
    { intros i Hi. rewrite Hp by lia. f_equal. lia. }
    assert (Ep : p = tabulate (len p) (fun i => f (len out + i))).
    { apply zat_ext; [pose proof (len_nonneg p); zl|]. intros i Hi. rewrite zat_tabulate by lia. by apply Hpp. }
    exists w', (Some p). split; [done|]. split; [|split; [simpl; lia|split; [done|simpl; lia]]]. unfold receives_inv. simpl.
    split; [done|]. split; [congruence|]. rewrite len_app. split.
    + rewrite <- tabulate_app by apply len_nonneg. congruence.
    + intros i Hi Hci. rewrite (Hf' i Hi Hci). f_equal. lia.
  - destruct (window_append_gap w (seq_add (w_sequence w) d) payload (fun i b => b = f (len out + i)))
      as (w' & -> & Hwf' & Hc' & Es & Hf' & _); try done; try lia.
    { intros i Hi. rewrite Hsd, Hp by lia. f_equal. lia. }
    exists w', None. split; [done|]. split; [|split; [lia|split; [simpl; by rewrite len_nil, seq_add_0|simpl; rewrite len_nil; lia]]].
    unfold receives_inv. simpl. rewrite app_nil_r.
    split; [done|]. split; [congruence|done].
Qed.

(** A segment that begins before the window is cut, or dropped when nothing is
    left of it. *)
Lemma receives_inv_overlap w out b payload :
  receives_inv w out -> 0 < b <= w_sequence w -> b < u32_max - MAX_U32_WINDOW_SIZE ->
  b <= len payload -> w_sequence w - b + len payload <= u32_max -> len payload - b <= capacity ->
  (forall i, b <= i < len payload -> zat payload i = f (len out + i - b)) ->
  exists w' r, window_append w (w_sequence w - b) payload = Done (w', Ok r)
    /\ receives_inv w' (out ++ default [] r)
    /\ w_sequence w' = seq_add (w_sequence w) (len (default [] r))
    /\ len (default [] r) <= capacity.
Proof.
  intros Hinv Hb Hbw Hbn Hmax Hfit Hp. pose proof Hinv as ([Hs _ _ _ _ _] & _).
  rewrite window_append_overlap by done. zcase.
  - exists w, None. simpl. rewrite app_nil_r, len_nil, seq_add_0 by done.
    split; [done|]. split; [done|]. split; [done|lia].
  - destruct (receives_inv_segment w out 0 (zdrop b payload)) as (w2 & r2 & E2 & Hinv2 & _ & Es2 & Hl2);
      [done|zl|lia|zl| |].
    { intros i Hi. autorewrite with zlist in Hi. rewrite zat_zdrop, Hp by lia. f_equal. lia. }
    rewrite seq_add_0 in E2 by done. by exists w2, r2.
Qed.

Lemma receives_inv_new : receives_inv (window_with_capacity capacity isn) [].
Proof.
  split; [|split; [done|split; [done|]]].
  - constructor; simpl; rewrite ?len_nil; try done; try lia. unfold head_ok. lia.
  - intros i _ Hc. by apply Exists_nil in Hc.
Qed.

Lemma receives_inv_holds w out : receives f capacity isn w out -> receives_inv w out.
Proof.
  induction 1 as [|w out d payload w' r _ IH Hn Hd Hfit Hp E|w out b payload w' r _ IH Hb Hbw Hbn Hmax Hfit Hp E].
  - apply receives_inv_new.
  - destruct (receives_inv_segment w out d payload) as (w2 & r2 & E2 & Hinv & _); [done..|].
    rewrite E in E2. by injection E2 as -> ->.
  - destruct (receives_inv_overlap w out b payload) as (w2 & r2 & E2 & Hinv & _); [done..|].
    rewrite E in E2. by injection E2 as -> ->.
Qed.
End reassembly.

(** A segment of the stream [f], with the number [x], for a receiver that has
    [out] and expects [next]: inside the window of [capacity] bytes, or across
    its begin. *)
Definition carries (f : Z -> byte) (capacity : Z) (out : list byte) (next x : Z) (payload : list byte) : Prop :=
  (exists d, x = seq_add next d /\ 0 < len payload /\ 0 <= d /\ d + len payload <= capacity
     /\ forall i, 0 <= i < len payload -> zat payload i = f (len out + d + i))
  \/ (exists b, x = next - b /\ 0 < b <= next /\ b < u32_max - MAX_U32_WINDOW_SIZE
     /\ b <= len payload /\ next - b + len payload <= u32_max /\ len payload - b <= capacity
     /\ forall i, b <= i < len payload -> zat payload i = f (len out + i - b)).

(** The window takes it, hands out what is in order and moves by that. *)
Lemma receives_carries f capacity isn w out x payload :
  0 <= capacity <= MAX_U32_WINDOW_SIZE -> is_u32 isn -> receives f capacity isn w out ->
  carries f capacity out (w_sequence w) x payload ->
  exists w' r, window_append w x payload = Done (w', Ok r)
    /\ receives f capacity isn w' (out ++ default [] r)
    /\ w_sequence w' = seq_add (w_sequence w) (len (default [] r)) /\ len (default [] r) <= capacity
    /\ (x = w_sequence w -> len payload <= len (default [] r)).
Proof.
  intros Hcap Hisn Hr Hc. pose proof (receives_inv_holds f capacity isn Hcap Hisn w out Hr) as Hinv.
  destruct Hc as [(d & -> & Hn & Hd & Hfit & Hp)|(b & -> & Hb & Hbw & Hbn & Hmax & Hfit & Hp)].
  - destruct (receives_inv_segment f capacity Hcap w out d payload) as (w' & r & E & _ & Hb & Es & Hl); [done..|].
    exists w', r. split; [done|]. split; [by apply (receives_segment f capacity isn w out d payload w' r)|].
    split; [done|]. split; [done|]. intros Hx. apply Hb. destruct Hinv as ([Hs _ _ _ _ _] & _).
    rewrite <- (seq_sub_add (w_sequence w) d), Hx, seq_sub_diag by (done || win_lia). done.
  - destruct (receives_inv_overlap f capacity Hcap w out b payload) as (w' & r & E & _ & Es & Hl); [done..|].
    exists w', r. split; [done|]. split; [by apply (receives_overlap f capacity isn w out b payload w' r)|].
    split; [done|]. split; [done|]. lia.
Qed.

(** C25. Reassembly: whatever the order, the overlaps and the repetitions of the
    segments, the bytes handed out are a prefix of the stream they were cut
    from, and the window keeps its invariant.  Every segment inside the window
    is accepted without a panic, and one at the begin of the window is handed
    out at once, with what follows it. *)
Theorem window_reassembles (f : Z -> byte) (capacity isn : Z) (w : Window) (out : list byte) :
  0 <= capacity <= MAX_U32_WINDOW_SIZE -> is_u32 isn -> receives f capacity isn w out ->
  out = tabulate (len out) f /\ window_wf w
  /\ forall d payload,
       0 < len payload -> 0 <= d -> d + len payload <= capacity ->
       (forall i, 0 <= i < len payload -> zat payload i = f (len out + d + i)) ->
       exists w' r,
         window_append w (seq_add (w_sequence w) d) payload = Done (w', Ok r)
         /\ receives f capacity isn w' (out ++ default [] r)
         /\ (d = 0 -> len payload <= len (default [] r)).
Proof.
  intros Hcap Hisn Hr. pose proof (receives_inv_holds f capacity isn Hcap Hisn w out Hr) as Hinv.
  pose proof Hinv as (Hwf & _ & Hout & _). split; [done|]. split; [done|].
  intros d payload Hn Hd Hfit Hp.
  destruct (receives_inv_segment f capacity Hcap w out d payload) as (w' & r & E & _ & Hb & _); [done..|].
  exists w', r. split; [done|]. split; [|done].
  by apply (receives_segment f capacity isn w out d payload w' r).
Qed.

Lemma window_reassembles_witness :
  [] = tabulate (len (@nil Z)) (fun i => i) /\ window_wf (window_with_capacity 9 4294967290)
  /\ forall d payload,
       0 < len payload -> 0 <= d -> d + len payload <= 9 ->
       (forall i, 0 <= i < len payload -> zat payload i = len (@nil Z) + d + i) ->
       exists w' r,
         window_append (window_with_capacity 9 4294967290) (seq_add 4294967290 d) payload = Done (w', Ok r)
         /\ receives (fun i => i) 9 4294967290 w' ([] ++ default [] r)
         /\ (d = 0 -> len payload <= len (default [] r)).
Proof.
  apply (window_reassembles (fun i => i) 9 4294967290 (window_with_capacity 9 4294967290) []);
    [win_lia|win_lia|apply receives_new].
Defined.

(** A segment that ends in the window and begins before it is cut: the
    effect is that of its rest at the begin of the window.  One that ends where
    the window begins is dropped. *)
Theorem window_append_cuts_overlap (w : Window) (b : Z) (payload : list byte) :
  is_u32 (w_sequence w) -> 0 < b <= w_sequence w -> b < u32_max - MAX_U32_WINDOW_SIZE ->
  b <= len payload -> w_sequence w - b + len payload <= u32_max ->
  window_append w (w_sequence w - b) payload
  = if len payload =? b then Done (w, Ok None) else window_append w (w_sequence w) (zdrop b payload).
Proof. exact (window_append_overlap w b payload). Qed.

Lemma window_append_cuts_overlap_witness :
  window_append (window_with_capacity 9 100) (100 - 2) [1; 2; 3; 4]
  = if len [1; 2; 3; 4] =? 2 then Done (window_with_capacity 9 100, Ok None)
    else window_append (window_with_capacity 9 100) 100 (zdrop 2 [1; 2; 3; 4]).
Proof. apply (window_append_cuts_overlap (window_with_capacity 9 100) 2 [1; 2; 3; 4]); simpl; try win_lia; vm_compute; discriminate. Defined.

(** C39. A segment that ends before the window, an old retransmission, makes
    [append] panic: the distance of its end is computed with the wrong operand
    and is never zero, and the cut that follows is out of range. *)
Theorem window_append_old_segment_panics (w : Window) (x : Z) (payload : list byte) :
  is_u32 x -> is_u32 (w_sequence w) -> 0 < len payload -> x + len payload < w_sequence w ->
  w_sequence w - x < u32_max - MAX_U32_WINDOW_SIZE ->
  window_append w x payload = Panic.
Proof.
  intros Hx Hs Hn Hold Hb. unfold window_append, window_trim.
  assert (seq_sub x (w_sequence w) = u32_max - (w_sequence w - x)) as -> by seq_lia.
  destruct (Z.ltb_spec MAX_U32_WINDOW_SIZE (u32_max - (w_sequence w - x))); [|lia].
  rewrite seq_add_as_u32 by ilia.
  assert (seq_add x (len payload) = x + len payload) as -> by seq_lia.
  unfold checked_sub. zcase; [lia|]. rewrite int_add_Done by ilia. rewrite outcome_bind_Done.
  destruct (Z.ltb_spec 0 (x + (u32_max - (x + len payload)))); [|ilia].
  rewrite int_sub_Done, outcome_bind_Done by lia. unfold slice.
  destruct (Z.leb_spec (w_sequence w - x) (len payload)); [lia|].
  by rewrite andb_false_r, andb_false_l.
Qed.

Lemma window_append_old_segment_panics_witness :
  window_append (window_with_capacity 9 100) 50 [1; 2; 3] = Panic.
Proof. apply (window_append_old_segment_panics (window_with_capacity 9 100) 50 [1; 2; 3]); simpl; try win_lia; vm_compute; discriminate || reflexivity. Defined.

(** The ranges record exactly the filled positions: merging a segment
    leaves sorted ranges with gaps between them that cover what was covered and
    the segment, provided that no range that begins before the segment reaches
    beyond its end. *)
Theorem edges_merge_exact (es : list (Z * Z)) (a n s hi : Z) :
  0 < n -> s <= a -> edges_ok s hi es ->
  (forall k m, (k, m) ∈ es -> k < a -> k + m < a \/ k + m <= a + n) ->
  exists es',
    edges_merge es a n = Done es'
    /\ edges_ok (s - 1) (Z.max hi (a + n)) es'
    /\ forall p, covered es' p <-> covered es p \/ a <= p < a + n.
Proof.
  intros Hn Ha Hes Hin.
  destruct (edges_merge_shape a n s hi es Hn Ha Hes)
    as (l & b & stop & r & -> & Hl & Hlb & Hba & Hstop & Hr & Hsound & Hcomp).
  assert (s <= last_end s l) by (clear -Hl; destruct l as [|[k m] l]; simpl; [lia|];
    destruct Hl as (? & ? & ? & Hl); pose proof (last_end_bounds (k + m) hi l ltac:(lia) Hl); lia).
  eexists. split; [done|]. split.
  - apply edges_ok_app. split; [apply (edges_ok_weaken s _ hi); [lia|lia|done]|].
    repeat split; [|lia|lia|by replace (b + (stop - b)) with stop by lia].
    destruct Hlb as [?|[-> ->]]; [|simpl; lia]. destruct l as [|[k m] l]; simpl in *; lia.
  - intros p. split; [apply Hsound|]. intros [Hp|Hp]; [by apply Hcomp|].
    apply covered_range. lia.
Qed.

Lemma edges_merge_exact_witness :
  exists es',
    edges_merge [(4, 2); (9, 1)] 1 4 = Done es'
    /\ edges_ok (0 - 1) (Z.max 10 (1 + 4)) es'
    /\ forall p, covered es' p <-> covered [(4, 2); (9, 1)] p \/ 1 <= p < 1 + 4.
Proof.
  apply (edges_merge_exact [(4, 2); (9, 1)] 1 4 0 10); [lia|lia|simpl; lia|].
  intros k m [[= -> ->]|[[= -> ->]|[]%elem_of_nil]%elem_of_cons]%elem_of_cons; lia.
Defined.

(** A segment that repeats bytes inside a kept range cuts the range at its
    end: the bytes behind it count as missing again. *)
Theorem edges_merge_forgets (k m a n : Z) :
  0 < n -> k < a -> a + n < k + m ->
  edges_merge [(k, m)] a n = Done [(k, a + n - k)].
Proof.
  intros Hn Ha Hend. unfold edges_merge.
  rewrite (window_select_spec a n 0 0 [(k, m)] [] []) by (lia || (repeat constructor; simpl; lia)).
  rewrite outcome_bind_Done. unfold edges_prev_key. simpl. zcase; [|lia]. simpl.
  rewrite Z.eqb_refl. simpl. destruct (Z.leb_spec a (k + m)); [|lia]. rewrite Z.ltb_irrefl.
  unfold mret, outcome_ret. do 3 f_equal. lia.
Qed.

Lemma edges_merge_forgets_witness :
  edges_merge [(10, 100)] 20 10 = Done [(10, 20 + 10 - 10)].
Proof. apply (edges_merge_forgets 10 100 20 10); lia. Defined.
