(* ===== verification/TxState.v ===== *)
(** * The send side of a TCP connection: [TcpTxState]

    What [Forwarder] keeps for each connection towards the source: the next
    sequence number, the acknowledgement and window it advertises, the bytes
    in flight ([cache]), the bytes that wait ([queue]), the pending SYN and FIN,
    and the retransmission timeout. *)

From S2P Require Import Prelude SeqArith Ring Queue.

(** ** Constants *)

Definition RECV_WINDOW : Z := u16_max.
Definition ENABLE_RTO_COMPUTE : bool := true.
Definition INITIAL_RTO : Z := 1000.
Definition MIN_RTO : Z := 1000.
Definition MAX_RTO : Z := 60000.

(** ** State *)

Record TcpTxState : Set := mkTx {
  tx_src : SocketAddrV4;
  tx_dst : SocketAddrV4;
  tx_send_window : Z;
  tx_send_wscale : option Z;
  tx_sack_perm : bool;
  tx_sequence : Z;
  tx_acknowledgement : Z;
  tx_window : Z;
  tx_sacks : option (list (Z * Z));
  tx_cache : Queue;
  tx_cache_syn : option Instant;
  tx_cache_fin : option Timer;
  tx_cache_fin_retrans : bool;
  tx_queue : list byte;
  tx_queue_fin : bool;
  tx_rto : Z;
  tx_srtt : option Z;
  tx_rttvar : option Z
}.

(** Updates of one field. *)
Definition tx_with_send_window (s : TcpTxState) (x : Z) : TcpTxState :=
  let (src, dst, _, ws, sp, seq, ack, win, sa, c, syn, fin, fr, q, qf, rto, srtt, var) := s in
  mkTx src dst x ws sp seq ack win sa c syn fin fr q qf rto srtt var.
Definition tx_with_sequence (s : TcpTxState) (x : Z) : TcpTxState :=
  let (src, dst, sw, ws, sp, _, ack, win, sa, c, syn, fin, fr, q, qf, rto, srtt, var) := s in
  mkTx src dst sw ws sp x ack win sa c syn fin fr q qf rto srtt var.
Definition tx_with_acknowledgement (s : TcpTxState) (x : Z) : TcpTxState :=
  let (src, dst, sw, ws, sp, seq, _, win, sa, c, syn, fin, fr, q, qf, rto, srtt, var) := s in
  mkTx src dst sw ws sp seq x win sa c syn fin fr q qf rto srtt var.
Definition tx_with_window (s : TcpTxState) (x : Z) : TcpTxState :=
  let (src, dst, sw, ws, sp, seq, ack, _, sa, c, syn, fin, fr, q, qf, rto, srtt, var) := s in
  mkTx src dst sw ws sp seq ack x sa c syn fin fr q qf rto srtt var.
Definition tx_with_sacks (s : TcpTxState) (x : option (list (Z * Z))) : TcpTxState :=
  let (src, dst, sw, ws, sp, seq, ack, win, _, c, syn, fin, fr, q, qf, rto, srtt, var) := s in
  mkTx src dst sw ws sp seq ack win x c syn fin fr q qf rto srtt var.
Definition tx_with_cache (s : TcpTxState) (x : Queue) : TcpTxState :=
  let (src, dst, sw, ws, sp, seq, ack, win, sa, _, syn, fin, fr, q, qf, rto, srtt, var) := s in
  mkTx src dst sw ws sp seq ack win sa x syn fin fr q qf rto srtt var.
Definition tx_with_cache_syn (s : TcpTxState) (x : option Instant) : TcpTxState :=
  let (src, dst, sw, ws, sp, seq, ack, win, sa, c, _, fin, fr, q, qf, rto, srtt, var) := s in
  mkTx src dst sw ws sp seq ack win sa c x fin fr q qf rto srtt var.
Definition tx_with_cache_fin (s : TcpTxState) (x : option Timer) : TcpTxState :=
  let (src, dst, sw, ws, sp, seq, ack, win, sa, c, syn, _, fr, q, qf, rto, srtt, var) := s in
  mkTx src dst sw ws sp seq ack win sa c syn x fr q qf rto srtt var.
Definition tx_with_cache_fin_retrans (s : TcpTxState) (x : bool) : TcpTxState :=
  let (src, dst, sw, ws, sp, seq, ack, win, sa, c, syn, fin, _, q, qf, rto, srtt, var) := s in
  mkTx src dst sw ws sp seq ack win sa c syn fin x q qf rto srtt var.
Definition tx_with_queue (s : TcpTxState) (x : list byte) : TcpTxState :=
  let (src, dst, sw, ws, sp, seq, ack, win, sa, c, syn, fin, fr, _, qf, rto, srtt, var) := s in
  mkTx src dst sw ws sp seq ack win sa c syn fin fr x qf rto srtt var.
Definition tx_with_queue_fin (s : TcpTxState) (x : bool) : TcpTxState :=
  let (src, dst, sw, ws, sp, seq, ack, win, sa, c, syn, fin, fr, q, _, rto, srtt, var) := s in
  mkTx src dst sw ws sp seq ack win sa c syn fin fr q x rto srtt var.
Definition tx_with_rtt (s : TcpTxState) (rto : Z) (srtt rttvar : option Z) : TcpTxState :=
  let (src, dst, sw, ws, sp, seq, ack, win, sa, c, syn, fin, fr, q, qf, _, _, _) := s in
  mkTx src dst sw ws sp seq ack win sa c syn fin fr q qf rto srtt rttvar.

(** ** Operations *)

Definition tx_new (src dst : SocketAddrV4) (sequence acknowledgement send_window : Z)
    (send_wscale : option Z) (sack_perm : bool) (wscale : option Z) : outcome TcpTxState :=
  window ← int_shl 64 send_window (unwrap_or send_wscale 0);
  capacity ← int_shl 64 RECV_WINDOW (unwrap_or wscale 0);
  cache ← queue_with_capacity capacity sequence;
  mret (mkTx src dst window send_wscale sack_perm sequence acknowledgement RECV_WINDOW None
          cache None None true [] false INITIAL_RTO None None).

Definition tx_set_send_window := tx_with_send_window.
Definition tx_add_sequence (s : TcpTxState) (n : Z) : TcpTxState :=
  tx_with_sequence s (seq_add (tx_sequence s) n).
Definition tx_add_acknowledgement (s : TcpTxState) (n : Z) : TcpTxState :=
  tx_with_acknowledgement s (seq_add (tx_acknowledgement s) n).
Definition tx_set_window := tx_with_window.

Definition tx_set_sacks (s : TcpTxState) (sacks : list (Z * Z)) : TcpTxState :=
  match sacks with
  | [] => tx_with_sacks s None
  | _ => tx_with_sacks s (Some (ztake (Z.min 4 (len sacks)) sacks))
  end.

Definition tx_set_rto (s : TcpTxState) (rto : Z) : TcpTxState :=
  if ENABLE_RTO_COMPUTE then
    tx_with_rtt s (Z.min MAX_RTO (Z.max MIN_RTO rto)) (tx_srtt s) (tx_rttvar s)
  else s.

Definition tx_double_rto (s : TcpTxState) : TcpTxState :=
  tx_set_rto s (unwrap_or (checked_mul u64_max (tx_rto s) 2) u64_max).

Definition tx_update_rto (s : TcpTxState) (rtt : Duration) : outcome TcpTxState :=
  let rtt := if u64_max <? as_millis rtt then u64_max else as_millis rtt in
  '(srtt, rttvar) ←
    match tx_srtt s with
    | Some prev_srtt =>
        prev_rttvar ← unwrap (tx_rttvar s);
        let deviation := unwrap_or (checked_sub prev_srtt rtt) (rtt - prev_srtt) in
        let rttvar := unwrap_or (checked_add u64_max (prev_rttvar / 8 * 7) (deviation / 4)) u64_max in
        let srtt := unwrap_or (checked_add u64_max (prev_rttvar / 8 * 7) (rtt / 8)) u64_max in
        mret (srtt, rttvar)
    | None => mret (rtt, rtt / 2)
    end;
  let s := tx_with_rtt s (tx_rto s) (Some srtt) (Some rttvar) in
  let rto := unwrap_or
    (checked_add u64_max srtt (Z.max 1 (unwrap_or (checked_mul u64_max rttvar 4) u64_max))) u64_max in
  mret (tx_set_rto s rto).

(** The SYN part of [acknowledge]. *)
Definition tx_acknowledge_syn (now : Instant) (s : TcpTxState) (sequence : Z)
  : TcpTxState * option Duration :=
  match tx_cache_syn s with
  | Some instant =>
      if seq_ahead sequence (tx_sequence s) then
        (tx_add_sequence (tx_with_cache_syn s None) 1, Some (elapsed now instant))
      else (s, None)
  | None => (s, None)
  end.

(** The FIN part of [acknowledge]. *)
Definition tx_acknowledge_fin (now : Instant) (s : TcpTxState) (sequence : Z)
    (rtt : option Duration) : TcpTxState * option Duration :=
  if seq_ahead sequence (queue_recv_next (tx_cache s)) then
    match tx_cache_fin s with
    | Some timer =>
        let rtt :=
          if bool_decide (rtt = None) && negb (tx_cache_fin_retrans s)
             && negb (timer_is_timedout now timer)
          then Some (timer_elapsed now timer) else rtt in
        (tx_add_sequence (tx_with_cache_fin_retrans (tx_with_cache_fin s None) false) 1, rtt)
    | None => (s, rtt)
    end
  else (s, rtt).

Definition tx_acknowledge (now : Instant) (s : TcpTxState) (sequence : Z) : outcome TcpTxState :=
  let '(s, rtt) := tx_acknowledge_syn now s sequence in
  (* Invalidate cache *)
  '(cache, cache_rtt) ← queue_invalidate_to now (tx_cache s) sequence;
  let s := tx_with_cache s cache in
  let rtt := match rtt with None => cache_rtt | Some _ => rtt end in
  let '(s, rtt) := tx_acknowledge_fin now s sequence rtt in
  (* Update RTO *)
  match rtt with
  | Some rtt => tx_update_rto s rtt
  | None => mret s
  end.

Definition tx_update_syn_timer (now : Instant) (s : TcpTxState) : TcpTxState :=
  tx_with_cache_syn s (Some now).

Definition tx_update_fin_timer (now : Instant) (s : TcpTxState) : TcpTxState :=
  let s := match tx_cache_fin s with Some _ => tx_with_cache_fin_retrans s true | None => s end in
  tx_with_cache_fin s (Some (timer_new now (tx_rto s))).

(** The drained bytes are gone from the queue also when the cache refuses
    them. *)
Definition tx_append_cache (now : Instant) (s : TcpTxState) (size : Z)
  : outcome (TcpTxState * io_result (list byte)) :=
  payload ← slice (tx_queue s) 0 size;
  let s := tx_with_queue s (zdrop size (tx_queue s)) in
  '(cache, r) ← queue_append now (tx_cache s) payload (tx_rto s);
  let s := tx_with_cache s cache in
  mret (s, match r with Ok _ => Ok payload | Err e => Err e end).

Definition tx_append_cache_fin (now : Instant) (s : TcpTxState) : TcpTxState :=
  tx_update_fin_timer now (tx_with_queue_fin s false).

Definition tx_append_queue (s : TcpTxState) (payload : list byte) : TcpTxState :=
  tx_with_queue s (tx_queue s ++ payload).

Definition tx_append_queue_fin (s : TcpTxState) : TcpTxState := tx_with_queue_fin s true.

(** ** Invariant *)

Definition rtt_ok (srtt rttvar : option Z) : Prop :=
  match srtt, rttvar with
  | None, None => True
  | Some a, Some b => is_u64 a /\ is_u64 b
  | _, _ => False
  end.

Definition sacks_ok (sacks : option (list (Z * Z))) : Prop :=
  match sacks with None => True | Some l => 1 <= len l <= 4 end.

Record tx_wf (s : TcpTxState) : Prop := {
  txwf_cache : queue_wf (tx_cache s);
  txwf_sequence : is_u32 (tx_sequence s);
  txwf_acknowledgement : is_u32 (tx_acknowledgement s);
  txwf_rto : MIN_RTO <= tx_rto s <= MAX_RTO;
  txwf_rtt : rtt_ok (tx_srtt s) (tx_rttvar s);
  txwf_sacks : sacks_ok (tx_sacks s)
}.

(** The bytes handed to the connection and not yet acknowledged, in order:
    those in flight, then those that wait. *)
Definition tx_pending (s : TcpTxState) : list byte := queue_content (tx_cache s) ++ tx_queue s.

(** ** Lemmas *)

(** [checked_add] and [checked_mul] with the fallback [u64::MAX] are
    saturating. *)
Lemma saturating_u64 o : (forall x, o = Some x -> is_u64 x) -> is_u64 (unwrap_or o u64_max).
Proof. destruct o; simpl; intros H; [by apply H|ilia]. Qed.

Lemma checked_add_u64 a b : 0 <= a -> 0 <= b -> forall x, checked_add u64_max a b = Some x -> is_u64 x.
Proof. unfold checked_add. intros ?? x. zcase; [|done]. intros [= <-]. ilia. Qed.

Lemma tx_set_rto_fields s rto :
  tx_set_rto s rto =
  tx_with_rtt s (Z.min MAX_RTO (Z.max MIN_RTO rto)) (tx_srtt s) (tx_rttvar s).
Proof. reflexivity. Qed.

Lemma clamp_rto_bounds rto : MIN_RTO <= Z.min MAX_RTO (Z.max MIN_RTO rto) <= MAX_RTO.
Proof. unfold MIN_RTO, MAX_RTO. lia. Qed.

(** Replacing the timeout fields by good ones keeps the invariant. *)
Lemma tx_with_rtt_wf s rto srtt rttvar :
  tx_wf s -> MIN_RTO <= rto <= MAX_RTO -> rtt_ok srtt rttvar ->
  tx_wf (tx_with_rtt s rto srtt rttvar).
Proof. intros [] ??. destruct s. by constructor. Qed.

Lemma tx_with_cache_wf s q : tx_wf s -> queue_wf q -> tx_wf (tx_with_cache s q).
Proof. intros [] ?. destruct s. by constructor. Qed.

Lemma tx_with_sequence_wf s n : tx_wf s -> is_u32 n -> tx_wf (tx_with_sequence s n).
Proof. intros [] ?. destruct s. by constructor. Qed.

(** The fields the invariant does not mention. *)
Lemma tx_fin_wf s t b : tx_wf s -> tx_wf (tx_with_cache_fin_retrans (tx_with_cache_fin s t) b).
Proof. intros []. destruct s. by constructor. Qed.

Lemma tx_syn_wf s t : tx_wf s -> tx_wf (tx_with_cache_syn s t).
Proof. intros []. destruct s. by constructor. Qed.

Lemma tx_queue_wf s l : tx_wf s -> tx_wf (tx_with_queue s l).
Proof. intros []. destruct s. by constructor. Qed.

Lemma tx_add_sequence_wf s : tx_wf s -> tx_wf (tx_add_sequence s 1).
Proof.
  intros H. apply tx_with_sequence_wf; [done|]. apply seq_add_u32; [by destruct H|ilia].
Qed.

Create HintDb txwf.
#[export] Hint Resolve tx_with_rtt_wf tx_with_cache_wf tx_with_sequence_wf tx_fin_wf tx_syn_wf
  tx_queue_wf tx_add_sequence_wf : txwf.

(** The first measurement sets the two averages; a later one needs both. *)
Definition rtt_next (s : TcpTxState) (rtt : Z) : Z * Z :=
  match tx_srtt s, tx_rttvar s with
  | Some prev_srtt, Some prev_rttvar =>
      (Z.min u64_max (prev_rttvar / 8 * 7 + rtt / 8),
       Z.min u64_max (prev_rttvar / 8 * 7 + Z.abs (prev_srtt - rtt) / 4))
  | _, _ => (rtt, rtt / 2)
  end.

Lemma saturate_add a b : unwrap_or (checked_add u64_max a b) u64_max = Z.min u64_max (a + b).
Proof. unfold checked_add. zcase; simpl; lia. Qed.

Lemma saturate_mul a b : unwrap_or (checked_mul u64_max a b) u64_max = Z.min u64_max (a * b).
Proof. unfold checked_mul. zcase; simpl; lia. Qed.

Lemma abs_deviation a b : unwrap_or (checked_sub a b) (b - a) = Z.abs (a - b).
Proof. unfold checked_sub. zcase; simpl; lia. Qed.

(** The timeout after a measurement of [rtt] milliseconds. *)
Definition rto_next (srtt rttvar : Z) : Z :=
  Z.min MAX_RTO (Z.max MIN_RTO (Z.min u64_max (srtt + Z.max 1 (Z.min u64_max (rttvar * 4))))).

Lemma tx_update_rto_ok s rtt :
  rtt_ok (tx_srtt s) (tx_rttvar s) -> 0 <= rtt ->
  let '(srtt, rttvar) := rtt_next s (Z.min u64_max (as_millis rtt)) in
  tx_update_rto s rtt = Done (tx_with_rtt s (rto_next srtt rttvar) (Some srtt) (Some rttvar)).
Proof.
  intros Hok Hr. unfold tx_update_rto, rtt_next, rto_next.
  replace (if u64_max <? as_millis rtt then _ else _) with (Z.min u64_max (as_millis rtt))
    by (zcase; lia).
  destruct s; cbn [tx_srtt tx_rttvar] in *. destruct tx_srtt0, tx_rttvar0; try done; simpl in *;
    rewrite ?saturate_add, ?saturate_mul, ?abs_deviation; reflexivity.
Qed.

Lemma as_millis_nonneg rtt : 0 <= rtt -> 0 <= as_millis rtt.
Proof. intros. unfold as_millis. apply Z.div_pos; lia. Qed.

Lemma rtt_next_ok s r :
  rtt_ok (tx_srtt s) (tx_rttvar s) -> is_u64 r ->
  rtt_ok (Some (rtt_next s r).1) (Some (rtt_next s r).2).
Proof.
  intros Hok Hr. unfold rtt_next. destruct (tx_srtt s) as [a|], (tx_rttvar s) as [b|]; try done; simpl.
  - destruct Hok as [Ha Hb].
    assert (0 <= b / 8) by (apply Z.div_pos; ilia).
    assert (0 <= r / 8) by (apply Z.div_pos; ilia).
    assert (0 <= Z.abs (a - r) / 4) by (apply Z.div_pos; lia). ilia.
  - split; [done|]. assert (0 <= r / 2 <= r) by (split; [apply Z.div_pos; ilia|apply Z.div_le_upper_bound; ilia]).
    ilia.
Qed.

Lemma tx_update_rto_wf s rtt :
  tx_wf s -> 0 <= rtt ->
  exists s', tx_update_rto s rtt = Done s' /\ tx_wf s'
    /\ tx_cache s' = tx_cache s /\ tx_queue s' = tx_queue s
    /\ tx_cache_fin s' = tx_cache_fin s /\ tx_sequence s' = tx_sequence s.
Proof.
  intros Hwf Hr. pose proof (tx_update_rto_ok s rtt (txwf_rtt s Hwf) Hr) as E.
  pose proof (as_millis_nonneg rtt Hr).
  pose proof (rtt_next_ok s (Z.min u64_max (as_millis rtt)) (txwf_rtt s Hwf) ltac:(ilia)) as Hok.
  destruct (rtt_next s _) as [srtt rttvar]. rewrite E. eexists. split; [done|].
  split; [|by destruct s]. apply tx_with_rtt_wf; [done|apply clamp_rto_bounds|done].
Qed.

(** A measured round-trip time is a duration. *)
Definition rtt_nonneg (rtt : option Duration) : Prop :=
  match rtt with Some d => 0 <= d | None => True end.

Lemma timer_elapsed_nonneg now t : 0 <= timer_elapsed now t.
Proof. unfold timer_elapsed, elapsed. lia. Qed.

Lemma queue_pop_clocks_rtt now x next retrans clocks rtt :
  rtt_nonneg rtt -> rtt_nonneg (queue_pop_clocks now x next retrans clocks rtt).2.
Proof.
  revert rtt. induction clocks as [|[b t] rest IH]; intros rtt Hr; [done|].
  cbn [queue_pop_clocks]. pose proof (timer_elapsed_nonneg now t).
  destruct (_ && _); [|by destruct (seq_ahead _ _)].
  apply IH. destruct (negb _); [|done]. destruct rtt; [done|].
  destruct retrans; [|done]. by destruct (seq_ahead _ _).
Qed.

Lemma queue_invalidate_to_rtt now q x q' rtt :
  queue_invalidate_to now q x = Done (q', rtt) -> rtt_nonneg rtt.
Proof.
  unfold queue_invalidate_to. zcase; [|by intros [= <- <-]].
  intros (h & _ & E)%outcome_bind_Done_inv. revert E.
  match goal with |- context [queue_pop_clocks ?a ?b ?c ?d ?e ?f] =>
    pose proof (queue_pop_clocks_rtt a b c d e f I) as Hp;
    destruct (queue_pop_clocks a b c d e f) end.
  by intros [= <- <-].
Qed.

(** The number of bytes in flight that an acknowledgement covers. *)
Definition tx_acked (s : TcpTxState) (x : Z) : Z :=
  if seq_ahead x (q_sequence (tx_cache s)) then
    Z.min (q_size (tx_cache s)) (seq_sub x (q_sequence (tx_cache s)))
  else 0.

Lemma queue_invalidate_total now q x :
  queue_wf q -> is_u32 x ->
  exists q' rtt,
    queue_invalidate_to now q x = Done (q', rtt) /\ queue_wf q' /\ rtt_nonneg rtt
    /\ q_capacity q' = q_capacity q
    /\ queue_content q' =
       zdrop (if seq_ahead x (q_sequence q) then Z.min (q_size q) (seq_sub x (q_sequence q)) else 0)
         (queue_content q).
Proof.
  intros Hwf Hx. pose proof Hwf as [].
  unfold seq_ahead. zcase.
  - destruct (queue_invalidate_to_ok now q x) as (q' & rtt & E & ? & _ & Hcap & _ & Hc); [done..|].
    exists q', rtt. split; [done|]. split; [done|]. split; [by apply (queue_invalidate_to_rtt _ _ _ _ _ E)|].
    split; [done|]. rewrite Hc. destruct (Z.le_gt_cases (seq_sub x (q_sequence q)) (q_size q)).
    + by rewrite Z.min_r by lia.
    + rewrite !zdrop_all; rewrite ?len_queue_content; (done || lia).
  - rewrite queue_invalidate_to_stale by done. exists q, None. do 4 (split; [done|]).
    by rewrite zdrop_0 by lia.
Qed.

Lemma tx_acknowledge_syn_wf now s x :
  tx_wf s ->
  let '(s1, rtt) := tx_acknowledge_syn now s x in
  tx_wf s1 /\ tx_cache s1 = tx_cache s /\ tx_queue s1 = tx_queue s /\ rtt_nonneg rtt.
Proof.
  intros Hwf. unfold tx_acknowledge_syn. destruct (tx_cache_syn s); [|done].
  destruct (seq_ahead _ _); [|done].
  split; [auto with txwf|]. split; [by destruct s|]. split; [by destruct s|]. simpl. unfold elapsed. lia.
Qed.

Lemma tx_acknowledge_fin_wf now s x rtt :
  tx_wf s -> rtt_nonneg rtt ->
  let '(s1, rtt1) := tx_acknowledge_fin now s x rtt in
  tx_wf s1 /\ tx_cache s1 = tx_cache s /\ tx_queue s1 = tx_queue s /\ rtt_nonneg rtt1.
Proof.
  intros Hwf Hr. unfold tx_acknowledge_fin. destruct (seq_ahead _ _); [|done].
  destruct (tx_cache_fin s) as [t|]; [|done].
  split; [auto with txwf|]. split; [by destruct s|]. split; [by destruct s|].
  pose proof (timer_elapsed_nonneg now t). by destruct (_ && _ && _).
Qed.

(** [acknowledge] drops the covered bytes in flight and nothing else. *)
Lemma tx_acknowledge_ok now s x :
  tx_wf s -> is_u32 x ->
  exists s', tx_acknowledge now s x = Done s' /\ tx_wf s'
    /\ queue_content (tx_cache s') = zdrop (tx_acked s x) (queue_content (tx_cache s))
    /\ tx_queue s' = tx_queue s /\ q_capacity (tx_cache s') = q_capacity (tx_cache s).
Proof.
  intros Hwf Hx. unfold tx_acknowledge, tx_acked.
  pose proof (tx_acknowledge_syn_wf now s x Hwf) as H1.
  destruct (tx_acknowledge_syn now s x) as [s1 rtt]. destruct H1 as (Hwf1 & <- & <- & Hr1).
  destruct (queue_invalidate_total now (tx_cache s1) x) as (q' & crtt & -> & Hq & Hr & Hcap & Hcon);
    [by destruct Hwf1|done|]. rewrite outcome_bind_Done, <- Hcap, <- Hcon.
  pose proof (tx_acknowledge_fin_wf now (tx_with_cache s1 q') x
    (match rtt with None => crtt | Some _ => rtt end)) as H3.
  destruct (tx_acknowledge_fin _ _ _ _) as [s3 rtt3].
  destruct H3 as (Hwf3 & Hc3 & Hq3 & Hr3); [auto with txwf|by destruct rtt|].
  replace (tx_cache (tx_with_cache s1 q')) with q' in Hc3 by by destruct s1.
  replace (tx_queue (tx_with_cache s1 q')) with (tx_queue s1) in Hq3 by by destruct s1.
  destruct rtt3 as [d|].
  - destruct (tx_update_rto_wf s3 d Hwf3 Hr3) as (s' & -> & ? & Ec & Eq & _).
    exists s'. rewrite Ec, Eq. by subst.
  - exists s3. by subst.
Qed.

(** [append_cache] moves bytes from the queue to the cache. *)
Lemma tx_append_cache_ok now s n :
  tx_wf s -> 0 <= n <= len (tx_queue s) ->
  q_size (tx_cache s) + n <= q_capacity (tx_cache s) ->
  exists s',
    tx_append_cache now s n = Done (s', Ok (ztake n (tx_queue s)))
    /\ tx_wf s'
    /\ queue_content (tx_cache s') = queue_content (tx_cache s) ++ ztake n (tx_queue s)
    /\ tx_queue s' = zdrop n (tx_queue s)
    /\ q_size (tx_cache s') = q_size (tx_cache s) + n
    /\ s' = tx_with_cache (tx_with_queue s (zdrop n (tx_queue s))) (tx_cache s').
Proof.
  intros Hwf Hn Hfit. unfold tx_append_cache. rewrite slice_Done by lia.
  rewrite outcome_bind_Done, (zdrop_0 0), Z.sub_0_r by lia.
  replace (tx_cache (tx_with_queue s _)) with (tx_cache s) by by destruct s.
  replace (tx_rto (tx_with_queue s _)) with (tx_rto s) by by destruct s.
  destruct (queue_append_ok now (tx_cache s) (ztake n (tx_queue s)) (tx_rto s))
    as (q' & -> & Hq & Hcon & _ & _ & Hsz & _); [by destruct Hwf|zl|].
  rewrite outcome_bind_Done. eexists. split; [done|].
  split; [auto with txwf|]. rewrite len_ztake in Hsz. destruct s; simpl in *.
  split; [done|]. split; [done|]. split; [lia|done].
Qed.

(** ** Runs of operations *)

(** The operations of [TcpTxState] that [Forwarder] and [Redirector] call,
    with their arguments and the clock reading. *)
Inductive tx_op : Set :=
| TxAppendQueue (payload : list byte)
| TxAppendQueueFin
| TxAppendCache (now : Instant) (size : Z)
| TxAppendCacheFin (now : Instant)
| TxAcknowledge (now : Instant) (sequence : Z)
| TxRetransmit (now : Instant) (rto : Z)
| TxDoubleRto
| TxUpdateSynTimer (now : Instant)
| TxUpdateFinTimer (now : Instant)
| TxAddSequence (n : Z)
| TxAddAcknowledgement (n : Z)
| TxSetSendWindow (window : Z)
| TxSetWindow (window : Z)
| TxSetSacks (sacks : list (Z * Z)).

(** What the callers guarantee: the drained size is held by the queue and fits
    the cache, and numbers are [u32]. *)
Definition tx_op_ok (s : TcpTxState) (op : tx_op) : Prop :=
  match op with
  | TxAppendCache _ n =>
      0 <= n <= len (tx_queue s) /\ q_size (tx_cache s) + n <= q_capacity (tx_cache s)
  | TxAcknowledge _ x => is_u32 x
  | TxAddSequence n | TxAddAcknowledgement n => is_u32 n
  | _ => True
  end.

Definition tx_run (s : TcpTxState) (op : tx_op) : outcome TcpTxState :=
  match op with
  | TxAppendQueue payload => mret (tx_append_queue s payload)
  | TxAppendQueueFin => mret (tx_append_queue_fin s)
  | TxAppendCache now n => r ← tx_append_cache now s n; mret r.1
  | TxAppendCacheFin now => mret (tx_append_cache_fin now s)
  | TxAcknowledge now x => tx_acknowledge now s x
  | TxRetransmit now rto =>
      r ← queue_get_timed_out_and_update now (tx_cache s) rto; mret (tx_with_cache s r.1)
  | TxDoubleRto => mret (tx_double_rto s)
  | TxUpdateSynTimer now => mret (tx_update_syn_timer now s)
  | TxUpdateFinTimer now => mret (tx_update_fin_timer now s)
  | TxAddSequence n => mret (tx_add_sequence s n)
  | TxAddAcknowledgement n => mret (tx_add_acknowledgement s n)
  | TxSetSendWindow w => mret (tx_set_send_window s w)
  | TxSetWindow w => mret (tx_set_window s w)
  | TxSetSacks l => mret (tx_set_sacks s l)
  end.

(** The abstract specification: a FIFO of bytes, which is extended at its end
    by [append_queue] and shortened at its front by [acknowledge]. *)
Definition pending_step (s : TcpTxState) (op : tx_op) (pending : list byte) : list byte :=
  match op with
  | TxAppendQueue payload => pending ++ payload
  | TxAcknowledge _ x => zdrop (tx_acked s x) pending
  | _ => pending
  end.

Lemma tx_acked_bounds s x :
  tx_wf s -> is_u32 x -> 0 <= tx_acked s x <= len (queue_content (tx_cache s)).
Proof.
  intros [[]] Hx. rewrite len_queue_content by lia. unfold tx_acked.
  pose proof (seq_sub_u32 x (q_sequence (tx_cache s)) Hx ltac:(done)).
  destruct (seq_ahead _ _); cap_lia.
Qed.

Lemma tx_update_fin_timer_wf now s :
  tx_wf s ->
  tx_wf (tx_update_fin_timer now s) /\ tx_cache (tx_update_fin_timer now s) = tx_cache s
  /\ tx_queue (tx_update_fin_timer now s) = tx_queue s.
Proof.
  intros []. unfold tx_update_fin_timer. destruct s; simpl in *.
  destruct tx_cache_fin0; split; try done; by constructor.
Qed.

(** The sequence number, the window and the SACK setters. *)
Lemma tx_setters_ok s op :
  tx_wf s -> tx_op_ok s op ->
  match op with
  | TxAddSequence _ | TxAddAcknowledgement _ | TxSetSendWindow _ | TxSetWindow _ | TxSetSacks _
  | TxUpdateSynTimer _ | TxDoubleRto | TxAppendQueueFin =>
      exists s', tx_run s op = Done s' /\ tx_wf s'
        /\ tx_cache s' = tx_cache s /\ tx_queue s' = tx_queue s
  | _ => True
  end.
Proof.
  intros [Hc Hs Ha Hr Hrt Hsk]. destruct op as [| | | | | | | | |n|n| | |l]; try done; simpl;
    intros Hok; eexists; (split; [done|]); try (by destruct s; split; [by constructor|]).
  - split; [|by destruct s]. unfold tx_double_rto. rewrite tx_set_rto_fields.
    apply tx_with_rtt_wf; [by constructor|apply clamp_rto_bounds|done].
  - split; [|by destruct s]. apply tx_with_sequence_wf; [by constructor|by apply seq_add_u32].
  - split; [|by destruct s]. destruct s. constructor; try done. by apply seq_add_u32.
  - split; [|by destruct s, l]. destruct s, l as [|a l]; constructor; try done. simpl.
    pose proof (len_nonneg l). autorewrite with zlist. lia.
Qed.

Lemma tx_run_ok s op :
  tx_wf s -> tx_op_ok s op ->
  exists s', tx_run s op = Done s' /\ tx_wf s' /\ tx_pending s' = pending_step s op (tx_pending s).
Proof.
  intros Hwf Hok. unfold tx_pending. pose proof (tx_setters_ok s op Hwf Hok) as Hset.
  destruct op as [l| |now n|now|now x|now rto| |now|now|n|n|w|w|l];
    try (destruct Hset as (s' & -> & ? & Ec & Eq); exists s'; by rewrite Ec, Eq); simpl in *.
  - eexists. split; [done|]. split; [by apply tx_queue_wf|]. destruct s; simpl.
    by rewrite app_assoc.
  - destruct Hok as [Hn Hfit].
    destruct (tx_append_cache_ok now s n Hwf Hn Hfit) as (s' & -> & ? & Ec & Eq & _).
    exists s'. split; [done|]. split; [done|]. by rewrite Ec, Eq, <- app_assoc, ztake_zdrop.
  - eexists. split; [done|].
    destruct (tx_update_fin_timer_wf now (tx_with_queue_fin s false)) as (? & Ec & Eq).
    { destruct Hwf, s. by constructor. }
    split; [done|]. unfold tx_append_cache_fin. rewrite Ec, Eq. by destruct s.
  - destruct (tx_acknowledge_ok now s x Hwf Hok) as (s' & -> & ? & Ec & Eq & _).
    exists s'. split; [done|]. split; [done|]. rewrite Ec, Eq.
    pose proof (tx_acked_bounds s x Hwf Hok). unfold zdrop. rewrite drop_app_le; [done|].
    unfold len in *. lia.
  - destruct (queue_timed_out_ok now (tx_cache s) rto (txwf_cache s Hwf)) as (q' & -> & ? & _ & _ & _ & Ec).
    eexists. split; [done|]. split; [by apply tx_with_cache_wf|]. simpl. destruct s; simpl in *. by rewrite Ec.
  - eexists. split; [done|]. destruct (tx_update_fin_timer_wf now s Hwf) as (? & Ec & Eq).
    by rewrite Ec, Eq.
Qed.

(** A scaled window of at most 30 bits. *)
Lemma pow2_wscale k : 0 <= k <= 14 -> 1 <= 2 ^ k <= 16384.
Proof. intros Hk. split; [apply (Z.pow_le_mono_r 2 0); lia|apply (Z.pow_le_mono_r 2 k 14); lia]. Qed.

Lemma int_shl_u16 a k : is_u16 a -> 0 <= k <= 14 -> int_shl 64 a k = Done (a * 2 ^ k).
Proof.
  intros Ha Hk. unfold int_shl. zcase; [|lia]. f_equal. rewrite Z.shiftl_mul_pow2 by lia.
  pose proof (pow2_wscale k Hk). change (2 ^ 64) with (u64_max + 1).
  assert (0 <= a * 2 ^ k <= 65535 * 16384)
    by (split; [apply Z.mul_nonneg_nonneg|apply Z.mul_le_mono_nonneg]; ilia).
  rewrite Z.mod_small; [done|ilia].
Qed.

(** A state made by [new] from [u16] and [u32] fields and window scales up to
    14 is good, has nothing pending and a cache for the whole scaled window. *)
Lemma tx_new_ok src dst sequence acknowledgement send_window send_wscale sack_perm wscale :
  is_u32 sequence -> is_u32 acknowledgement -> is_u16 send_window ->
  0 <= unwrap_or send_wscale 0 <= 14 -> 0 <= unwrap_or wscale 0 <= 14 ->
  exists s,
    tx_new src dst sequence acknowledgement send_window send_wscale sack_perm wscale = Done s
    /\ tx_wf s /\ tx_pending s = []
    /\ tx_send_window s = send_window * 2 ^ unwrap_or send_wscale 0
    /\ q_capacity (tx_cache s) = RECV_WINDOW * 2 ^ unwrap_or wscale 0
    /\ tx_send_wscale s = send_wscale /\ tx_sacks s = None /\ tx_acknowledgement s = acknowledgement
    /\ tx_sequence s = sequence.
Proof.
  intros Hs Ha Hw H1 H2. unfold tx_new.
  rewrite !int_shl_u16, !outcome_bind_Done by (done || (unfold RECV_WINDOW; ilia)).
  pose proof (pow2_wscale (unwrap_or wscale 0) H2).
  destruct (queue_with_capacity_ok (RECV_WINDOW * 2 ^ unwrap_or wscale 0) sequence)
    as (q & -> & Hq & Hc & _ & _ & Hcap); [done|unfold RECV_WINDOW, u16_max; cap_lia|].
  eexists. split; [done|]. split; [by constructor; simpl|]. split; [|done].
  unfold tx_pending. simpl. by rewrite Hc.
Qed.

(** ** Theorems *)

(** C26. The send side refines a FIFO of bytes: for every operation and every
    good state, no step panics, the invariant is kept (a timeout between
    [MIN_RTO] and [MAX_RTO], at most four SACK ranges, a well-formed cache), and
    the bytes handed over and not yet acknowledged change only by
    [append_queue], which adds at the end, and by [acknowledge], which removes
    the covered bytes at the front: sending and retransmitting neither lose,
    duplicate nor reorder bytes. *)
Theorem tx_refines_fifo (s : TcpTxState) (op : tx_op) :
  tx_wf s -> tx_op_ok s op ->
  exists s', tx_run s op = Done s' /\ tx_wf s' /\ tx_pending s' = pending_step s op (tx_pending s).
Proof. apply tx_run_ok. Qed.

(** A connection that has sent four bytes and keeps three more. *)
Definition tx_example : TcpTxState :=
  mkTx (1, 1) (2, 2) 65535 None true 10 20 65535 None queue_example None None false
    [12; 13; 14] false 1000 None None.

Lemma tx_example_wf : tx_wf tx_example.
Proof. constructor; try done; [apply queue_example_wf|..]; simpl; ilia || (unfold MIN_RTO, MAX_RTO; lia). Qed.

Lemma tx_refines_fifo_witness :
  exists s', tx_run tx_example (TxAcknowledge 5 8) = Done s' /\ tx_wf s'
    /\ tx_pending s' = pending_step tx_example (TxAcknowledge 5 8) (tx_pending tx_example).
Proof. apply (tx_refines_fifo tx_example (TxAcknowledge 5 8) tx_example_wf). simpl; ilia. Defined.

(** The smoothed round-trip time forgets its past: two connections with
    the same [RTTVAR] get the same new [SRTT] from a measurement, whatever their
    previous [SRTT] was, so the value is no moving average of the measurements. *)
Theorem tx_srtt_ignores_previous (s1 s2 : TcpTxState) (rtt : Duration) (a1 a2 v : Z) :
  0 <= rtt -> is_u64 a1 -> is_u64 a2 -> is_u64 v ->
  tx_srtt s1 = Some a1 -> tx_srtt s2 = Some a2 ->
  tx_rttvar s1 = Some v -> tx_rttvar s2 = Some v ->
  exists s1' s2', tx_update_rto s1 rtt = Done s1' /\ tx_update_rto s2 rtt = Done s2'
    /\ tx_srtt s1' = tx_srtt s2'.
Proof.
  intros Hr H1 H2 Hv E1 E2 V1 V2.
  pose proof (tx_update_rto_ok s1 rtt) as F1. pose proof (tx_update_rto_ok s2 rtt) as F2.
  unfold rtt_next in F1, F2. rewrite E1, V1 in F1. rewrite E2, V2 in F2.
  rewrite F1, F2 by done. eexists _, _. split; [done|]. split; [done|]. by destruct s1, s2.
Qed.

Lemma tx_srtt_ignores_previous_witness :
  exists s1' s2',
    tx_update_rto (tx_with_rtt tx_example 1000 (Some 100) (Some 80)) 200000000 = Done s1'
    /\ tx_update_rto (tx_with_rtt tx_example 1000 (Some 9000) (Some 80)) 200000000 = Done s2'
    /\ tx_srtt s1' = tx_srtt s2'.
Proof.
  apply (tx_srtt_ignores_previous (tx_with_rtt tx_example 1000 (Some 100) (Some 80))
    (tx_with_rtt tx_example 1000 (Some 9000) (Some 80)) 200000000 100 9000 80); (reflexivity || ilia).
Defined.

(** C37. An acknowledgement of every byte in flight, but not of the FIN behind
    them, takes the FIN for acknowledged: the timer that would retransmit it
    is gone and the sequence number moves past it. *)
Theorem tx_ack_clears_uncovered_fin (now : Instant) (s : TcpTxState) (timer : Timer) :
  tx_wf s -> tx_cache_syn s = None -> tx_cache_fin s = Some timer ->
  q_size (tx_cache s) <= MAX_U32_WINDOW_SIZE ->
  exists s', tx_acknowledge now s (queue_recv_next (tx_cache s)) = Done s'
    /\ tx_cache_fin s' = None /\ tx_sequence s' = seq_add (tx_sequence s) 1.
Proof.
  intros Hwf Hsyn Hfin Hmax. pose proof Hwf as [[Hs Hc Hb Hz _ _] _ _ _ _ _].
  set (x := queue_recv_next (tx_cache s)).
  assert (Hx : is_u32 x) by (apply seq_add_u32; [done|apply as_u32_range]).
  assert (Hd : seq_sub x (q_sequence (tx_cache s)) = q_size (tx_cache s)).
  { unfold x, queue_recv_next. rewrite seq_add_as_u32 by cap_lia. apply seq_sub_add; [done|cap_lia]. }
  unfold tx_acknowledge, tx_acknowledge_syn. rewrite Hsyn.
  destruct (queue_invalidate_to_ok now (tx_cache s) x) as (q' & rtt & E & Hq & Hseq & _ & Hsz & _);
    [by destruct Hwf|done|lia|].
  pose proof (queue_invalidate_to_rtt _ _ _ _ _ E) as Hr. rewrite E, outcome_bind_Done.
  pose proof (tx_acknowledge_fin_wf now (tx_with_cache s q') x rtt ltac:(auto with txwf) Hr) as Hf.
  assert (Hn : queue_recv_next q' = x).
  { unfold queue_recv_next. rewrite Hsz, Hd, Hseq, Z.sub_diag, seq_add_0; done. }
  revert Hf. unfold tx_acknowledge_fin.
  replace (tx_cache (tx_with_cache s q')) with q' by by destruct s. rewrite Hn.
  replace (tx_cache_fin (tx_with_cache s q')) with (Some timer) by (rewrite <- Hfin; by destruct s).
  replace (seq_ahead x x) with true by (unfold seq_ahead; by rewrite seq_sub_diag).
  match goal with |- context [tx_add_sequence ?a 1] => set (s3 := tx_add_sequence a 1) end.
  assert (tx_cache_fin s3 = None /\ tx_sequence s3 = seq_add (tx_sequence s) 1) as [E1 E2]
    by by destruct s.
  intros (Hwf3 & _ & _ & Hr3). destruct (if _ : bool then _ else _) as [d|]; [|by exists s3].
  destruct (tx_update_rto_wf s3 d Hwf3 Hr3) as (s' & -> & _ & _ & _ & Ef & Es).
  exists s'. by rewrite Ef, Es.
Qed.

Lemma tx_ack_clears_uncovered_fin_witness :
  exists s',
    tx_acknowledge 5 (tx_with_cache_fin tx_example (Some (mkTimer 0 1000)))
      (queue_recv_next (tx_cache tx_example)) = Done s'
    /\ tx_cache_fin s' = None /\ tx_sequence s' = seq_add (tx_sequence tx_example) 1.
Proof.
  apply (tx_ack_clears_uncovered_fin 5 (tx_with_cache_fin tx_example (Some (mkTimer 0 1000)))
    (mkTimer 0 1000)); [|reflexivity|reflexivity|vm_compute; discriminate].
  destruct tx_example_wf. constructor; done.
Defined.
