(* ===== verification/RxState.v ===== *)
(** * The receive state of a connection: [TcpRxState] of [lib.rs]

    What the redirector keeps for the direction from the source to the proxy:
    the next expected number, the window of out-of-order bytes, the counter of
    duplicate acknowledgements and the number of a FIN that came early. *)

From S2P Require Import Prelude SeqArith Ring Window TxState.

Definition DUPLICATES_THRESHOLD : Z := 3.
Definition RETRANS_COOL_DOWN : Z := 200.

Record TcpRxState : Set := mkRx {
  rx_src : SocketAddrV4;
  rx_dst : SocketAddrV4;
  rx_recv_next : Z;
  rx_last_acknowledgement : Z;
  rx_duplicate : Z;
  rx_last_retrans : option Instant;
  rx_wscale : Z;
  rx_sack_perm : bool;
  rx_cache : Window;
  rx_fin_sequence : option Z
}.

Definition rx_with_recv_next (s : TcpRxState) (n : Z) : TcpRxState :=
  mkRx (rx_src s) (rx_dst s) n (rx_last_acknowledgement s) (rx_duplicate s) (rx_last_retrans s)
    (rx_wscale s) (rx_sack_perm s) (rx_cache s) (rx_fin_sequence s).
Definition rx_with_duplicate (s : TcpRxState) (acknowledgement n : Z) : TcpRxState :=
  mkRx (rx_src s) (rx_dst s) (rx_recv_next s) acknowledgement n (rx_last_retrans s)
    (rx_wscale s) (rx_sack_perm s) (rx_cache s) (rx_fin_sequence s).
Definition rx_with_cache (s : TcpRxState) (w : Window) : TcpRxState :=
  mkRx (rx_src s) (rx_dst s) (rx_recv_next s) (rx_last_acknowledgement s) (rx_duplicate s)
    (rx_last_retrans s) (rx_wscale s) (rx_sack_perm s) w (rx_fin_sequence s).
Definition rx_with_fin_sequence (s : TcpRxState) (n : option Z) : TcpRxState :=
  mkRx (rx_src s) (rx_dst s) (rx_recv_next s) (rx_last_acknowledgement s) (rx_duplicate s)
    (rx_last_retrans s) (rx_wscale s) (rx_sack_perm s) (rx_cache s) n.

(** [(RECV_WINDOW as usize) << wscale as usize] panics for a scale of 64 and
    more. *)
Definition rx_new (src dst : SocketAddrV4) (sequence wscale : Z) (sack_perm : bool)
  : outcome TcpRxState :=
  let recv_next := seq_succ sequence in
  capacity ← int_shl 64 RECV_WINDOW wscale;
  mret (mkRx src dst recv_next 0 0 None wscale sack_perm (window_with_capacity capacity recv_next) None).

Definition rx_add_recv_next (s : TcpRxState) (n : Z) : TcpRxState :=
  rx_with_recv_next s (seq_add (rx_recv_next s) n).

Definition rx_clear_duplicate (s : TcpRxState) : TcpRxState :=
  rx_with_duplicate s (rx_last_acknowledgement s) 0.

(** The state after the count, and whether a fast retransmission is due. *)
Definition rx_increase_duplicate (now : Instant) (s : TcpRxState) (acknowledgement : Z)
  : TcpRxState * bool :=
  if rx_last_acknowledgement s =? acknowledgement then
    let s := rx_with_duplicate s (rx_last_acknowledgement s)
               (unwrap_or (checked_add usize_max (rx_duplicate s) 1) usize_max) in
    if DUPLICATES_THRESHOLD <=? rx_duplicate s then
      let is_cooled_down :=
        match rx_last_retrans s with
        | Some instant => as_millis (elapsed now instant) <? RETRANS_COOL_DOWN
        | None => false
        end in
      (s, negb is_cooled_down)
    else (s, false)
  else (rx_with_duplicate (rx_clear_duplicate s) acknowledgement 0, false).

Definition rx_set_last_retrans (now : Instant) (s : TcpRxState) : TcpRxState :=
  mkRx (rx_src s) (rx_dst s) (rx_recv_next s) (rx_last_acknowledgement s) (rx_duplicate s)
    (Some now) (rx_wscale s) (rx_sack_perm s) (rx_cache s) (rx_fin_sequence s).

Definition rx_append_cache (s : TcpRxState) (sequence : Z) (payload : list byte)
  : outcome (TcpRxState * io_result (option (list byte))) :=
  '(w, r) ← window_append (rx_cache s) sequence payload;
  mret (rx_with_cache s w, r).

Definition rx_set_fin_sequence (s : TcpRxState) (sequence : Z) : TcpRxState :=
  rx_with_fin_sequence s (Some sequence).

Definition rx_admit_fin (s : TcpRxState) : TcpRxState := rx_with_fin_sequence s None.
