(* ===== verification/Socks.v ===== *)
(** * The SOCKS client: [socks/mod.rs] and [socks/socks/mod.rs]

    The workers that stand between the redirector and the proxy: the packing
    of an address into an atomic integer, the header of SOCKS5 datagrams, the
    choice of the address to associate with, the stream worker with its two
    tasks and the datagram worker with its task.

    The sockets and the crate [async_socks5] are outside: what they answer is
    an argument of the definitions, and what is written to them is kept in the
    state.  The tasks call the forwarder through the traits [ForwardStream] and
    [ForwardDatagram], which are classes over the state of the implementation;
    [ForwardStreamLaws] states what a stream worker may rely on. *)

From S2P Require Import Prelude SeqArith.

(** ** The traits *)

(** A method takes the state behind the mutex; the clock reading is an
    argument. *)
Class ForwardStream (S : Type) := {
  stream_open : Instant -> SocketAddrV4 -> SocketAddrV4 -> S -> outcome (S * io_result unit);
  stream_forward : Instant -> SocketAddrV4 -> SocketAddrV4 -> list byte -> S -> outcome (S * io_result unit);
  stream_tick : Instant -> SocketAddrV4 -> SocketAddrV4 -> S -> outcome (S * io_result unit);
  stream_close : Instant -> SocketAddrV4 -> SocketAddrV4 -> S -> outcome (S * io_result unit)
}.

Class ForwardDatagram (S : Type) := {
  datagram_forward : SocketAddrV4 -> SocketAddrV4 -> list byte -> S -> outcome (S * io_result unit)
}.

(** The promise of an implementation: on a live connection no call panics, data
    is queued in order until the end is announced, and ticks keep it; a call may
    fail, as when the device does, and keeps the promise then too. *)
Class ForwardStreamLaws (S : Type) `{F : ForwardStream S} := {
  stream_live : S -> SocketAddrV4 -> SocketAddrV4 -> Prop;
  stream_ended : S -> SocketAddrV4 -> SocketAddrV4 -> bool;
  stream_pending : S -> SocketAddrV4 -> SocketAddrV4 -> list byte;
  law_forward now dst src payload s :
    stream_live s dst src -> stream_ended s dst src = false ->
    exists s' r, stream_forward now dst src payload s = Done (s', r)
      /\ stream_live s' dst src /\ stream_ended s' dst src = false
      /\ stream_pending s' dst src = stream_pending s dst src ++ payload;
  law_tick now dst src s :
    stream_live s dst src ->
    exists s' r, stream_tick now dst src s = Done (s', r)
      /\ stream_live s' dst src /\ stream_ended s' dst src = stream_ended s dst src
      /\ stream_pending s' dst src = stream_pending s dst src;
  law_close now dst src s :
    stream_live s dst src ->
    exists s' r, stream_close now dst src s = Done (s', r)
      /\ stream_live s' dst src /\ stream_ended s' dst src = true
      /\ stream_pending s' dst src = stream_pending s dst src
}.

(** ** Addresses *)

Definition socket_addr_v4_to_u64 (addr : SocketAddrV4) : Z :=
  Z.shiftl (sa_ip addr) 16 + sa_port addr.

Definition u64_to_socket_addr_v4 (v : Z) : SocketAddrV4 :=
  let port := as_u16 v in
  let ip := as_u32 (Z.shiftr v 16) in
  (ip, port).

(** [octets] and [Ipv4Addr::new]. *)
Definition octets (ip : Ipv4Addr) : list byte :=
  [ip / 16777216 mod 256; ip / 65536 mod 256; ip / 256 mod 256; ip mod 256].
Definition ipv4_addr_new (a b c d : byte) : Ipv4Addr := ((a * 256 + b) * 256 + c) * 256 + d.

(** [Ipv4Addr::is_private]. *)
Definition is_private (ip : Ipv4Addr) : bool :=
  match octets ip with
  | a :: b :: _ =>
      (a =? 10) || ((a =? 172) && (16 <=? b) && (b <=? 31)) || ((a =? 192) && (b =? 168))
  | _ => false
  end.

(** ** SOCKS5 datagrams *)

Definition RSV_SIZE : Z := 2.
Definition FRAG_SIZE : Z := 1.
Definition ATYP_SIZE : Z := 1.
Definition DST_ADDR_SIZE : Z := 4.
Definition DST_PORT_SIZE : Z := 2.
Definition HEADER_SIZE : Z := RSV_SIZE + FRAG_SIZE + ATYP_SIZE + DST_ADDR_SIZE + DST_PORT_SIZE.
Definition ATYP_IPV4 : Z := 1.

(** The bytes that [SocksSendHalf::send_to] hands to the socket. *)
Definition socks_send_to (payload : list byte) (dst : SocketAddrV4) : outcome (list byte) :=
  size ← usize_add HEADER_SIZE (len payload);
  let buf := zeros size in
  buf ← copy_from_slice buf 3 4 [ATYP_IPV4];
  buf ← copy_from_slice buf 4 8 (octets (sa_ip dst));
  buf ← copy_from_slice buf 8 9 [as_u8 (sa_port dst / 256)];
  buf ← copy_from_slice buf 9 10 [as_u8 (sa_port dst mod 256)];
  copy_from_slice buf 10 (len buf) payload.

(** [SocksRecvHalf::recv_from]: [socks] is the buffer of the half, into which
    the socket writes the datagram, cut to its length; [buffer] is the caller's.
    The result holds both buffers, the size and the address. *)
Definition socks_recv_from (socks datagram buffer : list byte)
  : outcome (list byte * list byte * (Z * SocketAddrV4)) :=
  let n := Z.min (len datagram) (len socks) in
  let socks := blit socks 0 (ztake n datagram) in
  atyp ← index socks 3;
  if atyp =? ATYP_IPV4 then
    a ← index socks 4; b ← index socks 5; c ← index socks 6; d ← index socks 7;
    p ← index socks 8; q ← index socks 9;
    port ← int_mul u16_max p 256;
    port ← int_add u16_max port q;
    let addr := (ipv4_addr_new a b c d, port) in
    size ← int_sub n HEADER_SIZE;
    data ← slice socks HEADER_SIZE n;
    buffer ← copy_from_slice buffer 0 size data;
    mret (socks, buffer, (size, addr))
  else Panic.

(** ** Options and association *)

Record SocksAuth : Set := mkSocksAuth { auth_username : string; auth_password : string }.

Record SocksOption : Set := mkSocksOption {
  force_associate_remote : bool;
  force_associate_bind_addr : bool;
  socks_auth : option SocksAuth
}.

(** [std::net::SocketAddr], and [AddrKind] of the crate. *)
Inductive SocketAddr : Set :=
| SocketAddr_V4 (addr : SocketAddrV4)
| SocketAddr_V6 (ip port : Z).
Inductive AddrKind : Set :=
| AddrKind_Ip (addr : SocketAddr)
| AddrKind_Domain (name : string) (port : Z).

Definition socket_addr_port (a : SocketAddr) : Z :=
  match a with SocketAddr_V4 a => sa_port a | SocketAddr_V6 _ port => port end.

(** Whether the address that the proxy answered is replaced. *)
Definition is_rewrite (options : SocksOption) (proxy_addr : SocketAddr) : outcome bool :=
  if force_associate_remote options then mret true
  else
    match proxy_addr with
    | SocketAddr_V4 proxy_addr =>
        mret (if force_associate_bind_addr options then false else is_private (sa_ip proxy_addr))
    | SocketAddr_V6 _ _ => if force_associate_bind_addr options then Panic else mret true
    end.

(** An error of [async_socks5], and what it becomes. *)
Inductive Socks5Error : Set :=
| Socks5_Io (e : IoError)
| Socks5_Other (text : string).
Definition io_error_of (e : Socks5Error) : IoError :=
  match e with Socks5_Io e => e | Socks5_Other text => mkIoError EOther text end.

(** [connect]: what the connection to the proxy answers, then what the
    handshake of the crate answers. *)
Record connect_answer : Set := mkConnectAnswer {
  ca_tcp : io_result unit;
  ca_handshake : unit + Socks5Error
}.
Definition socks_connect (answer : connect_answer) : io_result unit :=
  match ca_tcp answer with
  | Err e => Err e
  | Ok _ => match ca_handshake answer with inl _ => Ok tt | inr e => Err (io_error_of e) end
  end.

(** [bind]: what the connection to the proxy, the local socket (with its port)
    and the association answer, and what [connect] answers for the replaced
    address.  The result is the local port and the address the socket was
    connected to anew, if any. *)
Record bind_answer : Set := mkBindAnswer {
  ba_tcp : io_result unit;
  ba_udp : io_result Z;
  ba_associate : AddrKind + Socks5Error
}.
Definition socks_bind (remote : SocketAddrV4) (options : SocksOption)
    (answer : bind_answer) (connect : SocketAddrV4 -> io_result unit)
  : outcome (io_result (Z * option SocketAddrV4)) :=
  match ba_tcp answer, ba_udp answer, ba_associate answer with
  | Err e, _, _ => mret (Err e)
  | Ok _, Err e, _ => mret (Err e)
  | Ok _, Ok _, inr e => mret (Err (io_error_of e))
  | Ok _, Ok _, inl (AddrKind_Domain _ _) => Panic
  | Ok _, Ok local_port, inl (AddrKind_Ip proxy_addr) =>
      rewrite_addr ← is_rewrite options proxy_addr;
      if rewrite_addr : bool then
        let next_proxy_addr := (sa_ip remote, socket_addr_port proxy_addr) in
        match connect next_proxy_addr with
        | Ok _ => mret (Ok (local_port, Some next_proxy_addr))
        | Err e => mret (Err e)
        end
      else mret (Ok (local_port, None))
  end.

(** ** The stream worker *)

Definition MAX_RECV_ZERO : Z := 3.

(** The worker and its tasks.  [sw_stream_tx] is what was written to the write
    half, while it is there; [sw_task] is the count of empty reads of the task
    that forwards, while it runs. *)
Record StreamWorker : Set := mkStreamWorker {
  sw_dst : SocketAddrV4;
  sw_stream_tx : option (list byte);
  sw_is_write_closed : bool;
  sw_is_read_closed : bool;
  sw_task : option Z
}.

Definition sw_with_stream_tx (w : StreamWorker) (x : option (list byte)) : StreamWorker :=
  mkStreamWorker (sw_dst w) x (sw_is_write_closed w) (sw_is_read_closed w) (sw_task w).
Definition sw_with_closed (w : StreamWorker) (write read : bool) : StreamWorker :=
  mkStreamWorker (sw_dst w) (sw_stream_tx w) write read (sw_task w).
Definition sw_with_task (w : StreamWorker) (x : option Z) : StreamWorker :=
  mkStreamWorker (sw_dst w) (sw_stream_tx w) (sw_is_write_closed w) (sw_is_read_closed w) x.

(** [connect]: the proxy's answer comes first, then the stream is opened at
    the forwarder. *)
Definition stream_worker_connect {S} `{ForwardStream S} (now : Instant) (src dst : SocketAddrV4)
    (answer : connect_answer) (s : S) : outcome (S * io_result StreamWorker) :=
  match socks_connect answer with
  | Err e => mret (s, Err e)
  | Ok _ =>
      '(s, r) ← stream_open now dst src s;
      match r with
      | Err e => mret (s, Err e)
      | Ok _ => mret (s, Ok (mkStreamWorker dst (Some []) false false (Some 0)))
      end
  end.

(** What [write_all] does: everything is written, or an error comes after some
    bytes. *)
Inductive write_answer : Set :=
| WriteAll
| WriteErr (written : Z) (e : IoError).

Definition stream_worker_send (w : StreamWorker) (payload : list byte) (answer : write_answer)
  : StreamWorker * io_result unit :=
  match sw_stream_tx w with
  | Some sent =>
      match answer with
      | WriteAll => (sw_with_stream_tx w (Some (sent ++ payload)), Ok tt)
      | WriteErr n e => (sw_with_stream_tx w (Some (sent ++ ztake n payload)), Err e)
      end
  | None => (w, Err (mkIoError ENotConnected ""))
  end.

(** [shutdown(Shutdown::Write)]. *)
Definition stream_worker_shutdown (w : StreamWorker) : outcome StreamWorker :=
  if negb (sw_is_write_closed w) then
    _ ← unwrap (sw_stream_tx w);
    mret (sw_with_stream_tx (sw_with_closed w true (sw_is_read_closed w)) None)
  else mret w.

(** [close], which is what dropping the worker does. *)
Definition stream_worker_close (w : StreamWorker) : outcome StreamWorker :=
  w ← stream_worker_shutdown w;
  mret (sw_with_closed w (sw_is_write_closed w) true).

(** A turn of the task that forwards, when [read] answers. *)
Definition stream_task_read {S} `{ForwardStream S} (now : Instant) (src : SocketAddrV4)
    (answer : io_result (list byte)) (w : StreamWorker) (s : S) : outcome (StreamWorker * S) :=
  match sw_task w with
  | None => mret (w, s)
  | Some recv_zero =>
      match answer with
      | Ok bytes =>
          if sw_is_read_closed w then mret (sw_with_task w None, s)
          else if len bytes =? 0 then
            let recv_zero := recv_zero + 1 in
            if MAX_RECV_ZERO <? recv_zero then
              '(s, _) ← stream_close now (sw_dst w) src s;
              mret (sw_with_task (sw_with_closed w (sw_is_write_closed w) true) None, s)
            else mret (sw_with_task w (Some recv_zero), s)
          else
            '(s, _) ← stream_forward now (sw_dst w) src bytes s;
            mret (sw_with_task w (Some 0), s)
      | Err e =>
          if bool_decide (err_kind e = ETimedOut) then
            mret (if sw_is_read_closed w then sw_with_task w None else w, s)
          else mret (sw_with_task (sw_with_closed w true true) None, s)
      end
  end.

(** A turn of the task that ticks. *)
Definition stream_task_tick {S} `{ForwardStream S} (now : Instant) (src : SocketAddrV4)
    (w : StreamWorker) (s : S) : outcome S :=
  if sw_is_read_closed w then mret s
  else '(s, _) ← stream_tick now (sw_dst w) src s; mret s.

(** ** The datagram worker *)

(** [dw_sent] are the datagrams handed to the socket, [dw_socks_buffer] and
    [dw_buffer] the buffers of the receive half and of the task, [dw_task]
    whether the task runs. *)
Record DatagramWorker : Set := mkDatagramWorker {
  dw_src : Z;
  dw_local_port : Z;
  dw_sent : list (list byte);
  dw_is_closed : bool;
  dw_socks_buffer : list byte;
  dw_buffer : list byte;
  dw_task : bool
}.

Definition datagram_worker_new (src : SocketAddrV4) (local_port : Z) : DatagramWorker :=
  mkDatagramWorker (socket_addr_v4_to_u64 src) local_port [] false (zeros u16_max) (zeros u16_max) true.

Definition datagram_worker_send_to (w : DatagramWorker) (payload : list byte) (dst : SocketAddrV4)
    (answer : io_result Z) : outcome (DatagramWorker * io_result Z) :=
  datagram ← socks_send_to payload dst;
  mret (mkDatagramWorker (dw_src w) (dw_local_port w) (dw_sent w ++ [datagram]) (dw_is_closed w)
          (dw_socks_buffer w) (dw_buffer w) (dw_task w), answer).

Definition datagram_worker_set_src (w : DatagramWorker) (src : SocketAddrV4) : DatagramWorker :=
  mkDatagramWorker (socket_addr_v4_to_u64 src) (dw_local_port w) (dw_sent w) (dw_is_closed w)
    (dw_socks_buffer w) (dw_buffer w) (dw_task w).

Definition datagram_worker_src (w : DatagramWorker) : SocketAddrV4 := u64_to_socket_addr_v4 (dw_src w).

Definition dw_with_task (w : DatagramWorker) (closed task : bool) : DatagramWorker :=
  mkDatagramWorker (dw_src w) (dw_local_port w) (dw_sent w) closed (dw_socks_buffer w) (dw_buffer w) task.
Definition dw_with_buffers (w : DatagramWorker) (socks buffer : list byte) : DatagramWorker :=
  mkDatagramWorker (dw_src w) (dw_local_port w) (dw_sent w) (dw_is_closed w) socks buffer (dw_task w).

(** A turn of the task, when the socket answers with a datagram. *)
Definition datagram_task_recv {S} `{ForwardDatagram S} (answer : io_result (list byte))
    (w : DatagramWorker) (s : S) : outcome (DatagramWorker * S) :=
  if dw_task w then
    match answer with
    | Ok datagram =>
        '(socks, buffer, (size, addr)) ← socks_recv_from (dw_socks_buffer w) datagram (dw_buffer w);
        let w := dw_with_buffers w socks buffer in
        if dw_is_closed w then mret (dw_with_task w true false, s)
        else
          payload ← slice buffer 0 size;
          '(s, _) ← datagram_forward addr (datagram_worker_src w) payload s;
          mret (w, s)
    | Err e =>
        if bool_decide (err_kind e = ETimedOut) then
          mret (if dw_is_closed w then dw_with_task w true false else w, s)
        else mret (dw_with_task w true false, s)
    end
  else mret (w, s).

(** ** Lemmas *)

Lemma octets_roundtrip ip :
  is_u32 ip ->
  ipv4_addr_new (ip / 16777216 mod 256) (ip / 65536 mod 256) (ip / 256 mod 256) (ip mod 256) = ip.
Proof.
  intros Hip. unfold ipv4_addr_new, is_u32, u32_max in *.
  pose proof (Z.div_mod ip 256 ltac:(lia)). pose proof (Z.div_mod (ip / 256) 256 ltac:(lia)).
  pose proof (Z.div_mod (ip / 256 / 256) 256 ltac:(lia)).
  replace (ip / 65536) with (ip / 256 / 256) by (by rewrite Z.div_div by lia).
  replace (ip / 16777216) with (ip / 256 / 256 / 256) by (by rewrite !Z.div_div by lia).
  rewrite (Z.mod_small (ip / 256 / 256 / 256)); [lia|].
  rewrite !Z.div_div by lia. split; [apply Z.div_pos; lia|apply Z.div_lt_upper_bound; lia].
Qed.

Lemma len_octets ip : len (octets ip) = 4.
Proof. reflexivity. Qed.
#[local] Hint Rewrite len_octets : zlist.

(** The header, as a list of bytes. *)
Definition socks_header (dst : SocketAddrV4) : list byte :=
  [0; 0; 0; ATYP_IPV4] ++ octets (sa_ip dst) ++ [as_u8 (sa_port dst / 256); as_u8 (sa_port dst mod 256)].

Lemma socks_send_to_ok payload dst :
  len payload <= u32_max -> socks_send_to payload dst = Done (socks_header dst ++ payload).
Proof.
  intros Hp. pose proof (len_nonneg payload). unfold socks_send_to, usize_add.
  ostep int_add_Done by (unfold HEADER_SIZE, RSV_SIZE, FRAG_SIZE, ATYP_SIZE, DST_ADDR_SIZE, DST_PORT_SIZE; ilia).
  change HEADER_SIZE with 10. cbv zeta.
  assert (Hz : zeros (10 + len payload) = zeros 10 ++ zeros (len payload)).
  { unfold zeros. rewrite Z2Nat.inj_add, replicate_add by lia. done. }
  assert (Hl : len (zeros (10 + len payload)) = 10 + len payload) by (rewrite len_zeros; lia).
  do 4 (ostep copy_from_slice_Done by zl).
  set (b := blit _ 9 _).
  assert (Hb : b = socks_header dst ++ zeros (len payload)) by (unfold b; rewrite Hz; reflexivity).
  rewrite Hb. assert (Hlb : len (socks_header dst ++ zeros (len payload)) = 10 + len payload).
  { rewrite len_app, len_zeros. change (len (socks_header dst)) with 10. lia. }
  rewrite copy_from_slice_Done by lia. unfold blit. f_equal.
  rewrite ztake_app, zdrop_all, app_nil_r by (done || lia). done.
Qed.

(** A datagram that fits is in front of what the buffer held before. *)
Lemma socks_recv_buffer (socks datagram : list byte) :
  len datagram <= len socks ->
  blit socks 0 (ztake (Z.min (len datagram) (len socks)) datagram) = datagram ++ zdrop (len datagram) socks.
Proof.
  intros H. rewrite Z.min_l by lia. rewrite ztake_all by lia. unfold blit, ztake. rewrite take_0. done.
Qed.

Lemma socks_recv_sent (payload socks buffer : list byte) (addr : SocketAddrV4) :
  is_u32 (sa_ip addr) -> is_u16 (sa_port addr) -> HEADER_SIZE + len payload <= u16_max ->
  len socks = u16_max -> len buffer = u16_max ->
  exists datagram socks' buffer',
    socks_send_to payload addr = Done datagram
    /\ socks_recv_from socks datagram buffer = Done (socks', buffer', (len payload, addr))
    /\ slice buffer' 0 (len payload) = Done payload
    /\ len socks' = u16_max /\ len buffer' = u16_max.
Proof.
  intros Hip Hport Hp Hs Hb. change HEADER_SIZE with 10 in Hp. pose proof (len_nonneg payload).
  exists (socks_header addr ++ payload). rewrite socks_send_to_ok by ilia.
  assert (Hl : len (socks_header addr ++ payload) = 10 + len payload) by (rewrite len_app; done).
  unfold socks_recv_from. cbv zeta. rewrite socks_recv_buffer by lia. rewrite Z.min_l by lia. rewrite Hl.
  set (rest := zdrop (10 + len payload) socks).
  assert (Hr : len ((socks_header addr ++ payload) ++ rest) = u16_max).
  { rewrite len_app, Hl. unfold rest. rewrite len_zdrop. ilia. }
  assert (Hi : forall i, 0 <= i < 10 ->
    index ((socks_header addr ++ payload) ++ rest) i = Done (nth (Z.to_nat i) (socks_header addr) 0)).
  { intros i Hi. unfold index. destruct (Z.leb_spec 0 i); [|lia].
    assert (Hn : (Z.to_nat i < 10)%nat) by lia. revert Hn. generalize (Z.to_nat i). intros n Hn.
    do 10 (destruct n as [|n]; [reflexivity|]). lia. }
  rewrite !Hi by lia. clear Hi. rewrite !outcome_bind_Done. destruct addr as [ip port].
  change (nth (Z.to_nat 3) (socks_header (ip, port)) 0 =? ATYP_IPV4) with true. cbv iota.
  change (nth (Z.to_nat 8) (socks_header (ip, port)) 0) with (as_u8 (port / 256)).
  change (nth (Z.to_nat 9) (socks_header (ip, port)) 0) with (as_u8 (port mod 256)).
  change (ipv4_addr_new _ _ _ _)
    with (ipv4_addr_new (ip / 16777216 mod 256) (ip / 65536 mod 256) (ip / 256 mod 256) (ip mod 256)).
  cbn [sa_ip sa_port fst snd] in Hip, Hport. rewrite octets_roundtrip by done.
  unfold is_u16, u16_max in *. pose proof (Z.div_mod port 256 ltac:(lia)).
  pose proof (Z.mod_pos_bound port 256 ltac:(lia)).
  assert (E1 : as_u8 (port / 256) = port / 256).
  { apply Z.mod_small. split; [apply Z.div_pos; lia|apply Z.div_lt_upper_bound; lia]. }
  assert (E2 : as_u8 (port mod 256) = port mod 256) by (apply Z.mod_small; lia).
  rewrite E1, E2. ostep int_mul_Done by lia. ostep int_add_Done by lia.
  change HEADER_SIZE with 10. ostep int_sub_Done by lia. ostep slice_Done by lia.
  replace (10 + len payload - 10) with (len payload) by lia.
  assert (Ed : ztake (len payload) (zdrop 10 ((socks_header (ip, port) ++ payload) ++ rest)) = payload).
  { rewrite <- app_assoc, zdrop_app, ztake_app by done. done. }
  rewrite Ed. ostep copy_from_slice_Done by lia.
  eexists _, _. split; [done|]. split.
  { do 5 f_equal. lia. }
  rewrite slice_Done by (rewrite ?len_blit; lia). rewrite Z.sub_0_r, (zdrop_0 0) by lia.
  split; [|split; [done|rewrite len_blit; lia]]. f_equal. unfold blit, ztake at 2. rewrite take_0.
  change ([] ++ ?x) with x. by rewrite ztake_app.
Qed.

(** ** Theorems *)

(** The packing of a source address into the atomic integer of a datagram
    worker is undone by the unpacking. *)
Theorem socket_addr_u64_roundtrip (addr : SocketAddrV4) :
  is_u32 (sa_ip addr) -> is_u16 (sa_port addr) ->
  u64_to_socket_addr_v4 (socket_addr_v4_to_u64 addr) = addr /\ is_u64 (socket_addr_v4_to_u64 addr).
Proof.
  destruct addr as [ip port]. simpl. unfold is_u32, is_u16, is_u64, u32_max, u16_max, u64_max. intros Hip Hport.
  unfold u64_to_socket_addr_v4, socket_addr_v4_to_u64, sa_ip, sa_port. simpl.
  rewrite Z.shiftl_mul_pow2, Z.shiftr_div_pow2 by lia. change (2 ^ 16) with 65536.
  split; [|lia]. unfold as_u16, as_u32.
  rewrite Z.div_add_l, Z.div_small, Z.add_0_r, (Z.mod_small ip) by lia.
  rewrite Z.add_comm, Z.mod_add, Z.mod_small by lia. done.
Qed.

Lemma socket_addr_u64_roundtrip_witness :
  u64_to_socket_addr_v4 (socket_addr_v4_to_u64 (167772161, 53)) = (167772161, 53)
  /\ is_u64 (socket_addr_v4_to_u64 (167772161, 53)).
Proof. apply (socket_addr_u64_roundtrip (167772161, 53)); vm_compute; split; discriminate. Defined.

(** C17. SOCKS5 datagrams: what [send_to] writes for an address and a payload
    is what [recv_from] reads, whatever datagram the buffers held before. *)
Theorem socks_datagram_roundtrip (payload socks buffer : list byte) (addr : SocketAddrV4) :
  is_u32 (sa_ip addr) -> is_u16 (sa_port addr) -> HEADER_SIZE + len payload <= u16_max ->
  len socks = u16_max -> len buffer = u16_max ->
  exists datagram socks' buffer',
    socks_send_to payload addr = Done datagram
    /\ socks_recv_from socks datagram buffer = Done (socks', buffer', (len payload, addr))
    /\ slice buffer' 0 (len payload) = Done payload
    /\ len socks' = u16_max /\ len buffer' = u16_max.
Proof. exact (socks_recv_sent payload socks buffer addr). Qed.

Lemma socks_datagram_roundtrip_witness :
  exists datagram socks' buffer',
    socks_send_to [1; 2; 3] (167772161, 53) = Done datagram
    /\ socks_recv_from (zeros u16_max) datagram (zeros u16_max)
       = Done (socks', buffer', (len [1; 2; 3], (167772161, 53)))
    /\ slice buffer' 0 (len [1; 2; 3]) = Done [1; 2; 3]
    /\ len socks' = u16_max /\ len buffer' = u16_max.
Proof.
  apply (socks_datagram_roundtrip [1; 2; 3] (zeros u16_max) (zeros u16_max) (167772161, 53));
    vm_compute; try split; try discriminate; reflexivity.
Defined.

(** A datagram of the proxy that is shorter than a header, or whose
    address is not an IPv4 address, makes the task of the worker panic. *)
Theorem socks_foreign_datagram_panics (socks datagram buffer : list byte) :
  len socks = u16_max -> len datagram <= u16_max ->
  len datagram < HEADER_SIZE \/ zat datagram 3 <> ATYP_IPV4 ->
  socks_recv_from socks datagram buffer = Panic.
Proof.
  intros Hs Hd Hbad. change HEADER_SIZE with 10 in Hbad. unfold socks_recv_from. cbv zeta.
  rewrite socks_recv_buffer by lia. rewrite Z.min_l by lia.
  set (l := datagram ++ zdrop (len datagram) socks). pose proof (len_nonneg datagram).
  assert (Hl : len l = u16_max) by (unfold l; rewrite len_app, len_zdrop; lia).
  assert (Hi : forall i, 0 <= i < 10 -> index l i = Done (zat l i)).
  { intros i Hi. unfold index, zat. destruct (Z.leb_spec 0 i); [|lia].
    assert (Z.to_nat i < length l)%nat as [x E]%lookup_lt_is_Some by (unfold len, u16_max in Hl; lia).
    rewrite E. simpl. f_equal. symmetry. by apply nth_lookup_Some. }
  rewrite (Hi 3), outcome_bind_Done by lia. destruct (Z.eqb_spec (zat l 3) ATYP_IPV4) as [E|]; [|done].
  assert (Hshort : len datagram < 10).
  { destruct Hbad as [|Hne]; [done|]. destruct (Z.lt_ge_cases (len datagram) 10); [done|]. exfalso. apply Hne.
    unfold l in E. rewrite zat_app in E by lia. destruct (Z.ltb_spec 3 (len datagram)); [done|lia]. }
  rewrite !Hi by lia. rewrite !outcome_bind_Done.
  unfold int_mul, int_add, int_sub. destruct (zat l 8 * 256 <=? u16_max); [|done]. rewrite outcome_bind_Done.
  destruct (zat l 8 * 256 + zat l 9 <=? u16_max); [|done]. rewrite outcome_bind_Done.
  change HEADER_SIZE with 10. destruct (Z.leb_spec 10 (len datagram)); [lia|done].
Qed.

Lemma socks_foreign_datagram_panics_witness :
  socks_recv_from (zeros u16_max) [0; 0; 0; 3; 1; 65; 0; 53; 1; 1; 1] (zeros u16_max) = Panic.
Proof.
  apply (socks_foreign_datagram_panics (zeros u16_max) [0; 0; 0; 3; 1; 65; 0; 53; 1; 1; 1] (zeros u16_max));
    [vm_compute; reflexivity|vm_compute; discriminate|right; discriminate].
Defined.

(** ** The tasks of a stream worker against the contract of the trait *)

Section stream_task.
Context {S : Type} `{L : ForwardStreamLaws S}.

(** Turns of the task that forwards, with the clock readings. *)
Fixpoint stream_task_run (src : SocketAddrV4) (answers : list (Instant * io_result (list byte)))
    (w : StreamWorker) (s : S) : outcome (StreamWorker * S) :=
  match answers with
  | [] => mret (w, s)
  | (now, answer) :: rest =>
      '(w, s) ← stream_task_read now src answer w s;
      stream_task_run src rest w s
  end.

Lemma stream_task_run_app src l k w s :
  stream_task_run src (l ++ k) w s
  = ('(w, s) ← stream_task_run src l w s; stream_task_run src k w s).
Proof.
  revert w s. induction l as [|[now a] l IH]; intros w s; [done|]. cbn [app stream_task_run].
  destruct (stream_task_read now src a w s) as [[w1 s1]| |]; [|done|done]. rewrite !outcome_bind_Done. apply IH.
Qed.

(** Reads that bring data, each of some bytes. *)
Definition reads (chunks : list (Instant * list byte)) : list (Instant * io_result (list byte)) :=
  map (fun c => (c.1, Ok c.2)) chunks.

Lemma stream_task_data src chunks w s z :
  Forall (fun c => c.2 <> []) chunks ->
  sw_task w = Some z -> sw_is_read_closed w = false ->
  stream_live s (sw_dst w) src -> stream_ended s (sw_dst w) src = false ->
  exists z' s', stream_task_run src (reads chunks) w s = Done (sw_with_task w (Some z'), s')
    /\ (z' = if chunks is [] then z else 0)
    /\ stream_live s' (sw_dst w) src /\ stream_ended s' (sw_dst w) src = false
    /\ stream_pending s' (sw_dst w) src = stream_pending s (sw_dst w) src ++ concat (map snd chunks).
Proof.
  intros Hne. revert w s z. induction Hne as [|[now c] chunks Hc _ IH]; intros w s z Ht Hr Hl He.
  - exists z, s. split; [by destruct w; simpl in *; subst|]. split; [done|]. by rewrite app_nil_r.
  - cbn [reads map stream_task_run fst snd] in *. unfold stream_task_read. rewrite Ht, Hr.
    destruct (Z.eqb_spec (len c) 0) as [E|_]; [by apply len_0 in E|].
    destruct (law_forward now (sw_dst w) src c s Hl He) as (s1 & res & -> & Hl1 & He1 & Hp1).
    rewrite !outcome_bind_Done.
    destruct (IH (sw_with_task w (Some 0)) s1 0) as (z' & s' & E & Hz & Hl' & He' & Hp'); [done..|].
    exists z', s'. split; [exact E|]. split; [by destruct chunks|]. split; [done|]. split; [done|].
    cbn in Hp'. rewrite Hp', Hp1. cbn. by rewrite app_assoc.
Qed.

(** Reads that bring nothing. *)
Lemma stream_task_empty src (nows : list Instant) w s z :
  sw_task w = Some z -> sw_is_read_closed w = false -> 0 <= z <= MAX_RECV_ZERO ->
  stream_live s (sw_dst w) src -> stream_ended s (sw_dst w) src = false ->
  exists w' s', stream_task_run src (map (fun now => (now, Ok [])) nows) w s = Done (w', s')
    /\ stream_live s' (sw_dst w) src /\ stream_pending s' (sw_dst w) src = stream_pending s (sw_dst w) src
    /\ sw_stream_tx w' = sw_stream_tx w /\ sw_is_write_closed w' = sw_is_write_closed w
    /\ if z + len nows <=? MAX_RECV_ZERO
       then sw_task w' = Some (z + len nows) /\ sw_is_read_closed w' = false
            /\ stream_ended s' (sw_dst w) src = false
       else sw_task w' = None /\ sw_is_read_closed w' = true /\ stream_ended s' (sw_dst w) src = true.
Proof.
  revert w s z. induction nows as [|now nows IH]; intros w s z Ht Hr Hz Hl He.
  - exists w, s. cbn [map stream_task_run]. rewrite len_nil, Z.add_0_r.
    destruct (Z.leb_spec z MAX_RECV_ZERO); [|lia]. done.
  - cbn [map stream_task_run]. unfold stream_task_read. rewrite Ht, Hr. change (len [] =? 0) with true. cbv iota zeta.
    rewrite len_cons. pose proof (len_nonneg nows). destruct (Z.ltb_spec MAX_RECV_ZERO (z + 1)) as [Hlt|Hge].
    + destruct (law_close now (sw_dst w) src s Hl) as (s1 & res & -> & Hl1 & He1 & Hp1). rewrite !outcome_bind_Done.
      set (w1 := sw_with_task _ None).
      assert (Hdone : forall l, stream_task_run src l w1 s1 = Done (w1, s1)).
      { induction l as [|[n a] l IHl]; [done|]. cbn [stream_task_run]. exact IHl. }
      cbv beta iota. rewrite Hdone. exists w1, s1. destruct (Z.leb_spec (z + (1 + len nows)) MAX_RECV_ZERO); [lia|]. done.
    + rewrite outcome_bind_Done.
      destruct (IH (sw_with_task w (Some (z + 1))) s (z + 1)) as (w' & s' & E & ? & ? & ? & ? & Hif);
        [done|done|lia|done|done|].
      exists w', s'. cbv beta iota. rewrite E. cbn in *. do 5 (split; [done|]).
      by replace (z + (1 + len nows)) with (z + 1 + len nows) by lia.
Qed.

(** C16. The worker against the contract of [ForwardStream]: the data that
    [read] brings reaches the forwarder in order and completely; after it, up to
    three empty reads leave the stream open, and the fourth one announces the
    end to the forwarder, closes the reading half and ends the task.  Nothing
    panics. *)
Theorem stream_task_forwards (src : SocketAddrV4) (chunks : list (Instant * list byte))
    (nows : list Instant) (w : StreamWorker) (s : S) (z : Z) :
  chunks <> [] -> Forall (fun c => c.2 <> []) chunks ->
  sw_task w = Some z -> sw_is_read_closed w = false ->
  stream_live s (sw_dst w) src -> stream_ended s (sw_dst w) src = false ->
  exists w' s',
    stream_task_run src (reads chunks ++ map (fun now => (now, Ok [])) nows) w s = Done (w', s')
    /\ stream_live s' (sw_dst w) src
    /\ stream_pending s' (sw_dst w) src = stream_pending s (sw_dst w) src ++ concat (map snd chunks)
    /\ stream_ended s' (sw_dst w) src = (MAX_RECV_ZERO <? len nows)
    /\ sw_is_read_closed w' = (MAX_RECV_ZERO <? len nows)
    /\ (sw_task w' = None <-> MAX_RECV_ZERO < len nows).
Proof.
  intros Hne Hall Ht Hr Hl He.
  destruct (stream_task_data src chunks w s z Hall Ht Hr Hl He) as (z' & s1 & E1 & Hz & Hl1 & He1 & Hp1).
  rewrite stream_task_run_app, E1, outcome_bind_Done.
  destruct (stream_task_empty src nows (sw_with_task w (Some z')) s1 z')
    as (w' & s' & E & Hl' & Hp' & _ & _ & Hif); [done|done|destruct chunks; [done|subst z'; done]|done|done|].
  rewrite E. exists w', s'. split; [done|]. split; [done|]. cbn in Hp'. split; [by rewrite Hp'|].
  replace z' with 0 in Hif by (by destruct chunks). rewrite Z.add_0_l in Hif. cbn in Hif.
  destruct (Z.leb_spec (len nows) MAX_RECV_ZERO), (Z.ltb_spec MAX_RECV_ZERO (len nows)); try lia;
    destruct Hif as (E1' & -> & ->); rewrite E1'; (split; [done|]); (split; [done|]); (split; [done || lia|lia || done]).
Qed.
End stream_task.
