(* ===== verification/Text.v ===== *)
(** * Texts of numbers and addresses

    What the program uses of the standard library to print and to parse
    addresses: [Display] of the integers, of [Ipv4Addr] and [SocketAddrV4], the
    parser of [SocketAddrV4], [str::parse] of a [u16] and [str::split].  The
    parser is the one that reads no octet with leading zeros. *)

From Stdlib Require Export Ascii.
From S2P Require Import Prelude Socks.

Definition text : Set := list ascii.

(** A literal. *)
Definition lit (s : string) : text := String.list_ascii_of_string s.

(** ** Printing *)

Definition digit_char (d : Z) : ascii := ascii_of_N (Z.to_N (48 + d)).

(** Twenty digits hold every [u64]. *)
Fixpoint digits_from (fuel : nat) (n : Z) : list Z :=
  match fuel with
  | O => []
  | S fuel => if n <? 10 then [n] else digits_from fuel (n / 10) ++ [n mod 10]
  end.
Definition digits (n : Z) : list Z := digits_from 20 n.
Definition decimal (n : Z) : text := map digit_char (digits n).

Fixpoint text_join (sep : text) (l : list text) : text :=
  match l with
  | [] => []
  | [t] => t
  | t :: l => t ++ sep ++ text_join sep l
  end.

Definition ipv4_text (ip : Ipv4Addr) : text := text_join (lit ".") (map decimal (octets ip)).
Definition socket_addr_text (a : SocketAddrV4) : text := ipv4_text (sa_ip a) ++ lit ":" ++ decimal (sa_port a).

(** ** Parsing *)

Definition to_digit (c : ascii) : option Z :=
  let n := Z.of_N (N_of_ascii c) in
  if (48 <=? n) && (n <=? 57) then Some (n - 48) else None.

(** The loop of [read_number]: it fails on more than [max_digits] digits and on
    a number beyond [upto]. *)
Fixpoint read_digits (max_digits : option Z) (upto result count : Z) (s : text) : option (Z * Z * text) :=
  match s with
  | [] => Some (result, count, [])
  | c :: rest =>
      match to_digit c with
      | None => Some (result, count, s)
      | Some d =>
          let result := result * 10 + d in
          let count := count + 1 in
          if upto <? result then None
          else if match max_digits with Some m => m <? count | None => false end then None
          else read_digits max_digits upto result count rest
      end
  end.

Definition read_number (max_digits : option Z) (allow_zero_prefix : bool) (upto : Z) (s : text) : option (Z * text) :=
  let has_leading_zero := bool_decide (head s = Some "0"%char) in
  '(result, count, rest) ← read_digits max_digits upto 0 0 s;
  if count =? 0 then None
  else if negb allow_zero_prefix && has_leading_zero && (1 <? count) then None
  else Some (result, rest).

Definition read_given_char (c : ascii) (s : text) : option text :=
  match s with
  | a :: rest => if bool_decide (a = c) then Some rest else None
  | [] => None
  end.

Definition read_octet : text -> option (Z * text) := read_number (Some 3) false u8_max.

Definition read_ipv4_addr (s : text) : option (Ipv4Addr * text) :=
  '(a, s) ← read_octet s;
  s ← read_given_char "."%char s;
  '(b, s) ← read_octet s;
  s ← read_given_char "."%char s;
  '(c, s) ← read_octet s;
  s ← read_given_char "."%char s;
  '(d, s) ← read_octet s;
  Some (ipv4_addr_new a b c d, s).

(** [SocketAddrV4::from_str]. *)
Definition parse_socket_addr_v4 (s : text) : option SocketAddrV4 :=
  '(ip, s) ← read_ipv4_addr s;
  s ← read_given_char ":"%char s;
  '(port, s) ← read_number None true u16_max s;
  match s with [] => Some (ip, port) | _ => None end.

(** [u16::from_str]. *)
Definition parse_u16 (s : text) : option Z :=
  let s := match s with "+"%char :: ((_ :: _) as rest) => rest | _ => s end in
  '(result, count, rest) ← read_digits None u16_max 0 0 s;
  match rest with [] => if count =? 0 then None else Some result | _ => None end.

(** [split]: the pieces between the separators, at least one. *)
Fixpoint split (c : ascii) (s : text) : list text :=
  match s with
  | [] => [[]]
  | a :: s =>
      if bool_decide (a = c) then [] :: split c s
      else match split c s with p :: l => (a :: p) :: l | [] => [[a]] end
  end.

(** ** Lemmas *)

(** The number that digits stand for. *)
Definition digits_value (r : Z) (ds : list Z) : Z := foldl (fun r d => r * 10 + d) r ds.
Definition is_digit (d : Z) : Prop := 0 <= d <= 9.

Lemma to_digit_char d : is_digit d -> to_digit (digit_char d) = Some d.
Proof.
  intros H. assert (E : d = 0 \/ d = 1 \/ d = 2 \/ d = 3 \/ d = 4 \/ d = 5 \/ d = 6 \/ d = 7 \/ d = 8 \/ d = 9)
    by (unfold is_digit in H; lia).
  by repeat destruct E as [->|E]; [..|subst].
Qed.

Lemma digits_are_digits fuel n : 0 <= n -> Forall is_digit (digits_from fuel n).
Proof.
  revert n. induction fuel as [|fuel IH]; intros n Hn; [constructor|]. cbn [digits_from]. unfold is_digit in *.
  destruct (Z.ltb_spec n 10). { constructor; [lia|constructor]. }
  apply Forall_app. split; [apply IH, Z.div_pos; lia|]. constructor; [|constructor].
  pose proof (Z.mod_pos_bound n 10). lia.
Qed.

Lemma digits_from_value fuel n : 0 <= n < 10 ^ Z.of_nat fuel -> digits_value 0 (digits_from fuel n) = n.
Proof.
  revert n. induction fuel as [|fuel IH]; intros n Hn; [cbn in *; lia|]. cbn [digits_from].
  destruct (Z.ltb_spec n 10); [cbn; lia|]. unfold digits_value in *. rewrite foldl_app, IH.
  - cbn [foldl]. pose proof (Z.div_mod n 10). lia.
  - rewrite Nat2Z.inj_succ, Z.pow_succ_r in Hn by lia. split; [apply Z.div_pos; lia|].
    apply Z.div_lt_upper_bound; lia.
Qed.

Lemma len_digits_from fuel n k : 0 <= n < 10 ^ k -> 1 <= k -> len (digits_from fuel n) <= k.
Proof.
  revert n k. induction fuel as [|fuel IH]; intros n k Hn Hk; [cbn [digits_from]; rewrite len_nil; lia|]. cbn [digits_from].
  destruct (Z.ltb_spec n 10); [rewrite len_cons, len_nil; lia|]. rewrite len_app, len_cons, len_nil.
  assert (1 < k) by (destruct (Z.eq_dec k 1) as [->|]; [change (10 ^ 1) with 10 in Hn; lia|lia]).
  assert (len (digits_from fuel (n / 10)) <= k - 1); [|lia]. apply IH; [|lia].
  replace k with (Z.succ (k - 1)) in Hn by lia. rewrite Z.pow_succ_r in Hn by lia.
  split; [apply Z.div_pos; lia|apply Z.div_lt_upper_bound; lia].
Qed.

(** Only zero has a leading zero. *)
Lemma digits_from_head fuel n : 0 < n < 10 ^ Z.of_nat fuel -> exists d ds, digits_from fuel n = d :: ds /\ d <> 0.
Proof.
  revert n. induction fuel as [|fuel IH]; intros n Hn; [cbn in Hn; lia|]. cbn [digits_from].
  destruct (Z.ltb_spec n 10); [exists n, []; split; [done|lia]|].
  rewrite Nat2Z.inj_succ, Z.pow_succ_r in Hn by lia.
  destruct (IH (n / 10)) as (d & ds & -> & Hd).
  - split; [apply Z.div_str_pos; lia|apply Z.div_lt_upper_bound; lia].
  - by exists d, (ds ++ [n mod 10]).
Qed.

Lemma digits_value_mono r ds : 0 <= r -> Forall is_digit ds -> r <= digits_value r ds.
Proof.
  intros Hr H. revert r Hr. induction H as [|d ds Hd _ IH]; intros r Hr; [cbn; lia|].
  cbn. unfold is_digit in Hd. specialize (IH (r * 10 + d) ltac:(lia)). unfold digits_value in IH. lia.
Qed.

(** The loop reads the digits of a number. *)
Lemma read_digits_app max upto r count ds rest :
  0 <= r -> Forall is_digit ds -> digits_value r ds <= upto ->
  (forall m, max = Some m -> count + len ds <= m) ->
  read_digits max upto r count (map digit_char ds ++ rest)
  = read_digits max upto (digits_value r ds) (count + len ds) rest.
Proof.
  intros Hr H. revert r count Hr. induction H as [|d ds Hd Hds IH]; intros r count Hr Hv Hm.
  { cbn [map app digits_value foldl]. by rewrite len_nil, Z.add_0_r. }
  cbn [map app read_digits]. rewrite to_digit_char by done. cbv zeta. unfold is_digit in Hd.
  change (digits_value r (d :: ds)) with (digits_value (r * 10 + d) ds) in *. rewrite len_cons in *.
  pose proof (digits_value_mono (r * 10 + d) ds ltac:(lia) Hds). pose proof (len_nonneg ds).
  destruct (Z.ltb_spec upto (r * 10 + d)); [lia|].
  destruct max as [m|].
  - specialize (Hm m eq_refl). destruct (Z.ltb_spec m (count + 1)); [lia|]. rewrite IH; [f_equal; lia|lia|done|].
    intros m' [= <-]. lia.
  - rewrite IH; [f_equal; lia|lia|done|done].
Qed.

Definition no_digit (rest : text) : Prop := match rest with [] => True | c :: _ => to_digit c = None end.

Lemma read_digits_stop max upto r count rest : no_digit rest -> read_digits max upto r count rest = Some (r, count, rest).
Proof. destruct rest as [|c rest]; [done|]. cbn. by intros ->. Qed.

Lemma digits_from_nonempty fuel n : 1 <= len (digits_from (S fuel) n).
Proof.
  cbn [digits_from]. destruct (n <? 10); [rewrite len_cons, len_nil; lia|].
  rewrite len_app, len_cons, len_nil. pose proof (len_nonneg (digits_from fuel (n / 10))). lia.
Qed.

Lemma digits_nonempty n : 1 <= len (digits n).
Proof. apply digits_from_nonempty. Qed.

Lemma decimal_read max upto n rest :
  0 <= n <= upto -> n < 10 ^ 20 -> (forall m, max = Some m -> 1 <= m /\ n < 10 ^ m) -> no_digit rest ->
  read_digits max upto 0 0 (decimal n ++ rest) = Some (n, len (digits n), rest).
Proof.
  intros Hn Hu Hm Hr. unfold decimal.
  assert (Hv : digits_value 0 (digits n) = n) by (apply digits_from_value; split; [lia|exact Hu]).
  rewrite read_digits_app; [|done|apply digits_are_digits; lia|lia|].
  - rewrite Hv. by apply read_digits_stop.
  - intros m E. destruct (Hm m E). apply len_digits_from; lia.
Qed.

Lemma decimal_head n : 0 <= n < 10 ^ 20 -> head (decimal n) = Some "0"%char -> n = 0.
Proof.
  intros Hn. destruct (Z.eq_dec n 0) as [->|]; [done|]. unfold decimal, digits.
  destruct (digits_from_head 20 n) as (d & ds & E & Hd); [split; [lia|apply Hn]|].
  pose proof (digits_are_digits 20 n ltac:(lia)) as Hds. rewrite E in *. inversion_clear Hds as [|? ? Hdd _].
  cbn [map head]. intros H%(inj Some). apply (f_equal to_digit) in H. rewrite to_digit_char in H by done.
  change (to_digit "0") with (Some 0) in H. congruence.
Qed.

Lemma head_decimal_app n rest : head (decimal n ++ rest) = head (decimal n).
Proof.
  unfold decimal. pose proof (digits_nonempty n). destruct (digits n); [rewrite len_nil in *; lia|done].
Qed.

(** A printed number is read back, behind whatever ends it. *)
Lemma read_number_decimal max allow upto n rest :
  0 <= n <= upto -> n < 10 ^ 20 -> (forall m, max = Some m -> 1 <= m /\ n < 10 ^ m) -> no_digit rest ->
  read_number max allow upto (decimal n ++ rest) = Some (n, rest).
Proof.
  intros Hn Hu Hm Hr. unfold read_number. rewrite decimal_read by done. cbn [mbind option_bind]. pose proof (digits_nonempty n).
  destruct (Z.eqb_spec (len (digits n)) 0); [lia|].
  destruct (negb allow && _ && _) eqn:E; [|done]. apply andb_prop in E as [[_ E]%andb_prop E3].
  apply bool_decide_eq_true in E. rewrite head_decimal_app in E. apply decimal_head in E as ->; [done|lia].
Qed.

Lemma read_octet_decimal n rest : is_u8 n -> no_digit rest -> read_octet (decimal n ++ rest) = Some (n, rest).
Proof.
  intros Hn Hr. unfold read_octet. apply read_number_decimal; [exact Hn|unfold is_u8, u8_max in Hn; lia| |done].
  intros m [= <-]. unfold is_u8, u8_max in Hn. lia.
Qed.

Lemma mod_u8 x : is_u8 (x mod 256).
Proof. apply as_u8_range. Qed.

Lemma read_ipv4_text ip rest : is_u32 ip -> no_digit rest -> read_ipv4_addr (ipv4_text ip ++ rest) = Some (ip, rest).
Proof.
  intros Hip Hr. unfold ipv4_text, octets, read_ipv4_addr. cbn [map text_join]. rewrite <- !app_assoc.
  rewrite read_octet_decimal by (apply mod_u8 || done). cbn [mbind option_bind lit String.list_ascii_of_string app read_given_char].
  rewrite bool_decide_true by done. cbn [mbind option_bind].
  rewrite read_octet_decimal by (apply mod_u8 || done). cbn [mbind option_bind app read_given_char].
  rewrite bool_decide_true by done. cbn [mbind option_bind].
  rewrite read_octet_decimal by (apply mod_u8 || done). cbn [mbind option_bind app read_given_char].
  rewrite bool_decide_true by done. cbn [mbind option_bind].
  rewrite read_octet_decimal by (apply mod_u8 || done). cbn [mbind option_bind]. by rewrite octets_roundtrip.
Qed.

(** An address that is printed is parsed back. *)
Lemma parse_socket_addr_text a :
  is_u32 (sa_ip a) -> is_u16 (sa_port a) -> parse_socket_addr_v4 (socket_addr_text a) = Some a.
Proof.
  intros Hip Hport. unfold parse_socket_addr_v4, socket_addr_text. rewrite read_ipv4_text by done.
  cbn [mbind option_bind lit String.list_ascii_of_string app read_given_char]. rewrite bool_decide_true by done. cbn [mbind option_bind].
  rewrite <- (app_nil_r (decimal (sa_port a))). rewrite read_number_decimal; [by destruct a|exact Hport| |done|done].
  unfold is_u16, u16_max in Hport. lia.
Qed.

Lemma parse_u16_decimal n : is_u16 n -> parse_u16 (decimal n) = Some n.
Proof.
  intros Hn. unfold parse_u16. pose proof (digits_nonempty n).
  assert (E : match decimal n with "+"%char :: ((_ :: _) as rest) => rest | _ => decimal n end = decimal n).
  { pose proof (digits_are_digits 20 n ltac:(unfold is_u16 in Hn; lia)) as Hd. fold (digits n) in Hd. unfold decimal.
    destruct (digits n) as [|d ds]; [done|]. inversion_clear Hd as [|? ? Hdd _]. cbn [map].
    assert (Hne : digit_char d <> "+"%char) by (intros E; apply (f_equal to_digit) in E; by rewrite to_digit_char in E).
    by destruct (digit_char d) as [[] [] [] [] [] [] [] []]. }
  cbv zeta. rewrite E. rewrite <- (app_nil_r (decimal n)). rewrite decimal_read; [|exact Hn|unfold is_u16, u16_max in Hn; lia|done|done].
  cbn [mbind option_bind]. destruct (Z.eqb_spec (len (digits n)) 0); [lia|done].
Qed.

(** Splitting a text with one separator. *)
Lemma split_none c s : c ∉ s -> split c s = [s].
Proof.
  induction s as [|a s IH]; [done|]. intros [Hne Hs]%not_elem_of_cons. cbn [split].
  rewrite bool_decide_false by congruence. by rewrite IH.
Qed.

Lemma split_cons c s t : c ∉ s -> split c (s ++ c :: t) = s :: split c t.
Proof.
  induction s as [|a s IH]; [cbn [app split]; by rewrite bool_decide_true|].
  intros [Hne Hs]%not_elem_of_cons. cbn [app split]. rewrite bool_decide_false by congruence. by rewrite IH.
Qed.

Lemma split_one c s t : c ∉ s -> c ∉ t -> split c (s ++ c :: t) = [s; t].
Proof. intros Hs Ht. by rewrite split_cons, (split_none c t). Qed.

Lemma decimal_no_char c n : 0 <= n -> to_digit c = None -> c ∉ decimal n.
Proof.
  intros Hn Hc (d & -> & Hd)%list_elem_of_fmap. pose proof (digits_are_digits 20 n Hn) as Hds.
  rewrite Forall_forall in Hds. specialize (Hds d Hd). by rewrite to_digit_char in Hc.
Qed.
