(* ===== verification/Pnet.v ===== *)
(** * The interface of the pnet crate

    The packets are built and read by the crate [pnet], which is not part of
    the repository.  Its structs have public fields, which the repository fills
    and reads, and are records here; a packet view over a buffer is given by the
    values of its getters, the struct [X_view].  The functions of the crate are
    the class [Pnet], a parameter of every component that handles packets, and
    [PnetLaws] states what the repository relies on: sizes, which buffers are
    written, and the wire format of TCP options. *)

From S2P Require Import Prelude Text.

Abbreviation MacAddr := Z (only parsing).

(** ** Numbers of the protocols *)

Definition ethertype_arp : Z := 2054.
Definition ethertype_ipv4 : Z := 2048.
Definition protocol_icmp : Z := 1.
Definition protocol_tcp : Z := 6.
Definition protocol_udp : Z := 17.
Definition arp_hardware_ethernet : Z := 1.
Definition arp_request : Z := 1.
Definition arp_reply : Z := 2.
Definition icmp_type_echo_reply : Z := 0.
Definition icmp_type_destination_unreachable : Z := 3.
Definition icmp_type_echo_request : Z := 8.
Definition icmp_no_code : Z := 0.
Definition icmp_code_port_unreachable : Z := 3.
Definition icmp_code_fragmentation_required : Z := 4.
Definition flag_fin : Z := 1.
Definition flag_syn : Z := 2.
Definition flag_rst : Z := 4.
Definition flag_ack : Z := 16.
Definition flag_more_fragments : Z := 1.
Definition option_mss : Z := 2.
Definition option_wscale : Z := 3.
Definition option_sack_permitted : Z := 4.
Definition option_sack : Z := 5.
Definition option_timestamps : Z := 8.

(** ** Structs *)

Record PEthernet : Set := mkPEthernet {
  pe_destination : MacAddr; pe_source : MacAddr; pe_ethertype : Z; pe_payload : list byte }.

Record PArp : Set := mkPArp {
  pa_hardware_type : Z; pa_protocol_type : Z; pa_hw_addr_len : Z; pa_proto_addr_len : Z;
  pa_operation : Z; pa_sender_hw_addr : MacAddr; pa_sender_proto_addr : Ipv4Addr;
  pa_target_hw_addr : MacAddr; pa_target_proto_addr : Ipv4Addr; pa_payload : list byte }.

Record PIcmp : Set := mkPIcmp {
  pc_type : Z; pc_code : Z; pc_checksum : Z; pc_payload : list byte }.

Record PUdp : Set := mkPUdp {
  pu_source : Z; pu_destination : Z; pu_length : Z; pu_checksum : Z; pu_payload : list byte }.

(** The options of IPv4 and TCP are opaque values of the crate. *)
Record PIpv4 (Option : Set) : Set := mkPIpv4 {
  pi_version : Z; pi_header_length : Z; pi_dscp : Z; pi_ecn : Z; pi_total_length : Z;
  pi_identification : Z; pi_flags : Z; pi_fragment_offset : Z; pi_ttl : Z; pi_protocol : Z;
  pi_checksum : Z; pi_source : Ipv4Addr; pi_destination : Ipv4Addr; pi_options : list Option;
  pi_payload : list byte }.

Record PTcp (Option : Set) : Set := mkPTcp {
  pt_source : Z; pt_destination : Z; pt_sequence : Z; pt_acknowledgement : Z; pt_data_offset : Z;
  pt_reserved : Z; pt_flags : Z; pt_window : Z; pt_checksum : Z; pt_urgent_ptr : Z;
  pt_options : list Option; pt_payload : list byte }.

Arguments mkPIpv4 {_}.
Arguments pi_version {_}. Arguments pi_header_length {_}. Arguments pi_dscp {_}.
Arguments pi_ecn {_}. Arguments pi_total_length {_}. Arguments pi_identification {_}.
Arguments pi_flags {_}. Arguments pi_fragment_offset {_}. Arguments pi_ttl {_}.
Arguments pi_protocol {_}. Arguments pi_checksum {_}. Arguments pi_source {_}.
Arguments pi_destination {_}. Arguments pi_options {_}. Arguments pi_payload {_}.
Arguments mkPTcp {_}.
Arguments pt_source {_}. Arguments pt_destination {_}. Arguments pt_sequence {_}.
Arguments pt_acknowledgement {_}. Arguments pt_data_offset {_}. Arguments pt_reserved {_}.
Arguments pt_flags {_}. Arguments pt_window {_}. Arguments pt_checksum {_}.
Arguments pt_urgent_ptr {_}. Arguments pt_options {_}. Arguments pt_payload {_}.

(** ** Functions

    [X_min] is [minimum_packet_size], below which [XPacket::new] and
    [MutableXPacket::new] answer [None]; [X_size] is [packet_size]; [X_view]
    reads the getters; [X_populate] writes a struct and panics on a buffer that
    is too short for it. *)

Class Pnet := {
  TcpOption : Set;
  Ipv4Option : Set;

  opt_nop : TcpOption;
  opt_mss : Z -> TcpOption;
  opt_wscale : Z -> TcpOption;
  opt_sack_perm : TcpOption;
  opt_selective_ack : list Z -> TcpOption;
  opt_timestamp : Z -> Z -> TcpOption;
  tcp_option_size : TcpOption -> Z;
  tcp_option_populate : list byte -> TcpOption -> outcome (list byte);
  tcp_option_get_number : list byte -> Z;
  ipv4_option_size : Ipv4Option -> Z;

  (** [Display] of [MacAddr]. *)
  mac_addr_text : MacAddr -> text;

  ethernet_min : Z;
  ethernet_size : PEthernet -> Z;
  ethernet_view : list byte -> PEthernet;
  ethernet_populate : list byte -> PEthernet -> outcome (list byte);

  arp_min : Z;
  arp_size : PArp -> Z;
  arp_view : list byte -> PArp;
  arp_populate : list byte -> PArp -> outcome (list byte);

  ipv4_min : Z;
  ipv4_size : PIpv4 Ipv4Option -> Z;
  ipv4_view : list byte -> PIpv4 Ipv4Option;
  ipv4_populate : list byte -> PIpv4 Ipv4Option -> outcome (list byte);
  ipv4_set_header_length : list byte -> Z -> list byte;
  ipv4_set_total_length : list byte -> Z -> list byte;
  ipv4_set_checksum : list byte -> Z -> list byte;
  ipv4_set_payload : list byte -> list byte -> outcome (list byte);
  ipv4_checksum : list byte -> Z;

  icmp_min : Z;
  icmp_size : PIcmp -> Z;
  icmp_view : list byte -> PIcmp;
  icmp_populate : list byte -> PIcmp -> outcome (list byte);
  icmp_set_checksum : list byte -> Z -> list byte;
  icmp_checksum : list byte -> Z;

  tcp_min : Z;
  tcp_size : PTcp TcpOption -> Z;
  tcp_view : list byte -> PTcp TcpOption;
  tcp_populate : list byte -> PTcp TcpOption -> outcome (list byte);
  tcp_set_data_offset : list byte -> Z -> list byte;
  tcp_set_checksum : list byte -> Z -> list byte;
  tcp_set_payload : list byte -> list byte -> outcome (list byte);
  tcp_ipv4_checksum : list byte -> Ipv4Addr -> Ipv4Addr -> Z;

  udp_min : Z;
  udp_size : PUdp -> Z;
  udp_view : list byte -> PUdp;
  udp_populate : list byte -> PUdp -> outcome (list byte);
  udp_set_length : list byte -> Z -> list byte;
  udp_set_checksum : list byte -> Z -> list byte;
  udp_set_payload : list byte -> list byte -> outcome (list byte);
  udp_ipv4_checksum : list byte -> Ipv4Addr -> Ipv4Addr -> Z
}.

(** ** Laws *)

(** The four bytes of a [u32], and the two of a [u16], first byte highest. *)
Definition be32 (x : Z) : list byte :=
  [x / 16777216 mod 256; x / 65536 mod 256; x / 256 mod 256; x mod 256].
Definition be16 (x : Z) : list byte := [x / 256 mod 256; x mod 256].

Lemma len_be32 x : len (be32 x) = 4.
Proof. reflexivity. Qed.
Lemma len_be16 x : len (be16 x) = 2.
Proof. reflexivity. Qed.
#[export] Hint Rewrite len_be32 len_be16 : zlist.

(** The sum of a list. *)
Definition zsum (l : list Z) : Z := foldr Z.add 0 l.

(** [f] writes a buffer that is long enough and keeps its length. *)
Definition writes (f : list byte -> outcome (list byte)) (n : Z) : Prop :=
  forall buf, n <= len buf -> exists buf', f buf = Done buf' /\ len buf' = len buf.

(** [populate] of an option writes the option's bytes at the front. *)
Definition option_encodes `{Pnet} (o : TcpOption) (bs : list byte) : Prop :=
  tcp_option_size o = len bs
  /\ forall buf, len bs <= len buf -> tcp_option_populate buf o = Done (blit buf 0 bs).

Class PnetLaws (P : Pnet) : Prop := {
  law_nop : option_encodes opt_nop [1];
  law_mss m : is_u16 m -> option_encodes (opt_mss m) ([option_mss; 4] ++ be16 m);
  law_wscale w : is_u8 w -> option_encodes (opt_wscale w) [option_wscale; 3; w];
  law_sack_perm : option_encodes opt_sack_perm [option_sack_permitted; 2];
  law_selective_ack l :
    Forall is_u32 l -> 2 + 4 * len l <= u8_max ->
    option_encodes (opt_selective_ack l) ([option_sack; 2 + 4 * len l] ++ concat (map be32 l));
  law_timestamp a b :
    is_u32 a -> is_u32 b ->
    option_encodes (opt_timestamp a b) ([option_timestamps; 10] ++ be32 a ++ be32 b);
  law_get_number b bs : tcp_option_get_number (b :: bs) = b;

  law_ethernet_min : ethernet_min = 14;
  law_arp_min : arp_min = 28;
  law_ipv4_min : ipv4_min = 20;
  law_icmp_min : icmp_min = 4;
  law_tcp_min : tcp_min = 20;
  law_udp_min : udp_min = 8;

  (** The size counts each option as one byte. *)
  law_ethernet_size x : ethernet_size x = 14 + len (pe_payload x);
  law_arp_size x : arp_size x = 28 + len (pa_payload x);
  law_ipv4_size x : ipv4_size x = 20 + len (pi_options x) + len (pi_payload x);
  law_icmp_size x : icmp_size x = 4 + len (pc_payload x);
  law_tcp_size x : tcp_size x = 20 + len (pt_options x) + len (pt_payload x);
  law_udp_size x : udp_size x = 8 + len (pu_payload x);

  law_ethernet_populate x : pe_payload x = [] -> writes (fun b => ethernet_populate b x) 14;
  law_arp_populate x : pa_payload x = [] -> writes (fun b => arp_populate b x) 28;
  law_ipv4_populate x :
    pi_options x = [] -> pi_payload x = [] -> writes (fun b => ipv4_populate b x) 20;
  law_icmp_populate x : writes (fun b => icmp_populate b x) (4 + len (pc_payload x));
  law_tcp_populate x :
    pt_payload x = [] ->
    writes (fun b => tcp_populate b x) (20 + zsum (map tcp_option_size (pt_options x)));
  law_udp_populate x : pu_payload x = [] -> writes (fun b => udp_populate b x) 8;

  (** The setters of fixed fields keep the length of the buffer. *)
  law_ipv4_set_header_length b n : 20 <= len b -> len (ipv4_set_header_length b n) = len b;
  law_ipv4_set_total_length b n : 20 <= len b -> len (ipv4_set_total_length b n) = len b;
  law_ipv4_set_checksum b n : 20 <= len b -> len (ipv4_set_checksum b n) = len b;
  law_icmp_set_checksum b n : 4 <= len b -> len (icmp_set_checksum b n) = len b;
  law_tcp_set_data_offset b n : 20 <= len b -> len (tcp_set_data_offset b n) = len b;
  law_tcp_set_checksum b n : 20 <= len b -> len (tcp_set_checksum b n) = len b;

  (** The payload is written behind the header, whose length is that of the
      view; the setter of IPv4 asserts that the payload has room in the total
      length that was announced. *)
  law_ipv4_header_length b n :
    20 <= len b -> 5 <= n <= 15 -> pi_header_length (ipv4_view (ipv4_set_header_length b n)) = n;
  law_ipv4_header_length_kept b n :
    20 <= len b ->
    pi_header_length (ipv4_view (ipv4_set_total_length b n)) = pi_header_length (ipv4_view b);
  law_ipv4_total_length b n :
    20 <= len b -> is_u16 n -> pi_total_length (ipv4_view (ipv4_set_total_length b n)) = n;
  law_ipv4_set_payload b payload :
    20 <= len b ->
    4 * pi_header_length (ipv4_view b) + len payload <= len b ->
    4 * pi_header_length (ipv4_view b) + len payload <= pi_total_length (ipv4_view b) ->
    exists b', ipv4_set_payload b payload = Done b' /\ len b' = len b;
  law_tcp_data_offset b b' x :
    tcp_populate b x = Done b' -> 5 <= pt_data_offset x <= 15 ->
    pt_data_offset (tcp_view b') = pt_data_offset x;
  law_tcp_set_payload b payload :
    20 <= len b ->
    4 * pt_data_offset (tcp_view b) + len payload <= len b ->
    exists b', tcp_set_payload b payload = Done b' /\ len b' = len b;

  (** A UDP header is two bytes for each of the ports, the length and the
      checksum, and the payload is behind it. *)
  law_udp_set_length b n :
    8 <= len b -> exists bs, len bs = 2 /\ udp_set_length b n = blit b 4 bs;
  law_udp_set_checksum b n :
    8 <= len b -> exists bs, len bs = 2 /\ udp_set_checksum b n = blit b 6 bs;
  law_udp_set_payload b payload :
    8 + len payload <= len b -> udp_set_payload b payload = Done (blit b 8 payload);
  law_udp_ports b b' :
    ztake 4 b = ztake 4 b' ->
    pu_source (udp_view b) = pu_source (udp_view b')
    /\ pu_destination (udp_view b) = pu_destination (udp_view b');
  law_udp_populate_ports b b' x :
    udp_populate b x = Done b' -> is_u16 (pu_source x) -> is_u16 (pu_destination x) ->
    pu_source (udp_view b') = pu_source x /\ pu_destination (udp_view b') = pu_destination x
}.

(** ** Types of the getters

    On a buffer of bytes every getter returns a value of its type. *)
Class PnetTypes (P : Pnet) : Prop := {
  type_ethernet b : Forall is_u8 b -> Forall is_u8 (pe_payload (ethernet_view b));
  type_arp b :
    Forall is_u8 b -> is_u32 (pa_sender_proto_addr (arp_view b)) /\ is_u32 (pa_target_proto_addr (arp_view b));
  type_ipv4 b :
    Forall is_u8 b ->
    is_u32 (pi_source (ipv4_view b)) /\ is_u32 (pi_destination (ipv4_view b))
    /\ is_u16 (pi_total_length (ipv4_view b)) /\ Forall is_u8 (pi_payload (ipv4_view b));
  (** The offset of a fragment has thirteen bits. *)
  type_ipv4_offset b : Forall is_u8 b -> 0 <= pi_fragment_offset (ipv4_view b) <= 8191;
  type_tcp b :
    Forall is_u8 b ->
    is_u16 (pt_source (tcp_view b)) /\ is_u16 (pt_destination (tcp_view b)) /\ is_u32 (pt_sequence (tcp_view b))
    /\ is_u32 (pt_acknowledgement (tcp_view b)) /\ is_u16 (pt_window (tcp_view b));
  type_udp b :
    Forall is_u8 b -> is_u16 (pu_source (udp_view b)) /\ is_u16 (pu_destination (udp_view b))
}.
