(* ===== verification/Wire.v ===== *)
(** * A wire-format instance of the packet interface

    A concrete [Pnet] that writes and reads the formats of RFC 791, 792, 793,
    768, 826 and 2018, with the laws proved for it: the theorems about packets
    are stated for every [Pnet] that satisfies the laws, and this instance shows
    that they can be satisfied and lets the theorems be evaluated. *)

From S2P Require Import Prelude Text Pnet.

(** ** Encodings *)

(** The [n] low bytes of [x], highest first, and back. *)
Fixpoint be (n : nat) (x : Z) : list byte :=
  match n with
  | O => []
  | S n => be n (x / 256) ++ [x mod 256]
  end.
Definition from_be (bs : list byte) : Z := foldl (fun r b => r * 256 + b) 0 bs.

(** [bs] written at [off]; a buffer that is too short makes it panic. *)
Definition put (buf : list byte) (off : Z) (bs : list byte) : outcome (list byte) :=
  if off + len bs <=? len buf then Done (blit buf off bs) else Panic.

(** The [n] bytes at [off]. *)
Definition field (buf : list byte) (off n : Z) : Z := from_be (ztake n (zdrop off buf)).

(** One's complement sum of 16-bit words. *)
Fixpoint words (bs : list byte) : Z :=
  match bs with
  | a :: b :: rest => a * 256 + b + words rest
  | [a] => a * 256
  | [] => 0
  end.
Definition fold_carry (x : Z) : Z :=
  let y := x mod 65536 + x / 65536 in u16_max - (y mod 65536 + y / 65536).

(** Options in a row: a number, and except for 0 and 1 a length and data. *)
Fixpoint split_options (fuel : nat) (bs : list byte) : list (list byte) :=
  match fuel, bs with
  | S fuel, b :: rest =>
      if b <? 2 then [b] :: split_options fuel rest
      else
        let n := Z.max 2 (zat bs 1) in
        ztake n bs :: split_options fuel (zdrop n bs)
  | _, _ => []
  end.

(** Two hexadecimal digits. *)
Definition hex_digit (d : Z) : ascii := if d <? 10 then digit_char d else ascii_of_N (Z.to_N (87 + d)).
Definition hex_byte (b : byte) : text := [hex_digit (b / 16); hex_digit (b mod 16)].

(** ** The instance *)

Definition wire_ethernet (x : PEthernet) : list byte :=
  be 6 (pe_destination x) ++ be 6 (pe_source x) ++ be 2 (pe_ethertype x) ++ pe_payload x.

Definition wire_arp (x : PArp) : list byte :=
  be 2 (pa_hardware_type x) ++ be 2 (pa_protocol_type x) ++ be 1 (pa_hw_addr_len x)
  ++ be 1 (pa_proto_addr_len x) ++ be 2 (pa_operation x) ++ be 6 (pa_sender_hw_addr x)
  ++ be 4 (pa_sender_proto_addr x) ++ be 6 (pa_target_hw_addr x) ++ be 4 (pa_target_proto_addr x)
  ++ pa_payload x.

Definition wire_ipv4 (x : PIpv4 (list byte)) : list byte :=
  be 1 (pi_version x * 16 + pi_header_length x mod 16) ++ be 1 (pi_dscp x * 4 + pi_ecn x)
  ++ be 2 (pi_total_length x) ++ be 2 (pi_identification x)
  ++ be 2 (pi_flags x * 8192 + pi_fragment_offset x) ++ be 1 (pi_ttl x) ++ be 1 (pi_protocol x)
  ++ be 2 (pi_checksum x) ++ be 4 (pi_source x) ++ be 4 (pi_destination x)
  ++ concat (pi_options x) ++ pi_payload x.

Definition wire_icmp (x : PIcmp) : list byte :=
  be 1 (pc_type x) ++ be 1 (pc_code x) ++ be 2 (pc_checksum x) ++ pc_payload x.

Definition wire_tcp (x : PTcp (list byte)) : list byte :=
  be 2 (pt_source x) ++ be 2 (pt_destination x) ++ be 4 (pt_sequence x)
  ++ be 4 (pt_acknowledgement x)
  ++ [pt_data_offset x mod 16 * 16 + pt_reserved x mod 8 * 2 + pt_flags x / 256 mod 2;
      pt_flags x mod 256]
  ++ be 2 (pt_window x) ++ be 2 (pt_checksum x) ++ be 2 (pt_urgent_ptr x)
  ++ concat (pt_options x) ++ pt_payload x.

Definition wire_udp (x : PUdp) : list byte :=
  be 2 (pu_source x) ++ be 2 (pu_destination x) ++ be 2 (pu_length x) ++ be 2 (pu_checksum x)
  ++ pu_payload x.

Definition view_ipv4 (b : list byte) : PIpv4 (list byte) :=
  let hl := field b 0 1 mod 16 in
  let total := field b 2 2 in
  mkPIpv4 (field b 0 1 / 16) hl (field b 1 1 / 4) (field b 1 1 mod 4) total (field b 4 2)
    (field b 6 2 / 8192) (field b 6 2 mod 8192) (field b 8 1) (field b 9 1) (field b 10 2)
    (field b 12 4) (field b 16 4)
    (split_options (length b) (ztake (4 * hl - 20) (zdrop 20 b)))
    (ztake (total - 4 * hl) (zdrop (4 * hl) b)).

Definition view_tcp (b : list byte) : PTcp (list byte) :=
  let off := zat b 12 / 16 mod 16 in
  mkPTcp (field b 0 2) (field b 2 2) (field b 4 4) (field b 8 4) off (zat b 12 / 2 mod 8)
    (zat b 12 mod 2 * 256 + zat b 13) (field b 14 2) (field b 16 2) (field b 18 2)
    (split_options (length b) (ztake (4 * off - 20) (zdrop 20 b)))
    (zdrop (4 * off) b).

(** The sum of the pseudo-header and the packet, without the checksum at
    [off]. *)
Definition transport_checksum (protocol off : Z) (b : list byte) (src dst : Ipv4Addr) : Z :=
  fold_carry (words (be 4 src ++ be 4 dst ++ be 2 protocol ++ be 2 (len b)) + words b - field b off 2).

#[export] Instance wire : Pnet := {|
  TcpOption := list byte;
  Ipv4Option := list byte;
  opt_nop := [1];
  opt_mss m := [option_mss; 4] ++ be16 m;
  opt_wscale w := [option_wscale; 3; w];
  opt_sack_perm := [option_sack_permitted; 2];
  opt_selective_ack l := [option_sack; 2 + 4 * len l] ++ concat (map be32 l);
  opt_timestamp a b := [option_timestamps; 10] ++ be32 a ++ be32 b;
  tcp_option_size := len;
  tcp_option_populate b o := put b 0 o;
  tcp_option_get_number b := zat b 0;
  ipv4_option_size := len;
  mac_addr_text m := text_join (lit ":") (map hex_byte (be 6 m));
  ethernet_min := 14;
  ethernet_size x := 14 + len (pe_payload x);
  ethernet_view b := mkPEthernet (field b 0 6) (field b 6 6) (field b 12 2) (zdrop 14 b);
  ethernet_populate b x := put b 0 (wire_ethernet x);
  arp_min := 28;
  arp_size x := 28 + len (pa_payload x);
  arp_view b := mkPArp (field b 0 2) (field b 2 2) (field b 4 1) (field b 5 1) (field b 6 2)
    (field b 8 6) (field b 14 4) (field b 18 6) (field b 24 4) (zdrop 28 b);
  arp_populate b x := put b 0 (wire_arp x);
  ipv4_min := 20;
  ipv4_size x := 20 + len (pi_options x) + len (pi_payload x);
  ipv4_view := view_ipv4;
  ipv4_populate b x := put b 0 (wire_ipv4 x);
  ipv4_set_header_length b n := blit b 0 [zat b 0 / 16 * 16 + n mod 16];
  ipv4_set_total_length b n := blit b 2 (be 2 n);
  ipv4_set_checksum b n := blit b 10 (be 2 n);
  ipv4_set_payload b payload :=
    if 4 * pi_header_length (view_ipv4 b) + len payload <=? Z.max (4 * pi_header_length (view_ipv4 b)) (pi_total_length (view_ipv4 b))
    then put b (4 * pi_header_length (view_ipv4 b)) payload
    else Panic;
  ipv4_checksum b :=
    fold_carry (words (ztake (4 * pi_header_length (view_ipv4 b)) b) - field b 10 2);
  icmp_min := 4;
  icmp_size x := 4 + len (pc_payload x);
  icmp_view b := mkPIcmp (field b 0 1) (field b 1 1) (field b 2 2) (zdrop 4 b);
  icmp_populate b x := put b 0 (wire_icmp x);
  icmp_set_checksum b n := blit b 2 (be 2 n);
  icmp_checksum b := fold_carry (words b - field b 2 2);
  tcp_min := 20;
  tcp_size x := 20 + len (pt_options x) + len (pt_payload x);
  tcp_view := view_tcp;
  tcp_populate b x := put b 0 (wire_tcp x);
  tcp_set_data_offset b n := blit b 12 [n mod 16 * 16 + zat b 12 mod 16];
  tcp_set_checksum b n := blit b 16 (be 2 n);
  tcp_set_payload b payload := put b (4 * pt_data_offset (view_tcp b)) payload;
  tcp_ipv4_checksum b := transport_checksum protocol_tcp 16 b;
  udp_min := 8;
  udp_size x := 8 + len (pu_payload x);
  udp_view b := mkPUdp (field b 0 2) (field b 2 2) (field b 4 2) (field b 6 2) (zdrop 8 b);
  udp_populate b x := put b 0 (wire_udp x);
  udp_set_length b n := blit b 4 (be 2 n);
  udp_set_checksum b n := blit b 6 (be 2 n);
  udp_set_payload b payload := put b 8 payload;
  udp_ipv4_checksum b := transport_checksum protocol_udp 6 b
|}.

(** ** The laws *)

Lemma len_be n x : len (be n x) = Z.of_nat n.
Proof. revert x. induction n as [|n IH]; intros x; [done|]. simpl be. rewrite len_app, IH, len_cons, len_nil. lia. Qed.

#[export] Hint Rewrite len_be : zlist.

Lemma put_writes bs off n :
  0 <= off -> off + len bs <= n -> writes (fun b => put b off bs) n.
Proof.
  intros Ho Hn b Hb. unfold put. zcase; [|lia]. eexists. split; [done|]. apply len_blit; lia.
Qed.

Lemma option_encodes_put (bs : list byte) : @option_encodes wire bs bs.
Proof. split; [done|]. intros buf Hl. simpl. unfold put. zcase; [done|lia]. Qed.

Lemma len_concat_options (l : list (list byte)) : len (concat l) = zsum (map len l).
Proof. induction l as [|a l IH]; [done|]. simpl. by rewrite len_app, IH. Qed.

Lemma data_offset_wire b b' x :
  put b 0 (wire_tcp x) = Done b' -> 5 <= pt_data_offset x <= 15 ->
  pt_data_offset (view_tcp b') = pt_data_offset x.
Proof.
  unfold put. intros Hb Hd. zcase_in Hb; [|done]. injection Hb as <-. unfold view_tcp. cbn [pt_data_offset].
  assert (20 <= len (wire_tcp x)).
  { unfold wire_tcp. rewrite !len_app, !len_be, !len_cons, len_nil.
    pose proof (len_nonneg (concat (pt_options x))). pose proof (len_nonneg (pt_payload x)). lia. }
  rewrite zat_blit by lia. zcases.
  assert (E : zat (wire_tcp x) (12 - 0)
    = pt_data_offset x mod 16 * 16 + pt_reserved x mod 8 * 2 + pt_flags x / 256 mod 2).
  { unfold wire_tcp. do 4 (rewrite zat_app, len_be by lia; zcase; [lia|]). done. }
  rewrite E. pose proof (Z.mod_pos_bound (pt_reserved x) 8). pose proof (Z.mod_pos_bound (pt_flags x / 256) 2).
  rewrite (Z.mod_small (pt_data_offset x)) by lia. rewrite <- Z.add_assoc, Z.div_add_l by lia.
  rewrite (Z.div_small (_ + _)), Z.add_0_r by lia. apply Z.mod_small. lia.
Qed.

Lemma field_byte0 b : 1 <= len b -> field b 0 1 = zat b 0.
Proof. destruct b as [|a b]; [done|]. intros _. unfold field, from_be, ztake, zdrop. simpl. done. Qed.

Lemma header_length_set b n :
  20 <= len b -> 5 <= n <= 15 ->
  pi_header_length (view_ipv4 (blit b 0 [zat b 0 / 16 * 16 + n mod 16])) = n.
Proof.
  intros Hb Hn. unfold view_ipv4. cbn [pi_header_length].
  rewrite field_byte0 by zl.
  rewrite zat_blit by zl. rewrite zat_cons by lia.
  replace (_ && _) with true by done. change (0 - 0 =? 0) with true. cbv iota.
  rewrite (Z.mod_small n) by lia.
  rewrite Z.add_comm, Z.mod_add, Z.mod_small by lia. done.
Qed.

Lemma header_length_kept b n :
  20 <= len b ->
  pi_header_length (view_ipv4 (blit b 2 (be 2 n))) = pi_header_length (view_ipv4 b).
Proof.
  intros Hb. unfold view_ipv4. cbn [pi_header_length].
  rewrite !field_byte0 by zl.
  rewrite zat_blit by zl. by zcases.
Qed.

Lemma view_header_length_nonneg b : 0 <= pi_header_length (view_ipv4 b).
Proof. unfold view_ipv4. cbn. apply Z.mod_pos_bound. lia. Qed.

Lemma view_data_offset_nonneg b : 0 <= pt_data_offset (view_tcp b).
Proof. unfold view_tcp. cbn [pt_data_offset]. apply Z.mod_pos_bound. lia. Qed.

Lemma put_payload b off payload :
  0 <= off -> off + len payload <= len b ->
  exists b', put b off payload = Done b' /\ len b' = len b.
Proof. intros. by apply (put_writes payload off (off + len payload)). Qed.

Lemma from_be_be (n : nat) (x : Z) : from_be (be n x) = x mod 256 ^ Z.of_nat n.
Proof.
  revert x. induction n as [|n IH]; intros x; [by rewrite Z.mod_1_r|].
  unfold from_be in *. cbn [be]. rewrite foldl_app, IH. cbn [foldl].
  rewrite Nat2Z.inj_succ, Z.pow_succ_r by lia. rewrite (Z.rem_mul_r x 256) by lia. lia.
Qed.

Lemma field_ztake b off n : 0 <= off -> 0 <= n -> field (ztake (off + n) b) off n = field b off n.
Proof.
  intros. unfold field, ztake, zdrop. rewrite Z2Nat.inj_add by lia.
  rewrite skipn_firstn_comm, take_take.
  by replace (Z.to_nat n `min` (Z.to_nat off + Z.to_nat n - Z.to_nat off))%nat with (Z.to_nat n) by lia.
Qed.

(** The two fields at the front of a header that was written. *)
Lemma fields_put b b' bs x y :
  put b 0 (be 2 x ++ be 2 y ++ bs) = Done b' -> is_u16 x -> is_u16 y ->
  field b' 0 2 = x /\ field b' 2 2 = y.
Proof.
  unfold put. intros Hb Hx Hy. zcase_in Hb; [|done]. injection Hb as <-.
  assert (E : forall z, is_u16 z -> from_be (be 2 z) = z).
  { intros z Hz. rewrite from_be_be. apply Z.mod_small. revert Hz. unfold is_u16, u16_max. simpl. lia. }
  set (l := blit _ _ _). assert (El : exists rest, l = be 2 x ++ be 2 y ++ rest).
  { eexists. unfold l, blit, ztake. rewrite take_0. cbn [be app]. reflexivity. }
  destruct El as [rest ->]. unfold field. rewrite zdrop_0, zdrop_app by (done || apply len_be).
  rewrite !ztake_app by apply len_be. auto.
Qed.

Lemma total_length_set b n :
  20 <= len b -> is_u16 n -> pi_total_length (view_ipv4 (blit b 2 (be 2 n))) = n.
Proof.
  intros Hb Hn. unfold view_ipv4. cbn [pi_total_length]. unfold field, blit.
  rewrite zdrop_app by (rewrite len_ztake; lia). rewrite ztake_app by apply len_be. rewrite from_be_be.
  apply Z.mod_small. revert Hn. unfold is_u16, u16_max. simpl. lia.
Qed.

(** Headers in front of an empty payload. *)
Ltac put_header :=
  intros; apply put_writes; [lia|];
  unfold wire_ethernet, wire_arp, wire_ipv4, wire_icmp, wire_tcp, wire_udp;
  repeat match goal with H : _ = [] |- _ => rewrite H end;
  change (concat (@nil (list Z))) with (@nil Z);
  autorewrite with zlist; rewrite ?len_concat_options; cbn [Z.of_nat]; lia.

#[export] Instance wire_laws : PnetLaws wire.
Proof.
  constructor; try (intros; reflexivity); try (intros; by apply option_encodes_put);
    try put_header; try (intros b n Hb; apply len_blit; zl).
  - intros x Ho Hp. change (@pi_options (list byte) x = []) in Ho.
    change (@pi_payload (list byte) x = []) in Hp. put_header.
  - intros x Hp. change (@pt_payload (list byte) x = []) in Hp.
    change (@map TcpOption Z) with (@map (list byte) Z).
    change (@pt_options TcpOption x) with (@pt_options (list byte) x).
    change tcp_option_size with (@len Z). put_header.
  - apply header_length_set.
  - apply header_length_kept.
  - apply total_length_set.
  - intros b payload _ Hb Ht. cbn in *. zcase; [|lia]. apply put_payload; [|done].
    exact (Z.mul_nonneg_nonneg 4 _ ltac:(done) (view_header_length_nonneg b)).
  - apply data_offset_wire.
  - intros b payload _. apply put_payload. exact (Z.mul_nonneg_nonneg 4 _ ltac:(done) (view_data_offset_nonneg b)).
  - intros b n _. exists (be 2 n). by rewrite len_be.
  - intros b n _. exists (be 2 n). by rewrite len_be.
  - intros b payload Hb. cbn. unfold put. zcase; [done|lia].
  - intros b b' E. cbn. rewrite <- (field_ztake b 0 2), <- (field_ztake b' 0 2),
      <- (field_ztake b 2 2), <- (field_ztake b' 2 2) by lia.
    assert (E2 : ztake (0 + 2) b = ztake (0 + 2) b').
    { change (0 + 2) with 2. rewrite <- (ztake_ztake 2 4 b), <- (ztake_ztake 2 4 b') by lia. by rewrite E. }
    rewrite E2. by change (2 + 2) with 4; rewrite E.
  - intros b b' x E. exact (fields_put b b' _ _ _ E).
Qed.

(** ** The types *)

Lemma from_be_bounds bs : Forall is_u8 bs -> 0 <= from_be bs < 256 ^ len bs.
Proof.
  intros H. unfold from_be. induction bs as [|b bs IH] using rev_ind; [done|].
  apply Forall_app in H as [Hs Hb]. inversion_clear Hb as [|? ? Hb' _]. specialize (IH Hs). rewrite foldl_app. cbn [foldl].
  replace (len (bs ++ [b])) with (Z.succ (len bs)) by zl.
  rewrite Z.pow_succ_r by apply len_nonneg. unfold is_u8, u8_max in Hb'. nia.
Qed.

Lemma field_bounds b off n : Forall is_u8 b -> 0 <= n -> 0 <= field b off n < 256 ^ n.
Proof.
  intros Hb Hn. unfold field. destruct (from_be_bounds (ztake n (zdrop off b))) as [H1 H2].
  { unfold ztake, zdrop. by apply Forall_take, Forall_drop. }
  split; [done|]. eapply Z.lt_le_trans; [exact H2|]. apply Z.pow_le_mono_r; [lia|]. rewrite len_ztake. lia.
Qed.

Lemma field_u16 b off : Forall is_u8 b -> is_u16 (field b off 2).
Proof. intros H. pose proof (field_bounds b off 2 H). unfold is_u16, u16_max. lia. Qed.

Lemma field_u32 b off : Forall is_u8 b -> is_u32 (field b off 4).
Proof. intros H. pose proof (field_bounds b off 4 H). unfold is_u32, u32_max. lia. Qed.

#[export] Instance wire_types : PnetTypes wire.
Proof.
  constructor; intros b H; cbn; repeat split; try (by apply field_u16); try (by apply field_u32);
    unfold ztake, zdrop; auto using Forall_take, Forall_drop.
  - apply Z.mod_pos_bound. lia.
  - apply Z.lt_succ_r. change (Z.succ 8191) with 8192. apply Z.mod_pos_bound. lia.
Qed.
