(* ===== verification/Layers.v ===== *)
(** * The layers of a packet: [packet::layer]

    One record per layer struct with its constructors, getters and the
    implementation of the trait [Layer], for Ethernet, ARP, IPv4, ICMPv4, TCP
    and UDP, over the interface of the pnet crate. *)

From S2P Require Import Prelude Pnet Wire.

(** ** Kinds and the trait *)

Definition LayerKind : Set := Z.
Definition LK_Ethernet : LayerKind := 0.
Definition LK_Arp : LayerKind := 1.
Definition LK_Ipv4 : LayerKind := 2.
Definition LK_Icmpv4 : LayerKind := 3.
Definition LK_Tcp : LayerKind := 4.
Definition LK_Udp : LayerKind := 5.

(** A serialization leaves the buffer as far as it came, and the length or the
    error. *)
Definition serialized : Type := (list byte * io_result Z)%type.

(** The trait [Layer] less its supertrait [Display]. *)
Class Layer (A : Type) := {
  kind : A -> LayerKind;
  layer_len : A -> outcome Z;
  serialize : A -> list byte -> Z -> outcome serialized;
  serialize_with_payload : A -> list byte -> list byte -> Z -> outcome serialized
}.

(** [MutableXPacket::new(buffer).ok_or(...)?]. *)
Definition open_packet (min : Z) (buffer : list byte) (k : outcome serialized) : outcome serialized :=
  if len buffer <? min then mret (buffer, Err (mkIoError EWriteZero "buffer too small")) else k.

(** The loop of [len] over the options: the struct's size counts every option
    as one byte. *)
Fixpoint options_len {O : Set} (option_size : O -> Z) (size options_size : Z) (options : list O)
  : outcome Z :=
  match options with
  | [] => usize_add size options_size
  | o :: rest =>
      size ← int_sub size 1;
      options_size ← usize_add options_size (option_size o);
      options_len option_size size options_size rest
  end.

(** ** Integers in bytes *)

Definition bytes_to_u16 (bytes : list byte) : Z :=
  foldl (fun result b => result * 256 + b) 0 (ztake (Z.min 2 (len bytes)) bytes).
Definition bytes_to_u32 (bytes : list byte) : Z :=
  foldl (fun result b => result * 256 + b) 0 (ztake (Z.min 4 (len bytes)) bytes).

(** [u16::from_be_bytes], and the native-endian functions of a little-endian
    machine. *)
Definition from_be_bytes (a b : Z) : Z := a * 256 + b.
Definition from_ne_bytes (a b : Z) : Z := a + b * 256.
Definition to_ne_bytes (x : Z) : list byte := [x mod 256; x / 256 mod 256].

Section layers.
Context `{P : Pnet}.

(** ** Ethernet *)

Record Ethernet : Set := mkEthernet { ethernet_layer : PEthernet }.

Definition ethernet_from (e : PEthernet) : Ethernet := mkEthernet e.

Definition ethernet_new (t : LayerKind) (src dst : MacAddr) : option Ethernet :=
  let make ethertype := Some (ethernet_from (mkPEthernet dst src ethertype [])) in
  if t =? LK_Arp then make ethertype_arp
  else if t =? LK_Ipv4 then make ethertype_ipv4
  else None.

Definition ethernet_parse (packet : PEthernet) : Ethernet :=
  ethernet_from (mkPEthernet (pe_destination packet) (pe_source packet) (pe_ethertype packet) []).

Definition ethernet_src (e : Ethernet) : MacAddr := pe_source (ethernet_layer e).
Definition ethernet_dst (e : Ethernet) : MacAddr := pe_destination (ethernet_layer e).

Definition ethernet_len (e : Ethernet) : Z := ethernet_size (ethernet_layer e).

Definition ethernet_serialize (e : Ethernet) (buffer : list byte) (n : Z) : outcome serialized :=
  open_packet ethernet_min buffer (
    buffer ← ethernet_populate buffer (ethernet_layer e);
    mret (buffer, Ok (ethernet_len e))).

#[export] Instance ethernet_is_layer : Layer Ethernet := {
  kind _ := LK_Ethernet;
  layer_len e := mret (ethernet_len e);
  serialize := ethernet_serialize;
  serialize_with_payload e buffer _ n := ethernet_serialize e buffer n
}.

(** ** ARP *)

Record Arp : Set := mkArp { arp_layer : PArp }.

Definition arp_new_reply (src_hardware_addr : MacAddr) (src_ip_addr : Ipv4Addr)
    (dst_hardware_addr : MacAddr) (dst_ip_addr : Ipv4Addr) : Arp :=
  mkArp (mkPArp arp_hardware_ethernet ethertype_ipv4 6 4 arp_reply
           src_hardware_addr src_ip_addr dst_hardware_addr dst_ip_addr []).

Definition arp_parse (p : PArp) : Arp :=
  mkArp (mkPArp (pa_hardware_type p) (pa_protocol_type p) (pa_hw_addr_len p) (pa_proto_addr_len p)
           (pa_operation p) (pa_sender_hw_addr p) (pa_sender_proto_addr p)
           (pa_target_hw_addr p) (pa_target_proto_addr p) []).

Definition arp_reply_to (a : Arp) (hardware_addr : MacAddr) : Arp :=
  let p := arp_layer a in
  mkArp (mkPArp (pa_hardware_type p) (pa_protocol_type p) (pa_hw_addr_len p) (pa_proto_addr_len p)
           arp_reply hardware_addr (pa_target_proto_addr p)
           (pa_sender_hw_addr p) (pa_sender_proto_addr p) []).

Definition arp_is_request (a : Arp) : bool := pa_operation (arp_layer a) =? arp_request.
Definition arp_is_reply (a : Arp) : bool := pa_operation (arp_layer a) =? arp_reply.
Definition arp_is_request_of (a : Arp) (src dst : Ipv4Addr) : bool :=
  if pa_operation (arp_layer a) =? arp_request then
    (pa_sender_proto_addr (arp_layer a) =? src) && (pa_target_proto_addr (arp_layer a) =? dst)
  else false.
Definition arp_src_hardware_addr (a : Arp) : MacAddr := pa_sender_hw_addr (arp_layer a).
Definition arp_dst_hardware_addr (a : Arp) : MacAddr := pa_target_hw_addr (arp_layer a).
Definition arp_src (a : Arp) : Ipv4Addr := pa_sender_proto_addr (arp_layer a).
Definition arp_dst (a : Arp) : Ipv4Addr := pa_target_proto_addr (arp_layer a).
Definition arp_len (a : Arp) : Z := arp_size (arp_layer a).

Definition arp_serialize (a : Arp) (buffer : list byte) (n : Z) : outcome serialized :=
  open_packet arp_min buffer (
    buffer ← arp_populate buffer (arp_layer a);
    mret (buffer, Ok (arp_len a))).

#[export] Instance arp_is_layer : Layer Arp := {
  kind _ := LK_Arp;
  layer_len a := mret (arp_len a);
  serialize := arp_serialize;
  serialize_with_payload a buffer _ n := arp_serialize a buffer n
}.

(** ** IPv4 *)

Definition TTL : Z := 128.

Record Ipv4 : Set := mkIpv4 { ipv4_layer : PIpv4 Ipv4Option }.

Definition ipv4_new (identification : Z) (t : LayerKind) (src dst : Ipv4Addr) : option Ipv4 :=
  let make protocol :=
    Some (mkIpv4 (mkPIpv4 4 5 0 0 0 identification 0 0 TTL protocol 0 src dst [] [])) in
  if t =? LK_Icmpv4 then make protocol_icmp
  else if t =? LK_Tcp then make protocol_tcp
  else if t =? LK_Udp then make protocol_udp
  else None.

(** The layer with other flags and another fragment offset. *)
Definition ipv4_with_fragment (p : PIpv4 Ipv4Option) (flags fragment_offset : Z) : PIpv4 Ipv4Option :=
  mkPIpv4 (pi_version p) (pi_header_length p) (pi_dscp p) (pi_ecn p) (pi_total_length p)
    (pi_identification p) flags fragment_offset (pi_ttl p) (pi_protocol p)
    (pi_checksum p) (pi_source p) (pi_destination p) (pi_options p) (pi_payload p).

Definition ipv4_new_more_fragment (identification : Z) (t : LayerKind) (fragment_offset : Z)
    (src dst : Ipv4Addr) : option Ipv4 :=
  match ipv4_new identification t src dst with
  | Some ipv4 => Some (mkIpv4 (ipv4_with_fragment (ipv4_layer ipv4) flag_more_fragments fragment_offset))
  | None => None
  end.

Definition ipv4_new_last_fragment (identification : Z) (t : LayerKind) (fragment_offset : Z)
    (src dst : Ipv4Addr) : option Ipv4 :=
  match ipv4_new identification t src dst with
  | Some ipv4 =>
      Some (mkIpv4 (ipv4_with_fragment (ipv4_layer ipv4) (pi_flags (ipv4_layer ipv4)) fragment_offset))
  | None => None
  end.

Definition ipv4_parse (p : PIpv4 Ipv4Option) : Ipv4 :=
  mkIpv4 (mkPIpv4 (pi_version p) (pi_header_length p) (pi_dscp p) (pi_ecn p) (pi_total_length p)
    (pi_identification p) (pi_flags p) (pi_fragment_offset p) (pi_ttl p) (pi_protocol p)
    (pi_checksum p) (pi_source p) (pi_destination p) (pi_options p) []).

Definition ipv4_minimum_len : Z := 20.
Definition ipv4_total_length (i : Ipv4) : Z := pi_total_length (ipv4_layer i).
Definition ipv4_identification (i : Ipv4) : Z := pi_identification (ipv4_layer i).
Definition ipv4_is_more_fragment (i : Ipv4) : bool :=
  negb (Z.land (pi_flags (ipv4_layer i)) flag_more_fragments =? 0).
Definition ipv4_fragment_offset (i : Ipv4) : Z := pi_fragment_offset (ipv4_layer i).
Definition ipv4_is_fragment (i : Ipv4) : bool :=
  ipv4_is_more_fragment i || (0 <? ipv4_fragment_offset i).
Definition ipv4_next_level_protocol (i : Ipv4) : Z := pi_protocol (ipv4_layer i).
Definition ipv4_next_level_layer_kind (i : Ipv4) : option LayerKind :=
  let p := pi_protocol (ipv4_layer i) in
  if p =? protocol_icmp then Some LK_Icmpv4
  else if p =? protocol_tcp then Some LK_Tcp
  else if p =? protocol_udp then Some LK_Udp
  else None.
Definition ipv4_src (i : Ipv4) : Ipv4Addr := pi_source (ipv4_layer i).
Definition ipv4_dst (i : Ipv4) : Ipv4Addr := pi_destination (ipv4_layer i).

Definition ipv4_len (i : Ipv4) : outcome Z :=
  options_len ipv4_option_size (ipv4_size (ipv4_layer i)) 0 (pi_options (ipv4_layer i)).

(** The part of both serializations that fixes the header length and the total
    length. *)
Definition ipv4_fix_length (buffer : list byte) (header_length n : Z)
  : list byte * io_result unit :=
  if u8_max <? header_length / 4 then (buffer, Err (mkIoError EOther "IPv4 too big"))
  else
    let buffer := ipv4_set_header_length buffer (as_u8 (header_length / 4)) in
    if u16_max <? n then (buffer, Err (mkIoError EInvalidInput "length too big"))
    else (ipv4_set_total_length buffer (as_u16 n), Ok tt).

Definition ipv4_serialize (i : Ipv4) (buffer : list byte) (n : Z) : outcome serialized :=
  open_packet ipv4_min buffer (
    buffer ← ipv4_populate buffer (ipv4_layer i);
    header_length ← ipv4_len i;
    match ipv4_fix_length buffer header_length n with
    | (buffer, Err e) => mret (buffer, Err e)
    | (buffer, Ok _) =>
        mret (ipv4_set_checksum buffer (ipv4_checksum buffer), Ok header_length)
    end).

Definition ipv4_serialize_with_payload (i : Ipv4) (buffer payload : list byte) (n : Z)
  : outcome serialized :=
  open_packet ipv4_min buffer (
    buffer ← ipv4_populate buffer (ipv4_layer i);
    header_length ← ipv4_len i;
    match ipv4_fix_length buffer header_length n with
    | (buffer, Err e) => mret (buffer, Err e)
    | (buffer, Ok _) =>
        buffer ← ipv4_set_payload buffer payload;
        mret (ipv4_set_checksum buffer (ipv4_checksum buffer), Ok header_length)
    end).

#[export] Instance ipv4_is_layer : Layer Ipv4 := {
  kind _ := LK_Ipv4;
  layer_len := ipv4_len;
  serialize := ipv4_serialize;
  serialize_with_payload := ipv4_serialize_with_payload
}.

(** ** UDP *)

Record Udp : Set := mkUdp { udp_layer : PUdp; udp_src_ip_addr : Ipv4Addr; udp_dst_ip_addr : Ipv4Addr }.

Definition udp_from (u : PUdp) : Udp := mkUdp u ipv4_unspecified ipv4_unspecified.

Definition udp_new (src dst : Z) : Udp := udp_from (mkPUdp src dst 0 0 []).

Definition udp_set_ipv4_layer (u : Udp) (i : Ipv4) : Udp :=
  mkUdp (udp_layer u) (ipv4_src i) (ipv4_dst i).

Definition udp_parse (p : PUdp) (i : Ipv4) : Udp :=
  udp_set_ipv4_layer
    (udp_from (mkPUdp (pu_source p) (pu_destination p) (pu_length p) (pu_checksum p) [])) i.

Definition udp_minimum_len : Z := 8.
Definition udp_src (u : Udp) : Z := pu_source (udp_layer u).
Definition udp_dst (u : Udp) : Z := pu_destination (udp_layer u).
Definition udp_length (u : Udp) : Z := pu_length (udp_layer u).
Definition udp_len (u : Udp) : Z := udp_size (udp_layer u).

(** The part of both serializations from the length on. *)
Definition udp_finish (u : Udp) (buffer : list byte) (n result : Z) : serialized :=
  if u16_max <? n then (buffer, Err (mkIoError EInvalidInput "length too big"))
  else
    let buffer := udp_set_length buffer (as_u16 n) in
    let checksum := udp_ipv4_checksum buffer (udp_src_ip_addr u) (udp_dst_ip_addr u) in
    (udp_set_checksum buffer checksum, Ok result).

Definition udp_serialize (u : Udp) (buffer : list byte) (n : Z) : outcome serialized :=
  open_packet udp_min buffer (
    buffer ← udp_populate buffer (udp_layer u);
    mret (udp_finish u buffer n (udp_len u))).

Definition udp_serialize_with_payload (u : Udp) (buffer payload : list byte) (n : Z)
  : outcome serialized :=
  open_packet udp_min buffer (
    buffer ← udp_populate buffer (udp_layer u);
    buffer ← udp_set_payload buffer payload;
    mret (udp_finish u buffer n (udp_len u + n))).

#[export] Instance udp_is_layer : Layer Udp := {
  kind _ := LK_Udp;
  layer_len u := mret (udp_len u);
  serialize := udp_serialize;
  serialize_with_payload := udp_serialize_with_payload
}.

(** ** TCP *)

Record Tcp : Set := mkTcp {
  tcp_layer : PTcp TcpOption; tcp_src_ip_addr : Ipv4Addr; tcp_dst_ip_addr : Ipv4Addr }.

Definition tcp_from (t : PTcp TcpOption) : Tcp := mkTcp t ipv4_unspecified ipv4_unspecified.

(** [data_offset += n] and a push of options; [flags = f]. *)
Definition tcp_push (t : PTcp TcpOption) (n : Z) (options : list TcpOption) : PTcp TcpOption :=
  mkPTcp (pt_source t) (pt_destination t) (pt_sequence t) (pt_acknowledgement t)
    (pt_data_offset t + n) (pt_reserved t) (pt_flags t) (pt_window t) (pt_checksum t)
    (pt_urgent_ptr t) (pt_options t ++ options) (pt_payload t).
Definition tcp_with_flags (t : Tcp) (flags : Z) : Tcp :=
  let l := tcp_layer t in
  mkTcp (mkPTcp (pt_source l) (pt_destination l) (pt_sequence l) (pt_acknowledgement l)
    (pt_data_offset l) (pt_reserved l) flags (pt_window l) (pt_checksum l)
    (pt_urgent_ptr l) (pt_options l) (pt_payload l)) (tcp_src_ip_addr t) (tcp_dst_ip_addr t).
Definition tcp_push_layer (t : Tcp) (n : Z) (options : list TcpOption) : Tcp :=
  mkTcp (tcp_push (tcp_layer t) n options) (tcp_src_ip_addr t) (tcp_dst_ip_addr t).

(** The edges of the first [size] SACKs in a row. *)
Definition sack_vector (size : Z) (sacks : list (Z * Z)) : list Z :=
  concat (map (fun s => [s.1; s.2]) (ztake size sacks)).

Definition tcp_new_ack (src dst sequence acknowledgement window : Z)
    (sacks : option (list (Z * Z))) (ts : option (Z * Z)) : Tcp :=
  let d_tcp := mkPTcp src dst sequence acknowledgement 5 0 flag_ack window 0 0 [] [] in
  let is_sacks := match sacks with Some sacks => 0 <? len sacks | None => false end in
  let sacks := unwrap_or sacks [] in
  tcp_from
    match ts, is_sacks with
    | Some ts, true =>
        let vector := sack_vector (Z.min 3 (len sacks)) sacks in
        tcp_push d_tcp (3 + len vector) [opt_timestamp ts.1 ts.2; opt_selective_ack vector]
    | Some ts, false =>
        tcp_push d_tcp 3 [opt_nop; opt_nop; opt_timestamp ts.1 ts.2]
    | None, true =>
        let vector := sack_vector (Z.min 4 (len sacks)) sacks in
        tcp_push d_tcp (1 + len vector) [opt_nop; opt_nop; opt_selective_ack vector]
    | None, false => d_tcp
    end.

Definition tcp_new_ack_syn (src dst sequence acknowledgement window : Z)
    (mss wscale : option Z) (sack_perm : bool) (ts : option (Z * Z)) : Tcp :=
  let tcp := tcp_new_ack src dst sequence acknowledgement window None None in
  let tcp := tcp_with_flags tcp (Z.lor (pt_flags (tcp_layer tcp)) flag_syn) in
  let tcp := match mss with Some mss => tcp_push_layer tcp 1 [opt_mss mss] | None => tcp end in
  let tcp := match wscale with
             | Some wscale => tcp_push_layer tcp 1 [opt_nop; opt_wscale wscale]
             | None => tcp
             end in
  match sack_perm, ts with
  | true, Some ts => tcp_push_layer tcp 3 [opt_sack_perm; opt_timestamp ts.1 ts.2]
  | true, None => tcp_push_layer tcp 1 [opt_nop; opt_nop; opt_sack_perm]
  | false, Some ts => tcp_push_layer tcp 3 [opt_nop; opt_nop; opt_timestamp ts.1 ts.2]
  | false, None => tcp
  end.

Definition tcp_new_rst (src dst sequence acknowledgement window : Z) (ts : option (Z * Z)) : Tcp :=
  tcp_with_flags (tcp_new_ack src dst sequence acknowledgement window None ts) flag_rst.

Definition tcp_new_ack_rst (src dst sequence acknowledgement window : Z) (ts : option (Z * Z)) : Tcp :=
  let tcp := tcp_new_rst src dst sequence acknowledgement window ts in
  tcp_with_flags tcp (Z.lor (pt_flags (tcp_layer tcp)) flag_ack).

Definition tcp_new_ack_fin (src dst sequence acknowledgement window : Z) (ts : option (Z * Z)) : Tcp :=
  let tcp := tcp_new_ack src dst sequence acknowledgement window None ts in
  tcp_with_flags tcp (Z.lor (pt_flags (tcp_layer tcp)) flag_fin).

Definition tcp_new_fin (src dst sequence acknowledgement window : Z) (ts : option (Z * Z)) : Tcp :=
  tcp_with_flags (tcp_new_ack src dst sequence acknowledgement window None ts) flag_fin.

Definition tcp_set_ipv4_layer (t : Tcp) (i : Ipv4) : Tcp :=
  mkTcp (tcp_layer t) (ipv4_src i) (ipv4_dst i).

Definition tcp_parse (p : PTcp TcpOption) (i : Ipv4) : Tcp :=
  tcp_set_ipv4_layer
    (tcp_from (mkPTcp (pt_source p) (pt_destination p) (pt_sequence p) (pt_acknowledgement p)
       (pt_data_offset p) (pt_reserved p) (pt_flags p) (pt_window p) (pt_checksum p)
       (pt_urgent_ptr p) (pt_options p) [])) i.

Definition tcp_minimum_len : Z := 20.
Definition tcp_src (t : Tcp) : Z := pt_source (tcp_layer t).
Definition tcp_dst (t : Tcp) : Z := pt_destination (tcp_layer t).
Definition tcp_sequence (t : Tcp) : Z := pt_sequence (tcp_layer t).
Definition tcp_acknowledgement (t : Tcp) : Z := pt_acknowledgement (tcp_layer t).
Definition tcp_window (t : Tcp) : Z := pt_window (tcp_layer t).
Definition tcp_has_flag (t : Tcp) (flag : Z) : bool :=
  negb (Z.land (pt_flags (tcp_layer t)) flag =? 0).
Definition tcp_is_ack (t : Tcp) : bool := tcp_has_flag t flag_ack.
Definition tcp_is_rst (t : Tcp) : bool := tcp_has_flag t flag_rst.
Definition tcp_is_syn (t : Tcp) : bool := tcp_has_flag t flag_syn.
Definition tcp_is_fin (t : Tcp) : bool := tcp_has_flag t flag_fin.
Definition tcp_is_ack_fin (t : Tcp) : bool := tcp_is_ack t && tcp_is_fin t.
Definition tcp_is_rst_or_fin (t : Tcp) : bool := tcp_is_rst t || tcp_is_fin t.
Definition tcp_is_zero_window (t : Tcp) : bool := tcp_window t =? 0.

Definition tcp_flag_string (t : Tcp) : string :=
  let add (b : bool) (s : string) := if b then s else ""%string in
  String.append "[" (String.append (add (tcp_is_syn t) "S") (String.append (add (tcp_is_rst t) "R")
    (String.append (add (tcp_is_fin t) "F") (String.append (add (tcp_is_ack t) ".") "]"))))%string.

(** The loop of the option getters: the options are written one after the
    other to the front of the same buffer until one has the number. *)
Fixpoint find_option {A} (number : Z) (read : list byte -> outcome A) (buffer : list byte)
    (options : list TcpOption) : outcome (option A) :=
  match options with
  | [] => mret None
  | o :: rest =>
      buffer ← tcp_option_populate buffer o;
      if tcp_option_get_number buffer =? number then
        a ← read buffer; mret (Some a)
      else find_option number read buffer rest
  end.

Definition tcp_find_option {A} (t : Tcp) (number : Z) (read : list byte -> outcome A)
  : outcome (option A) :=
  find_option number read (zeros 40) (pt_options (tcp_layer t)).

Definition tcp_mss (t : Tcp) : outcome (option Z) :=
  tcp_find_option t option_mss (fun buffer => b ← slice buffer 2 4; mret (bytes_to_u16 b)).

Definition tcp_wscale (t : Tcp) : outcome (option Z) :=
  tcp_find_option t option_wscale (fun buffer => index buffer 2).

(** The loop that reads [k] pairs, the next one at index [i]. *)
Fixpoint read_sacks (buffer : list byte) (i : Z) (k : nat) : outcome (list (Z * Z)) :=
  match k with
  | O => mret []
  | S k =>
      l ← slice buffer (2 + 8 * i) (2 + 8 * i + 4);
      r ← slice buffer (2 + 8 * i + 4) (2 + 8 * i + 8);
      rest ← read_sacks buffer (i + 1) k;
      mret ((bytes_to_u32 l, bytes_to_u32 r) :: rest)
  end.

Definition tcp_sack (t : Tcp) : outcome (option (list (Z * Z))) :=
  tcp_find_option t option_sack (fun buffer =>
    length ← index buffer 1;
    data ← int_sub length 2;
    read_sacks buffer 0 (Z.to_nat (data / 8))).

Definition tcp_ts (t : Tcp) : outcome (option Z) :=
  tcp_find_option t option_timestamps (fun buffer => b ← slice buffer 2 6; mret (bytes_to_u32 b)).

Definition tcp_ts_ecr (t : Tcp) : outcome (option Z) :=
  tcp_find_option t option_timestamps (fun buffer => b ← slice buffer 6 10; mret (bytes_to_u32 b)).

Definition get_number_from_option (o : TcpOption) : outcome Z :=
  buffer ← tcp_option_populate (zeros 40) o;
  mret (tcp_option_get_number buffer).

Fixpoint has_sack_perm (options : list TcpOption) : outcome bool :=
  match options with
  | [] => mret false
  | o :: rest =>
      number ← get_number_from_option o;
      if number =? option_sack_permitted then mret true else has_sack_perm rest
  end.

Definition tcp_is_sack_perm (t : Tcp) : outcome bool := has_sack_perm (pt_options (tcp_layer t)).

Definition tcp_len (t : Tcp) : outcome Z :=
  options_len tcp_option_size (tcp_size (tcp_layer t)) 0 (pt_options (tcp_layer t)).

(** The part of both serializations from the data offset on. *)
Definition tcp_finish (t : Tcp) (buffer : list byte) (header_length result : Z) : serialized :=
  if u8_max <? header_length / 4 then (buffer, Err (mkIoError EOther "TCP too big"))
  else
    let buffer := tcp_set_data_offset buffer (as_u8 (header_length / 4)) in
    let checksum := tcp_ipv4_checksum buffer (tcp_src_ip_addr t) (tcp_dst_ip_addr t) in
    (tcp_set_checksum buffer checksum, Ok result).

Definition tcp_serialize (t : Tcp) (buffer : list byte) (n : Z) : outcome serialized :=
  open_packet tcp_min buffer (
    buffer ← tcp_populate buffer (tcp_layer t);
    header_length ← tcp_len t;
    mret (tcp_finish t buffer header_length header_length)).

Definition tcp_serialize_with_payload (t : Tcp) (buffer payload : list byte) (n : Z)
  : outcome serialized :=
  open_packet tcp_min buffer (
    buffer ← tcp_populate buffer (tcp_layer t);
    buffer ← tcp_set_payload buffer payload;
    header_length ← tcp_len t;
    mret (tcp_finish t buffer header_length (header_length + n))).

#[export] Instance tcp_is_layer : Layer Tcp := {
  kind _ := LK_Tcp;
  layer_len := tcp_len;
  serialize := tcp_serialize;
  serialize_with_payload := tcp_serialize_with_payload
}.

(** ** ICMPv4 *)

Record Icmpv4 : Set := mkIcmpv4 { icmp_layer : PIcmp }.

Definition icmpv4_new_echo_reply (identifier sequence_number : Z) : Icmpv4 :=
  mkIcmpv4 (mkPIcmp icmp_type_echo_reply icmp_no_code 0
    (to_ne_bytes identifier ++ to_ne_bytes sequence_number)).

Definition icmpv4_new_destination_port_unreachable (payload : list byte) : Icmpv4 :=
  mkIcmpv4 (mkPIcmp icmp_type_echo_reply icmp_no_code 0 (zeros 4 ++ payload)).

Definition icmpv4_parse (p : PIcmp) : Icmpv4 := mkIcmpv4 p.

Definition icmpv4_is (i : Icmpv4) (icmp_type icmp_code : Z) : bool :=
  (pc_type (icmp_layer i) =? icmp_type) && (pc_code (icmp_layer i) =? icmp_code).
Definition icmpv4_is_echo_reply (i : Icmpv4) : bool := icmpv4_is i icmp_type_echo_reply icmp_no_code.
Definition icmpv4_is_echo_request (i : Icmpv4) : bool := icmpv4_is i icmp_type_echo_request icmp_no_code.
Definition icmpv4_is_destination_port_unreachable (i : Icmpv4) : bool :=
  icmpv4_is i icmp_type_destination_unreachable icmp_code_port_unreachable.
Definition icmpv4_is_fragmentation_required (i : Icmpv4) : bool :=
  icmpv4_is i icmp_type_destination_unreachable icmp_code_fragmentation_required.

(** Two bytes of the payload at [i], combined by [f], when the layer is of the
    right sort. *)
Definition icmpv4_read2 (ic : Icmpv4) (b : bool) (i : Z) (f : Z -> Z -> Z) : outcome (option Z) :=
  if b then
    x ← index (pc_payload (icmp_layer ic)) i;
    y ← index (pc_payload (icmp_layer ic)) (i + 1);
    mret (Some (f x y))
  else mret None.

Definition icmpv4_identifier (i : Icmpv4) : outcome (option Z) :=
  icmpv4_read2 i (icmpv4_is_echo_reply i || icmpv4_is_echo_request i) 0 from_ne_bytes.
Definition icmpv4_sequence_number (i : Icmpv4) : outcome (option Z) :=
  icmpv4_read2 i (icmpv4_is_echo_reply i || icmpv4_is_echo_request i) 2 from_ne_bytes.
Definition icmpv4_next_hop_mtu (i : Icmpv4) : outcome (option Z) :=
  icmpv4_read2 i (icmpv4_is_fragmentation_required i) 2 from_be_bytes.

Definition icmpv4_len (i : Icmpv4) : Z := icmp_size (icmp_layer i).

Definition icmpv4_serialize (i : Icmpv4) (buffer : list byte) (n : Z) : outcome serialized :=
  open_packet icmp_min buffer (
    buffer ← icmp_populate buffer (icmp_layer i);
    mret (icmp_set_checksum buffer (icmp_checksum buffer), Ok (icmpv4_len i))).

#[export] Instance icmpv4_is_layer : Layer Icmpv4 := {
  kind _ := LK_Icmpv4;
  layer_len i := mret (icmpv4_len i);
  serialize := icmpv4_serialize;
  serialize_with_payload i buffer _ n := icmpv4_serialize i buffer n
}.

(** ** The enumeration of layers *)

Inductive Layers : Set :=
| LEthernet (e : Ethernet)
| LArp (a : Arp)
| LIpv4 (i : Ipv4)
| LIcmpv4 (i : Icmpv4)
| LTcp (t : Tcp)
| LUdp (u : Udp).

#[export] Instance layers_is_layer : Layer Layers := {
  kind l :=
    match l with
    | LEthernet x => kind x | LArp x => kind x | LIpv4 x => kind x
    | LIcmpv4 x => kind x | LTcp x => kind x | LUdp x => kind x
    end;
  layer_len l :=
    match l with
    | LEthernet x => layer_len x | LArp x => layer_len x | LIpv4 x => layer_len x
    | LIcmpv4 x => layer_len x | LTcp x => layer_len x | LUdp x => layer_len x
    end;
  serialize l :=
    match l with
    | LEthernet x => serialize x | LArp x => serialize x | LIpv4 x => serialize x
    | LIcmpv4 x => serialize x | LTcp x => serialize x | LUdp x => serialize x
    end;
  serialize_with_payload l :=
    match l with
    | LEthernet x => serialize_with_payload x | LArp x => serialize_with_payload x
    | LIpv4 x => serialize_with_payload x | LIcmpv4 x => serialize_with_payload x
    | LTcp x => serialize_with_payload x | LUdp x => serialize_with_payload x
    end
}.

(** [XPacket::new(payload)] and the matching [parse], for the protocol of an
    IPv4 layer. *)
Definition parse_transport (protocol : Z) (payload : list byte) (ipv4 : Ipv4) : option Layers :=
  if protocol =? protocol_icmp then
    if len payload <? icmp_min then None else Some (LIcmpv4 (icmpv4_parse (icmp_view payload)))
  else if protocol =? protocol_tcp then
    if len payload <? tcp_min then None else Some (LTcp (tcp_parse (tcp_view payload) ipv4))
  else if protocol =? protocol_udp then
    if len payload <? udp_min then None else Some (LUdp (udp_parse (udp_view payload) ipv4))
  else None.

(** ** The packet quoted by an ICMPv4 error *)

Definition icmpv4_parse_payload (i : Icmpv4) : option (Ipv4 * option Layers) :=
  if len (pc_payload (icmp_layer i)) <? 4 then None
  else
    let payload := zdrop 4 (pc_payload (icmp_layer i)) in
    if len payload <? ipv4_min then None
    else
      let packet := ipv4_view payload in
      let ipv4 := ipv4_parse packet in
      if negb (ipv4_is_fragment ipv4) then
        Some (ipv4, parse_transport (pi_protocol packet) (pi_payload packet) ipv4)
      else Some (ipv4, None).

(** The getters of the quoted packet panic when it cannot be parsed. *)
Definition icmpv4_quoted {A} (i : Icmpv4) (f : Ipv4 -> option Layers -> option A)
  : outcome (option A) :=
  if icmpv4_is_destination_port_unreachable i || icmpv4_is_fragmentation_required i then
    '(ipv4, transport) ← unwrap (icmpv4_parse_payload i);
    mret (f ipv4 transport)
  else mret None.

Definition icmpv4_src_ip_addr (i : Icmpv4) : outcome (option Ipv4Addr) :=
  icmpv4_quoted i (fun ipv4 _ => Some (ipv4_src ipv4)).
Definition icmpv4_dst_ip_addr (i : Icmpv4) : outcome (option Ipv4Addr) :=
  icmpv4_quoted i (fun ipv4 _ => Some (ipv4_dst ipv4)).
Definition icmpv4_next_level_protocol (i : Icmpv4) : outcome (option Z) :=
  icmpv4_quoted i (fun ipv4 _ => Some (ipv4_next_level_protocol ipv4)).
Definition icmpv4_next_level_layer_kind (i : Icmpv4) : outcome (option LayerKind) :=
  icmpv4_quoted i (fun ipv4 _ => ipv4_next_level_layer_kind ipv4).
Definition icmpv4_src (i : Icmpv4) : outcome (option SocketAddrV4) :=
  icmpv4_quoted i (fun _ transport =>
    match transport with
    | Some (LTcp tcp) => Some (tcp_src_ip_addr tcp, tcp_src tcp)
    | Some (LUdp udp) => Some (udp_src_ip_addr udp, udp_src udp)
    | _ => None
    end).
Definition icmpv4_dst (i : Icmpv4) : outcome (option SocketAddrV4) :=
  icmpv4_quoted i (fun _ transport =>
    match transport with
    | Some (LTcp tcp) => Some (tcp_dst_ip_addr tcp, tcp_dst tcp)
    | Some (LUdp udp) => Some (udp_dst_ip_addr udp, udp_dst udp)
    | _ => None
    end).
End layers.

(** ** Lemmas *)

Lemma zsum_app l k : zsum (l ++ k) = zsum l + zsum k.
Proof. induction l; simpl; lia. Qed.

(** The loop of [len] replaces the byte counted for an option by its size. *)
Lemma options_len_Done {O : Set} (f : O -> Z) size acc options :
  Forall (fun o => 0 <= f o) options -> 0 <= acc -> len options <= size ->
  size - len options + acc + zsum (map f options) <= usize_max ->
  options_len f size acc options = Done (size - len options + acc + zsum (map f options)).
Proof.
  revert size acc. induction options as [|o rest IH]; intros size acc Hf Ha Hs Hm; simpl.
  - rewrite len_nil in *. simpl in *. unfold usize_add. rewrite int_add_Done by lia. f_equal. lia.
  - inversion_clear Hf as [|? ? Ho Hr]. rewrite len_cons in *. simpl in *.
    pose proof (len_nonneg rest). assert (0 <= zsum (map f rest)).
    { clear -Hr. induction Hr; simpl; lia. }
    rewrite int_sub_Done by lia. rewrite outcome_bind_Done. unfold usize_add.
    rewrite int_add_Done by lia. rewrite outcome_bind_Done. rewrite IH by (done || lia). f_equal. lia.
Qed.

Section laws.
Context {P : Pnet} {L : PnetLaws P}.

(** The size of each option that the repository builds. *)
Lemma size_nop : tcp_option_size opt_nop = 1.
Proof. by destruct law_nop as [-> _]. Qed.
Lemma size_mss m : is_u16 m -> tcp_option_size (opt_mss m) = 4.
Proof. intros H. by destruct (law_mss m H) as [-> _]. Qed.
Lemma size_wscale w : is_u8 w -> tcp_option_size (opt_wscale w) = 3.
Proof. intros H. by destruct (law_wscale w H) as [-> _]. Qed.
Lemma size_sack_perm : tcp_option_size opt_sack_perm = 2.
Proof. by destruct law_sack_perm as [-> _]. Qed.
Lemma size_timestamp a b : is_u32 a -> is_u32 b -> tcp_option_size (opt_timestamp a b) = 10.
Proof. intros Ha Hb. by destruct (law_timestamp a b Ha Hb) as [-> _]. Qed.

Lemma len_concat_be32 l : len (concat (map be32 l)) = 4 * len l.
Proof. induction l as [|a l IH]; [done|]. simpl. rewrite !len_cons, IH. lia. Qed.

Lemma size_selective_ack l :
  Forall is_u32 l -> len l <= 60 -> tcp_option_size (opt_selective_ack l) = 2 + 4 * len l.
Proof.
  intros Hl Hn. destruct (law_selective_ack l Hl) as [-> _]; [ilia|].
  rewrite len_app, len_concat_be32, !len_cons, len_nil. lia.
Qed.

(** The edges that a SACK option carries. *)
Definition sacks_u32 (sacks : list (Z * Z)) : Prop := Forall (fun s => is_u32 s.1 /\ is_u32 s.2) sacks.

Lemma len_sack_vector size sacks :
  0 <= size <= len sacks -> len (sack_vector size sacks) = 2 * size.
Proof.
  intros Hs. unfold sack_vector.
  assert (E : forall l : list (Z * Z), len (concat (map (fun s => [s.1; s.2]) l)) = 2 * len l).
  { clear. induction l as [|[a b] l IH]; [done|]. simpl. rewrite !len_cons, IH. lia. }
  rewrite E, len_ztake. lia.
Qed.

Lemma sack_vector_u32 size sacks : sacks_u32 sacks -> Forall is_u32 (sack_vector size sacks).
Proof.
  intros H. unfold sack_vector, ztake. apply (Forall_take _ (Z.to_nat size)) in H.
  induction H as [|[a b] l [Ha Hb] Hl IH]; simpl; [done|].
  constructor; [done|]. by constructor.
Qed.

(** A TCP header whose length field is its length, within the four bits of the
    field. *)
Definition tcp_sized (t : Tcp) : Prop :=
  tcp_len t = Done (4 * pt_data_offset (tcp_layer t)) /\ 5 <= pt_data_offset (tcp_layer t) <= 15
  /\ pt_payload (tcp_layer t) = []
  /\ 4 * pt_data_offset (tcp_layer t) = 20 + zsum (map tcp_option_size (pt_options (tcp_layer t))).

Lemma tcp_sized_intro t :
  Forall (fun o => 0 <= tcp_option_size o) (pt_options (tcp_layer t)) ->
  pt_payload (tcp_layer t) = [] -> 5 <= pt_data_offset (tcp_layer t) <= 15 ->
  4 * pt_data_offset (tcp_layer t) = 20 + zsum (map tcp_option_size (pt_options (tcp_layer t))) ->
  tcp_sized t.
Proof.
  intros Hf Hp Hd E. split; [|done]. unfold tcp_len. rewrite law_tcp_size, Hp, len_nil.
  pose proof (len_nonneg (pt_options (tcp_layer t))).
  rewrite options_len_Done; [f_equal; lia|done|lia|lia|ilia].
Qed.

(** Sizes of concrete lists of options. *)
Ltac option_sizes :=
  repeat first [rewrite size_nop | rewrite size_mss by done | rewrite size_wscale by done
    | rewrite size_sack_perm | rewrite size_timestamp by done].

Ltac tcp_sized extra :=
  apply tcp_sized_intro; cbn;
  [repeat (apply List.Forall_cons; [option_sizes; extra; lia|]); apply List.Forall_nil
  |done
  |option_sizes; extra; lia
  |option_sizes; extra; lia].

Definition ts_u32 (ts : option (Z * Z)) : Prop :=
  match ts with Some ts => is_u32 ts.1 /\ is_u32 ts.2 | None => True end.
Definition sacks_opt_u32 (sacks : option (list (Z * Z))) : Prop :=
  match sacks with Some sacks => sacks_u32 sacks | None => True end.

Lemma tcp_new_ack_sized src dst sequence acknowledgement window sacks ts :
  sacks_opt_u32 sacks -> ts_u32 ts ->
  tcp_sized (tcp_new_ack src dst sequence acknowledgement window sacks ts).
Proof.
  intros Hs Ht. unfold tcp_new_ack.
  set (b := match sacks with Some s => 0 <? len s | None => false end). set (l := unwrap_or sacks []).
  assert (Hl : sacks_u32 l) by (unfold l; destruct sacks; [done|constructor]).
  pose proof (len_nonneg l).
  assert (Hv : forall k, 0 <= k <= 4 -> let v := sack_vector (Z.min k (len l)) l in
    tcp_option_size (opt_selective_ack v) = 2 + 4 * len v /\ len v = 2 * Z.min k (len l)).
  { intros k Hk v. assert (len v = 2 * Z.min k (len l)) by (apply len_sack_vector; lia).
    split; [|done]. apply size_selective_ack; [by apply sack_vector_u32|lia]. }
  destruct (Hv 3 ltac:(lia)) as [E3 V3]. destruct (Hv 4 ltac:(lia)) as [E4 V4].
  destruct ts as [[ts1 ts2]|]; [destruct Ht|]; destruct b; tcp_sized ltac:(rewrite ?E3, ?E4).
Qed.

Lemma tcp_new_ack_syn_sized src dst sequence acknowledgement window mss wscale sack_perm ts :
  (forall m, mss = Some m -> is_u16 m) -> (forall w, wscale = Some w -> is_u8 w) -> ts_u32 ts ->
  tcp_sized (tcp_new_ack_syn src dst sequence acknowledgement window mss wscale sack_perm ts).
Proof.
  intros Hm Hw Ht. unfold tcp_new_ack_syn.
  destruct mss as [m|]; [specialize (Hm m eq_refl)|]; (destruct wscale as [w|]; [specialize (Hw w eq_refl)|]);
    (destruct ts as [[ts1 ts2]|]; [destruct Ht|]); destruct sack_perm; tcp_sized idtac.
Qed.

(** Other flags do not change the size. *)
Lemma tcp_with_flags_sized t flags : tcp_sized t -> tcp_sized (tcp_with_flags t flags).
Proof. unfold tcp_sized, tcp_len. by rewrite !law_tcp_size. Qed.

Lemma tcp_set_ipv4_layer_sized t i : tcp_sized t -> tcp_sized (tcp_set_ipv4_layer t i).
Proof. done. Qed.

(** *** Reading options back *)

(** One step of the search. *)
Lemma find_option_cons {A} number (read : list byte -> outcome A) buffer o b bs rest :
  option_encodes o (b :: bs) -> len (b :: bs) <= len buffer ->
  find_option number read buffer (o :: rest) =
  let buffer := blit buffer 0 (b :: bs) in
  if b =? number then a ← read buffer; mret (Some a) else find_option number read buffer rest.
Proof.
  intros [_ Hp] Hl. cbn [find_option]. rewrite Hp by done. rewrite outcome_bind_Done.
  replace (tcp_option_get_number (blit buffer 0 (b :: bs))) with b; [done|].
  unfold blit. rewrite ztake_0 by lia. by rewrite app_nil_l, <- app_comm_cons, law_get_number.
Qed.

Lemma get_number_encodes o b bs :
  option_encodes o (b :: bs) -> len (b :: bs) <= 40 -> get_number_from_option o = Done b.
Proof.
  intros [_ Hp] Hl. unfold get_number_from_option.
  rewrite Hp by (rewrite len_zeros; lia). rewrite outcome_bind_Done.
  unfold blit. rewrite ztake_0 by lia. by rewrite app_nil_l, <- app_comm_cons, law_get_number.
Qed.

(** The front of a buffer after an option was written to it. *)
Lemma slice_blit_front (buffer bs : list byte) a b :
  0 <= a <= b -> b <= len bs -> len bs <= len buffer ->
  slice (blit buffer 0 bs) a b = slice bs a b.
Proof.
  intros Ha Hb Hl. assert (E : len (blit buffer 0 bs) = len buffer) by (apply len_blit; lia).
  rewrite !slice_Done by lia. f_equal. apply zat_ext; [rewrite !len_ztake, !len_zdrop; lia|].
  intros i Hi. rewrite len_ztake, len_zdrop in Hi.
  rewrite !zat_ztake, !zat_zdrop, zat_blit by lia. zcases. f_equal. lia.
Qed.

Lemma index_blit_front (buffer bs : list byte) i :
  0 <= i < len bs -> len bs <= len buffer -> index (blit buffer 0 bs) i = index bs i.
Proof.
  intros Hi Hl. unfold index. zcase; [|lia]. f_equal. unfold blit. rewrite ztake_0 by lia.
  rewrite app_nil_l, lookup_app_l; [done|]. unfold len in *. lia.
Qed.
End laws.

(** ** Integers and bytes *)

Lemma bytes_to_u16_be16 m : is_u16 m -> bytes_to_u16 (be16 m) = m.
Proof.
  intros H. change (bytes_to_u16 (be16 m)) with (m / 256 mod 256 * 256 + m mod 256).
  rewrite (Z.mod_small (m / 256)).
  - rewrite (Z.div_mod m 256) at 3; lia.
  - split; [apply Z.div_pos; ilia|apply Z.div_lt_upper_bound; ilia].
Qed.

Lemma be32_value x :
  is_u32 x ->
  x / 16777216 mod 256 * 16777216 + x / 65536 mod 256 * 65536 + x / 256 mod 256 * 256 + x mod 256 = x.
Proof.
  intros H.
  replace (x / 65536) with (x / 256 / 256) by (rewrite Z.div_div by lia; done).
  replace (x / 16777216) with (x / 256 / 256 / 256) by (rewrite !Z.div_div by lia; done).
  pose proof (Z.div_mod x 256). pose proof (Z.div_mod (x / 256) 256).
  pose proof (Z.div_mod (x / 256 / 256) 256).
  rewrite (Z.mod_small (x / 256 / 256 / 256)); [lia|].
  rewrite !Z.div_div by lia.
  split; [apply Z.div_pos; ilia|apply Z.div_lt_upper_bound; ilia].
Qed.

Lemma bytes_to_u32_be32 x : is_u32 x -> bytes_to_u32 (be32 x) = x.
Proof.
  intros H. rewrite <- (be32_value x H) at 2.
  change (bytes_to_u32 (be32 x)) with
    (((x / 16777216 mod 256 * 256 + x / 65536 mod 256) * 256 + x / 256 mod 256) * 256 + x mod 256).
  lia.
Qed.

Section roundtrip.
Context {P : Pnet} {L : PnetLaws P}.

(** What a search finds, for every content of the scratch buffer. *)
Definition finds {A} (number : Z) (read : list byte -> outcome A) (options : list TcpOption)
    (r : option A) : Prop :=
  forall buffer, len buffer = 40 -> find_option number read buffer options = Done r.

Lemma finds_nil {A} number (read : list byte -> outcome A) : finds number read [] None.
Proof. done. Qed.

Lemma finds_skip {A} number (read : list byte -> outcome A) o b bs rest r :
  option_encodes o (b :: bs) -> b <> number -> len (b :: bs) <= 40 ->
  finds number read rest r -> finds number read (o :: rest) r.
Proof.
  intros Ho Hb Hl Hr buffer Hbuf. rewrite (find_option_cons _ _ _ _ _ _ _ Ho) by lia. cbv zeta.
  destruct (Z.eqb_spec b number); [done|]. apply Hr. rewrite len_blit; lia.
Qed.

Lemma finds_hit {A} number (read : list byte -> outcome A) o bs rest a :
  option_encodes o (number :: bs) -> len (number :: bs) <= 40 ->
  (forall buffer, len buffer = 40 -> read (blit buffer 0 (number :: bs)) = Done a) ->
  finds number read (o :: rest) (Some a).
Proof.
  intros Ho Hl Hr buffer Hbuf. rewrite (find_option_cons _ _ _ _ _ _ _ Ho) by lia. cbv zeta.
  rewrite Z.eqb_refl. by rewrite Hr.
Qed.

Lemma tcp_find_option_finds {A} t number (read : list byte -> outcome A) r :
  finds number read (pt_options (tcp_layer t)) r -> tcp_find_option t number read = Done r.
Proof. intros H. apply H. by rewrite len_zeros. Qed.

(** Steps over the options that the repository builds. *)
Ltac option_law := first
  [ apply law_nop | apply law_sack_perm | apply law_mss; assumption | apply law_wscale; assumption
  | apply law_timestamp; assumption ].
Ltac skip_option := eapply finds_skip; [option_law|done|done|].
Ltac hit_option := eapply finds_hit; [option_law|done|].

Definition opt_u16 (o : option Z) : Prop := match o with Some m => is_u16 m | None => True end.
Definition opt_u8 (o : option Z) : Prop := match o with Some w => is_u8 w | None => True end.

Lemma read_mss m buffer :
  is_u16 m -> len buffer = 40 ->
  (b ← slice (blit buffer 0 ([option_mss; 4] ++ be16 m)) 2 4; mret (bytes_to_u16 b)) = Done m.
Proof.
  intros Hm Hb. rewrite slice_blit_front by (unfold len in *; simpl; lia).
  rewrite slice_Done by (unfold len in *; simpl; lia). rewrite outcome_bind_Done.
  change (ztake _ _) with (be16 m). by rewrite bytes_to_u16_be16.
Qed.

Lemma read_wscale w buffer :
  len buffer = 40 -> index (blit buffer 0 [option_wscale; 3; w]) 2 = Done w.
Proof. intros Hb. rewrite index_blit_front by (unfold len in *; simpl; lia). done. Qed.

Lemma read_ts a b buffer :
  is_u32 a -> len buffer = 40 ->
  (x ← slice (blit buffer 0 ([option_timestamps; 10] ++ be32 a ++ be32 b)) 2 6; mret (bytes_to_u32 x))
  = Done a.
Proof.
  intros Ha Hb. rewrite slice_blit_front by (unfold len in *; simpl; lia).
  rewrite slice_Done by (unfold len in *; simpl; lia). rewrite outcome_bind_Done.
  change (ztake _ _) with (be32 a). by rewrite bytes_to_u32_be32.
Qed.

Section syn.
Context (src dst sequence acknowledgement window : Z) (mss wscale : option Z) (sack_perm : bool)
  (ts : option (Z * Z)) (Hmss : opt_u16 mss) (Hwscale : opt_u8 wscale) (Hts : ts_u32 ts).

Let syn := tcp_new_ack_syn src dst sequence acknowledgement window mss wscale sack_perm ts.

Ltac syn_cases :=
  apply tcp_find_option_finds; unfold syn, tcp_new_ack_syn, opt_u16, opt_u8, ts_u32 in *;
  destruct mss, wscale, ts as [[]|], sack_perm; destruct_and?; cbn [fst snd] in *; cbn.

Lemma syn_mss : tcp_mss syn = Done mss.
Proof.
  syn_cases; try (repeat skip_option; apply finds_nil);
    hit_option; intros; by apply read_mss.
Qed.

Lemma syn_wscale : tcp_wscale syn = Done wscale.
Proof.
  syn_cases; try (repeat skip_option; apply finds_nil);
    repeat skip_option; hit_option; intros b Hb; exact (read_wscale _ b Hb).
Qed.

Lemma syn_ts : tcp_ts syn = Done (fst <$> ts).
Proof.
  syn_cases; try (repeat skip_option; apply finds_nil);
    repeat skip_option; hit_option; intros; by apply read_ts.
Qed.

Lemma syn_is_sack_perm : tcp_is_sack_perm syn = Done sack_perm.
Proof.
  unfold tcp_is_sack_perm, syn, tcp_new_ack_syn, opt_u16, opt_u8, ts_u32 in *.
  destruct mss, wscale, ts as [[]|], sack_perm; destruct_and?; cbn [fst snd] in *; cbn;
    repeat (erewrite get_number_encodes; [rewrite outcome_bind_Done; cbn|option_law|done]); done.
Qed.
End syn.

(** The edges of SACKs as they stand in the option. *)
Definition sack_bytes (sacks : list (Z * Z)) : list byte :=
  concat (map be32 (concat (map (fun s => [s.1; s.2]) sacks))).

Lemma slice_middle (l m r : list byte) a b :
  len l = a -> len m = b - a -> slice (l ++ m ++ r) a b = Done m.
Proof.
  intros Ha Hm. pose proof (len_nonneg l). pose proof (len_nonneg m). pose proof (len_nonneg r).
  rewrite slice_Done by (rewrite ?len_app; lia). f_equal. by rewrite zdrop_app, ztake_app by lia.
Qed.

Lemma read_sacks_ok sacks pre post i :
  sacks_u32 sacks -> len pre = 2 + 8 * i -> 0 <= i ->
  read_sacks (pre ++ sack_bytes sacks ++ post) i (length sacks) = Done sacks.
Proof.
  revert pre i. induction sacks as [|[a b] rest IH]; intros pre i Hs Hp Hi; [done|].
  inversion_clear Hs as [|? ? [Ha Hb] Hr]. cbn [fst snd] in *. cbn [read_sacks length].
  change (sack_bytes ((a, b) :: rest)) with (be32 a ++ be32 b ++ sack_bytes rest).
  rewrite <- !app_assoc. rewrite (slice_middle pre (be32 a) _ (2 + 8 * i)) by zl.
  rewrite outcome_bind_Done. rewrite (app_assoc pre).
  rewrite (slice_middle (pre ++ be32 a) (be32 b) _ (2 + 8 * i + 4)) by zl.
  rewrite outcome_bind_Done. rewrite (app_assoc (pre ++ be32 a)).
  rewrite IH by (done || zl).
  by rewrite outcome_bind_Done, !bytes_to_u32_be32.
Qed.

Lemma len_sack_pairs (l : list (Z * Z)) : len (concat (map (fun s => [s.1; s.2]) l)) = 2 * len l.
Proof. induction l as [|[a b] l IH]; [done|]. simpl. rewrite !len_cons, IH. lia. Qed.

Lemma read_sack_option l buffer :
  sacks_u32 l -> len l <= 4 -> len buffer = 40 ->
  (length ← index (blit buffer 0 ([option_sack; 2 + 8 * len l] ++ sack_bytes l)) 1;
   data ← int_sub length 2;
   read_sacks (blit buffer 0 ([option_sack; 2 + 8 * len l] ++ sack_bytes l)) 0 (Z.to_nat (data / 8)))
  = Done l.
Proof.
  intros Hl Hn Hb. pose proof (len_nonneg l). unfold blit. rewrite ztake_0, app_nil_l by lia.
  change (index _ 1) with (Done (2 + 8 * len l)). rewrite outcome_bind_Done.
  rewrite int_sub_Done by lia. rewrite outcome_bind_Done.
  replace ((2 + 8 * len l - 2) / 8) with (len l).
  - unfold len at 4. rewrite Nat2Z.id, <- app_assoc. by apply read_sacks_ok.
  - replace (2 + 8 * len l - 2) with (len l * 8) by lia. by rewrite Z.div_mul.
Qed.

Lemma law_sack_pairs l :
  sacks_u32 l -> len l <= 4 ->
  option_encodes (opt_selective_ack (concat (map (fun s => [s.1; s.2]) l)))
    ([option_sack; 2 + 8 * len l] ++ sack_bytes l).
Proof.
  intros Hl Hn. pose proof (law_selective_ack (concat (map (fun s => [s.1; s.2]) l))) as H.
  rewrite len_sack_pairs in H. replace (2 + 4 * (2 * len l)) with (2 + 8 * len l) in H by lia.
  apply H; [|ilia]. pose proof (sack_vector_u32 (len l) l Hl) as Hv. unfold sack_vector in Hv.
  by rewrite ztake_all in Hv by lia.
Qed.

Lemma finds_sack l rest :
  sacks_u32 l -> len l <= 4 ->
  finds option_sack (fun buffer =>
    length ← index buffer 1; data ← int_sub length 2; read_sacks buffer 0 (Z.to_nat (data / 8)))
    (opt_selective_ack (concat (map (fun s => [s.1; s.2]) l)) :: rest) (Some l).
Proof.
  intros Hl Hn. eapply finds_hit; [by apply law_sack_pairs| |].
  - change (option_sack :: _) with ([option_sack; 2 + 8 * len l] ++ sack_bytes l).
    unfold sack_bytes. rewrite len_app, len_concat_be32, len_sack_pairs, !len_cons, len_nil. lia.
  - intros buffer Hb. by apply read_sack_option.
Qed.

(** ** Theorems *)

(** C34. The options of a TCP ACK/SYN that the program builds are read back by
    its own getters as they were given: the MSS, the window scale, the SACK
    permission and the timestamp, in every combination, although the options
    share the scratch buffer. *)
Theorem tcp_syn_options_roundtrip (src dst sequence acknowledgement window : Z)
    (mss wscale : option Z) (sack_perm : bool) (ts : option (Z * Z)) :
  opt_u16 mss -> opt_u8 wscale -> ts_u32 ts ->
  let tcp := tcp_new_ack_syn src dst sequence acknowledgement window mss wscale sack_perm ts in
  tcp_mss tcp = Done mss /\ tcp_wscale tcp = Done wscale
  /\ tcp_is_sack_perm tcp = Done sack_perm /\ tcp_ts tcp = Done (fst <$> ts).
Proof.
  intros Hm Hw Ht tcp. split; [by apply syn_mss|]. split; [by apply syn_wscale|].
  split; [by apply syn_is_sack_perm|by apply syn_ts].
Qed.

(** The SACKs of an ACK that the program builds are read back in order,
    cut to the three (with a timestamp) or four that fit the option space. *)
Theorem tcp_sack_roundtrip (src dst sequence acknowledgement window : Z)
    (sacks : list (Z * Z)) (ts : option (Z * Z)) :
  sacks_u32 sacks -> ts_u32 ts -> 0 < len sacks ->
  tcp_sack (tcp_new_ack src dst sequence acknowledgement window (Some sacks) ts)
  = Done (Some (ztake (match ts with Some _ => 3 | None => 4 end) sacks)).
Proof.
  intros Hs Ht Hn. apply tcp_find_option_finds. unfold tcp_new_ack. cbn [unwrap_or].
  destruct (Z.ltb_spec 0 (len sacks)); [|lia].
  assert (Hk : forall k, 0 <= k <= 4 ->
    sack_vector (Z.min k (len sacks)) sacks = concat (map (fun s => [s.1; s.2]) (ztake k sacks))
    /\ sacks_u32 (ztake k sacks) /\ len (ztake k sacks) <= 4).
  { intros k Hk. split; [|split; [by apply Forall_take|rewrite len_ztake; lia]]. unfold sack_vector.
    do 2 f_equal. destruct (Z.min_spec k (len sacks)) as [[_ ->]|[? ->]]; [done|].
    by rewrite !ztake_all by lia. }
  destruct ts as [[a b]|]; [destruct Ht|]; cbn.
  - destruct (Hk 3) as (-> & ? & ?); [lia|]. skip_option. by apply finds_sack.
  - destruct (Hk 4) as (-> & ? & ?); [lia|]. do 2 skip_option. by apply finds_sack.
Qed.

(** C35. Every TCP header that the program builds fills the words its data
    offset counts, at most the 15 that the field can hold: the options are
    padded to whole words in every combination, so the header that is written
    is the header that is announced. *)
Theorem tcp_headers_aligned (src dst sequence acknowledgement window : Z)
    (sacks : option (list (Z * Z))) (mss wscale : option Z) (sack_perm : bool) (ts : option (Z * Z)) :
  sacks_opt_u32 sacks -> opt_u16 mss -> opt_u8 wscale -> ts_u32 ts ->
  Forall tcp_sized
    [tcp_new_ack src dst sequence acknowledgement window sacks ts;
     tcp_new_ack_syn src dst sequence acknowledgement window mss wscale sack_perm ts;
     tcp_new_rst src dst sequence acknowledgement window ts;
     tcp_new_ack_rst src dst sequence acknowledgement window ts;
     tcp_new_fin src dst sequence acknowledgement window ts;
     tcp_new_ack_fin src dst sequence acknowledgement window ts].
Proof.
  intros Hs Hm Hw Ht. pose proof (fun s => tcp_new_ack_sized src dst sequence acknowledgement window s ts).
  assert (sacks_opt_u32 None) by done.
  repeat (apply List.Forall_cons || apply List.Forall_nil);
    try (repeat apply tcp_with_flags_sized; auto; fail).
  apply tcp_new_ack_syn_sized; [intros m ->; done|intros w ->; done|done].
Qed.
End roundtrip.

Lemma tcp_syn_options_roundtrip_witness :
  let tcp := tcp_new_ack_syn 80 5000 1 2 65535 (Some 1460) (Some 8) true (Some (7, 9)) in
  tcp_mss tcp = Done (Some 1460) /\ tcp_wscale tcp = Done (Some 8)
  /\ tcp_is_sack_perm tcp = Done true /\ tcp_ts tcp = Done (fst <$> Some (7, 9)).
Proof.
  apply (tcp_syn_options_roundtrip (P := wire) 80 5000 1 2 65535 (Some 1460) (Some 8) true (Some (7, 9)));
    simpl; ilia.
Defined.

Lemma tcp_sack_roundtrip_witness :
  tcp_sack (tcp_new_ack 80 5000 1 2 65535 (Some [(1, 2); (3, 4); (5, 6); (7, 8); (9, 10)]) None)
  = Done (Some (ztake (match None : option (Z * Z) with Some _ => 3 | None => 4 end)
      [(1, 2); (3, 4); (5, 6); (7, 8); (9, 10)])).
Proof.
  apply (tcp_sack_roundtrip (P := wire) 80 5000 1 2 65535 [(1, 2); (3, 4); (5, 6); (7, 8); (9, 10)] None).
  - repeat (apply List.Forall_cons; [simpl; ilia|]). apply List.Forall_nil.
  - exact I.
  - reflexivity.
Defined.

Lemma tcp_headers_aligned_witness :
  Forall tcp_sized
    [tcp_new_ack 80 5000 1 2 65535 (Some [(1, 2)]) (Some (7, 9));
     tcp_new_ack_syn 80 5000 1 2 65535 (Some 1460) (Some 8) true (Some (7, 9));
     tcp_new_rst 80 5000 1 2 65535 (Some (7, 9)); tcp_new_ack_rst 80 5000 1 2 65535 (Some (7, 9));
     tcp_new_fin 80 5000 1 2 65535 (Some (7, 9)); tcp_new_ack_fin 80 5000 1 2 65535 (Some (7, 9))].
Proof.
  apply (tcp_headers_aligned (P := wire) 80 5000 1 2 65535 (Some [(1, 2)]) (Some 1460) (Some 8) true (Some (7, 9)));
    try (simpl; ilia).
  apply List.Forall_cons; [simpl; ilia|apply List.Forall_nil].
Defined.
