(* ===== verification/Packet.v ===== *)
(** * Packets: [packet::Indicator], [Fragmentation] and [Defraggler]

    The headers of a frame, their serialization, and the reassembly of IPv4
    fragments. *)

From stdpp Require Import sorting.
From S2P Require Import Prelude SeqArith Pnet Wire Layers.

Section packet.
Context `{P : Pnet}.

(** ** Indicator *)

Record Indicator : Set := mkIndicator {
  ind_link : Layers; ind_network : option Layers; ind_transport : option Layers }.

(** [Indicator::parse], where the packet is the view of an Ethernet frame. *)
Definition indicator_parse (packet : PEthernet) : Indicator :=
  let link := LEthernet (ethernet_parse packet) in
  if pe_ethertype packet =? ethertype_arp then
    if len (pe_payload packet) <? arp_min then mkIndicator link None None
    else mkIndicator link (Some (LArp (arp_parse (arp_view (pe_payload packet))))) None
  else if pe_ethertype packet =? ethertype_ipv4 then
    if len (pe_payload packet) <? ipv4_min then mkIndicator link None None
    else
      let ipv4_packet := ipv4_view (pe_payload packet) in
      let ipv4 := ipv4_parse ipv4_packet in
      let transport :=
        if negb (ipv4_is_fragment ipv4)
        then parse_transport (pi_protocol ipv4_packet) (pi_payload ipv4_packet) ipv4
        else None in
      mkIndicator link (Some (LIpv4 ipv4)) transport
  else mkIndicator link None None.

Definition indicator_from (frame : list byte) : option Indicator :=
  if len frame <? ethernet_min then None else Some (indicator_parse (ethernet_view frame)).

(** The length of an optional layer. *)
Definition opt_layer_len (l : option Layers) : outcome Z :=
  match l with Some l => layer_len l | None => mret 0 end.

Definition indicator_len (i : Indicator) : outcome Z :=
  link ← layer_len (ind_link i);
  network ← opt_layer_len (ind_network i);
  size ← usize_add link network;
  transport ← opt_layer_len (ind_transport i);
  usize_add size transport.

Definition indicator_content_len (i : Indicator) : outcome Z :=
  match ind_link i with
  | LEthernet ethernet =>
      link ← layer_len ethernet;
      match ind_network i with
      | Some (LArp arp) => n ← layer_len arp; usize_add link n
      | Some (LIpv4 ipv4) => usize_add link (ipv4_total_length ipv4)
      | Some _ => Panic
      | None => mret link
      end
  | _ => Panic
  end.

(** One layer of a serialization: writes at [begin] with [total] bytes left. *)
Definition serialize_at (write : list byte -> Z -> outcome serialized) (buffer : list byte)
    (begin total : Z) : outcome serialized :=
  sub ← slice buffer begin (len buffer);
  '(sub, r) ← write sub total;
  mret (ztake begin buffer ++ sub, r).

(** The layers in order; [writer] is the trait function of a layer. *)
Definition serialize_layers (writer : Layers -> list byte -> Z -> outcome serialized)
    (i : Indicator) (buffer : list byte) (total : Z) : outcome serialized :=
  '(buffer, r) ← serialize_at (writer (ind_link i)) buffer 0 total;
  match r with
  | Err e => mret (buffer, Err e)
  | Ok m =>
      let begin := m in
      total ← int_sub total m;
      '(buffer, r) ←
        match ind_network i with
        | Some network => serialize_at (writer network) buffer begin total
        | None => mret (buffer, Ok 0)
        end;
      match r with
      | Err e => mret (buffer, Err e)
      | Ok m =>
          let begin := begin + m in
          total ← int_sub total m;
          '(buffer, r) ←
            match ind_transport i with
            | Some transport => serialize_at (writer transport) buffer begin total
            | None => mret (buffer, Ok 0)
            end;
          match r with
          | Err e => mret (buffer, Err e)
          | Ok m => mret (buffer, Ok (begin + m))
          end
      end
  end.

Definition indicator_serialize (i : Indicator) (buffer : list byte) : outcome serialized :=
  total ← indicator_len i;
  serialize_layers (fun l => serialize l) i buffer total.

Definition indicator_serialize_with_payload (i : Indicator) (buffer payload : list byte)
  : outcome serialized :=
  size ← indicator_len i;
  total ← usize_add size (len payload);
  serialize_layers (fun l b n => serialize_with_payload l b payload n) i buffer total.

Definition indicator_link_kind (i : Indicator) : LayerKind := kind (ind_link i).
Definition indicator_network_kind (i : Indicator) : option LayerKind := kind <$> ind_network i.
Definition indicator_transport_kind (i : Indicator) : option LayerKind := kind <$> ind_transport i.
Definition indicator_ethernet (i : Indicator) : option Ethernet :=
  match ind_link i with LEthernet e => Some e | _ => None end.
Definition indicator_arp (i : Indicator) : option Arp :=
  match ind_network i with Some (LArp a) => Some a | _ => None end.
Definition indicator_ipv4 (i : Indicator) : option Ipv4 :=
  match ind_network i with Some (LIpv4 x) => Some x | _ => None end.
Definition indicator_icmpv4 (i : Indicator) : option Icmpv4 :=
  match ind_transport i with Some (LIcmpv4 x) => Some x | _ => None end.
Definition indicator_tcp (i : Indicator) : option Tcp :=
  match ind_transport i with Some (LTcp x) => Some x | _ => None end.
Definition indicator_udp (i : Indicator) : option Udp :=
  match ind_transport i with Some (LUdp x) => Some x | _ => None end.

(** ** Fragmentation *)

Definition EXPIRE_TIME : Z := 10000.

Record Fragmentation : Set := mkFragmentation {
  fg_ethernet : Ethernet; fg_ipv4 : Ipv4; fg_buffer : list byte; fg_length : Z;
  fg_total_length : option Z; fg_last_seen : Instant }.

Definition fragmentation_new (now : Instant) (i : Indicator) : option Fragmentation :=
  match indicator_ethernet i with
  | None => None
  | Some ethernet =>
      match indicator_ipv4 i with
      | None => None
      | Some ipv4 => Some (mkFragmentation ethernet ipv4 (zeros u16_max) 0 None now)
      end
  end.

Definition fragmentation_add (f : Fragmentation) (i : Indicator) (payload : list byte)
  : outcome Fragmentation :=
  match indicator_ipv4 i with
  | None => mret f
  | Some ipv4 =>
      offset ← usize_mul (ipv4_fragment_offset ipv4) 8;
      last ← usize_add offset (len payload);
      let total_length :=
        if negb (ipv4_is_more_fragment ipv4) then Some last else fg_total_length f in
      buffer ← copy_from_slice (fg_buffer f) offset last payload;
      length ← usize_add (fg_length f) (len payload);
      mret (mkFragmentation (fg_ethernet f) (fg_ipv4 f) buffer length total_length (fg_last_seen f))
  end.

Definition fragmentation_concatenate (f : Fragmentation) : outcome (option Layers * list byte) :=
  data ← slice (fg_buffer f) 0 (fg_length f);
  let transport := parse_transport (ipv4_next_level_protocol (fg_ipv4 f)) data (fg_ipv4 f) in
  header_size ← opt_layer_len transport;
  payload ← slice (fg_buffer f) header_size (fg_length f);
  mret (transport, payload).

Definition fragmentation_is_completed (f : Fragmentation) : bool :=
  match fg_total_length f with Some total_length => fg_length f =? total_length | None => false end.

Definition fragmentation_is_expired (now : Instant) (f : Fragmentation) : bool :=
  EXPIRE_TIME <? as_millis (elapsed now (fg_last_seen f)).

(** ** Defraggler *)

Definition frag_key : Set := (Z * Z * Z * Z)%type.

Record Defraggler : Set := mkDefraggler { frags : gmap frag_key Fragmentation }.

Definition defraggler_new : Defraggler := mkDefraggler ∅.

Definition defrag_key (ipv4 : Ipv4) : frag_key :=
  (ipv4_src ipv4, ipv4_dst ipv4, kind ipv4, ipv4_identification ipv4).

(** The lookup of [add], with the creation of a group for a new or expired
    one. *)
Definition defraggler_group (now : Instant) (d : Defraggler) (key : frag_key) (i : Indicator)
  : option Fragmentation :=
  match frags d !! key with
  | Some frag => if fragmentation_is_expired now frag then fragmentation_new now i else Some frag
  | None => fragmentation_new now i
  end.

Definition defraggler_add (now : Instant) (d : Defraggler) (i : Indicator) (frame : list byte)
  : outcome (Defraggler * option Fragmentation) :=
  match indicator_ipv4 i with
  | None => mret (d, None)
  | Some ipv4 =>
      let key := defrag_key ipv4 in
      match defraggler_group now d key i with
      | None => mret (d, None)
      | Some frag =>
          ethernet ← unwrap (indicator_ethernet i);
          ipv4_size ← layer_len ipv4;
          header_size ← usize_add (ethernet_len ethernet) ipv4_size;
          payload ← slice frame header_size (len frame);
          frag ← fragmentation_add frag i payload;
          if fragmentation_is_completed frag then mret (mkDefraggler (delete key (frags d)), Some frag)
          else mret (mkDefraggler (<[key := frag]> (frags d)), None)
      end
  end.
End packet.

(** ** Fragments of a datagram *)

(** A range of byte positions, from its first to behind its last. *)
Abbreviation range := (Z * Z)%type (only parsing).

(** The ranges stand one behind the other from [from] to [to], none empty. *)
Fixpoint chain (from : Z) (l : list range) (to : Z) : Prop :=
  match l with
  | [] => from = to
  | (a, b) :: rest => a = from /\ a < b /\ chain b rest to
  end.

(** The ranges, in whatever order, split [[0, n)] without a gap or overlap. *)
Definition tiles (l : list range) (n : Z) : Prop := exists l', l ≡ₚ l' /\ chain 0 l' n.

Definition range_sum (l : list range) : Z := foldr (fun r s => r.2 - r.1 + s) 0 l.

Lemma range_sum_app l k : range_sum (l ++ k) = range_sum l + range_sum k.
Proof. induction l as [|[a b] l IH]; simpl; lia. Qed.

Lemma range_sum_perm l k : l ≡ₚ k -> range_sum l = range_sum k.
Proof. induction 1 as [|[a b]|[a b] [c d]|]; simpl; lia. Qed.

Lemma chain_sum from l to : chain from l to -> range_sum l = to - from.
Proof.
  revert from. induction l as [|[a b] l IH]; simpl; intros from; [lia|].
  intros (-> & _ & H). rewrite (IH b) by done. lia.
Qed.

Lemma chain_bounds from l to :
  chain from l to -> from <= to /\ Forall (fun r => from <= r.1 < r.2 /\ r.2 <= to) l.
Proof.
  revert from. induction l as [|[a b] l IH]; simpl; intros from; [split; [lia|constructor]|].
  intros (-> & Hab & H). destruct (IH b H) as [Hb Hl]. split; [lia|].
  constructor; [simpl; lia|]. eapply Forall_impl; [done|]. simpl. lia.
Qed.

Lemma chain_covers from l to i :
  chain from l to -> from <= i < to -> exists r, r ∈ l /\ r.1 <= i < r.2.
Proof.
  revert from. induction l as [|[a b] l IH]; simpl; intros from; [lia|].
  intros (-> & Hab & H) Hi. destruct (Z.lt_ge_cases i b).
  - exists (from, b). split; [left|simpl; lia].
  - destruct (IH b) as (r & Hr & Hri); [done|lia|]. exists r. split; [by right|done].
Qed.

Lemma chain_last from l to : chain from l to -> from < to -> exists r, r ∈ l /\ r.2 = to.
Proof.
  intros H Hlt. destruct (chain_covers from l to (to - 1) H) as (r & Hr & Hri); [lia|].
  exists r. split; [done|]. apply chain_bounds in H as [_ H].
  rewrite Forall_forall in H. specialize (H r Hr). lia.
Qed.

Section defrag.
Context {P : Pnet}.

(** The indicator and the payload are a fragment of [D], at the range [r]. *)
Definition fragment_of (D : list byte) (i : Indicator) (payload : list byte) (r : range) : Prop :=
  exists ipv4,
    indicator_ipv4 i = Some ipv4
    /\ r = (ipv4_fragment_offset ipv4 * 8, ipv4_fragment_offset ipv4 * 8 + len payload)
    /\ 0 <= r.1 /\ r.2 <= len D
    /\ payload = ztake (len payload) (zdrop r.1 D)
    /\ ipv4_is_more_fragment ipv4 = (r.2 <? len D).

(** What a group holds after the fragments at the ranges [l] of [D] came in. *)
Record frag_inv (D : list byte) (l : list range) (f : Fragmentation) : Prop := {
  fi_buffer : len (fg_buffer f) = u16_max;
  fi_content : forall r i, r ∈ l -> 0 <= i -> r.1 <= i < r.2 -> zat (fg_buffer f) i = zat D i;
  fi_length : fg_length f = range_sum l;
  fi_total : fg_total_length f = if existsb (fun r => r.2 =? len D) l then Some (len D) else None
}.

Lemma frag_inv_new D i now f : fragmentation_new now i = Some f -> frag_inv D [] f.
Proof.
  unfold fragmentation_new. destruct (indicator_ethernet i), (indicator_ipv4 i); try done.
  intros [= <-]. constructor; simpl; try done. intros r j Hr. by apply elem_of_nil in Hr.
Qed.

Lemma frag_add_inv D l f i payload r :
  len D <= u16_max -> 0 <= range_sum l <= u32_max ->
  frag_inv D l f -> fragment_of D i payload r ->
  exists f', fragmentation_add f i payload = Done f' /\ frag_inv D (r :: l) f'
    /\ fg_last_seen f' = fg_last_seen f /\ fg_ipv4 f' = fg_ipv4 f.
Proof.
  intros HD Hsum [Hb Hc Hl Ht] (ipv4 & Ei & -> & H0 & Hr & Hp & Hm). cbn [fst snd] in *.
  pose proof (len_nonneg payload). set (off := ipv4_fragment_offset ipv4 * 8) in *.
  unfold fragmentation_add. rewrite Ei. unfold usize_mul, usize_add.
  ostep int_mul_Done by ilia. fold off.
  ostep int_add_Done by ilia. ostep copy_from_slice_Done by ilia. ostep int_add_Done by ilia.
  eexists. split; [done|]. split; [|done]. constructor; simpl.
  - rewrite len_blit; ilia.
  - intros r j [->|Hj]%elem_of_cons H0j Hrj; cbn [fst snd] in *; rewrite zat_blit by ilia.
    + zcases. rewrite Hp, zat_ztake, zat_zdrop by lia. f_equal. lia.
    + destruct (_ && _) eqn:E; [|by apply (Hc r)].
      apply andb_true_iff in E as [?%Z.leb_le ?%Z.ltb_lt].
      rewrite Hp, zat_ztake, zat_zdrop by lia. f_equal. lia.
  - lia.
  - rewrite Hm, Ht. destruct (Z.ltb_spec (off + len payload) (len D)), (Z.eqb_spec (off + len payload) (len D));
      simpl; try lia; try done. by f_equal.
Qed.

Lemma tiles_perm l k n : l ≡ₚ k -> tiles l n -> tiles k n.
Proof. intros H (l' & Hl & Hc). exists l'. split; [by rewrite <- H|done]. Qed.

(** The sum of some of the ranges is bounded, strictly if one is missing. *)
Lemma tiles_sum l todo n :
  tiles (l ++ todo) n -> 0 <= range_sum l <= n /\ (todo <> [] -> range_sum l < n).
Proof.
  intros (k & Hk & Hc). pose proof (chain_sum _ _ _ Hc) as Hs. rewrite <- (range_sum_perm _ _ Hk) in Hs.
  rewrite range_sum_app in Hs. apply chain_bounds in Hc as [_ Hb]. rewrite <- Hk in Hb.
  apply Forall_app in Hb as [Hl Ht].
  assert (Hpos : forall k : list range, Forall (fun r => 0 <= r.1 < r.2 /\ r.2 <= n) k ->
    0 <= range_sum k /\ (k <> [] -> 0 < range_sum k)).
  { clear. induction 1 as [|[a b] k ? _ IH]; simpl in *; [done|]. split; [lia|]. intros _. lia. }
  pose proof (Hpos l Hl). pose proof (Hpos todo Ht). split; [lia|]. intros Hne. destruct H0 as [_ H0].
  specialize (H0 Hne). lia.
Qed.

(** A group is complete when every fragment is in, and not before. *)
Lemma frag_inv_completed D l todo f :
  0 < len D <= u16_max -> tiles (l ++ todo) (len D) -> frag_inv D l f ->
  fragmentation_is_completed f = bool_decide (todo = []).
Proof.
  intros HD Ht [_ _ Hl Htot]. unfold fragmentation_is_completed. rewrite Htot, Hl.
  destruct (tiles_sum _ _ _ Ht) as [_ Hs]. case_bool_decide as Htodo.
  - subst todo. rewrite app_nil_r in Ht. destruct Ht as (k & Hk & Hc).
    destruct (chain_last _ _ _ Hc) as (r & Hr & Hr2); [lia|].
    assert (E : existsb (fun r => r.2 =? len D) l = true).
    { apply existsb_exists. exists r. split; [apply list_elem_of_In; by rewrite Hk|by apply Z.eqb_eq]. }
    rewrite E. apply Z.eqb_eq. rewrite (range_sum_perm _ _ Hk), (chain_sum _ _ _ Hc). lia.
  - specialize (Hs Htodo). destruct (existsb _ l); [|done]. apply Z.eqb_neq. lia.
Qed.

(** A complete group holds the datagram. *)
Lemma frag_inv_datagram D l f :
  0 < len D <= u16_max -> tiles l (len D) -> frag_inv D l f ->
  slice (fg_buffer f) 0 (fg_length f) = Done D.
Proof.
  intros HD (k & Hk & Hc) [Hb Hcon Hl _].
  assert (E : fg_length f = len D) by (rewrite Hl, (range_sum_perm _ _ Hk), (chain_sum _ _ _ Hc); lia).
  rewrite E, slice_Done, Z.sub_0_r, (zdrop_0 0) by lia. f_equal. apply zat_ext; [rewrite len_ztake; lia|].
  intros i Hi. rewrite len_ztake in Hi. rewrite zat_ztake by lia.
  destruct (chain_covers _ _ _ i Hc) as (r & Hr & Hri); [lia|]. apply (Hcon r); [by rewrite Hk|lia|done].
Qed.

(** ** Arrivals *)

(** A frame that arrives at [now] is the fragment at [r] of [D], of the group
    [key] that was opened at [start]. *)
Definition arrival : Set := (Instant * Indicator * list byte)%type.

Definition fragment_frame (D : list byte) (key : frag_key) (start : Instant) (a : arrival) (r : range)
  : Prop :=
  let '(now, i, frame) := a in
  exists ethernet ipv4 n,
    indicator_ethernet i = Some ethernet /\ indicator_ipv4 i = Some ipv4 /\ defrag_key ipv4 = key
    /\ layer_len ipv4 = Done n /\ 0 <= ethernet_len ethernet + n <= len frame /\ len frame <= usize_max
    /\ fragment_of D i (zdrop (ethernet_len ethernet + n) frame) r
    /\ as_millis (elapsed now start) <= EXPIRE_TIME.

Fixpoint defraggler_run (d : Defraggler) (l : list arrival)
  : outcome (Defraggler * list (option Fragmentation)) :=
  match l with
  | [] => mret (d, [])
  | (now, i, frame) :: rest =>
      '(d, r) ← defraggler_add now d i frame;
      '(d, rs) ← defraggler_run d rest;
      mret (d, r :: rs)
  end.

(** The state of the machine between two fragments of a group: the other
    groups are those of [base].  The IPv4 header of the group satisfies [Q], as
    those of its fragments do. *)
Definition of_header (Q : Ipv4 -> Prop) (i : Indicator) : Prop := forall ipv4, indicator_ipv4 i = Some ipv4 -> Q ipv4.

Definition group_state (Q : Ipv4 -> Prop) (D : list byte) (key : frag_key) (start : Instant)
    (base : gmap frag_key Fragmentation) (l : list range) (d : Defraggler) : Prop :=
  (l = [] /\ frags d = base)
  \/ exists f, frags d = <[key := f]> base /\ frag_inv D l f /\ fg_last_seen f = start /\ Q (fg_ipv4 f).

Lemma group_state_lookup Q D key start base l d now i ethernet ipv4 :
  base !! key = None -> group_state Q D key start base l d ->
  indicator_ethernet i = Some ethernet -> indicator_ipv4 i = Some ipv4 ->
  as_millis (elapsed now start) <= EXPIRE_TIME -> (l = [] -> now = start) -> Q ipv4 ->
  exists f, defraggler_group now d key i = Some f /\ frag_inv D l f /\ fg_last_seen f = start /\ Q (fg_ipv4 f)
    /\ forall g, <[key := g]> (frags d) = <[key := g]> base /\ delete key (frags d) = base.
Proof.
  intros Hb [[-> Hd]|(f & Hd & Hf & Hs & Hq)] Ee Ei Hx Hn Hi; unfold defraggler_group; rewrite Hd.
  - rewrite Hb. unfold fragmentation_new. rewrite Ee, Ei. eexists. split; [done|].
    split; [|split; [simpl; by rewrite Hn|split; [done|]]].
    + eapply (frag_inv_new D i now). unfold fragmentation_new. by rewrite Ee, Ei.
    + intros g. split; [done|by apply delete_id].
  - rewrite lookup_insert_eq. unfold fragmentation_is_expired. rewrite Hs.
    destruct (Z.ltb_spec EXPIRE_TIME (as_millis (elapsed now start))); [lia|].
    exists f. do 4 (split; [done|]). intros g.
    split; [apply insert_insert_eq|by rewrite delete_insert_id].
Qed.

Lemma defrag_step Q D key start base l todo d a r :
  0 < len D <= u16_max -> base !! key = None ->
  tiles (l ++ r :: todo) (len D) -> group_state Q D key start base l d ->
  fragment_frame D key start a r -> (l = [] -> a.1.1 = start) -> of_header Q a.1.2 ->
  exists d' f, defraggler_add a.1.1 d a.1.2 a.2 = Done (d', if bool_decide (todo = []) then Some f else None)
    /\ frag_inv D (r :: l) f /\ Q (fg_ipv4 f)
    /\ if bool_decide (todo = []) then frags d' = base else group_state Q D key start base (r :: l) d'.
Proof.
  destruct a as [[now i] frame]. cbn [fst snd].
  intros HD Hb Ht Hg (ethernet & ipv4 & n & Ee & Ei & <- & En & Hh & Hm & Hfr & Hx) Hn Hq.
  unfold defraggler_add. rewrite Ei.
  destruct (group_state_lookup Q D (defrag_key ipv4) start base l d now i ethernet ipv4)
    as (f & -> & Hf & Hs & Hqf & Hins); [done..|by apply Hq|].
  rewrite Ee. cbn [unwrap]. rewrite outcome_bind_Done, En, outcome_bind_Done.
  unfold usize_add. ostep int_add_Done by lia. ostep slice_Done by lia.
  rewrite ztake_all by (rewrite len_zdrop; lia).
  destruct (tiles_sum _ _ _ Ht) as [Hsum _].
  destruct (frag_add_inv D l f i _ r ltac:(lia) ltac:(ilia) Hf Hfr) as (f' & -> & Hf' & Hs' & Hv').
  rewrite outcome_bind_Done.
  assert (Ht' : tiles ((r :: l) ++ todo) (len D)).
  { eapply tiles_perm; [|done]. simpl. symmetry. apply Permutation_middle. }
  rewrite (frag_inv_completed D (r :: l) todo f' HD Ht' Hf'). destruct (Hins f') as [Hi Hd].
  case_bool_decide; eexists _, f'; (split; [done|]); (split; [done|]); rewrite Hv'; (split; [done|]); simpl; [done|].
  right. exists f'. by rewrite Hi, Hs', Hv'.
Qed.

Lemma defrag_run_state Q D key start base l arrivals todo d :
  0 < len D <= u16_max -> base !! key = None -> todo <> [] ->
  tiles (l ++ todo) (len D) -> group_state Q D key start base l d ->
  Forall2 (fragment_frame D key start) arrivals todo ->
  (l = [] -> forall a rest, arrivals = a :: rest -> a.1.1 = start) -> Forall (fun a => of_header Q a.1.2) arrivals ->
  exists d' f k, defraggler_run d arrivals = Done (d', replicate (length arrivals - 1) None ++ [Some f])
    /\ frags d' = base /\ frag_inv D k f /\ tiles k (len D) /\ Q (fg_ipv4 f).
Proof.
  intros HD Hb. revert l todo d. induction arrivals as [|a arrivals IH]; intros l todo d Hne Ht Hg Hf Hs Hq;
    inversion Hf as [|? r ? todo' Ha Hrest]; subst; [done|]. apply Forall_cons in Hq as [Hqa Hq].
  destruct (defrag_step Q D key start base l todo' d a r) as (d' & f & E & Hinv & Hqf & Hd'); [done..|by eauto|done|].
  destruct a as [[now i] frame]. cbn [fst snd] in E. cbn [defraggler_run]. rewrite E, outcome_bind_Done.
  assert (Ht' : tiles ((r :: l) ++ todo') (len D)).
  { eapply tiles_perm; [|done]. simpl. symmetry. apply Permutation_middle. }
  revert Hd'. case_bool_decide as Htodo; intros Hd'.
  - subst todo'. inversion Hrest; subst. rewrite app_nil_r in Ht'. exists d', f, (r :: l). done.
  - destruct (IH (r :: l) todo' d') as (d2 & f2 & k & E2 & ? & ? & ? & ?); [done..|].
    exists d2, f2, k. rewrite E2, outcome_bind_Done. split; [|done].
    destruct arrivals as [|a2 arrivals]; [by inversion Hrest; subst|]. simpl. by rewrite Nat.sub_0_r.
Qed.

(** ** Types of what is parsed *)

Definition header_typed (ipv4 : Ipv4) : Prop :=
  is_u32 (ipv4_src ipv4) /\ is_u32 (ipv4_dst ipv4) /\ 0 <= ipv4_fragment_offset ipv4.

Definition layer_typed (l : Layers) : Prop :=
  match l with
  | LTcp tcp => is_u32 (tcp_sequence tcp) /\ is_u32 (tcp_acknowledgement tcp) /\ is_u16 (tcp_window tcp)
  | LUdp udp => is_u32 (udp_dst_ip_addr udp) /\ is_u16 (udp_dst udp)
  | _ => True
  end.

Lemma parse_transport_typed {T : PnetTypes P} protocol data ipv4 l :
  Forall is_u8 data -> header_typed ipv4 -> parse_transport protocol data ipv4 = Some l -> layer_typed l.
Proof.
  intros Hb (_ & Hd & _). destruct (type_tcp data Hb) as (_ & _ & H3 & H4 & H5). destruct (type_udp data Hb) as [_ H2].
  unfold parse_transport. destruct (_ =? protocol_icmp); [destruct (_ <? icmp_min); [done|by intros [= <-]]|].
  destruct (_ =? protocol_tcp); [destruct (_ <? tcp_min); [done|by intros [= <-]]|].
  destruct (_ =? protocol_udp); [destruct (_ <? udp_min); [done|by intros [= <-]]|done].
Qed.

Lemma indicator_typed {T : PnetTypes P} frame i :
  Forall is_u8 frame -> indicator_from frame = Some i ->
  of_header header_typed i /\ forall l, ind_transport i = Some l -> layer_typed l.
Proof.
  intros Hb. unfold indicator_from. destruct (_ <? _); [done|]. intros [= <-]. pose proof (type_ethernet frame Hb) as Hp.
  destruct (type_ipv4 _ Hp) as (H1 & H2 & _ & Hq). pose proof (type_ipv4_offset _ Hp) as Ho.
  unfold of_header, indicator_parse. destruct (_ =? ethertype_arp); [by destruct (_ <? arp_min)|].
  destruct (_ =? ethertype_ipv4); [|done]. destruct (_ <? ipv4_min); [done|].
  assert (Hh : header_typed (ipv4_parse (ipv4_view (pe_payload (ethernet_view frame))))) by (split; [done|split; [done|apply Ho]]).
  split; [by intros ipv4 [= <-]|]. intros l. cbn [ind_transport]. destruct (negb _); [|done]. by apply parse_transport_typed.
Qed.

(** ** Any fragment *)

(** What every group keeps, whatever was put into it. *)
Record group_ok (f : Fragmentation) : Prop := {
  gp_buffer : len (fg_buffer f) = u16_max;
  gp_length : 0 <= fg_length f;
  gp_total : forall n, fg_total_length f = Some n -> n <= u16_max;
  gp_bytes : Forall is_u8 (fg_buffer f);
  gp_header : header_typed (fg_ipv4 f)
}.

Definition defrag_ok (d : Defraggler) : Prop := map_Forall (fun _ f => group_ok f) (frags d).

(** The fragment lies within the largest datagram, and the counted bytes of its
    group within their type. *)
Record fragment_fits (d : Defraggler) (i : Indicator) (frame : list byte) : Prop := {
  ft_frame : len frame <= usize_max;
  ft_headers : forall ipv4, indicator_ipv4 i = Some ipv4 ->
    exists ethernet n, indicator_ethernet i = Some ethernet /\ layer_len ipv4 = Done n
        /\ 0 <= ethernet_len ethernet + n <= len frame
        /\ ipv4_fragment_offset ipv4 * 8 + (len frame - (ethernet_len ethernet + n)) <= u16_max;
  ft_counted : forall ipv4 f, indicator_ipv4 i = Some ipv4 -> frags d !! defrag_key ipv4 = Some f ->
    fg_length f + u16_max <= usize_max
}.

Lemma fragmentation_add_ok f i ipv4 payload :
  group_ok f -> indicator_ipv4 i = Some ipv4 -> 0 <= ipv4_fragment_offset ipv4 -> Forall is_u8 payload ->
  ipv4_fragment_offset ipv4 * 8 + len payload <= u16_max -> fg_length f + len payload <= usize_max ->
  exists f', fragmentation_add f i payload = Done f' /\ group_ok f'.
Proof.
  intros [Hb Hl Ht Hy Hh] Ei Ho Hp Hfit Hc. pose proof (len_nonneg payload). unfold fragmentation_add, usize_mul, usize_add. rewrite Ei.
  ostep int_mul_Done by ilia. ostep int_add_Done by ilia. ostep copy_from_slice_Done by ilia. ostep int_add_Done by ilia.
  eexists. split; [done|]. constructor; simpl; [rewrite len_blit; ilia|lia| | |done].
  - intros n. destruct (negb _); [intros [= <-]; lia|apply Ht].
  - unfold blit, ztake, zdrop. apply Forall_app. split; [by apply Forall_take|]. apply Forall_app. split; [done|by apply Forall_drop].
Qed.

Lemma defraggler_group_ok now d i ipv4 f :
  defrag_ok d -> of_header header_typed i -> defraggler_group now d (defrag_key ipv4) i = Some f ->
  group_ok f /\ (fg_length f = 0 \/ frags d !! defrag_key ipv4 = Some f).
Proof.
  intros Hd Hi. assert (Hnew : fragmentation_new now i = Some f -> group_ok f /\ fg_length f = 0).
  { unfold fragmentation_new. destruct (indicator_ethernet i), (indicator_ipv4 i) eqn:Ei; try done. intros [= <-]. split; [|done].
    constructor; [done|done|done| |by apply Hi]. by apply Forall_replicate. }
  unfold defraggler_group. destruct (frags d !! _) as [g|] eqn:E; [destruct (fragmentation_is_expired now g)|].
  - intros H. destruct (Hnew H). split; [done|by left].
  - intros [= <-]. split; [exact (map_Forall_lookup_1 _ _ _ _ Hd E)|by right].
  - intros H. destruct (Hnew H). split; [done|by left].
Qed.

(** [add] takes every such fragment; a group that completes has its bytes. *)
Lemma defraggler_add_ok now d i frame :
  defrag_ok d -> of_header header_typed i -> Forall is_u8 frame -> fragment_fits d i frame ->
  exists d' x, defraggler_add now d i frame = Done (d', x) /\ defrag_ok d'
    /\ forall f, x = Some f -> group_ok f /\ fg_length f <= u16_max.
Proof.
  intros Hd Hi Hy [Hf Hh Hc]. unfold defraggler_add. destruct (indicator_ipv4 i) as [ipv4|] eqn:Ei; [|by exists d, None].
  cbv zeta. destruct (defraggler_group now d (defrag_key ipv4) i) as [g|] eqn:Eg; [|by exists d, None].
  destruct (defraggler_group_ok now d i ipv4 g Hd Hi Eg) as [Hg Hcount]. destruct (Hi ipv4 Ei) as (_ & _ & Ho).
  destruct (Hh ipv4 eq_refl) as (e & n & -> & En & Hle & Hfit).
  cbn [unwrap]. rewrite outcome_bind_Done, En, outcome_bind_Done.
  unfold usize_add. ostep int_add_Done by lia. ostep slice_Done by lia.
  set (payload := ztake _ _). assert (Hp : len payload = len frame - (ethernet_len e + n)) by (unfold payload; rewrite len_ztake, len_zdrop; lia).
  destruct (fragmentation_add_ok g i ipv4 payload) as (f & -> & Hok); [done|done|done| |lia| |].
  { unfold payload, ztake, zdrop. by apply Forall_take, Forall_drop. }
  { destruct Hcount as [->|Hk]; [ilia|]. specialize (Hc ipv4 g eq_refl Hk). lia. }
  rewrite outcome_bind_Done. destruct (fragmentation_is_completed f) eqn:Ecomp.
  - eexists _, (Some f). split; [done|]. split; [by apply map_Forall_delete|]. intros f' [= <-]. split; [done|].
    unfold fragmentation_is_completed in Ecomp. destruct (fg_total_length f) as [t|] eqn:Et; [|done].
    apply Z.eqb_eq in Ecomp. pose proof (gp_total _ Hok t Et). lia.
  - eexists _, None. split; [done|]. split; [by apply map_Forall_insert_2|done].
Qed.

(** Reassembly: whatever the order in which the fragments of a datagram
    arrive, each once and within the expiry of the group that the first one
    opens, [add] answers nothing until the last one and then a group that holds
    the datagram; the groups of other packets are untouched and the group is
    removed. *)
Theorem defrag_any_order (D : list byte) (key : frag_key) (start : Instant) (d : Defraggler)
    (arrivals : list arrival) (ranges : list range) :
  0 < len D <= u16_max -> frags d !! key = None -> tiles ranges (len D) ->
  Forall2 (fragment_frame D key start) arrivals ranges ->
  (forall a rest, arrivals = a :: rest -> a.1.1 = start) ->
  exists d' f,
    defraggler_run d arrivals = Done (d', replicate (length arrivals - 1) None ++ [Some f])
    /\ frags d' = frags d
    /\ fragmentation_is_completed f = true
    /\ slice (fg_buffer f) 0 (fg_length f) = Done D.
Proof.
  intros HD Hd Ht Hf Hs.
  destruct (defrag_run_state (fun _ => True) D key start (frags d) [] arrivals ranges d) as (d' & f & k & E & ? & Hk & Htk & _);
    [done|done| |done|by left|done|done|by apply Forall_true|].
  { intros ->. destruct Ht as (k & Hk & Hc). apply Permutation_nil_l in Hk. subst k. simpl in Hc. lia. }
  exists d', f. split; [done|]. split; [done|]. split; [|by apply (frag_inv_datagram D k)].
  rewrite (frag_inv_completed D k [] f); [done|done|by rewrite app_nil_r|done].
Qed.

(** A fragment that reaches beyond 65535 bytes makes the program panic:
    the offset of the header is used as an index without a check. *)
Theorem fragment_out_of_range_panics (f : Fragmentation) (i : Indicator) (ipv4 : Ipv4)
    (payload : list byte) :
  len (fg_buffer f) = u16_max -> indicator_ipv4 i = Some ipv4 ->
  is_u16 (ipv4_fragment_offset ipv4) -> len payload <= u16_max ->
  u16_max < ipv4_fragment_offset ipv4 * 8 + len payload ->
  fragmentation_add f i payload = Panic.
Proof.
  intros Hb Ei Ho Hp Hover. unfold fragmentation_add, usize_mul, usize_add. rewrite Ei.
  ostep int_mul_Done by ilia. ostep int_add_Done by ilia.
  unfold copy_from_slice. rewrite Hb.
  destruct (Z.leb_spec (ipv4_fragment_offset ipv4 * 8 + len payload) u16_max); [lia|].
  by rewrite andb_false_r.
Qed.

(** A repeated fragment is counted twice: once the counted bytes exceed the
    datagram, the group does not complete, whatever fragments follow. *)
Theorem duplicate_never_completes (D : list byte) (l : list range) (f : Fragmentation)
    (i : Indicator) (payload : list byte) (r : range) :
  len D <= u16_max -> frag_inv D l f -> len D < range_sum l <= u32_max ->
  fragment_of D i payload r ->
  fragmentation_is_completed f = false
  /\ exists f', fragmentation_add f i payload = Done f' /\ frag_inv D (r :: l) f'
     /\ len D < range_sum (r :: l) /\ fragmentation_is_completed f' = false.
Proof.
  intros HD Hf Hsum Hfr.
  assert (Hnc : forall l f, frag_inv D l f -> len D < range_sum l -> fragmentation_is_completed f = false).
  { clear. intros l f [_ _ Hl Ht] Hs. unfold fragmentation_is_completed. rewrite Ht, Hl.
    destruct (existsb _ l); [|done]. apply Z.eqb_neq. lia. }
  pose proof (len_nonneg D). pose proof (len_nonneg payload). split; [apply (Hnc l); [done|lia]|].
  destruct (frag_add_inv D l f i payload r HD ltac:(lia) Hf Hfr) as (f' & -> & Hf' & _).
  assert (len D < range_sum (r :: l)).
  { destruct Hfr as (? & _ & -> & _). simpl. lia. }
  exists f'. split; [done|]. split; [done|]. split; [done|]. by apply (Hnc (r :: l)).
Qed.
End defrag.

(** A datagram of twelve bytes whose last four arrive first. *)
Definition defrag_example (more : Z) (offset : Z) : Indicator :=
  mkIndicator (LEthernet (mkEthernet (mkPEthernet 1 2 ethertype_ipv4 [])))
    (Some (LIpv4 (mkIpv4 (mkPIpv4 4 5 0 0 32 7 more offset 64 protocol_udp 0 100 200 [] [])))) None.
Definition defrag_data : list byte := [1; 2; 3; 4; 5; 6; 7; 8; 9; 10; 11; 12].

(** The frames of the example are fragments. *)
Lemma defrag_example_frame now more offset payload :
  let i := defrag_example more offset in
  let frame := zeros 34 ++ payload in
  let r := (offset * 8, offset * 8 + len payload) in
  0 <= offset /\ 5 <= now /\ now <= 10 /\ r.2 <= len defrag_data
  /\ payload = ztake (len payload) (zdrop r.1 defrag_data)
  /\ negb (Z.land more flag_more_fragments =? 0) = (r.2 <? len defrag_data)
  /\ len payload <= 12 ->
  fragment_frame (P := wire) defrag_data (100, 200, LK_Ipv4, 7) 5 (now, i, frame) r.
Proof.
  intros i frame r (H0 & Hn & Hn' & Hr & Hp & Hm & Hl). eexists _, _, 20.
  split; [reflexivity|]. split; [reflexivity|]. split; [reflexivity|]. split; [reflexivity|].
  change (ethernet_len _ + 20) with 34. pose proof (len_nonneg payload).
  assert (len frame = 34 + len payload) by (unfold frame; rewrite len_app; reflexivity).
  split; [lia|]. split; [ilia|]. unfold frame. rewrite zdrop_app by reflexivity. split.
  - eexists. split; [reflexivity|]. split; [reflexivity|]. cbn [fst snd] in *. split; [unfold r; simpl; lia|].
    split; [done|]. split; [done|]. exact Hm.
  - unfold as_millis, elapsed, EXPIRE_TIME. apply Z.div_le_upper_bound; lia.
Qed.

Lemma defrag_any_order_witness :
  exists d' f,
    defraggler_run defraggler_new
      [(5, defrag_example 0 1, zeros 34 ++ [9; 10; 11; 12]);
       (6, defrag_example 1 0, zeros 34 ++ [1; 2; 3; 4; 5; 6; 7; 8])]
    = Done (d', replicate (2 - 1) None ++ [Some f])
    /\ frags d' = frags defraggler_new
    /\ fragmentation_is_completed f = true
    /\ slice (fg_buffer f) 0 (fg_length f) = Done defrag_data.
Proof.
  apply (defrag_any_order defrag_data (100, 200, LK_Ipv4, 7) 5 defraggler_new
    [(5, defrag_example 0 1, zeros 34 ++ [9; 10; 11; 12]);
     (6, defrag_example 1 0, zeros 34 ++ [1; 2; 3; 4; 5; 6; 7; 8])] [(1 * 8, 1 * 8 + len [9; 10; 11; 12]); (0 * 8, 0 * 8 + len [1; 2; 3; 4; 5; 6; 7; 8])]).
  - split; reflexivity || (vm_compute; discriminate).
  - reflexivity.
  - exists [(0, 8); (8, 12)]. split; [apply Permutation_swap|vm_compute; repeat split].
  - apply List.Forall2_cons; [|apply List.Forall2_cons; [|apply List.Forall2_nil]];
      apply defrag_example_frame; vm_compute; repeat split; discriminate.
  - intros a rest [= <- _]. reflexivity.
Defined.

Lemma fragment_out_of_range_panics_witness :
  fragmentation_add
    (mkFragmentation (mkEthernet (mkPEthernet 1 2 ethertype_ipv4 []))
       (mkIpv4 (mkPIpv4 4 5 0 0 32 7 0 1 64 protocol_udp 0 100 200 [] [])) (zeros u16_max) 0 None 0)
    (defrag_example 0 8191) (zeros 1000) = Panic.
Proof.
  apply (fragment_out_of_range_panics _ _
    (mkIpv4 (mkPIpv4 4 5 0 0 32 7 0 8191 64 protocol_udp 0 100 200 [] [])));
    try reflexivity; vm_compute; try split; try discriminate.
Defined.

Lemma frag_inv_example :
  frag_inv (P := wire) defrag_data [(0, 8); (0, 8)]
    (mkFragmentation (mkEthernet (mkPEthernet 1 2 ethertype_ipv4 []))
       (mkIpv4 (mkPIpv4 4 5 0 0 32 7 1 0 64 protocol_udp 0 100 200 [] []))
       ([1; 2; 3; 4; 5; 6; 7; 8] ++ zeros 65527) 16 None 0).
Proof.
  constructor; [reflexivity| |reflexivity|reflexivity].
  intros r i Hr H0 Hi. cbn [fg_buffer].
  assert (r = (0, 8)) as -> by (apply elem_of_cons in Hr as [->|Hr]; [done|];
    apply elem_of_cons in Hr as [->|Hr]; [done|by apply elem_of_nil in Hr]).
  cbn in Hi. rewrite zat_app by lia. change (len [1; 2; 3; 4; 5; 6; 7; 8]) with 8.
  destruct (Z.ltb_spec i 8); [|lia].
  change defrag_data with ([1; 2; 3; 4; 5; 6; 7; 8] ++ [9; 10; 11; 12]). rewrite zat_app by lia.
  change (len [1; 2; 3; 4; 5; 6; 7; 8]) with 8. destruct (Z.ltb_spec i 8); [done|lia].
Qed.

Lemma duplicate_never_completes_witness :
  let f := mkFragmentation (mkEthernet (mkPEthernet 1 2 ethertype_ipv4 []))
       (mkIpv4 (mkPIpv4 4 5 0 0 32 7 1 0 64 protocol_udp 0 100 200 [] []))
       ([1; 2; 3; 4; 5; 6; 7; 8] ++ zeros 65527) 16 None 0 in
  fragmentation_is_completed f = false
  /\ exists f', fragmentation_add f (defrag_example 0 1) [9; 10; 11; 12] = Done f'
     /\ frag_inv defrag_data ((8, 12) :: [(0, 8); (0, 8)]) f'
     /\ len defrag_data < range_sum ((8, 12) :: [(0, 8); (0, 8)])
     /\ fragmentation_is_completed f' = false.
Proof.
  intros f. apply (duplicate_never_completes defrag_data [(0, 8); (0, 8)] f (defrag_example 0 1)
    [9; 10; 11; 12] (8, 12)).
  - vm_compute. discriminate.
  - exact frag_inv_example.
  - split; vm_compute; [reflexivity|discriminate].
  - eexists. repeat (split; [reflexivity || (vm_compute; discriminate)|]). reflexivity.
Defined.
