(* ===== verification/PacketText.v ===== *)
(** * Texts of the packets

    [Display] of the layers, of the indicator and of the states of a connection,
    and the brief of a frame, which the redirector logs with every error of a
    handler.  A text is a value here; where the code that builds it can panic, it
    is an outcome. *)

From S2P Require Import Prelude Text Socks TxState RxState Pnet Wire Layers Packet.

(** ** Layers *)

Definition layer_kind_text (k : LayerKind) : text :=
  if k =? LK_Ethernet then lit "Ethernet"
  else if k =? LK_Arp then lit "ARP"
  else if k =? LK_Ipv4 then lit "IPv4"
  else if k =? LK_Icmpv4 then lit "ICMPv4"
  else if k =? LK_Tcp then lit "TCP"
  else if k =? LK_Udp then lit "UDP"
  else lit "unknown".

(** [format!("{}: {} -> {}", kind, a, b)]. *)
Definition arrow (a b : text) : text := a ++ lit " -> " ++ b.
Definition headed (k : LayerKind) (t : text) : text := layer_kind_text k ++ lit ": " ++ t.

Section texts.
Context {P : Pnet}.

Definition ethernet_text (e : Ethernet) : text :=
  headed LK_Ethernet (arrow (mac_addr_text (pe_source (ethernet_layer e))) (mac_addr_text (pe_destination (ethernet_layer e)))).

Definition arp_text (a : Arp) : text :=
  headed (kind a) (arrow (ipv4_text (pa_sender_proto_addr (arp_layer a))) (ipv4_text (pa_target_proto_addr (arp_layer a))))
  ++ lit ", Operation = "
  ++ (if pa_operation (arp_layer a) =? arp_request then lit "Request"
      else if pa_operation (arp_layer a) =? arp_reply then lit "Reply"
      else lit "unknown").

Definition ipv4_layer_text (i : Ipv4) : outcome text :=
  fragment ←
    (if ipv4_is_fragment i then
       offset ← int_mul u16_max (ipv4_fragment_offset i) 8;
       mret (lit ", Fragment = " ++ decimal offset)
     else mret []);
  mret (headed LK_Ipv4 (arrow (ipv4_text (pi_source (ipv4_layer i))) (ipv4_text (pi_destination (ipv4_layer i))))
        ++ lit ", Length = " ++ decimal (pi_total_length (ipv4_layer i)) ++ fragment).

Definition icmpv4_description (i : Icmpv4) : text :=
  if icmpv4_is_echo_reply i then lit "Echo reply"
  else if icmpv4_is_destination_port_unreachable i then lit "Destination port unreachable"
  else if icmpv4_is_fragmentation_required i then lit "Fragmentation required, and DF flag set"
  else if icmpv4_is_echo_request i then lit "Echo request"
  else lit "Type = " ++ decimal (pc_type (icmp_layer i)) ++ lit ", Code = " ++ decimal (pc_code (icmp_layer i)).

Definition icmpv4_text (i : Icmpv4) : text := headed LK_Icmpv4 (icmpv4_description i).

Definition tcp_text (t : Tcp) : text :=
  headed LK_Tcp (arrow (decimal (pt_source (tcp_layer t))) (decimal (pt_destination (tcp_layer t))))
  ++ lit " " ++ lit (tcp_flag_string t).

Definition udp_text (u : Udp) : text :=
  headed LK_Udp (arrow (decimal (pu_source (udp_layer u))) (decimal (pu_destination (udp_layer u))))
  ++ lit ", Length = " ++ decimal (pu_length (udp_layer u)).

Definition layers_text (l : Layers) : outcome text :=
  match l with
  | LEthernet x => mret (ethernet_text x)
  | LArp x => mret (arp_text x)
  | LIpv4 x => ipv4_layer_text x
  | LIcmpv4 x => mret (icmpv4_text x)
  | LTcp x => mret (tcp_text x)
  | LUdp x => mret (udp_text x)
  end.

(** ** Indicators *)

Definition indicator_brief (i : Indicator) : outcome text :=
  match ind_network i with
  | Some (LArp arp) => mret (arp_text arp)
  | Some (LIpv4 ipv4) =>
      match ind_transport i with
      | Some (LIcmpv4 icmpv4) =>
          mret (headed (kind icmpv4) (arrow (ipv4_text (ipv4_src ipv4)) (ipv4_text (ipv4_dst ipv4)))
                ++ lit ", " ++ icmpv4_description icmpv4)
      | Some (LTcp tcp) =>
          mret (headed (kind tcp)
                  (arrow (ipv4_text (tcp_src_ip_addr tcp) ++ lit ":" ++ decimal (tcp_src tcp))
                         (ipv4_text (tcp_dst_ip_addr tcp) ++ lit ":" ++ decimal (tcp_dst tcp)))
                ++ lit " " ++ lit (tcp_flag_string tcp))
      | Some (LUdp udp) =>
          mret (headed (kind udp)
                  (arrow (ipv4_text (udp_src_ip_addr udp) ++ lit ":" ++ decimal (udp_src udp))
                         (ipv4_text (udp_dst_ip_addr udp) ++ lit ":" ++ decimal (udp_dst udp)))
                ++ lit ", Length = " ++ decimal (udp_length udp))
      | Some _ => Panic
      | None => ipv4_layer_text ipv4
      end
  | Some _ => Panic
  | None => match ind_link i with LEthernet ethernet => mret (ethernet_text ethernet) | _ => Panic end
  end.

(** One line of [Display]. *)
Definition layer_line (l : Layers) : outcome text :=
  t ← layers_text l;
  n ← layer_len l;
  mret ("010"%char :: lit "- " ++ t ++ lit " (" ++ decimal n ++ lit " Bytes)").

Definition opt_layer_line (l : option Layers) : outcome text :=
  match l with Some l => layer_line l | None => mret [] end.

Definition indicator_text (i : Indicator) : outcome text :=
  link_string ← layer_line (ind_link i);
  network_string ← opt_layer_line (ind_network i);
  transport_string ← opt_layer_line (ind_transport i);
  mret (lit "Indicator" ++ link_string ++ network_string ++ transport_string).

(** ** The states of a connection *)

Definition tx_state_text (s : TcpTxState) : text :=
  lit "TCP TX State: " ++ arrow (socket_addr_text (tx_dst s)) (socket_addr_text (tx_src s)).
Definition rx_state_text (s : TcpRxState) : text :=
  lit "TCP RX State: " ++ arrow (socket_addr_text (rx_src s)) (socket_addr_text (rx_dst s)).

(** ** Lemmas *)

(** The brief of a frame can always be built. *)
Lemma brief_Done {T : PnetTypes P} frame i :
  Forall is_u8 frame -> indicator_from frame = Some i -> exists t, indicator_brief i = Done t.
Proof.
  intros Hb. unfold indicator_from. destruct (_ <? _); [done|]. intros [= <-]. pose proof (type_ethernet frame Hb) as Hp.
  unfold indicator_parse. set (payload := pe_payload (ethernet_view frame)) in *.
  destruct (_ =? ethertype_arp); [destruct (_ <? arp_min); by eexists|].
  destruct (_ =? ethertype_ipv4); [|by eexists]. destruct (_ <? ipv4_min); [by eexists|].
  unfold indicator_brief. cbn [ind_network ind_transport].
  assert (Hi : exists t, ipv4_layer_text (ipv4_parse (ipv4_view payload)) = Done t).
  { unfold ipv4_layer_text. destruct (ipv4_is_fragment _); [|by eexists].
    pose proof (type_ipv4_offset payload Hp) as Ho. unfold ipv4_fragment_offset. cbn.
    unfold int_mul. destruct (Z.leb_spec (pi_fragment_offset (ipv4_view payload) * 8) u16_max); [by eexists|ilia]. }
  destruct (negb _); [|done]. unfold parse_transport.
  destruct (_ =? protocol_icmp); [destruct (_ <? icmp_min); [done|by eexists]|].
  destruct (_ =? protocol_tcp); [destruct (_ <? tcp_min); [done|by eexists]|].
  destruct (_ =? protocol_udp); [destruct (_ <? udp_min); [done|by eexists]|done].
Qed.

(** A text without spaces. *)
Lemma decimal_no_space n : 0 <= n -> " "%char ∉ decimal n.
Proof. intros H. by apply decimal_no_char. Qed.

Lemma ipv4_text_no_space ip : is_u32 ip -> " "%char ∉ ipv4_text ip.
Proof.
  intros H. unfold ipv4_text, octets. cbn [map text_join].
  assert (Hd : forall x, " "%char ∉ decimal (x mod 256)) by (intros x; apply decimal_no_space, mod_u8).
  rewrite !not_elem_of_app. assert (" "%char ∉ lit ".") by (by apply (bool_decide_unpack _)).
  repeat split; try done; try apply Hd.
  all: try (apply decimal_no_space; unfold is_u32 in H; apply Z.div_pos; lia).
Qed.

Lemma addr_text_no_space ip port : is_u32 ip -> is_u16 port -> " "%char ∉ ipv4_text ip ++ lit ":" ++ decimal port.
Proof.
  intros Hi Hp. rewrite !not_elem_of_app. split; [by apply ipv4_text_no_space|]. split; [by apply (bool_decide_unpack _)|].
  apply decimal_no_space, Hp.
Qed.

(** ** Theorems *)

(** C24. The line that is logged for a TCP segment tells the connection: its
    second and fourth words parse back to the addresses of the segment, and the
    last one lists its flags. *)
Theorem brief_names_connection (i : Indicator) (ipv4 : Ipv4) (tcp : Tcp) :
  ind_network i = Some (LIpv4 ipv4) -> ind_transport i = Some (LTcp tcp) ->
  is_u32 (tcp_src_ip_addr tcp) -> is_u32 (tcp_dst_ip_addr tcp) -> is_u16 (tcp_src tcp) -> is_u16 (tcp_dst tcp) ->
  exists t a b, indicator_brief i = Done t
    /\ split " "%char t = [lit "TCP:"; a; lit "->"; b; lit (tcp_flag_string tcp)]
    /\ parse_socket_addr_v4 a = Some (tcp_src_ip_addr tcp, tcp_src tcp)
    /\ parse_socket_addr_v4 b = Some (tcp_dst_ip_addr tcp, tcp_dst tcp).
Proof.
  intros En Et H1 H2 H3 H4. unfold indicator_brief. rewrite En, Et. unfold headed, arrow.
  eexists _, (ipv4_text (tcp_src_ip_addr tcp) ++ lit ":" ++ decimal (tcp_src tcp)),
    (ipv4_text (tcp_dst_ip_addr tcp) ++ lit ":" ++ decimal (tcp_dst tcp)).
  split; [reflexivity|]. split; [|split; by apply (parse_socket_addr_text (_, _))].
  pose proof (addr_text_no_space _ _ H1 H3) as Ha. pose proof (addr_text_no_space _ _ H2 H4) as Hb.
  set (a := ipv4_text _ ++ lit ":" ++ decimal (tcp_src tcp)) in *. set (b := ipv4_text _ ++ lit ":" ++ decimal (tcp_dst tcp)) in *.
  change (layer_kind_text (kind tcp)) with (lit "TCP").
  replace ((lit "TCP" ++ lit ": " ++ a ++ lit " -> " ++ b) ++ lit " " ++ lit (tcp_flag_string tcp))
    with (lit "TCP:" ++ " "%char :: a ++ " "%char :: lit "->" ++ " "%char :: b ++ " "%char :: lit (tcp_flag_string tcp))
    by (rewrite <- !app_assoc; reflexivity).
  rewrite !split_cons; [|done || by apply (bool_decide_unpack _)..]. do 4 f_equal. apply split_none.
  unfold tcp_flag_string. destruct (tcp_is_syn tcp), (tcp_is_rst tcp), (tcp_is_fin tcp), (tcp_is_ack tcp); by apply (bool_decide_unpack _).
Qed.
End texts.

(** ** Example *)

Definition brief_example : Indicator (P := wire) :=
  mkIndicator (LEthernet (mkEthernet (mkPEthernet 1 2 ethertype_ipv4 [])))
    (Some (LIpv4 (mkIpv4 (mkPIpv4 4 5 0 0 40 7 0 0 64 protocol_tcp 0 167837697 2130706433 [] []))))
    (Some (LTcp (mkTcp (mkPTcp 1000 443 1 2 5 0 18 100 0 0 [] []) 167837697 2130706433))).

Example brief_example_text : indicator_brief brief_example = Done (lit "TCP: 10.1.0.1:1000 -> 127.0.0.1:443 [S.]").
Proof. vm_compute. reflexivity. Qed.

Lemma brief_names_connection_witness :
  exists t a b, indicator_brief brief_example = Done t
    /\ split " "%char t = [lit "TCP:"; a; lit "->"; b; lit "[S.]"]
    /\ parse_socket_addr_v4 a = Some (167837697, 1000) /\ parse_socket_addr_v4 b = Some (2130706433, 443).
Proof.
  refine (brief_names_connection brief_example _
    (mkTcp (mkPTcp 1000 443 1 2 5 0 18 100 0 0 [] []) 167837697 2130706433) eq_refl eq_refl _ _ _ _); vm_compute; split; discriminate.
Defined.
