(* ===== verification/Frames.v ===== *)
(** * Serialization of the frames the program builds

    For every [Pnet] that satisfies its laws, the layers built by the
    constructors serialize into a buffer of their length, with or without a
    payload: no buffer is too small, no length too big, and nothing panics. *)

From S2P Require Import Prelude SeqArith Pnet Wire Layers Packet.

Section frames.
Context {P : Pnet} {L : PnetLaws P}.

(** A serialization succeeds and keeps the length of the buffer. *)
Definition succeeds (o : outcome serialized) (buffer : list byte) (m : Z) : Prop :=
  exists b, o = Done (b, Ok m) /\ len b = len buffer.

(** A layer of [h] bytes that serializes when [n], the length it is told, is a
    [u16]; [extra] is what it adds to its result when it has a payload. *)
Record layer_ok (l : Layers) (h : Z) (extra : Z -> Z) : Prop := {
  lo_len : layer_len l = Done h;
  lo_nonneg : 0 <= h <= u16_max;
  lo_serialize buffer n : h <= len buffer -> n <= u16_max -> succeeds (serialize l buffer n) buffer h;
  lo_payload buffer payload n :
    h + len payload <= len buffer -> h + len payload <= n <= u16_max ->
    succeeds (serialize_with_payload l buffer payload n) buffer (h + extra n)
}.

(** ** The layers *)

Lemma ethernet_serialize_ok e buffer n :
  pe_payload (ethernet_layer e) = [] -> 14 <= len buffer ->
  ethernet_len e = 14 /\ succeeds (ethernet_serialize e buffer n) buffer 14.
Proof.
  intros Hp Hb. assert (E : ethernet_len e = 14) by (unfold ethernet_len; by rewrite law_ethernet_size, Hp).
  split; [done|]. unfold ethernet_serialize, open_packet. rewrite law_ethernet_min, E.
  destruct (Z.ltb_spec (len buffer) 14); [lia|].
  destruct (law_ethernet_populate (ethernet_layer e) Hp buffer Hb) as (b & -> & Hl). by exists b.
Qed.

Lemma arp_layer_ok a : pa_payload (arp_layer a) = [] -> layer_ok (LArp a) 28 (fun _ => 0).
Proof.
  intros Hp. assert (E : arp_len a = 28) by (unfold arp_len; by rewrite law_arp_size, Hp).
  assert (Hs : forall buffer n, 28 <= len buffer -> succeeds (arp_serialize a buffer n) buffer 28).
  { intros buffer n Hb. unfold arp_serialize, open_packet. rewrite law_arp_min, E.
    destruct (Z.ltb_spec (len buffer) 28); [lia|].
    destruct (law_arp_populate (arp_layer a) Hp buffer Hb) as (b & -> & Hl). by exists b. }
  constructor; [simpl; by rewrite E|ilia|intros; by apply Hs|].
  intros buffer payload n Hb _. pose proof (len_nonneg payload). rewrite Z.add_0_r. apply Hs. lia.
Qed.

Lemma ipv4_len_ok i :
  pi_options (ipv4_layer i) = [] -> pi_payload (ipv4_layer i) = [] -> ipv4_len i = Done 20.
Proof.
  intros Ho Hp. unfold ipv4_len. rewrite law_ipv4_size, Ho, Hp. reflexivity.
Qed.

(** The fix of the header fields succeeds, and leaves a header of five
    words. *)
Lemma ipv4_fix_length_ok buffer n :
  20 <= len buffer -> n <= u16_max ->
  exists b, ipv4_fix_length buffer 20 n = (b, Ok tt) /\ len b = len buffer
    /\ pi_header_length (ipv4_view b) = 5 /\ (0 <= n -> pi_total_length (ipv4_view b) = n).
Proof.
  intros Hb Hn. unfold ipv4_fix_length. destruct (Z.ltb_spec u16_max n); [lia|].
  change (u8_max <? 20 / 4) with false. change (as_u8 (20 / 4)) with 5. cbv iota.
  assert (E : len (ipv4_set_header_length buffer 5) = len buffer) by (by apply law_ipv4_set_header_length).
  eexists. split; [done|]. split; [by rewrite law_ipv4_set_total_length, E by lia|].
  split; [rewrite law_ipv4_header_length_kept by lia; apply law_ipv4_header_length; lia|].
  intros Hn0. rewrite law_ipv4_total_length; [apply as_u16_id; ilia|lia|apply as_u16_range].
Qed.

Lemma ipv4_layer_ok i :
  pi_options (ipv4_layer i) = [] -> pi_payload (ipv4_layer i) = [] ->
  layer_ok (LIpv4 i) 20 (fun _ => 0).
Proof.
  intros Ho Hp. pose proof (ipv4_len_ok i Ho Hp) as E.
  constructor; [done|ilia| |]; cbn [serialize serialize_with_payload layers_is_layer ipv4_is_layer].
  - intros buffer n Hb Hn. unfold ipv4_serialize, open_packet. rewrite law_ipv4_min, E.
    destruct (Z.ltb_spec (len buffer) 20); [lia|].
    destruct (law_ipv4_populate (ipv4_layer i) Ho Hp buffer Hb) as (b & -> & Hl).
    rewrite !outcome_bind_Done. destruct (ipv4_fix_length_ok b n) as (c & -> & Hc & _); [lia|done|].
    eexists. split; [done|]. rewrite law_ipv4_set_checksum; lia.
  - intros buffer payload n Hb Hn. pose proof (len_nonneg payload). rewrite Z.add_0_r.
    unfold ipv4_serialize_with_payload, open_packet. rewrite law_ipv4_min, E.
    destruct (Z.ltb_spec (len buffer) 20); [lia|].
    destruct (law_ipv4_populate (ipv4_layer i) Ho Hp buffer) as (b & -> & Hl); [lia|].
    rewrite !outcome_bind_Done. destruct (ipv4_fix_length_ok b n) as (c & -> & Hc & Hh & Ht); [lia|lia|].
    destruct (law_ipv4_set_payload c payload) as (d & -> & Hd); [lia|lia|rewrite Ht; lia|]. rewrite outcome_bind_Done.
    eexists. split; [done|]. rewrite law_ipv4_set_checksum; lia.
Qed.

Lemma tcp_finish_ok t buffer h result :
  20 <= len buffer -> 20 <= h <= 60 ->
  exists b, tcp_finish t buffer h result = (b, Ok result) /\ len b = len buffer.
Proof.
  intros Hb Hh. unfold tcp_finish. assert (h / 4 <= 15) by (apply Z.div_le_upper_bound; lia).
  destruct (Z.ltb_spec u8_max (h / 4)); [ilia|].
  eexists. split; [done|].
  assert (E : len (tcp_set_data_offset buffer (as_u8 (h / 4))) = len buffer) by (by apply law_tcp_set_data_offset).
  rewrite law_tcp_set_checksum; lia.
Qed.

Lemma tcp_layer_ok t :
  tcp_sized t -> layer_ok (LTcp t) (4 * pt_data_offset (tcp_layer t)) (fun n => n).
Proof.
  intros (E & Hd & Hp & Hs). set (h := 4 * pt_data_offset (tcp_layer t)) in *.
  constructor; [done|ilia| |]; cbn [serialize serialize_with_payload layers_is_layer tcp_is_layer].
  - intros buffer n Hb Hn. unfold tcp_serialize, open_packet. rewrite law_tcp_min, E.
    destruct (Z.ltb_spec (len buffer) 20); [lia|].
    destruct (law_tcp_populate (tcp_layer t) Hp buffer) as (b & -> & Hl); [lia|].
    rewrite !outcome_bind_Done. destruct (tcp_finish_ok t b h h) as (c & -> & Hc); [lia|lia|].
    eexists. split; [done|lia].
  - intros buffer payload n Hb Hn. pose proof (len_nonneg payload).
    unfold tcp_serialize_with_payload, open_packet. rewrite law_tcp_min, E.
    destruct (Z.ltb_spec (len buffer) 20); [lia|].
    destruct (law_tcp_populate (tcp_layer t) Hp buffer) as (b & Eb & Hl); [lia|].
    rewrite Eb, outcome_bind_Done.
    destruct (law_tcp_set_payload b payload) as (c & -> & Hc); [lia| |].
    { rewrite (law_tcp_data_offset _ _ _ Eb) by lia. lia. }
    rewrite !outcome_bind_Done. destruct (tcp_finish_ok t c h (h + n)) as (d & -> & Hd'); [lia|lia|].
    eexists. split; [done|lia].
Qed.

(** The end of the serialization writes the length and the checksum. *)
Lemma udp_finish_ok u buffer n result :
  8 <= len buffer -> n <= u16_max ->
  exists b, udp_finish u buffer n result = (b, Ok result) /\ len b = len buffer
    /\ ztake 4 b = ztake 4 buffer /\ zdrop 8 b = zdrop 8 buffer.
Proof.
  intros Hb Hn. unfold udp_finish. destruct (Z.ltb_spec u16_max n); [lia|].
  eexists. split; [done|].
  destruct (law_udp_set_length buffer (as_u16 n)) as (bs & Hbs & ->); [done|].
  destruct (law_udp_set_checksum (blit buffer 4 bs) (udp_ipv4_checksum (blit buffer 4 bs)
    (udp_src_ip_addr u) (udp_dst_ip_addr u))) as (cs & Hcs & ->); [rewrite len_blit; lia|].
  rewrite !len_blit by (rewrite ?len_blit; lia). split; [done|].
  rewrite !ztake_blit, !zdrop_blit by (rewrite ?len_blit; lia). done.
Qed.

(** The bytes are a UDP datagram between the ports. *)
Record udp_datagram (src dst : Z) (payload data : list byte) : Prop := {
  ud_len : len data = 8 + len payload;
  ud_payload : zdrop 8 data = payload;
  ud_source : pu_source (udp_view data) = src;
  ud_destination : pu_destination (udp_view data) = dst
}.

Lemma udp_serialize_datagram u buffer payload n :
  pu_payload (udp_layer u) = [] -> 8 + len payload <= len buffer -> n <= u16_max ->
  exists b, udp_serialize_with_payload u buffer payload n = Done (b, Ok (8 + n)) /\ len b = len buffer
    /\ (is_u16 (udp_src u) -> is_u16 (udp_dst u) -> len buffer = 8 + len payload ->
        udp_datagram (udp_src u) (udp_dst u) payload b).
Proof.
  intros Hp Hb Hn. pose proof (len_nonneg payload).
  assert (E : udp_len u = 8) by (unfold udp_len; by rewrite law_udp_size, Hp).
  unfold udp_serialize_with_payload, open_packet. rewrite law_udp_min, E.
  destruct (Z.ltb_spec (len buffer) 8); [lia|].
  destruct (law_udp_populate (udp_layer u) Hp buffer) as (b & Eb & Hl); [lia|].
  rewrite Eb, outcome_bind_Done, law_udp_set_payload, outcome_bind_Done by lia.
  destruct (udp_finish_ok u (blit b 8 payload) n (8 + n)) as (d & -> & Hd & Ht & Hdr);
    [rewrite len_blit; lia|done|].
  rewrite len_blit in Hd by lia. rewrite ztake_blit in Ht by lia.
  exists d. split; [done|]. split; [lia|]. intros Hs Hd' Hlen.
  destruct (law_udp_populate_ports _ _ _ Eb Hs Hd') as [E1 E2].
  destruct (law_udp_ports d b Ht) as [E3 E4]. constructor; [lia| |by rewrite E3|by rewrite E4].
  rewrite Hdr. apply zdrop_blit_exact; lia.
Qed.

Lemma udp_layer_ok u : pu_payload (udp_layer u) = [] -> layer_ok (LUdp u) 8 (fun n => n).
Proof.
  intros Hp. assert (E : udp_len u = 8) by (unfold udp_len; by rewrite law_udp_size, Hp).
  constructor; [simpl; by rewrite E|ilia| |]; cbn [serialize serialize_with_payload layers_is_layer udp_is_layer].
  - intros buffer n Hb Hn. unfold udp_serialize, open_packet. rewrite law_udp_min, E.
    destruct (Z.ltb_spec (len buffer) 8); [lia|].
    destruct (law_udp_populate (udp_layer u) Hp buffer Hb) as (b & -> & Hl).
    rewrite !outcome_bind_Done. destruct (udp_finish_ok u b n 8) as (c & -> & Hc & _); [lia|done|].
    eexists. split; [done|lia].
  - intros buffer payload n Hb Hn.
    destruct (udp_serialize_datagram u buffer payload n) as (b & -> & Hl & _); [done|lia|lia|]. by exists b.
Qed.

(** ** Whole frames *)

Lemma serialize_at_ok write buffer begin total m :
  0 <= begin <= len buffer ->
  (forall sub, len sub = len buffer - begin -> succeeds (write sub total) sub m) ->
  succeeds (serialize_at write buffer begin total) buffer m.
Proof.
  intros Hb Hw. unfold serialize_at. ostep slice_Done by lia.
  rewrite (ztake_all (len buffer - begin)) by (rewrite len_zdrop; lia).
  destruct (Hw (zdrop begin buffer)) as (c & -> & Hc); [rewrite len_zdrop; lia|].
  rewrite outcome_bind_Done. eexists. split; [done|]. rewrite len_app, Hc, len_ztake, len_zdrop. lia.
Qed.

(** A frame: an Ethernet header, a network layer of [h1] bytes and a transport
    layer of [h2] bytes, which is zero when there is none. *)
Record frame_ok (i : Indicator) (h1 h2 : Z) : Prop := {
  fo_ethernet : exists e, ind_link i = LEthernet e /\ pe_payload (ethernet_layer e) = [];
  fo_network : exists l, ind_network i = Some l /\ layer_ok l h1 (fun _ => 0);
  fo_transport : match ind_transport i with
                 | Some l => exists extra, layer_ok l h2 extra
                 | None => h2 = 0
                 end;
  fo_size : h1 + h2 <= u16_max
}.

Lemma frame_h2_nonneg i h1 h2 : frame_ok i h1 h2 -> 0 <= h1 /\ 0 <= h2.
Proof.
  intros [_ (l & _ & []) Ht _]. split; [lia|]. destruct (ind_transport i); [|lia].
  destruct Ht as (? & []). lia.
Qed.

Lemma indicator_len_ok i h1 h2 : frame_ok i h1 h2 -> indicator_len i = Done (14 + h1 + h2).
Proof.
  intros Hf. pose proof (frame_h2_nonneg i h1 h2 Hf) as [Hh1 Hh2].
  destruct Hf as [(e & El & He) (l & En & Hl) Ht Hs]. unfold indicator_len, usize_add, opt_layer_len.
  rewrite El, En. assert (E : layer_len (LEthernet e) = Done 14).
  { cbn. by destruct (ethernet_serialize_ok e (zeros 14) 0 He ltac:(by vm_compute)) as [-> _]. }
  rewrite E, outcome_bind_Done, (lo_len _ _ _ Hl), outcome_bind_Done. ostep int_add_Done by ilia.
  assert (E2 : match ind_transport i with Some l => layer_len l | None => mret 0 end = Done h2).
  { destruct (ind_transport i); [destruct Ht as (? & Ht); by apply Ht|by subst]. }
  rewrite E2, outcome_bind_Done. apply int_add_Done. ilia.
Qed.

(** The three writers of a frame, in a buffer of [14 + h1 + h2 + n] bytes. *)
Lemma serialize_layers_ok writer i h1 h2 n buffer :
  frame_ok i h1 h2 -> 0 <= n -> h1 + h2 + n <= u16_max -> len buffer = 14 + h1 + h2 + n ->
  (forall e sub total, ind_link i = LEthernet e -> 14 <= len sub -> succeeds (writer (LEthernet e) sub total) sub 14) ->
  (forall l sub total, ind_network i = Some l -> h1 + n <= len sub -> h1 + n <= total <= u16_max -> succeeds (writer l sub total) sub h1) ->
  (forall l sub total, ind_transport i = Some l -> h2 + n <= len sub -> h2 + n <= total <= u16_max -> exists m, succeeds (writer l sub total) sub m) ->
  exists m, succeeds (serialize_layers writer i buffer (14 + h1 + h2 + n)) buffer m.
Proof.
  intros Hf Hn Hs Hb H1 H2 H3. pose proof (frame_h2_nonneg i h1 h2 Hf) as [Hh1 Hh2].
  destruct Hf as [(e & El & He) (l & En & Hl) Ht _]. unfold serialize_layers. rewrite El, En.
  destruct (serialize_at_ok (writer (LEthernet e)) buffer 0 (14 + h1 + h2 + n) 14) as (b1 & -> & Hb1);
    [lia|intros sub Hsub; apply H1; [done|lia]|].
  rewrite outcome_bind_Done. ostep int_sub_Done by lia.
  destruct (serialize_at_ok (writer l) b1 14 (14 + h1 + h2 + n - 14) h1) as (b2 & -> & Hb2);
    [lia|intros sub Hsub; apply H2; [done|lia|lia]|].
  rewrite outcome_bind_Done. ostep int_sub_Done by lia.
  destruct (ind_transport i) as [t|] eqn:Et.
  - destruct (H3 t (zdrop (14 + h1) b2) (14 + h1 + h2 + n - 14 - h1)) as (m & Hm);
      [done|rewrite len_zdrop; lia|lia|].
    unfold serialize_at. ostep slice_Done by lia.
    rewrite (ztake_all (len b2 - (14 + h1))) by (rewrite len_zdrop; lia).
    destruct Hm as (c & -> & Hc). rewrite !outcome_bind_Done. eexists _, _. split; [done|].
    rewrite len_app, Hc, len_ztake, len_zdrop. lia.
  - change (mret (b2, Ok 0) : outcome serialized) with (Done (b2, Ok 0 : io_result Z)).
    rewrite outcome_bind_Done. eexists _, b2. split; [done|lia].
Qed.

Lemma indicator_serialize_ok i h1 h2 buffer :
  frame_ok i h1 h2 -> len buffer = 14 + h1 + h2 ->
  exists m, succeeds (indicator_serialize i buffer) buffer m.
Proof.
  intros Hf Hb. unfold indicator_serialize. rewrite (indicator_len_ok i h1 h2 Hf), outcome_bind_Done.
  rewrite <- (Z.add_0_r (14 + h1 + h2)).
  destruct (frame_h2_nonneg i h1 h2 Hf). pose proof Hf as [(e & El & He) (l & En & Hl) Ht Hs].
  apply serialize_layers_ok; [done|lia|lia|lia| | |].
  - intros e' sub total E Hsub. rewrite El in E. injection E as <-. by apply ethernet_serialize_ok.
  - intros l' sub total E Hsub Htot. rewrite En in E. injection E as <-. apply Hl; lia.
  - intros l' sub total Hl' Hsub Htot. rewrite Hl' in Ht. destruct Ht as (x & Ht). exists h2. apply Ht; lia.
Qed.

Lemma indicator_serialize_with_payload_ok i h1 h2 payload buffer :
  frame_ok i h1 h2 -> h1 + h2 + len payload <= u16_max -> len buffer = 14 + h1 + h2 + len payload ->
  exists m, succeeds (indicator_serialize_with_payload i buffer payload) buffer m.
Proof.
  intros Hf Hs Hb. unfold indicator_serialize_with_payload, usize_add. pose proof (len_nonneg payload).
  destruct (frame_h2_nonneg i h1 h2 Hf). rewrite (indicator_len_ok i h1 h2 Hf), outcome_bind_Done.
  ostep int_add_Done by ilia. pose proof Hf as [(e & El & He) (l & En & Hl) Ht _].
  apply serialize_layers_ok; [done|lia|lia|lia| | |].
  - intros e' sub total E Hsub. rewrite El in E. injection E as <-. by apply ethernet_serialize_ok.
  - intros l' sub total E Hsub Htot. rewrite En in E. injection E as <-.
    rewrite <- (Z.add_0_r h1). apply Hl; lia.
  - intros l' sub total Hl' Hsub Htot. rewrite Hl' in Ht. destruct Ht as (x & Ht). eexists. apply Ht; lia.
Qed.
End frames.
