(* ===== verification/Forwarder.v ===== *)
(** * The forwarder: [Forwarder] of [lib.rs]

    The half of the program that writes frames to the source: it keeps the
    send state of every connection, segments and fragments what it sends,
    retransmits, and numbers IPv4 packets.  The device is a parameter; the
    frames it was given are part of the state, and so are the headers and
    payloads they were made from, for the statements of the theorems. *)

From S2P Require Import Prelude SeqArith Ring Queue TxState Socks Pnet Wire Layers Packet Frames.

Definition ENABLE_RECV_SWS_AVOID : bool := true.
Definition ENABLE_SEND_SWS_AVOID : bool := true.
Definition ENABLE_MSS : bool := true.
Definition MINIMUM_FRAME_SIZE : Z := 60.
Definition HARDWARE_ADDR_UNSPECIFIED : MacAddr := 0.

(** [DataLinkSender::send_to] of the pcap device: what it answers to a frame,
    after the frames it was given before. *)
Class Device := { device_send : list (list byte) -> list byte -> option (io_result unit) }.

(** [BlackHole], the sender that discards everything. *)
Definition black_hole : Device := {| device_send _ _ := Some (Ok tt) |}.

(** ** State *)

Definition conn_key : Set := (SocketAddrV4 * SocketAddrV4)%type.

Section forwarder.
Context `{P : Pnet} `{D : Device}.

Record Forwarder : Set := mkForwarder {
  fw_tx : list (list byte);
  fw_sent : list (Indicator * list byte);
  fw_src_mtu : gmap Z Z;
  fw_local_mtu : Z;
  fw_src_hardware_addr : gmap Z MacAddr;
  fw_local_hardware_addr : MacAddr;
  fw_local_ip_addr : Ipv4Addr;
  fw_ipv4_identification_map : gmap (Z * Z) Z;
  fw_states : gmap conn_key TcpTxState
}.

Definition fw_with_sent (f : Forwarder) (tx : list (list byte)) (sent : list (Indicator * list byte))
  : Forwarder :=
  mkForwarder tx sent (fw_src_mtu f) (fw_local_mtu f) (fw_src_hardware_addr f)
    (fw_local_hardware_addr f) (fw_local_ip_addr f) (fw_ipv4_identification_map f) (fw_states f).
Definition fw_with_src_mtu (f : Forwarder) (m : gmap Z Z) : Forwarder :=
  mkForwarder (fw_tx f) (fw_sent f) m (fw_local_mtu f) (fw_src_hardware_addr f)
    (fw_local_hardware_addr f) (fw_local_ip_addr f) (fw_ipv4_identification_map f) (fw_states f).
Definition fw_with_identification (f : Forwarder) (m : gmap (Z * Z) Z) : Forwarder :=
  mkForwarder (fw_tx f) (fw_sent f) (fw_src_mtu f) (fw_local_mtu f) (fw_src_hardware_addr f)
    (fw_local_hardware_addr f) (fw_local_ip_addr f) m (fw_states f).
Definition fw_with_states (f : Forwarder) (m : gmap conn_key TcpTxState) : Forwarder :=
  mkForwarder (fw_tx f) (fw_sent f) (fw_src_mtu f) (fw_local_mtu f) (fw_src_hardware_addr f)
    (fw_local_hardware_addr f) (fw_local_ip_addr f) (fw_ipv4_identification_map f) m.

(** ** The monad of [&mut self] methods that return an [io::Result]

    A method may panic, and an error keeps the changes made before it; the
    bind is the operator [?]. *)

Definition FM (A : Type) : Type := Forwarder -> outcome (Forwarder * io_result A).

#[export] Instance FM_ret : MRet FM := fun A a f => Done (f, Ok a).
#[export] Instance FM_bind : MBind FM := fun A B k m f =>
  match m f with
  | Done (f, Ok a) => k a f
  | Done (f, Err e) => Done (f, Err e)
  | Panic => Panic
  | Hang => Hang
  end.

Definition fm_get {A} (g : Forwarder -> A) : FM A := fun f => Done (f, Ok (g f)).
Definition fm_lift {A} (o : outcome A) : FM A := fun f => a ← o; Done (f, Ok a).
Definition fm_fail {A} (e : IoError) : FM A := fun f => Done (f, Err e).
Definition fm_update (g : Forwarder -> Forwarder) : FM unit := fun f => Done (g f, Ok tt).

(** [self.states.get(&key).unwrap()], and an update of that state. *)
Definition fm_state (key : conn_key) : FM TcpTxState := fun f =>
  s ← unwrap (fw_states f !! key); Done (f, Ok s).
Definition fm_put_state (key : conn_key) (s : TcpTxState) : FM unit :=
  fm_update (fun f => fw_with_states f (<[key := s]> (fw_states f))).

(** ** Construction and settings *)

Definition forwarder_new (mtu : Z) (local_hardware_addr : MacAddr) (local_ip_addr : Ipv4Addr)
  : Forwarder :=
  mkForwarder [] [] ∅ mtu ∅ local_hardware_addr local_ip_addr ∅ ∅.

(** [*self.src_mtu.get(ip).unwrap_or(&self.local_mtu)]. *)
Definition fw_mtu_of (f : Forwarder) (ip : Ipv4Addr) : Z := unwrap_or (fw_src_mtu f !! ip) (fw_local_mtu f).

Definition set_src_mtu (f : Forwarder) (src_ip_addr : Ipv4Addr) (mtu : Z) : Forwarder * bool :=
  let prev_mtu := fw_mtu_of f src_ip_addr in
  let f := fw_with_src_mtu f (<[src_ip_addr := Z.min (fw_local_mtu f) mtu]> (fw_src_mtu f)) in
  (f, negb (fw_mtu_of f src_ip_addr =? prev_mtu)).

Definition set_src_hardware_addr (f : Forwarder) (src_ip_addr : Ipv4Addr) (a : MacAddr) : Forwarder :=
  mkForwarder (fw_tx f) (fw_sent f) (fw_src_mtu f) (fw_local_mtu f)
    (<[src_ip_addr := a]> (fw_src_hardware_addr f))
    (fw_local_hardware_addr f) (fw_local_ip_addr f) (fw_ipv4_identification_map f) (fw_states f).

Definition set_local_ip_addr (f : Forwarder) (ip_addr : Ipv4Addr) : Forwarder :=
  mkForwarder (fw_tx f) (fw_sent f) (fw_src_mtu f) (fw_local_mtu f) (fw_src_hardware_addr f)
    (fw_local_hardware_addr f) ip_addr (fw_ipv4_identification_map f) (fw_states f).

(** [*self.ipv4_identification_map.get(&(src, dst)).unwrap_or(&0)]. *)
Definition fw_identification (f : Forwarder) (dst_ip_addr src_ip_addr : Ipv4Addr) : Z :=
  unwrap_or (fw_ipv4_identification_map f !! (src_ip_addr, dst_ip_addr)) 0.

Definition increase_ipv4_identification (f : Forwarder) (dst_ip_addr src_ip_addr : Ipv4Addr)
  : Forwarder :=
  let entry := fw_identification f dst_ip_addr src_ip_addr in
  fw_with_identification f
    (<[(src_ip_addr, dst_ip_addr) := unwrap_or (checked_add u16_max entry 1) 0]>
       (fw_ipv4_identification_map f)).

Definition set_state (f : Forwarder) (dst src : SocketAddrV4) (s : TcpTxState) : Forwarder :=
  fw_with_states f (<[(src, dst) := s]> (fw_states f)).

Definition get_state (f : Forwarder) (dst src : SocketAddrV4) : option TcpTxState :=
  fw_states f !! (src, dst).

Definition get_tcp_window (f : Forwarder) (dst src : SocketAddrV4) : outcome Z :=
  state ← unwrap (fw_states f !! (src, dst));
  mret (if ENABLE_RECV_SWS_AVOID then
          let thresh := Z.min (RECV_WINDOW / 2) (fw_local_mtu f) in
          if tx_window state <? thresh then 0 else tx_window state
        else tx_window state).

Definition fw_clean_up (f : Forwarder) (dst src : SocketAddrV4) : Forwarder :=
  fw_with_states f (delete (src, dst) (fw_states f)).

Definition get_cache_size (f : Forwarder) (dst src : SocketAddrV4) : outcome Z :=
  state ← unwrap (fw_states f !! (src, dst));
  usize_add (queue_len (tx_cache state)) (len (tx_queue state)).

(** ** Sending a frame *)

(** [self.tx.send_to(&buffer, None).unwrap_or(Ok(()))?] for the frame made of
    [i] and [payload]. *)
Definition device_write (buffer : list byte) (i : Indicator) (payload : list byte) : FM unit := fun f =>
  let f' := fw_with_sent f (fw_tx f ++ [buffer]) (fw_sent f ++ [(i, payload)]) in
  match unwrap_or (device_send (fw_tx f) buffer) (Ok tt) with
  | Ok _ => Done (f', Ok tt)
  | Err e => Done (f', Err e)
  end.

(** [?] on a serialization into [&mut buffer[..n]]; the buffer with the rest
    behind. *)
Definition fm_serialize (buffer : list byte) (n : Z) (r : list byte -> outcome serialized)
  : FM (list byte) := fun f =>
  front ← slice buffer 0 n;
  '(front, res) ← r front;
  match res with
  | Ok _ => Done (f, Ok (front ++ zdrop n buffer))
  | Err e => Done (f, Err e)
  end.

Definition fw_send (i : Indicator) : FM unit :=
  size ← fm_lift (indicator_len i);
  let buffer_size := Z.max size MINIMUM_FRAME_SIZE in
  buffer ← fm_serialize (zeros buffer_size) size (indicator_serialize i);
  device_write buffer i [].

Definition fw_send_with_payload (i : Indicator) (payload : list byte) : FM unit :=
  size ← fm_lift (indicator_len i);
  total ← fm_lift (usize_add size (len payload));
  let buffer_size := Z.max total MINIMUM_FRAME_SIZE in
  buffer ← fm_serialize (zeros buffer_size) total
             (fun b => indicator_serialize_with_payload i b payload);
  device_write buffer i payload.

Definition send_ethernet (src_hardware_addr : MacAddr) (network : Layers) (transport : option Layers)
    (payload : option (list byte)) : FM unit :=
  local ← fm_get fw_local_hardware_addr;
  ethernet ← fm_lift (unwrap (ethernet_new (kind network) local src_hardware_addr));
  let i := mkIndicator (LEthernet ethernet) (Some network) transport in
  match payload with
  | Some payload => fw_send_with_payload i payload
  | None => fw_send i
  end.

(** [*self.src_hardware_addr.get(&ip).unwrap_or(&HARDWARE_ADDR_UNSPECIFIED)]. *)
Definition fw_hardware_addr_of (f : Forwarder) (ip : Ipv4Addr) : MacAddr :=
  unwrap_or (fw_src_hardware_addr f !! ip) HARDWARE_ADDR_UNSPECIFIED.

Definition send_ipv4_with_transport (dst_ip_addr src_ip_addr : Ipv4Addr) (transport : Layers)
    (payload : option (list byte)) : FM unit :=
  id ← fm_get (fun f => fw_identification f dst_ip_addr src_ip_addr);
  ipv4 ← fm_lift (unwrap (ipv4_new id (kind transport) dst_ip_addr src_ip_addr));
  let transport :=
    match transport with
    | LTcp tcp => LTcp (tcp_set_ipv4_layer tcp ipv4)
    | LUdp udp => LUdp (udp_set_ipv4_layer udp ipv4)
    | other => other
    end in
  hardware_addr ← fm_get (fun f => fw_hardware_addr_of f src_ip_addr);
  _ ← send_ethernet hardware_addr (LIpv4 ipv4) (Some transport) payload;
  fm_update (fun f => increase_ipv4_identification f dst_ip_addr src_ip_addr).

Definition send_ipv4_with_fragment (dst_ip_addr src_ip_addr : Ipv4Addr) (t : LayerKind)
    (fragment_offset : Z) (payload : list byte) : FM unit :=
  id ← fm_get (fun f => fw_identification f dst_ip_addr src_ip_addr);
  ipv4 ← fm_lift (unwrap (ipv4_new_more_fragment id t fragment_offset dst_ip_addr src_ip_addr));
  hardware_addr ← fm_get (fun f => fw_hardware_addr_of f src_ip_addr);
  send_ethernet hardware_addr (LIpv4 ipv4) None (Some payload).

Definition send_ipv4_with_last_fragment (dst_ip_addr src_ip_addr : Ipv4Addr) (t : LayerKind)
    (fragment_offset : Z) (payload : list byte) : FM unit :=
  id ← fm_get (fun f => fw_identification f dst_ip_addr src_ip_addr);
  ipv4 ← fm_lift (unwrap (ipv4_new_last_fragment id t fragment_offset dst_ip_addr src_ip_addr));
  hardware_addr ← fm_get (fun f => fw_hardware_addr_of f src_ip_addr);
  _ ← send_ethernet hardware_addr (LIpv4 ipv4) None (Some payload);
  fm_update (fun f => increase_ipv4_identification f dst_ip_addr src_ip_addr).

Definition send_arp_reply (src_ip_addr : Ipv4Addr) : FM unit :=
  arp ← fm_get (fun f => arp_new_reply (fw_local_hardware_addr f) (fw_local_ip_addr f)
                           (fw_hardware_addr_of f src_ip_addr) src_ip_addr);
  ethernet ← fm_lift (unwrap (ethernet_new (kind arp) (arp_src_hardware_addr arp) (arp_dst_hardware_addr arp)));
  fw_send (mkIndicator (LEthernet ethernet) (Some (LArp arp)) None).

(** ** TCP without payload *)

Definition send_tcp_ack_0 (dst src : SocketAddrV4) : FM unit :=
  state ← fm_state (src, dst);
  window ← fun f => fm_lift (get_tcp_window f dst src) f;
  let tcp := tcp_new_ack (sa_port dst) (sa_port src) (tx_sequence state) (tx_acknowledgement state)
               window (tx_sacks state) None in
  send_ipv4_with_transport (sa_ip dst) (sa_ip src) (LTcp tcp) None.

Definition send_tcp_ack_syn (dst src : SocketAddrV4) : FM unit :=
  mss ← (if ENABLE_MSS then
           mtu ← fm_get fw_local_mtu;
           mss ← fm_lift (int_sub mtu (ipv4_minimum_len + tcp_minimum_len));
           mret (Some (if u16_max <? mss then u16_max else as_u16 mss))
         else mret None);
  state ← fm_state (src, dst);
  window ← fun f => fm_lift (get_tcp_window f dst src) f;
  let tcp := tcp_new_ack_syn (sa_port dst) (sa_port src) (tx_sequence state)
               (tx_acknowledgement state) window mss (tx_send_wscale state) (tx_sack_perm state) None in
  send_ipv4_with_transport (sa_ip dst) (sa_ip src) (LTcp tcp) None.

Definition send_tcp_ack_rst (dst src : SocketAddrV4) : FM unit :=
  state ← fm_state (src, dst);
  window ← fun f => fm_lift (get_tcp_window f dst src) f;
  let tcp := tcp_new_ack_rst (sa_port dst) (sa_port src) (tx_sequence state)
               (tx_acknowledgement state) window None in
  send_ipv4_with_transport (sa_ip dst) (sa_ip src) (LTcp tcp) None.

Definition send_tcp_rst (dst src : SocketAddrV4) : FM unit :=
  let tcp := tcp_new_rst (sa_port dst) (sa_port src) 0 0 0 None in
  send_ipv4_with_transport (sa_ip dst) (sa_ip src) (LTcp tcp) None.

Definition send_tcp_fin (dst src : SocketAddrV4) : FM unit :=
  state ← fm_state (src, dst);
  window ← fun f => fm_lift (get_tcp_window f dst src) f;
  let tcp := tcp_new_fin (sa_port dst) (sa_port src) (tx_sequence state)
               (tx_acknowledgement state) window None in
  send_ipv4_with_transport (sa_ip dst) (sa_ip src) (LTcp tcp) None.

(** ** TCP segments *)

(** The end of a turn of the loop of [send_tcp_ack_raw]: the sequence number
    moves to the end of the segment if that is ahead. *)
Definition update_sequence (key : conn_key) (recv_next : Z) : FM unit :=
  state ← fm_state key;
  let sub_sequence := seq_sub recv_next (tx_sequence state) in
  if sub_sequence <=? MAX_U32_WINDOW_SIZE then
    fm_put_state key (tx_add_sequence state sub_sequence)
  else mret tt.

(** One turn of the loop of [send_tcp_ack_raw]: the segment [i]. *)
Definition send_segment (dst src : SocketAddrV4) (mss sequence : Z) (payload : list byte)
    (is_fin : bool) (i : Z) : FM unit :=
  state ← fm_state (src, dst);
  remain ← fm_lift (int_sub (len payload) (i * mss));
  let size := Z.min mss remain in
  segment ← fm_lift (slice payload (i * mss) (i * mss + size));
  let sequence := seq_add sequence (as_u32 (i * mss)) in
  let recv_next := seq_add sequence (as_u32 size) in
  window ← fun f => fm_lift (get_tcp_window f dst src) f;
  let '(tcp, recv_next) :=
    if is_fin && (len segment <=? mss * (i + 1)) then
      (tcp_new_ack_fin (sa_port dst) (sa_port src) sequence (tx_acknowledgement state) window None,
       seq_succ recv_next)
    else
      (tcp_new_ack (sa_port dst) (sa_port src) sequence (tx_acknowledgement state) window None None,
       recv_next) in
  _ ← send_ipv4_with_transport (sa_ip dst) (sa_ip src) (LTcp tcp) (Some segment);
  update_sequence (src, dst) recv_next.

(** The loop: a turn for each [i] with [mss * i < payload.len()]. *)
Fixpoint send_segments (fuel : nat) (dst src : SocketAddrV4) (mss sequence : Z)
    (payload : list byte) (is_fin : bool) (i : Z) : FM unit :=
  match fuel with
  | O => fun _ => Hang
  | S fuel =>
      if mss * i <? len payload then
        _ ← send_segment dst src mss sequence payload is_fin i;
        send_segments fuel dst src mss sequence payload is_fin (i + 1)
      else mret tt
  end.

(** With a positive segment size there are at most as many turns as bytes. *)
Definition send_tcp_ack_raw (dst src : SocketAddrV4) (sequence : Z) (payload : list byte)
    (is_fin : bool) : FM unit :=
  mtu ← fm_get (fun f => fw_mtu_of f (sa_ip src));
  mss ← fm_lift (int_sub mtu (ipv4_minimum_len + tcp_minimum_len));
  send_segments (S (length payload)) dst src mss sequence payload is_fin 0.

(** ** Sending from the queue *)

(** The number of bytes [send_tcp_ack] takes from the queue. *)
Definition send_size (f : Forwarder) (state : TcpTxState) (src : SocketAddrV4) : outcome Z :=
  let remain_size := unwrap_or (checked_sub (tx_send_window state) (queue_len (tx_cache state))) 0 in
  let remain_size := Z.min remain_size u16_max in
  let size := Z.min remain_size (len (tx_queue state)) in
  if ENABLE_SEND_SWS_AVOID then
    mss ← int_sub (fw_mtu_of f (sa_ip src)) (ipv4_minimum_len + tcp_minimum_len);
    mret (if (size <? mss) && negb (queue_is_empty (tx_cache state)) then 0 else size)
  else mret size.

(** The part of [send_tcp_ack] for data. *)
Definition send_queued (now : Instant) (dst src : SocketAddrV4) : FM unit :=
  state ← fm_state (src, dst);
  if 0 <? tx_send_window state then
    size ← fun f => fm_lift (send_size f state src) f;
    if 0 <? size then
      '(state, r) ← fm_lift (tx_append_cache now state size);
      _ ← fm_put_state (src, dst) state;
      match r with
      | Err e => fm_fail e
      | Ok payload =>
          let is_fin := (len (tx_queue state) =? 0) && tx_queue_fin state in
          _ ← (if is_fin then fm_put_state (src, dst) (tx_append_cache_fin now state) else mret tt);
          send_tcp_ack_raw dst src (tx_sequence state) payload is_fin
      end
    else mret tt
  else mret tt.

Definition send_tcp_ack (now : Instant) (dst src : SocketAddrV4) : FM unit :=
  state ← fm_state (src, dst);
  match tx_cache_syn state with
  | Some _ => send_tcp_ack_syn dst src
  | None =>
      _ ← send_queued now dst src;
      state ← fm_state (src, dst);
      if tx_queue_fin state && queue_is_empty (tx_cache state) then
        _ ← fm_put_state (src, dst) (tx_append_cache_fin now state);
        send_tcp_fin dst src
      else mret tt
  end.

Definition append_to_queue (now : Instant) (dst src : SocketAddrV4) (payload : list byte) : FM unit :=
  state ← fm_state (src, dst);
  _ ← fm_put_state (src, dst) (tx_append_queue state payload);
  send_tcp_ack now dst src.

(** ** Retransmission *)

Definition retransmit_tcp_ack (dst src : SocketAddrV4) : FM unit :=
  state ← fm_state (src, dst);
  payload ← fm_lift (queue_get_all (tx_cache state));
  let sequence := q_sequence (tx_cache state) in
  let size := queue_len (tx_cache state) in
  if 0 <? len payload then
    if (size =? len payload) && bool_decide (is_Some (tx_cache_fin state)) then
      send_tcp_ack_raw dst src sequence payload true
    else send_tcp_ack_raw dst src sequence payload false
  else mret tt.

Definition disjoint_u32_range (main sub : Z * Z) : list (Z * Z) :=
  let size_main := seq_sub main.2 main.1 in
  let diff_first := seq_sub sub.1 main.1 in
  let diff_second := seq_sub sub.2 main.2 in
  if diff_first <=? MAX_U32_WINDOW_SIZE then
    if MAX_U32_WINDOW_SIZE <? diff_second then [(main.1, sub.1); (sub.2, main.2)]
    else if size_main <=? diff_first then [main]
    else [(main.1, sub.1)]
  else
    if MAX_U32_WINDOW_SIZE <? diff_second then
      let diff := seq_sub sub.2 main.1 in
      if MAX_U32_WINDOW_SIZE <? diff then [main] else [(sub.2, main.2)]
    else [].

(** The ranges that the SACKs leave. *)
Definition unsacked_ranges (sequence recv_next : Z) (sacks : list (Z * Z)) : list (Z * Z) :=
  foldl (fun ranges sack => concat (map (fun range => disjoint_u32_range range sack) ranges))
    [(sequence, recv_next)] sacks.

(** The loop over the ranges. *)
Fixpoint retransmit_ranges (dst src : SocketAddrV4) (recv_next : Z) (ranges : list (Z * Z)) : FM unit :=
  match ranges with
  | [] => mret tt
  | range :: rest =>
      let size := seq_sub range.2 range.1 in
      state ← fm_state (src, dst);
      r ← fm_lift (queue_get (tx_cache state) range.1 size);
      match r with
      | Err e => fm_fail e
      | Ok payload =>
          _ ← (if 0 <? len payload then
                 if (range.2 =? recv_next) && bool_decide (is_Some (tx_cache_fin state)) then
                   send_tcp_ack_raw dst src range.1 payload true
                 else send_tcp_ack_raw dst src range.1 payload false
               else mret tt);
          retransmit_ranges dst src recv_next rest
      end
  end.

Definition retransmit_tcp_ack_without (dst src : SocketAddrV4) (sacks : list (Z * Z)) : FM unit :=
  state ← fm_state (src, dst);
  let sequence := q_sequence (tx_cache state) in
  let recv_next := queue_recv_next (tx_cache state) in
  let ranges := unsacked_ranges sequence recv_next sacks in
  _ ← retransmit_ranges dst src recv_next ranges;
  state ← fm_state (src, dst);
  if (len ranges =? 0) && bool_decide (is_Some (tx_cache_fin state)) then send_tcp_fin dst src
  else mret tt.

Definition retransmit_tcp_ack_timedout (now : Instant) (dst src : SocketAddrV4) : FM unit :=
  state ← fm_state (src, dst);
  let next_rto := unwrap_or (checked_mul u64_max (tx_rto state) 2) u64_max in
  '(cache, payload) ← fm_lift (queue_get_timed_out_and_update now (tx_cache state)
                                 (Z.max MAX_RTO (Z.min MIN_RTO next_rto)));
  let state := tx_with_cache state cache in
  _ ← fm_put_state (src, dst) state;
  let sequence := q_sequence cache in
  let size := queue_len cache in
  if 0 <? size then
    let state := tx_double_rto state in
    _ ← fm_put_state (src, dst) state;
    if (size =? len payload) && bool_decide (is_Some (tx_cache_fin state)) then
      _ ← fm_put_state (src, dst) (tx_update_fin_timer now state);
      send_tcp_ack_raw dst src sequence payload true
    else send_tcp_ack_raw dst src sequence payload false
  else
    match tx_cache_fin state with
    | Some timer =>
        if timer_is_timedout now timer then
          _ ← fm_put_state (src, dst) (tx_update_fin_timer now (tx_double_rto state));
          send_tcp_fin dst src
        else mret tt
    | None => mret tt
    end.

(** ** UDP *)

Definition send_udp_raw (dst src : SocketAddrV4) (payload : list byte) : FM unit :=
  send_ipv4_with_transport (sa_ip dst) (sa_ip src) (LUdp (udp_new (sa_port dst) (sa_port src)))
    (Some payload).

(** The loop over the fragments of the [size] bytes in [buffer], the next one
    at [n]. *)
Fixpoint send_fragments (fuel : nat) (dst src : SocketAddrV4) (mss size : Z) (buffer : list byte)
    (n : Z) : FM unit :=
  match fuel with
  | O => fun _ => Hang
  | S fuel =>
      if n <? size then
        let length := Z.min (size - n) mss in
        let remain := size - n - length in
        let '(length, remain) :=
          if 0 <? remain then let length := length / 8 * 8 in (length, size - n - length)
          else (length, remain) in
        length ← (if (0 <? remain) && (remain <? 8) then fm_lift (int_sub length 8) else mret length);
        fragment ← fm_lift (slice buffer n (n + length));
        _ ← (if 0 <? remain then
               send_ipv4_with_fragment (sa_ip dst) (sa_ip src) LK_Udp (as_u16 (n / 8)) fragment
             else
               send_ipv4_with_last_fragment (sa_ip dst) (sa_ip src) LK_Udp (as_u16 (n / 8)) fragment);
        send_fragments fuel dst src mss size buffer (n + length)
      else mret tt
  end.

Definition send_udp (dst src : SocketAddrV4) (payload : list byte) : FM unit :=
  size ← fm_lift (usize_add udp_minimum_len (len payload));
  mtu ← fm_get (fun f => fw_mtu_of f (sa_ip src));
  mss ← fm_lift (int_sub mtu ipv4_minimum_len);
  if size <=? mss then send_udp_raw dst src payload
  else
    let udp := udp_new (sa_port dst) (sa_port src) in
    ipv4 ← fm_lift (unwrap (ipv4_new 0 (kind udp) (sa_ip dst) (sa_ip src)));
    let udp := udp_set_ipv4_layer udp ipv4 in
    total ← fm_lift (usize_add (udp_len udp) (len payload));
    buffer ← fm_serialize (zeros total) total
               (fun b => udp_serialize_with_payload udp b payload total);
    send_fragments (S (Z.to_nat size)) dst src mss size buffer 0.
End forwarder.

(** ** The traits of the workers *)

Section instances.
Context `{P : Pnet} `{D : Device}.

Definition forwarder_open (now : Instant) (dst src : SocketAddrV4) : FM unit :=
  _ ← send_tcp_ack_syn dst src;
  state ← fm_state (src, dst);
  fm_put_state (src, dst) (tx_update_syn_timer now state).

Definition forwarder_forward (now : Instant) (dst src : SocketAddrV4) (payload : list byte) : FM unit :=
  state ← fm_state (src, dst);
  if bool_decide (is_Some (tx_cache_fin state)) || tx_queue_fin state then
    fm_fail (mkIoError EInvalidData "")
  else append_to_queue now dst src payload.

Definition forwarder_tick (now : Instant) (dst src : SocketAddrV4) : FM unit :=
  retransmit_tcp_ack_timedout now dst src.

Definition forwarder_close (now : Instant) (dst src : SocketAddrV4) : FM unit :=
  state ← fm_state (src, dst);
  _ ← fm_put_state (src, dst) (tx_append_queue_fin state);
  send_tcp_ack now dst src.

#[export] Instance forwarder_is_stream : ForwardStream Forwarder := {
  stream_open := forwarder_open;
  stream_forward := forwarder_forward;
  stream_tick := forwarder_tick;
  stream_close := forwarder_close
}.

#[export] Instance forwarder_is_datagram : ForwardDatagram Forwarder := {
  datagram_forward := send_udp
}.
End instances.

(** ** Lemmas *)

(** The device reports the error. *)
Definition device_error {D : Device} (e : IoError) : Prop :=
  exists frames b, device_send frames b = Some (Err e).

(** A method that only fails when the device does. *)
Inductive answered {D : Device} : io_result unit -> Prop :=
| answered_ok : answered (Ok tt)
| answered_err e : device_error e -> answered (Err e).

(** The device takes every frame. *)
Definition device_ok (D : Device) : Prop := forall frames b e, device_send frames b <> Some (Err e).

Lemma answered_device_ok {D : Device} x : device_ok D -> answered x -> x = Ok tt.
Proof. intros Hd [|e (frames & b & E)]; [done|]. by apply Hd in E. Qed.
#[export] Hint Constructors answered : core.

(** The frames [l] were handed to the device and nothing else changed, but IPv4
    identifications. *)
Record sent_step `{P : Pnet} (f f' : Forwarder) (l : list (Indicator * list byte)) : Prop := {
  ss_sent : fw_sent f' = fw_sent f ++ l;
  ss_src_mtu : fw_src_mtu f' = fw_src_mtu f;
  ss_local_mtu : fw_local_mtu f' = fw_local_mtu f;
  ss_src_hardware_addr : fw_src_hardware_addr f' = fw_src_hardware_addr f;
  ss_local_hardware_addr : fw_local_hardware_addr f' = fw_local_hardware_addr f;
  ss_local_ip_addr : fw_local_ip_addr f' = fw_local_ip_addr f;
  ss_states : fw_states f' = fw_states f
}.

Section sending.
Context {P : Pnet} {L : PnetLaws P} {D : Device}.

Lemma fm_bind_Ok {A B} (k : A -> FM B) (m : FM A) f f' a :
  m f = Done (f', Ok a) -> mbind k m f = k a f'.
Proof. intros E. unfold mbind, FM_bind. by rewrite E. Qed.

Lemma fm_bind_Err {A B} (k : A -> FM B) (m : FM A) f f' e :
  m f = Done (f', Err e) -> mbind k m f = Done (f', Err e).
Proof. intros E. unfold mbind, FM_bind. by rewrite E. Qed.

Lemma fm_bind_result {A B} (k : A -> FM B) (m : FM A) f f' x :
  m f = Done (f', x) -> mbind k m f = match x with Ok a => k a f' | Err e => Done (f', Err e) end.
Proof. intros E. unfold mbind, FM_bind. rewrite E. by destruct x. Qed.

Lemma fm_lift_Done {A} (o : outcome A) a f : o = Done a -> fm_lift o f = Done (f, Ok a).
Proof. by intros ->. Qed.

Lemma fm_state_Done key s f : fw_states f !! key = Some s -> fm_state key f = Done (f, Ok s).
Proof. unfold fm_state. by intros ->. Qed.

Lemma device_write_ok buffer i payload f :
  exists x, device_write buffer i payload f
    = Done (fw_with_sent f (fw_tx f ++ [buffer]) (fw_sent f ++ [(i, payload)]), x) /\ answered x.
Proof.
  unfold device_write. destruct (device_send _ _) as [[[]|e]|] eqn:E; cbn; [by eauto| |by eauto].
  exists (Err e). split; [done|]. constructor. by exists (fw_tx f), buffer.
Qed.

Lemma fm_serialize_ok buffer n r f :
  0 <= n <= len buffer -> (forall b, len b = n -> exists m, succeeds (r b) b m) ->
  exists b, fm_serialize buffer n r f = Done (f, Ok b) /\ len b = len buffer.
Proof.
  intros Hn Hr. unfold fm_serialize. ostep slice_Done by lia. rewrite (zdrop_0 0), Z.sub_0_r by lia.
  destruct (Hr (ztake n buffer)) as (m & b & -> & Hb); [rewrite len_ztake; lia|].
  rewrite outcome_bind_Done. eexists. split; [done|]. rewrite len_app, Hb, len_ztake, len_zdrop. lia.
Qed.

Lemma fw_send_ok i h1 h2 f :
  frame_ok i h1 h2 ->
  exists f' x, fw_send i f = Done (f', x) /\ answered x /\ sent_step f f' [(i, [])]
    /\ fw_ipv4_identification_map f' = fw_ipv4_identification_map f.
Proof.
  intros Hf. unfold fw_send. destruct (frame_h2_nonneg i h1 h2 Hf).
  erewrite fm_bind_Ok by (apply fm_lift_Done; by apply (indicator_len_ok i h1 h2)).
  set (size := 14 + h1 + h2).
  destruct (fm_serialize_ok (zeros (Z.max size MINIMUM_FRAME_SIZE)) size (indicator_serialize i) f)
    as (b & E & _).
  { rewrite len_zeros. unfold size. lia. }
  { intros b Hb. by apply (indicator_serialize_ok i h1 h2). }
  rewrite (fm_bind_Ok _ _ _ _ _ E). destruct (device_write_ok b i [] f) as (x & -> & Hx).
  eexists _, x. split; [done|]. split; [done|]. split; [by constructor|done].
Qed.

Lemma fw_send_with_payload_ok i h1 h2 payload f :
  frame_ok i h1 h2 -> h1 + h2 + len payload <= u16_max ->
  exists f' x, fw_send_with_payload i payload f = Done (f', x) /\ answered x /\ sent_step f f' [(i, payload)]
    /\ fw_ipv4_identification_map f' = fw_ipv4_identification_map f.
Proof.
  intros Hf Hs. unfold fw_send_with_payload, usize_add. destruct (frame_h2_nonneg i h1 h2 Hf).
  pose proof (len_nonneg payload).
  erewrite fm_bind_Ok by (apply fm_lift_Done; by apply (indicator_len_ok i h1 h2)).
  erewrite fm_bind_Ok by (apply fm_lift_Done; apply int_add_Done; ilia).
  set (size := 14 + h1 + h2 + len payload).
  destruct (fm_serialize_ok (zeros (Z.max size MINIMUM_FRAME_SIZE)) size
    (fun b => indicator_serialize_with_payload i b payload) f) as (b & E & _).
  { rewrite len_zeros. unfold size. lia. }
  { intros b Hb. by apply (indicator_serialize_with_payload_ok i h1 h2). }
  rewrite (fm_bind_Ok _ _ _ _ _ E). destruct (device_write_ok b i payload f) as (x & -> & Hx).
  eexists _, x. split; [done|]. split; [done|]. split; [by constructor|done].
Qed.

(** The headers of a packet the forwarder sends. *)
Definition ipv4_of (id flags offset protocol : Z) (src dst : Ipv4Addr) : Ipv4 :=
  mkIpv4 (mkPIpv4 4 5 0 0 0 id flags offset TTL protocol 0 src dst [] []).
Definition ethernet_of (f : Forwarder) (src_ip_addr : Ipv4Addr) : Ethernet :=
  mkEthernet (mkPEthernet (fw_hardware_addr_of f src_ip_addr) (fw_local_hardware_addr f) ethertype_ipv4 []).

Lemma ipv4_of_ok id flags offset protocol src dst :
  layer_ok (LIpv4 (ipv4_of id flags offset protocol src dst)) 20 (fun _ => 0).
Proof. by apply ipv4_layer_ok. Qed.

(** A transport layer that the forwarder sends: [h] bytes, for the protocol. *)
Inductive transport_ok : Layers -> Z -> Z -> (Ipv4 -> Layers) -> Prop :=
| transport_tcp t :
    tcp_sized t ->
    transport_ok (LTcp t) (4 * pt_data_offset (tcp_layer t)) protocol_tcp (fun i => LTcp (tcp_set_ipv4_layer t i))
| transport_udp u :
    pu_payload (udp_layer u) = [] ->
    transport_ok (LUdp u) 8 protocol_udp (fun i => LUdp (udp_set_ipv4_layer u i)).

Lemma transport_frame_ok f src_ip dst_ip id transport h protocol set :
  transport_ok transport h protocol set ->
  let ipv4 := ipv4_of id 0 0 protocol dst_ip src_ip in
  frame_ok (mkIndicator (LEthernet (ethernet_of f src_ip)) (Some (LIpv4 ipv4)) (Some (set ipv4))) 20 h.
Proof.
  intros Ht ipv4. constructor; simpl.
  - eauto.
  - eexists. split; [done|apply ipv4_of_ok].
  - destruct Ht as [t Hs|u Hp]; eexists;
      [by apply (tcp_layer_ok (tcp_set_ipv4_layer t ipv4))|by apply udp_layer_ok].
  - destruct Ht as [t (_ & ? & _)|u _]; ilia.
Qed.

(** What [send_ipv4_with_transport] sends and leaves. *)
Lemma send_transport_ok dst src transport h protocol set payload f :
  transport_ok transport h protocol set ->
  20 + h + len (unwrap_or payload []) <= u16_max ->
  let ipv4 := ipv4_of (fw_identification f dst src) 0 0 protocol dst src in
  let i := mkIndicator (LEthernet (ethernet_of f src)) (Some (LIpv4 ipv4)) (Some (set ipv4)) in
  exists f' x, send_ipv4_with_transport dst src transport payload f = Done (f', x) /\ answered x
    /\ sent_step f f' [(i, unwrap_or payload [])]
    /\ fw_ipv4_identification_map f' =
       match x with
       | Ok _ => <[(src, dst) := unwrap_or (checked_add u16_max (fw_identification f dst src) 1) 0]>
                   (fw_ipv4_identification_map f)
       | Err _ => fw_ipv4_identification_map f
       end.
Proof.
  intros Ht Hs ipv4 i. pose proof (transport_frame_ok f src dst (fw_identification f dst src) _ _ _ _ Ht) as Hf.
  fold ipv4 in Hf. fold i in Hf.
  assert (E : send_ipv4_with_transport dst src transport payload f =
    (_ ← match payload with Some p => fw_send_with_payload i p | None => fw_send i end;
     fm_update (fun f => increase_ipv4_identification f dst src)) f).
  { destruct Ht; destruct payload; reflexivity. }
  rewrite E. clear E.
  assert (exists f' x, match payload with Some p => fw_send_with_payload i p | None => fw_send i end f
    = Done (f', x) /\ answered x /\ sent_step f f' [(i, unwrap_or payload [])]
    /\ fw_ipv4_identification_map f' = fw_ipv4_identification_map f) as (f1 & x & E1 & Hx & Hss & Hid).
  { destruct payload as [p|]; [by apply (fw_send_with_payload_ok i 20 h)|by apply (fw_send_ok i 20 h)]. }
  destruct Hx as [|e He].
  2: { rewrite (fm_bind_Err _ _ _ _ _ E1). exists f1, (Err e). split; [done|]. by split; [constructor|]. }
  rewrite (fm_bind_Ok _ _ _ _ _ E1). eexists _, (Ok tt). split; [reflexivity|]. split; [constructor|]. split.
  - destruct Hss. by constructor.
  - cbn. unfold fw_identification. by rewrite Hid.
Qed.

(** *** Segmentation *)

(** The frame [x] carries the segment [i] of [payload]: the bytes from
    [i * mss] on, at the sequence number of the first of them, between the
    endpoints of the connection and in one IPv4 packet of at most
    [mss + 40] bytes. *)
Record segment_ok (dst src : SocketAddrV4) (mss sequence : Z) (payload : list byte) (is_fin : bool)
    (i : Z) (x : Indicator * list byte) : Prop := {
  sg_payload : x.2 = ztake mss (zdrop (i * mss) payload);
  sg_nonempty : (0 < mss -> 0 < len x.2) /\ len x.2 <= mss;
  sg_len : indicator_len x.1 = Done 54;
  sg_tcp : exists tcp, indicator_tcp x.1 = Some tcp
    /\ tcp_sequence tcp = seq_add sequence (as_u32 (i * mss))
    /\ (tcp_src_ip_addr tcp, tcp_src tcp) = dst /\ (tcp_dst_ip_addr tcp, tcp_dst tcp) = src
    /\ tcp_is_ack tcp = true /\ tcp_is_fin tcp = is_fin /\ tcp_is_syn tcp = false /\ tcp_is_rst tcp = false
}.

(** The state of a connection but for its sequence number. *)
Definition same_but_sequence (s s' : TcpTxState) : Prop :=
  exists n, is_u32 n /\ s' = tx_with_sequence s n.

Lemma same_but_sequence_refl s : is_u32 (tx_sequence s) -> same_but_sequence s s.
Proof. intros H. exists (tx_sequence s). split; [done|by destruct s]. Qed.

Lemma same_but_sequence_trans s s' s'' :
  same_but_sequence s s' -> same_but_sequence s' s'' -> same_but_sequence s s''.
Proof. intros (n & _ & ->) (m & Hm & ->). exists m. split; [done|by destruct s]. Qed.

Lemma same_but_sequence_u32 s s' : same_but_sequence s s' -> is_u32 (tx_sequence s').
Proof. intros (n & Hn & ->). by destruct s. Qed.

(** Frames were sent for one connection, whose sequence number may have
    moved. *)
Definition conn_step (key : conn_key) (f f' : Forwarder) (l : list (Indicator * list byte)) : Prop :=
  exists s s', fw_states f !! key = Some s /\ same_but_sequence s s'
    /\ fw_states f' = <[key := s']> (fw_states f)
    /\ fw_sent f' = fw_sent f ++ l
    /\ fw_src_mtu f' = fw_src_mtu f /\ fw_local_mtu f' = fw_local_mtu f.

Lemma conn_step_trans key f f' f'' l l' :
  conn_step key f f' l -> conn_step key f' f'' l' -> conn_step key f f'' (l ++ l').
Proof.
  intros (s & s' & Hs & H1 & E1 & Hl & Hm & Hlm) (t & t' & Ht & H2 & E2 & Hl' & Hm' & Hlm').
  rewrite E1, lookup_insert_eq in Ht. injection Ht as <-. exists s, t'.
  split; [done|]. split; [by eapply same_but_sequence_trans|].
  rewrite E2, E1, insert_insert_eq, Hl', Hl, app_assoc, Hm', Hlm'. done.
Qed.

(** The header that [send_segment] builds. *)
Definition segment_tcp (dst src : SocketAddrV4) (sequence ack window : Z) (is_fin : bool) : Tcp :=
  if is_fin then tcp_new_ack_fin (sa_port dst) (sa_port src) sequence ack window None
  else tcp_new_ack (sa_port dst) (sa_port src) sequence ack window None None.

Lemma segment_tcp_sized dst src sequence ack window is_fin :
  tcp_sized (segment_tcp dst src sequence ack window is_fin)
  /\ pt_data_offset (tcp_layer (segment_tcp dst src sequence ack window is_fin)) = 5.
Proof.
  assert (H : tcp_sized (tcp_new_ack (sa_port dst) (sa_port src) sequence ack window None None))
    by by apply tcp_new_ack_sized.
  destruct is_fin; split; [by apply tcp_with_flags_sized|done|done|done].
Qed.

Lemma segment_frame_len f src_ip dst_ip id dst src sequence ack window is_fin :
  let ipv4 := ipv4_of id 0 0 protocol_tcp dst_ip src_ip in
  let tcp := segment_tcp dst src sequence ack window is_fin in
  indicator_len (mkIndicator (LEthernet (ethernet_of f src_ip)) (Some (LIpv4 ipv4))
    (Some (LTcp (tcp_set_ipv4_layer tcp ipv4)))) = Done 54.
Proof.
  intros ipv4 tcp. destruct (segment_tcp_sized dst src sequence ack window is_fin) as [Hsz Hoff].
  pose proof (transport_frame_ok f src_ip dst_ip id _ _ _ _ (transport_tcp _ Hsz)) as Hf.
  rewrite Hoff in Hf. exact (indicator_len_ok _ _ _ Hf).
Qed.

Lemma get_tcp_window_Done f dst src s :
  fw_states f !! (src, dst) = Some s ->
  exists w, get_tcp_window f dst src = Done w /\ (w = 0 \/ w = tx_window s).
Proof.
  intros Hs. unfold get_tcp_window. rewrite Hs. cbn [unwrap]. rewrite outcome_bind_Done.
  eexists. split; [done|]. simpl. case_match; auto.
Qed.

(** The end of a turn: the sequence number moves forward, or stays. *)
Lemma update_sequence_ok key recv_next f s :
  fw_states f !! key = Some s -> is_u32 (tx_sequence s) -> is_u32 recv_next ->
  exists f' s', update_sequence key recv_next f = Done (f', Ok tt)
    /\ same_but_sequence s s' /\ f' = fw_with_states f (<[key := s']> (fw_states f)).
Proof.
  intros Hs Hu Hr. unfold update_sequence.
  rewrite (fm_bind_Ok _ _ _ _ _ (fm_state_Done _ _ _ Hs)). cbv zeta. zcase.
  - eexists _, _. split; [reflexivity|]. split; [|reflexivity].
    eexists. split; [|reflexivity]. apply seq_add_u32; [done|]. by apply seq_sub_u32.
  - exists f, s. split; [done|]. split; [by apply same_but_sequence_refl|].
    rewrite insert_id by done. by destruct f.
Qed.

Lemma sent_step_conn key f f' l s :
  sent_step f f' l -> fw_states f !! key = Some s -> is_u32 (tx_sequence s) -> conn_step key f f' l.
Proof.
  intros [] Hs Hu. exists s, s. split; [done|]. split; [by apply same_but_sequence_refl|].
  by rewrite insert_id.
Qed.

Lemma send_segment_ok dst src mss sequence payload is_fin i f s :
  fw_states f !! (src, dst) = Some s -> is_u32 (tx_sequence s) -> is_u32 sequence ->
  0 <= mss -> mss + 40 <= u16_max -> 0 <= i -> i * mss < len payload ->
  exists f' x r, send_segment dst src mss sequence payload is_fin i f = Done (f', r) /\ answered r
    /\ conn_step (src, dst) f f' [x] /\ segment_ok dst src mss sequence payload is_fin i x.
Proof.
  intros Hs Hu Hseq Hm Hmax Hi Hlt. pose proof (len_nonneg payload). assert (0 <= i * mss) by lia.
  unfold send_segment. rewrite (fm_bind_Ok _ _ _ _ _ (fm_state_Done _ _ _ Hs)).
  erewrite fm_bind_Ok by (apply fm_lift_Done; apply int_sub_Done; lia).
  set (size := Z.min mss (len payload - i * mss)). assert (0 <= size <= mss /\ (0 < mss -> 0 < size)) by (unfold size; lia).
  erewrite fm_bind_Ok by (apply fm_lift_Done; apply slice_Done; lia).
  set (segment := ztake (i * mss + size - i * mss) (zdrop (i * mss) payload)).
  assert (Hseg : segment = ztake mss (zdrop (i * mss) payload)).
  { unfold segment. replace (i * mss + size - i * mss) with size by lia. unfold size.
    destruct (Z.min_spec mss (len payload - i * mss)) as [[_ ->]|[? ->]]; [done|].
    rewrite !ztake_all by (rewrite len_zdrop; lia). done. }
  assert (Hlen : len segment = size) by (unfold segment; rewrite len_ztake, len_zdrop; lia).
  destruct (get_tcp_window_Done f dst src s Hs) as (w & Hw & _).
  erewrite fm_bind_Ok by (apply fm_lift_Done; exact Hw).
  replace (is_fin && (len segment <=? mss * (i + 1))) with is_fin
    by (destruct (Z.leb_spec (len segment) (mss * (i + 1))); [by rewrite andb_true_r|nia]).
  set (sq := seq_add sequence (as_u32 (i * mss))). set (rn := seq_add sq (as_u32 size)).
  assert (is_u32 sq) by (apply seq_add_u32; [done|apply as_u32_range]).
  assert (is_u32 rn) by (apply seq_add_u32; [done|apply as_u32_range]).
  set (rn' := if is_fin then seq_succ rn else rn).
  assert (Hrn : is_u32 rn') by (unfold rn'; destruct is_fin; [seq_lia|done]).
  replace (if is_fin then (_, seq_succ rn) else _)
    with (segment_tcp dst src sq (tx_acknowledgement s) w is_fin, rn') by (by destruct is_fin).
  cbv beta iota zeta.
  destruct (segment_tcp_sized dst src sq (tx_acknowledgement s) w is_fin) as [Hsz Hoff].
  destruct (send_transport_ok (sa_ip dst) (sa_ip src) _ _ _ _ (Some segment) f (transport_tcp _ Hsz))
    as (f1 & r & E1 & Hr & Hss & _).
  { rewrite Hoff. simpl. lia. }
  assert (Hsg : segment_ok dst src mss sequence payload is_fin i
    (mkIndicator (LEthernet (ethernet_of f (sa_ip src)))
       (Some (LIpv4 (ipv4_of (fw_identification f (sa_ip dst) (sa_ip src)) 0 0 protocol_tcp (sa_ip dst) (sa_ip src))))
       (Some (LTcp (tcp_set_ipv4_layer (segment_tcp dst src sq (tx_acknowledgement s) w is_fin)
          (ipv4_of (fw_identification f (sa_ip dst) (sa_ip src)) 0 0 protocol_tcp (sa_ip dst) (sa_ip src))))), segment)).
  { constructor; cbn [fst snd]; [done|simpl; lia|apply segment_frame_len|].
    eexists. split; [reflexivity|]. destruct dst, src, is_fin; repeat split. }
  destruct Hr as [|e He].
  2: { rewrite (fm_bind_Err _ _ _ _ _ E1). eexists f1, _, (Err e). split; [done|]. split; [by constructor|].
       split; [by eapply sent_step_conn|exact Hsg]. }
  rewrite (fm_bind_Ok _ _ _ _ _ E1).
  destruct (update_sequence_ok (src, dst) rn' f1 s) as (f2 & s2 & -> & Hs2 & Hf2);
    [by rewrite (ss_states _ _ _ Hss)|done|done|].
  eexists f2, _, (Ok tt). split; [done|]. split; [constructor|]. split; [|exact Hsg]. destruct Hss.
  exists s, s2. subst f2. cbn. rewrite ss_states0. do 5 (split; [done|]). done.
Qed.

Lemma conn_step_refl key f s :
  fw_states f !! key = Some s -> is_u32 (tx_sequence s) -> conn_step key f f [].
Proof.
  intros Hs Hu. exists s, s. split; [done|]. split; [by apply same_but_sequence_refl|].
  by rewrite insert_id, app_nil_r.
Qed.

(** The state after a step of the connection. *)
Lemma conn_step_state key f f' l s :
  conn_step key f f' l -> fw_states f !! key = Some s ->
  exists s', fw_states f' !! key = Some s' /\ same_but_sequence s s'.
Proof.
  intros (t & s' & Ht & H & E & _) Hs. rewrite Hs in Ht. injection Ht as <-.
  exists s'. by rewrite E, lookup_insert_eq.
Qed.

(** The payloads of frames, one behind the other. *)
Definition bytes_sent (l : list (Indicator * list byte)) : list byte := concat (map snd l).

Lemma bytes_sent_app l k : bytes_sent (l ++ k) = bytes_sent l ++ bytes_sent k.
Proof. unfold bytes_sent. by rewrite map_app, concat_app. Qed.

(** The loop sends one frame for each segment from [i] on. *)
Lemma send_segments_ok fuel dst src mss sequence payload is_fin i f s :
  fw_states f !! (src, dst) = Some s -> is_u32 (tx_sequence s) -> is_u32 sequence ->
  1 <= mss -> mss + 40 <= u16_max -> 0 <= i -> len payload - i * mss < Z.of_nat fuel -> 0 < Z.of_nat fuel ->
  exists f' segs r, send_segments fuel dst src mss sequence payload is_fin i f = Done (f', r) /\ answered r
    /\ conn_step (src, dst) f f' segs
    /\ Forall2 (segment_ok dst src mss sequence payload is_fin) (seqZ i (len segs)) segs
    /\ bytes_sent segs `prefix_of` zdrop (i * mss) payload
    /\ (r = Ok tt -> bytes_sent segs = zdrop (i * mss) payload).
Proof.
  intros Hs Hu Hseq Hm Hmax. revert i f s Hs Hu. induction fuel as [|fuel IH]; intros i f s Hs Hu Hi Hfuel Hpos;
    [lia|].
  cbn [send_segments]. rewrite (Z.mul_comm mss i). destruct (Z.ltb_spec (i * mss) (len payload)) as [Hlt|Hge].
  - destruct (send_segment_ok dst src mss sequence payload is_fin i f s) as (f1 & x & r & E1 & Hr & H1 & Hx);
      [done|done|done|lia|lia|lia|lia|].
    assert (Hcut : zdrop (i * mss) payload = x.2 ++ zdrop ((i + 1) * mss) payload).
    { destruct Hx as [-> _ _ _]. replace ((i + 1) * mss) with (i * mss + mss) by lia.
      rewrite <- zdrop_zdrop by lia. symmetry. apply ztake_zdrop. }
    destruct Hr as [|e He].
    2: { rewrite (fm_bind_Err _ _ _ _ _ E1). exists f1, [x], (Err e). split; [done|]. split; [by constructor|].
         split; [done|]. split; [change (len [x]) with 1; rewrite seqZ_cons by lia; by apply List.Forall2_cons|]. split; [|done].
         rewrite Hcut. unfold bytes_sent. cbn. rewrite app_nil_r. by eexists. }
    rewrite (fm_bind_Ok _ _ _ _ _ E1). destruct (conn_step_state _ _ _ _ _ H1 Hs) as (s1 & Hs1 & Hsb).
    destruct (IH (i + 1) f1 s1) as (f2 & segs & r & E2 & Hr & H2 & Hall & Hpre & Hcat);
      [done|by eapply same_but_sequence_u32|lia|lia|lia|].
    rewrite E2. exists f2, (x :: segs), r. split; [done|]. split; [done|].
    split; [by apply (conn_step_trans _ f f1 f2 [x] segs)|]. pose proof (len_nonneg segs). split; [|split].
    + rewrite len_cons, seqZ_cons by lia. constructor; [done|].
      replace (Z.succ i) with (i + 1) by lia. by replace (Z.pred (1 + len segs)) with (len segs) by lia.
    + rewrite Hcut. by apply prefix_app.
    + intros Hok. rewrite Hcut, <- (Hcat Hok). done.
  - exists f, [], (Ok tt). split; [done|]. split; [constructor|]. split; [by eapply conn_step_refl|].
    split; [constructor|]. rewrite zdrop_all by lia. done.
Qed.

(** What [send_tcp_ack_raw] sends. *)
Lemma send_tcp_ack_raw_ok dst src sequence payload is_fin f s :
  fw_states f !! (src, dst) = Some s -> is_u32 (tx_sequence s) -> is_u32 sequence ->
  41 <= fw_mtu_of f (sa_ip src) <= u16_max ->
  let mss := fw_mtu_of f (sa_ip src) - 40 in
  exists f' segs r, send_tcp_ack_raw dst src sequence payload is_fin f = Done (f', r) /\ answered r
    /\ conn_step (src, dst) f f' segs
    /\ Forall2 (segment_ok dst src mss sequence payload is_fin) (seqZ 0 (len segs)) segs
    /\ bytes_sent segs `prefix_of` payload /\ (r = Ok tt -> bytes_sent segs = payload).
Proof.
  intros Hs Hu Hseq Hmtu mss. unfold send_tcp_ack_raw.
  erewrite fm_bind_Ok by reflexivity.
  erewrite fm_bind_Ok by (apply fm_lift_Done; apply int_sub_Done; unfold ipv4_minimum_len, tcp_minimum_len; lia).
  change (fw_mtu_of f (sa_ip src) - (ipv4_minimum_len + tcp_minimum_len)) with mss.
  destruct (send_segments_ok (S (length payload)) dst src mss sequence payload is_fin 0 f s)
    as (f' & segs & r & E & Hr & H1 & H2 & H3 & H4); try done; unfold len, mss in *; try lia.
  rewrite Z.mul_0_l, zdrop_0 in H3, H4 by lia. by exists f', segs, r.
Qed.

(** *** Fragmentation *)

Definition fragment_indicator (f : Forwarder) (dst src : Ipv4Addr) (flags offset : Z) : Indicator :=
  mkIndicator (LEthernet (ethernet_of f src))
    (Some (LIpv4 (ipv4_of (fw_identification f dst src) flags offset protocol_udp dst src))) None.

Lemma fragment_indicator_ok f dst src flags offset :
  frame_ok (fragment_indicator f dst src flags offset) 20 0.
Proof.
  constructor; simpl; [eauto|eexists; split; [done|apply ipv4_of_ok]|done|ilia].
Qed.

Lemma send_fragment_ok dst src offset payload f :
  20 + len payload <= u16_max ->
  exists f' x, send_ipv4_with_fragment dst src LK_Udp offset payload f = Done (f', x) /\ answered x
    /\ sent_step f f' [(fragment_indicator f dst src flag_more_fragments offset, payload)]
    /\ fw_ipv4_identification_map f' = fw_ipv4_identification_map f.
Proof.
  intros Hp. apply (fw_send_with_payload_ok _ 20 0); [apply fragment_indicator_ok|lia].
Qed.

Lemma send_last_fragment_ok dst src offset payload f :
  20 + len payload <= u16_max ->
  exists f' x, send_ipv4_with_last_fragment dst src LK_Udp offset payload f = Done (f', x) /\ answered x
    /\ sent_step f f' [(fragment_indicator f dst src 0 offset, payload)].
Proof.
  intros Hp. destruct (fw_send_with_payload_ok (fragment_indicator f dst src 0 offset) 20 0 payload f)
    as (f1 & x & E1 & Hx & Hss & Hid); [apply fragment_indicator_ok|lia|].
  assert (E : send_ipv4_with_last_fragment dst src LK_Udp offset payload f =
    (_ ← fw_send_with_payload (fragment_indicator f dst src 0 offset) payload;
     fm_update (fun f => increase_ipv4_identification f dst src)) f) by reflexivity.
  rewrite E. destruct Hx as [|e He].
  - rewrite (fm_bind_Ok _ _ _ _ _ E1). eexists _, (Ok tt). split; [reflexivity|]. split; [constructor|].
    destruct Hss. by constructor.
  - rewrite (fm_bind_Err _ _ _ _ _ E1). exists f1, (Err e). split; [done|]. by split; [constructor|].
Qed.

(** The length of the fragment at [n], as the loop computes it, and whether
    another one follows. *)
Lemma fragment_length size n mss :
  n < size -> 16 <= mss ->
  let length := Z.min (size - n) mss in
  let remain := size - n - length in
  let '(length, remain) :=
    if 0 <? remain then let length := length / 8 * 8 in (length, size - n - length)
    else (length, remain) in
  exists k, (if (0 <? remain) && (remain <? 8) then int_sub length 8 else mret length) = Done k
    /\ 0 < k <= mss /\ n + k <= size
    /\ (if 0 <? remain then n + k < size /\ k mod 8 = 0 else n + k = size).
Proof.
  intros Hn Hm length remain.
  destruct (Z.ltb_spec 0 remain) as [Hr|Hr].
  - assert (Hl : length = mss) by (unfold length, remain in *; lia). rewrite Hl.
    pose proof (Z.div_mod mss 8 ltac:(lia)). pose proof (Z.mod_pos_bound mss 8 ltac:(lia)).
    set (m := mss / 8) in *. unfold remain in Hr. rewrite Hl in Hr.
    cbv beta iota zeta. destruct (Z.ltb_spec 0 (size - n - m * 8)); [|lia]. cbn [andb].
    destruct (Z.ltb_spec (size - n - m * 8) 8).
    + exists (m * 8 - 8). split; [apply int_sub_Done; lia|].
      replace (m * 8 - 8) with ((m - 1) * 8) by lia. rewrite Z.mod_mul by lia. lia.
    + exists (m * 8). rewrite Z.mod_mul by lia. split; [done|]. lia.
  - exists length. cbv beta iota. destruct (Z.ltb_spec 0 remain); [lia|]. unfold length, remain in *. split; [done|]. lia.
Qed.

(** A frame is the fragment at [r] of [data] in the packet [id]. *)
Definition udp_fragment (dst src : Ipv4Addr) (id mss : Z) (data : list byte) (x : Indicator * list byte)
    (r : Z * Z) : Prop :=
  fragment_of data x.1 x.2 r /\ len x.2 <= mss
  /\ exists ethernet ipv4, indicator_ethernet x.1 = Some ethernet /\ indicator_ipv4 x.1 = Some ipv4
     /\ ethernet_len ethernet = 14 /\ layer_len ipv4 = Done 20
     /\ defrag_key ipv4 = (dst, src, LK_Ipv4, id) /\ ipv4_next_level_protocol ipv4 = protocol_udp.

(** A frame with 34 bytes in front of the payload is an arrival. *)
Lemma udp_fragment_frame dst src id mss data now header x r :
  udp_fragment dst src id mss data x r -> len header = 34 -> len data <= u16_max ->
  fragment_frame data (dst, src, LK_Ipv4, id) now (now, x.1, header ++ x.2) r.
Proof.
  intros (Hx & Hl & e & i & Ee & Ei & He & Hi & Hkey & _) Hh Hd. exists e, i, 20.
  rewrite He, len_app, Hh, zdrop_app by done. pose proof (len_nonneg x.2).
  assert (len x.2 <= len data) by (destruct Hx as (? & _ & -> & ? & ? & _); simpl in *; lia).
  do 4 (split; [done|]). split; [lia|]. split; [ilia|]. split; [done|].
  unfold elapsed. rewrite Z.sub_diag. by vm_compute.
Qed.

Lemma fragment_indicator_spec f dst src id flags n k mss data :
  fw_identification f dst src = id -> 0 <= n -> n mod 8 = 0 -> 0 <= k <= mss -> n + k <= len data ->
  len data <= u16_max -> negb (Z.land flags flag_more_fragments =? 0) = (n + k <? len data) ->
  udp_fragment dst src id mss data
    (fragment_indicator f dst src flags (as_u16 (n / 8)), ztake k (zdrop n data)) (n, n + k).
Proof.
  intros Hid Hn H8 Hk Hnk Hd Hfl.
  assert (Hlen : len (ztake k (zdrop n data)) = k) by (rewrite len_ztake, len_zdrop; lia).
  assert (Hoff : as_u16 (n / 8) * 8 = n).
  { pose proof (Z.div_mod n 8 ltac:(lia)). rewrite as_u16_id; [lia|].
    split; [apply Z.div_pos; lia|apply Z.div_le_upper_bound; ilia]. }
  split; [|split; [simpl; lia|]].
  - eexists. split; [reflexivity|].
    change (ipv4_fragment_offset _) with (as_u16 (n / 8)). cbn [fst snd]. rewrite Hoff, Hlen.
    split; [done|]. split; [lia|]. split; [lia|]. split; [done|]. exact Hfl.
  - eexists _, _. split; [reflexivity|]. split; [reflexivity|].
    split; [unfold ethernet_len; by rewrite law_ethernet_size|]. split; [by apply ipv4_len_ok|].
    rewrite <- Hid. done.
Qed.

Lemma sent_step_trans f f' f'' l l' :
  sent_step f f' l -> sent_step f' f'' l' -> sent_step f f'' (l ++ l').
Proof. intros [] []. constructor; try congruence. rewrite ss_sent1, ss_sent0. by rewrite app_assoc. Qed.

(** One turn of the loop: the fragment at [n] and the position of the next. *)
Lemma send_fragments_step fuel dst src mss data n f :
  len data <= u16_max -> 16 <= mss -> mss + 20 <= u16_max -> 0 <= n < len data -> n mod 8 = 0 ->
  exists k f1 x r,
    send_fragments (S fuel) dst src mss (len data) data n f
      = match r with
        | Ok _ => send_fragments fuel dst src mss (len data) data (n + k) f1
        | Err e => Done (f1, Err e)
        end
    /\ answered r /\ 0 < k /\ n + k <= len data /\ (n + k = len data \/ (n + k) mod 8 = 0)
    /\ sent_step f f1 [x]
    /\ udp_fragment (sa_ip dst) (sa_ip src) (fw_identification f (sa_ip dst) (sa_ip src)) mss data x (n, n + k)
    /\ (n + k < len data ->
        fw_identification f1 (sa_ip dst) (sa_ip src) = fw_identification f (sa_ip dst) (sa_ip src)).
Proof.
  intros Hd Hm Hmax Hn H8. cbn [send_fragments]. destruct (Z.ltb_spec n (len data)); [|lia].
  pose proof (fragment_length (len data) n mss ltac:(lia) Hm) as Hlen. cbv zeta in Hlen |- *.
  match goal with |- context [let '(_, _) := ?p in _] => destruct p as [length remain] end.
  destruct Hlen as (k & Ek & Hk & Hnk & Hlast).
  assert (E : (if (0 <? remain) && (remain <? 8) then fm_lift (int_sub length 8) else mret length) f
    = Done (f, Ok k)).
  { destruct (_ && _); [by apply fm_lift_Done|]. injection Ek as ->. reflexivity. }
  rewrite (fm_bind_Ok _ _ _ _ _ E).
  erewrite fm_bind_Ok by (apply fm_lift_Done; apply slice_Done; lia).
  replace (n + k - n) with k by lia. set (p := ztake k (zdrop n data)).
  assert (Hp : len p = k) by (unfold p; rewrite len_ztake, len_zdrop; lia).
  destruct (Z.ltb_spec 0 remain).
  - destruct (send_fragment_ok (sa_ip dst) (sa_ip src) (as_u16 (n / 8)) p f) as (f1 & r & E1 & Hr & Hss & Hid); [lia|].
    eexists k, f1, _, r. split; [by rewrite (fm_bind_result _ _ _ _ _ E1)|]. split; [done|]. split; [lia|]. split; [lia|].
    split; [right; rewrite Z.add_mod, H8 by lia; destruct Hlast as [_ ->]; done|]. split; [done|].
    split; [|intros _; unfold fw_identification; by rewrite Hid].
    apply fragment_indicator_spec; try done; try lia. destruct (Z.ltb_spec (n + k) (len data)); [done|lia].
  - destruct (send_last_fragment_ok (sa_ip dst) (sa_ip src) (as_u16 (n / 8)) p f) as (f1 & r & E1 & Hr & Hss); [lia|].
    eexists k, f1, _, r. split; [by rewrite (fm_bind_result _ _ _ _ _ E1)|]. split; [done|]. split; [lia|]. split; [lia|].
    split; [by left|]. split; [done|]. split; [|lia].
    apply fragment_indicator_spec; try done; try lia. destruct (Z.ltb_spec (n + k) (len data)); [lia|done].
Qed.

Lemma send_fragments_ok fuel dst src mss data n f id :
  len data <= u16_max -> 16 <= mss -> mss + 20 <= u16_max -> 0 <= n <= len data ->
  (n = len data \/ n mod 8 = 0) -> len data - n < Z.of_nat fuel ->
  (n < len data -> fw_identification f (sa_ip dst) (sa_ip src) = id) ->
  exists f' frags ranges m r,
    send_fragments fuel dst src mss (len data) data n f = Done (f', r) /\ answered r
    /\ sent_step f f' frags
    /\ Forall2 (udp_fragment (sa_ip dst) (sa_ip src) id mss data) frags ranges
    /\ chain n ranges m /\ (r = Ok tt -> m = len data).
Proof.
  intros Hd Hm Hmax. revert n f. induction fuel as [|fuel IH]; intros n f Hn H8 Hfuel Hid; [lia|].
  destruct (Z.lt_ge_cases n (len data)) as [Hlt|Hge].
  - destruct (send_fragments_step fuel dst src mss data n f) as (k & f1 & x & r & -> & Hr & Hk & Hnk & H8' & Hss & Hx & Hid');
      [done..|lia|by destruct H8; [lia|]|].
    rewrite (Hid Hlt) in Hx, Hid'. destruct Hr as [|e He].
    2: { exists f1, [x], [(n, n + k)], (n + k), (Err e). split; [done|]. split; [by constructor|]. split; [done|].
         split; [by constructor|]. split; [simpl; lia|done]. }
    destruct (IH (n + k) f1) as (f' & frags & ranges & m & r & -> & Hr & Hss' & Hall & Hch & Hm'); [lia|done|lia|done|].
    exists f', (x :: frags), ((n, n + k) :: ranges), m, r. split; [done|]. split; [done|].
    split; [by apply (sent_step_trans f f1 f' [x] frags)|]. split; [by constructor|].
    split; [simpl; split; [done|]; split; [lia|done]|done].
  - exists f, [], [], n, (Ok tt). cbn [send_fragments]. destruct (Z.ltb_spec n (len data)); [lia|].
    split; [done|]. split; [constructor|]. split; [constructor; try done; by rewrite app_nil_r|].
    split; [constructor|]. split; [simpl; lia|lia].
Qed.

(** What [send_udp] sends when the datagram does not fit one packet. *)
Lemma send_udp_fragments_ok dst src payload f :
  let size := 8 + len payload in
  let mss := fw_mtu_of f (sa_ip src) - 20 in
  is_u16 (sa_port dst) -> is_u16 (sa_port src) ->
  size <= u16_max -> 36 <= fw_mtu_of f (sa_ip src) <= u16_max -> mss < size ->
  exists f' data frags ranges m r,
    send_udp dst src payload f = Done (f', r) /\ answered r
    /\ udp_datagram (sa_port dst) (sa_port src) payload data /\ sent_step f f' frags
    /\ Forall2 (udp_fragment (sa_ip dst) (sa_ip src) (fw_identification f (sa_ip dst) (sa_ip src)) mss data)
         frags ranges
    /\ chain 0 ranges m /\ (r = Ok tt -> m = size).
Proof.
  intros size mss Hpd Hps Hs Hmtu Hlt. unfold send_udp, usize_add. pose proof (len_nonneg payload).
  change udp_minimum_len with 8. change ipv4_minimum_len with 20.
  erewrite fm_bind_Ok by (apply fm_lift_Done; apply int_add_Done; ilia). fold size.
  erewrite fm_bind_Ok by reflexivity.
  erewrite fm_bind_Ok by (apply fm_lift_Done; apply int_sub_Done; lia). fold mss.
  destruct (Z.leb_spec size mss); [lia|]. cbv zeta.
  erewrite fm_bind_Ok by reflexivity.
  set (udp := udp_set_ipv4_layer _ _).
  assert (Hul : udp_len udp = 8) by (unfold udp_len; by rewrite law_udp_size). rewrite Hul.
  erewrite fm_bind_Ok by (apply fm_lift_Done; apply int_add_Done; ilia). fold size.
  destruct (udp_serialize_datagram udp (zeros size) payload size) as (data & E & Hl & Hd);
    [done|rewrite len_zeros; lia|done|]. rewrite len_zeros in Hl, Hd.
  specialize (Hd Hpd Hps ltac:(lia)).
  erewrite (fm_bind_Ok _ _ _ f data).
  2: { unfold fm_serialize. rewrite slice_Done by (rewrite ?len_zeros; lia). rewrite outcome_bind_Done.
       rewrite (zdrop_0 0), ztake_all by (rewrite ?len_zeros; lia). rewrite E, outcome_bind_Done.
       do 3 f_equal. rewrite zdrop_all by (rewrite len_zeros; lia). apply app_nil_r. }
  replace size with (len data) by lia.
  destruct (send_fragments_ok (S (Z.to_nat (len data))) dst src mss data 0 f
    (fw_identification f (sa_ip dst) (sa_ip src))) as (f' & frags & ranges & m & r & -> & Hr & Hss & Hall & Hch & Hm);
    try (unfold mss, size in *; lia); [by right|].
  exists f', data, frags, ranges, m, r. done.
Qed.

(** A group that holds the datagram gives back its ports and payload. *)
Lemma concatenate_datagram g src dst payload data :
  slice (fg_buffer g) 0 (fg_length g) = Done data -> udp_datagram src dst payload data ->
  ipv4_next_level_protocol (fg_ipv4 g) = protocol_udp ->
  exists u, fragmentation_concatenate g = Done (Some (LUdp u), payload)
    /\ udp_src u = src /\ udp_dst u = dst
    /\ udp_src_ip_addr u = ipv4_src (fg_ipv4 g) /\ udp_dst_ip_addr u = ipv4_dst (fg_ipv4 g).
Proof.
  intros Hsl [Hl Hp Hs Hd] Hpr. pose proof (len_nonneg payload).
  unfold fragmentation_concatenate. rewrite Hsl, outcome_bind_Done, Hpr.
  cbv zeta. unfold parse_transport. change (protocol_udp =? protocol_icmp) with false.
  change (protocol_udp =? protocol_tcp) with false. change (protocol_udp =? protocol_udp) with true. cbv iota.
  rewrite law_udp_min. destruct (Z.ltb_spec (len data) 8); [lia|].
  exists (udp_parse (udp_view data) (fg_ipv4 g)).
  assert (E : udp_len (udp_parse (udp_view data) (fg_ipv4 g)) = 8) by (unfold udp_len; by rewrite law_udp_size).
  change (opt_layer_len (Some (LUdp ?u))) with (Done (udp_len u)). rewrite E, outcome_bind_Done.
  destruct (slice_inv _ _ _ _ Hsl) as [Hb ->].
  assert (Hlen : fg_length g = len (ztake (fg_length g - 0) (zdrop 0 (fg_buffer g))))
    by (rewrite len_ztake, len_zdrop; lia).
  rewrite slice_Done, outcome_bind_Done by lia. split; [|done]. do 3 f_equal.
  rewrite <- Hp, zdrop_ztake, Z.sub_0_r, (zdrop_0 0) by lia. done.
Qed.

(** The fragments, in whatever order, make a [Defraggler] answer a group that
    holds the datagram. *)
Lemma fragments_defrag (dst src : SocketAddrV4) id mss data frags ranges now header arrivals :
  0 < len data <= u16_max ->
  Forall2 (udp_fragment (sa_ip dst) (sa_ip src) id mss data) frags ranges -> chain 0 ranges (len data) ->
  len header = 34 -> map (fun x => (now, x.1, header ++ x.2)) frags ≡ₚ arrivals ->
  exists d g, defraggler_run defraggler_new arrivals
      = Done (d, replicate (length arrivals - 1) None ++ [Some g])
    /\ slice (fg_buffer g) 0 (fg_length g) = Done data
    /\ ipv4_next_level_protocol (fg_ipv4 g) = protocol_udp
    /\ (ipv4_src (fg_ipv4 g), ipv4_dst (fg_ipv4 g)) = (sa_ip dst, sa_ip src).
Proof.
  intros Hd Hall Hch Hh Hperm. set (key := (sa_ip dst, sa_ip src, LK_Ipv4, id) : frag_key).
  assert (Hfr : Forall2 (fragment_frame data key now) (map (fun x => (now, x.1, header ++ x.2)) frags) ranges).
  { clear -Hall Hh Hd L. induction Hall as [|x r frags ranges Hx _ IH]; constructor; [|done].
    apply (udp_fragment_frame (sa_ip dst) (sa_ip src) id mss); [done|done|lia]. }
  destruct (Permutation_Forall2 Hperm Hfr) as (ranges' & Hp' & Hfr').
  set (Q := fun i : Ipv4 => ipv4_next_level_protocol i = protocol_udp /\ (ipv4_src i, ipv4_dst i) = (sa_ip dst, sa_ip src)).
  assert (HQ : Forall (fun a : arrival => of_header Q a.1.2) arrivals).
  { rewrite <- Hperm. apply Forall_map. clear -Hall. induction Hall as [|x r frags ranges Hx _ IH]; constructor; [|done].
    intros ipv4 Hi. destruct Hx as (_ & _ & e & i & _ & Ei & _ & _ & Hkey & Hpr). cbn [fst snd] in Hi.
    rewrite Ei in Hi. injection Hi as <-. split; [done|]. unfold defrag_key in Hkey. by injection Hkey as -> -> _. }
  destruct (defrag_run_state Q data key now ∅ [] arrivals ranges' defraggler_new) as (d & g & k & Er & _ & Hg & Hk & Hq1 & Hq2);
    [lia|done| |by exists ranges|by left|done| |done|].
  { intros ->. apply Permutation_nil_r in Hp'. subst. simpl in Hch. lia. }
  { intros _ a rest ->. assert (Ha : a ∈ map (fun x => (now, x.1, header ++ x.2)) frags) by (rewrite Hperm; left).
    apply list_elem_of_fmap in Ha as (x & -> & _). done. }
  exists d, g. split; [done|]. split; [apply (frag_inv_datagram data k); [lia|done|done]|done].
Qed.

(** *** Selective retransmission *)

(** Ranges of sequence numbers as offsets from [s]. *)
Definition at_offsets (s : Z) (r : Z * Z) : Z * Z := (seq_add s r.1, seq_add s r.2).

(** The offset [x] is in one of the ranges. *)
Definition in_ranges (x : Z) (l : list (Z * Z)) : Prop := exists r, r ∈ l /\ r.1 <= x < r.2.

(** A range of offsets up to [n]. *)
Definition range_upto (n : Z) (r : Z * Z) : Prop := 0 <= r.1 <= r.2 /\ r.2 <= n.

(** A range inside the largest window. *)
Definition window_range : Z * Z -> Prop := range_upto MAX_U32_WINDOW_SIZE.

Lemma in_ranges_cons x r l : in_ranges x (r :: l) <-> r.1 <= x < r.2 \/ in_ranges x l.
Proof.
  split.
  - intros (q & [->|Hq]%elem_of_cons & H); [by left|right; by exists q].
  - intros [H|(q & Hq & H)]; [exists r; split; [left|done]|exists q; split; [by right|done]].
Qed.
Lemma in_ranges_nil x : in_ranges x [] <-> False.
Proof. split; [|done]. intros (r & Hr & _). by apply elem_of_nil in Hr. Qed.
Lemma in_ranges_app x l k : in_ranges x (l ++ k) <-> in_ranges x l \/ in_ranges x k.
Proof.
  split.
  - intros (q & [Hq|Hq]%elem_of_app & H); [left|right]; by exists q.
  - intros [(q & Hq & H)|(q & Hq & H)]; exists q; (split; [apply elem_of_app; auto|done]).
Qed.

(** The ranges [l] are the difference that [Hfin] asks for. *)
Ltac pick l Hfin := apply (Hfin l);
  [repeat (apply List.Forall_cons; [unfold range_upto; cbn [fst snd]; lia|]); apply List.Forall_nil
  |intros x; rewrite ?in_ranges_cons, in_ranges_nil; cbn [fst snd]; lia].

(** [disjoint_u32_range] is the difference of two ranges. *)
Lemma disjoint_u32_range_difference s n main sub :
  is_u32 s -> n <= MAX_U32_WINDOW_SIZE -> range_upto n main -> window_range sub ->
  exists l, disjoint_u32_range (at_offsets s main) (at_offsets s sub) = map (at_offsets s) l
    /\ Forall (range_upto n) l
    /\ forall x, in_ranges x l <-> main.1 <= x < main.2 /\ ~ (sub.1 <= x < sub.2).
Proof.
  destruct main as [a b], sub as [c e]. unfold window_range, range_upto at 1 2. cbn [fst snd].
  intros Hs Hmax Hm Hn. unfold disjoint_u32_range, at_offsets. cbn [fst snd].
  rewrite !seq_sub_add_add by (done || cap_lia).
  assert (Hfin : forall l, Forall (range_upto n) l ->
    (forall x, in_ranges x l <-> a <= x < b /\ ~ (c <= x < e)) ->
    exists l', map (at_offsets s) l = map (at_offsets s) l' /\ Forall (range_upto n) l'
      /\ forall x, in_ranges x l' <-> a <= x < b /\ ~ (c <= x < e)) by eauto.
  assert (Hbig : forall k, 0 < k <= MAX_U32_WINDOW_SIZE -> MAX_U32_WINDOW_SIZE < u32_max - k) by cap_lia.
  destruct (Z.leb_spec a c) as [Hac|Hac].
  - destruct (Z.leb_spec (c - a) MAX_U32_WINDOW_SIZE); [|lia].
    destruct (Z.leb_spec b e) as [Hbe|Hbe].
    + destruct (Z.ltb_spec MAX_U32_WINDOW_SIZE (e - b)); [lia|].
      destruct (Z.leb_spec a b); [|lia].
      destruct (Z.leb_spec (b - a) (c - a)); [pick [(a, b)] Hfin|pick [(a, c)] Hfin].
    + destruct (Z.ltb_spec MAX_U32_WINDOW_SIZE (u32_max - (b - e))); [pick [(a, c); (e, b)] Hfin|].
      specialize (Hbig (b - e)). lia.
  - destruct (Z.leb_spec (u32_max - (a - c)) MAX_U32_WINDOW_SIZE); [specialize (Hbig (a - c)); lia|].
    destruct (Z.leb_spec b e) as [Hbe|Hbe].
    + destruct (Z.ltb_spec MAX_U32_WINDOW_SIZE (e - b)); [lia|pick (@nil (Z * Z)) Hfin].
    + destruct (Z.ltb_spec MAX_U32_WINDOW_SIZE (u32_max - (b - e))); [|specialize (Hbig (b - e)); lia].
      destruct (Z.leb_spec a e).
      * destruct (Z.ltb_spec MAX_U32_WINDOW_SIZE (e - a)); [lia|pick [(e, b)] Hfin].
      * destruct (Z.ltb_spec MAX_U32_WINDOW_SIZE (u32_max - (a - e))); [pick [(a, b)] Hfin|].
        specialize (Hbig (a - e)). lia.
Qed.

(** The ranges that remain are those that no SACK covers. *)
Lemma concat_difference s n sub l :
  is_u32 s -> n <= MAX_U32_WINDOW_SIZE -> window_range sub -> Forall (range_upto n) l ->
  exists l', concat (map (fun range => disjoint_u32_range range (at_offsets s sub)) (map (at_offsets s) l))
      = map (at_offsets s) l'
    /\ Forall (range_upto n) l'
    /\ forall x, in_ranges x l' <-> in_ranges x l /\ ~ (sub.1 <= x < sub.2).
Proof.
  intros Hs Hn Hsub. induction 1 as [|r l Hr Hl (l' & E & Hl' & Hx)].
  - exists []. split; [done|]. split; [constructor|]. intros x. rewrite in_ranges_nil. tauto.
  - destruct (disjoint_u32_range_difference s n r sub Hs Hn Hr Hsub) as (k & Ek & Hk & Hkx).
    exists (k ++ l'). cbn [map concat]. rewrite Ek, E, map_app. split; [done|].
    split; [by apply Forall_app|]. intros x. rewrite in_ranges_app, in_ranges_cons, Hkx, Hx. tauto.
Qed.

Lemma unsacked_ranges_ok s n sacks :
  is_u32 s -> 0 <= n <= MAX_U32_WINDOW_SIZE -> Forall window_range sacks ->
  exists l, unsacked_ranges s (seq_add s n) (map (at_offsets s) sacks) = map (at_offsets s) l
    /\ Forall (range_upto n) l
    /\ forall x, in_ranges x l <-> 0 <= x < n /\ ~ in_ranges x sacks.
Proof.
  intros Hs Hn Hsacks. unfold unsacked_ranges.
  assert (Hgen : forall sacks, Forall window_range sacks -> forall l, Forall (range_upto n) l ->
    exists l', foldl (fun ranges sack => concat (map (fun range => disjoint_u32_range range sack) ranges))
        (map (at_offsets s) l) (map (at_offsets s) sacks) = map (at_offsets s) l'
      /\ Forall (range_upto n) l' /\ forall x, in_ranges x l' <-> in_ranges x l /\ ~ in_ranges x sacks).
  { clear -Hs Hn. induction 1 as [|sub sacks Hsub _ IH]; intros l Hl.
    - exists l. split; [done|]. split; [done|]. intros x. rewrite (in_ranges_nil x). tauto.
    - cbn [map foldl]. destruct (concat_difference s n sub l Hs ltac:(lia) Hsub Hl) as (k & -> & Hk & Hkx).
      destruct (IH k Hk) as (l' & E & Hl' & Hx). exists l'. split; [done|]. split; [done|].
      intros x. rewrite Hx, Hkx, in_ranges_cons. tauto. }
  destruct (Hgen sacks Hsacks [(0, n)]) as (l & E & Hl & Hx).
  { apply List.Forall_cons; [unfold range_upto; cbn [fst snd]; lia|apply List.Forall_nil]. }
  change (map (at_offsets s) [(0, n)]) with [at_offsets s (0, n)] in E. unfold at_offsets at 1 in E.
  cbn [fst snd] in E. rewrite seq_add_0 in E by done. exists l. split; [done|]. split; [done|].
  intros x. rewrite Hx, in_ranges_cons, in_ranges_nil. cbn [fst snd]. tauto.
Qed.

(** A step of the connection keeps its cache. *)
Lemma same_but_sequence_cache s s' :
  same_but_sequence s s' -> tx_cache s' = tx_cache s /\ tx_cache_fin s' = tx_cache_fin s.
Proof. intros (n & _ & ->). by destruct s. Qed.

Lemma conn_step_mtu key f f' l ip : conn_step key f f' l -> fw_mtu_of f' ip = fw_mtu_of f ip.
Proof. intros (? & ? & _ & _ & _ & _ & Hm & Hl). unfold fw_mtu_of. by rewrite Hm, Hl. Qed.

(** The bytes of the cache at a range of offsets. *)
Definition cache_bytes (q : Queue) (r : Z * Z) : list byte := ztake (r.2 - r.1) (zdrop r.1 (queue_content q)).

Lemma resend_ok dst src sequence payload is_fin f s :
  fw_states f !! (src, dst) = Some s -> is_u32 (tx_sequence s) -> is_u32 sequence ->
  41 <= fw_mtu_of f (sa_ip src) <= u16_max ->
  exists f' segs r, (if 0 <? len payload then
      if is_fin : bool then send_tcp_ack_raw dst src sequence payload true
      else send_tcp_ack_raw dst src sequence payload false
    else mret tt) f = Done (f', r) /\ answered r
    /\ conn_step (src, dst) f f' segs /\ bytes_sent segs `prefix_of` payload
    /\ (r = Ok tt -> bytes_sent segs = payload).
Proof.
  intros Hs Hu Hseq Hmtu. destruct (Z.ltb_spec 0 (len payload)).
  - destruct (send_tcp_ack_raw_ok dst src sequence payload is_fin f s) as (f1 & segs & r & E & ? & ? & _ & ? & ?); [done..|].
    exists f1, segs, r. by destruct is_fin.
  - exists f, [], (Ok tt). split; [done|]. split; [constructor|]. split; [by eapply conn_step_refl|].
    rewrite (len_0 payload) by (pose proof (len_nonneg payload); lia). done.
Qed.

(** The loop over the ranges sends their bytes. *)
Lemma retransmit_ranges_ok dst src recv_next l f s :
  fw_states f !! (src, dst) = Some s -> is_u32 (tx_sequence s) -> queue_wf (tx_cache s) ->
  41 <= fw_mtu_of f (sa_ip src) <= u16_max ->
  q_size (tx_cache s) <= MAX_U32_WINDOW_SIZE -> Forall (range_upto (q_size (tx_cache s))) l ->
  exists f' segs x,
    retransmit_ranges dst src recv_next (map (at_offsets (q_sequence (tx_cache s))) l) f = Done (f', x)
    /\ answered x /\ conn_step (src, dst) f f' segs
    /\ bytes_sent segs `prefix_of` concat (map (cache_bytes (tx_cache s)) l)
    /\ (x = Ok tt -> bytes_sent segs = concat (map (cache_bytes (tx_cache s)) l)).
Proof.
  revert f s. induction l as [|r l IH]; intros f s Hs Hu Hq Hmtu Hmax Hl.
  - exists f, [], (Ok tt). split; [done|]. split; [constructor|]. split; [by eapply conn_step_refl|done].
  - inversion_clear Hl as [|? ? [Hr Hsz] Hl']. pose proof Hq as [Hq0 Hcap _ _ _ _].
    cbn [map retransmit_ranges]. unfold at_offsets at 1 2 3 4 5 6 7. cbn [fst snd].
    rewrite !seq_sub_add_add by (done || cap_lia). destruct (Z.leb_spec r.1 r.2); [|lia].
    rewrite (fm_bind_Ok _ _ _ _ _ (fm_state_Done _ _ _ Hs)).
    rewrite queue_get_ok by (done || lia). erewrite fm_bind_Ok by by apply fm_lift_Done.
    fold (cache_bytes (tx_cache s) r). cbv iota beta.
    destruct (resend_ok dst src (seq_add (q_sequence (tx_cache s)) r.1) (cache_bytes (tx_cache s) r)
      ((seq_add (q_sequence (tx_cache s)) r.2 =? recv_next) && bool_decide (is_Some (tx_cache_fin s))) f s)
      as (f1 & segs1 & x1 & E1 & Hx & H1 & Hp1 & Hb1); [done|done|apply seq_add_u32; [done|cap_lia]|done|].
    destruct Hx as [|e He].
    2: { rewrite (fm_bind_Err _ _ _ _ _ E1). exists f1, segs1, (Err e). split; [done|]. split; [by constructor|].
         split; [done|]. split; [|done]. cbn [map concat]. by apply prefix_app_r. }
    specialize (Hb1 eq_refl). rewrite (fm_bind_Ok _ _ _ _ _ E1).
    destruct (conn_step_state _ _ _ _ _ H1 Hs) as (s1 & Hs1 & Hsb).
    destruct (same_but_sequence_cache _ _ Hsb) as [Ec _]. rewrite <- Ec.
    destruct (IH f1 s1) as (f2 & segs2 & y & E2 & Hy & H2 & Hp2 & Hb2);
      [done|by eapply same_but_sequence_u32|by rewrite Ec|by rewrite (conn_step_mtu _ _ _ _ _ H1)|by rewrite Ec|by rewrite Ec|].
    exists f2, (segs1 ++ segs2), y. split; [done|]. split; [done|]. split; [by eapply conn_step_trans|].
    cbn [map concat]. rewrite bytes_sent_app, Hb1, Ec in *. split; [by apply prefix_app|].
    intros Hok. by rewrite (Hb2 Hok).
Qed.

(** *** Segments without payload *)

Lemma send_bare_ok dst src tcp f :
  tcp_sized tcp ->
  exists f' ipv4 link x,
    send_ipv4_with_transport dst src (LTcp tcp) None f = Done (f', x) /\ answered x
    /\ sent_step f f' [(mkIndicator link (Some (LIpv4 ipv4)) (Some (LTcp (tcp_set_ipv4_layer tcp ipv4))), [])].
Proof.
  intros Ht. destruct (send_transport_ok dst src _ _ _ _ None f (transport_tcp _ Ht)) as (f' & x & E & Hx & Hss & _).
  { destruct Ht as (_ & ? & _). simpl. rewrite len_nil. ilia. }
  eexists f', _, _, x. split; [done|]. split; [done|exact Hss].
Qed.

(** A FIN without data at the sequence number of the connection. *)
Definition bare_fin (s : TcpTxState) (x : Indicator * list byte) : Prop :=
  x.2 = [] /\ exists tcp, indicator_tcp x.1 = Some tcp /\ tcp_is_fin tcp = true
    /\ tcp_sequence tcp = tx_sequence s.

Lemma send_tcp_fin_ok dst src f s :
  fw_states f !! (src, dst) = Some s ->
  exists f' x r, send_tcp_fin dst src f = Done (f', r) /\ answered r /\ sent_step f f' [x] /\ bare_fin s x.
Proof.
  intros Hs. unfold send_tcp_fin. rewrite (fm_bind_Ok _ _ _ _ _ (fm_state_Done _ _ _ Hs)).
  destruct (get_tcp_window_Done f dst src s Hs) as (w & Hw & _).
  erewrite fm_bind_Ok by (apply fm_lift_Done; exact Hw). cbv zeta.
  set (tcp := tcp_new_fin _ _ _ _ _ _).
  assert (Ht : tcp_sized tcp) by (apply tcp_with_flags_sized, tcp_new_ack_sized; done).
  destruct (send_bare_ok (sa_ip dst) (sa_ip src) tcp f Ht) as (f' & ipv4 & link & r & -> & Hr & Hss).
  exists f', (mkIndicator link (Some (LIpv4 ipv4)) (Some (LTcp (tcp_set_ipv4_layer tcp ipv4))), []), r.
  split; [done|]. split; [done|]. split; [done|]. split; [done|]. eexists. split; [reflexivity|]. split; reflexivity.
Qed.

(** *** Sending from the queue *)

(** Frames were sent for a connection, whose state went from [s] to [s']. *)
Definition state_step (key : conn_key) (f f' : Forwarder) (s' : TcpTxState)
    (l : list (Indicator * list byte)) : Prop :=
  fw_states f' = <[key := s']> (fw_states f) /\ fw_sent f' = fw_sent f ++ l
  /\ fw_src_mtu f' = fw_src_mtu f /\ fw_local_mtu f' = fw_local_mtu f.

Lemma put_state_step key s f :
  exists f', fm_put_state key s f = Done (f', Ok tt) /\ state_step key f f' s [].
Proof. eexists. split; [reflexivity|]. unfold state_step. cbn. by rewrite app_nil_r. Qed.

Lemma state_step_trans key f f' f'' s s' l l' :
  state_step key f f' s l -> state_step key f' f'' s' l' -> state_step key f f'' s' (l ++ l').
Proof.
  intros (E & Es & Em & El) (E' & Es' & Em' & El'). unfold state_step.
  rewrite E', E, insert_insert_eq, Es', Es, app_assoc, Em', El'. done.
Qed.

Lemma state_step_lookup key f f' s l : state_step key f f' s l -> fw_states f' !! key = Some s.
Proof. intros (E & _). by rewrite E, lookup_insert_eq. Qed.

Lemma state_step_mtu key f f' s l ip : state_step key f f' s l -> fw_mtu_of f' ip = fw_mtu_of f ip.
Proof. intros (_ & _ & Hm & Hl). unfold fw_mtu_of. by rewrite Hm, Hl. Qed.

Lemma conn_step_state_step key f f' l s :
  conn_step key f f' l -> fw_states f !! key = Some s ->
  exists s', state_step key f f' s' l /\ same_but_sequence s s'.
Proof.
  intros (t & s' & Ht & H & E & Hl & Hm & Hlm) Hs. rewrite Hs in Ht. injection Ht as <-.
  exists s'. done.
Qed.

Lemma same_but_sequence_wf s s' :
  same_but_sequence s s' -> tx_wf s -> tx_wf s' /\ tx_pending s' = tx_pending s.
Proof. intros (n & Hn & ->) H. split; [by apply tx_with_sequence_wf|by destruct s]. Qed.

Lemma send_size_ok f s src :
  tx_wf s -> 0 <= tx_send_window s -> 40 <= fw_mtu_of f (sa_ip src) ->
  exists n, send_size f s src = Done n /\ 0 <= n <= len (tx_queue s)
    /\ q_size (tx_cache s) + n <= Z.max (q_size (tx_cache s)) (tx_send_window s)
    /\ (q_size (tx_cache s) = 0 -> n = Z.min (Z.min (tx_send_window s) u16_max) (len (tx_queue s))).
Proof.
  intros [[_ _ _ Hz _ _]] Hw Hm. pose proof (len_nonneg (tx_queue s)). unfold send_size, queue_len.
  set (r := unwrap_or _ _). assert (Hr : r = Z.max 0 (tx_send_window s - q_size (tx_cache s))).
  { unfold r, checked_sub. zcase; simpl; lia. }
  change ENABLE_SEND_SWS_AVOID with true. cbv iota zeta. change (ipv4_minimum_len + tcp_minimum_len) with 40.
  ostep int_sub_Done by lia. eexists. split; [reflexivity|].
  unfold queue_is_empty, queue_len. destruct (Z.eqb_spec (q_size (tx_cache s)) 0); cbn [negb].
  - rewrite andb_false_r. ilia.
  - destruct (_ && _); ilia.
Qed.

(** What a connection may send: a good state, a window that its cache can
    hold, and an MTU with room for a byte of data. *)
Record can_send (f : Forwarder) (s : TcpTxState) (src : SocketAddrV4) : Prop := {
  cs_wf : tx_wf s;
  cs_window : 0 <= tx_send_window s <= q_capacity (tx_cache s);
  cs_mtu : 41 <= fw_mtu_of f (sa_ip src) <= u16_max
}.

(** The connection moved the bytes [moved] from the queue to the cache, within
    the window of the receiver, handed them in order to the device with the
    frames [l], all of them unless the device failed, and kept what is
    pending. *)
Record sent_from_queue (s s' : TcpTxState) (moved : list byte) (l : list (Indicator * list byte))
    (r : io_result unit) : Prop := {
  sq_wf : tx_wf s';
  sq_pending : tx_pending s' = tx_pending s;
  sq_cache : queue_content (tx_cache s') = queue_content (tx_cache s) ++ moved;
  sq_sent : bytes_sent l `prefix_of` moved;
  sq_all : r = Ok tt -> bytes_sent l = moved;
  sq_window : q_size (tx_cache s') <= Z.max (q_size (tx_cache s)) (tx_send_window s);
  (** With nothing in flight it takes whatever the window admits. *)
  sq_progress : q_size (tx_cache s) = 0 ->
    len moved = Z.min (Z.min (tx_send_window s) u16_max) (len (tx_queue s))
}.

Lemma tx_append_cache_fin_wf now s :
  tx_wf s -> tx_wf (tx_append_cache_fin now s) /\ tx_cache (tx_append_cache_fin now s) = tx_cache s
    /\ tx_queue (tx_append_cache_fin now s) = tx_queue s
    /\ tx_sequence (tx_append_cache_fin now s) = tx_sequence s.
Proof.
  intros H. assert (Hq : tx_wf (tx_with_queue_fin s false)) by (destruct H, s; by constructor).
  destruct (tx_update_fin_timer_wf now _ Hq) as (Hw & Hc & Hl). unfold tx_append_cache_fin.
  split; [done|]. rewrite Hc, Hl. unfold tx_update_fin_timer.
  destruct s as [? ? ? ? ? ? ? ? ? ? ? [] ? ? ? ? ? ?]; done.
Qed.

(** The state that is stored before the segments are sent. *)
Lemma fin_state_ok now (key : conn_key) (is_fin : bool) s f :
  fw_states f !! key = Some s -> tx_wf s ->
  exists f1 s1, (if is_fin then fm_put_state key (tx_append_cache_fin now s) else mret tt) f = Done (f1, Ok tt)
    /\ state_step key f f1 s1 [] /\ tx_wf s1 /\ tx_cache s1 = tx_cache s /\ tx_queue s1 = tx_queue s.
Proof.
  intros Hs Hwf. destruct is_fin.
  - destruct (put_state_step key (tx_append_cache_fin now s) f) as (f1 & E & H).
    destruct (tx_append_cache_fin_wf now s Hwf) as (? & ? & ? & _). by eauto 10.
  - exists f, s. split; [done|]. split; [|done]. unfold state_step. by rewrite insert_id, app_nil_r.
Qed.

Lemma send_queued_ok now dst src f s :
  fw_states f !! (src, dst) = Some s -> can_send f s src ->
  exists f' s' moved l r, send_queued now dst src f = Done (f', r) /\ answered r
    /\ state_step (src, dst) f f' s' l /\ sent_from_queue s s' moved l r.
Proof.
  intros Hs [Hwf Hw Hm]. pose proof (txwf_cache s Hwf) as [_ _ _ Hz _ _].
  assert (Hnone : (q_size (tx_cache s) = 0 -> 0 = Z.min (Z.min (tx_send_window s) u16_max) (len (tx_queue s))) ->
    exists f' s' moved l r, (mret tt : FM unit) f = Done (f', r) /\ answered r
      /\ state_step (src, dst) f f' s' l /\ sent_from_queue s s' moved l r).
  { intros H0. exists f, s, [], [], (Ok tt). split; [done|]. split; [constructor|].
    split; [unfold state_step; by rewrite insert_id, app_nil_r|].
    constructor; [done|done|by rewrite app_nil_r|done|done|lia|exact H0]. }
  pose proof (len_nonneg (tx_queue s)) as Hlq.
  unfold send_queued. rewrite (fm_bind_Ok _ _ _ _ _ (fm_state_Done _ _ _ Hs)).
  destruct (Z.ltb_spec 0 (tx_send_window s)); [|apply Hnone; ilia].
  destruct (send_size_ok f s src Hwf ltac:(lia) ltac:(lia)) as (n & En & Hn & Hnw & Hnp).
  erewrite fm_bind_Ok by (apply fm_lift_Done; exact En). destruct (Z.ltb_spec 0 n); [|apply Hnone; lia].
  destruct (tx_append_cache_ok now s n Hwf Hn ltac:(lia)) as (s1 & E1 & Hwf1 & Hc1 & Hq1 & Hsz1 & Es1).
  erewrite fm_bind_Ok by (apply fm_lift_Done; exact E1). cbv iota beta.
  destruct (put_state_step (src, dst) s1 f) as (f1 & Ef1 & H1). rewrite (fm_bind_Ok _ _ _ _ _ Ef1).
  set (is_fin := _ && _).
  destruct (fin_state_ok now (src, dst) is_fin s1 f1) as (f2 & s2 & Ef2 & H2 & Hwf2 & Hc2 & Hq2);
    [by eapply state_step_lookup|done|].
  rewrite (fm_bind_Ok _ _ _ _ _ Ef2).
  destruct (send_tcp_ack_raw_ok dst src (tx_sequence s1) (ztake n (tx_queue s)) is_fin f2 s2)
    as (f3 & l & r & -> & Hr & H3 & _ & Hpre & Hb); [by eapply state_step_lookup|by destruct Hwf2|by destruct Hwf1| |].
  { by rewrite (state_step_mtu _ _ _ _ _ _ H2), (state_step_mtu _ _ _ _ _ _ H1). }
  destruct (conn_step_state_step _ _ _ _ s2 H3) as (s3 & H3' & Hsb); [by eapply state_step_lookup|].
  destruct (same_but_sequence_wf _ _ Hsb Hwf2) as [Hwf3 Hp3]. destruct (same_but_sequence_cache _ _ Hsb) as [Hc3 _].
  exists f3, s3, (ztake n (tx_queue s)), l, r. split; [done|]. split; [done|].
  split; [exact (state_step_trans _ _ _ _ _ _ _ _ H1 (state_step_trans _ _ _ _ _ _ _ _ H2 H3'))|].
  constructor; [done| |by rewrite Hc3, Hc2, Hc1|done|done|rewrite Hc3, Hc2; lia|].
  2: { intros Hz0. rewrite len_ztake. specialize (Hnp Hz0). lia. }
  rewrite Hp3. unfold tx_pending. rewrite Hc2, Hq2, Hc1, Hq1, <- app_assoc. by rewrite ztake_zdrop.
Qed.

(** A FIN that is sent behind the data. *)
Lemma sent_then_fin now s s' moved l x r :
  sent_from_queue s s' moved l (Ok tt) -> x.2 = [] ->
  sent_from_queue s (tx_append_cache_fin now s') moved (l ++ [] ++ [x]) r.
Proof.
  intros [Hw Hp Hcc Hpre Hall Hwin Hpr] Hx. destruct (tx_append_cache_fin_wf now s' Hw) as (Hwf2 & Hc2 & Hq2 & _).
  assert (Hbs : bytes_sent (l ++ [] ++ [x]) = moved).
  { rewrite bytes_sent_app, (Hall eq_refl). unfold bytes_sent. cbn. rewrite Hx. by rewrite !app_nil_r. }
  constructor; [done|unfold tx_pending in *; by rewrite Hc2, Hq2|by rewrite Hc2|by rewrite Hbs|done|by rewrite Hc2|done].
Qed.

Lemma send_tcp_ack_ok now dst src f s :
  fw_states f !! (src, dst) = Some s -> can_send f s src -> tx_cache_syn s = None ->
  exists f' s' moved l r, send_tcp_ack now dst src f = Done (f', r) /\ answered r
    /\ state_step (src, dst) f f' s' l /\ sent_from_queue s s' moved l r.
Proof.
  intros Hs Hc Hsyn. unfold send_tcp_ack. rewrite (fm_bind_Ok _ _ _ _ _ (fm_state_Done _ _ _ Hs)), Hsyn.
  destruct (send_queued_ok now dst src f s Hs Hc) as (f1 & s1 & moved & l & r & E1 & Hr & H1 & Hq).
  destruct Hr as [|e He].
  2: { rewrite (fm_bind_Err _ _ _ _ _ E1). exists f1, s1, moved, l, (Err e). split; [done|]. by split; [constructor|]. }
  rewrite (fm_bind_Ok _ _ _ _ _ E1).
  rewrite (fm_bind_Ok _ _ _ _ _ (fm_state_Done _ _ _ (state_step_lookup _ _ _ _ _ H1))).
  destruct (_ && _); [|by exists f1, s1, moved, l, (Ok tt)].
  destruct (put_state_step (src, dst) (tx_append_cache_fin now s1) f1) as (f2 & E2 & H2).
  rewrite (fm_bind_Ok _ _ _ _ _ E2).
  destruct (send_tcp_fin_ok dst src f2 (tx_append_cache_fin now s1)) as (f3 & x & r & -> & Hr & H3 & Hx & _);
    [by eapply state_step_lookup|].
  exists f3, (tx_append_cache_fin now s1), moved, (l ++ [] ++ [x]), r. split; [done|]. split; [done|].
  split; [|by apply sent_then_fin].
  eapply state_step_trans; [done|]. eapply state_step_trans; [done|]. destruct H3. unfold state_step.
  by rewrite insert_id by (by eapply state_step_lookup).
Qed.

Lemma can_send_same f f' s s' src :
  can_send f s src -> tx_wf s' -> tx_send_window s' = tx_send_window s ->
  q_capacity (tx_cache s') = q_capacity (tx_cache s) -> fw_mtu_of f' (sa_ip src) = fw_mtu_of f (sa_ip src) ->
  can_send f' s' src.
Proof. intros [Hw Hwin Hm] Hw' E1 E2 E3. constructor; [done|by rewrite E1, E2|by rewrite E3]. Qed.

Lemma append_to_queue_ok now dst src payload f s :
  fw_states f !! (src, dst) = Some s -> can_send f s src -> tx_cache_syn s = None ->
  exists f' s' l r, append_to_queue now dst src payload f = Done (f', r) /\ answered r
    /\ state_step (src, dst) f f' s' l /\ tx_wf s' /\ tx_pending s' = tx_pending s ++ payload.
Proof.
  intros Hs Hc Hsyn. unfold append_to_queue. rewrite (fm_bind_Ok _ _ _ _ _ (fm_state_Done _ _ _ Hs)).
  destruct (put_state_step (src, dst) (tx_append_queue s payload) f) as (f1 & E1 & H1).
  rewrite (fm_bind_Ok _ _ _ _ _ E1).
  destruct (send_tcp_ack_ok now dst src f1 (tx_append_queue s payload)) as (f2 & s2 & moved & l & r & -> & Hr & H2 & [Hw Hp _ _ _ _ _]).
  - by eapply state_step_lookup.
  - apply (can_send_same f f1 s); [done|by apply tx_queue_wf; destruct Hc|by destruct s|by destruct s|].
    by eapply state_step_mtu.
  - by destruct s.
  - exists f2, s2, ([] ++ l), r. split; [done|]. split; [done|]. split; [by eapply state_step_trans|]. split; [done|].
    rewrite Hp. unfold tx_pending. destruct s; simpl. by rewrite app_assoc.
Qed.

(** *** Ticks *)

Lemma double_rto_pending s :
  tx_wf s -> tx_wf (tx_double_rto s) /\ tx_pending (tx_double_rto s) = tx_pending s
    /\ tx_cache (tx_double_rto s) = tx_cache s.
Proof.
  intros H. destruct (tx_setters_ok s TxDoubleRto H I) as (s' & [= <-] & ? & Ec & Eq).
  split; [done|]. unfold tx_pending. by rewrite Ec, Eq.
Qed.

Lemma fin_timer_pending now s :
  tx_wf s -> tx_wf (tx_update_fin_timer now s) /\ tx_pending (tx_update_fin_timer now s) = tx_pending s
    /\ tx_cache (tx_update_fin_timer now s) = tx_cache s.
Proof.
  intros H. destruct (tx_update_fin_timer_wf now s H) as (? & Ec & Eq).
  split; [done|]. unfold tx_pending. by rewrite Ec, Eq.
Qed.

(** The connection handed [payload] to the device again, all of it unless the
    device failed, keeps what is pending and has the cache [q]. *)
Definition resent (key : conn_key) (f f' : Forwarder) (r : io_result unit) (pending : list byte) (q : Queue)
    (payload : list byte) : Prop :=
  exists s l, state_step key f f' s l /\ tx_wf s /\ tx_pending s = pending /\ tx_cache s = q
    /\ bytes_sent l `prefix_of` payload /\ (r = Ok tt -> bytes_sent l = payload).

(** Segments, or a FIN, sent after the state was stored. *)
Lemma resent_raw dst src sequence payload is_fin f f1 s pending q :
  state_step (src, dst) f f1 s [] -> tx_wf s -> tx_pending s = pending -> tx_cache s = q -> is_u32 sequence ->
  41 <= fw_mtu_of f (sa_ip src) <= u16_max ->
  exists f' r, send_tcp_ack_raw dst src sequence payload is_fin f1 = Done (f', r) /\ answered r
    /\ resent (src, dst) f f' r pending q payload.
Proof.
  intros H1 Hw <- <- Hseq Hm. pose proof (state_step_lookup _ _ _ _ _ H1) as Hs.
  destruct (send_tcp_ack_raw_ok dst src sequence payload is_fin f1 s) as (f2 & l & r & E & Hr & H2 & _ & Hpre & Hb);
    [done|by destruct Hw|done|by rewrite (state_step_mtu _ _ _ _ _ _ H1)|].
  destruct (conn_step_state_step _ _ _ _ s H2 Hs) as (s2 & H2' & Hsb).
  destruct (same_but_sequence_wf _ _ Hsb Hw) as [Hw2 Hp2].
  destruct (same_but_sequence_cache _ _ Hsb) as [Hc2 _]. exists f2, r. split; [done|]. split; [done|].
  exists s2, l. split; [exact (state_step_trans _ _ _ _ _ _ _ _ H1 H2')|done].
Qed.

Lemma resent_fin dst src f f1 s pending q :
  state_step (src, dst) f f1 s [] -> tx_wf s -> tx_pending s = pending -> tx_cache s = q ->
  exists f' r, send_tcp_fin dst src f1 = Done (f', r) /\ answered r /\ resent (src, dst) f f' r pending q [].
Proof.
  intros H1 Hw <- <-. pose proof (state_step_lookup _ _ _ _ _ H1) as Hs.
  destruct (send_tcp_fin_ok dst src f1 s Hs) as (f2 & x & r & E & Hr & H2 & Hx & _). exists f2, r. split; [done|]. split; [done|].
  exists s, ([] ++ [x]). split; [|split; [done|split; [done|split; [done|]]]].
  - eapply state_step_trans; [done|]. destruct H2. unfold state_step. by rewrite insert_id.
  - unfold bytes_sent. cbn. by rewrite Hx.
Qed.

(** A tick, given what the cache answers to the poll. *)
Lemma tick_with_poll now dst src f s q payload :
  fw_states f !! (src, dst) = Some s -> tx_wf s -> 41 <= fw_mtu_of f (sa_ip src) <= u16_max ->
  queue_get_timed_out_and_update now (tx_cache s) MAX_RTO = Done (q, payload) ->
  queue_wf q -> queue_content q = queue_content (tx_cache s) -> (q_size q <= 0 -> payload = []) ->
  exists f' r, retransmit_tcp_ack_timedout now dst src f = Done (f', r) /\ answered r
    /\ resent (src, dst) f f' r (tx_pending s) q payload.
Proof.
  intros Hs Hwf Hm E Hwq Hcon Hnil. unfold retransmit_tcp_ack_timedout.
  rewrite (fm_bind_Ok _ _ _ _ _ (fm_state_Done _ _ _ Hs)).
  replace (Z.max MAX_RTO _) with MAX_RTO by (unfold MAX_RTO, MIN_RTO; lia).
  erewrite fm_bind_Ok by (apply fm_lift_Done; exact E). cbv iota beta zeta. set (s1 := tx_with_cache s q).
  destruct (put_state_step (src, dst) s1 f) as (f1 & E1 & H1). rewrite (fm_bind_Ok _ _ _ _ _ E1).
  assert (Hwf1 : tx_wf s1) by by apply tx_with_cache_wf.
  assert (Hp1 : tx_pending s1 = tx_pending s) by (unfold tx_pending, s1; destruct s; simpl in *; by rewrite Hcon).
  assert (Hc1 : tx_cache s1 = q) by by destruct s.
  destruct (double_rto_pending s1 Hwf1) as (Hwf2 & Hp2 & Hc2).
  destruct (fin_timer_pending now _ Hwf2) as (Hwf3 & Hp3 & Hc3).
  rewrite Hp2, Hp1 in Hp3. rewrite Hp1 in Hp2. rewrite Hc2, Hc1 in Hc3. rewrite Hc1 in Hc2.
  unfold queue_len. destruct (Z.ltb_spec 0 (q_size q)).
  - destruct (put_state_step (src, dst) (tx_double_rto s1) f1) as (f2 & E2 & H2).
    rewrite (fm_bind_Ok _ _ _ _ _ E2). pose proof (state_step_trans _ _ _ _ _ _ _ _ H1 H2) as H12.
    destruct (_ && _); [|eapply resent_raw; [done..|by destruct Hwq|done]].
    destruct (put_state_step (src, dst) (tx_update_fin_timer now (tx_double_rto s1)) f2) as (f3 & E3 & H3).
    rewrite (fm_bind_Ok _ _ _ _ _ E3).
    eapply resent_raw; [exact (state_step_trans _ _ _ _ _ _ _ _ H12 H3)|done..|by destruct Hwq|done].
  - rewrite (Hnil ltac:(done)). assert (Hstop : exists f' r, (mret tt : FM unit) f1 = Done (f', r) /\ answered r
      /\ resent (src, dst) f f' r (tx_pending s) q [])
      by (exists f1, (Ok tt); split; [done|]; split; [constructor|]; by exists s1, []).
    destruct (tx_cache_fin s1) as [timer|]; [|done]. destruct (timer_is_timedout now timer); [|done].
    destruct (put_state_step (src, dst) (tx_update_fin_timer now (tx_double_rto s1)) f1) as (f2 & E2 & H2).
    rewrite (fm_bind_Ok _ _ _ _ _ E2).
    eapply resent_fin; [exact (state_step_trans _ _ _ _ _ _ _ _ H1 H2)|done..].
Qed.

Lemma tick_ok now dst src f s :
  fw_states f !! (src, dst) = Some s -> tx_wf s -> 41 <= fw_mtu_of f (sa_ip src) <= u16_max ->
  let payload := ztake (queue_timed_out_size now (tx_cache s)) (queue_content (tx_cache s)) in
  exists f' q r, retransmit_tcp_ack_timedout now dst src f = Done (f', r) /\ answered r
    /\ queue_get_timed_out_and_update now (tx_cache s) MAX_RTO = Done (q, payload)
    /\ resent (src, dst) f f' r (tx_pending s) q payload.
Proof.
  intros Hs Hwf Hm payload. pose proof Hwf as [Hq _ _ _ _ _].
  destruct (queue_timed_out_ok now (tx_cache s) MAX_RTO Hq) as (q & E & Hwq & _ & _ & Hsz & Hcon).
  destruct (tick_with_poll now dst src f s q payload) as (f' & r & E' & Hr & H'); try done; [|by exists f', q, r].
  intros Hz. unfold payload. rewrite (len_0 (queue_content (tx_cache s))); [apply take_nil|].
  rewrite len_queue_content; destruct Hwq, Hq; lia.
Qed.

(** *** The bytes no SACK covers *)

(** Selective retransmission, with the SACKs at offsets of the code's count. *)
Lemma retransmit_without_offsets dst src sacks f s :
  fw_states f !! (src, dst) = Some s -> is_u32 (tx_sequence s) -> queue_wf (tx_cache s) ->
  q_size (tx_cache s) <= MAX_U32_WINDOW_SIZE -> Forall window_range sacks ->
  41 <= fw_mtu_of f (sa_ip src) <= u16_max ->
  exists f' segs l r,
    retransmit_tcp_ack_without dst src (map (at_offsets (q_sequence (tx_cache s))) sacks) f = Done (f', r)
    /\ answered r /\ conn_step (src, dst) f f' segs
    /\ bytes_sent segs `prefix_of` concat (map (cache_bytes (tx_cache s)) l)
    /\ (r = Ok tt -> bytes_sent segs = concat (map (cache_bytes (tx_cache s)) l))
    /\ forall x, in_ranges x l <-> 0 <= x < q_size (tx_cache s) /\ ~ in_ranges x sacks.
Proof.
  intros Hs Hu Hq Hmax Hsacks Hm. pose proof Hq as [Hq0 Hcap Hbuf Hz _ _]. unfold retransmit_tcp_ack_without.
  rewrite (fm_bind_Ok _ _ _ _ _ (fm_state_Done _ _ _ Hs)). cbv zeta.
  unfold queue_recv_next. rewrite seq_add_as_u32 by cap_lia.
  destruct (unsacked_ranges_ok (q_sequence (tx_cache s)) (q_size (tx_cache s)) sacks)
    as (l & -> & Hl & Hx); [done|lia|done|].
  destruct (retransmit_ranges_ok dst src (seq_add (q_sequence (tx_cache s)) (q_size (tx_cache s))) l f s)
    as (f1 & segs & r & E1 & Hr & H1 & Hp1 & Hb1); [done..|]. destruct Hr as [|e He].
  2: { rewrite (fm_bind_Err _ _ _ _ _ E1). exists f1, segs, l, (Err e). split; [done|]. by split; [constructor|]. }
  rewrite (fm_bind_Ok _ _ _ _ _ E1). destruct (conn_step_state _ _ _ _ _ H1 Hs) as (s1 & Hs1 & Hsb).
  rewrite (fm_bind_Ok _ _ _ _ _ (fm_state_Done _ _ _ Hs1)).
  destruct (_ && _); [|by exists f1, segs, l, (Ok tt)].
  destruct (send_tcp_fin_ok dst src f1 s1 Hs1) as (f2 & x & r & -> & Hr & H2 & Hx2 & _).
  assert (Hbs : bytes_sent (segs ++ [x]) = concat (map (cache_bytes (tx_cache s)) l)).
  { rewrite bytes_sent_app, (Hb1 eq_refl). unfold bytes_sent. cbn. by rewrite Hx2, !app_nil_r. }
  exists f2, (segs ++ [x]), l, r. split; [done|]. split; [done|]. rewrite Hbs. split; [|done].
  eapply conn_step_trans; [done|]. eapply sent_step_conn; [done|done|by eapply same_but_sequence_u32].
Qed.

(** A SACK of the numbers from [a] on, which does not reach the wrap. *)
Definition sack_after (a : Z) (r : Z * Z) : Prop :=
  a <= r.1 <= r.2 /\ r.2 <= u32_max /\ r.2 - a <= MAX_U32_WINDOW_SIZE.

Lemma sacks_at_offsets a sacks :
  0 <= a -> Forall (sack_after a) sacks ->
  exists offsets, sacks = map (at_offsets a) offsets /\ Forall window_range offsets
    /\ forall x, in_ranges x offsets <-> in_ranges (a + x) sacks.
Proof.
  intros Ha. induction 1 as [|[c e] sacks (H1 & H2 & H3) _ (offsets & -> & Ho & Hx)].
  - exists []. split; [done|]. split; [constructor|]. intros x. by rewrite !in_ranges_nil.
  - cbn [fst snd] in *. exists ((c - a, e - a) :: offsets). split; [|split].
    + cbn [map]. f_equal. unfold at_offsets. cbn [fst snd]. f_equal; unfold seq_add, checked_add; zcase; lia.
    + apply List.Forall_cons; [unfold window_range, range_upto; cbn [fst snd]; lia|done].
    + intros x. rewrite !in_ranges_cons, Hx. cbn [fst snd]. intuition lia.
Qed.

(** ** Theorems *)

(** C28. Segmentation: [send_tcp_ack_raw] puts the payload into consecutive
    segments of the size that the MTU of the source allows, each with the
    sequence number of its first byte, in packets between the endpoints of the
    connection, and hands them to the device one after the other.  The loop
    terminates; it fails only with an error of the device, after which no more
    segments are sent, and otherwise the segments in order are the payload.
    Only the connection's sequence number changes. *)
Theorem send_tcp_ack_raw_segments (dst src : SocketAddrV4) (sequence : Z) (payload : list byte)
    (is_fin : bool) (f : Forwarder) (s : TcpTxState) :
  fw_states f !! (src, dst) = Some s -> is_u32 (tx_sequence s) -> is_u32 sequence ->
  41 <= fw_mtu_of f (sa_ip src) <= u16_max ->
  exists f' segs r,
    send_tcp_ack_raw dst src sequence payload is_fin f = Done (f', r) /\ answered r
    /\ conn_step (src, dst) f f' segs
    /\ Forall2 (segment_ok dst src (fw_mtu_of f (sa_ip src) - 40) sequence payload is_fin)
         (seqZ 0 (len segs)) segs
    /\ bytes_sent segs `prefix_of` payload /\ (r = Ok tt -> bytes_sent segs = payload).
Proof. apply send_tcp_ack_raw_ok. Qed.

(** C29. Fragmentation: for every MTU of at least 36 bytes, the fragments that
    [send_udp] sends for a datagram that does not fit one packet stand one
    behind the other from its first byte on, at offsets in units of eight
    bytes, each within the MTU, the last and only the last without the flag for
    more, all with one identification; the loop terminates, it fails only with
    an error of the device, and otherwise the fragments are the whole datagram.
    Whatever the order in which they then come in, a [Defraggler] puts the
    datagram together again and reads back its addresses, its ports and its
    payload. *)
Theorem send_udp_reassembles (dst src : SocketAddrV4) (payload : list byte) (f : Forwarder) :
  is_u16 (sa_port dst) -> is_u16 (sa_port src) ->
  8 + len payload <= u16_max -> 36 <= fw_mtu_of f (sa_ip src) <= u16_max ->
  fw_mtu_of f (sa_ip src) - 20 < 8 + len payload ->
  exists f' data frags r,
    send_udp dst src payload f = Done (f', r) /\ answered r
    /\ udp_datagram (sa_port dst) (sa_port src) payload data /\ sent_step f f' frags
    /\ (exists ranges m, Forall2 (udp_fragment (sa_ip dst) (sa_ip src)
           (fw_identification f (sa_ip dst) (sa_ip src)) (fw_mtu_of f (sa_ip src) - 20) data) frags ranges
         /\ chain 0 ranges m /\ (r = Ok tt -> m = len data))
    /\ forall now header arrivals, r = Ok tt ->
         len header = 34 -> map (fun x => (now, x.1, header ++ x.2)) frags ≡ₚ arrivals ->
         exists d g u, defraggler_run defraggler_new arrivals
             = Done (d, replicate (length arrivals - 1) None ++ [Some g])
           /\ fragmentation_concatenate g = Done (Some (LUdp u), payload)
           /\ (udp_src_ip_addr u, udp_src u) = dst /\ (udp_dst_ip_addr u, udp_dst u) = src.
Proof.
  intros Hpd Hps Hs Hmtu Hlt. pose proof (len_nonneg payload).
  destruct (send_udp_fragments_ok dst src payload f Hpd Hps Hs Hmtu Hlt)
    as (f' & data & frags & ranges & m & r & E & Hr & Hd & Hss & Hall & Hch & Hm).
  pose proof (ud_len _ _ _ _ Hd) as Hdl. rewrite <- Hdl in Hm.
  exists f', data, frags, r. split; [done|]. split; [done|]. split; [done|]. split; [done|].
  split; [by exists ranges, m|]. intros now header arrivals Hok Hh Hperm. rewrite (Hm Hok) in Hch.
  destruct (fragments_defrag dst src _ _ data frags ranges now header arrivals ltac:(lia) Hall Hch Hh Hperm)
    as (d & g & Er & Hsl & Hpr & Ha).
  destruct (concatenate_datagram g _ _ payload data Hsl Hd Hpr) as (u & Ec & Es & Ed & E1 & E2).
  exists d, g, u. split; [done|]. split; [done|]. rewrite E1, E2, Es, Ed. injection Ha as -> ->.
  by destruct dst, src.
Qed.

(** C27. Sending from the queue, whatever the device answers: [send_tcp_ack]
    moves bytes from the queue to the cache, no more than the window of the
    receiver leaves, and hands them to the device in order, so that what is
    handed over and not acknowledged stays the same sequence of bytes and no
    other connection is touched.  It fails only with an error of the device;
    when the device takes the frames, exactly the moved bytes were sent. *)
Theorem send_tcp_ack_conserves (now : Instant) (dst src : SocketAddrV4) (f : Forwarder) (s : TcpTxState) :
  fw_states f !! (src, dst) = Some s -> can_send f s src -> tx_cache_syn s = None ->
  exists f' s' moved l r, send_tcp_ack now dst src f = Done (f', r) /\ answered r
    /\ state_step (src, dst) f f' s' l /\ sent_from_queue s s' moved l r.
Proof. apply send_tcp_ack_ok. Qed.

(** The contract of [ForwardStream::forward]: data for a connection whose
    end was announced is refused with [InvalidData] and nothing changes; all
    other data stands at the end of what is pending, whatever the device
    answers. *)
Theorem forward_appends (now : Instant) (dst src : SocketAddrV4) (payload : list byte)
    (f : Forwarder) (s : TcpTxState) :
  fw_states f !! (src, dst) = Some s -> can_send f s src -> tx_cache_syn s = None ->
  if bool_decide (is_Some (tx_cache_fin s)) || tx_queue_fin s then
    stream_forward now dst src payload f = Done (f, Err (mkIoError EInvalidData ""))
  else
    exists f' s' l r, stream_forward now dst src payload f = Done (f', r) /\ answered r
      /\ state_step (src, dst) f f' s' l /\ tx_wf s' /\ tx_pending s' = tx_pending s ++ payload.
Proof.
  intros Hs Hc Hsyn. cbn [stream_forward forwarder_is_stream]. unfold forwarder_forward.
  rewrite (fm_bind_Ok _ _ _ _ _ (fm_state_Done _ _ _ Hs)).
  destruct (_ || _); [done|by apply append_to_queue_ok].
Qed.

(** C33. The contract of [ForwardStream::tick], whatever the device answers: the
    bytes up to the first segment that is not timed out are handed to the
    device again, in order, and no byte is lost or acknowledged by it.  It fails
    only with an error of the device; otherwise all of them were sent. *)
Theorem tick_resends (now : Instant) (dst src : SocketAddrV4) (f : Forwarder) (s : TcpTxState) :
  fw_states f !! (src, dst) = Some s -> tx_wf s -> 41 <= fw_mtu_of f (sa_ip src) <= u16_max ->
  let payload := ztake (queue_timed_out_size now (tx_cache s)) (queue_content (tx_cache s)) in
  exists f' q r, stream_tick now dst src f = Done (f', r) /\ answered r
    /\ queue_content q = queue_content (tx_cache s)
    /\ resent (src, dst) f f' r (tx_pending s) q payload.
Proof.
  intros Hs Hwf Hm payload. destruct (tick_ok now dst src f s Hs Hwf Hm) as (f' & q & r & E & Hr & Eq & H).
  destruct (queue_timed_out_ok now (tx_cache s) MAX_RTO) as (q' & Eq' & _ & _ & _ & _ & Hc); [by destruct Hwf|].
  exists f', q, r. split; [done|]. split; [done|]. split; [congruence|done].
Qed.

(** C30. Selective retransmission is exact: when neither the bytes in flight nor
    the SACKs, given with the sequence numbers of the receiver, reach across the
    wrap, [retransmit_tcp_ack_without] hands to the device the bytes of the cache
    that no SACK covers, and no others; it fails only with an error of the
    device, and otherwise all of them were sent. *)
Theorem retransmit_without_exact (dst src : SocketAddrV4) (sacks : list (Z * Z))
    (f : Forwarder) (s : TcpTxState) :
  let first := q_sequence (tx_cache s) in
  fw_states f !! (src, dst) = Some s -> is_u32 (tx_sequence s) -> queue_wf (tx_cache s) ->
  q_size (tx_cache s) <= MAX_U32_WINDOW_SIZE -> first + q_size (tx_cache s) <= u32_max ->
  Forall (sack_after first) sacks ->
  41 <= fw_mtu_of f (sa_ip src) <= u16_max ->
  exists f' segs l r,
    retransmit_tcp_ack_without dst src sacks f = Done (f', r) /\ answered r
    /\ conn_step (src, dst) f f' segs
    /\ bytes_sent segs `prefix_of` concat (map (cache_bytes (tx_cache s)) l)
    /\ (r = Ok tt -> bytes_sent segs = concat (map (cache_bytes (tx_cache s)) l))
    /\ forall x, in_ranges x l <-> 0 <= x < q_size (tx_cache s) /\ ~ in_ranges (first + x) sacks.
Proof.
  intros first Hs Hu Hq Hmax _ Hsacks Hm.
  destruct (sacks_at_offsets first sacks) as (offsets & -> & Ho & Hx); [by destruct Hq as [[? _] _ _ _ _ _]|done|].
  destruct (retransmit_without_offsets dst src offsets f s) as (f' & segs & l & r & E & Hr & Hc & Hp & Hb & Hl); [done..|].
  exists f', segs, l, r. do 5 (split; [done|]). intros x. by rewrite Hl, Hx.
Qed.

(** C31. Across the wrap it is not exact: when the receiver reports with a SACK
    that it has all bytes from the offset [c] to the end of what is in flight,
    and these reach across the wrap, the last byte is sent again although the
    SACK covers it, since the code counts the end of its cache one too far. *)
Theorem sack_across_wrap_resends (dst src : SocketAddrV4) (c : Z) (f : Forwarder) (s : TcpTxState) :
  let first := q_sequence (tx_cache s) in
  let size := q_size (tx_cache s) in
  fw_states f !! (src, dst) = Some s -> is_u32 (tx_sequence s) -> queue_wf (tx_cache s) ->
  size <= MAX_U32_WINDOW_SIZE -> 0 <= c -> first + c <= u32_max -> u32_max + 1 < first + size ->
  41 <= fw_mtu_of f (sa_ip src) <= u16_max ->
  exists f' segs l r,
    retransmit_tcp_ack_without dst src [(first + c, (first + size) mod 4294967296)] f = Done (f', r)
    /\ answered r /\ conn_step (src, dst) f f' segs
    /\ (r = Ok tt -> bytes_sent segs = concat (map (cache_bytes (tx_cache s)) l))
    /\ forall x, in_ranges x l <-> 0 <= x < c \/ x = size - 1.
Proof.
  intros first size Hs Hu Hq Hmax Hc0 Hc Hwrap Hm. pose proof Hq as [Hq0 _ _ _ _ _].
  assert (Hmod : (first + size) mod 4294967296 = first + size - 4294967296).
  { replace (first + size) with (first + size - 4294967296 + 1 * 4294967296) by lia.
    rewrite Z.mod_add, Z.mod_small; unfold first, size in *; cap_lia. }
  assert (E : [(first + c, (first + size) mod 4294967296)] = map (at_offsets first) [(c, size - 1)]).
  { rewrite Hmod. unfold at_offsets. cbn. do 2 f_equal; unfold seq_add, checked_add; zcase; unfold u32_max in *; lia. }
  rewrite E. destruct (retransmit_without_offsets dst src [(c, size - 1)] f s)
    as (f' & segs & l & r & E' & Hr & Hcs & _ & Hb & Hl); [done..| |done|].
  { apply List.Forall_cons; [|apply List.Forall_nil]. unfold window_range, range_upto. cbn. unfold size, u32_max in *. lia. }
  exists f', segs, l, r. do 4 (split; [done|]). intros x. rewrite Hl, in_ranges_cons, in_ranges_nil. cbn [fst snd].
  unfold size, u32_max in *. lia.
Qed.

(** C38. A FIN overtakes data: with a closed window and an empty cache,
    [send_tcp_ack] hands the FIN to the device although bytes wait in the queue,
    at the current sequence number of the connection; the bytes stay in the
    queue, and the end is no longer noted. *)
Theorem fin_overtakes_queue (now : Instant) (dst src : SocketAddrV4) (f : Forwarder) (s : TcpTxState) :
  fw_states f !! (src, dst) = Some s -> tx_cache_syn s = None -> tx_send_window s = 0 ->
  q_size (tx_cache s) = 0 -> tx_queue_fin s = true -> tx_queue s <> [] ->
  exists f' s' x r, send_tcp_ack now dst src f = Done (f', r) /\ answered r
    /\ fw_sent f' = fw_sent f ++ [x] /\ bare_fin s x
    /\ fw_states f' !! (src, dst) = Some s' /\ tx_queue s' = tx_queue s /\ tx_queue_fin s' = false.
Proof.
  intros Hs Hsyn Hw Hz Hfin Hne. unfold send_tcp_ack, send_queued.
  rewrite (fm_bind_Ok _ _ _ _ _ (fm_state_Done _ _ _ Hs)), Hsyn.
  erewrite fm_bind_Ok by (rewrite (fm_bind_Ok _ _ _ _ _ (fm_state_Done _ _ _ Hs)), Hw; reflexivity).
  rewrite (fm_bind_Ok _ _ _ _ _ (fm_state_Done _ _ _ Hs)). unfold queue_is_empty. rewrite Hfin, Hz. cbn [andb Z.eqb].
  destruct (put_state_step (src, dst) (tx_append_cache_fin now s) f) as (f1 & E1 & H1).
  rewrite (fm_bind_Ok _ _ _ _ _ E1). pose proof (state_step_lookup _ _ _ _ _ H1) as Hs1.
  destruct (send_tcp_fin_ok dst src f1 _ Hs1) as (f2 & x & r & -> & Hr & H2 & Hx & tcp & Htcp & Hf & Hq).
  exists f2, (tx_append_cache_fin now s), x, r. destruct H1 as (_ & Es & _). destruct H2.
  rewrite ss_sent0, Es, app_nil_r, ss_states0. split; [done|]. split; [done|]. split; [done|].
  split; [split; [done|]; exists tcp; split; [done|]; split; [done|]|].
  - rewrite Hq. destruct s as [? ? ? ? ? ? ? ? ? ? ? [] ? ? ? ? ? ?]; done.
  - split; [done|]. destruct s as [? ? ? ? ? ? ? ? ? ? ? [] ? ? ? ? ? ?]; done.
Qed.

(** The timer of a retransmission does not follow the timeout of the
    connection: when every segment has timed out, a tick arms one clock for all
    the bytes, of [MAX_RTO] milliseconds whatever the timeout is, since the
    clamp to [[MIN_RTO, MAX_RTO]] has its bounds exchanged. *)
Theorem tick_always_waits_max_rto (now : Instant) (dst src : SocketAddrV4) (f : Forwarder) (s : TcpTxState) :
  fw_states f !! (src, dst) = Some s -> tx_wf s -> 41 <= fw_mtu_of f (sa_ip src) <= u16_max ->
  queue_first_fresh now (q_clocks (tx_cache s)) = None ->
  exists f' s' r, stream_tick now dst src f = Done (f', r) /\ answered r
    /\ fw_states f' !! (src, dst) = Some s'
    /\ q_clocks (tx_cache s') = [(q_sequence (tx_cache s), timer_new now MAX_RTO)].
Proof.
  intros Hs Hwf Hm Hf. destruct (tick_ok now dst src f s Hs Hwf Hm) as (f' & q & r & E & Hr & Eq & s' & l & Hst & _ & _ & Hc & _).
  exists f', s', r. split; [done|]. split; [done|]. split; [by eapply state_step_lookup|]. rewrite Hc. revert Eq.
  unfold queue_get_timed_out_and_update. rewrite Hf. intros (p & _ & Eq)%outcome_bind_Done_inv.
  injection Eq as <- _. reflexivity.
Qed.

(** C40. A source MTU of 40, which a SYN with an MSS of 0 or an ICMPv4 message
    sets, makes the segmentation of any data run forever as long as the device
    takes the frames: the loop over the segments has not returned after any
    number of turns. *)
Theorem zero_mss_never_returns (fuel : nat) (dst src : SocketAddrV4) (sequence : Z) (payload : list byte)
    (is_fin : bool) (f : Forwarder) (s : TcpTxState) :
  device_ok D ->
  fw_states f !! (src, dst) = Some s -> is_u32 (tx_sequence s) -> is_u32 sequence -> 0 < len payload ->
  send_segments fuel dst src 0 sequence payload is_fin 0 f = Hang.
Proof.
  intros Hd Hs Hu Hseq Hl.
  assert (Hgen : forall i f s, 0 <= i -> fw_states f !! (src, dst) = Some s -> is_u32 (tx_sequence s) ->
    send_segments fuel dst src 0 sequence payload is_fin i f = Hang); [|by apply (Hgen 0 f s)].
  clear f s Hs Hu. induction fuel as [|fuel IH]; intros i f s Hi Hs Hu; [done|].
  cbn [send_segments]. destruct (Z.ltb_spec (0 * i) (len payload)); [|lia].
  destruct (send_segment_ok dst src 0 sequence payload is_fin i f s) as (f1 & x & r & E1 & Hr & H1 & _);
    [done|done|done|lia|ilia|lia|lia|].
  rewrite (answered_device_ok r Hd Hr) in E1.
  rewrite (fm_bind_Ok _ _ _ _ _ E1). destruct (conn_step_state _ _ _ _ _ H1 Hs) as (s1 & Hs1 & Hsb).
  apply (IH (i + 1) f1 s1); [lia|done|by eapply same_but_sequence_u32].
Qed.
End sending.

(** ** Settings *)

(** The MTU of a source never exceeds that of the interface. *)
Definition mtu_ok `{P : Pnet} (f : Forwarder) : Prop :=
  forall ip m, fw_src_mtu f !! ip = Some m -> m <= fw_local_mtu f.

(** A task that has looked at the flags of its worker before the connection was
    cleaned up, and gets the lock afterwards, panics with the lock held: the
    state is gone, and its methods unwrap it. *)
Theorem task_after_clean_up_panics {P : Pnet} {D : Device} (now : Instant) (dst src : SocketAddrV4) (payload : list byte)
    (f : Forwarder) :
  stream_forward now dst src payload (fw_clean_up f dst src) = Panic
  /\ stream_tick now dst src (fw_clean_up f dst src) = Panic
  /\ stream_close now dst src (fw_clean_up f dst src) = Panic.
Proof.
  assert (E : fm_state (src, dst) (fw_clean_up f dst src) = Panic)
    by (unfold fm_state, fw_clean_up; cbn; by rewrite lookup_delete_eq).
  cbn [stream_forward stream_tick stream_close forwarder_is_stream].
  unfold forwarder_forward, forwarder_tick, retransmit_tcp_ack_timedout, forwarder_close, mbind, FM_bind. by rewrite E.
Qed.

(** [set_src_mtu] keeps every source at or below the MTU of the interface,
    sets the given source to the smaller of the two and no other, and tells
    whether the value in force changed. *)
Theorem set_src_mtu_spec {P : Pnet} (f : Forwarder) (ip : Ipv4Addr) (mtu : Z) :
  mtu_ok f ->
  let '(f', changed) := set_src_mtu f ip mtu in
  mtu_ok f' /\ fw_mtu_of f' ip = Z.min (fw_local_mtu f) mtu
  /\ (forall other, other <> ip -> fw_mtu_of f' other = fw_mtu_of f other)
  /\ (changed = true <-> fw_mtu_of f' ip <> fw_mtu_of f ip).
Proof.
  intros Hok. unfold set_src_mtu. cbn. unfold mtu_ok, fw_mtu_of. cbn. rewrite lookup_insert_eq. cbn.
  split; [|split; [done|split]].
  - intros other m. destruct (decide (other = ip)) as [->|Hne].
    + rewrite lookup_insert_eq. intros [= <-]. lia.
    + rewrite lookup_insert_ne by done. apply Hok.
  - intros other Hne. by rewrite lookup_insert_ne.
  - rewrite negb_true_iff, Z.eqb_neq. done.
Qed.

(** The IPv4 identification of a pair of addresses counts up, from 65535
    back to 0, and is always a [u16]; other pairs are not touched. *)
Theorem identification_wraps {P : Pnet} (f : Forwarder) (dst src : Ipv4Addr) :
  is_u16 (fw_identification f dst src) ->
  let f' := increase_ipv4_identification f dst src in
  fw_identification f' dst src = (fw_identification f dst src + 1) mod 65536
  /\ is_u16 (fw_identification f' dst src)
  /\ forall dst' src', (src', dst') <> (src, dst) -> fw_identification f' dst' src' = fw_identification f dst' src'.
Proof.
  intros Hu f'. assert (E : fw_identification f' dst src = (fw_identification f dst src + 1) mod 65536).
  { unfold f', increase_ipv4_identification, fw_identification at 1. cbn. rewrite lookup_insert_eq. cbn.
    unfold checked_add. zcase; simpl; [rewrite Z.mod_small by ilia; done|].
    replace (fw_identification f dst src) with 65535 by ilia. done. }
  split; [done|]. split; [rewrite E; pose proof (Z.mod_pos_bound (fw_identification f dst src + 1) 65536); ilia|].
  intros dst' src' Hne. unfold f', increase_ipv4_identification, fw_identification at 1. cbn.
  by rewrite lookup_insert_ne by congruence.
Qed.

(** ** Witnesses *)

(** A forwarder on a device that accepts everything, with one connection that
    has four bytes in flight and three in its queue. *)
Definition fw_example : Forwarder (P := wire) :=
  set_state (forwarder_new 1500 7 9) (2, 2) (1, 1) (tx_with_send_window tx_example 9).

Lemma black_hole_ok : device_ok black_hole.
Proof. done. Qed.

Lemma fw_example_wf : tx_wf (tx_with_send_window tx_example 9).
Proof. destruct tx_example_wf. by constructor. Qed.

Lemma fw_example_can_send : can_send (P := wire) fw_example (tx_with_send_window tx_example 9) (1, 1).
Proof. constructor; [apply fw_example_wf|vm_compute; split; discriminate|vm_compute; split; discriminate]. Qed.

Lemma send_tcp_ack_raw_segments_witness :
  exists f' segs r,
    send_tcp_ack_raw (D := black_hole) (2, 2) (1, 1) 10 [1; 2; 3] true fw_example = Done (f', r)
    /\ answered (D := black_hole) r
    /\ conn_step ((1, 1), (2, 2)) fw_example f' segs
    /\ Forall2 (segment_ok (2, 2) (1, 1) (fw_mtu_of fw_example 1 - 40) 10 [1; 2; 3] true)
         (seqZ 0 (len segs)) segs
    /\ bytes_sent segs `prefix_of` [1; 2; 3] /\ (r = Ok tt -> bytes_sent segs = [1; 2; 3]).
Proof.
  apply (send_tcp_ack_raw_segments (2, 2) (1, 1) 10 [1; 2; 3] true fw_example
    (tx_with_send_window tx_example 9)); [reflexivity|simpl; ilia|ilia|vm_compute; split; discriminate].
Defined.

Lemma send_udp_reassembles_witness :
  exists f' data frags r,
    send_udp (D := black_hole) (2, 2) (1, 1) (zeros 2000) fw_example = Done (f', r)
    /\ answered (D := black_hole) r
    /\ udp_datagram 2 1 (zeros 2000) data /\ sent_step fw_example f' frags
    /\ (exists ranges m, Forall2 (udp_fragment 2 1
           (fw_identification fw_example 2 1) (fw_mtu_of fw_example 1 - 20) data) frags ranges
         /\ chain 0 ranges m /\ (r = Ok tt -> m = len data))
    /\ forall now header arrivals, r = Ok tt ->
         len header = 34 -> map (fun x => (now, x.1, header ++ x.2)) frags ≡ₚ arrivals ->
         exists d g u, defraggler_run defraggler_new arrivals
             = Done (d, replicate (length arrivals - 1) None ++ [Some g])
           /\ fragmentation_concatenate g = Done (Some (LUdp u), zeros 2000)
           /\ (udp_src_ip_addr u, udp_src u) = (2, 2) /\ (udp_dst_ip_addr u, udp_dst u) = (1, 1).
Proof.
  apply (send_udp_reassembles (2, 2) (1, 1) (zeros 2000) fw_example);
    vm_compute; try split; try discriminate; reflexivity.
Defined.

Lemma send_tcp_ack_conserves_witness :
  exists f' s' moved l r, send_tcp_ack (D := black_hole) 5 (2, 2) (1, 1) fw_example = Done (f', r)
    /\ answered (D := black_hole) r /\ state_step ((1, 1), (2, 2)) fw_example f' s' l
    /\ sent_from_queue (tx_with_send_window tx_example 9) s' moved l r.
Proof.
  apply (send_tcp_ack_conserves 5 (2, 2) (1, 1) fw_example);
    [reflexivity|apply fw_example_can_send|reflexivity].
Defined.

Lemma forward_appends_witness :
  if bool_decide (is_Some (tx_cache_fin (tx_with_send_window tx_example 9)))
     || tx_queue_fin (tx_with_send_window tx_example 9) then
    stream_forward (ForwardStream := forwarder_is_stream (D := black_hole)) 5 (2, 2) (1, 1) [4; 5] fw_example
      = Done (fw_example, Err (mkIoError EInvalidData ""))
  else
    exists f' s' l r,
      stream_forward (ForwardStream := forwarder_is_stream (D := black_hole)) 5 (2, 2) (1, 1) [4; 5] fw_example
        = Done (f', r) /\ answered (D := black_hole) r
      /\ state_step ((1, 1), (2, 2)) fw_example f' s' l /\ tx_wf s'
      /\ tx_pending s' = tx_pending (tx_with_send_window tx_example 9) ++ [4; 5].
Proof.
  apply (forward_appends (D := black_hole) 5 (2, 2) (1, 1) [4; 5] fw_example (tx_with_send_window tx_example 9));
    [reflexivity|apply fw_example_can_send|reflexivity].
Defined.

Lemma tick_resends_witness :
  let s := tx_with_send_window tx_example 9 in
  let payload := ztake (queue_timed_out_size 5 (tx_cache s)) (queue_content (tx_cache s)) in
  exists f' q r,
    stream_tick (ForwardStream := forwarder_is_stream (D := black_hole)) 5 (2, 2) (1, 1) fw_example
      = Done (f', r) /\ answered (D := black_hole) r
    /\ queue_content q = queue_content (tx_cache s)
    /\ resent ((1, 1), (2, 2)) fw_example f' r (tx_pending s) q payload.
Proof.
  apply (tick_resends (D := black_hole) 5 (2, 2) (1, 1) fw_example (tx_with_send_window tx_example 9));
    [reflexivity|apply fw_example_wf|vm_compute; split; discriminate].
Defined.

Lemma retransmit_without_exact_witness :
  let s := tx_with_send_window tx_example 9 in
  exists f' segs l r,
    retransmit_tcp_ack_without (D := black_hole) (2, 2) (1, 1)
      [(q_sequence (tx_cache s) + 1, q_sequence (tx_cache s) + 3)] fw_example = Done (f', r)
    /\ answered (D := black_hole) r /\ conn_step ((1, 1), (2, 2)) fw_example f' segs
    /\ bytes_sent segs `prefix_of` concat (map (cache_bytes (tx_cache s)) l)
    /\ (r = Ok tt -> bytes_sent segs = concat (map (cache_bytes (tx_cache s)) l))
    /\ forall x, in_ranges x l <-> 0 <= x < q_size (tx_cache s)
         /\ ~ in_ranges (q_sequence (tx_cache s) + x) [(q_sequence (tx_cache s) + 1, q_sequence (tx_cache s) + 3)].
Proof.
  intros s. apply (retransmit_without_exact (2, 2) (1, 1) _ fw_example s).
  - reflexivity.
  - simpl; ilia.
  - apply queue_example_wf.
  - vm_compute. discriminate.
  - vm_compute. discriminate.
  - apply List.Forall_cons; [vm_compute; repeat split; discriminate|apply List.Forall_nil].
  - vm_compute. split; discriminate.
Defined.

(** A connection that was closed while its window was closed. *)
Definition fin_example : TcpTxState :=
  mkTx (1, 1) (2, 2) 0 None true 10 20 65535 None (mkQueue [] 9 10 0 0 [] None) None None false
    [12; 13; 14] true 1000 None None.

Lemma fin_overtakes_queue_witness :
  exists f' s' x r,
    send_tcp_ack (D := black_hole) 5 (2, 2) (1, 1) (set_state fw_example (2, 2) (1, 1) fin_example)
      = Done (f', r) /\ answered (D := black_hole) r
    /\ fw_sent f' = fw_sent (set_state fw_example (2, 2) (1, 1) fin_example) ++ [x] /\ bare_fin fin_example x
    /\ fw_states f' !! ((1, 1), (2, 2)) = Some s' /\ tx_queue s' = tx_queue fin_example
    /\ tx_queue_fin s' = false.
Proof.
  apply (fin_overtakes_queue 5 (2, 2) (1, 1)); try reflexivity. discriminate.
Defined.

Lemma tick_always_waits_max_rto_witness :
  exists f' s' r,
    stream_tick (ForwardStream := forwarder_is_stream (D := black_hole)) 5 (2, 2) (1, 1) fw_example
      = Done (f', r) /\ answered (D := black_hole) r
    /\ fw_states f' !! ((1, 1), (2, 2)) = Some s'
    /\ q_clocks (tx_cache s') = [(q_sequence (tx_cache (tx_with_send_window tx_example 9)), timer_new 5 MAX_RTO)].
Proof.
  apply (tick_always_waits_max_rto (D := black_hole) 5 (2, 2) (1, 1) fw_example (tx_with_send_window tx_example 9));
    [reflexivity|apply fw_example_wf|vm_compute; split; discriminate|reflexivity].
Defined.

Lemma zero_mss_never_returns_witness :
  send_segments (D := black_hole) 1000 (2, 2) (1, 1) 0 10 [1; 2; 3] false 0 fw_example = Hang.
Proof.
  apply (zero_mss_never_returns 1000 (2, 2) (1, 1) 10 [1; 2; 3] false fw_example
    (tx_with_send_window tx_example 9)); [apply black_hole_ok|reflexivity|simpl; ilia|ilia|reflexivity].
Defined.

(** Ten bytes in flight across the wrap. *)
Definition wrap_example : TcpTxState :=
  mkTx (1, 1) (2, 2) 65535 None true 8 20 65535 None (mkQueue [1; 2; 3; 4; 5; 6; 7; 8; 9; 10] 65535 4294967293 0 10 [] None)
    None None false [] false 1000 None None.

Lemma sack_across_wrap_resends_witness :
  let f := set_state fw_example (2, 2) (1, 1) wrap_example in
  exists f' segs l r,
    retransmit_tcp_ack_without (D := black_hole) (2, 2) (1, 1)
      [(q_sequence (tx_cache wrap_example) + 2, (q_sequence (tx_cache wrap_example) + q_size (tx_cache wrap_example)) mod 4294967296)] f
      = Done (f', r)
    /\ answered (D := black_hole) r /\ conn_step ((1, 1), (2, 2)) f f' segs
    /\ (r = Ok tt -> bytes_sent segs = concat (map (cache_bytes (tx_cache wrap_example)) l))
    /\ forall x, in_ranges x l <-> 0 <= x < 2 \/ x = q_size (tx_cache wrap_example) - 1.
Proof.
  intros f. apply (sack_across_wrap_resends (2, 2) (1, 1) 2 f wrap_example).
  - reflexivity.
  - simpl; ilia.
  - constructor; unfold head_ok; simpl; try done; unfold len; simpl; cap_lia.
  - vm_compute. discriminate.
  - lia.
  - vm_compute. discriminate.
  - vm_compute. reflexivity.
  - vm_compute. split; discriminate.
Defined.

Lemma set_src_mtu_spec_witness :
  let '(f', changed) := set_src_mtu fw_example 1 576 in
  mtu_ok f' /\ fw_mtu_of f' 1 = Z.min (fw_local_mtu fw_example) 576
  /\ (forall other, other <> 1 -> fw_mtu_of f' other = fw_mtu_of fw_example other)
  /\ (changed = true <-> fw_mtu_of f' 1 <> fw_mtu_of fw_example 1).
Proof. apply (set_src_mtu_spec fw_example 1 576). intros ip m. simpl. rewrite lookup_empty. done. Defined.

Lemma identification_wraps_witness :
  let f' := increase_ipv4_identification fw_example 2 1 in
  fw_identification f' 2 1 = (fw_identification fw_example 2 1 + 1) mod 65536
  /\ is_u16 (fw_identification f' 2 1)
  /\ forall dst' src', (src', dst') <> (1, 2) -> fw_identification f' dst' src' = fw_identification fw_example dst' src'.
Proof. apply (identification_wraps fw_example 2 1). vm_compute. split; discriminate. Defined.
