(* ===== verification/Flow.v ===== *)
(** * What the methods of the forwarder leave alone

    Two views of the methods of [Forwarder] that the redirector relies on.  The
    first is a small logic for what they keep: the settings, the set of
    connections and, of every connection, its endpoints, the window and the
    acknowledgement it reports, its SYN, the room of its cache and whether its
    end was announced.  The second are total lemmas: on a live connection every
    method returns, and only fails when the device does.  Together they give the instance of
    [ForwardStreamLaws] for the forwarder. *)

From S2P Require Import Prelude SeqArith Ring Queue TxState Socks Pnet Wire Layers Packet Frames Forwarder.

(** ** Frames *)

(** The end of the stream was announced: the FIN waits or was sent. *)
Definition tx_ended (s : TcpTxState) : bool :=
  bool_decide (is_Some (tx_cache_fin s)) || tx_queue_fin s.

(** What sending and retransmitting keep of a connection. *)
Record tx_frame : Set := mkTxFrame {
  tf_src : SocketAddrV4; tf_dst : SocketAddrV4; tf_send_window : Z; tf_send_wscale : option Z;
  tf_sack_perm : bool; tf_acknowledgement : Z; tf_window : Z; tf_sacks : option (list (Z * Z));
  tf_cache_syn : option Instant; tf_capacity : Z; tf_ended : bool }.

Definition tx_frame_of (s : TcpTxState) : tx_frame :=
  mkTxFrame (tx_src s) (tx_dst s) (tx_send_window s) (tx_send_wscale s) (tx_sack_perm s)
    (tx_acknowledgement s) (tx_window s) (tx_sacks s) (tx_cache_syn s)
    (q_capacity (tx_cache s)) (tx_ended s).

(** What they keep of the forwarder. *)
Record fw_frame : Set := mkFwFrame {
  ff_src_mtu : gmap Z Z; ff_local_mtu : Z; ff_src_hardware_addr : gmap Z MacAddr;
  ff_local_hardware_addr : MacAddr; ff_local_ip_addr : Ipv4Addr; ff_states : gmap conn_key tx_frame }.

Definition fw_frame_of `{P : Pnet} (f : Forwarder) : fw_frame :=
  mkFwFrame (fw_src_mtu f) (fw_local_mtu f) (fw_src_hardware_addr f) (fw_local_hardware_addr f)
    (fw_local_ip_addr f) (tx_frame_of <$> fw_states f).

(** The addresses that frames are sent from and to. *)
Definition fw_addrs `{P : Pnet} (f : Forwarder) : gmap Z MacAddr * MacAddr * Ipv4Addr :=
  (fw_src_hardware_addr f, fw_local_hardware_addr f, fw_local_ip_addr f).

(** *** Frames of the operations of a connection *)

Lemma tx_add_sequence_frame s n : tx_frame_of (tx_add_sequence s n) = tx_frame_of s.
Proof. by destruct s. Qed.

Lemma tx_append_queue_frame s l : tx_frame_of (tx_append_queue s l) = tx_frame_of s.
Proof. by destruct s. Qed.

Lemma tx_double_rto_frame s : tx_frame_of (tx_double_rto s) = tx_frame_of s.
Proof. by destruct s. Qed.

Lemma tx_with_cache_frame s q :
  q_capacity q = q_capacity (tx_cache s) -> tx_frame_of (tx_with_cache s q) = tx_frame_of s.
Proof. destruct s; simpl. intros E. unfold tx_frame_of. simpl. by rewrite E. Qed.

Lemma tx_update_fin_timer_frame now s :
  tx_ended s = true -> tx_frame_of (tx_update_fin_timer now s) = tx_frame_of s.
Proof.
  intros E. unfold tx_frame_of. rewrite E. unfold tx_update_fin_timer.
  by destruct s as [? ? ? ? ? ? ? ? ? ? ? [] ? ? ? ? ? ?].
Qed.

Lemma tx_append_cache_fin_frame now s :
  tx_queue_fin s = true -> tx_frame_of (tx_append_cache_fin now s) = tx_frame_of s.
Proof.
  intros E. unfold tx_frame_of, tx_append_cache_fin, tx_update_fin_timer, tx_ended. rewrite E.
  destruct s as [? ? ? ? ? ? ? ? ? ? ? [] ? ? ? ? ? ?]; simpl; by rewrite ?orb_true_r.
Qed.

Lemma queue_append_capacity now q payload rto q' r :
  queue_append now q payload rto = Done (q', r) -> q_capacity q' = q_capacity q.
Proof.
  unfold queue_append. intros (n & _ & H)%outcome_bind_Done_inv. destruct (n <? len payload).
  - by injection H as <- _.
  - apply outcome_bind_Done_inv in H as (b & _ & H). apply outcome_bind_Done_inv in H as (b' & _ & H).
    apply outcome_bind_Done_inv in H as (m & _ & H). by injection H as <- _.
Qed.

Lemma tx_append_cache_frame now s n s' r :
  tx_append_cache now s n = Done (s', r) -> tx_frame_of s' = tx_frame_of s.
Proof.
  unfold tx_append_cache. intros (p & _ & H)%outcome_bind_Done_inv.
  apply outcome_bind_Done_inv in H as ([q e] & E & H). injection H as <- _.
  apply queue_append_capacity in E. rewrite tx_with_cache_frame by done. by destruct s.
Qed.

Lemma queue_poll_capacity now q rto q' payload :
  queue_get_timed_out_and_update now q rto = Done (q', payload) -> q_capacity q' = q_capacity q.
Proof.
  unfold queue_get_timed_out_and_update. destruct (queue_first_fresh now (q_clocks q)).
  - intros (r & _ & H)%outcome_bind_Done_inv. apply outcome_bind_Done_inv in H as (p & _ & H).
    by injection H as <- _.
  - intros (r & _ & H)%outcome_bind_Done_inv. by injection H as <- _.
Qed.

(** ** The logic *)

Section keeps.
Context {P : Pnet} {D : Device}.

(** From a forwarder with the frame [c], the method keeps the frame, and its
    result satisfies [Q]. *)
Definition keeps {A} (c : fw_frame) (m : FM A) (Q : A -> Prop) : Prop :=
  forall f f' r, fw_frame_of f = c -> m f = Done (f', r) ->
    fw_frame_of f' = c /\ forall a, r = Ok a -> Q a.

(** In the frame, the connection is as in the state [s]. *)
Definition has (c : fw_frame) (key : conn_key) (s : TcpTxState) : Prop :=
  ff_states c !! key = Some (tx_frame_of s).

Lemma has_frame c key s s' : has c key s -> tx_frame_of s' = tx_frame_of s -> has c key s'.
Proof. unfold has. congruence. Qed.

Lemma keeps_weaken {A} c (m : FM A) (Q Q' : A -> Prop) :
  keeps c m Q -> (forall a, Q a -> Q' a) -> keeps c m Q'.
Proof. intros H HQ f f' r Hf E. destruct (H f f' r Hf E). split; [done|]. eauto. Qed.

Lemma keeps_ret {A} c (a : A) : keeps c (mret a) (fun x => x = a).
Proof. intros f f' r Hf [= <- <-]. split; [done|]. by intros ? [= <-]. Qed.

Lemma keeps_fail {A} c e : keeps c (fm_fail (A := A) e) (fun _ => True).
Proof. intros f f' r Hf [= <- <-]. done. Qed.

Lemma keeps_bind {A B} c (m : FM A) (k : A -> FM B) Q R :
  keeps c m Q -> (forall a, Q a -> keeps c (k a) R) -> keeps c (mbind k m) R.
Proof.
  intros Hm Hk f f' r Hf. unfold mbind, FM_bind. destruct (m f) as [[f1 [a|e]]| |] eqn:E; [| |done|done].
  - destruct (Hm f f1 (Ok a) Hf E) as [Hf1 Ha]. apply Hk; [by apply Ha|done].
  - intros [= <- <-]. by destruct (Hm f f1 (Err e) Hf E).
Qed.

Lemma keeps_lift {A} c (o : outcome A) : keeps c (fm_lift o) (fun a => o = Done a).
Proof.
  intros f f' r Hf E. unfold fm_lift in E. apply outcome_bind_Done_inv in E as (a & -> & [= <- <-]).
  split; [done|]. by intros ? [= <-].
Qed.

(** A pure reading of the forwarder that may panic. *)
Lemma keeps_read {A} c (g : Forwarder -> outcome A) :
  keeps c (fun f => fm_lift (g f) f) (fun _ => True).
Proof.
  intros f f' r Hf E. unfold fm_lift in E. apply outcome_bind_Done_inv in E as (a & _ & [= <- <-]). done.
Qed.

Lemma keeps_get {A} c (g : Forwarder -> A) : keeps c (fm_get g) (fun _ => True).
Proof. intros f f' r Hf [= <- <-]. done. Qed.

Lemma keeps_state c key : keeps c (fm_state key) (has c key).
Proof.
  intros f f' r Hf E. unfold fm_state in E. apply outcome_bind_Done_inv in E as (s & Es & [= <- <-]).
  split; [done|]. intros ? [= <-]. unfold has. rewrite <- Hf. cbn. rewrite lookup_fmap.
  by destruct (fw_states f !! key); [injection Es as ->|].
Qed.

Lemma keeps_put c key s : has c key s -> keeps c (fm_put_state key s) (fun _ => True).
Proof.
  intros Hs f f' r Hf [= <- <-]. split; [|done]. rewrite <- Hf in Hs |- *. unfold fw_frame_of. cbn.
  rewrite fmap_insert. f_equal. by apply insert_id.
Qed.

Lemma keeps_identification c dst src :
  keeps c (fm_update (fun f => increase_ipv4_identification f dst src)) (fun _ => True).
Proof. intros f f' r Hf [= <- <-]. done. Qed.

Lemma keeps_device c buffer i payload : keeps c (device_write buffer i payload) (fun _ => True).
Proof.
  intros f f' r Hf. unfold device_write. by destruct (unwrap_or _ _); intros [= <- <-].
Qed.

Lemma keeps_serialize c buffer n r : keeps c (fm_serialize buffer n r) (fun _ => True).
Proof.
  intros f f' x Hf. unfold fm_serialize. intros (front & _ & H)%outcome_bind_Done_inv.
  apply outcome_bind_Done_inv in H as ([b [k|e]] & _ & H); by injection H as <- <-.
Qed.
End keeps.

(** The operations keep what the frame says of a connection. *)
Lemma has_add_sequence c key s n : has c key s -> has c key (tx_add_sequence s n).
Proof. intros H. eapply has_frame; [done|apply tx_add_sequence_frame]. Qed.
Lemma has_append_queue c key s l : has c key s -> has c key (tx_append_queue s l).
Proof. intros H. eapply has_frame; [done|apply tx_append_queue_frame]. Qed.
Lemma has_double_rto c key s : has c key s -> has c key (tx_double_rto s).
Proof. intros H. eapply has_frame; [done|apply tx_double_rto_frame]. Qed.
Lemma has_append_cache c key now s n s' r :
  has c key s -> tx_append_cache now s n = Done (s', r) -> has c key s'.
Proof. intros H E. eapply has_frame; [done|by eapply tx_append_cache_frame]. Qed.
Lemma has_append_cache_fin c key now s :
  has c key s -> tx_queue_fin s = true -> has c key (tx_append_cache_fin now s).
Proof. intros H E. eapply has_frame; [done|by apply tx_append_cache_fin_frame]. Qed.
Lemma has_update_fin_timer c key now s :
  has c key s -> tx_ended s = true -> has c key (tx_update_fin_timer now s).
Proof. intros H E. eapply has_frame; [done|by apply tx_update_fin_timer_frame]. Qed.
Lemma has_poll c key now s rto q payload :
  has c key s -> queue_get_timed_out_and_update now (tx_cache s) rto = Done (q, payload) ->
  has c key (tx_with_cache s q).
Proof.
  intros H E. eapply has_frame; [done|]. apply tx_with_cache_frame. by eapply queue_poll_capacity.
Qed.

(** [ended], from the test of the code. *)
Lemma ended_cache_fin s : is_Some (tx_cache_fin s) -> tx_ended s = true.
Proof. intros H. unfold tx_ended. by rewrite bool_decide_eq_true_2. Qed.
Lemma ended_some s t : tx_cache_fin s = Some t -> tx_ended s = true.
Proof. intros H. apply ended_cache_fin. by rewrite H. Qed.
Lemma ended_double_rto s : tx_ended s = true -> tx_ended (tx_double_rto s) = true.
Proof. by destruct s. Qed.
Lemma ended_with_cache s q : tx_ended s = true -> tx_ended (tx_with_cache s q) = true.
Proof. by destruct s. Qed.

Create HintDb keeps.
#[export] Hint Resolve keeps_ret keeps_fail keeps_get keeps_state
  keeps_identification keeps_device keeps_serialize : keeps.
#[export] Hint Resolve has_add_sequence has_append_queue has_double_rto
  has_append_cache_fin has_update_fin_timer has_poll ended_double_rto ended_with_cache ended_cache_fin ended_some : keeps.

(** The conjuncts of the tests that were passed. *)
Ltac keeps_tests :=
  repeat match goal with
  | H : _ && _ = true |- _ => apply andb_true_iff in H as [? ?]
  | H : bool_decide _ = true |- _ => apply bool_decide_eq_true_1 in H
  | H : ?x = (_, _) |- _ => is_var x; subst x
  | H : has _ _ ?s, E : tx_append_cache _ ?s _ = Done _ |- _ => apply (has_append_cache _ _ _ _ _ _ _ H) in E
  end.

(** The rule for the head of the method. *)
Ltac keeps_weak := eapply keeps_weaken; [eauto with keeps; fail|done].
Ltac keeps_tac :=
  repeat (cbv zeta; keeps_tests;
    match goal with
    | |- keeps _ (mbind _ (fm_lift _)) _ => eapply keeps_bind; [apply keeps_lift|intros ? ?]
    | |- keeps _ (mbind _ (fun f => fm_lift _ f)) _ => eapply keeps_bind; [apply keeps_read|intros ? _]
    | |- keeps _ (mbind _ (fm_put_state _ _)) _ =>
        eapply keeps_bind; [apply keeps_put; solve [eauto 8 with keeps]|intros ? _]
    | |- keeps _ (fm_put_state _ _) _ => apply keeps_put; solve [eauto 8 with keeps]
    | |- keeps _ (fm_lift _) _ => eapply keeps_weaken; [apply keeps_lift|done]
    | |- keeps _ (mbind _ (if ?b then _ else _)) _ =>
        eapply (keeps_bind _ _ _ (fun _ => True)); [destruct b eqn:?|intros ? _]
    | |- keeps _ (mbind _ _) _ => eapply keeps_bind; [solve [eauto with keeps]|intros ? ?]
    | |- keeps _ (if ?b then _ else _) _ => destruct b eqn:?
    | |- keeps _ (let '(_, _) := ?x in _) _ => destruct x as [? ?] eqn:?
    | |- keeps _ (match ?x with _ => _ end) _ => destruct x eqn:?
    end);
  try keeps_weak.

Section methods.
Context {P : Pnet} {D : Device}.
Implicit Types c : fw_frame.

Lemma keeps_fw_send c i : keeps c (fw_send i) (fun _ => True).
Proof. unfold fw_send. keeps_tac. Qed.

Lemma keeps_fw_send_with_payload c i payload : keeps c (fw_send_with_payload i payload) (fun _ => True).
Proof. unfold fw_send_with_payload. keeps_tac. Qed.
#[local] Hint Resolve keeps_fw_send keeps_fw_send_with_payload : keeps.

Lemma keeps_send_ethernet c a network transport payload :
  keeps c (send_ethernet a network transport payload) (fun _ => True).
Proof. unfold send_ethernet. keeps_tac. Qed.
#[local] Hint Resolve keeps_send_ethernet : keeps.

Lemma keeps_send_transport c dst src transport payload :
  keeps c (send_ipv4_with_transport dst src transport payload) (fun _ => True).
Proof. unfold send_ipv4_with_transport. keeps_tac. Qed.
#[local] Hint Resolve keeps_send_transport : keeps.

Lemma keeps_send_fragment c dst src t o payload :
  keeps c (send_ipv4_with_fragment dst src t o payload) (fun _ => True).
Proof. unfold send_ipv4_with_fragment. keeps_tac. Qed.

Lemma keeps_send_last_fragment c dst src t o payload :
  keeps c (send_ipv4_with_last_fragment dst src t o payload) (fun _ => True).
Proof. unfold send_ipv4_with_last_fragment. keeps_tac. Qed.
#[local] Hint Resolve keeps_send_fragment keeps_send_last_fragment : keeps.

Lemma keeps_send_arp_reply c src : keeps c (send_arp_reply src) (fun _ => True).
Proof. unfold send_arp_reply. keeps_tac. Qed.

Lemma keeps_send_tcp_ack_0 c dst src : keeps c (send_tcp_ack_0 dst src) (fun _ => True).
Proof. unfold send_tcp_ack_0. keeps_tac. Qed.

Lemma keeps_send_tcp_ack_syn c dst src : keeps c (send_tcp_ack_syn dst src) (fun _ => True).
Proof. unfold send_tcp_ack_syn. keeps_tac. Qed.

Lemma keeps_send_tcp_ack_rst c dst src : keeps c (send_tcp_ack_rst dst src) (fun _ => True).
Proof. unfold send_tcp_ack_rst. keeps_tac. Qed.

Lemma keeps_send_tcp_rst c dst src : keeps c (send_tcp_rst dst src) (fun _ => True).
Proof. unfold send_tcp_rst. keeps_tac. Qed.

Lemma keeps_send_tcp_fin c dst src : keeps c (send_tcp_fin dst src) (fun _ => True).
Proof. unfold send_tcp_fin. keeps_tac. Qed.
#[local] Hint Resolve keeps_send_tcp_ack_syn keeps_send_tcp_fin : keeps.

Lemma keeps_update_sequence c key n : keeps c (update_sequence key n) (fun _ => True).
Proof. unfold update_sequence. keeps_tac. Qed.
#[local] Hint Resolve keeps_update_sequence : keeps.

Lemma keeps_send_segment c dst src mss sequence payload is_fin i :
  keeps c (send_segment dst src mss sequence payload is_fin i) (fun _ => True).
Proof. unfold send_segment. keeps_tac. Qed.
#[local] Hint Resolve keeps_send_segment : keeps.

Lemma keeps_send_segments c fuel dst src mss sequence payload is_fin i :
  keeps c (send_segments fuel dst src mss sequence payload is_fin i) (fun _ => True).
Proof. revert i. induction fuel as [|fuel IH]; intros i; cbn [send_segments]; [done|]. keeps_tac. Qed.
#[local] Hint Resolve keeps_send_segments : keeps.

Lemma keeps_send_tcp_ack_raw c dst src sequence payload is_fin :
  keeps c (send_tcp_ack_raw dst src sequence payload is_fin) (fun _ => True).
Proof. unfold send_tcp_ack_raw. keeps_tac. Qed.
#[local] Hint Resolve keeps_send_tcp_ack_raw : keeps.

Lemma keeps_send_queued c now dst src : keeps c (send_queued now dst src) (fun _ => True).
Proof. unfold send_queued. keeps_tac. Qed.
#[local] Hint Resolve keeps_send_queued : keeps.

Lemma keeps_send_tcp_ack c now dst src : keeps c (send_tcp_ack now dst src) (fun _ => True).
Proof. unfold send_tcp_ack. keeps_tac. Qed.
#[local] Hint Resolve keeps_send_tcp_ack : keeps.

Lemma keeps_append_to_queue c now dst src payload :
  keeps c (append_to_queue now dst src payload) (fun _ => True).
Proof. unfold append_to_queue. keeps_tac. Qed.
#[local] Hint Resolve keeps_append_to_queue : keeps.

Lemma keeps_retransmit_tcp_ack c dst src : keeps c (retransmit_tcp_ack dst src) (fun _ => True).
Proof. unfold retransmit_tcp_ack. keeps_tac. Qed.

Lemma keeps_retransmit_ranges c dst src recv_next ranges :
  keeps c (retransmit_ranges dst src recv_next ranges) (fun _ => True).
Proof. induction ranges as [|r ranges IH]; cbn [retransmit_ranges]; keeps_tac. Qed.
#[local] Hint Resolve keeps_retransmit_ranges : keeps.

Lemma keeps_retransmit_without c dst src sacks :
  keeps c (retransmit_tcp_ack_without dst src sacks) (fun _ => True).
Proof. unfold retransmit_tcp_ack_without. keeps_tac. Qed.

Lemma keeps_retransmit_timedout c now dst src :
  keeps c (retransmit_tcp_ack_timedout now dst src) (fun _ => True).
Proof. unfold retransmit_tcp_ack_timedout. keeps_tac. Qed.

Lemma keeps_send_fragments c fuel dst src mss size buffer n :
  keeps c (send_fragments fuel dst src mss size buffer n) (fun _ => True).
Proof. revert n. induction fuel as [|fuel IH]; intros n; cbn [send_fragments]; [done|]. keeps_tac. Qed.
#[local] Hint Resolve keeps_send_fragments : keeps.

Lemma keeps_send_udp c dst src payload : keeps c (send_udp dst src payload) (fun _ => True).
Proof. unfold send_udp, send_udp_raw. keeps_tac. Qed.

Lemma keeps_forward c now dst src payload :
  keeps c (forwarder_forward now dst src payload) (fun _ => True).
Proof. unfold forwarder_forward. keeps_tac. Qed.
End methods.

(** ** Live connections *)

Section live.
Context {P : Pnet} {L : PnetLaws P} {D : Device}.

(** The connection is known, its state is good and it may send. *)
Record live (f : Forwarder) (dst src : SocketAddrV4) (s : TcpTxState) : Prop := {
  lv_state : fw_states f !! (src, dst) = Some s;
  lv_send : can_send f s src;
  lv_wscale : forall w, tx_send_wscale s = Some w -> is_u8 w;
  lv_sacks : sacks_opt_u32 (tx_sacks s);
  lv_local : 40 <= fw_local_mtu f
}.

(** A call for the connection: it stays live, the frame is kept, no other
    connection is touched, and no pending byte is lost. *)
Record ran (f f' : Forwarder) (dst src : SocketAddrV4) (s s' : TcpTxState) : Prop := {
  rn_live : live f' dst src s';
  rn_frame : fw_frame_of f' = fw_frame_of f;
  rn_states : fw_states f' = <[(src, dst) := s']> (fw_states f);
  rn_sent : fw_sent f `prefix_of` fw_sent f';
  rn_pending : tx_pending s' = tx_pending s
}.

Lemma frame_lookup f f' key s s' :
  fw_frame_of f' = fw_frame_of f -> fw_states f !! key = Some s -> fw_states f' !! key = Some s' ->
  tx_frame_of s' = tx_frame_of s.
Proof.
  intros E H H'. assert (Eq : ff_states (fw_frame_of f') !! key = ff_states (fw_frame_of f) !! key) by by rewrite E.
  cbn in Eq. rewrite !lookup_fmap, H, H' in Eq. by apply (inj Some) in Eq.
Qed.

Lemma frame_mtu f f' ip : fw_frame_of f' = fw_frame_of f -> fw_mtu_of f' ip = fw_mtu_of f ip.
Proof. intros E. unfold fw_mtu_of. by injection E as -> -> _ _ _ _. Qed.

Lemma live_kept f f' dst src s s' :
  live f dst src s -> fw_frame_of f' = fw_frame_of f -> fw_states f' !! (src, dst) = Some s' -> tx_wf s' ->
  live f' dst src s' /\ tx_frame_of s' = tx_frame_of s.
Proof.
  intros [Hs [Hw Hwin Hm] Hws Hsk Hl] E Hs' Hw'. pose proof (frame_lookup _ _ _ _ _ E Hs Hs') as Ef.
  split; [|done]. pose proof (frame_mtu _ _ (sa_ip src) E) as Em. injection E as _ El _ _ _ _.
  unfold tx_frame_of in Ef. injection Ef as _ _ Esw Ews _ _ _ Esa _ Ec _.
  constructor; [done| |by rewrite Ews|by rewrite Esa|by rewrite El].
  constructor; [done|by rewrite Esw, Ec|by rewrite Em].
Qed.

(** A call that only sends. *)
Lemma ran_sent f f' dst src s l :
  live f dst src s -> sent_step f f' l -> fw_frame_of f' = fw_frame_of f -> ran f f' dst src s s.
Proof.
  intros Hl Hss Hf. pose proof (lv_state _ _ _ _ Hl) as Hs.
  assert (Hs' : fw_states f' !! (src, dst) = Some s) by (by rewrite (ss_states _ _ _ Hss)).
  constructor; [|done|rewrite (ss_states _ _ _ Hss); by rewrite insert_id| |done];
    [|rewrite (ss_sent _ _ _ Hss); by eexists].
  by apply (live_kept f f' dst src s s Hl Hf Hs'); destruct Hl as [_ []].
Qed.

Lemma ran_step f f' dst src s s' l :
  live f dst src s -> state_step (src, dst) f f' s' l -> fw_frame_of f' = fw_frame_of f -> tx_wf s' ->
  tx_pending s' = tx_pending s -> ran f f' dst src s s'.
Proof.
  intros Hl H Hf Hw Hp. destruct (live_kept f f' dst src s s' Hl Hf (state_step_lookup _ _ _ _ _ H) Hw) as [Hl' _].
  destruct H as (Es & Et & _). constructor; [done..| |done]. rewrite Et. by eexists.
Qed.

Lemma ran_trans f f' f'' dst src s s' s'' :
  ran f f' dst src s s' -> ran f' f'' dst src s' s'' -> ran f f'' dst src s s''.
Proof.
  intros [_ E1 S1 T1 P1] [L2 E2 S2 T2 P2].
  constructor; [done|congruence|by rewrite S2, S1, insert_insert_eq|by etrans|congruence].
Qed.

Lemma ran_refl f dst src s : live f dst src s -> ran f f dst src s s.
Proof. intros Hl. constructor; [done|done|by rewrite insert_id by by destruct Hl|done|done]. Qed.

Lemma ran_tx_frame f f' dst src s s' :
  fw_states f !! (src, dst) = Some s -> ran f f' dst src s s' -> tx_frame_of s' = tx_frame_of s.
Proof. intros H R. exact (frame_lookup _ _ _ _ _ (rn_frame _ _ _ _ _ _ R) H (lv_state _ _ _ _ (rn_live _ _ _ _ _ _ R))). Qed.

(** The frame after a call that was shown to keep it. *)
Lemma keeps_frame {A} (m : FM A) Q f f' r :
  keeps (fw_frame_of f) m Q -> m f = Done (f', r) -> fw_frame_of f' = fw_frame_of f.
Proof. intros H E. by destruct (H f f' r eq_refl E). Qed.

(** *** Segments without data *)

(** The frame is a TCP segment without data for the connection, with the
    number and the acknowledgement of the state. *)
Definition bare_segment (dst src : SocketAddrV4) (s : TcpTxState) (ack syn rst fin : bool)
    (x : Indicator * list byte) : Prop :=
  x.2 = [] /\ exists tcp, indicator_tcp x.1 = Some tcp
    /\ (tcp_src_ip_addr tcp, tcp_src tcp) = dst /\ (tcp_dst_ip_addr tcp, tcp_dst tcp) = src
    /\ tcp_sequence tcp = tx_sequence s /\ tcp_acknowledgement tcp = tx_acknowledgement s
    /\ (tcp_is_ack tcp, tcp_is_syn tcp, tcp_is_rst tcp, tcp_is_fin tcp) = (ack, syn, rst, fin).

(** The header [tcp], built for the connection from the state [s], is sent. *)
Lemma send_bare_segment dst src s tcp ack syn rst fin f :
  tcp_sized tcp -> tcp_src tcp = sa_port dst -> tcp_dst tcp = sa_port src ->
  tcp_sequence tcp = tx_sequence s -> tcp_acknowledgement tcp = tx_acknowledgement s ->
  (tcp_is_ack tcp, tcp_is_syn tcp, tcp_is_rst tcp, tcp_is_fin tcp) = (ack, syn, rst, fin) ->
  exists f' x r, send_ipv4_with_transport (sa_ip dst) (sa_ip src) (LTcp tcp) None f = Done (f', r) /\ answered r
    /\ sent_step f f' [x] /\ bare_segment dst src s ack syn rst fin x
    /\ fw_frame_of f' = fw_frame_of f.
Proof.
  intros Ht Hp Hq Hsq Hak Hfl.
  destruct (send_transport_ok (sa_ip dst) (sa_ip src) _ _ _ _ None f (transport_tcp _ Ht)) as (f' & r & E & Hr & Hss & _).
  { destruct Ht as (_ & ? & _). change (len (unwrap_or None [])) with 0. ilia. }
  eexists f', _, r. split; [done|]. split; [done|]. split; [exact Hss|]. split; [|by eapply keeps_frame, E; apply keeps_send_transport].
  split; [done|]. eexists. split; [reflexivity|]. destruct dst as [di dp], src as [si sp]. cbn in Hp, Hq.
  split; [by rewrite <- Hp|]. split; [by rewrite <- Hq|]. done.
Qed.

Lemma tcp_new_ack_fields src dst sequence acknowledgement window sacks ts :
  let tcp := tcp_new_ack src dst sequence acknowledgement window sacks ts in
  tcp_src tcp = src /\ tcp_dst tcp = dst /\ tcp_sequence tcp = sequence
  /\ tcp_acknowledgement tcp = acknowledgement /\ pt_flags (tcp_layer tcp) = flag_ack.
Proof.
  unfold tcp_new_ack. destruct ts; destruct (match sacks with Some _ => _ | None => _ end); done.
Qed.

(** Header fields that flags and options do not touch. *)
Lemma tcp_new_ack_syn_fields src dst sequence acknowledgement window mss wscale sack_perm ts :
  let tcp := tcp_new_ack_syn src dst sequence acknowledgement window mss wscale sack_perm ts in
  tcp_src tcp = src /\ tcp_dst tcp = dst /\ tcp_sequence tcp = sequence
  /\ tcp_acknowledgement tcp = acknowledgement /\ pt_flags (tcp_layer tcp) = Z.lor flag_ack flag_syn.
Proof. unfold tcp_new_ack_syn. destruct mss, wscale, sack_perm, ts; done. Qed.

Lemma send_tcp_ack_0_ok dst src f s :
  live f dst src s ->
  exists f' x r, send_tcp_ack_0 dst src f = Done (f', r) /\ answered r /\ fw_sent f' = fw_sent f ++ [x]
    /\ bare_segment dst src s true false false false x /\ ran f f' dst src s s.
Proof.
  intros Hl. pose proof (lv_state _ _ _ _ Hl) as Hs.
  destruct (get_tcp_window_Done f dst src s Hs) as (w & Hw & _).
  destruct (tcp_new_ack_fields (sa_port dst) (sa_port src) (tx_sequence s) (tx_acknowledgement s) w (tx_sacks s) None)
    as (E1 & E2 & E3 & E4 & E5).
  destruct (send_bare_segment dst src s (tcp_new_ack (sa_port dst) (sa_port src) (tx_sequence s)
    (tx_acknowledgement s) w (tx_sacks s) None) true false false false f) as (f' & x & r & E & Hr & Hss & Hx & Hf); try done.
  { apply tcp_new_ack_sized; [by destruct Hl|done]. }
  { unfold tcp_is_ack, tcp_is_syn, tcp_is_rst, tcp_is_fin, tcp_has_flag. by rewrite E5. }
  exists f', x, r. split; [|split; [done|split; [apply Hss|split; [done|by eapply ran_sent]]]].
  unfold send_tcp_ack_0. rewrite (fm_bind_Ok _ _ _ _ _ (fm_state_Done _ _ _ Hs)).
  erewrite fm_bind_Ok by (apply fm_lift_Done; exact Hw). exact E.
Qed.

Lemma send_tcp_ack_rst_ok dst src f s :
  fw_states f !! (src, dst) = Some s ->
  exists f' x r, send_tcp_ack_rst dst src f = Done (f', r) /\ answered r /\ sent_step f f' [x]
    /\ bare_segment dst src s true false true false x /\ fw_frame_of f' = fw_frame_of f.
Proof.
  intros Hs. destruct (get_tcp_window_Done f dst src s Hs) as (w & Hw & _).
  destruct (send_bare_segment dst src s (tcp_new_ack_rst (sa_port dst) (sa_port src) (tx_sequence s)
    (tx_acknowledgement s) w None) true false true false f) as (f' & x & r & E & Hr & Hss & Hx & Hf); try done.
  { by apply tcp_with_flags_sized, tcp_with_flags_sized, tcp_new_ack_sized. }
  exists f', x, r. split; [|done]. unfold send_tcp_ack_rst. rewrite (fm_bind_Ok _ _ _ _ _ (fm_state_Done _ _ _ Hs)).
  erewrite fm_bind_Ok by (apply fm_lift_Done; exact Hw). exact E.
Qed.

(** A RST without a connection has the numbers zero. *)
Lemma send_tcp_rst_ok dst src f :
  exists f' x tcp r, send_tcp_rst dst src f = Done (f', r) /\ answered r /\ sent_step f f' [x] /\ x.2 = []
    /\ indicator_tcp x.1 = Some tcp /\ tcp_is_rst tcp = true
    /\ (tcp_src_ip_addr tcp, tcp_src tcp) = dst /\ (tcp_dst_ip_addr tcp, tcp_dst tcp) = src
    /\ fw_frame_of f' = fw_frame_of f.
Proof.
  set (tcp := tcp_new_rst (sa_port dst) (sa_port src) 0 0 0 None).
  assert (Ht : tcp_sized tcp) by by apply tcp_with_flags_sized, tcp_new_ack_sized.
  destruct (send_transport_ok (sa_ip dst) (sa_ip src) _ _ _ _ None f (transport_tcp _ Ht)) as (f' & r & E & Hr & Hss & _).
  { destruct Ht as (_ & ? & _). change (len (unwrap_or None [])) with 0. ilia. }
  eexists f', _, _, r. split; [exact E|]. split; [done|]. split; [exact Hss|]. split; [done|]. split; [reflexivity|].
  split; [done|]. destruct dst, src. split; [done|]. split; [done|].
  by eapply keeps_frame, E; apply keeps_send_transport.
Qed.

Lemma send_tcp_ack_syn_ok dst src f s :
  live f dst src s ->
  exists f' x r, send_tcp_ack_syn dst src f = Done (f', r) /\ answered r /\ fw_sent f' = fw_sent f ++ [x]
    /\ bare_segment dst src s true true false false x /\ ran f f' dst src s s.
Proof.
  intros Hl. pose proof (lv_state _ _ _ _ Hl) as Hs. pose proof (lv_local _ _ _ _ Hl) as Hm.
  destruct (get_tcp_window_Done f dst src s Hs) as (w & Hw & _).
  set (mss := if u16_max <? fw_local_mtu f - 40 then u16_max else as_u16 (fw_local_mtu f - 40)).
  set (tcp := tcp_new_ack_syn (sa_port dst) (sa_port src) (tx_sequence s) (tx_acknowledgement s) w (Some mss)
    (tx_send_wscale s) (tx_sack_perm s) None).
  destruct (tcp_new_ack_syn_fields (sa_port dst) (sa_port src) (tx_sequence s) (tx_acknowledgement s) w (Some mss)
    (tx_send_wscale s) (tx_sack_perm s) None) as (E1 & E2 & E3 & E4 & E5). fold tcp in E1, E2, E3, E4, E5.
  destruct (send_bare_segment dst src s tcp true true false false f) as (f' & x & r & E & Hr & Hss & Hx & Hf); try done.
  { apply tcp_new_ack_syn_sized; [|by destruct Hl|done]. intros m [= <-]. unfold mss. zcase; [ilia|apply as_u16_range]. }
  { unfold tcp_is_ack, tcp_is_syn, tcp_is_rst, tcp_is_fin, tcp_has_flag. by rewrite E5. }
  exists f', x, r. split; [|split; [done|split; [apply Hss|split; [done|by eapply ran_sent]]]].
  unfold send_tcp_ack_syn. change ENABLE_MSS with true. cbv iota.
  assert (Em : (mtu ← fm_get fw_local_mtu;
    m ← fm_lift (int_sub mtu (ipv4_minimum_len + tcp_minimum_len));
    mret (Some (if u16_max <? m then u16_max else as_u16 m))) f = Done (f, Ok (Some mss))).
  { erewrite fm_bind_Ok by reflexivity.
    erewrite fm_bind_Ok by (apply fm_lift_Done; apply int_sub_Done; unfold ipv4_minimum_len, tcp_minimum_len; lia).
    reflexivity. }
  rewrite (fm_bind_Ok _ _ _ _ _ Em), (fm_bind_Ok _ _ _ _ _ (fm_state_Done _ _ _ Hs)).
  erewrite fm_bind_Ok by (apply fm_lift_Done; exact Hw). exact E.
Qed.

(** *** Data *)

Lemma send_tcp_ack_total now dst src f s :
  live f dst src s ->
  exists f' s' r, send_tcp_ack now dst src f = Done (f', r) /\ answered r /\ ran f f' dst src s s'.
Proof.
  intros Hl. pose proof (lv_state _ _ _ _ Hl) as Hs. destruct (tx_cache_syn s) as [t|] eqn:Esyn.
  - destruct (send_tcp_ack_syn_ok dst src f s Hl) as (f' & x & r & E & Hx & _ & _ & Hr). exists f', s, r. split; [|done].
    unfold send_tcp_ack. by rewrite (fm_bind_Ok _ _ _ _ _ (fm_state_Done _ _ _ Hs)), Esyn.
  - destruct (send_tcp_ack_ok now dst src f s Hs (lv_send _ _ _ _ Hl) Esyn)
      as (f' & s' & moved & l & r & E & Hr & Hst & [Hw Hp _ _ _ _ _]).
    exists f', s', r. split; [done|]. split; [done|]. eapply ran_step; [done..| |done|done].
    eapply keeps_frame; [|exact E]. apply keeps_send_tcp_ack.
Qed.

(** A state that is stored and has the same frame. *)
Lemma live_put f dst src s s1 :
  live f dst src s -> tx_wf s1 -> tx_frame_of s1 = tx_frame_of s ->
  exists f1, fm_put_state (src, dst) s1 f = Done (f1, Ok tt) /\ live f1 dst src s1
    /\ fw_frame_of f1 = fw_frame_of f /\ fw_states f1 = <[(src, dst) := s1]> (fw_states f)
    /\ fw_sent f1 = fw_sent f.
Proof.
  intros Hl Hw Ef. destruct (put_state_step (src, dst) s1 f) as (f1 & E & H1). exists f1. split; [done|].
  assert (Hf : fw_frame_of f1 = fw_frame_of f).
  { eapply keeps_frame; [|exact E]. apply keeps_put. unfold has.
    change (ff_states (fw_frame_of f)) with (tx_frame_of <$> fw_states f).
    rewrite lookup_fmap, Ef. exact (f_equal (fmap tx_frame_of) (lv_state _ _ _ _ Hl)). }
  split; [|split; [done|]; destruct H1 as (? & Et & _); split; [done|by rewrite Et, app_nil_r]].
  by apply (live_kept f f1 dst src s s1 Hl Hf (state_step_lookup _ _ _ _ _ H1) Hw).
Qed.

Lemma append_to_queue_total now dst src payload f s :
  live f dst src s ->
  exists f' s' r, append_to_queue now dst src payload f = Done (f', r) /\ answered r
    /\ live f' dst src s' /\ fw_frame_of f' = fw_frame_of f
    /\ fw_states f' = <[(src, dst) := s']> (fw_states f) /\ tx_pending s' = tx_pending s ++ payload
    /\ fw_sent f `prefix_of` fw_sent f'.
Proof.
  intros Hl. unfold append_to_queue. rewrite (fm_bind_Ok _ _ _ _ _ (fm_state_Done _ _ _ (lv_state _ _ _ _ Hl))).
  destruct (live_put f dst src s (tx_append_queue s payload)) as (f1 & E1 & Hl1 & Hf1 & Hs1 & Ht1);
    [done|by apply tx_queue_wf; destruct Hl as [_ []]|apply tx_append_queue_frame|].
  rewrite (fm_bind_Ok _ _ _ _ _ E1).
  destruct (send_tcp_ack_total now dst src f1 _ Hl1) as (f2 & s2 & r & -> & Hr & [Hl2 Hf2 Hs2 Ht2 Hp2]).
  exists f2, s2, r. split; [done|]. split; [done|]. split; [done|]. split; [congruence|].
  split; [by rewrite Hs2, Hs1, insert_insert_eq|]. split; [|by rewrite <- Ht1].
  rewrite Hp2. unfold tx_pending. destruct s; simpl. by rewrite app_assoc.
Qed.

(** Data behind the announced end is refused, other data is queued. *)
Lemma forward_total now dst src payload f s :
  live f dst src s ->
  exists f' s' more r, forwarder_forward now dst src payload f = Done (f', r)
    /\ live f' dst src s' /\ fw_frame_of f' = fw_frame_of f
    /\ fw_states f' = <[(src, dst) := s']> (fw_states f) /\ fw_sent f `prefix_of` fw_sent f'
    /\ tx_pending s' = tx_pending s ++ more /\ len more <= len payload.
Proof.
  intros Hl. pose proof (lv_state _ _ _ _ Hl) as Hs. unfold forwarder_forward.
  rewrite (fm_bind_Ok _ _ _ _ _ (fm_state_Done _ _ _ Hs)). destruct (_ || _).
  - exists f, s, [], (Err (mkIoError EInvalidData "")). split; [done|]. split; [done|]. split; [done|].
    rewrite insert_id, app_nil_r by done. split; [done|]. split; [done|]. split; [done|apply len_nonneg].
  - destruct (append_to_queue_total now dst src payload f s Hl) as (f' & s' & r & E & _ & ? & ? & ? & ? & ?).
    by exists f', s', payload, r.
Qed.

Lemma live_close f dst src s :
  live f dst src s ->
  live (fw_with_states f (<[(src, dst) := tx_append_queue_fin s]> (fw_states f))) dst src (tx_append_queue_fin s).
Proof.
  intros [Hs [Hw Hwin Hm] Hws Hsk Hlm]. constructor; [cbn; apply lookup_insert_eq| |by destruct s|by destruct s|done].
  constructor; [|by destruct s|done]. destruct Hw, s. by constructor.
Qed.

Lemma close_total now dst src f s :
  live f dst src s ->
  exists f' s' r, forwarder_close now dst src f = Done (f', r) /\ live f' dst src s'
    /\ fw_states f' = <[(src, dst) := s']> (fw_states f) /\ tx_pending s' = tx_pending s
    /\ tx_frame_of s' = tx_frame_of (tx_append_queue_fin s)
    /\ fw_src_mtu f' = fw_src_mtu f /\ fw_local_mtu f' = fw_local_mtu f /\ fw_addrs f' = fw_addrs f
    /\ fw_sent f `prefix_of` fw_sent f'.
Proof.
  intros Hl. unfold forwarder_close. rewrite (fm_bind_Ok _ _ _ _ _ (fm_state_Done _ _ _ (lv_state _ _ _ _ Hl))).
  erewrite fm_bind_Ok by reflexivity. set (f1 := fw_with_states f _).
  destruct (send_tcp_ack_total now dst src f1 _ (live_close f dst src s Hl)) as (f2 & s2 & r & -> & _ & Hr).
  exists f2, s2, r. pose proof (ran_tx_frame _ _ _ _ _ _ (lookup_insert_eq _ _ _) Hr) as Ef. destruct Hr as [Hl2 Hf2 Hs2 Ht2 Hp2].
  split; [done|]. split; [done|]. split; [by rewrite Hs2; cbn; rewrite insert_insert_eq|].
  split; [rewrite Hp2; by destruct s|]. injection Hf2 as ? ? ? ? ? _.
  split; [done|]. split; [done|]. split; [done|]. split; [unfold fw_addrs; congruence|done].
Qed.

Lemma tick_total now dst src f s :
  live f dst src s ->
  exists f' s' r, forwarder_tick now dst src f = Done (f', r) /\ answered r /\ ran f f' dst src s s'.
Proof.
  intros Hl. pose proof Hl as [Hs [Hw _ Hm] _ _ _].
  destruct (tick_ok now dst src f s Hs Hw Hm) as (f' & q & r & E & Hr & _ & s' & l & Hst & Hw' & Hp & _).
  exists f', s', r. split; [done|]. split; [done|]. eapply ran_step; [done..| |done|done].
  eapply keeps_frame; [|exact E]. apply keeps_retransmit_timedout.
Qed.

(** *** Retransmission *)

Lemma resend_total dst src sequence payload (is_fin : bool) f s :
  live f dst src s -> is_u32 sequence ->
  exists f' s' r, (if 0 <? len payload then
      if is_fin then send_tcp_ack_raw dst src sequence payload true
      else send_tcp_ack_raw dst src sequence payload false
    else mret tt) f = Done (f', r) /\ answered r /\ ran f f' dst src s s'.
Proof.
  intros Hl Hq. pose proof Hl as [Hs [Hw _ Hm] _ _ _].
  destruct (resend_ok dst src sequence payload is_fin f s) as (f' & segs & r & E & Hr & H & _);
    [done|by destruct Hw|done|done|].
  destruct (conn_step_state_step _ _ _ _ _ H Hs) as (s' & Hst & Hsb).
  destruct (same_but_sequence_wf _ _ Hsb Hw) as [Hw' Hp]. exists f', s', r. split; [done|]. split; [done|].
  eapply ran_step; [done..| |done|done]. eapply (keeps_frame _ (fun _ => True)); [|exact E].
  destruct (0 <? len payload); [destruct is_fin; apply keeps_send_tcp_ack_raw|].
  eapply keeps_weaken; [apply keeps_ret|done].
Qed.

Lemma retransmit_tcp_ack_total dst src f s :
  live f dst src s ->
  exists f' s' r, retransmit_tcp_ack dst src f = Done (f', r) /\ answered r /\ ran f f' dst src s s'.
Proof.
  intros Hl. pose proof Hl as [Hs [Hw _ Hm] _ _ _]. unfold retransmit_tcp_ack.
  rewrite (fm_bind_Ok _ _ _ _ _ (fm_state_Done _ _ _ Hs)).
  erewrite fm_bind_Ok by (apply fm_lift_Done; apply queue_get_all_ok; by destruct Hw).
  apply resend_total; [done|]. by destruct Hw as [[] _ _ _ _ _].
Qed.

Definition range_u32 (r : Z * Z) : Prop := is_u32 r.1 /\ is_u32 r.2.

Lemma disjoint_u32_range_u32 main sub :
  range_u32 main -> range_u32 sub -> Forall range_u32 (disjoint_u32_range main sub).
Proof.
  intros [Hm1 Hm2] [Hs1 Hs2]. unfold disjoint_u32_range.
  repeat case_match; repeat (apply List.Forall_cons; [by split|]); apply List.Forall_nil.
Qed.

Lemma unsacked_ranges_u32 a b sacks :
  is_u32 a -> is_u32 b -> Forall range_u32 sacks -> Forall range_u32 (unsacked_ranges a b sacks).
Proof.
  intros Ha Hb Hs. unfold unsacked_ranges. assert (H0 : Forall range_u32 [(a, b)]) by (apply List.Forall_cons; [by split|apply List.Forall_nil]).
  revert H0. generalize [(a, b)]. induction Hs as [|r sacks Hr _ IH]; intros l Hl; [done|]. cbn [foldl]. apply IH.
  induction Hl as [|m l Hm _ IHl]; [constructor|]. cbn [map concat]. apply Forall_app.
  split; [by apply disjoint_u32_range_u32|done].
Qed.

Lemma retransmit_ranges_total dst src recv_next ranges f s :
  live f dst src s -> Forall range_u32 ranges ->
  exists f' s' r, retransmit_ranges dst src recv_next ranges f = Done (f', r) /\ ran f f' dst src s s'.
Proof.
  intros Hl Hr. revert f s Hl. induction Hr as [|r ranges [Hr1 Hr2] _ IH]; intros f s Hl.
  - exists f, s, (Ok tt). split; [done|]. by apply ran_refl.
  - cbn [retransmit_ranges]. cbv zeta. pose proof Hl as [Hs [Hw _ _] _ _ _].
    rewrite (fm_bind_Ok _ _ _ _ _ (fm_state_Done _ _ _ Hs)).
    pose proof (seq_sub_u32 r.2 r.1 Hr2 Hr1) as Hsub.
    erewrite fm_bind_Ok by (apply fm_lift_Done; apply queue_get_spec; [by destruct Hw|done|ilia]). cbv zeta.
    assert (Herr : forall e, exists f' s' x, fm_fail (A := unit) e f = Done (f', x) /\ ran f f' dst src s s').
    { intros e. exists f, s, (Err e). split; [done|]. by apply ran_refl. }
    assert (Hgo : forall payload, exists f' s' x,
      (_ ← (if 0 <? len payload then
              if (r.2 =? recv_next) && bool_decide (is_Some (tx_cache_fin s))
              then send_tcp_ack_raw dst src r.1 payload true
              else send_tcp_ack_raw dst src r.1 payload false
            else mret tt); retransmit_ranges dst src recv_next ranges) f = Done (f', x) /\ ran f f' dst src s s').
    { intros payload. destruct (resend_total dst src r.1 payload
        ((r.2 =? recv_next) && bool_decide (is_Some (tx_cache_fin s))) f s Hl Hr1) as (f1 & s1 & y & E1 & Hy & R1).
      destruct Hy as [|e He]; [|rewrite (fm_bind_Err _ _ _ _ _ E1); by exists f1, s1, (Err e)].
      rewrite (fm_bind_Ok _ _ _ _ _ E1). destruct (IH f1 s1 (rn_live _ _ _ _ _ _ R1)) as (f2 & s2 & x & -> & R2).
      exists f2, s2, x. split; [done|]. by eapply ran_trans. }
    destruct (seq_sub r.2 r.1 =? 0); [apply Hgo|]. destruct (_ <? _); [apply Herr|].
    destruct (_ <? _); [apply Herr|apply Hgo].
Qed.

Lemma retransmit_without_total dst src sacks f s :
  live f dst src s -> Forall range_u32 sacks ->
  exists f' s' r, retransmit_tcp_ack_without dst src sacks f = Done (f', r) /\ ran f f' dst src s s'.
Proof.
  intros Hl Hsk. pose proof Hl as [Hs [Hw _ _] _ _ _]. unfold retransmit_tcp_ack_without.
  rewrite (fm_bind_Ok _ _ _ _ _ (fm_state_Done _ _ _ Hs)). cbv zeta.
  assert (Hq : queue_wf (tx_cache s)) by by destruct Hw.
  assert (Hu : is_u32 (q_sequence (tx_cache s))) by by destruct Hq.
  destruct (retransmit_ranges_total dst src (queue_recv_next (tx_cache s))
    (unsacked_ranges (q_sequence (tx_cache s)) (queue_recv_next (tx_cache s)) sacks) f s Hl)
    as (f1 & s1 & [[]|e] & E1 & R1).
  { apply unsacked_ranges_u32; [done| |done]. apply seq_add_u32; [done|apply as_u32_range]. }
  2: { rewrite (fm_bind_Err _ _ _ _ _ E1). by exists f1, s1, (Err e). }
  rewrite (fm_bind_Ok _ _ _ _ _ E1). pose proof (rn_live _ _ _ _ _ _ R1) as Hl1.
  rewrite (fm_bind_Ok _ _ _ _ _ (fm_state_Done _ _ _ (lv_state _ _ _ _ Hl1))).
  destruct (_ && _); [|by exists f1, s1, (Ok tt)].
  destruct (send_tcp_fin_ok dst src f1 s1 (lv_state _ _ _ _ Hl1)) as (f2 & x & r & E2 & _ & Hss & _).
  rewrite E2. exists f2, s1, r. split; [done|]. eapply ran_trans; [done|].
  eapply ran_sent; [done..|]. eapply keeps_frame; [|exact E2]. apply keeps_send_tcp_fin.
Qed.

(** *** Datagrams *)

(** A datagram that fits goes out in one frame. *)
Lemma send_udp_whole dst src payload f :
  28 + len payload <= fw_mtu_of f (sa_ip src) <= u16_max ->
  exists f' i u r, send_udp dst src payload f = Done (f', r) /\ answered r /\ sent_step f f' [(i, payload)]
    /\ indicator_udp i = Some u /\ (udp_src_ip_addr u, udp_src u) = dst /\ (udp_dst_ip_addr u, udp_dst u) = src.
Proof.
  intros Hm. destruct (send_transport_ok (sa_ip dst) (sa_ip src) _ _ _ _ (Some payload) f
    (transport_udp (udp_new (sa_port dst) (sa_port src)) eq_refl)) as (f' & r & E & Hr & Hss & _); [cbn; lia|].
  eexists f', _, _, r. split; [|split; [done|split; [exact Hss|split; [reflexivity|by destruct dst, src]]]]. unfold send_udp, usize_add.
  change udp_minimum_len with 8. change ipv4_minimum_len with 20. pose proof (len_nonneg payload).
  erewrite fm_bind_Ok by (apply fm_lift_Done; apply int_add_Done; ilia). erewrite fm_bind_Ok by reflexivity.
  erewrite fm_bind_Ok by (apply fm_lift_Done; apply int_sub_Done; lia).
  destruct (Z.leb_spec (8 + len payload) (fw_mtu_of f (sa_ip src) - 20)); [exact E|lia].
Qed.

Lemma send_udp_total dst src payload f :
  is_u16 (sa_port dst) -> is_u16 (sa_port src) -> 8 + len payload <= u16_max ->
  36 <= fw_mtu_of f (sa_ip src) <= u16_max ->
  exists f' l r, send_udp dst src payload f = Done (f', r) /\ answered r /\ sent_step f f' l.
Proof.
  intros Hd Hs Hl Hm. destruct (Z.le_gt_cases (28 + len payload) (fw_mtu_of f (sa_ip src))) as [Hle|Hgt].
  - destruct (send_udp_whole dst src payload f) as (f' & i & u & r & E & Hr & Hss & _); [lia|]. by eexists f', _, r.
  - destruct (send_udp_fragments_ok dst src payload f Hd Hs Hl Hm) as (f' & data & frags & ranges & m & r & E & Hr & _ & Hss & _); [lia|].
    by exists f', frags, r.
Qed.

(** ** The forwarder keeps the contract of [ForwardStream] *)

#[export] Instance forwarder_stream_laws : ForwardStreamLaws Forwarder.
Proof.
  refine {|
    stream_live := fun f dst src => exists s, live f dst src s;
    stream_ended := fun f dst src => match fw_states f !! (src, dst) with Some s => tx_ended s | None => false end;
    stream_pending := fun f dst src => match fw_states f !! (src, dst) with Some s => tx_pending s | None => [] end
  |}.
  - intros now dst src payload f [s Hl] He. pose proof (lv_state _ _ _ _ Hl) as Hs. rewrite Hs in He |- *.
    destruct (append_to_queue_total now dst src payload f s Hl) as (f' & s' & r & E & _ & Hl' & Hf' & Hs' & Hp' & _).
    exists f', r. rewrite Hs', lookup_insert_eq. split; [|split; [eauto|split; [|done]]].
    + cbn. unfold forwarder_forward. rewrite (fm_bind_Ok _ _ _ _ _ (fm_state_Done _ _ _ Hs)).
      fold (tx_ended s). by rewrite He.
    + pose proof (frame_lookup _ _ _ _ _ Hf' Hs (lv_state _ _ _ _ Hl')) as Ef.
      by injection Ef as _ _ _ _ _ _ _ _ _ _ ->.
  - intros now dst src f [s Hl]. pose proof (lv_state _ _ _ _ Hl) as Hs. rewrite Hs.
    destruct (tick_total now dst src f s Hl) as (f' & s' & r & E & _ & R). exists f', r. split; [done|].
    pose proof (ran_tx_frame _ _ _ _ _ _ Hs R) as Ef. destruct R as [Hl' _ Hs' _ Hp'].
    rewrite Hs', lookup_insert_eq. split; [eauto|]. split; [|done]. by injection Ef as _ _ _ _ _ _ _ _ _ _ ->.
  - intros now dst src f [s Hl]. pose proof (lv_state _ _ _ _ Hl) as Hs. rewrite Hs.
    destruct (close_total now dst src f s Hl) as (f' & s' & r & E & Hl' & Hs' & Hp' & Ef & _).
    exists f', r. rewrite Hs', lookup_insert_eq. split; [done|]. split; [eauto|]. split; [|done].
    injection Ef as _ _ _ _ _ _ _ _ _ _ ->. unfold tx_ended. destruct s; simpl. apply orb_true_r.
Defined.
End live.

(** ** The worker over the forwarder *)

Lemma fw_example_live :
  live (P := wire) fw_example (2, 2) (1, 1) (tx_with_send_window tx_example 9).
Proof. constructor; [reflexivity|apply fw_example_can_send|done|done|done]. Qed.

Lemma stream_task_forwards_witness :
  let L := forwarder_stream_laws (D := black_hole) in
  exists w' s',
    stream_task_run (F := forwarder_is_stream (D := black_hole)) (1, 1)
      (reads [(5, [4; 5]); (6, [6])] ++ map (fun now => (now, Ok [])) [7; 8; 9; 10])
      (mkStreamWorker (2, 2) (Some []) false false (Some 2)) fw_example = Done (w', s')
    /\ stream_live (ForwardStreamLaws := L) s' (2, 2) (1, 1)
    /\ stream_pending (ForwardStreamLaws := L) s' (2, 2) (1, 1)
       = stream_pending (ForwardStreamLaws := L) fw_example (2, 2) (1, 1) ++ [4; 5; 6]
    /\ stream_ended (ForwardStreamLaws := L) s' (2, 2) (1, 1) = true
    /\ sw_is_read_closed w' = true /\ (sw_task w' = None <-> MAX_RECV_ZERO < 4).
Proof.
  intros L. apply (stream_task_forwards (L := L) (1, 1) [(5, [4; 5]); (6, [6])] [7; 8; 9; 10]
    (mkStreamWorker (2, 2) (Some []) false false (Some 2)) fw_example 2).
  - discriminate.
  - repeat constructor; discriminate.
  - reflexivity.
  - reflexivity.
  - exists (tx_with_send_window tx_example 9). apply fw_example_live.
  - reflexivity.
Defined.
