(* ===== verification/Crates.v ===== *)
(** * The interfaces of the crates [lru] and [ipnetwork]

    The redirector keeps its UDP ports in an [LruCache] and compares addresses
    with an [Ipv4Network].  Both crates are outside of the repository: their
    types and functions are classes, the documented behaviour of [LruCache] is
    the class [LruLaws], and a concrete instance of each shows that the
    behaviour can be had and lets theorems be evaluated. *)

From S2P Require Import Prelude.

(** ** [ipnetwork] *)

(** [network_new] answers [None] for an invalid prefix. *)
Class IpNetwork := {
  Ipv4Network : Set;
  network_new : Ipv4Addr -> Z -> option Ipv4Network;
  network_ip : Ipv4Network -> Ipv4Addr;
  network_network : Ipv4Network -> Ipv4Addr;
  network_mask : Ipv4Network -> Ipv4Addr;
  network_size : Ipv4Network -> Z;
  network_nth : Ipv4Network -> Z -> option Ipv4Addr;
  network_contains : Ipv4Network -> Ipv4Addr -> bool
}.

(** The size of the network of all addresses does not fit its type and has no
    law. *)
Class IpNetworkLaws (N : IpNetwork) := {
  network_prefix : Ipv4Network -> Z;
  law_network_prefix n : 0 <= network_prefix n <= 32;
  law_network_ip n : is_u32 (network_ip n);
  law_network_new ip p :
    is_u32 ip -> 0 <= p <= 32 ->
    exists n, network_new ip p = Some n /\ network_ip n = ip /\ network_prefix n = p;
  law_network_mask n : network_mask n = 2 ^ 32 - 2 ^ (32 - network_prefix n);
  law_network_network n : network_network n = Z.land (network_ip n) (network_mask n);
  law_network_size n : 1 <= network_prefix n -> network_size n = 2 ^ (32 - network_prefix n);
  law_network_nth n k : 0 <= k < network_size n -> network_nth n k = Some (network_network n + k);
  law_network_contains n ip :
    is_u32 ip -> network_contains n ip = (Z.land ip (network_mask n) =? network_network n)
}.

(** ** [lru], for ports and source addresses *)

Class Lru := {
  LruCache : Set;
  lru_new : Z -> LruCache;
  lru_len : LruCache -> Z;
  lru_cap : LruCache -> Z;
  (** [put] with the value it replaces dropped, [get] with the value it finds
      dropped, [pop] and [pop_lru]. *)
  lru_put : LruCache -> Z -> SocketAddrV4 -> LruCache;
  lru_get : LruCache -> Z -> LruCache;
  lru_pop : LruCache -> Z -> LruCache;
  lru_pop_lru : LruCache -> LruCache * option (Z * SocketAddrV4)
}.

(** The entries but the one of a key. *)
Definition without (k : Z) (l : list (Z * SocketAddrV4)) : list (Z * SocketAddrV4) :=
  filter (fun e => e.1 <> k) l.

(** The entries, the most recently used first. *)
Class LruLaws (C : Lru) := {
  lru_items : LruCache -> list (Z * SocketAddrV4);
  law_lru_new n : lru_items (lru_new n) = [] /\ lru_cap (lru_new n) = n;
  law_lru_len c : lru_len c = len (lru_items c);
  law_lru_cap c k v :
    lru_cap (lru_put c k v) = lru_cap c /\ lru_cap (lru_get c k) = lru_cap c
    /\ lru_cap (lru_pop c k) = lru_cap c /\ lru_cap (lru_pop_lru c).1 = lru_cap c;
  (** A new key goes to the front; if there is no room the last entry leaves. *)
  law_lru_put_new c k v :
    k ∉ (lru_items c).*1 -> len (lru_items c) < lru_cap c ->
    lru_items (lru_put c k v) = (k, v) :: lru_items c;
  law_lru_get c k v :
    (k, v) ∈ lru_items c -> NoDup (lru_items c).*1 ->
    lru_items (lru_get c k) = (k, v) :: without k (lru_items c);
  law_lru_pop c k : lru_items (lru_pop c k) = without k (lru_items c);
  law_lru_pop_lru c l e :
    lru_items c = l ++ [e] ->
    lru_items (lru_pop_lru c).1 = l /\ (lru_pop_lru c).2 = Some e
}.

(** ** Instances *)

(** A network as an address and the number of free low bits. *)
Definition free_bits (n : Z * Z) : Z := Z.max 0 (Z.min 32 n.2).
Definition bits_mask (n : Z * Z) : Z := 2 ^ 32 - 2 ^ free_bits n.

#[export] Instance prefix_network : IpNetwork := {|
  Ipv4Network := Z * Z;
  network_new ip p := if bool_decide (0 <= p <= 32) then Some (ip, 32 - p) else None;
  network_ip n := as_u32 n.1;
  network_network n := Z.land (as_u32 n.1) (bits_mask n);
  network_mask := bits_mask;
  network_size n := 2 ^ free_bits n;
  network_nth n k := if k <? 2 ^ free_bits n then Some (Z.land (as_u32 n.1) (bits_mask n) + k) else None;
  network_contains n ip := Z.land ip (bits_mask n) =? Z.land (as_u32 n.1) (bits_mask n)
|}.

#[export] Instance prefix_network_laws : IpNetworkLaws prefix_network.
Proof.
  refine (Build_IpNetworkLaws prefix_network (fun n => 32 - free_bits n) _ _ _ _ _ _ _ _).
  - intros n. unfold free_bits. lia.
  - intros n. apply as_u32_range.
  - intros ip p Hip Hp. exists (ip, 32 - p). cbn. rewrite bool_decide_true by done. split; [done|].
    split; [by apply as_u32_id|]. unfold free_bits. cbn. lia.
  - intros n. cbn. unfold bits_mask. do 2 f_equal. lia.
  - done.
  - intros n _. cbn. f_equal. lia.
  - intros n k Hk. cbn in *. destruct (Z.ltb_spec k (2 ^ free_bits n)); [done|lia].
  - done.
Defined.

Definition list_put (c : Z * list (Z * SocketAddrV4)) (k : Z) (v : SocketAddrV4) :=
  (c.1, ztake c.1 ((k, v) :: without k c.2)).
Definition list_get (c : Z * list (Z * SocketAddrV4)) (k : Z) :=
  (c.1, filter (fun e => e.1 = k) c.2 ++ without k c.2).

#[export] Instance list_lru : Lru := {|
  LruCache := Z * list (Z * SocketAddrV4);
  lru_new n := (n, []);
  lru_len c := len c.2;
  lru_cap c := c.1;
  lru_put := list_put;
  lru_get := list_get;
  lru_pop c k := (c.1, without k c.2);
  lru_pop_lru c := ((c.1, removelast c.2), last c.2)
|}.

Lemma without_id k l : k ∉ l.*1 -> without k l = l.
Proof.
  unfold without. induction l as [|[a v] l IH]; [done|]. rewrite fmap_cons. intros [Hk Hl]%not_elem_of_cons.
  rewrite filter_cons_True by (simpl in *; congruence). by rewrite IH.
Qed.

Lemma filter_key k v (l : list (Z * SocketAddrV4)) :
  (k, v) ∈ l -> NoDup l.*1 -> filter (fun e => e.1 = k) l = [(k, v)].
Proof.
  induction l as [|[a w] l IH]; [by intros ?%elem_of_nil|]. rewrite fmap_cons.
  intros Hin [Ha Hn]%NoDup_cons. apply elem_of_cons in Hin as [[= <- <-]|Hin].
  - rewrite filter_cons_True by done. f_equal. clear IH Hn. induction l as [|[b x] l IH]; [done|].
    rewrite fmap_cons in Ha. apply not_elem_of_cons in Ha as [? ?]. rewrite filter_cons_False by (simpl in *; congruence). by apply IH.
  - rewrite filter_cons_False.
    + by apply IH.
    + simpl. intros ->. apply Ha. apply list_elem_of_fmap. by exists (k, v).
Qed.

#[export] Instance list_lru_laws : LruLaws list_lru.
Proof.
  refine (Build_LruLaws list_lru snd _ _ _ _ _ _ _).
  - done.
  - done.
  - done.
  - intros [n l] k v Hk Hl. change (len l < n) in Hl. change (ztake n ((k, v) :: without k l) = (k, v) :: l). rewrite without_id by done. rewrite ztake_all; [done|].
    rewrite len_cons. lia.
  - intros [n l] k v Hk Hn.
    change (filter (fun e => e.1 = k) l ++ without k l = (k, v) :: without k l). by rewrite (filter_key k v).
  - done.
  - intros [n l] l' e. cbn. intros ->. split; [apply removelast_last|apply last_snoc].
Defined.
