(* ===== verification/Redirector.v ===== *)
(** * The redirector: [Redirector] of [lib.rs]

    The half of the program that takes frames from the source: it answers ARP,
    puts fragments together, keeps the receive state of every connection, opens
    and closes streams to the proxy, passes data to them in order and
    acknowledges it, and binds UDP ports.

    The forwarder that both halves share behind a mutex is a field.  The tasks
    of the workers run in parallel with the handlers and take the same mutex:
    they may take any turns before every critical section of a handler and
    wherever a handler waits for the proxy.  Which turns they take is the
    schedule [rd_turns], a list of turns for every such point still to come; it
    is not a field of the program.  The outside of one frame, [Env], holds the
    clock reading, the random number and the answers of the sockets. *)

From S2P Require Import Prelude SeqArith Ring Queue Window TxState RxState Socks Pnet Wire Layers Packet PacketText Frames Forwarder Crates.

Definition ENABLE_WSCALE : bool := true.
Definition MAX_RECV_WSCALE : Z := 8.
Definition ENABLE_SACK : bool := true.
Definition MAX_UDP_PORT : Z := 256.

(** ** The outside *)

(** A turn of a task of a worker. *)
Inductive worker_event : Set :=
| EvRead (key : conn_key) (now : Instant) (answer : io_result (list byte))
| EvTick (key : conn_key) (now : Instant)
| EvDatagram (port : Z) (answer : io_result (list byte)).

Record Env : Type := mkEnv {
  env_now : Instant;
  env_isn : Z;
  env_connect : connect_answer;
  env_write : write_answer;
  env_associate : bind_answer;
  env_reconnect : SocketAddrV4 -> io_result unit;
  env_send_to : io_result Z
}.

Section redirector.
Context `{P : Pnet} `{D : Device} `{N : IpNetwork} `{C : Lru}.

(** ** State *)

Record Redirector : Set := mkRedirector {
  rd_tx : Forwarder;
  rd_is_tx_src_hardware_addr_set : bool;
  rd_src_ip_addr : Ipv4Network;
  rd_local_ip_addr : Ipv4Addr;
  rd_gw_ip_addr : option Ipv4Addr;
  rd_remote : SocketAddrV4;
  rd_options : SocksOption;
  rd_streams : gmap conn_key StreamWorker;
  rd_states : gmap conn_key TcpRxState;
  rd_datagrams : gmap Z DatagramWorker;
  rd_datagram_map : gmap SocketAddrV4 Z;
  rd_udp_lru : LruCache;
  rd_defrag : Defraggler;
  rd_turns : list (list worker_event)
}.

Definition rd_with_tx (r : Redirector) (x : Forwarder) : Redirector :=
  mkRedirector x (rd_is_tx_src_hardware_addr_set r) (rd_src_ip_addr r) (rd_local_ip_addr r)
    (rd_gw_ip_addr r) (rd_remote r) (rd_options r) (rd_streams r) (rd_states r) (rd_datagrams r)
    (rd_datagram_map r) (rd_udp_lru r) (rd_defrag r) (rd_turns r).
Definition rd_with_set (r : Redirector) (x : bool) : Redirector :=
  mkRedirector (rd_tx r) x (rd_src_ip_addr r) (rd_local_ip_addr r) (rd_gw_ip_addr r) (rd_remote r)
    (rd_options r) (rd_streams r) (rd_states r) (rd_datagrams r) (rd_datagram_map r) (rd_udp_lru r)
    (rd_defrag r) (rd_turns r).
Definition rd_with_streams (r : Redirector) (x : gmap conn_key StreamWorker) : Redirector :=
  mkRedirector (rd_tx r) (rd_is_tx_src_hardware_addr_set r) (rd_src_ip_addr r) (rd_local_ip_addr r)
    (rd_gw_ip_addr r) (rd_remote r) (rd_options r) x (rd_states r) (rd_datagrams r)
    (rd_datagram_map r) (rd_udp_lru r) (rd_defrag r) (rd_turns r).
Definition rd_with_states (r : Redirector) (x : gmap conn_key TcpRxState) : Redirector :=
  mkRedirector (rd_tx r) (rd_is_tx_src_hardware_addr_set r) (rd_src_ip_addr r) (rd_local_ip_addr r)
    (rd_gw_ip_addr r) (rd_remote r) (rd_options r) (rd_streams r) x (rd_datagrams r)
    (rd_datagram_map r) (rd_udp_lru r) (rd_defrag r) (rd_turns r).
Definition rd_with_datagrams (r : Redirector) (x : gmap Z DatagramWorker) : Redirector :=
  mkRedirector (rd_tx r) (rd_is_tx_src_hardware_addr_set r) (rd_src_ip_addr r) (rd_local_ip_addr r)
    (rd_gw_ip_addr r) (rd_remote r) (rd_options r) (rd_streams r) (rd_states r) x
    (rd_datagram_map r) (rd_udp_lru r) (rd_defrag r) (rd_turns r).
Definition rd_with_udp (r : Redirector) (m : gmap SocketAddrV4 Z) (l : LruCache) : Redirector :=
  mkRedirector (rd_tx r) (rd_is_tx_src_hardware_addr_set r) (rd_src_ip_addr r) (rd_local_ip_addr r)
    (rd_gw_ip_addr r) (rd_remote r) (rd_options r) (rd_streams r) (rd_states r) (rd_datagrams r) m
    l (rd_defrag r) (rd_turns r).
Definition rd_with_defrag (r : Redirector) (x : Defraggler) : Redirector :=
  mkRedirector (rd_tx r) (rd_is_tx_src_hardware_addr_set r) (rd_src_ip_addr r) (rd_local_ip_addr r)
    (rd_gw_ip_addr r) (rd_remote r) (rd_options r) (rd_streams r) (rd_states r) (rd_datagrams r)
    (rd_datagram_map r) (rd_udp_lru r) x (rd_turns r).
Definition rd_with_turns (r : Redirector) (x : list (list worker_event)) : Redirector :=
  mkRedirector (rd_tx r) (rd_is_tx_src_hardware_addr_set r) (rd_src_ip_addr r) (rd_local_ip_addr r)
    (rd_gw_ip_addr r) (rd_remote r) (rd_options r) (rd_streams r) (rd_states r) (rd_datagrams r)
    (rd_datagram_map r) (rd_udp_lru r) (rd_defrag r) x.

(** ** The monad of the handlers *)

Definition RM (A : Type) : Type := Redirector -> outcome (Redirector * io_result A).

#[export] Instance RM_ret : MRet RM := fun A a r => Done (r, Ok a).
#[export] Instance RM_bind : MBind RM := fun A B k m r =>
  match m r with
  | Done (r, Ok a) => k a r
  | Done (r, Err e) => Done (r, Err e)
  | Panic => Panic
  | Hang => Hang
  end.

Definition rm_get {A} (g : Redirector -> A) : RM A := fun r => Done (r, Ok (g r)).
Definition rm_lift {A} (o : outcome A) : RM A := fun r => a ← o; Done (r, Ok a).
Definition rm_fail {A} (e : IoError) : RM A := fun r => Done (r, Err e).
Definition rm_update (g : Redirector -> Redirector) : RM unit := fun r => Done (g r, Ok tt).

Definition rm_rx_state (key : conn_key) : RM TcpRxState := fun r =>
  s ← unwrap (rd_states r !! key); Done (r, Ok s).
Definition rm_put_rx (key : conn_key) (s : TcpRxState) : RM unit :=
  rm_update (fun r => rd_with_states r (<[key := s]> (rd_states r))).

Definition rm_stream (key : conn_key) : RM StreamWorker := fun r =>
  s ← unwrap (rd_streams r !! key); Done (r, Ok s).
Definition rm_put_stream (key : conn_key) (w : StreamWorker) : RM unit :=
  rm_update (fun r => rd_with_streams r (<[key := w]> (rd_streams r))).
Definition rm_datagram (port : Z) : RM DatagramWorker := fun r =>
  w ← unwrap (rd_datagrams r !! port); Done (r, Ok w).
Definition rm_put_datagram (port : Z) (w : DatagramWorker) : RM unit :=
  rm_update (fun r => rd_with_datagrams r (<[port := w]> (rd_datagrams r))).

(** ** The tasks of the workers *)

(** The tasks of a worker that was dropped find the flag set and do nothing to
    the forwarder; a worker that is in the map shares its flags with its
    tasks. *)
Definition run_worker (ev : worker_event) (r : Redirector) : outcome Redirector :=
  match ev with
  | EvRead key now answer =>
      match rd_streams r !! key with
      | None => mret r
      | Some w =>
          '(w, f) ← stream_task_read now key.1 answer w (rd_tx r);
          mret (rd_with_tx (rd_with_streams r (<[key := w]> (rd_streams r))) f)
      end
  | EvTick key now =>
      match rd_streams r !! key with
      | None => mret r
      | Some w => f ← stream_task_tick now key.1 w (rd_tx r); mret (rd_with_tx r f)
      end
  | EvDatagram port answer =>
      match rd_datagrams r !! port with
      | None => mret r
      | Some w =>
          '(w, f) ← datagram_task_recv answer w (rd_tx r);
          mret (rd_with_tx (rd_with_datagrams r (<[port := w]> (rd_datagrams r))) f)
      end
  end.

Fixpoint run_workers (evs : list worker_event) (r : Redirector) : outcome Redirector :=
  match evs with
  | [] => mret r
  | ev :: evs => r ← run_worker ev r; run_workers evs r
  end.

(** The next turns of the schedule. *)
Definition rm_turn : RM unit := fun r =>
  match rd_turns r with
  | [] => Done (r, Ok tt)
  | evs :: turns => r ← run_workers evs (rd_with_turns r turns); Done (r, Ok tt)
  end.

(** [.await]: the tasks run, then the answer comes. *)
Definition rm_await {A} (answer : A) : RM A := _ ← rm_turn; mret answer.

(** ** Critical sections *)

(** [self.tx.lock().unwrap()] with what is done until the lock is given back:
    whoever had the mutex before goes first. *)
Definition on_tx {A} (m : FM A) : RM A := fun r =>
  '(f, x) ← m (rd_tx r); Done (rd_with_tx r f, x).
Definition with_tx {A} (m : FM A) : RM A := _ ← rm_turn; on_tx m.

(** [tx_locked.get_state(dst, src).unwrap()] with an update of that state. *)
Definition tx_state_update (key : conn_key) (g : TcpTxState -> outcome TcpTxState) : FM unit :=
  state ← fm_state key;
  state ← fm_lift (g state);
  fm_put_state key state.

(** ** Construction *)

Definition redirector_new (tx : Forwarder) (src_ip_addr : Ipv4Network) (local_ip_addr : Ipv4Addr)
    (gw_ip_addr : option Ipv4Addr) (remote : SocketAddrV4)
    (force_associate_dst force_associate_bind_addr : bool) (auth : option (string * string)) : Redirector :=
  let auth := match auth with Some (username, password) => Some (mkSocksAuth username password) | None => None end in
  let r := mkRedirector tx false src_ip_addr local_ip_addr gw_ip_addr remote
             (mkSocksOption force_associate_dst force_associate_bind_addr auth) ∅ ∅ ∅ ∅
             (lru_new MAX_UDP_PORT) defraggler_new [] in
  match gw_ip_addr with
  | Some gw_ip_addr => rd_with_tx r (set_local_ip_addr (rd_tx r) gw_ip_addr)
  | None => r
  end.

(** ** Connections *)

(** [self.streams.remove(&key)]: the worker is dropped, which closes it. *)
Definition remove_stream (key : conn_key) : RM unit :=
  w ← rm_get (fun r => rd_streams r !! key);
  _ ← rm_lift (match w with Some w => _ ← stream_worker_close w; mret tt | None => mret tt end);
  rm_update (fun r => rd_with_streams r (delete key (rd_streams r))).

Definition rd_clean_up (src dst : SocketAddrV4) : RM unit :=
  let key := (src, dst) in
  _ ← remove_stream key;
  _ ← rm_update (fun r => rd_with_states r (delete key (rd_states r)));
  with_tx (fm_update (fun f => fw_clean_up f dst src)).

Definition tcp_source (tcp : Tcp) : SocketAddrV4 := (tcp_src_ip_addr tcp, tcp_src tcp).
Definition tcp_target (tcp : Tcp) : SocketAddrV4 := (tcp_dst_ip_addr tcp, tcp_dst tcp).

Definition handle_tcp_rst (tcp : Tcp) : RM unit := rd_clean_up (tcp_source tcp) (tcp_target tcp).

Definition handle_tcp_fin (tcp : Tcp) (payload : list byte) : RM unit :=
  let src := tcp_source tcp in
  let dst := tcp_target tcp in
  let key := (src, dst) in
  stream ← rm_get (fun r => rd_streams r !! key);
  match stream with
  | Some stream =>
      let is_readable := negb (sw_is_read_closed stream) in
      state ← rm_rx_state key;
      state ← (if tcp_is_fin tcp then
                 let state := rx_set_fin_sequence state (seq_add (tcp_sequence tcp) (as_u32 (len payload))) in
                 _ ← rm_put_rx key state; mret state
               else mret state);
      match rx_fin_sequence state with
      | Some fin_sequence =>
          if fin_sequence =? rx_recv_next state then
            _ ← rm_put_rx key (rx_add_recv_next (rx_admit_fin state) 1);
            _ ← with_tx
                  (_ ← tx_state_update key (fun s => mret (tx_add_acknowledgement s 1));
                   send_tcp_ack_0 dst src);
            if is_readable then
              stream ← rm_stream key;
              stream ← rm_lift (stream_worker_shutdown stream);
              rm_put_stream key stream
            else rd_clean_up src dst
          else if len payload =? 0 then with_tx (send_tcp_ack_0 dst src)
          else mret tt
      | None => mret tt
      end
  | None => with_tx (send_tcp_rst dst src)
  end.

(** [(state.cache.remaining() >> state.wscale as usize) as u16]. *)
Definition rx_window (state : TcpRxState) : outcome Z :=
  remaining ← window_remaining (rx_cache state);
  shifted ← int_shr 64 remaining (rx_wscale state);
  mret (as_u16 shifted).

(** [stream.send(payload).await]: it waits only when the worker still has its
    writing half. *)
Definition rm_send (env : Env) (key : conn_key) (payload : list byte) : RM (io_result unit) :=
  stream ← rm_stream key;
  _ ← (match sw_stream_tx stream with
       | Some _ => rm_turn
       | None => mret tt
       end);
  stream ← rm_stream key;
  let '(stream, sent) := stream_worker_send stream payload (env_write env) in
  _ ← rm_put_stream key stream;
  mret sent.

(** Data in order goes to the proxy and is acknowledged. *)
Definition send_in_order (env : Env) (src dst : SocketAddrV4) (state : TcpRxState) (payload : list byte) : RM unit :=
  let key := (src, dst) in
  sent ← rm_send env key payload;
  match sent with
  | Ok _ =>
      window ← rm_lift (rx_window state);
      _ ← rm_put_rx key (rx_add_recv_next state (as_u32 (len payload)));
      with_tx
        (_ ← tx_state_update key (fun s =>
               mret (tx_add_acknowledgement (tx_set_window s window) (as_u32 (len payload))));
         send_tcp_ack_0 dst src)
  | Err e =>
      _ ← with_tx (send_tcp_ack_rst dst src);
      _ ← rd_clean_up src dst;
      rm_fail e
  end.

(** A retransmission, or data out of order, is answered with the window. *)
Definition report_window (src dst : SocketAddrV4) (state : TcpRxState) : RM unit :=
  window ← rm_lift (rx_window state);
  with_tx
    (_ ← tx_state_update (src, dst) (fun s => mret (tx_set_window s window));
     send_tcp_ack_0 dst src).

(** The part of [handle_tcp_ack] for a segment with data. *)
Definition handle_tcp_data (env : Env) (tcp : Tcp) (payload : list byte) : RM unit :=
  let src := tcp_source tcp in
  let dst := tcp_target tcp in
  let key := (src, dst) in
  state ← rm_rx_state key;
  '(state, r) ← rm_lift (rx_append_cache state (tcp_sequence tcp) payload);
  _ ← rm_put_rx key state;
  match r with
  | Err e => rm_fail e
  | Ok cont_payload =>
      _ ← (if rx_sack_perm state then
             with_tx (tx_state_update key (fun s => mret (tx_set_sacks s (window_filled (rx_cache state)))))
           else mret tt);
      match cont_payload with
      | Some payload => send_in_order env src dst state payload
      | None => report_window src dst state
      end
  end.

(** The fast retransmission of [handle_tcp_ack]. *)
Definition fast_retransmit (tcp : Tcp) (state : TcpRxState) : RM unit :=
  let src := tcp_source tcp in
  let dst := tcp_target tcp in
  is_sr ← (if rx_sack_perm state then
             sacks ← rm_lift (tcp_sack tcp);
             match sacks with
             | Some sacks =>
                 if 0 <? len sacks then
                   _ ← with_tx (retransmit_tcp_ack_without dst src sacks); mret true
                 else mret false
             | None => mret false
             end
           else mret false);
  if is_sr : bool then mret tt else with_tx (retransmit_tcp_ack dst src).

(** The part for an ACK without data: whether the handler goes on. *)
Definition handle_tcp_ack_only (env : Env) (tcp : Tcp) (is_writable : bool) : RM bool :=
  let src := tcp_source tcp in
  let dst := tcp_target tcp in
  let key := (src, dst) in
  last_ack ← (if negb is_writable then
                with_tx (fun f => n ← get_cache_size f dst src; Done (f, Ok (n =? 0)))
              else mret false);
  if last_ack : bool then
    (* LAST_ACK *)
    _ ← remove_stream key;
    _ ← rm_update (fun r => rd_with_states r (delete key (rd_states r)));
    _ ← with_tx (fm_update (fun f => fw_clean_up f dst src));
    mret false
  else
    state ← rm_rx_state key;
    let '(state, is_retrans) := rx_increase_duplicate (env_now env) state (tcp_acknowledgement tcp) in
    _ ← rm_put_rx key state;
    _ ← (if is_retrans && negb (tcp_is_zero_window tcp) then
           _ ← fast_retransmit tcp state;
           rm_put_rx key (rx_set_last_retrans (env_now env) (rx_clear_duplicate state))
         else mret tt);
    mret true.

Definition handle_tcp_ack (env : Env) (tcp : Tcp) (payload : list byte) : RM unit :=
  let src := tcp_source tcp in
  let dst := tcp_target tcp in
  let key := (src, dst) in
  stream ← rm_get (fun r => rd_streams r !! key);
  match stream with
  | Some stream =>
      let is_writable := negb (sw_is_write_closed stream) in
      state ← rm_rx_state key;
      _ ← with_tx (tx_state_update key (fun s =>
             s ← tx_acknowledge (env_now env) s (tcp_acknowledgement tcp);
             window ← int_shl 64 (tcp_window tcp) (rx_wscale state);
             mret (tx_set_send_window s window)));
      continue ← (if 0 <? len payload then _ ← handle_tcp_data env tcp payload; mret true
                  else handle_tcp_ack_only env tcp is_writable);
      if continue : bool then
        (* Trigger sending remaining data *)
        _ ← with_tx (send_tcp_ack (env_now env) dst src);
        state ← rm_rx_state key;
        if tcp_is_fin tcp || bool_decide (is_Some (rx_fin_sequence state)) then handle_tcp_fin tcp payload
        else mret tt
      else mret tt
  | None => with_tx (send_tcp_rst dst src)
  end.

(** The end of [handle_tcp_syn]: the connection to the proxy. *)
Definition connect_stream (env : Env) (src dst : SocketAddrV4) (state : TcpRxState) : RM unit :=
  let key := (src, dst) in
  answer ← rm_await (env_connect env);
  stream ← (fun r => '(f, x) ← stream_worker_connect (env_now env) src dst answer (rd_tx r);
                     Done (rd_with_tx r f, Ok x)) : RM (io_result StreamWorker);
  match stream with
  | Err e =>
      _ ← with_tx
            (_ ← tx_state_update key (fun s => mret (tx_add_acknowledgement s 1));
             send_tcp_ack_rst dst src);
      _ ← rd_clean_up src dst;
      rm_fail e
  | Ok stream =>
      _ ← rm_put_rx key state;
      rm_put_stream key stream
  end.

(** The critical section of [handle_tcp_syn]. *)
Definition admit_syn (env : Env) (tcp : Tcp) (wscale recv_wscale : option Z) (sack_perm : bool) : FM unit :=
  let src := tcp_source tcp in
  let dst := tcp_target tcp in
  let acknowledgement := seq_succ (tcp_sequence tcp) in
  mss ← fm_lift (tcp_mss tcp);
  _ ← (match mss with
       | Some mss =>
           fm_update (fun f =>
             (set_src_mtu f (tcp_src_ip_addr tcp) (ipv4_minimum_len + tcp_minimum_len + mss)).1)
       | None => mret tt
       end);
  tx_state ← fm_lift (tx_new src dst (env_isn env) acknowledgement (tcp_window tcp) recv_wscale sack_perm wscale);
  fm_update (fun f => set_state f dst src tx_state).

Definition handle_tcp_syn (env : Env) (tcp : Tcp) : RM unit :=
  let src := tcp_source tcp in
  let dst := tcp_target tcp in
  let key := (src, dst) in
  stream ← rm_get (fun r => rd_streams r !! key);
  match stream with
  | Some _ => mret tt
  | None =>
      _ ← rd_clean_up src dst;
      (* Admit SYN *)
      wscale ← rm_lift (if ENABLE_WSCALE then tcp_wscale tcp else mret None);
      let recv_wscale := (fun w => Z.min w MAX_RECV_WSCALE) <$> wscale in
      sack_perm ← rm_lift (if ENABLE_SACK then tcp_is_sack_perm tcp else mret false);
      state ← rm_lift (rx_new src dst (tcp_sequence tcp) (unwrap_or wscale 0) sack_perm);
      _ ← with_tx (admit_syn env tcp wscale recv_wscale sack_perm);
      connect_stream env src dst state
  end.

Definition handle_tcp (env : Env) (tcp : Tcp) (payload : list byte) : RM unit :=
  if tcp_is_rst tcp then handle_tcp_rst tcp
  else if tcp_is_ack tcp then handle_tcp_ack env tcp payload
  else if tcp_is_syn tcp then handle_tcp_syn env tcp
  else if tcp_is_fin tcp then handle_tcp_fin tcp payload
  else rm_lift Panic.

(** ** UDP *)

(** The association with the proxy for a new port. *)
Definition associate_udp_port (env : Env) (src : SocketAddrV4) : RM (io_result Z) :=
  answer ← rm_await (env_associate env);
  r ← (fun r => x ← socks_bind (rd_remote r) (rd_options r) answer (env_reconnect env);
                Done (r, Ok x)) : RM (io_result (Z * option SocketAddrV4));
  match r with
  | Ok (port, _) =>
      _ ← rm_put_datagram port (datagram_worker_new src port);
      _ ← rm_update (fun r => rd_with_udp r (<[src := port]> (rd_datagram_map r))
             (lru_put (rd_udp_lru r) port src));
      mret (Ok port)
  | Err e => mret (Err e)
  end.

(** The port of the least recently used source, after the error [e]. *)
Definition reuse_udp_port (src : SocketAddrV4) (e : IoError) : RM Z :=
  is_empty ← rm_get (fun r => lru_len (rd_udp_lru r) =? 0);
  if is_empty : bool then rm_fail e
  else
    popped ← rm_get (fun r => lru_pop_lru (rd_udp_lru r));
    '(port, prev_src) ← rm_lift (unwrap popped.2);
    (* Reuse *)
    _ ← rm_update (fun r => rd_with_udp r
           (<[src := port]> (delete prev_src (rd_datagram_map r)))
           (lru_put popped.1 port src));
    mret port.

Definition bind_local_udp_port (env : Env) (src : SocketAddrV4) : RM Z :=
  local_port ← rm_get (fun r => rd_datagram_map r !! src);
  match local_port with
  | Some local_port =>
      _ ← rm_update (fun r => rd_with_udp r (rd_datagram_map r) (lru_get (rd_udp_lru r) local_port));
      mret local_port
  | None =>
      has_room ← rm_get (fun r => lru_len (rd_udp_lru r) <? lru_cap (rd_udp_lru r));
      bind_port ←
        (if has_room : bool then associate_udp_port env src
         else mret (Err (mkIoError EOther "cannot bind UDP port")));
      match bind_port with
      | Ok port => mret port
      | Err e => reuse_udp_port src e
      end
  end.

Definition unbind_local_udp_port (src : SocketAddrV4) : RM unit :=
  local_port ← rm_get (fun r => rd_datagram_map r !! src);
  match local_port with
  | Some local_port =>
      _ ← rm_update (fun r => rd_with_datagrams r (delete local_port (rd_datagrams r)));
      rm_update (fun r => rd_with_udp r (delete src (rd_datagram_map r)) (lru_pop (rd_udp_lru r) local_port))
  | None => mret tt
  end.

Definition handle_udp (env : Env) (udp : Udp) (payload : list byte) : RM unit :=
  let src := (udp_src_ip_addr udp, udp_src udp) in
  port ← bind_local_udp_port env src;
  _ ← rm_datagram port;
  answer ← rm_await (env_send_to env);
  worker ← rm_datagram port;
  '(worker, sent) ← rm_lift (datagram_worker_send_to worker payload (udp_dst_ip_addr udp, udp_dst udp) answer);
  _ ← rm_put_datagram port worker;
  match sent with
  | Ok _ => mret tt
  | Err e => rm_fail e
  end.

(** ** ICMPv4, ARP and IPv4 *)

Definition handle_icmpv4 (icmpv4 : Icmpv4) : RM unit :=
  if icmpv4_is_destination_port_unreachable icmpv4 then
    kind ← rm_lift (icmpv4_next_level_layer_kind icmpv4);
    match kind with
    | Some kind =>
        if kind =? LK_Udp then
          dst ← rm_lift (icmpv4_dst icmpv4);
          dst ← rm_lift (unwrap dst);
          unbind_local_udp_port dst
        else mret tt
    | None => mret tt
    end
  else if icmpv4_is_fragmentation_required icmpv4 then
    mtu ← rm_lift (icmpv4_next_hop_mtu icmpv4);
    mtu ← rm_lift (unwrap mtu);
    dst ← rm_lift (icmpv4_dst_ip_addr icmpv4);
    dst ← rm_lift (unwrap dst);
    with_tx (fm_update (fun f => (set_src_mtu f dst mtu).1))
  else mret tt.

(** The hardware address of the source is set once. *)
Definition join (src : Ipv4Addr) (a : MacAddr) : RM unit :=
  is_set ← rm_get rd_is_tx_src_hardware_addr_set;
  if negb is_set then
    _ ← with_tx (fm_update (fun f => set_src_hardware_addr f src a));
    rm_update (fun r => rd_with_set r true)
  else mret tt.

Definition handle_arp (indicator : Indicator) : RM unit :=
  gw ← rm_get rd_gw_ip_addr;
  match gw, indicator_arp indicator with
  | Some gw_ip_addr, Some arp =>
      let src := arp_src arp in
      is_source ← rm_get (fun r => negb (src =? rd_local_ip_addr r) && network_contains (rd_src_ip_addr r) src
                                   && (arp_dst arp =? gw_ip_addr));
      if is_source : bool then
        _ ← join src (arp_src_hardware_addr arp);
        with_tx (send_arp_reply src)
      else mret tt
  | _, _ => mret tt
  end.

Definition handle_transport (env : Env) (transport : option Layers) (payload : outcome (list byte)) : RM unit :=
  match transport with
  | Some (LIcmpv4 icmpv4) => handle_icmpv4 icmpv4
  | Some (LTcp tcp) => payload ← rm_lift payload; handle_tcp env tcp payload
  | Some (LUdp udp) => payload ← rm_lift payload; handle_udp env udp payload
  | Some _ => rm_lift Panic
  | None => mret tt
  end.

(** A packet of the source, without the padding of its frame. *)
Definition handle_packet (env : Env) (indicator : Indicator) (ipv4 : Ipv4) (frame_without_padding : list byte) : RM unit :=
  if ipv4_is_fragment ipv4 then
    '(defrag, frag) ← fun r => '(d, x) ← defraggler_add (env_now env) (rd_defrag r) indicator frame_without_padding;
                               Done (r, Ok (d, x));
    _ ← rm_update (fun r => rd_with_defrag r defrag);
    match frag with
    | None => mret tt
    | Some frag =>
        '(transport, payload) ← rm_lift (fragmentation_concatenate frag);
        handle_transport env transport (mret payload)
    end
  else
    handle_transport env (ind_transport indicator)
      (n ← indicator_len indicator; slice frame_without_padding n (len frame_without_padding)).

Definition handle_ipv4 (env : Env) (indicator : Indicator) (frame : list byte) : RM unit :=
  match indicator_ipv4 indicator with
  | Some ipv4 =>
      let src := ipv4_src ipv4 in
      is_source ← rm_get (fun r => negb (src =? rd_local_ip_addr r) && network_contains (rd_src_ip_addr r) src);
      if is_source : bool then
        is_set ← rm_get rd_is_tx_src_hardware_addr_set;
        _ ← (if negb is_set then
               ethernet ← rm_lift (unwrap (indicator_ethernet indicator));
               join src (ethernet_src ethernet)
             else mret tt);
        content ← rm_lift (indicator_content_len indicator);
        frame_without_padding ← rm_lift (slice frame 0 content);
        handle_packet env indicator ipv4 frame_without_padding
      else mret tt
  | None => mret tt
  end.

(** The warning for an error of a handler, with the brief of the frame. *)
Definition log_error (indicator : Indicator) (x : io_result unit) : outcome unit :=
  match x with
  | Ok _ => mret tt
  | Err _ => _ ← indicator_brief indicator; mret tt
  end.

(** The handling of one frame in [open]; an error is logged. *)
Definition handle_frame (env : Env) (frame : list byte) (r : Redirector) : outcome Redirector :=
  match indicator_from frame with
  | None => mret r
  | Some indicator =>
      match indicator_network_kind indicator with
      | None => mret r
      | Some t =>
          '(r, x) ← (if t =? LK_Arp then handle_arp indicator
                     else if t =? LK_Ipv4 then handle_ipv4 env indicator frame
                     else rm_lift Panic) r;
          _ ← log_error indicator x;
          mret r
      end
  end.

(** The loop of [open] over what the device answers, until it fails. *)
Fixpoint redirector_open (answers : list (Env * io_result (list byte))) (r : Redirector)
  : outcome (Redirector * io_result unit) :=
  match answers with
  | [] => mret (r, Ok tt)
  | (env, Ok frame) :: rest => r ← handle_frame env frame r; redirector_open rest r
  | (_, Err e) :: rest =>
      if bool_decide (err_kind e = ETimedOut) then redirector_open rest r else mret (r, Err e)
  end.
End redirector.
