(* ===== verification/Preserve.v ===== *)
(** * What handlers leave alone

    A logic for the monad of the handlers: a handler preserves a projection of
    the redirector when every run of it that returns, with a value or with an
    error, leaves the projection as it was.  The rules follow the code; what
    the primitive steps do to a projection is in the hint database
    [preserves]. *)

From S2P Require Import Prelude SeqArith Ring Queue Window TxState RxState Socks Pnet Wire Layers Packet Frames Forwarder Crates Redirector.

Section preserve.
Context {P : Pnet} {D : Device} {N : IpNetwork} {C : Lru}.
Context {X : Type} (p : Redirector -> X).

Definition preserves {A} (m : RM A) : Prop := forall r r' x, m r = Done (r', x) -> p r' = p r.

Lemma preserves_bind {A B} (m : RM A) (k : A -> RM B) : preserves m -> (forall a, preserves (k a)) -> preserves (mbind k m).
Proof.
  intros Hm Hk r r' x. unfold mbind, RM_bind. destruct (m r) as [[r1 [a|e]]| |] eqn:E; [|intros [= <- <-]|done..].
  - intros H. rewrite (Hk a _ _ _ H). by eapply Hm.
  - by eapply Hm.
Qed.

Lemma preserves_ret {A} (a : A) : preserves (mret a).
Proof. by intros r r' x [= <- <-]. Qed.
Lemma preserves_get {A} (g : Redirector -> A) : preserves (rm_get g).
Proof. by intros r r' x [= <- <-]. Qed.
Lemma preserves_fail {A} e : preserves (rm_fail (A := A) e).
Proof. by intros r r' x [= <- <-]. Qed.
Lemma preserves_lift {A} (o : outcome A) : preserves (rm_lift o).
Proof. intros r r' x (a & _ & H)%outcome_bind_Done_inv. by injection H as <- <-. Qed.
Lemma preserves_update g : (forall r, p (g r) = p r) -> preserves (rm_update g).
Proof. intros H r r' x [= <- <-]. apply H. Qed.

(** A step that reads the redirector, or changes only the forwarder. *)
Lemma preserves_read {A B} (g : Redirector -> outcome A) (h : A -> B) : preserves (fun r => a ← g r; Done (r, Ok (h a))).
Proof. intros r r' x (a & _ & H)%outcome_bind_Done_inv. by injection H as <- <-. Qed.

Lemma preserves_read_pair {A B} (g : Redirector -> outcome (A * B)) : preserves (fun r => '(d, x) ← g r; Done (r, Ok (d, x))).
Proof. intros r r' x ([d y] & _ & H)%outcome_bind_Done_inv. by injection H as <- <-. Qed.

Lemma preserves_forwarder {A} (g : Redirector -> outcome (Forwarder * A)) :
  (forall r f x, g r = Done (f, x) -> p (rd_with_tx r f) = p r) ->
  preserves (fun r => '(f, x) ← g r; Done (rd_with_tx r f, Ok x)).
Proof. intros Hg r r' x ([f y] & E & H)%outcome_bind_Done_inv. injection H as <- <-. by eapply Hg. Qed.

Lemma preserves_on_tx {A} (m : FM A) :
  (forall r f x, m (rd_tx r) = Done (f, x) -> p (rd_with_tx r f) = p r) -> preserves (on_tx m).
Proof. intros Hm r r' x ([f y] & E & H)%outcome_bind_Done_inv. injection H as <- <-. by eapply Hm. Qed.

(** Turns of the tasks, when no turn changes the projection and the projection
    does not see the schedule. *)
Lemma preserves_turn :
  (forall r turns, p (rd_with_turns r turns) = p r) ->
  (forall ev r r', run_worker ev r = Done r' -> p r' = p r) -> preserves rm_turn.
Proof.
  intros Hs Hev r r' x. unfold rm_turn. destruct (rd_turns r) as [|evs turns]; [by intros [= <- <-]|].
  intros (r1 & E & H)%outcome_bind_Done_inv. injection H as <- <-. rewrite <- (Hs r turns). clear Hs.
  revert E. generalize (rd_with_turns r turns). clear r turns. induction evs as [|ev evs IH]; intros r; cbn [run_workers]; [by intros [= <-]|].
  intros (r2 & E2 & H)%outcome_bind_Done_inv. rewrite (IH _ H). by eapply Hev.
Qed.

Lemma preserves_with_tx {A} (m : FM A) : preserves rm_turn -> preserves (on_tx m) -> preserves (with_tx m).
Proof. intros Ht Hm. by apply preserves_bind; [|intros _]. Qed.
End preserve.

Create HintDb preserves.
#[export] Hint Resolve preserves_ret preserves_get preserves_fail preserves_lift preserves_read preserves_read_pair : preserves.

(** Follows the code of a handler; critical sections, turns and updates of
    fields are left to the hints, or to the caller. *)
Ltac preserves_tac :=
  repeat (cbv zeta;
    lazymatch goal with
    | |- preserves _ (mbind _ _) => apply preserves_bind; [|intros ?]
    | |- preserves _ (rm_update _) => solve [eauto with preserves | apply preserves_update; by intros []]
    | |- preserves _ (match ?x with _ => _ end) => destruct x
    | |- preserves _ (if ?b then _ else _) => destruct b
    | |- preserves _ (let '(_, _) := ?x in _) => destruct x
    | |- preserves _ _ => solve [eauto with preserves]
    end).
