(* ===== verification/Workers.v ===== *)
(** * The tasks of the workers while a handler waits

    The redirector and the tasks of its workers share the forwarder.  This file
    shows that the tasks may run whenever a handler waits: no turn panics, every
    connection stays live, and what the receiving side of the connections decided
    is left alone.  The invariant [rd_ok] is what holds between two turns. *)

From S2P Require Import Prelude SeqArith Ring Queue Window TxState RxState Socks Pnet Wire Layers Packet Frames Forwarder Flow Crates Redirector.

(** ** What a call for one connection keeps of all connections *)

(** What the receiving side of a connection decides, and the room of the
    cache. *)
Record tx_view : Set := mkTxView {
  tv_send_wscale : option Z; tv_sack_perm : bool; tv_acknowledgement : Z; tv_window : Z;
  tv_sacks : option (list (Z * Z)); tv_capacity : Z }.

Definition tx_view_of (s : TcpTxState) : tx_view :=
  mkTxView (tx_send_wscale s) (tx_sack_perm s) (tx_acknowledgement s) (tx_window s) (tx_sacks s)
    (q_capacity (tx_cache s)).

Lemma frame_view s s' : tx_frame_of s' = tx_frame_of s -> tx_view_of s' = tx_view_of s.
Proof. unfold tx_frame_of, tx_view_of. by intros [= _ _ _ -> -> -> -> -> _ -> _]. Qed.

(** The part of the view that [acknowledge] cannot touch by its type. *)
Definition tx_reports (s : TcpTxState) : option Z * bool * Z * Z * option (list (Z * Z)) :=
  (tx_send_wscale s, tx_sack_perm s, tx_acknowledgement s, tx_window s, tx_sacks s).

Lemma tx_update_rto_reports s rtt s' : tx_update_rto s rtt = Done s' -> tx_reports s' = tx_reports s.
Proof.
  unfold tx_update_rto. intros ([srtt rttvar] & _ & H)%outcome_bind_Done_inv. injection H as <-.
  by destruct s.
Qed.

Lemma tx_acknowledge_reports now s x s' : tx_acknowledge now s x = Done s' -> tx_reports s' = tx_reports s.
Proof.
  unfold tx_acknowledge. destruct (tx_acknowledge_syn now s x) as [s1 rtt1] eqn:E1.
  assert (H1 : tx_reports s1 = tx_reports s).
  { unfold tx_acknowledge_syn in E1. destruct (tx_cache_syn s); [destruct (seq_ahead _ _)|];
      injection E1 as <- _; by destruct s. }
  intros ([q rtt2] & _ & H)%outcome_bind_Done_inv. revert H. cbv zeta.
  destruct (tx_acknowledge_fin now (tx_with_cache s1 q) x _) as [s3 rtt3] eqn:E3.
  assert (H3 : tx_reports s3 = tx_reports s1).
  { unfold tx_acknowledge_fin in E3. destruct (seq_ahead _ _); [destruct (tx_cache_fin _)|];
      injection E3 as <- _; by destruct s1. }
  destruct rtt3 as [rtt3|]; [intros H%tx_update_rto_reports|intros [= <-]]; congruence.
Qed.

Lemma tx_acknowledge_view now s x :
  tx_wf s -> is_u32 x ->
  exists s', tx_acknowledge now s x = Done s' /\ tx_wf s' /\ tx_view_of s' = tx_view_of s
    /\ tx_pending s' = zdrop (tx_acked s x) (tx_pending s).
Proof.
  intros Hw Hx. destruct (tx_acknowledge_ok now s x Hw Hx) as (s' & E & Hw' & Ec & Eq & Hc).
  exists s'. split; [done|]. split; [done|]. split.
  2: { unfold tx_pending. rewrite Ec, Eq. pose proof (tx_acked_bounds s x Hw Hx). unfold zdrop.
       rewrite drop_app_le; [done|]. unfold len in *. lia. } apply tx_acknowledge_reports in E. unfold tx_reports in E.
  injection E as E1 E2 E3 E4 E5. unfold tx_view_of. congruence.
Qed.

Section workers.
Context {P : Pnet} {L : PnetLaws P} {D : Device} {N : IpNetwork} {C : Lru}.

(** The forwarder after calls that leave alone what the receiving side decides
    and lose no pending byte; at most [n] bytes were added for a connection. *)
Record calm (n : Z) (f f' : Forwarder) : Prop := {
  cm_src_mtu : fw_src_mtu f' = fw_src_mtu f;
  cm_local_mtu : fw_local_mtu f' = fw_local_mtu f;
  cm_addrs : fw_addrs f' = fw_addrs f;
  cm_states : tx_view_of <$> fw_states f' = tx_view_of <$> fw_states f;
  cm_live : forall dst src s, live f dst src s ->
    exists s' more, live f' dst src s' /\ tx_pending s' = tx_pending s ++ more /\ len more <= n;
  cm_sent : fw_sent f `prefix_of` fw_sent f'
}.

Lemma live_same f dst src s n : 0 <= n -> live f dst src s ->
  exists s' more, live f dst src s' /\ tx_pending s' = tx_pending s ++ more /\ len more <= n.
Proof. intros Hn Hl. exists s, []. by rewrite app_nil_r. Qed.

Lemma calm_refl n f : 0 <= n -> calm n f f.
Proof. intros Hn. constructor; [done..| |done]. intros dst src s. by apply live_same. Qed.

Lemma calm_trans n m f f' f'' : calm n f f' -> calm m f' f'' -> calm (n + m) f f''.
Proof.
  intros [? ? A1 E1 L1 ?] [? ? A2 E2 L2 ?].
  constructor; [congruence|congruence|exact (eq_trans A2 A1)|exact (eq_trans E2 E1)| |by etrans].
  intros dst src s (s1 & m1 & H1 & P1 & B1)%L1. destruct (L2 _ _ _ H1) as (s2 & m2 & H2 & P2 & B2).
  exists s2, (m1 ++ m2). split; [done|]. rewrite P2, P1, len_app, app_assoc. split; [done|lia].
Qed.

(** One connection changes, in what the view does not show. *)
Lemma calm_step n f f' dst src s s' more :
  live f dst src s -> live f' dst src s' -> fw_src_mtu f' = fw_src_mtu f -> fw_local_mtu f' = fw_local_mtu f ->
  fw_addrs f' = fw_addrs f -> fw_states f' = <[(src, dst) := s']> (fw_states f) -> tx_view_of s' = tx_view_of s ->
  tx_pending s' = tx_pending s ++ more -> len more <= n ->
  fw_sent f `prefix_of` fw_sent f' -> calm n f f'.
Proof.
  intros Hl Hl' Em El Ea Es Ev Hp Hn Ht. constructor; [done|done|done| | |done].
  - rewrite Es, fmap_insert, Ev. apply insert_id. rewrite lookup_fmap, (lv_state _ _ _ _ Hl). done.
  - intros d c t Ht'. destruct (decide ((src, dst) = (c, d))) as [[= <- <-]|Hne].
    + pose proof (eq_trans (eq_sym (lv_state _ _ _ _ Hl)) (lv_state _ _ _ _ Ht')) as Eq. apply (inj Some) in Eq as <-.
      by exists s', more.
    + exists t, []. rewrite app_nil_r. pose proof (len_nonneg more). split; [|split; [done|rewrite len_nil; lia]].
      destruct Ht' as [H1 [H2 H3 H4] H5 H6 H7].
      constructor; [by rewrite Es, lookup_insert_ne| |done|done|by rewrite El].
      constructor; [done|done|]. unfold fw_mtu_of in *. by rewrite Em, El.
Qed.

Lemma frame_mtus f f' :
  fw_frame_of f' = fw_frame_of f -> fw_src_mtu f' = fw_src_mtu f /\ fw_local_mtu f' = fw_local_mtu f /\ fw_addrs f' = fw_addrs f.
Proof. intros [= ? ? ? ? ? _]. split; [done|]. split; [done|]. unfold fw_addrs. congruence. Qed.

Lemma calm_frame n f f' dst src s s' more :
  live f dst src s -> live f' dst src s' -> fw_frame_of f' = fw_frame_of f ->
  fw_states f' = <[(src, dst) := s']> (fw_states f) -> tx_pending s' = tx_pending s ++ more -> len more <= n ->
  fw_sent f `prefix_of` fw_sent f' -> calm n f f'.
Proof.
  intros Hl Hl' Ef Es Hp Hn Ht. destruct (frame_mtus _ _ Ef) as (? & ? & ?). eapply calm_step; [done..| |done|done|done].
  eapply frame_view, frame_lookup; [done|by destruct Hl|by destruct Hl'].
Qed.

Lemma calm_ran f f' dst src s s' : live f dst src s -> ran f f' dst src s s' -> calm 0 f f'.
Proof.
  intros Hl [? ? ? ? Hp]. eapply (calm_frame _ _ _ _ _ _ _ []); [done..|by rewrite app_nil_r|done|done].
Qed.

Lemma calm_lookup n f f' key s :
  calm n f f' -> fw_states f !! key = Some s ->
  exists s', fw_states f' !! key = Some s' /\ tx_view_of s' = tx_view_of s.
Proof.
  intros [_ _ _ E _ _] H. assert (Eq : (tx_view_of <$> fw_states f') !! key = Some (tx_view_of s))
    by by rewrite E, lookup_fmap, H.
  rewrite lookup_fmap in Eq. destruct (fw_states f' !! key) as [s'|]; [|done]. exists s'. split; [done|].
  by apply (inj Some) in Eq.
Qed.

Lemma calm_live n f f' dst src s :
  calm n f f' -> live f dst src s ->
  exists s' more, live f' dst src s' /\ tx_view_of s' = tx_view_of s
    /\ tx_pending s' = tx_pending s ++ more /\ len more <= n.
Proof.
  intros Hc Hl. destruct (cm_live _ _ _ Hc _ _ _ Hl) as (s' & more & Hl' & Hp). exists s', more. split; [done|]. split; [|done].
  destruct (calm_lookup n f f' (src, dst) s Hc) as (s2 & E & <-); [by destruct Hl|].
  pose proof (eq_trans (eq_sym E) (lv_state _ _ _ _ Hl')) as Eq. by apply (inj Some) in Eq as ->.
Qed.

(** ** The tasks of the stream workers *)

(** What the tasks keep of a worker. *)
Definition sw_view (w : StreamWorker) : SocketAddrV4 * option (list byte) := (sw_dst w, sw_stream_tx w).

(** A worker that was not closed for writing has its writing half. *)
Definition sw_open (w : StreamWorker) : Prop := sw_is_write_closed w = false -> is_Some (sw_stream_tx w).

(** The bytes that an answer of the stream has. *)
Definition answer_bytes (answer : io_result (list byte)) : Z :=
  match answer with Ok bytes => len bytes | Err _ => 0 end.

Lemma answer_bytes_nonneg answer : 0 <= answer_bytes answer.
Proof. destruct answer; [apply len_nonneg|done]. Qed.
#[local] Hint Resolve calm_refl answer_bytes_nonneg Z.le_refl : core.

Lemma stream_task_read_ok now src answer w f s :
  live f (sw_dst w) src s -> sw_open w ->
  exists w' f', stream_task_read now src answer w f = Done (w', f')
    /\ calm (answer_bytes answer) f f' /\ sw_view w' = sw_view w /\ sw_open w'.
Proof.
  intros Hl Ho. unfold stream_task_read. destruct (sw_task w) as [z|].
  2: { exists w, f. split; [done|]. split; [auto|done]. }
  destruct answer as [bytes|e].
  - destruct (sw_is_read_closed w). { eexists _, f. split; [done|]. split; [auto|done]. }
    destruct (len bytes =? 0).
    + cbv zeta. destruct (MAX_RECV_ZERO <? z + 1).
      2: { eexists _, f. split; [done|]. split; [auto|done]. }
      destruct (close_total now (sw_dst w) src f s Hl)
        as (f' & s' & r & E & Hl' & Es & Hp & Ef & Em & El & Ead & Ht).
      cbn [stream_close forwarder_is_stream]. rewrite E, outcome_bind_Done.
      eexists _, f'. split; [done|]. split; [|done].
      eapply (calm_step _ _ _ _ _ _ _ []); [done..| |by rewrite app_nil_r|apply (answer_bytes_nonneg (Ok bytes))|done].
      apply frame_view in Ef. by destruct s.
    + destruct (forward_total now (sw_dst w) src bytes f s Hl)
        as (f' & s' & more & r & E & Hl' & Ef & Es & Ht & Hp & Hm).
      cbn [stream_forward forwarder_is_stream]. rewrite E, outcome_bind_Done.
      eexists _, f'. split; [done|]. split; [|done]. by eapply calm_frame.
  - destruct (bool_decide _); [destruct (sw_is_read_closed w)|]; (eexists _, f; split; [done|]; split; [auto|done]).
Qed.

Lemma stream_task_tick_ok now src w f s :
  live f (sw_dst w) src s -> exists f', stream_task_tick now src w f = Done f' /\ calm 0 f f'.
Proof.
  intros Hl. unfold stream_task_tick. destruct (sw_is_read_closed w).
  { exists f. split; [done|auto]. }
  destruct (tick_total now (sw_dst w) src f s Hl) as (f' & s' & r & E & _ & R).
  cbn [stream_tick forwarder_is_stream]. rewrite E, outcome_bind_Done. exists f'. split; [done|]. by eapply calm_ran.
Qed.

(** *** Datagrams *)

(** What the tasks keep of a datagram worker, and the size of its buffers. *)
Definition dw_view (w : DatagramWorker) : Z * Z * list (list byte) := (dw_src w, dw_local_port w, dw_sent w).
Definition dw_ok (w : DatagramWorker) : Prop := len (dw_socks_buffer w) = u16_max /\ len (dw_buffer w) = u16_max.

(** A datagram of the proxy for an IPv4 address. *)
Definition proxy_datagram (datagram : list byte) (addr : SocketAddrV4) (payload : list byte) : Prop :=
  is_u32 (sa_ip addr) /\ is_u16 (sa_port addr) /\ HEADER_SIZE + len payload <= u16_max
  /\ socks_send_to payload addr = Done datagram.

(** The settings with which every source can be sent to. *)
Definition mtus_ok (f : Forwarder) : Prop :=
  41 <= fw_local_mtu f <= u16_max /\ forall ip, 41 <= fw_mtu_of f ip <= u16_max.

Lemma mtus_ok_same f f' :
  fw_src_mtu f' = fw_src_mtu f -> fw_local_mtu f' = fw_local_mtu f -> mtus_ok f -> mtus_ok f'.
Proof. unfold mtus_ok, fw_mtu_of. intros -> ->. done. Qed.

Lemma mtus_ok_calm n f f' : calm n f f' -> mtus_ok f -> mtus_ok f'.
Proof. intros [? ? _ _ _ _]. by apply mtus_ok_same. Qed.

(** Frames that go out for no connection. *)
Lemma calm_sent f f' l : sent_step f f' l -> calm 0 f f'.
Proof.
  intros [Et Em El E1 E2 E3 Es]. constructor; [done|done|unfold fw_addrs; congruence|by rewrite Es| |rewrite Et; by eexists].
  intros dst src s [H1 [H2 H3 H4] H5 H6 H7]. exists s, []. rewrite app_nil_r. split; [|done]. constructor; [by rewrite Es| |done|done|by rewrite El].
  constructor; [done|done|]. unfold fw_mtu_of in *. by rewrite Em, El.
Qed.

Lemma datagram_task_recv_ok answer w f :
  mtus_ok f -> dw_ok w ->
  match answer with Ok d => exists addr payload, proxy_datagram d addr payload | Err _ => True end ->
  exists w' f', datagram_task_recv answer w f = Done (w', f') /\ calm 0 f f' /\ dw_view w' = dw_view w /\ dw_ok w'.
Proof.
  intros [_ Hm] [Hb1 Hb2] Ha. unfold datagram_task_recv.
  destruct (dw_task w). 2: { exists w, f. split; [done|]. split; [auto|done]. }
  destruct answer as [d|e].
  2: { destruct (bool_decide _); [destruct (dw_is_closed w)|]; (eexists _, f; split; [done|]; split; [auto|done]). }
  destruct Ha as (addr & payload & Hip & Hport & Hlen & Hd).
  destruct (socks_recv_sent payload (dw_socks_buffer w) (dw_buffer w) addr)
    as (d' & socks & buffer & Ed & Er & Esl & Hs & Hb); [done..|]. rewrite Hd in Ed. injection Ed as <-.
  rewrite Er, outcome_bind_Done. cbv zeta. cbn [dw_is_closed dw_with_buffers].
  destruct (dw_is_closed w). { eexists _, f. split; [done|]. split; [auto|done]. }
  rewrite Esl, outcome_bind_Done.
  destruct (send_udp_total addr (datagram_worker_src (dw_with_buffers w socks buffer)) payload f)
    as (f' & l & r & E & _ & Hss); [done|apply as_u16_range|change HEADER_SIZE with 10 in Hlen; lia|specialize (Hm (sa_ip (datagram_worker_src (dw_with_buffers w socks buffer)))); lia|].
  cbn [datagram_forward forwarder_is_datagram]. rewrite E, outcome_bind_Done. eexists _, f'. split; [done|].
  split; [by eapply calm_sent|done].
Qed.

(** ** The redirector *)

(** The bytes that turns of the tasks bring. *)
Definition event_bytes (ev : worker_event) : Z :=
  match ev with EvRead _ _ answer => answer_bytes answer | _ => 0 end.
Fixpoint events_bytes (evs : list worker_event) : Z :=
  match evs with [] => 0 | ev :: evs => event_bytes ev + events_bytes evs end.
Fixpoint turns_bytes (turns : list (list worker_event)) : Z :=
  match turns with [] => 0 | evs :: turns => events_bytes evs + turns_bytes turns end.

Lemma event_bytes_nonneg ev : 0 <= event_bytes ev.
Proof. destruct ev; try done. apply answer_bytes_nonneg. Qed.
Lemma events_bytes_nonneg evs : 0 <= events_bytes evs.
Proof. induction evs as [|ev evs IH]; [done|]. cbn. pose proof (event_bytes_nonneg ev). lia. Qed.
Lemma turns_bytes_nonneg turns : 0 <= turns_bytes turns.
Proof. induction turns as [|evs turns IH]; [done|]. cbn. pose proof (events_bytes_nonneg evs). lia. Qed.

(** The turns the tasks may take: the streams any, the datagrams with what a
    proxy for IPv4 sends. *)
Definition event_ok (ev : worker_event) : Prop :=
  match ev with
  | EvDatagram _ (Ok d) => exists addr payload, proxy_datagram d addr payload
  | _ => True
  end.

(** The receive state of a connection. *)
Record rx_ok (s : TcpRxState) : Prop := {
  rxk_cache : window_wf (rx_cache s);
  rxk_wscale : 0 <= rx_wscale s <= MAX_RECV_WSCALE
}.

(** Both halves of a connection: its receive state and its live state at the
    forwarder have windows of the same size, and what is pending fits the
    memory together with the [n] bytes that may come. *)
Record halves (n : Z) (r : Redirector) (key : conn_key) (s : TcpRxState) (t : TcpTxState) : Prop := {
  hv_state : rd_states r !! key = Some s;
  hv_rx : rx_ok s;
  hv_live : live (rd_tx r) key.2 key.1 t;
  hv_capacity : q_capacity (tx_cache t) = RECV_WINDOW * 2 ^ rx_wscale s;
  hv_room : len (tx_pending t) + n <= usize_max
}.

Definition worker_ok (n : Z) (r : Redirector) (key : conn_key) (w : StreamWorker) : Prop :=
  sw_dst w = key.2 /\ sw_open w /\ exists s t, halves n r key s t.

(** The invariant: every stream is a connection with both halves, the buffers
    of the datagram workers have their size, every source can be sent to, and
    the schedule can be followed with [n] bytes to spare. *)
Record rd_fits (n : Z) (r : Redirector) : Prop := {
  ro_mtus : mtus_ok (rd_tx r);
  ro_streams : map_Forall (worker_ok (turns_bytes (rd_turns r) + n) r) (rd_streams r);
  ro_datagrams : map_Forall (fun _ w => dw_ok w) (rd_datagrams r);
  ro_turns : Forall (Forall event_ok) (rd_turns r);
  ro_bytes : turns_bytes (rd_turns r) + n <= usize_max
}.
Definition rd_ok (r : Redirector) : Prop := rd_fits 0 r.

(** Only the forwarder and the receive states matter to the streams. *)
Lemma worker_ok_same n r r' key w :
  rd_tx r' = rd_tx r -> rd_states r' = rd_states r -> worker_ok n r key w -> worker_ok n r' key w.
Proof.
  intros Et Es (? & ? & s & t & [? ? ? ? ?]). split; [done|]. split; [done|].
  exists s, t. constructor; [by rewrite Es|done|by rewrite Et|done|done].
Qed.

Lemma fits_same n r r' :
  rd_tx r' = rd_tx r -> rd_states r' = rd_states r -> rd_streams r' = rd_streams r -> rd_turns r' = rd_turns r ->
  map_Forall (fun _ w => dw_ok w) (rd_datagrams r') -> rd_fits n r -> rd_fits n r'.
Proof.
  intros Et Es Ew El Hg [Hm Hs _ Ht Hb]. constructor; [by rewrite Et| |done|by rewrite El|by rewrite El].
  rewrite Ew, El. intros k w Ek. eapply worker_ok_same; [done|done|by apply Hs].
Qed.

(** What waiting keeps. *)
Record quiet (r r' : Redirector) : Prop := {
  qt_tx : exists n, calm n (rd_tx r) (rd_tx r');
  qt_streams : sw_view <$> rd_streams r' = sw_view <$> rd_streams r;
  qt_states : rd_states r' = rd_states r;
  qt_datagrams : dw_view <$> rd_datagrams r' = dw_view <$> rd_datagrams r;
  qt_datagram_map : rd_datagram_map r' = rd_datagram_map r;
  qt_udp_lru : rd_udp_lru r' = rd_udp_lru r;
  qt_remote : rd_remote r' = rd_remote r /\ rd_options r' = rd_options r
}.

Lemma quiet_refl r : quiet r r.
Proof. constructor; [exists 0; auto|done..]. Qed.

Lemma quiet_trans r r' r'' : quiet r r' -> quiet r' r'' -> quiet r r''.
Proof.
  intros [[n ?] E1 ? D1 ? ? [? ?]] [[m ?] E2 ? D2 ? ? [? ?]].
  constructor; [exists (n + m); by eapply calm_trans|exact (eq_trans E2 E1)|congruence|exact (eq_trans D2 D1)|congruence..|].
  split; congruence.
Qed.

(** A connection after calls that leave it alone. *)
Lemma halves_calm n m r r' key s t :
  calm m (rd_tx r) (rd_tx r') -> rd_states r' = rd_states r -> halves (m + n) r key s t ->
  exists t', halves n r' key s t' /\ tx_view_of t' = tx_view_of t.
Proof.
  intros Hc Es [H1 H2 H3 H4 H5]. destruct (calm_live _ _ _ _ _ _ Hc H3) as (t' & more & Hl & Hv & Hp & Hm). exists t'.
  split; [|done]. constructor; [by rewrite Es|done|done| |rewrite Hp, len_app; lia].
  unfold tx_view_of in Hv. congruence.
Qed.

Lemma worker_ok_calm n m r r' key w :
  calm m (rd_tx r) (rd_tx r') -> rd_states r' = rd_states r -> worker_ok (m + n) r key w -> worker_ok n r' key w.
Proof.
  intros Hc Es (? & ? & s & t & Hh). split; [done|]. split; [done|].
  destruct (halves_calm _ _ _ _ _ _ _ Hc Es Hh) as (t' & ? & _). by exists s, t'.
Qed.

Lemma worker_ok_less n m r key w : n <= m -> worker_ok m r key w -> worker_ok n r key w.
Proof.
  intros Hle (? & ? & s & t & [? ? ? ? ?]). split; [done|]. split; [done|]. exists s, t. constructor; [done..|lia].
Qed.

(** A turn that changes no stream but perhaps its own. *)
Lemma fits_step n m r f ws :
  rd_fits (m + n) r -> 0 <= m -> calm m (rd_tx r) f ->
  map_Forall (fun k w' => exists w, rd_streams r !! k = Some w /\ sw_dst w' = sw_dst w /\ sw_open w') ws ->
  rd_fits n (rd_with_tx (rd_with_streams r ws) f).
Proof.
  intros [Hm Hs Hg Ht Hb] H0 Hc Hw. constructor; [by eapply mtus_ok_calm| |done|done|cbn; lia].
  intros k w' Ek. destruct (Hw k w' Ek) as (w & Ew & Ed & Ho). destruct (Hs k w Ew) as (Hd & _ & s & t & Hh).
  split; [congruence|]. split; [done|].
  replace (turns_bytes (rd_turns r) + (m + n)) with (m + (turns_bytes (rd_turns r) + n)) in Hh by lia.
  destruct (halves_calm _ m r (rd_with_tx (rd_with_streams r ws) f) k s t Hc eq_refl Hh) as (t' & Hh' & _). by exists s, t'.
Qed.

Lemma sw_view_dst w w' : sw_view w' = sw_view w -> sw_dst w' = sw_dst w.
Proof. by intros [= ->]. Qed.

Lemma streams_same n r :
  rd_fits n r ->
  map_Forall (fun k w' => exists w, rd_streams r !! k = Some w /\ sw_dst w' = sw_dst w /\ sw_open w') (rd_streams r).
Proof. intros [_ Hs _ _ _] k w Ek. exists w. by destruct (Hs k w Ek) as (? & ? & _). Qed.

Lemma streams_put n r key w w' :
  rd_fits n r -> rd_streams r !! key = Some w -> sw_view w' = sw_view w -> sw_open w' ->
  map_Forall (fun k w' => exists w, rd_streams r !! k = Some w /\ sw_dst w' = sw_dst w /\ sw_open w')
    (<[key := w']> (rd_streams r)).
Proof.
  intros Hf E Hv Ho k v [[<- <-]|[Hne Ek]]%lookup_insert_Some; [|by eapply streams_same].
  exists w. split; [done|]. by apply sw_view_dst in Hv.
Qed.

Lemma run_worker_quiet n ev r :
  rd_fits (event_bytes ev + n) r -> event_ok ev ->
  exists r', run_worker ev r = Done r' /\ rd_fits n r' /\ quiet r r' /\ rd_turns r' = rd_turns r
    /\ calm (event_bytes ev) (rd_tx r) (rd_tx r').
Proof.
  intros Hf Hev. pose proof (event_bytes_nonneg ev) as Hb.
  assert (Hno : exists r', mret r = Done r' /\ rd_fits n r' /\ quiet r r' /\ rd_turns r' = rd_turns r
    /\ calm (event_bytes ev) (rd_tx r) (rd_tx r')).
  { exists r. split; [done|]. split; [|split; [apply quiet_refl|split; [done|by apply calm_refl]]]. destruct Hf as [? Hs ? ? ?]. constructor; [done| |done|done|lia].
    intros k w Ek. eapply worker_ok_less; [|by apply Hs]. lia. }
  pose proof Hf as [Hm Hs Hg _ _]. destruct ev as [key now answer|key now|port answer]; cbn [run_worker event_bytes] in *.
  - destruct (rd_streams r !! key) as [w|] eqn:E; [|exact Hno]. destruct (Hs key w E) as (Hd & Ho & s & t & Hh).
    pose proof (hv_live _ _ _ _ _ Hh) as Hl. rewrite <- Hd in Hl.
    destruct (stream_task_read_ok now key.1 answer w (rd_tx r) t Hl Ho) as (w' & f' & -> & Hc & Hv & Ho').
    rewrite outcome_bind_Done. eexists. split; [done|]. split; [|split; [|done]].
    + eapply fits_step; [exact Hf|exact Hb|exact Hc|by eapply streams_put].
    + constructor; [by eexists| |done..]. cbn. rewrite fmap_insert, Hv. apply insert_id. by rewrite lookup_fmap, E.
  - destruct (rd_streams r !! key) as [w|] eqn:E; [|exact Hno]. destruct (Hs key w E) as (Hd & Ho & s & t & Hh).
    pose proof (hv_live _ _ _ _ _ Hh) as Hl. rewrite <- Hd in Hl.
    destruct (stream_task_tick_ok now key.1 w (rd_tx r) t Hl) as (f' & -> & Hc).
    rewrite outcome_bind_Done. eexists. split; [done|]. split; [|split; [by constructor; [eexists|..]|done]].
    apply (fits_step n 0 r f' (rd_streams r)); [done|done|done|by eapply streams_same].
  - destruct (rd_datagrams r !! port) as [w|] eqn:E; [|exact Hno].
    destruct (datagram_task_recv_ok answer w (rd_tx r) Hm (Hg port w E)) as (w' & f' & -> & Hc & Hv & Ho'); [by destruct answer|].
    rewrite outcome_bind_Done. eexists. split; [done|]. split; [|split; [|done]].
    + eapply (fits_same n (rd_with_tx (rd_with_streams r (rd_streams r)) f')); [done..| |].
      2: { apply (fits_step n 0 r f' (rd_streams r)); [done|done|done|by eapply streams_same]. }
      intros k v. cbn. intros [[<- <-]|[Hne Ek]]%lookup_insert_Some; [done|by eapply Hg].
    + constructor; [by eexists|done|done| |done..]. cbn. rewrite fmap_insert, Hv. apply insert_id. by rewrite lookup_fmap, E.
Qed.

Lemma run_workers_quiet n evs r :
  rd_fits (events_bytes evs + n) r -> Forall event_ok evs ->
  exists r', run_workers evs r = Done r' /\ rd_fits n r' /\ quiet r r' /\ rd_turns r' = rd_turns r
    /\ calm (events_bytes evs) (rd_tx r) (rd_tx r').
Proof.
  intros Hok Hev. revert r Hok. induction Hev as [|ev evs Hev _ IH]; intros r Hok.
  - exists r. split; [done|]. split; [done|]. split; [apply quiet_refl|]. split; [done|by apply calm_refl].
  - cbn [run_workers events_bytes] in *. rewrite <- Z.add_assoc in Hok.
    destruct (run_worker_quiet _ ev r Hok Hev) as (r1 & -> & Hok1 & Q1 & T1 & C1).
    rewrite outcome_bind_Done. destruct (IH r1 Hok1) as (r2 & -> & Hok2 & Q2 & T2 & C2). exists r2.
    split; [done|]. split; [done|]. split; [by eapply quiet_trans|]. split; [congruence|by eapply calm_trans].
Qed.

(** The bytes that were added come from the schedule. *)
Definition drawn (r r' : Redirector) : Prop :=
  exists n, calm n (rd_tx r) (rd_tx r') /\ n + turns_bytes (rd_turns r') <= turns_bytes (rd_turns r).

(** The tasks take their turns. *)
Lemma turn_drawn r :
  rd_ok r ->
  exists r', rm_turn r = Done (r', Ok tt) /\ rd_ok r' /\ quiet r r' /\ rd_turns r' = tail (rd_turns r) /\ drawn r r'.
Proof.
  intros Hok. unfold rm_turn, drawn. destruct (rd_turns r) as [|evs turns] eqn:E.
  - exists r. split; [done|]. split; [done|]. split; [apply quiet_refl|]. split; [done|].
    exists 0. rewrite E. split; [by apply calm_refl|done].
  - pose proof Hok as [Hm Hs Hg Ht Hb]. rewrite E in Hs, Ht, Hb. apply List.Forall_cons_iff in Ht as [Hev Ht]. cbn [turns_bytes] in Hs, Hb.
    destruct (run_workers_quiet 0 evs (rd_with_turns r turns)) as (r' & -> & Hok' & Q & T & Cl); [|done|].
    + constructor; [done| |done|done|cbn; lia].
      intros k w Ek. destruct (Hs k w Ek) as (? & ? & s & t & [? ? ? ? ?]). split; [done|]. split; [done|].
      exists s, t. constructor; [done..|cbn; lia].
    + rewrite outcome_bind_Done. exists r'. split; [done|]. split; [done|]. split; [destruct Q; by constructor|].
      split; [done|]. exists (events_bytes evs). split; [done|]. rewrite T. cbn. lia.
Qed.

Lemma turn_quiet r :
  rd_ok r -> exists r', rm_turn r = Done (r', Ok tt) /\ rd_ok r' /\ quiet r r' /\ rd_turns r' = tail (rd_turns r).
Proof. intros Hok. destruct (turn_drawn r Hok) as (r' & ? & ? & ? & ? & _). by exists r'. Qed.

(** ** The monad *)

Lemma rm_bind_Ok {A B} (m : RM A) (k : A -> RM B) r r' a :
  m r = Done (r', Ok a) -> mbind k m r = k a r'.
Proof. intros E. unfold mbind, RM_bind. by rewrite E. Qed.

Lemma rm_bind_Err {A B} (m : RM A) (k : A -> RM B) r r' e :
  m r = Done (r', Err e) -> mbind k m r = Done (r', Err e).
Proof. intros E. unfold mbind, RM_bind. by rewrite E. Qed.

Lemma rm_bind_result {A B} (m : RM A) (k : A -> RM B) r r' x :
  m r = Done (r', x) -> mbind k m r = match x with Ok a => k a r' | Err e => Done (r', Err e) end.
Proof. intros E. unfold mbind, RM_bind. rewrite E. by destruct x. Qed.

Lemma on_tx_Done {A} (m : FM A) r f x :
  m (rd_tx r) = Done (f, x) -> on_tx m r = Done (rd_with_tx r f, x).
Proof. intros E. unfold on_tx. by rewrite E. Qed.

(** Nobody else wants the mutex. *)
Lemma turn_idle r : rd_turns r = [] -> rm_turn r = Done (r, Ok tt).
Proof. intros E. unfold rm_turn. by rewrite E. Qed.

Lemma with_tx_idle {A} (m : FM A) r : rd_turns r = [] -> with_tx m r = on_tx m r.
Proof. intros E. unfold with_tx. by rewrite (rm_bind_Ok _ _ _ _ _ (turn_idle r E)). Qed.

(** The turns, then the critical section. *)
Lemma with_tx_turn {A} (m : FM A) r r1 : rm_turn r = Done (r1, Ok tt) -> with_tx m r = on_tx m r1.
Proof. intros E. unfold with_tx. by rewrite (rm_bind_Ok _ _ _ _ _ E). Qed.

Lemma rm_lift_Done {A} (o : outcome A) r a : o = Done a -> rm_lift o r = Done (r, Ok a).
Proof. by intros ->. Qed.

Lemma rm_rx_state_Done key r s : rd_states r !! key = Some s -> rm_rx_state key r = Done (r, Ok s).
Proof. intros E. unfold rm_rx_state. by rewrite E. Qed.

Lemma rm_stream_Done key r w : rd_streams r !! key = Some w -> rm_stream key r = Done (r, Ok w).
Proof. intros E. unfold rm_stream. by rewrite E. Qed.

Lemma tx_state_update_Done key g f s s' :
  fw_states f !! key = Some s -> g s = Done s' ->
  tx_state_update key g f = Done (fw_with_states f (<[key := s']> (fw_states f)), Ok tt).
Proof.
  intros Hs Hg. unfold tx_state_update. rewrite (fm_bind_Ok _ _ _ _ _ (fm_state_Done _ _ _ Hs)).
  by rewrite (fm_bind_Ok _ _ _ _ _ (fm_lift_Done _ _ _ Hg)).
Qed.
End workers.

(** ** Examples *)

(** A redirector without connections. *)
Definition rd_idle : Redirector (P := wire) (N := prefix_network) (C := list_lru) :=
  redirector_new (forwarder_new 1500 7 9) (1, 8) 9 None (3, 1080) false false None.

(** The answers of the proxy. *)
Definition env_example (connect : io_result unit) : Env :=
  mkEnv 50 10 (mkConnectAnswer connect (inl tt)) WriteAll
    (mkBindAnswer (Ok tt) (Ok 5000) (inl (AddrKind_Ip (SocketAddr_V4 (3, 1081))))) (fun _ => Ok tt) (Ok 0).

(** Turns of the tasks of one stream: it brings data and ticks. *)
Definition turns_example : list (list worker_event) :=
  [[EvTick ((1, 1), (2, 2)) 40]; [EvRead ((1, 1), (2, 2)) 40 (Ok [4; 5]); EvTick ((1, 1), (2, 2)) 41]; [];
   [EvTick ((1, 1), (2, 2)) 42]].

Lemma turns_example_ok : Forall (Forall event_ok) turns_example.
Proof.
  repeat first [apply List.Forall_nil | apply List.Forall_cons]; exact I.
Qed.

Lemma rd_idle_ok : rd_ok rd_idle.
Proof.
  constructor; [|exact (map_Forall_empty (M := gmap conn_key) _)|exact (map_Forall_empty (M := gmap Z) _)|apply List.Forall_nil|vm_compute; discriminate].
  split; [vm_compute; split; discriminate|]. intros ip. change (41 <= unwrap_or ((∅ : gmap Z Z) !! ip) 1500 <= u16_max).
  rewrite lookup_empty. vm_compute. split; discriminate.
Qed.

(** Rewriting with what a map holds, whatever form the type of its keys has. *)
Ltac lookup_in_goal H :=
  match type of H with
  | _ = ?y => match goal with |- context [match ?x with Some _ => _ | None => _ end] =>
      replace x with y by exact (eq_sym H) end
  end.
