(* ===== verification/Conn.v ===== *)
(** * One connection of the redirector

    The steps that the handlers take on a connection, with its two halves: the
    receive state of the redirector and the state of the forwarder.  Before
    every critical section, and wherever a handler waits, the tasks of the
    workers take the turns of the schedule; every lemma says what is left of
    the connection then. *)

From S2P Require Import Prelude SeqArith Ring Queue Window TxState RxState Socks Pnet Wire Layers Packet Frames Forwarder Flow Crates Redirector Workers.

Section conn.
Context {P : Pnet} {L : PnetLaws P} {D : Device} {N : IpNetwork} {C : Lru}.

(** ** The connection *)

Record conn (r : Redirector) (src dst : SocketAddrV4) (w : StreamWorker) (s : TcpRxState) (t : TcpTxState)
  : Prop := {
  cn_stream : rd_streams r !! (src, dst) = Some w;
  cn_state : rd_states r !! (src, dst) = Some s;
  cn_live : live (rd_tx r) dst src t;
  cn_ok : rd_ok r
}.

Lemma conn_halves r src dst w s t :
  conn r src dst w s t -> halves (turns_bytes (rd_turns r) + 0) r (src, dst) s t.
Proof.
  intros [H1 H2 H3 H4]. destruct (ro_streams _ _ H4 _ _ H1) as (_ & _ & s' & t' & Hh). pose proof Hh as [E1 _ E2 _ _].
  pose proof (eq_trans (eq_sym E1) H2) as Es. apply (inj Some) in Es as <-.
  pose proof (eq_trans (eq_sym (lv_state _ _ _ _ E2)) (lv_state _ _ _ _ H3)) as Et. by apply (inj Some) in Et as <-.
Qed.

(** Every stream of the redirector is such a connection. *)
Lemma conn_of r src dst w :
  rd_ok r -> rd_streams r !! (src, dst) = Some w -> exists s t, conn r src dst w s t.
Proof. intros Hok E. destruct (ro_streams _ _ Hok _ _ E) as (_ & _ & s & t & [? ? ? ? ?]). by exists s, t. Qed.

Lemma conn_rx_ok r src dst w s t : conn r src dst w s t -> rx_ok s.
Proof. intros Hc. apply (conn_halves _ _ _ _ _ _ Hc). Qed.

Lemma conn_wscale r src dst w s t : conn r src dst w s t -> 0 <= rx_wscale s <= 8.
Proof. intros Hc. apply (conn_rx_ok _ _ _ _ _ _ Hc). Qed.

Lemma conn_capacity r src dst w s t :
  conn r src dst w s t -> q_capacity (tx_cache t) = RECV_WINDOW * 2 ^ rx_wscale s.
Proof. intros Hc. apply (conn_halves _ _ _ _ _ _ Hc). Qed.

Lemma conn_room r src dst w s t : conn r src dst w s t -> len (tx_pending t) <= usize_max.
Proof. intros Hc. pose proof (hv_room _ _ _ _ _ (conn_halves _ _ _ _ _ _ Hc)). pose proof (turns_bytes_nonneg (rd_turns r)). lia. Qed.

Lemma conn_worker r src dst w s t : conn r src dst w s t -> sw_dst w = dst /\ sw_open w.
Proof. intros [H1 _ _ H4]. by destruct (ro_streams _ _ H4 _ _ H1) as (? & ? & _). Qed.

(** What a state needs besides being good to be that of a live connection. *)
Record tx_ready (t : TcpTxState) : Prop := {
  tr_wf : tx_wf t;
  tr_window : 0 <= tx_send_window t <= q_capacity (tx_cache t);
  tr_wscale : forall w, tx_send_wscale t = Some w -> is_u8 w;
  tr_sacks : sacks_opt_u32 (tx_sacks t)
}.

Lemma live_ready f dst src t : live f dst src t -> tx_ready t.
Proof. by intros [? [? ? ?] ? ? ?]. Qed.

(** Another state for one connection leaves the other ones alone. *)
Lemma live_other f f' dst src t1 d c u :
  fw_states f' = <[(src, dst) := t1]> (fw_states f) -> fw_src_mtu f' = fw_src_mtu f -> fw_local_mtu f' = fw_local_mtu f ->
  (src, dst) <> (c, d) -> live f d c u -> live f' d c u.
Proof.
  intros Es Em El Hne [U1 [U2 U3 U4] U5 U6 U7].
  constructor; [by rewrite Es, lookup_insert_ne|constructor; [done|done|]|done|done|by rewrite El].
  unfold fw_mtu_of in *. by rewrite Em, El.
Qed.

Lemma live_update f dst src t t1 :
  live f dst src t -> tx_ready t1 ->
  live (fw_with_states f (<[(src, dst) := t1]> (fw_states f))) dst src t1.
Proof.
  intros [H1 [H2 H3 H4] H5 H6 H7] [W1 W2 W3 W4]. constructor; [cbn; apply lookup_insert_eq|by constructor|done..].
Qed.

(** The forwarder changes the state of the connection. *)
Lemma conn_replace r src dst w s t f' t' :
  conn r src dst w s t -> live f' dst src t' -> q_capacity (tx_cache t') = q_capacity (tx_cache t) ->
  len (tx_pending t') <= len (tx_pending t) -> mtus_ok f' ->
  (forall d c u, (src, dst) <> (c, d) -> live (rd_tx r) d c u -> live f' d c u) ->
  conn (rd_with_tx r f') src dst w s t'.
Proof.
  intros Hc Hl Ecap Hp Hm Ho. pose proof (conn_halves _ _ _ _ _ _ Hc) as [_ K2 _ K4 K5].
  destruct Hc as [H1 H2 H3 [G1 G2 G3 G4 G5]]. constructor; [done|done|done|]. constructor; [done| |done|done|done].
  intros k v Ek. destruct (G2 k v Ek) as (Hd & Hop & s1 & t1 & [J1 J2 J3 J4 J5]). split; [done|]. split; [done|].
  destruct (decide ((src, dst) = k)) as [<-|Hne].
  - exists s, t'. constructor; [done|done|done|congruence|cbn in *; lia].
  - exists s1, t1. constructor; [done|done| |done|done]. apply Ho; [by destruct k|done].
Qed.

(** The receive state of the connection. *)
Lemma conn_put_rx r src dst w s t s1 :
  conn r src dst w s t -> rx_ok s1 -> rx_wscale s1 = rx_wscale s ->
  rm_put_rx (src, dst) s1 r = Done (rd_with_states r (<[(src, dst) := s1]> (rd_states r)), Ok tt)
  /\ conn (rd_with_states r (<[(src, dst) := s1]> (rd_states r))) src dst w s1 t.
Proof.
  intros Hc Hx Ew. split; [done|]. pose proof (conn_halves _ _ _ _ _ _ Hc) as [_ K2 _ K4 K5].
  destruct Hc as [H1 H2 H3 [G1 G2 G3 G4 G5]]. constructor; [done|cbn; apply lookup_insert_eq|done|].
  constructor; [done| |done|done|done]. intros k v Ek. destruct (G2 k v Ek) as (Hd & Hop & s2 & t2 & [J1 J2 J3 J4 J5]).
  split; [done|]. split; [done|]. destruct (decide ((src, dst) = k)) as [<-|Hne].
  - exists s1, t. constructor; [cbn; apply lookup_insert_eq|done|done|by rewrite Ew|done].
  - exists s2, t2. constructor; [cbn; by rewrite lookup_insert_ne|done|done|done|done].
Qed.

(** A stream that is put in its place. *)
Lemma ok_put_stream r key w :
  rd_ok r -> worker_ok (turns_bytes (rd_turns r) + 0) r key w -> rd_ok (rd_with_streams r (<[key := w]> (rd_streams r))).
Proof.
  intros [Hm Hs Hg Ht Hb] Hw. constructor; [done| |done|done|done].
  intros k v. cbn. intros [[<- <-]|[Hne Ek]]%lookup_insert_Some; (apply (worker_ok_same _ r); [done|done|]); [done|by apply Hs].
Qed.

Lemma conn_put_stream r src dst w s t w1 :
  conn r src dst w s t -> sw_dst w1 = sw_dst w -> sw_open w1 ->
  rm_put_stream (src, dst) w1 r = Done (rd_with_streams r (<[(src, dst) := w1]> (rd_streams r)), Ok tt)
  /\ conn (rd_with_streams r (<[(src, dst) := w1]> (rd_streams r))) src dst w1 s t.
Proof.
  intros Hc Hd Ho. split; [done|]. destruct (conn_worker _ _ _ _ _ _ Hc) as [Hd' _].
  pose proof (conn_halves _ _ _ _ _ _ Hc) as Hh. destruct Hc as [H1 H2 H3 H4].
  constructor; [cbn; apply lookup_insert_eq|done|done|]. apply ok_put_stream; [done|].
  split; [cbn; congruence|]. split; [done|]. by exists s, t.
Qed.

Lemma conn_rx_state r src dst w s t : conn r src dst w s t -> rm_rx_state (src, dst) r = Done (r, Ok s).
Proof. intros [_ H _ _]. by apply rm_rx_state_Done. Qed.

(** ** Turns of the tasks *)

(** What turns of the tasks leave of a connection. *)
Record turned (r r' : Redirector) (w w' : StreamWorker) (t t' : TcpTxState) : Prop := {
  tn_stream : sw_view w' = sw_view w;
  tn_view : tx_view_of t' = tx_view_of t;
  tn_pending : tx_pending t `prefix_of` tx_pending t';
  tn_quiet : quiet r r';
  tn_idle : rd_turns r = [] -> r' = r /\ w' = w /\ t' = t
}.

Lemma tn_sent r r' w w' t t' : turned r r' w w' t t' -> fw_sent (rd_tx r) `prefix_of` fw_sent (rd_tx r').
Proof. intros [_ _ _ [[n Hc] _ _ _ _ _ _] _]. apply Hc. Qed.

Lemma conn_turn r src dst w s t :
  conn r src dst w s t ->
  exists r' w' t', rm_turn r = Done (r', Ok tt) /\ conn r' src dst w' s t' /\ turned r r' w w' t t'.
Proof.
  intros Hc. destruct (rd_turns r) as [|evs turns] eqn:Et.
  { exists r, w, t. split; [by apply turn_idle|]. split; [done|]. constructor; [done|done|done|apply quiet_refl|done]. }
  destruct Hc as [H1 H2 H3 H4]. destruct (turn_quiet r H4) as (r' & E & Hok & Q & _).
  pose proof Q as [[n Q1] Q2 Q3 _ _ _ _].
  assert (Ev : exists w1, rd_streams r' !! (src, dst) = Some w1 /\ sw_view w1 = sw_view w).
  { pose proof (f_equal (lookup (src, dst)) Q2) as Ek. rewrite !lookup_fmap, H1 in Ek.
    destruct (rd_streams r' !! (src, dst)) as [w1|]; [|done]. exists w1. split; [done|]. by apply (inj Some) in Ek. }
  destruct Ev as (w' & Ew & Hv). destruct (calm_live _ _ _ dst src t Q1 H3) as (t' & more & Hl & Hvt & Hp & _).
  exists r', w', t'. split; [done|]. split; [constructor; [done|by rewrite Q3|done|done]|].
  constructor; [done|done|by rewrite Hp; eexists|done|by rewrite Et].
Qed.

(** Turns, then a critical section. *)
Lemma conn_with_tx {A} (m : FM A) r src dst w s t :
  conn r src dst w s t ->
  exists r' w' t', with_tx m r = on_tx m r' /\ conn r' src dst w' s t' /\ turned r r' w w' t t'.
Proof.
  intros Hc. destruct (conn_turn _ _ _ _ _ _ Hc) as (r' & w' & t' & E & H). exists r', w', t'.
  split; [by apply with_tx_turn|done].
Qed.

(** ** Critical sections *)

Lemma on_tx_bind {A B} (m : FM A) (k : A -> FM B) r : on_tx (mbind k m) r = mbind (fun a => on_tx (k a)) (on_tx m) r.
Proof.
  unfold on_tx, mbind, FM_bind, RM_bind. destruct (m (rd_tx r)) as [[f [a|e]]| |]; try done.
Qed.

Lemma conn_update r src dst w s t g t1 :
  conn r src dst w s t -> g t = Done t1 -> tx_ready t1 ->
  q_capacity (tx_cache t1) = q_capacity (tx_cache t) -> len (tx_pending t1) <= len (tx_pending t) ->
  exists f', on_tx (tx_state_update (src, dst) g) r = Done (rd_with_tx r f', Ok tt)
    /\ conn (rd_with_tx r f') src dst w s t1 /\ fw_sent f' = fw_sent (rd_tx r).
Proof.
  intros Hc Hg Ht Ecap Hp. pose proof (cn_live _ _ _ _ _ _ Hc) as Hl. eexists. split.
  { apply on_tx_Done. eapply tx_state_update_Done; [by destruct Hl|done]. }
  split; [|done]. eapply conn_replace; [done|by eapply live_update|done|done|by destruct Hc as [_ _ _ []]|].
  intros d c u. by eapply live_other.
Qed.

Lemma conn_ran {A} (m : FM A) r src dst w s t f' t' x :
  conn r src dst w s t -> m (rd_tx r) = Done (f', x) -> ran (rd_tx r) f' dst src t t' ->
  on_tx m r = Done (rd_with_tx r f', x) /\ conn (rd_with_tx r f') src dst w s t' /\ tx_view_of t' = tx_view_of t.
Proof.
  intros Hc E R. split; [by apply on_tx_Done|]. pose proof (cn_live _ _ _ _ _ _ Hc) as Hl.
  pose proof (frame_view _ _ (ran_tx_frame _ _ _ _ _ _ (lv_state _ _ _ _ Hl) R)) as Hv. split; [|done].
  pose proof (calm_ran _ _ _ _ _ _ Hl R) as Hcm. destruct R as [R1 R2 R3 R4 R5].
  eapply conn_replace; [done|done|by injection Hv|by rewrite R5|eapply mtus_ok_calm; [done|by destruct Hc as [_ _ _ []]]|].
  intros d c u. eapply live_other; [done|apply Hcm..].
Qed.

(** The bare acknowledgement, whatever the device answers. *)
Lemma conn_ack_0 r src dst w s t :
  conn r src dst w s t ->
  exists f' x y, on_tx (send_tcp_ack_0 dst src) r = Done (rd_with_tx r f', y) /\ answered y
    /\ conn (rd_with_tx r f') src dst w s t /\ fw_sent f' = fw_sent (rd_tx r) ++ [x] /\ bare_segment dst src t true false false false x.
Proof.
  intros Hc. destruct (send_tcp_ack_0_ok dst src (rd_tx r) t (cn_live _ _ _ _ _ _ Hc))
    as (f' & x & y & E & Hy & Et & Hx & R).
  destruct (conn_ran _ _ _ _ _ _ _ _ _ _ Hc E R) as (E' & Hc' & _). by exists f', x, y.
Qed.

(** A new report, sent as a bare acknowledgement. *)
Lemma conn_report r src dst w s t g t1 :
  conn r src dst w s t -> g t = Done t1 -> tx_ready t1 ->
  q_capacity (tx_cache t1) = q_capacity (tx_cache t) -> tx_pending t1 = tx_pending t ->
  exists f' x y, on_tx (_ ← tx_state_update (src, dst) g; send_tcp_ack_0 dst src) r = Done (rd_with_tx r f', y)
    /\ answered y /\ conn (rd_with_tx r f') src dst w s t1 /\ fw_sent f' = fw_sent (rd_tx r) ++ [x]
    /\ bare_segment dst src t1 true false false false x.
Proof.
  intros Hc Hg Ht Ecap Hp. destruct (conn_update r src dst w s t g t1 Hc Hg Ht Ecap) as (f1 & E1 & Hc1 & Es1); [by rewrite Hp|].
  rewrite on_tx_bind, (rm_bind_Ok _ _ _ _ _ E1). destruct (conn_ack_0 _ src dst w s t1 Hc1) as (f2 & x & y & -> & Hy & Hc2 & Es2 & Hx).
  exists f2, x, y. split; [done|]. split; [done|]. split; [done|]. split; [|done]. cbn in Es2. congruence.
Qed.

(** ** Ready states *)

Lemma ready_view t t' :
  tx_ready t -> tx_wf t' -> tx_view_of t' = tx_view_of t ->
  0 <= tx_send_window t' <= q_capacity (tx_cache t) -> tx_ready t'.
Proof.
  intros [_ _ Hs Hk] Hw Ev Hwin. unfold tx_view_of in Ev. injection Ev as E1 _ _ _ E5 E6.
  constructor; [done|by rewrite E6|by rewrite E1|by rewrite E5].
Qed.

(** The acknowledgement and the window of a segment. *)
Lemma tx_ack_ready now t x window wscale :
  tx_ready t -> is_u32 x -> is_u16 window -> 0 <= wscale <= 8 ->
  q_capacity (tx_cache t) = RECV_WINDOW * 2 ^ wscale ->
  exists t', (s ← tx_acknowledge now t x; window ← int_shl 64 window wscale; mret (tx_set_send_window s window))
      = Done t' /\ tx_ready t' /\ tx_view_of t' = tx_view_of t
    /\ tx_pending t' = zdrop (tx_acked t x) (tx_pending t).
Proof.
  intros Ht Hx Hwin Hs Hc. destruct (tx_acknowledge_view now t x (tr_wf _ Ht) Hx) as (t1 & -> & Hw1 & Hv1 & <-).
  rewrite outcome_bind_Done, int_shl_u16, outcome_bind_Done by (done || lia). eexists. split; [done|].
  pose proof (pow2_wscale wscale ltac:(lia)). assert (tx_view_of (tx_set_send_window t1 (window * 2 ^ wscale)) = tx_view_of t)
    by (by destruct t1). split; [|split; [done|by destruct t1]].
  eapply ready_view; [done| |done|].
  - destruct Hw1. by destruct t1.
  - replace (tx_send_window _) with (window * 2 ^ wscale) by by destruct t1. rewrite Hc. unfold RECV_WINDOW.
    split; [apply Z.mul_nonneg_nonneg|apply Z.mul_le_mono_nonneg_r]; ilia.
Qed.

Lemma window_filled_u32 w : sacks_u32 (window_filled w).
Proof.
  unfold window_filled. apply Forall_map, Forall_true. intros e. cbn.
  split; [apply as_u32_range|]. apply seq_add_u32; apply as_u32_range.
Qed.

Lemma tx_sacks_ready t sacks : tx_ready t -> sacks_u32 sacks -> tx_ready (tx_set_sacks t sacks).
Proof.
  intros [Hw Hwin Hs Hk] Hsk. unfold tx_set_sacks. destruct sacks as [|k sacks].
  - destruct Hw. constructor; [constructor|..]; by destruct t.
  - assert (Hl : 1 <= len (ztake (Z.min 4 (len (k :: sacks))) (k :: sacks)) <= 4)
      by (rewrite len_ztake, len_cons; pose proof (len_nonneg sacks); lia).
    destruct Hw. constructor; [constructor|..]; destruct t; try done.
    cbn. unfold ztake. by apply Forall_take.
Qed.

Lemma tx_report_ready t window n :
  tx_ready t -> is_u32 n -> tx_ready (tx_add_acknowledgement (tx_set_window t window) n).
Proof.
  intros [Hw Hwin Hs Hk] Hn. destruct Hw. constructor; [constructor|..]; destruct t; try done.
  by apply seq_add_u32.
Qed.

Lemma tx_window_ready t window : tx_ready t -> tx_ready (tx_set_window t window).
Proof. intros [[] Hwin Hs Hk]. constructor; [constructor|..]; by destruct t. Qed.

Lemma rx_window_ok s : window_wf (rx_cache s) -> 0 <= rx_wscale s <= 8 -> exists n, rx_window s = Done n.
Proof.
  intros [_ _ Hb Hz _ _] Hs. unfold rx_window, window_remaining, int_sub, int_shr.
  destruct (Z.leb_spec (w_size (rx_cache s)) (w_capacity (rx_cache s))); [|lia]. rewrite outcome_bind_Done.
  destruct (Z.ltb_spec (rx_wscale s) 64); [|lia]. by eexists.
Qed.

(** ** Data for the proxy *)

(** The tasks of the workers may run before the data is written. *)
Lemma conn_send env r src dst w s t payload :
  conn r src dst w s t ->
  let sent := stream_worker_send w payload (env_write env) in
  exists r' w' t', rm_send env (src, dst) payload r = Done (r', Ok sent.2)
    /\ conn r' src dst w' s t' /\ sw_stream_tx w' = sw_stream_tx sent.1
    /\ tx_view_of t' = tx_view_of t /\ fw_sent (rd_tx r) `prefix_of` fw_sent (rd_tx r').
Proof.
  intros Hc sent. unfold rm_send. rewrite (rm_bind_Ok _ _ _ _ _ (rm_stream_Done _ _ _ (cn_stream _ _ _ _ _ _ Hc))).
  assert (Ht : exists r1 w1 t1, (match sw_stream_tx w with Some _ => rm_turn | None => mret tt end) r = Done (r1, Ok tt)
    /\ conn r1 src dst w1 s t1 /\ turned r r1 w w1 t t1).
  { destruct (sw_stream_tx w); [by apply conn_turn|]. exists r, w, t. split; [done|]. split; [done|].
    constructor; [done|done|done|apply quiet_refl|done]. }
  destruct Ht as (r1 & w1 & t1 & E1 & Hc1 & T). rewrite (rm_bind_Ok _ _ _ _ _ E1).
  rewrite (rm_bind_Ok _ _ _ _ _ (rm_stream_Done _ _ _ (cn_stream _ _ _ _ _ _ Hc1))).
  pose proof (tn_stream _ _ _ _ _ _ T) as Hv. injection Hv as Hd Hs.
  assert (Es : (stream_worker_send w1 payload (env_write env)).2 = sent.2
    /\ sw_stream_tx (stream_worker_send w1 payload (env_write env)).1 = sw_stream_tx sent.1
    /\ sw_dst (stream_worker_send w1 payload (env_write env)).1 = sw_dst w1
    /\ sw_open (stream_worker_send w1 payload (env_write env)).1).
  { destruct (conn_worker _ _ _ _ _ _ Hc1) as [_ Ho]. unfold sent, stream_worker_send. rewrite Hs.
    destruct (sw_stream_tx w) as [out|] eqn:Eo; [|cbn; split; [done|]; split; [congruence|done]]. destruct (env_write env); (split; [done|]; split; [done|]; split; [done|]; intros _; by eexists). }
  destruct Es as (E2 & E3 & E4 & Ho). destruct (stream_worker_send w1 payload (env_write env)) as [w2 x]. cbn [fst snd] in *. subst x.
  destruct (conn_put_stream r1 src dst w1 s t1 w2 Hc1 E4 Ho) as [E5 Hc2]. rewrite (rm_bind_Ok _ _ _ _ _ E5).
  eexists _, w2, t1. split; [done|]. split; [exact Hc2|]. split; [done|]. split; [apply T|]. exact (tn_sent _ _ _ _ _ _ T).
Qed.

(** ** Removal *)

Lemma stream_worker_shutdown_ok w :
  sw_open w -> exists w', stream_worker_shutdown w = Done w' /\ sw_dst w' = sw_dst w /\ sw_open w' /\ sw_is_write_closed w' = true.
Proof.
  intros Ho. unfold stream_worker_shutdown. destruct (sw_is_write_closed w) eqn:E; cbn [negb].
  - by exists w.
  - destruct (Ho E) as [out ->]. by eexists.
Qed.

Lemma stream_worker_close_ok w : sw_open w -> exists w', stream_worker_close w = Done w'.
Proof.
  intros Ho. unfold stream_worker_close. destruct (stream_worker_shutdown_ok w Ho) as (w' & -> & _).
  rewrite outcome_bind_Done. by eexists.
Qed.

Lemma remove_stream_ok key r :
  rd_ok r ->
  remove_stream key r = Done (rd_with_streams r (delete key (rd_streams r)), Ok tt)
  /\ rd_ok (rd_with_streams r (delete key (rd_streams r))).
Proof.
  intros Hok. split.
  - unfold remove_stream. erewrite rm_bind_Ok by reflexivity.
    destruct (rd_streams r !! key) as [w|] eqn:E; [|done].
    destruct (ro_streams _ _ Hok _ _ E) as (_ & Ho & _). destruct (stream_worker_close_ok w Ho) as [w' Ew].
    erewrite rm_bind_Ok by (apply rm_lift_Done; by rewrite Ew). done.
  - destruct Hok as [Hm Hs Hg Ht Hb]. constructor; [done| |done|done|done].
    intros k w. cbn. intros [_ Ek]%lookup_delete_Some. apply (worker_ok_same _ r); [done|done|by apply Hs].
Qed.

(** The states of a connection without a stream matter to no one. *)
Lemma ok_states r key x :
  rd_ok r -> rd_streams r !! key = None -> (forall k, k <> key -> x !! k = rd_states r !! k) -> rd_ok (rd_with_states r x).
Proof.
  intros [Hm Hs Hg Ht Hb] Hno Hx. constructor; [done| |done|done|done].
  intros k w Ek. cbn in Ek. destruct (Hs k w Ek) as (Hd & Ho & s & t & [? ? ? ? ?]). split; [done|]. split; [done|].
  exists s, t. constructor; [|done..]. cbn. rewrite Hx; [done|]. intros ->. congruence.
Qed.

Lemma ok_free r f' key :
  rd_ok r -> rd_streams r !! key = None -> mtus_ok f' ->
  (forall d c u, key <> (c, d) -> live (rd_tx r) d c u -> live f' d c u) -> rd_ok (rd_with_tx r f').
Proof.
  intros [Hm Hs Hg Ht Hb] Hno Hm' Ho. constructor; [done| |done|done|done].
  intros k w Ek. cbn in Ek. destruct (Hs k w Ek) as (Hd & Hop & s & t & [? ? ? ? ?]). split; [done|]. split; [done|].
  exists s, t. constructor; [done|done| |done|done]. apply Ho; [|done].
  intros E. assert (Hk : k = key) by (rewrite E; by destruct k). subst k. pose proof (eq_trans (eq_sym Hno) Ek). done.
Qed.

(** What is left of a connection that was removed, and of the other ones. *)
Record removed (r r' : Redirector) (key : conn_key) : Prop := {
  rv_streams : sw_view <$> rd_streams r' = delete key (sw_view <$> rd_streams r);
  rv_states : rd_states r' = delete key (rd_states r);
  rv_tx : tx_view_of <$> fw_states (rd_tx r') = delete key (tx_view_of <$> fw_states (rd_tx r));
  rv_sent : fw_sent (rd_tx r) `prefix_of` fw_sent (rd_tx r');
  rv_idle : rd_turns r = [] -> fw_sent (rd_tx r') = fw_sent (rd_tx r)
}.

Definition gone (r : Redirector) (key : conn_key) : Prop :=
  rd_streams r !! key = None /\ rd_states r !! key = None /\ fw_states (rd_tx r) !! key = None.

Lemma removed_gone r r' key : removed r r' key -> gone r' key.
Proof.
  intros [H1 H2 H3 _ _]. split; [|split].
  - apply (f_equal (lookup key)) in H1. rewrite lookup_fmap, lookup_delete_eq in H1. by destruct (rd_streams r' !! key).
  - rewrite H2. apply lookup_delete_eq.
  - apply (f_equal (lookup key)) in H3. rewrite lookup_fmap, lookup_delete_eq in H3. by destruct (fw_states (rd_tx r') !! key).
Qed.

(** Without a connection the other ones are as live as before. *)
Lemma live_delete f dst src d c u :
  (src, dst) <> (c, d) -> live f d c u -> live (fw_clean_up f dst src) d c u.
Proof.
  intros Hne [U1 [U2 U3 U4] U5 U6 U7].
  constructor; [cbn; by rewrite lookup_delete_ne|by constructor|done..].
Qed.

Lemma clean_up_ok src dst r :
  rd_ok r -> exists r', rd_clean_up src dst r = Done (r', Ok tt) /\ rd_ok r' /\ removed r r' (src, dst).
Proof.
  intros Hok. unfold rd_clean_up. cbv zeta. destruct (remove_stream_ok (src, dst) r Hok) as [E1 Hok1].
  rewrite (rm_bind_Ok _ _ _ _ _ E1). erewrite rm_bind_Ok by reflexivity. set (r2 := rd_with_states _ _).
  assert (Hok2 : rd_ok r2).
  { apply (ok_states _ (src, dst)); [done|cbn; apply lookup_delete_eq|]. intros k Hk. cbn. by rewrite lookup_delete_ne. }
  destruct (turn_quiet r2 Hok2) as (r3 & E3 & Hok3 & Q & _). rewrite (with_tx_turn _ _ _ E3).
  eexists. split; [reflexivity|]. pose proof Q as [[n Q1] Q2 Q3 _ _ _ _].
  assert (Hno : rd_streams r3 !! (src, dst) = None).
  { apply (f_equal (lookup (src, dst))) in Q2. rewrite !lookup_fmap in Q2. cbn [r2 rd_streams rd_with_states rd_with_streams] in Q2.
    rewrite lookup_delete_eq in Q2. by destruct (rd_streams r3 !! (src, dst)). }
  split.
  - apply (ok_free r3 _ (src, dst)); [done|done|by destruct Hok3|]. intros d c u. apply live_delete.
  - constructor.
    + etrans; [exact Q2|]. exact (fmap_delete _ _ _).
    + exact Q3.
    + etrans; [exact (fmap_delete _ _ _)|]. f_equal. exact (cm_states _ _ _ Q1).
    + apply Q1.
    + intros E0. cbn. rewrite (turn_idle r2 E0) in E3. by injection E3 as <-.
Qed.

(** A reset for the source, and the connection is removed; when the device
    fails to send the reset, the connection stays. *)
Lemma reset_ok src dst r w s t {A} e :
  conn r src dst w s t ->
  exists r' y x l l' t', (_ ← with_tx (send_tcp_ack_rst dst src); _ ← rd_clean_up src dst; rm_fail (A := A) e) r = Done (r', Err y)
    /\ rd_ok r' /\ fw_sent (rd_tx r') = fw_sent (rd_tx r) ++ l ++ x :: l'
    /\ tx_view_of t' = tx_view_of t /\ bare_segment dst src t' true false true false x
    /\ (y = e /\ gone r' (src, dst) \/ device_error y /\ exists w', conn r' src dst w' s t').
Proof.
  intros Hc. destruct (conn_with_tx (send_tcp_ack_rst dst src) _ _ _ _ _ _ Hc) as (r1 & w1 & t1 & E1 & Hc1 & T).
  pose proof (cn_live _ _ _ _ _ _ Hc1) as Hl1.
  destruct (send_tcp_ack_rst_ok dst src (rd_tx r1) t1 (lv_state _ _ _ _ Hl1)) as (f2 & x & y & E2 & Hy & Hss & Hx & Hf2).
  destruct (conn_ran _ _ _ _ _ _ _ _ _ _ Hc1 E2 (ran_sent _ _ _ _ _ _ Hl1 Hss Hf2)) as (E3 & Hc2 & _).
  rewrite E3 in E1. destruct (tn_sent _ _ _ _ _ _ T) as [l Hl]. destruct Hy as [|y Hy].
  2: { rewrite (rm_bind_Err _ _ _ _ _ E1). exists (rd_with_tx r1 f2), y, x, l, [], t1. split; [done|]. split; [apply Hc2|].
       split; [cbn; by rewrite (ss_sent _ _ _ Hss), Hl, <- app_assoc|]. split; [apply T|]. split; [done|]. right. eauto. }
  rewrite (rm_bind_Ok _ _ _ _ _ E1).
  destruct (clean_up_ok src dst _ (cn_ok _ _ _ _ _ _ Hc2)) as (r4 & E4 & Hok4 & Hrv).
  rewrite (rm_bind_Ok _ _ _ _ _ E4). destruct (rv_sent _ _ _ Hrv) as [l' Hl'].
  cbn in Hl'. rewrite (ss_sent _ _ _ Hss), Hl, <- !app_assoc in Hl'.
  exists r4, e, x, l, l', t1. split; [done|]. split; [done|]. split; [done|]. split; [apply T|]. split; [done|].
  left. split; [done|by eapply removed_gone].
Qed.
End conn.
