(* ===== verification/Session.v ===== *)
(** * Connections through the redirector

    What the redirector does with the TCP segments of the source, over the
    forwarder, the receive cache and the stream workers together: a SYN opens a
    connection or leaves no trace of it, data reaches the proxy in order and is
    acknowledged, a FIN closes one direction, a RST removes everything.  The
    tasks of all workers may take any turns before every critical section and
    while a handler waits. *)

From S2P Require Import Prelude SeqArith Ring Queue Window TxState RxState Socks Pnet Wire Layers Packet Frames Forwarder Flow Crates Redirector Workers Conn.

Section session.
Context {P : Pnet} {L : PnetLaws P} {D : Device} {N : IpNetwork} {C : Lru}.

(** ** Steps *)

(** A connection after steps that lose nothing and promise nothing new. *)
Record later (r r' : Redirector) (w w' : StreamWorker) (t t' : TcpTxState) : Prop := {
  lt_stream : sw_view w' = sw_view w;
  lt_ack : tx_acknowledgement t' = tx_acknowledgement t;
  lt_pending : tx_pending t `prefix_of` tx_pending t';
  lt_sent : fw_sent (rd_tx r) `prefix_of` fw_sent (rd_tx r')
}.

Lemma later_refl r w t : later r r w w t t.
Proof. by constructor. Qed.

Lemma later_trans r r1 r2 w w1 w2 t t1 t2 : later r r1 w w1 t t1 -> later r1 r2 w1 w2 t1 t2 -> later r r2 w w2 t t2.
Proof. intros [] []. constructor; [congruence|congruence|by etrans|by etrans]. Qed.

Lemma view_ack t t' : tx_view_of t' = tx_view_of t -> tx_acknowledgement t' = tx_acknowledgement t.
Proof. by intros [= _ _ -> _ _ _]. Qed.

Lemma turned_later r r' w w' t t' : turned r r' w w' t t' -> later r r' w w' t t'.
Proof. intros T. constructor; [apply T|apply view_ack, T|apply T|exact (tn_sent _ _ _ _ _ _ T)]. Qed.

(** The ranges above the begin of the window are reported when the source
    understands them. *)
Lemma conn_sacks r src dst w s t (b : bool) sacks :
  conn r src dst w s t -> sacks_u32 sacks ->
  exists r' w' t', (if b then with_tx (tx_state_update (src, dst) (fun s => mret (tx_set_sacks s sacks))) else mret tt) r
      = Done (r', Ok tt)
    /\ conn r' src dst w' s t' /\ later r r' w w' t t'.
Proof.
  intros Hc Hsk. destruct b; [|exists r, w, t; split; [done|]; split; [done|apply later_refl]].
  destruct (conn_with_tx (tx_state_update (src, dst) (fun s => mret (tx_set_sacks s sacks))) _ _ _ _ _ _ Hc)
    as (r1 & w1 & t1 & E1 & Hc1 & T).
  destruct (conn_update r1 src dst w1 s t1 (fun s => mret (tx_set_sacks s sacks)) (tx_set_sacks t1 sacks)) as (f' & E & Hc' & Ht);
    [done|done|apply tx_sacks_ready; [eapply live_ready, Hc1|done]|unfold tx_set_sacks; by destruct sacks, t1|unfold tx_set_sacks; by destruct sacks, t1|].
  eexists _, w1, (tx_set_sacks t1 sacks). split; [by rewrite E1|]. split; [done|].
  eapply later_trans; [by apply turned_later|]. constructor; [done|unfold tx_set_sacks; by destruct sacks, t1|unfold tx_set_sacks; by destruct sacks, t1|].
  cbn. by rewrite Ht.
Qed.

Lemma capacity_bounds wscale : 0 <= wscale <= 8 -> 0 <= RECV_WINDOW * 2 ^ wscale <= MAX_U32_WINDOW_SIZE.
Proof.
  intros H. unfold RECV_WINDOW, u16_max, MAX_U32_WINDOW_SIZE.
  pose proof (pow2_wscale wscale ltac:(lia)). pose proof (Z.pow_le_mono_r 2 wscale 8 ltac:(lia) ltac:(lia)). lia.
Qed.

Lemma rx_window_conn r src dst w s t : conn r src dst w s t -> exists n, rx_window s = Done n.
Proof. intros Hc. pose proof (conn_rx_ok _ _ _ _ _ _ Hc) as [? ?]. by apply rx_window_ok. Qed.

(** Data in order. *)
Lemma send_in_order_ok env r src dst w s t out payload :
  conn r src dst w s t -> sw_stream_tx w = Some out -> is_u32 (len payload) -> env_write env = WriteAll ->
  exists r' w' t' l x y,
    send_in_order env src dst s payload r = Done (r', y) /\ answered y
    /\ conn r' src dst w' (rx_add_recv_next s (len payload)) t' /\ sw_stream_tx w' = Some (out ++ payload)
    /\ tx_acknowledgement t' = seq_add (tx_acknowledgement t) (len payload)
    /\ fw_sent (rd_tx r') = fw_sent (rd_tx r) ++ l ++ [x] /\ bare_segment dst src t' true false false false x.
Proof.
  intros Hc Hw Hp Ha. assert (Hp' : as_u32 (len payload) = len payload) by (apply Z.mod_small; ilia).
  destruct (conn_send env r src dst w s t payload Hc) as (r3 & w3 & t3 & E3 & Hc3 & Hw3 & Hv & Hpre).
  unfold stream_worker_send in E3, Hw3. rewrite Hw, Ha in E3, Hw3. cbn [fst snd] in E3, Hw3.
  destruct (rx_window_conn _ _ _ _ _ _ Hc) as [n En].
  unfold send_in_order. cbv zeta. rewrite (rm_bind_Ok _ _ _ _ _ E3), (rm_bind_Ok _ _ _ _ _ (rm_lift_Done _ _ _ En)), Hp'.
  destruct (conn_put_rx r3 src dst w3 s t3 (rx_add_recv_next s (len payload)) Hc3) as [E4 Hc4];
    [by destruct (conn_rx_ok _ _ _ _ _ _ Hc3); constructor|done|].
  rewrite (rm_bind_Ok _ _ _ _ _ E4). set (s' := rx_add_recv_next s (len payload)) in *.
  set (g := fun s => mret (tx_add_acknowledgement (tx_set_window s n) (len payload)) : outcome TcpTxState).
  destruct (conn_with_tx (_ ← tx_state_update (src, dst) g; send_tcp_ack_0 dst src) _ _ _ _ _ _ Hc4)
    as (r5 & w5 & t5 & E5 & Hc5 & T).
  destruct (conn_report r5 src dst w5 s' t5 g (tx_add_acknowledgement (tx_set_window t5 n) (len payload)))
    as (f6 & x & y & E6 & Hy & Hc6 & Es6 & Hx); [done|done|apply tx_report_ready; [eapply live_ready, Hc5|done]|by destruct t5|by destruct t5|].
  rewrite E6 in E5. destruct (tn_sent _ _ _ _ _ _ T) as [l2 Hl2]. destruct Hpre as [l1 Hl1]. cbn in Hl2.
  eexists _, w5, _, (l1 ++ l2), x, y. split; [exact E5|]. split; [done|]. split; [exact Hc6|].
  pose proof (tn_stream _ _ _ _ _ _ T) as Hv5. injection Hv5 as _ Hs5. split; [cbn in Hw3; congruence|].
  split; [|split; [cbn; by rewrite Es6, Hl2, Hl1, <- !app_assoc|done]].
  apply view_ack in Hv. pose proof (view_ack _ _ (tn_view _ _ _ _ _ _ T)) as Hv'.
  replace (tx_acknowledgement _) with (seq_add (tx_acknowledgement t5) (len payload)) by (by destruct t5). congruence.
Qed.

Lemma report_window_ok r src dst w s t :
  conn r src dst w s t ->
  exists r' w' t' l x y,
    report_window src dst s r = Done (r', y) /\ answered y /\ conn r' src dst w' s t' /\ later r r' w w' t t'
    /\ fw_sent (rd_tx r') = fw_sent (rd_tx r) ++ l ++ [x] /\ bare_segment dst src t' true false false false x.
Proof.
  intros Hc. destruct (rx_window_conn _ _ _ _ _ _ Hc) as [n En].
  unfold report_window. rewrite (rm_bind_Ok _ _ _ _ _ (rm_lift_Done _ _ _ En)).
  set (g := fun s => mret (tx_set_window s n) : outcome TcpTxState).
  destruct (conn_with_tx (_ ← tx_state_update (src, dst) g; send_tcp_ack_0 dst src) _ _ _ _ _ _ Hc)
    as (r5 & w5 & t5 & E5 & Hc5 & T).
  destruct (conn_report r5 src dst w5 s t5 g (tx_set_window t5 n))
    as (f6 & x & y & E6 & Hy & Hc6 & Es6 & Hx); [done|done|apply tx_window_ready; eapply live_ready, Hc5|by destruct t5|by destruct t5|].
  rewrite E6 in E5. destruct (tn_sent _ _ _ _ _ _ T) as [l Hl].
  eexists _, w5, (tx_set_window t5 n), l, x, y. split; [exact E5|]. split; [done|]. split; [done|]. split.
  - eapply later_trans; [by apply turned_later|]. constructor; [done|by destruct t5|by destruct t5|]. cbn. rewrite Es6. by eexists.
  - split; [cbn; by rewrite Es6, Hl, <- app_assoc|done].
Qed.

(** ** Delivery *)

(** The connection has received the bytes [out] of the stream [f], all of them
    were written to the proxy, and [next] is expected next. *)
Record delivers (f : Z -> byte) (isn capacity : Z) (r : Redirector) (src dst : SocketAddrV4)
    (out : list byte) (next : Z) (w : StreamWorker) (s : TcpRxState) (t : TcpTxState) : Prop := {
  dl_conn : conn r src dst w s t;
  dl_written : sw_stream_tx w = Some out;
  dl_receives : receives f capacity isn (rx_cache s) out;
  dl_capacity : capacity = RECV_WINDOW * 2 ^ rx_wscale s;
  dl_next : rx_recv_next s = next /\ w_sequence (rx_cache s) = next;
  dl_fin : rx_fin_sequence s = None;
  dl_ack : tx_acknowledgement t = next
}.

Lemma delivers_later f isn capacity r r' src dst out next w w' s t t' :
  delivers f isn capacity r src dst out next w s t -> conn r' src dst w' s t' -> later r r' w w' t t' ->
  delivers f isn capacity r' src dst out next w' s t'.
Proof.
  intros [? ? ? ? ? ? ?] Hc [Hv Ha _ _]. injection Hv as _ Hv. constructor; [done|congruence|done|done|done|done|congruence].
Qed.

Lemma data_delivered f isn capacity env tcp payload r src dst out next w s t :
  is_u32 isn -> delivers f isn capacity r src dst out next w s t ->
  tcp_source tcp = src -> tcp_target tcp = dst -> carries f capacity out next (tcp_sequence tcp) payload ->
  env_write env = WriteAll ->
  exists r' w' s' t' more l x y,
    handle_tcp_data env tcp payload r = Done (r', y) /\ answered y
    /\ delivers f isn capacity r' src dst (out ++ more) (seq_add next (len more)) w' s' t'
    /\ fw_sent (rd_tx r') = fw_sent (rd_tx r) ++ l ++ [x] /\ bare_segment dst src t' true false false false x
    /\ (tcp_sequence tcp = next -> len payload <= len more).
Proof.
  intros Hisn [Hc Hw Hr Hcap [Hn Hq] Hfin Hack] Esrc Edst Hca Ha.
  pose proof (conn_wscale _ _ _ _ _ _ Hc) as Hws.
  assert (Hcap' : 0 <= capacity <= MAX_U32_WINDOW_SIZE) by (rewrite Hcap; by apply capacity_bounds).
  rewrite <- Hq in Hca.
  destruct (receives_carries f capacity isn (rx_cache s) out (tcp_sequence tcp) payload Hcap' Hisn Hr Hca)
    as (w1 & c & Ew & Hr1 & Hs1 & Hl1 & Hb1).
  pose proof (receives_inv_holds f capacity isn Hcap' Hisn w1 _ Hr1) as (Hwf1 & _).
  set (s1 := rx_with_cache s w1). unfold handle_tcp_data. rewrite Esrc, Edst. cbv zeta.
  rewrite (rm_bind_Ok _ _ _ _ _ (conn_rx_state _ _ _ _ _ _ Hc)).
  assert (Ea : rx_append_cache s (tcp_sequence tcp) payload = Done (s1, Ok c)) by (unfold rx_append_cache; by rewrite Ew).
  rewrite (rm_bind_Ok _ _ _ _ _ (rm_lift_Done _ _ _ Ea)).
  destruct (conn_put_rx r src dst w s t s1 Hc) as [E1 Hc1]; [by constructor|done|]. rewrite (rm_bind_Ok _ _ _ _ _ E1).
  destruct (conn_sacks _ src dst w s1 t (rx_sack_perm s1) (window_filled (rx_cache s1)) Hc1 (window_filled_u32 _))
    as (r2 & w2 & t2 & E2 & Hc2 & [Lv La _ [l2 Ls]]). rewrite (rm_bind_Ok _ _ _ _ _ E2).
  injection Lv as _ Lv. cbn in Ls. destruct c as [p|]; cbn [from_option id] in *.
  - destruct (send_in_order_ok env r2 src dst w2 s1 t2 out p Hc2) as (r3 & w3 & t3 & l & x & y & E3 & Hy & Hc3 & Hw3 & Ha3 & Es3 & Hx);
      [congruence|pose proof (len_nonneg p); unfold MAX_U32_WINDOW_SIZE in *; ilia|done|].
    exists r3, w3, (rx_add_recv_next s1 (len p)), t3, p, (l2 ++ l), x, y. split; [exact E3|]. split; [done|].
    split; [|split; [by rewrite Es3, Ls, <- !app_assoc|split; [done|by rewrite <- Hq]]].
    constructor; [done..| |done|congruence]. cbn. by rewrite Hn, Hs1, Hq.
  - rewrite app_nil_r in Hr1. rewrite len_nil in *.
    assert (Hu : is_u32 next) by (rewrite <- Hack; apply (live_ready _ _ _ _ (cn_live _ _ _ _ _ _ Hc))).
    rewrite Hq, seq_add_0 in Hs1 by done.
    destruct (report_window_ok r2 src dst w2 s1 t2 Hc2) as (r3 & w3 & t3 & l & x & y & E3 & Hy & Hc3 & [Mv Ma _ _] & Es3 & Hx).
    injection Mv as _ Mv.
    exists r3, w3, s1, t3, [], (l2 ++ l), x, y. split; [exact E3|]. split; [done|]. rewrite app_nil_r, len_nil, seq_add_0 by done.
    split; [|split; [by rewrite Es3, Ls, <- !app_assoc|split; [done|by rewrite <- Hq]]].
    constructor; [done|congruence|done|done|done|done|congruence].
Qed.

(** ** Opening *)

Lemma open_total now dst src f s :
  live f dst src s ->
  exists f' s' x y, forwarder_open now dst src f = Done (f', y) /\ answered y /\ fw_sent f' = fw_sent f ++ [x]
    /\ bare_segment dst src s true true false false x /\ calm 0 f f' /\ live f' dst src s'
    /\ tx_view_of s' = tx_view_of s /\ tx_pending s' = tx_pending s
    /\ forall d c u, (src, dst) <> (c, d) -> live f d c u -> live f' d c u.
Proof.
  intros Hl. destruct (send_tcp_ack_syn_ok dst src f s Hl) as (f1 & x & y & E1 & Hy & Es1 & Hx & R1).
  pose proof (rn_live _ _ _ _ _ _ R1) as Hl1. pose proof (calm_ran _ _ _ _ _ _ Hl R1) as Hc1.
  assert (Ho : forall d c u, (src, dst) <> (c, d) -> live f d c u -> live f1 d c u).
  { intros d c u Hne Hu. eapply live_other; [apply R1|apply Hc1..|done|done]. }
  unfold forwarder_open. destruct Hy as [|e He].
  2: { rewrite (fm_bind_Err _ _ _ _ _ E1). exists f1, s, x, (Err e). split; [done|]. by split; [constructor|]. }
  rewrite (fm_bind_Ok _ _ _ _ _ E1).
  rewrite (fm_bind_Ok _ _ _ _ _ (fm_state_Done _ _ _ (lv_state _ _ _ _ Hl1))).
  assert (Ht : tx_ready (tx_update_syn_timer now s)).
  { destruct (live_ready _ _ _ _ Hl) as [[] ? ? ?]. constructor; [constructor|..]; by destruct s. }
  pose proof (live_update f1 dst src s _ Hl1 Ht) as Hl2.
  eexists _, _, x, (Ok tt). split; [reflexivity|]. split; [constructor|]. split; [done|]. split; [done|]. split; [|split; [exact Hl2|]].
  - eapply (calm_trans 0 0); [exact Hc1|].
    eapply (calm_step 0 f1 _ dst src s (tx_update_syn_timer now s) []); try done; [by destruct s|rewrite app_nil_r; by destruct s].
  - split; [by destruct s|]. split; [by destruct s|]. intros d c u Hne Hu.
    eapply (live_other f1); [reflexivity|done|done|done|by apply Ho].
Qed.

Lemma live_set_mtu f ip mtu :
  mtus_ok f -> 41 <= mtu ->
  mtus_ok (set_src_mtu f ip mtu).1 /\ forall d c u, live f d c u -> live (set_src_mtu f ip mtu).1 d c u.
Proof.
  intros [Hl Hm] Hmtu. unfold set_src_mtu. cbv zeta. cbn [fst].
  assert (Hm' : forall i, 41 <= fw_mtu_of (fw_with_src_mtu f (<[ip := Z.min (fw_local_mtu f) mtu]> (fw_src_mtu f))) i <= u16_max).
  { intros i. specialize (Hm i). unfold fw_mtu_of in *. cbn. destruct (decide (ip = i)) as [<-|Hne].
    - rewrite lookup_insert_eq. cbn. lia.
    - by rewrite lookup_insert_ne. }
  split; [done|]. intros d c u [U1 [U2 U3 U4] U5 U6 U7]. constructor; [done| |done..]. constructor; [done|done|apply Hm'].
Qed.

Lemma live_new f dst src t :
  tx_ready t -> mtus_ok f ->
  live (set_state f dst src t) dst src t
  /\ forall d c u, (src, dst) <> (c, d) -> live f d c u -> live (set_state f dst src t) d c u.
Proof.
  intros [W1 W2 W3 W4] [Hl Hm]. split.
  - constructor; [cbn; apply lookup_insert_eq|constructor; [done|done|apply Hm]|done|done|cbn; lia].
  - intros d c u Hne [U1 [U2 U3 U4] U5 U6 U7].
    constructor; [cbn; by rewrite lookup_insert_ne|by constructor|done..].
Qed.

(** What the program reads from a SYN. *)
Record syn_ok (env : Env) (tcp : Tcp) (wscale mss : option Z) (sack_perm : bool) : Prop := {
  sy_sequence : is_u32 (tcp_sequence tcp);
  sy_window : is_u16 (tcp_window tcp);
  sy_isn : is_u32 (env_isn env);
  sy_wscale : tcp_wscale tcp = Done wscale;
  sy_wscale_range : forall w, wscale = Some w -> 0 <= w <= MAX_RECV_WSCALE;
  sy_mss : tcp_mss tcp = Done mss;
  sy_mss_range : forall m, mss = Some m -> 1 <= m;
  sy_sack_perm : tcp_is_sack_perm tcp = Done sack_perm
}.

(** The state for the direction to the source that a SYN asks for. *)
Lemma syn_tx_new env tcp wscale mss sack_perm src dst :
  syn_ok env tcp wscale mss sack_perm ->
  exists t, tx_new src dst (env_isn env) (seq_succ (tcp_sequence tcp)) (tcp_window tcp)
      ((fun w => Z.min w MAX_RECV_WSCALE) <$> wscale) sack_perm wscale = Done t
    /\ tx_ready t /\ tx_pending t = [] /\ tx_acknowledgement t = seq_succ (tcp_sequence tcp)
    /\ q_capacity (tx_cache t) = RECV_WINDOW * 2 ^ unwrap_or wscale 0.
Proof.
  intros [H1 H2 H3 _ H5 _ _ _]. unfold MAX_RECV_WSCALE in *.
  assert (Hs : 0 <= unwrap_or wscale 0 <= 8) by (destruct wscale; [by apply H5|cbn; lia]).
  assert (Ew : unwrap_or ((fun w => Z.min w 8) <$> wscale) 0 = unwrap_or wscale 0).
  { destruct wscale as [w|]; [|done]. cbn. specialize (H5 w eq_refl). lia. }
  destruct (tx_new_ok src dst (env_isn env) (seq_succ (tcp_sequence tcp)) (tcp_window tcp)
    ((fun w => Z.min w 8) <$> wscale) sack_perm wscale) as (t & E & Hw & Hp & Ewin & Ecap & Ewsc & Esk & Eack & _);
    [done|by apply seq_succ_u32|done|lia|lia|].
  exists t. split; [done|]. split; [|done]. constructor; [done| | |by rewrite Esk].
  - rewrite Ewin, Ecap, Ew. pose proof (pow2_wscale (unwrap_or wscale 0) ltac:(lia)). unfold RECV_WINDOW.
    split; [apply Z.mul_nonneg_nonneg|apply Z.mul_le_mono_nonneg_r]; ilia.
  - rewrite Ewsc. intros w Ew'. destruct wscale as [w0|]; [|done]. apply (inj Some) in Ew' as <-.
    specialize (H5 w0 eq_refl). cbn. ilia.
Qed.

(** The critical section: the forwarder has the state of the connection. *)
Lemma admit_syn_ok env tcp wscale mss sack_perm f :
  let src := tcp_source tcp in
  let dst := tcp_target tcp in
  mtus_ok f -> syn_ok env tcp wscale mss sack_perm ->
  exists f' t,
    admit_syn env tcp wscale ((fun w => Z.min w MAX_RECV_WSCALE) <$> wscale) sack_perm f = Done (f', Ok tt)
    /\ mtus_ok f' /\ live f' dst src t /\ fw_sent f' = fw_sent f
    /\ tx_pending t = [] /\ tx_acknowledgement t = seq_succ (tcp_sequence tcp)
    /\ q_capacity (tx_cache t) = RECV_WINDOW * 2 ^ unwrap_or wscale 0
    /\ forall d c u, (src, dst) <> (c, d) -> live f d c u -> live f' d c u.
Proof.
  intros src dst Hm Hsyn. destruct (syn_tx_new env tcp wscale mss sack_perm src dst Hsyn) as (t & Etx & Ht & Hp & Hack & Hroom).
  unfold admit_syn. fold src dst. cbv zeta. rewrite (fm_bind_Ok _ _ _ _ _ (fm_lift_Done _ _ _ (sy_mss _ _ _ _ _ Hsyn))).
  assert (Hf : exists f1, (match mss with
      | Some mss => fm_update (fun f => (set_src_mtu f (tcp_src_ip_addr tcp) (ipv4_minimum_len + tcp_minimum_len + mss)).1)
      | None => mret tt
      end : FM unit) f = Done (f1, Ok tt)
    /\ mtus_ok f1 /\ fw_sent f1 = fw_sent f /\ forall d c u, live f d c u -> live f1 d c u).
  { destruct mss as [m|]; [|by exists f].
    destruct (live_set_mtu f (tcp_src_ip_addr tcp) (ipv4_minimum_len + tcp_minimum_len + m) Hm) as [Hm' Hl].
    { pose proof (sy_mss_range _ _ _ _ _ Hsyn m eq_refl). unfold ipv4_minimum_len, tcp_minimum_len. lia. }
    by eexists. }
  destruct Hf as (f1 & E1 & Hm1 & Es1 & Hl1). rewrite (fm_bind_Ok _ _ _ _ _ E1), (fm_bind_Ok _ _ _ _ _ (fm_lift_Done _ _ _ Etx)).
  destruct (live_new f1 dst src t Ht Hm1) as [Hl2 Ho2]. eexists _, t. split; [reflexivity|]. split; [exact Hm1|].
  split; [done|]. split; [done|]. split; [done|]. split; [done|]. split; [done|]. intros d c u Hne Hu. apply Ho2; [done|by apply Hl1].
Qed.

(** The receive state of a connection that has received nothing. *)
Definition rx_fresh (src dst : SocketAddrV4) (next wscale : Z) (sack_perm : bool) : TcpRxState :=
  mkRx src dst next 0 0 None wscale sack_perm (window_with_capacity (RECV_WINDOW * 2 ^ wscale) next) None.

Lemma rx_new_ok src dst sequence wscale sack_perm :
  0 <= wscale <= 8 ->
  rx_new src dst sequence wscale sack_perm = Done (rx_fresh src dst (seq_succ sequence) wscale sack_perm).
Proof. intros Hs. unfold rx_new. cbv zeta. by rewrite int_shl_u16 by (unfold RECV_WINDOW; ilia). Qed.

Lemma rx_fresh_ok src dst next wscale sack_perm : is_u32 next -> 0 <= wscale <= 8 -> rx_ok (rx_fresh src dst next wscale sack_perm).
Proof.
  intros Hn Hs. pose proof (capacity_bounds wscale Hs) as Hb. constructor; [|done]. cbn [rx_cache rx_fresh].
  constructor; cbn; [done|lia|rewrite len_nil; lia|done|split; [done|by right]|done].
Qed.

(** A state at the forwarder for a connection without a stream. *)
Record admitted (r : Redirector) (src dst : SocketAddrV4) (t : TcpTxState) : Prop := {
  ad_ok : rd_ok r;
  ad_stream : rd_streams r !! (src, dst) = None;
  ad_live : live (rd_tx r) dst src t;
  ad_room : len (tx_pending t) + (turns_bytes (rd_turns r) + 0) <= usize_max
}.

Lemma quiet_no_stream r r' key : quiet r r' -> rd_streams r !! key = None -> rd_streams r' !! key = None.
Proof.
  intros [_ Q _ _ _ _ _] E. apply (f_equal (lookup key)) in Q. rewrite !lookup_fmap, E in Q. by destruct (rd_streams r' !! key).
Qed.

(** While the proxy is asked. *)
Lemma admitted_turn r src dst t :
  admitted r src dst t ->
  exists r' t', rm_turn r = Done (r', Ok tt) /\ admitted r' src dst t' /\ tx_view_of t' = tx_view_of t
    /\ fw_sent (rd_tx r) `prefix_of` fw_sent (rd_tx r').
Proof.
  intros [H1 H2 H3 H4]. destruct (turn_drawn r H1) as (r' & E & Hok & Q & _ & n & Hc & Hn).
  destruct (calm_live _ _ _ dst src t Hc H3) as (t' & more & Hl & Hv & Hp & Hm). exists r', t'. split; [done|].
  split; [|split; [done|apply Hc]]. constructor; [done|by eapply quiet_no_stream|done|]. rewrite Hp, len_app. lia.
Qed.

(** The refusal: a reset for the source, and nothing is left of the connection;
    when the device fails to send the reset, its state at the forwarder stays. *)
Lemma refuse_ok r src dst t e :
  admitted r src dst t ->
  exists r' y x l l' t',
    (_ ← with_tx (_ ← tx_state_update (src, dst) (fun s => mret (tx_add_acknowledgement s 1)); send_tcp_ack_rst dst src);
     _ ← rd_clean_up src dst; rm_fail e : RM unit) r = Done (r', Err y)
    /\ fw_sent (rd_tx r') = fw_sent (rd_tx r) ++ l ++ x :: l' /\ bare_segment dst src t' true false true false x
    /\ tx_acknowledgement t' = seq_add (tx_acknowledgement t) 1 /\ rd_ok r'
    /\ (y = e /\ gone r' (src, dst) \/ device_error y /\ admitted r' src dst t').
Proof.
  intros Had. destruct (admitted_turn r src dst t Had) as (r5 & t5 & E5 & [Hok5 Hno5 Hl5 Hb5] & Hv5 & [l5 Hp5]).
  set (t6 := tx_add_acknowledgement t5 1).
  assert (Hr6 : tx_ready t6).
  { destruct (live_ready _ _ _ _ Hl5) as [[] ? ? ?]. constructor; [constructor|..]; destruct t5; try done. by apply seq_add_u32. }
  assert (Ha6 : tx_acknowledgement t6 = seq_add (tx_acknowledgement t) 1).
  { apply view_ack in Hv5. rewrite <- Hv5. by destruct t5. }
  pose proof (live_update (rd_tx r5) dst src t5 t6 Hl5 Hr6) as Hl6. set (f6 := fw_with_states _ _) in Hl6.
  assert (E6 : tx_state_update (src, dst) (fun s => mret (tx_add_acknowledgement s 1)) (rd_tx r5) = Done (f6, Ok tt))
    by (eapply tx_state_update_Done; [exact (lv_state _ _ _ _ Hl5)|reflexivity]).
  destruct (send_tcp_ack_rst_ok dst src f6 t6 (lv_state _ _ _ _ Hl6)) as (f7 & x & y & E7 & Hy & Hss & Hx & Hf7).
  assert (E7' : with_tx (_ ← tx_state_update (src, dst) (fun s => mret (tx_add_acknowledgement s 1)); send_tcp_ack_rst dst src) r
    = Done (rd_with_tx r5 f7, y)).
  { rewrite (with_tx_turn _ _ _ E5). apply on_tx_Done. by rewrite (fm_bind_Ok _ _ _ _ _ E6). }
  assert (Hok7 : rd_ok (rd_with_tx r5 f7)).
  { apply (ok_free r5 f7 (src, dst)); [done|done| |].
    - eapply mtus_ok_same; [apply (ss_src_mtu _ _ _ Hss)|apply (ss_local_mtu _ _ _ Hss)|]. by destruct Hok5.
    - intros d c u Hne Hu. eapply live_other; [by rewrite (ss_states _ _ _ Hss)|by rewrite (ss_src_mtu _ _ _ Hss)|
        by rewrite (ss_local_mtu _ _ _ Hss)|done|done]. }
  assert (Hs7 : fw_sent f7 = fw_sent (rd_tx r) ++ l5 ++ [x]).
  { rewrite (ss_sent _ _ _ Hss). change (fw_sent f6) with (fw_sent (rd_tx r5)). by rewrite Hp5, <- app_assoc. }
  destruct Hy as [|y Hy].
  2: { rewrite (rm_bind_Err _ _ _ _ _ E7'). exists (rd_with_tx r5 f7), y, x, l5, [], t6. do 5 (split; [done|]). right. split; [done|].
       constructor; [done|done|exact (rn_live _ _ _ _ _ _ (ran_sent _ _ _ _ _ _ Hl6 Hss Hf7))|].
       replace (tx_pending t6) with (tx_pending t5) by (by destruct t5). exact Hb5. }
  rewrite (rm_bind_Ok _ _ _ _ _ E7').
  destruct (clean_up_ok src dst _ Hok7) as (r8 & E8 & Hok8 & Hrv). destruct (rv_sent _ _ _ Hrv) as [l' Hl'].
  rewrite (rm_bind_Ok _ _ _ _ _ E8). exists r8, e, x, l5, l', t6. split; [done|].
  split; [rewrite Hl'; cbn; by rewrite Hs7, <- !app_assoc|]. do 3 (split; [done|]). left. split; [done|by eapply removed_gone].
Qed.

(** What is left of a connection that was not opened. *)
Definition not_opened (r : Redirector) (src dst : SocketAddrV4) (e : IoError) (y : io_result unit) : Prop :=
  y = Err e /\ gone r (src, dst) \/ exists e' t, y = Err e' /\ device_error e' /\ admitted r src dst t.

(** The proxy accepts; the device may fail to send the ACK/SYN. *)
Lemma connect_accepted env r src dst t next wscale sack_perm u :
  admitted r src dst t -> tx_acknowledgement t = next ->
  q_capacity (tx_cache t) = RECV_WINDOW * 2 ^ wscale -> 0 <= wscale <= 8 ->
  socks_connect (env_connect env) = Ok u ->
  exists r' y x l l' t1,
    connect_stream env src dst (rx_fresh src dst next wscale sack_perm) r = Done (r', y)
    /\ fw_sent (rd_tx r') = fw_sent (rd_tx r) ++ l ++ x :: l'
    /\ tx_acknowledgement t1 = next /\ bare_segment dst src t1 true true false false x /\ rd_ok r'
    /\ ((exists w t', y = Ok tt /\ forall f, delivers f next (RECV_WINDOW * 2 ^ wscale) r' src dst [] next w
                   (rx_fresh src dst next wscale sack_perm) t')
        \/ exists e, device_error e /\ not_opened r' src dst e y).
Proof.
  intros Had Hack Hroom Hs Ha. destruct (admitted_turn r src dst t Had) as (r4 & t4 & E4 & [Hok4 Hno4 Hl4 Hb4] & Hv4 & [l4 Hp4]).
  unfold connect_stream, rm_await. cbv zeta. erewrite rm_bind_Ok by (rewrite (rm_bind_Ok _ _ _ _ _ E4); reflexivity).
  destruct (open_total (env_now env) dst src (rd_tx r4) t4 Hl4) as (f5 & t5 & x & y & E5 & Hy & Et5 & Hx & Hc5 & Hl5 & Hv5 & Hp5 & Ho5).
  set (w := mkStreamWorker dst (Some []) false false (Some 0)). set (s := rx_fresh src dst next wscale sack_perm).
  apply view_ack in Hv4 as Ha4. apply view_ack in Hv5 as Ha5.
  assert (Hok5 : rd_ok (rd_with_tx r4 f5)).
  { apply (ok_free r4 f5 (src, dst)); [done|done|eapply mtus_ok_calm; [done|by destruct Hok4]|done]. }
  destruct Hy as [|e He].
  2: { assert (Ec : stream_worker_connect (env_now env) src dst (env_connect env) (rd_tx r4) = Done (f5, Err e)).
       { unfold stream_worker_connect. rewrite Ha. cbn [stream_open forwarder_is_stream]. by rewrite E5. }
       erewrite rm_bind_Ok by (by rewrite Ec). cbv beta iota.
       destruct (refuse_ok (rd_with_tx r4 f5) src dst t5 e) as (r6 & y & x6 & l6 & l6' & t6 & -> & Hs6 & _ & _ & Hok6 & Hend).
       { constructor; [done|done|done|]. cbn. rewrite Hp5. exact Hb4. }
       exists r6, (Err y), x, l4, (l6 ++ x6 :: l6'), t4. split; [done|].
       split; [rewrite Hs6; cbn; by rewrite Et5, Hp4, <- !app_assoc|]. split; [congruence|]. split; [done|]. split; [done|].
       right. exists e. split; [done|]. destruct Hend as [[-> Hg]|[Hd Had6]]; [by left|right; by exists y, t6]. }
  assert (Ec : stream_worker_connect (env_now env) src dst (env_connect env) (rd_tx r4) = Done (f5, Ok w)).
  { unfold stream_worker_connect. rewrite Ha. cbn [stream_open forwarder_is_stream]. by rewrite E5. }
  erewrite rm_bind_Ok by (by rewrite Ec). cbv beta iota. erewrite rm_bind_Ok by reflexivity.
  unfold tx_view_of in Hv4, Hv5. set (r6 := rd_with_states (rd_with_tx r4 f5) (<[(src, dst) := s]> (rd_states r4))).
  assert (Hok6 : rd_ok (rd_with_streams r6 (<[(src, dst) := w]> (rd_streams r6)))).
  { pose proof (live_ready _ _ _ _ Hl4) as [[] _ _ _]. apply ok_put_stream.
    - apply (ok_states _ (src, dst)); [done|done|intros k Hk; cbn; by rewrite lookup_insert_ne].
    - split; [done|]. split; [intros _; by eexists|]. exists s, t5.
      constructor; [cbn; apply lookup_insert_eq|apply rx_fresh_ok; [congruence|done]|done|cbn; congruence|]. cbn. rewrite Hp5. lia. }
  eexists _, (Ok tt), x, l4, [], t4. split; [reflexivity|]. split; [cbn; by rewrite Et5, Hp4, app_assoc|].
  split; [congruence|]. split; [done|]. split; [exact Hok6|]. left. exists w, t5. split; [done|]. intros f.
  constructor; [|done|apply receives_new|done|done|done|congruence].
  constructor; [cbn; apply lookup_insert_eq|cbn; apply lookup_insert_eq|done|exact Hok6].
Qed.

(** The proxy refuses. *)
Lemma connect_refused env r src dst t s e :
  admitted r src dst t -> socks_connect (env_connect env) = Err e ->
  exists r' y x l l' t1,
    connect_stream env src dst s r = Done (r', y)
    /\ fw_sent (rd_tx r') = fw_sent (rd_tx r) ++ l ++ x :: l' /\ bare_segment dst src t1 true false true false x
    /\ tx_acknowledgement t1 = seq_add (tx_acknowledgement t) 1 /\ rd_ok r' /\ not_opened r' src dst e y.
Proof.
  intros Had Ha. destruct (admitted_turn r src dst t Had) as (r4 & t4 & E4 & Had4 & Hv4 & [l4 Hp4]).
  unfold connect_stream, rm_await. cbv zeta. erewrite rm_bind_Ok by (rewrite (rm_bind_Ok _ _ _ _ _ E4); reflexivity).
  assert (Ec : stream_worker_connect (env_now env) src dst (env_connect env) (rd_tx r4) = Done (rd_tx r4, Err e)).
  { unfold stream_worker_connect. by rewrite Ha. }
  erewrite rm_bind_Ok by (by rewrite Ec). cbv beta iota.
  replace (rd_with_tx r4 (rd_tx r4)) with r4 by by destruct r4.
  destruct (refuse_ok r4 src dst t4 e Had4) as (r6 & y & x & l & l' & t6 & -> & Hs6 & Hx & Ha6 & Hok6 & Hend).
  exists r6, (Err y), x, (l4 ++ l), l', t6. split; [done|]. split; [by rewrite Hs6, Hp4, <- !app_assoc|]. split; [done|].
  split; [by rewrite Ha6, (view_ack _ _ Hv4)|]. split; [done|].
  destruct Hend as [[-> Hg]|[Hd Had6]]; [by left|right; by exists y, t6].
Qed.

(** Up to the connection to the proxy. *)
Lemma syn_admitted env tcp r wscale mss sack_perm :
  let src := tcp_source tcp in
  let dst := tcp_target tcp in
  let next := seq_succ (tcp_sequence tcp) in
  rd_ok r -> rd_streams r !! (src, dst) = None ->
  syn_ok env tcp wscale mss sack_perm ->
  exists r' t,
    handle_tcp_syn env tcp r
      = connect_stream env src dst (rx_fresh src dst next (unwrap_or wscale 0) sack_perm) r'
    /\ admitted r' src dst t /\ tx_acknowledgement t = next
    /\ q_capacity (tx_cache t) = RECV_WINDOW * 2 ^ unwrap_or wscale 0 /\ 0 <= unwrap_or wscale 0 <= 8
    /\ fw_sent (rd_tx r) `prefix_of` fw_sent (rd_tx r').
Proof.
  intros src dst next Hok Hno Hsyn.
  destruct (clean_up_ok src dst r Hok) as (r1 & E1 & Hok1 & Hrv).
  destruct (turn_quiet r1 Hok1) as (r2 & E2 & Hok2 & Q2 & _).
  pose proof (quiet_no_stream _ _ _ Q2 (proj1 (removed_gone _ _ _ Hrv))) as Hno2.
  destruct (admit_syn_ok env tcp wscale mss sack_perm (rd_tx r2) (ro_mtus _ _ Hok2) Hsyn)
    as (f3 & t & E3 & Hm3 & Hl3 & Es3 & Hp3 & Ha3 & Hc3 & Ho3). fold src dst in Hl3, Ho3.
  destruct Hsyn as [H1 H2 H3 H4 H5 H6 H7 H8]. unfold MAX_RECV_WSCALE in H5.
  assert (Hs : 0 <= unwrap_or wscale 0 <= 8) by (destruct wscale; [by apply H5|cbn; lia]).
  unfold handle_tcp_syn. fold src dst. cbv zeta. erewrite rm_bind_Ok by reflexivity.
  lookup_in_goal Hno. rewrite (rm_bind_Ok _ _ _ _ _ E1).
  change ENABLE_WSCALE with true. change ENABLE_SACK with true. cbv iota.
  rewrite (rm_bind_Ok _ _ _ _ _ (rm_lift_Done _ _ _ H4)), (rm_bind_Ok _ _ _ _ _ (rm_lift_Done _ _ _ H8)).
  rewrite (rm_bind_Ok _ _ _ _ _ (rm_lift_Done _ _ _ (rx_new_ok src dst (tcp_sequence tcp) _ sack_perm Hs))).
  erewrite rm_bind_Ok by (rewrite (with_tx_turn _ _ _ E2); apply on_tx_Done; exact E3).
  eexists _, t. split; [reflexivity|]. split; [|split; [done|split; [done|split; [done|]]]].
  - constructor; [by apply (ok_free r2 f3 (src, dst))|done|done|]. rewrite Hp3, len_nil. cbn. apply (ro_bytes _ _ Hok2).
  - cbn. rewrite Es3. etrans; [apply (rv_sent _ _ _ Hrv)|]. destruct Q2 as [[n Q] _ _ _ _ _ _]. apply Q.
Qed.

(** ** Acknowledgements *)

(** What counting duplicates leaves of the receive state. *)
Definition rx_core (s : TcpRxState) : Z * Z * bool * Window * option Z :=
  (rx_recv_next s, rx_wscale s, rx_sack_perm s, rx_cache s, rx_fin_sequence s).

Lemma increase_duplicate_core now s x : rx_core (rx_increase_duplicate now s x).1 = rx_core s.
Proof.
  unfold rx_increase_duplicate. destruct (_ =? _); [|done]. cbv zeta. by destruct (_ <=? _).
Qed.

Lemma rx_core_ok s s' : rx_core s' = rx_core s -> rx_ok s -> rx_ok s' /\ rx_wscale s' = rx_wscale s.
Proof. unfold rx_core. intros [= _ E _ E' _] [? ?]. split; [|done]. constructor; congruence. Qed.

(** A connection after steps that decide nothing about what it receives and
    lose nothing; without turns of the tasks the stream is as it was and nothing
    is added either. *)
Record kept (r r' : Redirector) (w w' : StreamWorker) (t t' : TcpTxState) : Prop := {
  kp_stream : sw_view w' = sw_view w;
  kp_view : tx_view_of t' = tx_view_of t;
  kp_pending : tx_pending t `prefix_of` tx_pending t';
  kp_sent : fw_sent (rd_tx r) `prefix_of` fw_sent (rd_tx r');
  kp_idle : rd_turns r = [] -> rd_turns r' = [] /\ w' = w /\ tx_pending t' = tx_pending t
}.

Lemma kept_trans r r1 r2 w w1 w2 t t1 t2 : kept r r1 w w1 t t1 -> kept r1 r2 w1 w2 t1 t2 -> kept r r2 w w2 t t2.
Proof.
  intros [? E1 ? ? I1] [? E2 ? ? I2]. constructor; [congruence|exact (eq_trans E2 E1)|by etrans|by etrans|].
  intros (H1 & -> & Hp1)%I1. destruct (I2 H1) as (? & -> & Hp2). split; [done|]. split; [done|congruence].
Qed.

Lemma turned_kept r r' w w' t t' : turned r r' w w' t t' -> kept r r' w w' t t'.
Proof.
  intros T. constructor; [apply T|apply T|apply T|exact (tn_sent _ _ _ _ _ _ T)|].
  intros H. by destruct (tn_idle _ _ _ _ _ _ T H) as (-> & -> & ->).
Qed.

Lemma kept_later r r' w w' t t' : kept r r' w w' t t' -> later r r' w w' t t'.
Proof. intros [? ?%view_ack ? ? _]. by constructor. Qed.

(** A receive state that is put back. *)
Lemma kept_put_rx r src dst w s t s1 :
  conn r src dst w s t -> rx_core s1 = rx_core s ->
  exists r', rm_put_rx (src, dst) s1 r = Done (r', Ok tt) /\ conn r' src dst w s1 t /\ kept r r' w w t t /\ rd_tx r' = rd_tx r.
Proof.
  intros Hc Hs. destruct (rx_core_ok _ _ Hs (conn_rx_ok _ _ _ _ _ _ Hc)) as [Hx Hw].
  destruct (conn_put_rx r src dst w s t s1 Hc Hx Hw) as [E Hc']. eexists. split; [exact E|]. split; [done|]. split; [|done].
  by constructor.
Qed.

(** A critical section that runs for the connection. *)
Lemma conn_run {A} (m : FM A) (Q : io_result A -> Prop) r src dst w s t :
  (forall f t, live f dst src t -> exists f' t' x, m f = Done (f', x) /\ ran f f' dst src t t' /\ Q x) ->
  conn r src dst w s t ->
  exists r' w' t' x, with_tx m r = Done (r', x) /\ conn r' src dst w' s t' /\ kept r r' w w' t t' /\ Q x.
Proof.
  intros Hm Hc. destruct (conn_with_tx m _ _ _ _ _ _ Hc) as (r1 & w1 & t1 & -> & Hc1 & T).
  destruct (Hm (rd_tx r1) t1 (cn_live _ _ _ _ _ _ Hc1)) as (f' & t' & x & E & R & HQ).
  destruct (conn_ran _ _ _ _ _ _ _ _ _ _ Hc1 E R) as (E' & Hc' & Hv). exists (rd_with_tx r1 f'), w1, t', x.
  split; [done|]. split; [done|]. split; [|done]. eapply kept_trans; [by apply turned_kept|].
  constructor; [done|done|by rewrite (rn_pending _ _ _ _ _ _ R)|apply R|]. intros H. split; [done|]. split; [done|apply R].
Qed.

Lemma fast_retransmit_ok tcp sacks r src dst w s t :
  conn r src dst w s t -> tcp_source tcp = src -> tcp_target tcp = dst ->
  tcp_sack tcp = Done sacks -> sacks_opt_u32 sacks ->
  exists r' w' t' x, fast_retransmit tcp s r = Done (r', x) /\ conn r' src dst w' s t' /\ kept r r' w w' t t'
    /\ (sacks = None -> answered x).
Proof.
  intros Hc Esrc Edst Esk Hsk. unfold fast_retransmit. rewrite Esrc, Edst. cbv zeta.
  assert (Hall : exists r' w' t' x, with_tx (retransmit_tcp_ack dst src) r = Done (r', x) /\ conn r' src dst w' s t'
    /\ kept r r' w w' t t' /\ (sacks = None -> answered x)).
  { apply conn_run; [|done]. intros f u Hl. destruct (retransmit_tcp_ack_total dst src f u Hl) as (f' & u' & x & E & Hx & R).
    by exists f', u', x. }
  destruct (rx_sack_perm s); [|exact Hall].
  unfold mbind at 1, RM_bind at 1. rewrite (rm_bind_Ok _ _ _ _ _ (rm_lift_Done _ _ _ Esk)).
  destruct sacks as [sacks|]; [|exact Hall]. destruct (0 <? len sacks); [|exact Hall].
  destruct (conn_run (retransmit_tcp_ack_without dst src sacks) (fun _ => True) r src dst w s t) as (r' & w' & t' & x & E & Hc' & K & _); [|done|].
  { intros f u Hl. destruct (retransmit_without_total dst src sacks f u Hl Hsk) as (f' & u' & x & E & R). by exists f', u', x. }
  destruct x as [[]|e].
  - rewrite (rm_bind_Ok _ _ _ _ _ E). by exists r', w', t', (Ok tt).
  - rewrite (rm_bind_Err _ _ _ _ _ E). by exists r', w', t', (Err e).
Qed.

(** The size of what is pending. *)
Lemma get_cache_size_ok f dst src t :
  live f dst src t -> len (tx_pending t) <= usize_max -> get_cache_size f dst src = Done (len (tx_pending t)).
Proof.
  intros Hl Hlen. unfold get_cache_size.
  replace (fw_states f !! (src, dst)) with (Some t) by (symmetry; exact (lv_state _ _ _ _ Hl)).
  pose proof (txwf_cache _ (tr_wf _ (live_ready _ _ _ _ Hl))) as Hq.
  assert (El : len (tx_pending t) = q_size (tx_cache t) + len (tx_queue t))
    by (unfold tx_pending; rewrite len_app, len_queue_content; [done|destruct Hq; lia]).
  cbn [unwrap]. rewrite outcome_bind_Done. unfold usize_add, queue_len. rewrite int_add_Done by lia. by rewrite El.
Qed.

(** A segment without data: the connection is removed when the stream was
    closed for writing and nothing is pending, and is left as it is
    otherwise. *)
Lemma ack_only_ok env tcp is_writable sacks r src dst w s t :
  conn r src dst w s t -> tcp_source tcp = src -> tcp_target tcp = dst ->
  tcp_sack tcp = Done sacks -> sacks_opt_u32 sacks ->
  exists r' x, handle_tcp_ack_only env tcp is_writable r = Done (r', x) /\
    ((x = Ok false /\ is_writable = false /\ tx_pending t = [] /\ rd_ok r' /\ gone r' (src, dst))
     \/ exists w' s' t', conn r' src dst w' s' t' /\ rx_core s' = rx_core s /\ kept r r' w w' t t'
          /\ (x = Ok true \/ exists e, x = Err e /\ (sacks = None -> device_error e))
          /\ (is_writable = false -> tx_pending t' <> [])).
Proof.
  intros Hc Esrc Edst Esk Hsk. unfold handle_tcp_ack_only. rewrite Esrc, Edst. cbv zeta.
  set (check := if negb is_writable then _ else _).
  assert (Hck : exists r1 w1 t1, check r = Done (r1, Ok (negb is_writable && (len (tx_pending t1) =? 0)))
    /\ conn r1 src dst w1 s t1 /\ kept r r1 w w1 t t1).
  { unfold check. destruct is_writable; cbn [negb andb].
    - exists r, w, t. split; [done|]. split; [done|]. by constructor.
    - destruct (conn_with_tx (fun f => n ← get_cache_size f dst src; Done (f, Ok (n =? 0))) _ _ _ _ _ _ Hc)
        as (r1 & w1 & t1 & -> & Hc1 & T). exists r1, w1, t1. split; [|split; [done|by apply turned_kept]].
      replace r1 with (rd_with_tx r1 (rd_tx r1)) at 2 by by destruct r1. apply on_tx_Done.
      by rewrite (get_cache_size_ok _ _ _ t1 (cn_live _ _ _ _ _ _ Hc1) (conn_room _ _ _ _ _ _ Hc1)). }
  destruct Hck as (r1 & w1 & t1 & E1 & Hc1 & K1). rewrite (rm_bind_Ok _ _ _ _ _ E1).
  destruct (negb is_writable && (len (tx_pending t1) =? 0)) eqn:El.
  - apply andb_true_iff in El as [Hw H0]. apply negb_true_iff in Hw. apply Z.eqb_eq, len_0 in H0.
    destruct (clean_up_ok src dst r1 (cn_ok _ _ _ _ _ _ Hc1)) as (r2 & E2 & Hok2 & Hrv).
    unfold rd_clean_up in E2. cbv zeta in E2. destruct (remove_stream_ok (src, dst) r1 (cn_ok _ _ _ _ _ _ Hc1)) as [Er _].
    rewrite (rm_bind_Ok _ _ _ _ _ Er) in E2. erewrite rm_bind_Ok in E2 by reflexivity.
    rewrite (rm_bind_Ok _ _ _ _ _ Er). erewrite rm_bind_Ok by reflexivity. rewrite (rm_bind_Ok _ _ _ _ _ E2). exists r2, (Ok false). split; [done|]. left. split; [done|]. split; [done|].
    split; [|split; [done|by eapply removed_gone]].
    pose proof (kp_pending _ _ _ _ _ _ K1) as [k Hk]. rewrite H0 in Hk. by destruct (tx_pending t).
  - assert (Hnz : is_writable = false -> tx_pending t1 <> []).
    { intros -> Hn. rewrite Hn in El. done. }
    rewrite (rm_bind_Ok _ _ _ _ _ (conn_rx_state _ _ _ _ _ _ Hc1)).
    pose proof (increase_duplicate_core (env_now env) s (tcp_acknowledgement tcp)) as Hcore.
    destruct (rx_increase_duplicate (env_now env) s (tcp_acknowledgement tcp)) as [s1 is_retrans]. cbn [fst] in Hcore.
    destruct (kept_put_rx r1 src dst w1 s t1 s1 Hc1 Hcore) as (r2 & E2 & Hc2 & K2 & _). rewrite (rm_bind_Ok _ _ _ _ _ E2).
    assert (K12 := kept_trans _ _ _ _ _ _ _ _ _ K1 K2). destruct (is_retrans && negb (tcp_is_zero_window tcp)).
    + destruct (fast_retransmit_ok tcp sacks r2 src dst w1 s1 t1) as (r3 & w3 & t3 & x & E3 & Hc3 & K3 & Hx3); [done..|].
      assert (K13 := kept_trans _ _ _ _ _ _ _ _ _ K12 K3). unfold mbind at 1, RM_bind at 1.
      assert (Hnz3 : is_writable = false -> tx_pending t3 <> []).
      { intros Hw Hn. pose proof (kp_pending _ _ _ _ _ _ K3) as [k Hk]. rewrite Hn in Hk. apply (Hnz Hw). by destruct (tx_pending t1). }
      destruct x as [[]|e].
      * rewrite (rm_bind_Ok _ _ _ _ _ E3).
        destruct (kept_put_rx r3 src dst w3 s1 t3 (rx_set_last_retrans (env_now env) (rx_clear_duplicate s1)) Hc3 eq_refl)
          as (r4 & E4 & Hc4 & K4 & _). rewrite E4. eexists r4, (Ok true). split; [done|]. right.
        eexists w3, _, t3. split; [exact Hc4|]. split; [done|]. split; [by eapply kept_trans|]. split; [by left|done].
      * rewrite (rm_bind_Err _ _ _ _ _ E3). exists r3, (Err e). split; [done|]. right. exists w3, s1, t3.
        split; [done|]. split; [done|]. split; [done|]. split; [|done]. right. exists e. split; [done|].
        intros Hn. specialize (Hx3 Hn). by inversion Hx3.
    + erewrite rm_bind_Ok by reflexivity. exists r2, (Ok true). split; [done|]. right. exists w1, s1, t1.
      split; [done|]. split; [done|]. split; [done|]. split; [by left|done].
Qed.

(** The segment [x] acknowledges up to [n] and has no data. *)
Definition acknowledges (dst src : SocketAddrV4) (n : Z) (x : Indicator * list byte) : Prop :=
  exists t, bare_segment dst src t true false false false x /\ tx_acknowledgement t = n.

(** The segment belongs to the connection and carries an acknowledgement. *)
Record ack_segment (tcp : Tcp) (src dst : SocketAddrV4) : Prop := {
  as_src : tcp_source tcp = src;
  as_dst : tcp_target tcp = dst;
  as_rst : tcp_is_rst tcp = false;
  as_ack : tcp_is_ack tcp = true;
  as_number : is_u32 (tcp_acknowledgement tcp);
  as_window : is_u16 (tcp_window tcp)
}.

(** The first critical section for every segment of a connection: the segment
    acknowledges what was pending when its turn came. *)
Definition acknowledge_section (now : Instant) (tcp : Tcp) (s : TcpRxState) : FM unit :=
  tx_state_update (tcp_source tcp, tcp_target tcp) (fun t =>
    t ← tx_acknowledge now t (tcp_acknowledgement tcp);
    window ← int_shl 64 (tcp_window tcp) (rx_wscale s);
    mret (tx_set_send_window t window)).

Lemma conn_acknowledge now tcp r src dst w s t :
  conn r src dst w s t -> ack_segment tcp src dst ->
  exists r' w' t1 t', with_tx (acknowledge_section now tcp s) r = Done (r', Ok tt)
    /\ conn r' src dst w' s t' /\ sw_view w' = sw_view w /\ tx_view_of t' = tx_view_of t
    /\ fw_sent (rd_tx r) `prefix_of` fw_sent (rd_tx r')
    /\ tx_pending t `prefix_of` tx_pending t1
    /\ tx_pending t' = zdrop (tx_acked t1 (tcp_acknowledgement tcp)) (tx_pending t1)
    /\ (rd_turns r = [] -> rd_turns r' = [] /\ w' = w /\ t1 = t).
Proof.
  intros Hc [Esrc Edst _ _ Hn Hwin]. unfold acknowledge_section. rewrite Esrc, Edst. set (g := fun t => _ : outcome TcpTxState).
  destruct (conn_with_tx (tx_state_update (src, dst) g) _ _ _ _ _ _ Hc) as (r1 & w1 & t1 & -> & Hc1 & T).
  destruct (tx_ack_ready now t1 (tcp_acknowledgement tcp) (tcp_window tcp) (rx_wscale s)
    (live_ready _ _ _ _ (cn_live _ _ _ _ _ _ Hc1)) Hn Hwin (conn_wscale _ _ _ _ _ _ Hc1) (conn_capacity _ _ _ _ _ _ Hc1))
    as (t' & E & Ht & Hv & Hp).
  destruct (conn_update r1 src dst w1 s t1 g t' Hc1 E Ht) as (f' & E' & Hc' & Hs').
  { by injection Hv. }
  { rewrite Hp, len_zdrop. pose proof (len_nonneg (tx_pending t1)).
    pose proof (tx_acked_bounds t1 (tcp_acknowledgement tcp) (tr_wf _ (live_ready _ _ _ _ (cn_live _ _ _ _ _ _ Hc1))) Hn). lia. }
  exists (rd_with_tx r1 f'), w1, t1, t'. split; [done|]. split; [done|]. split; [apply T|].
  split; [exact (eq_trans Hv (tn_view _ _ _ _ _ _ T))|]. split; [cbn; rewrite Hs'; exact (tn_sent _ _ _ _ _ _ T)|].
  split; [apply T|]. split; [done|]. intros H. by destruct (tn_idle _ _ _ _ _ _ T H) as (-> & -> & ->).
Qed.

(** The end of the handler: what waits is sent. *)
Lemma conn_flush now r src dst w s t :
  conn r src dst w s t ->
  exists r' w' t' y, with_tx (send_tcp_ack now dst src) r = Done (r', y) /\ answered y /\ conn r' src dst w' s t' /\ kept r r' w w' t t'.
Proof.
  intros Hc. destruct (conn_run (send_tcp_ack now dst src) answered r src dst w s t) as (r' & w' & t' & x & E & Hc' & K & Hx).
  { intros f u Hl. destruct (send_tcp_ack_total now dst src f u Hl) as (f' & u' & x & E & Hx & R). by exists f', u', x. }
  { done. }
  by exists r', w', t', x.
Qed.

(** [handle_tcp] on such a segment. *)
Lemma handle_tcp_ack_begin env tcp payload r src dst w s t :
  conn r src dst w s t -> ack_segment tcp src dst ->
  handle_tcp env tcp payload r =
    (_ ← with_tx (acknowledge_section (env_now env) tcp s);
     continue ← (if 0 <? len payload then _ ← handle_tcp_data env tcp payload; mret true
                 else handle_tcp_ack_only env tcp (negb (sw_is_write_closed w)));
     if continue : bool then
       _ ← with_tx (send_tcp_ack (env_now env) dst src);
       state ← rm_rx_state (src, dst);
       if tcp_is_fin tcp || bool_decide (is_Some (rx_fin_sequence state)) then handle_tcp_fin tcp payload
       else mret tt
     else mret tt) r.
Proof.
  intros Hc [Esrc Edst Hr Hk _ _]. unfold handle_tcp. rewrite Hr, Hk. unfold handle_tcp_ack, acknowledge_section.
  rewrite Esrc, Edst. cbv zeta. erewrite rm_bind_Ok by reflexivity. lookup_in_goal (cn_stream _ _ _ _ _ _ Hc).
  by rewrite (rm_bind_Ok _ _ _ _ _ (conn_rx_state _ _ _ _ _ _ Hc)).
Qed.

(** The FIN that is expected next, on a stream that is open both ways, when no
    task takes a turn. *)
Lemma fin_in_order tcp r src dst w s t out :
  conn r src dst w s t -> rd_turns r = [] -> tcp_source tcp = src -> tcp_target tcp = dst -> tcp_is_fin tcp = true ->
  tcp_sequence tcp = rx_recv_next s -> is_u32 (tcp_sequence tcp) ->
  sw_stream_tx w = Some out -> sw_is_write_closed w = false -> sw_is_read_closed w = false ->
  exists r' y, handle_tcp_fin tcp [] r = Done (r', y) /\ answered y /\ (y = Ok tt -> exists w' s' t' x,
    conn r' src dst w' s' t' /\ sw_is_write_closed w' = true /\ sw_stream_tx w' = None /\ sw_is_read_closed w' = false
    /\ rx_recv_next s' = seq_add (rx_recv_next s) 1 /\ rx_fin_sequence s' = None
    /\ tx_acknowledgement t' = seq_add (tx_acknowledgement t) 1 /\ tx_pending t' = tx_pending t
    /\ fw_sent (rd_tx r') = fw_sent (rd_tx r) ++ [x] /\ bare_segment dst src t' true false false false x).
Proof.
  intros Hc Hi Esrc Edst Hf Hq Hu Hout Hwc Hrc. unfold handle_tcp_fin. rewrite Esrc, Edst, Hf. cbv zeta.
  erewrite rm_bind_Ok by reflexivity. lookup_in_goal (cn_stream _ _ _ _ _ _ Hc).
  rewrite (rm_bind_Ok _ _ _ _ _ (conn_rx_state _ _ _ _ _ _ Hc)). change (as_u32 (len [])) with 0.
  rewrite seq_add_0 by done. set (s1 := rx_set_fin_sequence s (tcp_sequence tcp)).
  pose proof (conn_rx_ok _ _ _ _ _ _ Hc) as [Hx1 Hx2].
  destruct (conn_put_rx r src dst w s t s1 Hc) as [E1 Hc1]; [by constructor|done|].
  erewrite rm_bind_Ok by (rewrite (rm_bind_Ok _ _ _ _ _ E1); reflexivity).
  change (rx_fin_sequence s1) with (Some (tcp_sequence tcp)). change (rx_recv_next s1) with (rx_recv_next s).
  cbv iota. rewrite Hq, Z.eqb_refl. set (s2 := rx_add_recv_next (rx_admit_fin s1) 1).
  destruct (conn_put_rx _ src dst w s1 t s2 Hc1) as [E2 Hc2]; [by constructor|done|]. rewrite (rm_bind_Ok _ _ _ _ _ E2).
  set (g := fun s => mret (tx_add_acknowledgement s 1) : outcome TcpTxState).
  destruct (conn_report _ src dst w s2 t g (tx_add_acknowledgement t 1) Hc2)
    as (f3 & x & y & E3 & Hy & Hc3 & Es3 & Hx); [done| |by destruct t|by destruct t|].
  { destruct (live_ready _ _ _ _ (cn_live _ _ _ _ _ _ Hc)) as [[] ? ? ?].
    constructor; [constructor|..]; destruct t; try done. by apply seq_add_u32. }
  rewrite <- with_tx_idle in E3 by done. destruct Hy as [|e He].
  2: { rewrite (rm_bind_Err _ _ _ _ _ E3). eexists _, (Err e). split; [reflexivity|]. by split; [constructor|]. }
  rewrite (rm_bind_Ok _ _ _ _ _ E3), Hrc. cbn [negb]. cbv iota.
  rewrite (rm_bind_Ok _ _ _ _ _ (rm_stream_Done _ _ _ (cn_stream _ _ _ _ _ _ Hc3))).
  set (w1 := sw_with_stream_tx (sw_with_closed w true (sw_is_read_closed w)) None).
  erewrite rm_bind_Ok by (apply rm_lift_Done; unfold stream_worker_shutdown; rewrite Hwc; cbn [negb]; by rewrite Hout).
  destruct (conn_put_stream _ src dst w s2 (tx_add_acknowledgement t 1) w1 Hc3) as [E4 Hc4]; [done|done|].
  eexists _, (Ok tt). split; [exact E4|]. split; [constructor|]. intros _. exists w1, s2, (tx_add_acknowledgement t 1), x.
  split; [done|]. split; [done|]. split; [done|]. split; [done|]. split; [done|]. split; [done|].
  split; [by destruct t|]. split; [by destruct t|]. split; [exact Es3|done].
Qed.

(** ** Theorems *)

(** The connection has received the bytes [out] of the stream [f], the proxy
    has them, and [next] is expected. *)
Definition delivering (f : Z -> byte) (isn capacity : Z) (r : Redirector) (src dst : SocketAddrV4)
    (out : list byte) (next : Z) : Prop :=
  exists w s t, delivers f isn capacity r src dst out next w s t.

(** Data from the source reaches the proxy.  On an open connection a segment with
    any part of the stream inside the window, in or out of order, overlapping or
    repeated, is handled without a panic, whatever the tasks of the workers do
    and whatever the device answers; only an error of the device is returned. *)
Lemma segment_delivered (f : Z -> byte) (isn capacity : Z) (env : Env) (tcp : Tcp) (payload : list byte)
    (r : Redirector) (src dst : SocketAddrV4) (out : list byte) (next : Z) :
  is_u32 isn -> delivering f isn capacity r src dst out next -> ack_segment tcp src dst ->
  tcp_is_fin tcp = false -> carries f capacity out next (tcp_sequence tcp) payload ->
  env_write env = WriteAll ->
  exists r' more l x l' y,
    handle_tcp env tcp payload r = Done (r', y) /\ answered y
    /\ delivering f isn capacity r' src dst (out ++ more) (seq_add next (len more))
    /\ out ++ more = tabulate (len (out ++ more)) f
    /\ (tcp_sequence tcp = next -> len payload <= len more)
    /\ fw_sent (rd_tx r') = fw_sent (rd_tx r) ++ l ++ x :: l'
    /\ acknowledges dst src (seq_add next (len more)) x.
Proof.
  intros Hisn (w & s & t & Hd) Ha Hfin Hca Hw. pose proof (dl_conn _ _ _ _ _ _ _ _ _ _ _ Hd) as Hc.
  rewrite (handle_tcp_ack_begin env tcp payload r src dst w s t Hc Ha).
  destruct (conn_acknowledge (env_now env) tcp r src dst w s t Hc Ha) as (r1 & w1 & t0 & t1 & E1 & Hc1 & Hv1 & Ht1 & [l1 Hs1] & _).
  rewrite (rm_bind_Ok _ _ _ _ _ E1). apply view_ack in Ht1. injection Hv1 as _ Hv1.
  destruct (data_delivered f isn capacity env tcp payload r1 src dst out next w1 s t1)
    as (r2 & w2 & s2 & t2 & more & l & x & y & E2 & Hy & Hd2 & Hs2 & Hx & Hb); [done| |by destruct Ha..|done|done|].
  { destruct Hd. constructor; [done|congruence|done|done|done|done|congruence]. }
  replace (0 <? len payload) with true.
  2: { symmetry. apply Z.ltb_lt. destruct Hca as [(? & _ & ? & _)|(? & _ & ? & _ & ? & _)]; lia. }
  assert (Hcap' : 0 <= capacity <= MAX_U32_WINDOW_SIZE).
  { rewrite (dl_capacity _ _ _ _ _ _ _ _ _ _ _ Hd2). apply capacity_bounds, (conn_wscale _ _ _ _ _ _ (dl_conn _ _ _ _ _ _ _ _ _ _ _ Hd2)). }
  assert (Hout : out ++ more = tabulate (len (out ++ more)) f).
  { by destruct (receives_inv_holds f capacity isn Hcap' Hisn _ _ (dl_receives _ _ _ _ _ _ _ _ _ _ _ Hd2)) as (_ & _ & ? & _). }
  assert (Hack : acknowledges dst src (seq_add next (len more)) x) by (exists t2; split; [done|apply Hd2]).
  destruct Hy as [|e He].
  2: { erewrite rm_bind_Err by (by rewrite (rm_bind_Err _ _ _ _ _ E2)). exists r2, more, (l1 ++ l), x, [], (Err e).
       split; [done|]. split; [by constructor|]. split; [by exists w2, s2, t2|].
       split; [done|]. split; [done|]. split; [by rewrite Hs2, Hs1, <- !app_assoc|done]. }
  erewrite rm_bind_Ok by (rewrite (rm_bind_Ok _ _ _ _ _ E2); reflexivity). cbv iota.
  destruct (conn_flush (env_now env) r2 src dst w2 s2 t2 (dl_conn _ _ _ _ _ _ _ _ _ _ _ Hd2)) as (r3 & w3 & t3 & y & E3 & Hy & Hc3 & K3).
  pose proof (delivers_later _ _ _ _ _ _ _ _ _ _ _ _ _ _ Hd2 Hc3 (kept_later _ _ _ _ _ _ K3)) as Hd3.
  destruct (kp_sent _ _ _ _ _ _ K3) as [l3 Hs3]. exists r3, more, (l1 ++ l), x, l3, y. split; [|split; [done|]].
  { rewrite (rm_bind_result _ _ _ _ _ E3). destruct Hy as [|e He]; [|done].
    by rewrite (rm_bind_Ok _ _ _ _ _ (conn_rx_state _ _ _ _ _ _ Hc3)), Hfin, (dl_fin _ _ _ _ _ _ _ _ _ _ _ Hd3). }
  split; [by exists w3, s2, t3|]. split; [done|]. split; [done|]. split; [by rewrite Hs3, Hs2, Hs1, <- !app_assoc|done].
Qed.

(** C7. A SYN with readable options, a window scale of at most 8 and an MSS of at
    least 1: when the proxy accepts, an ACK/SYN was handed to the device that
    acknowledges it, and there is a connection that has received nothing of
    whatever stream the source will send, unless the device failed to send; when
    the proxy refuses, an ACK/RST was handed to the device, with the number that
    the code counts two after that of the SYN, the error is returned and no trace
    of the connection is left.  An error of the device in place of the proxy's
    leaves either no trace either or, when it was the RST that was not sent, the
    state at the forwarder.  The invariant is kept in all cases, whatever the
    tasks of the workers do. *)
Theorem tcp_syn_opens (env : Env) (tcp : Tcp) (payload : list byte) (r : Redirector)
    (wscale mss : option Z) (sack_perm : bool) :
  let src := tcp_source tcp in
  let dst := tcp_target tcp in
  let next := seq_succ (tcp_sequence tcp) in
  rd_ok r -> rd_streams r !! (src, dst) = None ->
  syn_ok env tcp wscale mss sack_perm ->
  tcp_is_rst tcp = false -> tcp_is_ack tcp = false -> tcp_is_syn tcp = true ->
  exists r' y l x l' t,
    handle_tcp env tcp payload r = Done (r', y)
    /\ rd_ok r' /\ fw_sent (rd_tx r') = fw_sent (rd_tx r) ++ l ++ x :: l'
    /\ match socks_connect (env_connect env) with
       | Ok _ =>
           bare_segment dst src t true true false false x /\ tx_acknowledgement t = next
           /\ (y = Ok tt /\ (forall f, delivering f next (RECV_WINDOW * 2 ^ unwrap_or wscale 0) r' src dst [] next)
               \/ exists e, device_error e /\ not_opened r' src dst e y)
       | Err e =>
           bare_segment dst src t true false true false x /\ tx_acknowledgement t = seq_add next 1
           /\ not_opened r' src dst e y
       end.
Proof.
  intros src dst next Hok Hno Hsyn Hr Hk Hs.
  destruct (syn_admitted env tcp r wscale mss sack_perm Hok Hno Hsyn) as (r1 & t1 & E1 & Had & Ha1 & Hr1 & Hw1 & [l1 Hs1]).
  unfold handle_tcp. rewrite Hr, Hk, Hs, E1. destruct (socks_connect (env_connect env)) as [u|e] eqn:Ea.
  - destruct (connect_accepted env r1 src dst t1 next (unwrap_or wscale 0) sack_perm u Had Ha1 Hr1 Hw1 Ea)
      as (r2 & y & x & l & l' & t2 & E2 & Hs2 & Ha2 & Hx & Hok2 & Hend).
    exists r2, y, (l1 ++ l), x, l', t2. split; [done|]. split; [done|]. split; [by rewrite Hs2, Hs1, <- !app_assoc|].
    split; [done|]. split; [done|]. destruct Hend as [(w & t3 & -> & Hd)|Hend]; [left|by right]. split; [done|]. intros f. by eexists _, _, _.
  - destruct (connect_refused env r1 src dst t1 (rx_fresh src dst next (unwrap_or wscale 0) sack_perm) e Had Ea)
      as (r2 & y & x & l & l' & t2 & E2 & Hs2 & Hx & Ha2 & Hok2 & Hend).
    exists r2, y, (l1 ++ l), x, l', t2. split; [done|]. split; [done|]. split; [by rewrite Hs2, Hs1, <- !app_assoc|].
    split; [done|]. split; [by rewrite Ha2, Ha1|done].
Qed.

(** A segment without data, whatever the tasks and the device do. *)
Lemma ack_dropped (env : Env) (tcp : Tcp) (sacks : option (list (Z * Z))) (r : Redirector)
    (src dst : SocketAddrV4) (w : StreamWorker) (s : TcpRxState) (t : TcpTxState) :
  conn r src dst w s t -> ack_segment tcp src dst -> tcp_is_fin tcp = false -> rx_fin_sequence s = None ->
  tcp_sack tcp = Done sacks -> sacks_opt_u32 sacks ->
  exists r' x t1,
    handle_tcp env tcp [] r = Done (r', x) /\ rd_ok r' /\ (sacks = None -> answered x)
    /\ tx_pending t `prefix_of` tx_pending t1 /\ (rd_turns r = [] -> t1 = t)
    /\ let rest := zdrop (tx_acked t1 (tcp_acknowledgement tcp)) (tx_pending t1) in
       (sw_is_write_closed w = true /\ rest = [] /\ gone r' (src, dst))
       \/ exists w' s' t', conn r' src dst w' s' t' /\ rx_core s' = rx_core s /\ tx_view_of t' = tx_view_of t
            /\ sw_view w' = sw_view w
            /\ rest `prefix_of` tx_pending t' /\ (rd_turns r = [] -> w' = w /\ tx_pending t' = rest)
            /\ (sw_is_write_closed w = true -> tx_pending t' <> []).
Proof.
  intros Hc Ha Hfin Hfn Esk Hsk. pose proof Ha as [Esrc Edst _ _ _ _].
  rewrite (handle_tcp_ack_begin env tcp [] r src dst w s t Hc Ha).
  destruct (conn_acknowledge (env_now env) tcp r src dst w s t Hc Ha) as (r1 & w1 & t1 & t2 & E1 & Hc1 & Hv1 & Ht1 & _ & Hpre & Hp1 & Hi1).
  rewrite (rm_bind_Ok _ _ _ _ _ E1). change (0 <? len []) with false. cbv iota.
  destruct (ack_only_ok env tcp (negb (sw_is_write_closed w)) sacks r1 src dst w1 s t2 Hc1 Esrc Edst Esk Hsk)
    as (r2 & x & E2 & [(-> & Hcl & Hn & Hok2 & Hg)|(w2 & s2 & t3 & Hc2 & Hcore & K2 & Hx & Hnz)]).
  - rewrite (rm_bind_Ok _ _ _ _ _ E2). exists r2, (Ok tt), t1. split; [done|]. split; [done|]. split; [done|]. split; [done|].
    split; [by intros (_ & _ & ->)%Hi1|]. cbv zeta. rewrite <- Hp1. left. split; [by apply negb_false_iff|done].
  - assert (Hi2 : rd_turns r = [] -> rd_turns r2 = [] /\ w2 = w /\ tx_pending t3 = tx_pending t2).
    { intros (H1 & -> & _)%Hi1. exact (kp_idle _ _ _ _ _ _ K2 H1). }
    assert (Hnz' : sw_is_write_closed w = true -> tx_pending t3 <> []).
    { intros H. apply Hnz. by rewrite H. }
    assert (Hv3 : tx_view_of t3 = tx_view_of t) by exact (eq_trans (kp_view _ _ _ _ _ _ K2) Ht1).
    assert (Hs2 : sw_view w2 = sw_view w) by exact (eq_trans (kp_stream _ _ _ _ _ _ K2) Hv1).
    destruct Hx as [->|(e & -> & Hx')].
    + rewrite (rm_bind_Ok _ _ _ _ _ E2).
      destruct (conn_flush (env_now env) r2 src dst w2 s2 t3 Hc2) as (r3 & w3 & t4 & y & E3 & Hy & Hc3 & K3).
      exists r3, y, t1. split.
      { rewrite (rm_bind_result _ _ _ _ _ E3). destruct Hy as [|e He]; [|done].
        rewrite (rm_bind_Ok _ _ _ _ _ (conn_rx_state _ _ _ _ _ _ Hc3)), Hfin.
        replace (rx_fin_sequence s2) with (rx_fin_sequence s) by (by injection Hcore). by rewrite Hfn. } split; [by destruct Hc3|]. split; [done|]. split; [done|].
      split; [by intros (_ & _ & ->)%Hi1|]. cbv zeta. rewrite <- Hp1. right.
      exists w3, s2, t4. split; [done|]. split; [done|]. split; [exact (eq_trans (kp_view _ _ _ _ _ _ K3) Hv3)|].
      split; [exact (eq_trans (kp_stream _ _ _ _ _ _ K3) Hs2)|].
      split; [etrans; [apply K2|apply K3]|]. split.
      * intros (H2 & -> & Hp)%Hi2. destruct (kp_idle _ _ _ _ _ _ K3 H2) as (_ & -> & Hp'). split; [done|congruence].
      * intros H Hn. apply (Hnz' H). pose proof (kp_pending _ _ _ _ _ _ K3) as [k Hk]. rewrite Hn in Hk. by destruct (tx_pending t3).
    + rewrite (rm_bind_Err _ _ _ _ _ E2). exists r2, (Err e), t1. split; [done|]. split; [by destruct Hc2|].
      split; [intros H; constructor; by apply Hx'|]. split; [done|]. split; [by intros (_ & _ & ->)%Hi1|]. cbv zeta. rewrite <- Hp1. right.
      exists w2, s2, t3. split; [done|]. split; [done|]. split; [done|]. split; [done|]. split; [apply K2|]. split; [by intros (_ & -> & ->)%Hi2|done].
Qed.

(** C8. An acknowledgement without data drops exactly the bytes it covers from
    what is pending for the source when the handler gets the mutex, whatever is
    sent again because of duplicates or SACKs and whatever the tasks of the
    workers add, and leaves what the proxy was handed as it was; only when the
    stream to the proxy was closed for writing and nothing is pending any more,
    the connection is removed. *)
Theorem tcp_ack_drops_acknowledged (env : Env) (tcp : Tcp) (sacks : option (list (Z * Z))) (r : Redirector)
    (src dst : SocketAddrV4) (w : StreamWorker) (s : TcpRxState) (t : TcpTxState) :
  conn r src dst w s t -> ack_segment tcp src dst -> tcp_is_fin tcp = false -> rx_fin_sequence s = None ->
  tcp_sack tcp = Done sacks -> sacks_opt_u32 sacks ->
  exists r' x t1,
    handle_tcp env tcp [] r = Done (r', x) /\ rd_ok r' /\ (sacks = None -> answered x)
    /\ tx_pending t `prefix_of` tx_pending t1 /\ (rd_turns r = [] -> t1 = t)
    /\ let rest := zdrop (tx_acked t1 (tcp_acknowledgement tcp)) (tx_pending t1) in
       (sw_is_write_closed w = true /\ rest = [] /\ gone r' (src, dst))
       \/ exists w' s' t', conn r' src dst w' s' t' /\ rx_core s' = rx_core s /\ tx_view_of t' = tx_view_of t
            /\ sw_view w' = sw_view w
            /\ rest `prefix_of` tx_pending t' /\ (rd_turns r = [] -> w' = w /\ tx_pending t' = rest)
            /\ (sw_is_write_closed w = true -> tx_pending t' <> []).
Proof. exact (ack_dropped env tcp sacks r src dst w s t). Qed.

(** C18. Whatever turns the schedule has for the tasks of the workers, before a
    critical section of a handler or while one waits, with any data, ends and
    errors of the streams and any well-formed IPv4 datagrams and errors of the
    proxy, and whatever the device answers: none of them panics, the
    invariant of the redirector is kept, no pending byte is lost, and neither
    what the proxy was handed nor the receive states, the bindings, nor what the
    connections acknowledge, report and can hold is changed. *)
Theorem workers_keep_invariant (r : Redirector) :
  rd_ok r -> exists r', rm_turn r = Done (r', Ok tt) /\ rd_ok r' /\ quiet r r' /\ rd_turns r' = tail (rd_turns r).
Proof. exact (turn_quiet r). Qed.

(** C9. The end of the source's stream: a FIN with the number that is expected
    next, on a stream that is open both ways, is acknowledged, and the stream
    to the proxy is closed for writing and stays open for reading; nothing that
    is pending for the source is lost beyond what the segment acknowledges.  No
    task takes a turn meanwhile; the handler fails only with an error of the
    device, and nothing is said of what it then left undone. *)
Theorem tcp_fin_half_closes (f : Z -> byte) (isn capacity : Z) (env : Env) (tcp : Tcp) (r : Redirector)
    (src dst : SocketAddrV4) (out : list byte) (next : Z) (w : StreamWorker) (s : TcpRxState) (t : TcpTxState) :
  delivers f isn capacity r src dst out next w s t -> rd_turns r = [] ->
  ack_segment tcp src dst -> tcp_is_fin tcp = true ->
  tcp_sequence tcp = next -> tcp_sack tcp = Done None ->
  sw_is_write_closed w = false -> sw_is_read_closed w = false ->
  exists r' y, handle_tcp env tcp [] r = Done (r', y) /\ answered y /\ (y = Ok tt -> exists w' s' t' l x,
    conn r' src dst w' s' t' /\ sw_is_write_closed w' = true /\ sw_stream_tx w' = None /\ sw_is_read_closed w' = false
    /\ rx_recv_next s' = seq_add next 1 /\ rx_fin_sequence s' = None
    /\ tx_pending t' = zdrop (tx_acked t (tcp_acknowledgement tcp)) (tx_pending t)
    /\ fw_sent (rd_tx r') = fw_sent (rd_tx r) ++ l ++ [x] /\ acknowledges dst src (seq_add next 1) x).
Proof.
  intros [Hc Hout _ Hcap [Hn _] Hfn Hack] Hi Ha Hfin Hq Esk Hwc Hrc. pose proof Ha as [Esrc Edst _ _ _ _].
  rewrite (handle_tcp_ack_begin env tcp [] r src dst w s t Hc Ha).
  destruct (conn_acknowledge (env_now env) tcp r src dst w s t Hc Ha) as (r1 & w1 & t0 & t1 & E1 & Hc1 & _ & Hv1 & [l1 Hs1] & _ & Hp1 & Hi1).
  destruct (Hi1 Hi) as (Hi2 & -> & ->). rewrite (rm_bind_Ok _ _ _ _ _ E1). change (0 <? len []) with false. cbv iota. rewrite Hwc.
  destruct (ack_only_ok env tcp (negb false) None r1 src dst w s t1 Hc1 Esrc Edst Esk I)
    as (r2 & x & E2 & [(_ & ? & _)|(w2 & s2 & t2 & Hc2 & Hcore & K2 & Hx & _)]); [done|].
  destruct (kp_idle _ _ _ _ _ _ K2 Hi2) as (Hi3 & -> & Hp2). destruct Hx as [->|(e & -> & He)].
  2: { rewrite (rm_bind_Err _ _ _ _ _ E2). exists r2, (Err e). split; [done|]. split; [constructor; by apply He|done]. }
  rewrite (rm_bind_Ok _ _ _ _ _ E2). cbv iota.
  destruct (conn_flush (env_now env) r2 src dst w s2 t2 Hc2) as (r3 & w3 & t3 & y & E3 & Hy & Hc3 & K3).
  destruct (kp_idle _ _ _ _ _ _ K3 Hi3) as (Hi4 & -> & Hp3). destruct Hy as [|e He].
  2: { rewrite (rm_bind_Err _ _ _ _ _ E3). exists r3, (Err e). split; [done|]. by split; [constructor|]. }
  rewrite (rm_bind_Ok _ _ _ _ _ E3), (rm_bind_Ok _ _ _ _ _ (conn_rx_state _ _ _ _ _ _ Hc3)), Hfin. cbn [orb].
  assert (Hn2 : rx_recv_next s2 = next) by (injection Hcore; congruence).
  assert (Ha3 : tx_acknowledgement t3 = next).
  { apply view_ack in Hv1. pose proof (view_ack _ _ (kp_view _ _ _ _ _ _ K2)). pose proof (view_ack _ _ (kp_view _ _ _ _ _ _ K3)). congruence. }
  destruct (fin_in_order tcp r3 src dst w s2 t3 out)
    as (r4 & z & E4 & Hz & Hend); try done; [congruence| |].
  { rewrite Hq, <- Hack. apply (live_ready _ _ _ _ (cn_live _ _ _ _ _ _ Hc)). }
  exists r4, z. split; [done|]. split; [done|]. intros (w4 & s4 & t4 & x & Hc4 & H1 & H2 & H3 & H4 & H5 & H6 & H7 & H8 & Hx)%Hend.
  destruct (kp_sent _ _ _ _ _ _ K2) as [l2 Hs2]. destruct (kp_sent _ _ _ _ _ _ K3) as [l3 Hs3].
  exists w4, s4, t4, (l1 ++ l2 ++ l3), x. split; [done|]. split; [done|]. split; [done|]. split; [done|].
  split; [congruence|]. split; [done|]. split; [congruence|].
  split; [by rewrite H8, Hs3, Hs2, Hs1, <- !app_assoc|]. exists t4. split; [done|congruence].
Qed.

(** C10. A RST removes the stream, the receive state and the send state of its
    connection; every other connection is as it was up to what the tasks of the
    workers do, and the handler sends nothing. *)
Theorem tcp_rst_removes (env : Env) (tcp : Tcp) (payload : list byte) (r : Redirector) :
  let key := (tcp_source tcp, tcp_target tcp) in
  rd_ok r -> tcp_is_rst tcp = true ->
  exists r', handle_tcp env tcp payload r = Done (r', Ok tt) /\ rd_ok r' /\ removed r r' key.
Proof.
  intros key Hok Hr. unfold handle_tcp. rewrite Hr. exact (clean_up_ok (tcp_source tcp) (tcp_target tcp) r Hok).
Qed.
End session.

(** ** Examples *)

(** A redirector with one open connection that has received nothing: the source
    1:1 sent a SYN with the number 100 to 2:2. *)
Definition tx_open : TcpTxState :=
  mkTx (1, 1) (2, 2) 65535 None true 10 101 65535 None (mkQueue [] 65535 10 0 0 [] None) None None true
    [] false 1000 None None.

Definition key_example : conn_key := ((1, 1), (2, 2)).

Definition sw_example : StreamWorker := mkStreamWorker (2, 2) (Some []) false false (Some 0).
Definition rx_example : TcpRxState := rx_fresh (1, 1) (2, 2) 101 0 true.

Definition rd_of (t : TcpTxState) (turns : list (list worker_event)) : Redirector (P := wire) (N := prefix_network) (C := list_lru) :=
  rd_with_turns (rd_with_streams
    (rd_with_states (rd_with_tx rd_idle (set_state (rd_tx rd_idle) (2, 2) (1, 1) t)) {[key_example := rx_example]})
    {[key_example := sw_example]}) turns.

(** It is handed a schedule, or none. *)
Definition rd_open : Redirector (P := wire) (N := prefix_network) (C := list_lru) := rd_of tx_open turns_example.
Definition rd_alone : Redirector (P := wire) (N := prefix_network) (C := list_lru) := rd_of tx_open [].

(** A header of the source for the connection. *)
Definition from_source (tcp : Tcp) : Tcp := mkTcp (tcp_layer tcp) 1 2.

Lemma tx_open_ready : tx_ready tx_open.
Proof.
  constructor; [|vm_compute; split; discriminate|done|done].
  constructor; [constructor|..]; try done; try (split; [done|by right]); vm_compute; split; discriminate.
Qed.

Lemma rd_of_conn t turns :
  tx_ready t -> q_capacity (tx_cache t) = RECV_WINDOW * 2 ^ 0 -> Forall (Forall event_ok) turns ->
  len (tx_pending t) + turns_bytes turns <= u32_max -> conn (rd_of t turns) (1, 1) (2, 2) sw_example rx_example t.
Proof.
  intros Ht Hcap Hev Hb. assert (Hl : live (rd_tx (rd_of t turns)) (2, 2) (1, 1) t).
  { exact (proj1 (live_new (rd_tx rd_idle) (2, 2) (1, 1) t Ht (ro_mtus _ _ rd_idle_ok))). }
  pose proof (len_nonneg (tx_pending t)). constructor; [done|done|done|].
  constructor; [apply rd_idle_ok| |apply rd_idle_ok|done|cbn; ilia].
  intros k w. cbn. intros [<- <-]%lookup_singleton_Some. split; [done|]. split; [intros _; by eexists|].
  exists rx_example, t. constructor; [done| |done|done|ilia]. apply rx_fresh_ok; [vm_compute; split; discriminate|lia].
Qed.

Lemma rd_open_conn : conn rd_open (1, 1) (2, 2) sw_example rx_example tx_open.
Proof. apply rd_of_conn; [apply tx_open_ready|done|apply turns_example_ok|vm_compute; discriminate]. Qed.

Lemma rd_alone_conn : conn rd_alone (1, 1) (2, 2) sw_example rx_example tx_open.
Proof. apply rd_of_conn; [apply tx_open_ready|done|apply List.Forall_nil|vm_compute; discriminate]. Qed.

Lemma rd_open_delivers (f : Z -> byte) :
  delivers f 101 (RECV_WINDOW * 2 ^ 0) rd_open (1, 1) (2, 2) [] 101 sw_example rx_example tx_open.
Proof. constructor; [apply rd_open_conn|done|apply receives_new|done|done|done|done]. Qed.

Lemma rd_alone_delivers (f : Z -> byte) :
  delivers f 101 (RECV_WINDOW * 2 ^ 0) rd_alone (1, 1) (2, 2) [] 101 sw_example rx_example tx_open.
Proof. constructor; [apply rd_alone_conn|done|apply receives_new|done|done|done|done]. Qed.

Lemma workers_keep_invariant_witness :
  exists r', rm_turn (D := black_hole) rd_open = Done (r', Ok tt)
    /\ rd_ok r' /\ quiet rd_open r' /\ rd_turns r' = tail (rd_turns rd_open).
Proof.
  exact (workers_keep_invariant (D := black_hole) rd_open (cn_ok _ _ _ _ _ _ rd_open_conn)).
Defined.

Lemma ack_segment_example tcp :
  tcp_src tcp = 1 -> tcp_dst tcp = 2 -> tcp_is_rst tcp = false -> tcp_is_ack tcp = true ->
  is_u32 (tcp_acknowledgement tcp) -> is_u16 (tcp_window tcp) -> ack_segment (from_source tcp) (1, 1) (2, 2).
Proof. intros Hs Hd ? ? ? ?. constructor; try done; unfold tcp_source, tcp_target; cbn; by f_equal. Qed.

(** A SYN with the options of a usual source. *)
Definition syn_example : Tcp :=
  from_source (tcp_with_flags (tcp_new_ack_syn 1 2 100 0 64240 (Some 1460) (Some 7) true None) flag_syn).

Lemma syn_example_ok : syn_ok (P := wire) (env_example (Ok tt)) syn_example (Some 7) (Some 1460) true.
Proof.
  constructor.
  1-3: vm_compute; split; discriminate.
  - vm_compute. reflexivity.
  - intros w [= <-]. vm_compute. split; discriminate.
  - vm_compute. reflexivity.
  - intros m [= <-]. lia.
  - vm_compute. reflexivity.
Qed.

Lemma tcp_syn_opens_witness :
  let src := tcp_source syn_example in
  let dst := tcp_target syn_example in
  let next := seq_succ (tcp_sequence syn_example) in
  exists r' y l x l' t,
    handle_tcp (D := black_hole) (env_example (Ok tt)) syn_example [] rd_idle = Done (r', y)
    /\ rd_ok r' /\ fw_sent (rd_tx r') = fw_sent (rd_tx rd_idle) ++ l ++ x :: l'
    /\ bare_segment dst src t true true false false x /\ tx_acknowledgement t = next
    /\ (y = Ok tt /\ (forall f, delivering f next (RECV_WINDOW * 2 ^ unwrap_or (Some 7) 0) r' src dst [] next)
        \/ exists e, device_error (D := black_hole) e /\ not_opened (D := black_hole) r' src dst e y).
Proof.
  refine (tcp_syn_opens (D := black_hole) (env_example (Ok tt)) syn_example [] rd_idle
    (Some 7) (Some 1460) true rd_idle_ok _ syn_example_ok _ _ _); vm_compute; reflexivity.
Defined.

Definition ack_example : Tcp := from_source (tcp_new_ack 1 2 101 11 1000 None None).
Definition fin_example : Tcp := from_source (tcp_new_ack_fin 1 2 101 11 1000 None).
Definition rst_example : Tcp := from_source (tcp_new_rst 1 2 101 0 0 None).

Lemma ack_example_segment : ack_segment ack_example (1, 1) (2, 2).
Proof. apply ack_segment_example; vm_compute; split || reflexivity; discriminate. Qed.

Lemma fin_example_segment : ack_segment fin_example (1, 1) (2, 2).
Proof. apply ack_segment_example; vm_compute; split || reflexivity; discriminate. Qed.

Lemma tcp_ack_drops_acknowledged_witness :
  exists r' x t1,
    handle_tcp (D := black_hole) (env_example (Ok tt)) ack_example [] rd_open = Done (r', x) /\ rd_ok r'
    /\ (@None (list (Z * Z)) = None -> answered (D := black_hole) x)
    /\ tx_pending tx_open `prefix_of` tx_pending t1 /\ (rd_turns rd_open = [] -> t1 = tx_open)
    /\ let rest := zdrop (tx_acked t1 (tcp_acknowledgement ack_example)) (tx_pending t1) in
       (sw_is_write_closed sw_example = true /\ rest = [] /\ gone r' ((1, 1), (2, 2)))
       \/ exists w' s' t', conn r' (1, 1) (2, 2) w' s' t' /\ rx_core s' = rx_core rx_example /\ tx_view_of t' = tx_view_of tx_open
            /\ sw_view w' = sw_view sw_example
            /\ rest `prefix_of` tx_pending t' /\ (rd_turns rd_open = [] -> w' = sw_example /\ tx_pending t' = rest)
            /\ (sw_is_write_closed sw_example = true -> tx_pending t' <> []).
Proof.
  refine (tcp_ack_drops_acknowledged (D := black_hole) (env_example (Ok tt))
    ack_example None rd_open (1, 1) (2, 2) sw_example rx_example tx_open rd_open_conn ack_example_segment _ _ _ I);
    vm_compute; reflexivity.
Defined.

Lemma tcp_fin_half_closes_witness :
  exists r' y, handle_tcp (D := black_hole) (env_example (Ok tt)) fin_example [] rd_alone = Done (r', y)
    /\ answered (D := black_hole) y /\ (y = Ok tt -> exists w' s' t' l x,
    conn r' (1, 1) (2, 2) w' s' t' /\ sw_is_write_closed w' = true /\ sw_stream_tx w' = None /\ sw_is_read_closed w' = false
    /\ rx_recv_next s' = seq_add 101 1 /\ rx_fin_sequence s' = None
    /\ tx_pending t' = zdrop (tx_acked tx_open (tcp_acknowledgement fin_example)) (tx_pending tx_open)
    /\ fw_sent (rd_tx r') = fw_sent (rd_tx rd_alone) ++ l ++ [x] /\ acknowledges (2, 2) (1, 1) (seq_add 101 1) x).
Proof.
  refine (tcp_fin_half_closes (D := black_hole) (fun i => i) 101 (RECV_WINDOW * 2 ^ 0)
    (env_example (Ok tt)) fin_example rd_alone (1, 1) (2, 2) [] 101 sw_example rx_example tx_open
    (rd_alone_delivers (fun i => i)) eq_refl fin_example_segment _ _ _ _ _);
    vm_compute; reflexivity || discriminate.
Defined.

Lemma tcp_rst_removes_witness :
  let key := (tcp_source rst_example, tcp_target rst_example) in
  exists r', handle_tcp (D := black_hole) (env_example (Ok tt)) rst_example [] rd_open = Done (r', Ok tt) /\ rd_ok r'
    /\ removed rd_open r' key.
Proof.
  refine (tcp_rst_removes (D := black_hole) (env_example (Ok tt)) rst_example [] rd_open
    (cn_ok _ _ _ _ _ _ rd_open_conn) _).
  vm_compute. reflexivity.
Defined.
