(* ===== verification/Progress.v ===== *)
(** * Progress of a stream to the source

    A source that acknowledges what it was sent and keeps its window open gets
    every byte that waits for it: each acknowledgement that the redirector
    handles sends more, and after finitely many of them nothing is pending. *)

From S2P Require Import Prelude SeqArith Ring Queue Window TxState RxState Socks Pnet Wire Layers Packet Frames Forwarder Flow Crates Redirector Workers Conn Session.

(** ** Acknowledging everything in flight *)

Lemma tx_acked_all s :
  tx_wf s -> q_capacity (tx_cache s) <= MAX_U32_WINDOW_SIZE -> is_u32 (queue_recv_next (tx_cache s)) /\ tx_acked s (queue_recv_next (tx_cache s)) = q_size (tx_cache s).
Proof.
  intros Hw Hcap. destruct (txwf_cache _ Hw) as [Hq Hc Hb Hz _ _]. unfold queue_recv_next, tx_acked, seq_ahead.
  assert (Hsz : 0 <= q_size (tx_cache s) <= MAX_U32_WINDOW_SIZE) by cap_lia.
  rewrite as_u32_id by cap_lia. split; [apply seq_add_u32; cap_lia|].
  rewrite seq_sub_add by cap_lia. destruct (Z.leb_spec (q_size (tx_cache s)) MAX_U32_WINDOW_SIZE); lia.
Qed.

Lemma tx_update_rto_syn s rtt s' : tx_update_rto s rtt = Done s' -> tx_cache_syn s' = tx_cache_syn s.
Proof. unfold tx_update_rto. intros ([srtt rttvar] & _ & H)%outcome_bind_Done_inv. injection H as <-. by destruct s. Qed.

Lemma tx_acknowledge_syn_None now s x s' :
  tx_cache_syn s = None -> tx_acknowledge now s x = Done s' -> tx_cache_syn s' = None.
Proof.
  intros Hn. unfold tx_acknowledge, tx_acknowledge_syn. rewrite Hn.
  intros ([q rtt] & _ & H)%outcome_bind_Done_inv. revert H. cbv zeta.
  destruct (tx_acknowledge_fin now (tx_with_cache s q) x _) as [s3 rtt3] eqn:E3.
  assert (H3 : tx_cache_syn s3 = None).
  { unfold tx_acknowledge_fin in E3. destruct (seq_ahead _ _); [destruct (tx_cache_fin _)|]; injection E3 as <- _; by destruct s. }
  destruct rtt3 as [rtt3|]; [intros H%tx_update_rto_syn|intros [= <-]]; congruence.
Qed.

(** Nothing is in flight after it, and the window is that of the segment. *)
Lemma tx_ack_all now t window wscale :
  tx_ready t -> tx_cache_syn t = None -> is_u16 window -> 0 <= wscale <= 8 ->
  q_capacity (tx_cache t) = RECV_WINDOW * 2 ^ wscale ->
  exists t', (s ← tx_acknowledge now t (queue_recv_next (tx_cache t)); window ← int_shl 64 window wscale; mret (tx_set_send_window s window))
      = Done t' /\ tx_ready t' /\ tx_view_of t' = tx_view_of t /\ tx_cache_syn t' = None
    /\ q_size (tx_cache t') = 0 /\ tx_queue t' = tx_queue t /\ tx_send_window t' = window * 2 ^ wscale.
Proof.
  intros Ht Hsyn Hwin Hs Hc. pose proof (capacity_bounds wscale Hs).
  destruct (tx_acked_all t (tr_wf _ Ht)) as [Hx Hall]; [lia|].
  destruct (tx_ack_ready now t _ window wscale Ht Hx Hwin Hs Hc) as (t' & E & Ht' & Hv & _).
  exists t'. split; [done|]. split; [done|]. split; [done|]. revert E.
  destruct (tx_acknowledge_ok now t _ (tr_wf _ Ht) Hx) as (t1 & E1 & Hw1 & Ec & Eq & _). rewrite E1, outcome_bind_Done.
  rewrite int_shl_u16, outcome_bind_Done by (done || lia). intros [= <-].
  pose proof (tx_acknowledge_syn_None _ _ _ _ Hsyn E1) as Hs1. destruct (txwf_cache _ Hw1) as [_ _ _ Hz _ _].
  destruct (txwf_cache _ (tr_wf _ Ht)) as [_ _ _ Hz' _ _].
  assert (H0 : q_size (tx_cache t1) = 0).
  { rewrite <- len_queue_content by lia. rewrite Ec, Hall. rewrite zdrop_all; [done|]. rewrite len_queue_content by lia. lia. }
  by destruct t1.
Qed.

(** ** One acknowledgement *)

Section progress.
Context {P : Pnet} {L : PnetLaws P} {D : Device} {N : IpNetwork} {C : Lru}.

(** Nothing is sent again when nothing is in flight. *)
Lemma retransmit_nothing dst src f s :
  live f dst src s -> q_size (tx_cache s) = 0 -> retransmit_tcp_ack dst src f = Done (f, Ok tt).
Proof.
  intros Hl H0. unfold retransmit_tcp_ack. rewrite (fm_bind_Ok _ _ _ _ _ (fm_state_Done _ _ _ (lv_state _ _ _ _ Hl))).
  pose proof (txwf_cache _ (cs_wf _ _ _ (lv_send _ _ _ _ Hl))) as Hq.
  erewrite fm_bind_Ok by (apply fm_lift_Done; by apply queue_get_all_ok). cbv zeta.
  rewrite len_queue_content by lia. by rewrite H0.
Qed.

Lemma ack_only_drained env tcp r src dst w s t :
  conn r src dst w s t -> rd_turns r = [] -> tcp_source tcp = src -> tcp_target tcp = dst -> tcp_sack tcp = Done None ->
  q_size (tx_cache t) = 0 ->
  exists r' s', handle_tcp_ack_only env tcp true r = Done (r', Ok true) /\ conn r' src dst w s' t
    /\ rx_core s' = rx_core s /\ rd_tx r' = rd_tx r /\ rd_turns r' = [].
Proof.
  intros Hc Hi Esrc Edst Esk H0. unfold handle_tcp_ack_only. rewrite Esrc, Edst. cbn [negb]. cbv zeta.
  erewrite rm_bind_Ok by reflexivity. cbv iota. rewrite (rm_bind_Ok _ _ _ _ _ (conn_rx_state _ _ _ _ _ _ Hc)).
  pose proof (increase_duplicate_core (env_now env) s (tcp_acknowledgement tcp)) as Hcore.
  destruct (rx_increase_duplicate (env_now env) s (tcp_acknowledgement tcp)) as [s1 is_retrans]. cbn [fst] in Hcore.
  destruct (kept_put_rx r src dst w s t s1 Hc Hcore) as (r1 & E1 & Hc1 & K1 & Et1). rewrite (rm_bind_Ok _ _ _ _ _ E1).
  destruct (kp_idle _ _ _ _ _ _ K1 Hi) as (Hi1 & _).
  destruct (is_retrans && negb (tcp_is_zero_window tcp)).
  - assert (E2 : fast_retransmit tcp s1 r1 = Done (r1, Ok tt)).
    { assert (Hall : with_tx (retransmit_tcp_ack dst src) r1 = Done (r1, Ok tt)).
      { rewrite with_tx_idle by done. unfold on_tx. rewrite (retransmit_nothing dst src (rd_tx r1) t (cn_live _ _ _ _ _ _ Hc1) H0). by destruct r1. }
      unfold fast_retransmit. rewrite Esrc, Edst. cbv zeta. destruct (rx_sack_perm s1); [|exact Hall].
      unfold mbind at 1, RM_bind at 1. by rewrite (rm_bind_Ok _ _ _ _ _ (rm_lift_Done _ _ _ Esk)). }
    unfold mbind at 1, RM_bind at 1. rewrite (rm_bind_Ok _ _ _ _ _ E2).
    destruct (kept_put_rx r1 src dst w s1 t (rx_set_last_retrans (env_now env) (rx_clear_duplicate s1)) Hc1 eq_refl)
      as (r3 & E3 & Hc3 & K3 & Et3). rewrite E3. destruct (kp_idle _ _ _ _ _ _ K3 Hi1) as (Hi3 & _).
    eexists r3, _. split; [done|]. split; [exact Hc3|]. split; [done|]. split; [congruence|done].
  - erewrite rm_bind_Ok by reflexivity. by exists r1, s1.
Qed.

(** A segment of a source that acknowledges everything: its fields but the
    acknowledgement number, which is its argument. *)
Record round_ok (src dst : SocketAddrV4) (segment : Z -> Tcp) : Prop := {
  rk_segment : forall x, is_u32 x -> ack_segment (segment x) src dst;
  rk_number : forall x, tcp_acknowledgement (segment x) = x;
  rk_window : forall x, 1 <= tcp_window (segment x);
  rk_fin : forall x, tcp_is_fin (segment x) = false;
  rk_sack : forall x, tcp_sack (segment x) = Done None
}.

(** A connection whose stream is open both ways and whose SYN was
    acknowledged, while the tasks of the workers rest. *)
Record established (r : Redirector) (src dst : SocketAddrV4) (w : StreamWorker) (s : TcpRxState) (t : TcpTxState) : Prop := {
  es_conn : conn r src dst w s t;
  es_syn : tx_cache_syn t = None;
  es_fin : rx_fin_sequence s = None;
  es_open : sw_is_write_closed w = false;
  es_idle : rd_turns r = []
}.

(** Everything in flight is acknowledged, and what the window admits follows. *)
Lemma ack_round env segment r src dst w s t :
  device_ok D -> established r src dst w s t -> round_ok src dst segment ->
  exists r' s' t' l, handle_tcp env (segment (queue_recv_next (tx_cache t))) [] r = Done (r', Ok tt)
    /\ established r' src dst w s' t' /\ fw_sent (rd_tx r') = fw_sent (rd_tx r) ++ l
    /\ queue_content (tx_cache t') = bytes_sent l /\ bytes_sent l ++ tx_queue t' = tx_queue t
    /\ (tx_queue t = [] \/ 0 < len (bytes_sent l)).
Proof.
  intros Hdevice [Hc Hsyn Hf Ho Hi] Hk. pose proof (live_ready _ _ _ _ (cn_live _ _ _ _ _ _ Hc)) as Ht.
  pose proof (conn_wscale _ _ _ _ _ _ Hc) as Hw. pose proof (conn_capacity _ _ _ _ _ _ Hc) as Hr.
  pose proof (capacity_bounds _ Hw). destruct (tx_acked_all t (tr_wf _ Ht)) as [Hx _]; [lia|]. set (x := queue_recv_next (tx_cache t)) in *. set (tcp := segment x).
  pose proof (rk_segment _ _ _ Hk x Hx) as [Esrc Edst Erst Eack _ Hwin]. fold tcp in Esrc, Edst, Erst, Eack, Hwin.
  destruct (tx_ack_all (env_now env) t (tcp_window tcp) (rx_wscale s) Ht Hsyn Hwin Hw Hr)
    as (t1 & E1 & Ht1 & Hv1 & Hs1 & H01 & Eq1 & Ew1). fold x in E1.
  unfold handle_tcp. rewrite Erst, Eack. unfold handle_tcp_ack. rewrite Esrc, Edst. cbv zeta.
  erewrite rm_bind_Ok by reflexivity. lookup_in_goal (cn_stream _ _ _ _ _ _ Hc). rewrite Ho. cbn [negb].
  rewrite (rm_bind_Ok _ _ _ _ _ (conn_rx_state _ _ _ _ _ _ Hc)). rewrite (rk_number _ _ _ Hk x : tcp_acknowledgement tcp = x).
  destruct (conn_update r src dst w s t (fun t =>
      t ← tx_acknowledge (env_now env) t x;
      window ← int_shl 64 (tcp_window tcp) (rx_wscale s);
      mret (tx_set_send_window t window)) t1 Hc E1 Ht1) as (f1 & E1' & Hc1 & Hsent1).
  { by injection Hv1. }
  { pose proof (txwf_cache _ (tr_wf _ Ht)) as [_ _ _ Hz _ _]. unfold tx_pending.
    rewrite !len_app, !len_queue_content, H01, Eq1 by lia. lia. }
  set (r1 := rd_with_tx r f1) in *. erewrite rm_bind_Ok by (rewrite with_tx_idle by done; exact E1').
  change (0 <? len []) with false. cbv iota.
  destruct (ack_only_drained env tcp r1 src dst w s t1 Hc1 Hi Esrc Edst (rk_sack _ _ _ Hk x) H01) as (r2 & s2 & E2 & Hc2 & Hcore & Etx & Hi2).
  rewrite (rm_bind_Ok _ _ _ _ _ E2).
  pose proof (cn_live _ _ _ _ _ _ Hc2) as Hl2.
  destruct (send_tcp_ack_ok (env_now env) dst src (rd_tx r2) t1 (lv_state _ _ _ _ Hl2) (lv_send _ _ _ _ Hl2) Hs1)
    as (f3 & t3 & moved & l & y & E3 & Hy & Hst & [Hw3 Hp3 Hc3 _ Hall _ Hpr]).
  rewrite (answered_device_ok y Hdevice Hy) in E3. rewrite <- (Hall (answered_device_ok y Hdevice Hy)) in Hc3, Hpr.
  assert (R : ran (rd_tx r2) f3 dst src t1 t3).
  { eapply ran_step; [done..| |done|done]. eapply keeps_frame; [|exact E3]. apply keeps_send_tcp_ack. }
  pose proof (ran_tx_frame _ _ _ _ _ _ (lv_state _ _ _ _ Hl2) R) as Ef3.
  destruct (conn_ran _ _ _ _ _ _ _ _ _ _ Hc2 E3 R) as (E3' & Hc3' & Hv3).
  erewrite rm_bind_Ok by (rewrite with_tx_idle by done; exact E3'). rewrite (rm_bind_Ok _ _ _ _ _ (conn_rx_state _ _ _ _ _ _ Hc3')).
  rewrite (rk_fin _ _ _ Hk x : tcp_is_fin tcp = false).
  replace (rx_fin_sequence s2) with (None : option Z) by (unfold rx_core in Hcore; congruence).
  exists (rd_with_tx r2 f3), s2, t3, l. split; [done|]. split.
  { constructor; [exact Hc3'|unfold tx_frame_of in Ef3; congruence|unfold rx_core in Hcore; congruence|done|done]. }
  destruct Hst as (_ & Hsent & _). split; [cbn; rewrite Hsent, Etx; cbn; by rewrite Hsent1|].
  assert (H0c : queue_content (tx_cache t1) = []) by (apply len_0; rewrite len_queue_content; lia).
  rewrite H0c in Hc3. split; [done|]. unfold tx_pending in Hp3. rewrite H0c, Hc3 in Hp3. cbn in Hp3.
  split; [by rewrite Hp3|]. specialize (Hpr H01). rewrite Ew1, Eq1 in Hpr.
  destruct (decide (tx_queue t = [])) as [|Hne]; [by left|right]. rewrite Hpr.
  assert (0 < len (tx_queue t)) by (destruct (tx_queue t); [done|rewrite len_cons; pose proof (len_nonneg l0); lia]).
  pose proof (rk_window _ _ _ Hk x : 1 <= tcp_window tcp). assert (0 < 2 ^ rx_wscale s) by (apply Z.pow_pos_nonneg; lia). unfold u16_max. nia.
Qed.

(** ** Acknowledgement after acknowledgement *)

(** The segments of the source, each with the number behind what was sent. *)
Fixpoint drain (rounds : list (Env * (Z -> Tcp))) (src dst : SocketAddrV4) : RM unit :=
  match rounds with
  | [] => mret tt
  | (env, segment) :: rounds =>
      t ← (fun r => t ← unwrap (fw_states (rd_tx r) !! (src, dst)); Done (r, Ok t)) : RM TcpTxState;
      _ ← handle_tcp env (segment (queue_recv_next (tx_cache t))) [];
      drain rounds src dst
  end.

(** C6. A source that acknowledges what it was sent and keeps its window open,
    however small, gets everything, on a connection whose SYN was acknowledged
    and whose stream to the proxy is still open for writing, while no task takes
    a turn and as long as the device takes every frame: after as many
    acknowledgements as there are bytes in the queue, and one more, nothing is
    pending, and the bytes of the queue were sent once and in order. *)
Theorem stream_drains (rounds : list (Env * (Z -> Tcp))) (r : Redirector) (src dst : SocketAddrV4)
    (w : StreamWorker) (s : TcpRxState) (t : TcpTxState) :
  device_ok D -> established r src dst w s t -> Forall (fun round => round_ok src dst round.2) rounds ->
  len (tx_queue t) < len rounds ->
  exists r' s' t' l, drain rounds src dst r = Done (r', Ok tt) /\ established r' src dst w s' t'
    /\ tx_pending t' = [] /\ fw_sent (rd_tx r') = fw_sent (rd_tx r) ++ l /\ bytes_sent l = tx_queue t.
Proof.
  intros Hdevice He Hk. revert r s t He. induction Hk as [|[env segment] rounds Hk Hks IH]; intros r s t He Hlen.
  { rewrite len_nil in Hlen. pose proof (len_nonneg (tx_queue t)). lia. }
  rewrite len_cons in Hlen. cbn [drain]. pose proof (lv_state _ _ _ _ (cn_live _ _ _ _ _ _ (es_conn _ _ _ _ _ _ He))) as Et.
  erewrite rm_bind_Ok by (by rewrite Et).
  destruct (ack_round env segment r src dst w s t Hdevice He Hk) as (r1 & s1 & t1 & l1 & E1 & He1 & Hs1 & Hc1 & Hq1 & Hpr).
  rewrite (rm_bind_Ok _ _ _ _ _ E1). pose proof (f_equal len Hq1) as Hl1. rewrite len_app in Hl1.
  pose proof (len_nonneg (bytes_sent l1)). pose proof (len_nonneg (tx_queue t1)). pose proof (len_nonneg rounds).
  destruct rounds as [|round rounds].
  - rewrite len_nil in Hlen. exists r1, s1, t1, l1. split; [done|]. split; [done|].
    assert (E0 : tx_queue t1 = []) by (apply len_0; lia). assert (Eb : bytes_sent l1 = []) by (apply len_0; lia).
    unfold tx_pending. rewrite Hc1, E0, Eb. split; [done|]. split; [done|]. rewrite <- Hq1. by rewrite Eb, E0.
  - destruct (IH r1 s1 t1 He1) as (r2 & s2 & t2 & l2 & E2 & He2 & Hp2 & Hs2 & Hb2).
    { destruct Hpr as [E0|Hpr]; [|lia]. rewrite E0, len_nil in Hl1. rewrite len_cons in *. pose proof (len_nonneg rounds). lia. }
    exists r2, s2, t2, (l1 ++ l2). split; [done|]. split; [done|]. split; [done|].
    split; [by rewrite Hs2, Hs1, app_assoc|]. by rewrite bytes_sent_app, Hb2.
Qed.
End progress.

(** ** Examples *)

(** Three bytes wait for the source, whose window admits one at a time. *)
Definition tx_waiting : TcpTxState := tx_append_queue tx_open [4; 5; 6].
Definition source_example (x : Z) : Tcp := from_source (tcp_new_ack 1 2 101 x 1 None None).

Lemma tx_waiting_ready : tx_ready tx_waiting.
Proof. destruct tx_open_ready as [[] ? ? ?]. constructor; [by constructor|done..]. Qed.

Lemma source_example_ok : round_ok (1, 1) (2, 2) source_example.
Proof.
  constructor; [|done..]. intros x Hx. apply ack_segment_example; [done..| |vm_compute; split; discriminate]. exact Hx.
Qed.

Lemma tx_waiting_established : established (rd_of tx_waiting []) (1, 1) (2, 2) sw_example rx_example tx_waiting.
Proof.
  constructor; [apply rd_of_conn; [apply tx_waiting_ready|done|apply List.Forall_nil|vm_compute; discriminate]|done|done|done|done].
Qed.

Lemma stream_drains_witness :
  let rounds := replicate 4 (env_example (Ok tt), source_example) in
  exists r' s' t' l, drain (D := black_hole) rounds (1, 1) (2, 2) (rd_of tx_waiting []) = Done (r', Ok tt)
    /\ established r' (1, 1) (2, 2) sw_example s' t'
    /\ tx_pending t' = [] /\ fw_sent (rd_tx r') = fw_sent (rd_tx (rd_of tx_waiting [])) ++ l /\ bytes_sent l = tx_queue tx_waiting.
Proof.
  refine (stream_drains (D := black_hole) (replicate 4 (env_example (Ok tt), source_example)) (rd_of tx_waiting [])
    (1, 1) (2, 2) sw_example rx_example tx_waiting black_hole_ok tx_waiting_established _ _).
  - repeat (apply List.Forall_cons; [apply source_example_ok|]). apply List.Forall_nil.
  - vm_compute. reflexivity.
Defined.
