(* ===== verification/Dispatch.v ===== *)
(** * From frames to handlers

    What the redirector does with the bytes of a frame: frames that do not come
    from the source are ignored, requests for the hardware address of the
    gateway are answered, and the payload of a TCP segment, without the padding
    of the frame, reaches its handler, so that data goes from the wire to the
    proxy. *)

From S2P Require Import Prelude SeqArith Ring Queue Window TxState RxState Socks Pnet Wire Layers Packet PacketText Frames Forwarder Flow Crates Redirector Workers Conn Session.

Section dispatch.
Context {P : Pnet} {L : PnetLaws P} {D : Device} {N : IpNetwork} {C : Lru}.

(** The address is one that the redirector serves. *)
Definition serves (r : Redirector) (ip : Ipv4Addr) : bool :=
  negb (ip =? rd_local_ip_addr r) && network_contains (rd_src_ip_addr r) ip.

(** ** The hardware address of the source *)

(** What [join] leaves, besides the invariant: every connection up to the turns
    of the tasks, the settings and the bindings. *)
Record joined (r r' : Redirector) : Prop := {
  jn_ok : rd_ok r';
  jn_streams : sw_view <$> rd_streams r' = sw_view <$> rd_streams r;
  jn_states : rd_states r' = rd_states r;
  jn_conn : forall src dst w s t, conn r src dst w s t ->
    exists w' t', conn r' src dst w' s t' /\ later r r' w w' t t';
  jn_settings : (rd_src_ip_addr r', rd_local_ip_addr r', rd_gw_ip_addr r') = (rd_src_ip_addr r, rd_local_ip_addr r, rd_gw_ip_addr r);
  jn_udp : dw_view <$> rd_datagrams r' = dw_view <$> rd_datagrams r
    /\ rd_datagram_map r' = rd_datagram_map r /\ rd_udp_lru r' = rd_udp_lru r
    /\ rd_remote r' = rd_remote r /\ rd_options r' = rd_options r;
  jn_defrag : rd_defrag r' = rd_defrag r;
  jn_sent : fw_sent (rd_tx r) `prefix_of` fw_sent (rd_tx r');
  jn_local : (fw_local_hardware_addr (rd_tx r'), fw_local_ip_addr (rd_tx r'))
             = (fw_local_hardware_addr (rd_tx r), fw_local_ip_addr (rd_tx r))
}.

Lemma joined_refl r : rd_ok r -> joined r r.
Proof. intros Hok. constructor; [done|done|done| |done|done|done|done|done]. intros src dst w s t Hc. exists w, t. split; [done|apply later_refl]. Qed.

Lemma live_hardware f ip a dst src t :
  live f dst src t -> live (set_src_hardware_addr f ip a) dst src t.
Proof. intros [H1 [H2 H3 H4] H5 H6 H7]. constructor; [done|by constructor|done..]. Qed.

(** Another forwarder in which all connections are live as before. *)
Lemma ok_tx r f' :
  rd_ok r -> mtus_ok f' -> (forall d c u, live (rd_tx r) d c u -> live f' d c u) -> rd_ok (rd_with_tx r f').
Proof.
  intros [Hm Hs Hg Ht Hb] Hm' Hl. constructor; [done| |done|done|done].
  intros k w Ek. destruct (Hs k w Ek) as (Hd & Hop & s & t & [? ? ? ? ?]). split; [done|]. split; [done|].
  exists s, t. constructor; [done|done|by apply Hl|done|done].
Qed.

Lemma run_workers_rest evs r r' :
  run_workers evs r = Done r' ->
  (rd_src_ip_addr r', rd_local_ip_addr r', rd_gw_ip_addr r', rd_is_tx_src_hardware_addr_set r', rd_defrag r')
  = (rd_src_ip_addr r, rd_local_ip_addr r, rd_gw_ip_addr r, rd_is_tx_src_hardware_addr_set r, rd_defrag r).
Proof.
  revert r. induction evs as [|ev evs IH]; intros r; cbn [run_workers]; [by intros [= <-]|].
  intros (r1 & E & H)%outcome_bind_Done_inv. rewrite (IH _ H). clear -E. revert E.
  destruct ev as [key now answer|key now|port answer]; cbn [run_worker].
  - destruct (rd_streams r !! key); [|by intros [= <-]]. intros ([w f] & _ & H)%outcome_bind_Done_inv. by injection H as <-.
  - destruct (rd_streams r !! key); [|by intros [= <-]]. intros (f & _ & H)%outcome_bind_Done_inv. by injection H as <-.
  - destruct (rd_datagrams r !! port); [|by intros [= <-]]. intros ([w f] & _ & H)%outcome_bind_Done_inv. by injection H as <-.
Qed.

Lemma turn_rest r r' :
  rm_turn r = Done (r', Ok tt) ->
  (rd_src_ip_addr r', rd_local_ip_addr r', rd_gw_ip_addr r', rd_is_tx_src_hardware_addr_set r', rd_defrag r')
  = (rd_src_ip_addr r, rd_local_ip_addr r, rd_gw_ip_addr r, rd_is_tx_src_hardware_addr_set r, rd_defrag r).
Proof.
  unfold rm_turn. destruct (rd_turns r); [by intros [= <-]|].
  intros (r1 & E & H)%outcome_bind_Done_inv. injection H as <-. by rewrite (run_workers_rest _ _ _ E).
Qed.

(** Turns of the tasks are such a step. *)
Lemma turn_joined r : rd_ok r -> exists r', rm_turn r = Done (r', Ok tt) /\ joined r r' /\ fw_addrs (rd_tx r') = fw_addrs (rd_tx r).
Proof.
  intros Hok. destruct (turn_quiet r Hok) as (r' & E & Hok' & Q & _). pose proof (turn_rest _ _ E) as [= E1 E2 E3 _ E4].
  pose proof Q as [[n Hc] ? ? ? ? ? [? ?]]. exists r'. split; [done|]. split; [|apply Hc].
  pose proof (cm_addrs _ _ _ Hc) as [= _ A1 A2].
  constructor; [done|done|done| |congruence|done|done|apply Hc|congruence].
  intros src dst w s t Hcn. destruct (conn_turn r src dst w s t Hcn) as (r1 & w1 & t1 & E5 & Hc1 & T).
  rewrite E in E5. injection E5 as <-. exists w1, t1. split; [done|by apply turned_later].
Qed.

Lemma joined_trans r r1 r2 : joined r r1 -> joined r1 r2 -> joined r r2.
Proof.
  intros [_ V1 ? C1 ? (D1 & ? & ? & ? & ?) ? ? ?] [O2 V2 ? C2 ? (D2 & ? & ? & ? & ?) ? ? ?].
  constructor; [done|exact (eq_trans V2 V1)|congruence| |congruence| |congruence|by etrans|congruence].
  - intros src dst w s t Hc. destruct (C1 _ _ _ _ _ Hc) as (w1 & t1 & Hc1 & L1). destruct (C2 _ _ _ _ _ Hc1) as (w2 & t2 & Hc2 & L2).
    exists w2, t2. split; [done|by eapply later_trans].
  - split; [exact (eq_trans D2 D1)|]. split; [congruence|]. split; [congruence|]. split; congruence.
Qed.

Lemma join_ok src a r :
  rd_ok r ->
  exists r', join src a r = Done (r', Ok tt) /\ joined r r'
    /\ rd_is_tx_src_hardware_addr_set r' = true
    /\ (rd_is_tx_src_hardware_addr_set r = true -> r' = r)
    /\ (rd_is_tx_src_hardware_addr_set r = false -> fw_hardware_addr_of (rd_tx r') src = a).
Proof.
  intros Hok. unfold join. erewrite rm_bind_Ok by reflexivity. destruct (rd_is_tx_src_hardware_addr_set r) eqn:E; cbn [negb].
  - exists r. split; [done|]. split; [by apply joined_refl|done].
  - destruct (turn_joined r Hok) as (r1 & E1 & Hj & _).
    erewrite rm_bind_Ok by (rewrite (with_tx_turn _ _ _ E1); reflexivity).
    eexists. split; [reflexivity|]. split; [|split; [done|split; [done|]]].
    + eapply joined_trans; [exact Hj|]. set (f := set_src_hardware_addr (rd_tx r1) src a).
      assert (Hok2 : rd_ok (rd_with_set (rd_with_tx r1 f) true)).
      { apply (fits_same 0 (rd_with_tx r1 f)); [done..|apply (jn_ok _ _ Hj)|]. pose proof (jn_ok _ _ Hj) as Hok1.
        apply ok_tx; [done|by destruct Hok1|]. intros d c u. apply live_hardware. }
      constructor; [done|done|done| |done|done|done|done|done].
      intros s0 d w s t [H1 H2 H3 H4]. exists w, t. split; [|by constructor].
      constructor; [done|done|by apply live_hardware|done].
    + intros _. cbn. unfold fw_hardware_addr_of, set_src_hardware_addr. cbn. by rewrite lookup_insert_eq.
Qed.

(** ** Frames *)

(** A frame of the source with a whole packet: the headers, the payload of the
    layer above IPv4 and the padding of the frame. *)
Record whole_frame (r : Redirector) (frame : list byte) (i : Indicator) (l : Layers) (payload : list byte) : Prop := {
  wf_parse : indicator_from frame = Some i;
  wf_network : exists ipv4, ind_network i = Some (LIpv4 ipv4) /\ serves r (ipv4_src ipv4) = true
                 /\ ipv4_is_fragment ipv4 = false;
  wf_transport : ind_transport i = Some l;
  wf_bytes : exists headers padding, frame = headers ++ payload ++ padding
               /\ indicator_len i = Done (len headers)
               /\ indicator_content_len i = Done (len headers + len payload)
}.

(** With a TCP segment. *)
Definition tcp_frame (r : Redirector) (frame : list byte) (i : Indicator) (tcp : Tcp) (payload : list byte) : Prop :=
  whole_frame r frame i (LTcp tcp) payload.

Lemma indicator_from_link frame i : indicator_from frame = Some i -> exists e, ind_link i = LEthernet e /\ indicator_ethernet i = Some e.
Proof.
  unfold indicator_from. destruct (_ <? _); [done|]. intros [= <-]. exists (ethernet_parse (ethernet_view frame)).
  assert (E : ind_link (indicator_parse (ethernet_view frame)) = LEthernet (ethernet_parse (ethernet_view frame)))
    by (unfold indicator_parse; by repeat case_match).
  split; [done|]. unfold indicator_ethernet. by rewrite E.
Qed.

(** An IPv4 frame goes to [handle_ipv4]. *)
Lemma handle_frame_ipv4 env frame r i ipv4 :
  indicator_from frame = Some i -> indicator_ipv4 i = Some ipv4 ->
  handle_frame env frame r = ('(r', x) ← handle_ipv4 env i frame r; _ ← log_error i x; mret r').
Proof.
  intros Hi Ei. unfold handle_frame. rewrite Hi. unfold indicator_network_kind. unfold indicator_ipv4 in Ei.
  destruct (ind_network i) as [[]|]; done.
Qed.

(** A packet of the source is handled after the hardware address was noted,
    without the padding of its frame. *)
Lemma handle_ipv4_served env frame r i ipv4 n :
  rd_ok r -> indicator_from frame = Some i -> indicator_ipv4 i = Some ipv4 -> serves r (ipv4_src ipv4) = true ->
  indicator_content_len i = Done n -> 0 <= n <= len frame ->
  exists r1, joined r r1 /\ handle_ipv4 env i frame r = handle_packet env i ipv4 (ztake n frame) r1.
Proof.
  intros Hok Hi Ei Hs Hn Hle. destruct (indicator_from_link _ _ Hi) as (e & _ & Ee).
  destruct (join_ok (ipv4_src ipv4) (ethernet_src e) r Hok) as (r1 & E1 & Hj & _ & Hsame & _).
  exists r1. split; [done|]. unfold handle_ipv4. rewrite Ei. cbv zeta.
  erewrite rm_bind_Ok by reflexivity. fold (serves r (ipv4_src ipv4)). rewrite Hs. erewrite rm_bind_Ok by reflexivity.
  assert (Ej : (if negb (rd_is_tx_src_hardware_addr_set r)
                then ethernet ← rm_lift (unwrap (indicator_ethernet i)); join (ipv4_src ipv4) (ethernet_src ethernet)
                else mret tt) r = Done (r1, Ok tt)).
  { destruct (rd_is_tx_src_hardware_addr_set r) eqn:Eset; cbn [negb]; [by rewrite Hsame|].
    rewrite Ee. by erewrite rm_bind_Ok by reflexivity. }
  rewrite (rm_bind_Ok _ _ _ _ _ Ej), (rm_bind_Ok _ _ _ _ _ (rm_lift_Done _ _ _ Hn)).
  erewrite rm_bind_Ok by (apply rm_lift_Done, slice_Done; lia). by rewrite zdrop_0, Z.sub_0_r by lia.
Qed.

(** The payload of a whole packet. *)
Lemma packet_payload (i : Indicator) (headers payload padding : list byte) :
  indicator_len i = Done (len headers) ->
  (n ← indicator_len i; slice (ztake (len headers + len payload) (headers ++ payload ++ padding)) n
     (len (ztake (len headers + len payload) (headers ++ payload ++ padding)))) = Done payload.
Proof.
  intros Hl. rewrite Hl, outcome_bind_Done. pose proof (len_nonneg headers). pose proof (len_nonneg payload).
  rewrite app_assoc, ztake_app by (by rewrite len_app). rewrite slice_Done by (rewrite ?len_app; lia).
  rewrite zdrop_app by done. by rewrite ztake_all by (rewrite len_app; lia).
Qed.

(** The payload reaches the handler of its layer. *)
Lemma handle_frame_whole env frame r i l payload :
  rd_ok r -> whole_frame r frame i l payload ->
  exists r1, joined r r1
    /\ handle_frame env frame r = ('(r', x) ← handle_transport env (Some l) (Done payload) r1; _ ← log_error i x; mret r').
Proof.
  intros Hok [Hparse (ipv4 & En & Hs & Hf) Et (headers & padding & -> & Hl & Hc)].
  assert (Ei : indicator_ipv4 i = Some ipv4) by (unfold indicator_ipv4; by rewrite En).
  pose proof (len_nonneg headers). pose proof (len_nonneg payload). pose proof (len_nonneg padding).
  destruct (handle_ipv4_served env _ r i ipv4 _ Hok Hparse Ei Hs Hc) as (r1 & Hj & E); [rewrite !len_app; lia|].
  exists r1. split; [done|]. rewrite (handle_frame_ipv4 env _ r i ipv4 Hparse Ei), E. unfold handle_packet.
  by rewrite Hf, Et, packet_payload by done.
Qed.

Lemma handle_frame_tcp env frame r i tcp payload :
  rd_ok r -> tcp_frame r frame i tcp payload ->
  exists r1, joined r r1 /\ handle_frame env frame r = ('(r', x) ← handle_tcp env tcp payload r1; _ ← log_error i x; mret r').
Proof.
  intros Hok Hf. destruct (handle_frame_whole env frame r i _ payload Hok Hf) as (r1 & Hj & ->). exists r1. split; [done|].
  cbn [handle_transport]. by erewrite rm_bind_Ok by reflexivity.
Qed.

(** An error of a whole segment, or of an ARP packet, can be logged. *)
Lemma log_error_tcp r frame i tcp payload x : tcp_frame r frame i tcp payload -> log_error i x = Done tt.
Proof.
  intros [_ (ipv4 & En & _) Et _]. destruct x as [|e]; [done|]. unfold log_error, indicator_brief. by rewrite En, Et.
Qed.

Lemma log_error_arp i arp x : ind_network i = Some (LArp arp) -> log_error i x = Done tt.
Proof. intros En. destruct x as [|e]; [done|]. unfold log_error, indicator_brief. by rewrite En. Qed.

(** A connection does not notice. *)
Lemma joined_delivering f isn capacity r r' src dst out next :
  joined r r' -> delivering f isn capacity r src dst out next -> delivering f isn capacity r' src dst out next.
Proof.
  intros Hj (w & s & t & Hd). destruct (jn_conn _ _ Hj _ _ _ _ _ (dl_conn _ _ _ _ _ _ _ _ _ _ _ Hd)) as (w' & t' & Hc & Hl).
  exists w', s, t'. by eapply delivers_later.
Qed.

Lemma delivering_ok f isn capacity r src dst out next : delivering f isn capacity r src dst out next -> rd_ok r.
Proof. intros (w & s & t & Hd). exact (cn_ok _ _ _ _ _ _ (dl_conn _ _ _ _ _ _ _ _ _ _ _ Hd)). Qed.

Lemma frame_delivered (f : Z -> byte) (isn capacity : Z) (env : Env) (frame : list byte) (i : Indicator)
    (tcp : Tcp) (payload : list byte) (r : Redirector) (src dst : SocketAddrV4) (out : list byte) (next : Z) :
  is_u32 isn -> delivering f isn capacity r src dst out next -> tcp_frame r frame i tcp payload ->
  ack_segment tcp src dst -> tcp_is_fin tcp = false -> carries f capacity out next (tcp_sequence tcp) payload ->
  env_write env = WriteAll ->
  exists r' more l x l',
    handle_frame env frame r = Done r'
    /\ delivering f isn capacity r' src dst (out ++ more) (seq_add next (len more))
    /\ out ++ more = tabulate (len (out ++ more)) f
    /\ (tcp_sequence tcp = next -> len payload <= len more)
    /\ fw_sent (rd_tx r') = fw_sent (rd_tx r) ++ l ++ x :: l'
    /\ acknowledges dst src (seq_add next (len more)) x.
Proof.
  intros Hisn Hd Hf Ha Hfin Hc Hw. destruct (handle_frame_tcp env frame r i tcp payload (delivering_ok _ _ _ _ _ _ _ _ Hd) Hf) as (r1 & Hj & ->).
  destruct (segment_delivered f isn capacity env tcp payload r1 src dst out next)
    as (r2 & more & l & x & l' & y & -> & _ & H1 & H2 & H3 & H4 & H5); [done|by eapply joined_delivering|done..|].
  rewrite outcome_bind_Done, (log_error_tcp _ _ _ _ _ y Hf). destruct (jn_sent _ _ Hj) as [l0 E0]. exists r2, more, (l0 ++ l), x, l'.
  split; [done|]. split; [done|]. split; [done|]. split; [done|]. split; [by rewrite H4, E0, <- !app_assoc|done].
Qed.

(** ** Theorems *)

(** C2. From the wire to the proxy: a frame of the source whose TCP segment
    carries a part of the stream of an open connection is handled without a
    panic, whatever its padding is and whatever turns the tasks of the workers
    take before the critical sections and while the handler waits, and whatever
    the device answers.  The proxy has then a prefix of the stream, which has
    grown by the whole payload when that was the next one, and an acknowledgement
    of exactly what the proxy has was handed to the device. *)
Theorem frame_data_delivered (f : Z -> byte) (isn capacity : Z) (env : Env) (frame : list byte) (i : Indicator)
    (tcp : Tcp) (payload : list byte) (r : Redirector) (src dst : SocketAddrV4) (out : list byte) (next : Z) :
  is_u32 isn -> delivering f isn capacity r src dst out next -> tcp_frame r frame i tcp payload ->
  ack_segment tcp src dst -> tcp_is_fin tcp = false -> carries f capacity out next (tcp_sequence tcp) payload ->
  env_write env = WriteAll ->
  exists r' more l x l',
    handle_frame env frame r = Done r'
    /\ delivering f isn capacity r' src dst (out ++ more) (seq_add next (len more))
    /\ out ++ more = tabulate (len (out ++ more)) f
    /\ (tcp_sequence tcp = next -> len payload <= len more)
    /\ fw_sent (rd_tx r') = fw_sent (rd_tx r) ++ l ++ x :: l'
    /\ acknowledges dst src (seq_add next (len more)) x.
Proof. exact (frame_delivered f isn capacity env frame i tcp payload r src dst out next). Qed.

(** The frame is not for the redirector: it is too short, carries neither ARP
    nor IPv4, or does not come from an address that is served; an ARP packet
    also has to ask for the gateway. *)
Definition is_foreign (r : Redirector) (frame : list byte) : bool :=
  match indicator_from frame with
  | None => true
  | Some i =>
      match ind_network i with
      | Some (LIpv4 ipv4) => negb (serves r (ipv4_src ipv4))
      | Some (LArp arp) =>
          negb (serves r (arp_src arp))
          || match rd_gw_ip_addr r with Some gw => negb (arp_dst arp =? gw) | None => true end
      | _ => true
      end
  end.

Lemma indicator_from_network frame i :
  indicator_from frame = Some i ->
  match ind_network i with None | Some (LArp _) | Some (LIpv4 _) => True | _ => False end.
Proof.
  unfold indicator_from. destruct (_ <? _); [done|]. intros [= <-]. unfold indicator_parse. by repeat case_match.
Qed.

Lemma foreign_frame_same (env : Env) (frame : list byte) (r : Redirector) :
  is_foreign r frame = true -> handle_frame env frame r = Done r.
Proof.
  unfold is_foreign, handle_frame. destruct (indicator_from frame) as [i|] eqn:Ei; [|done].
  pose proof (indicator_from_network _ _ Ei) as Hn. unfold indicator_network_kind.
  destruct (ind_network i) as [[]|] eqn:En; try done; intros Hs.
  - change (kind <$> Some (LArp a)) with (Some LK_Arp). cbv iota. change (LK_Arp =? LK_Arp) with true. cbv iota.
    unfold handle_arp, indicator_arp. rewrite En. erewrite rm_bind_Ok by reflexivity.
    destruct (rd_gw_ip_addr r) as [gw|] eqn:Eg; [|done]. cbv zeta. erewrite rm_bind_Ok by reflexivity.
    fold (serves r (arp_src a)). apply orb_true_iff in Hs as [Hs|Hs]; apply negb_true_iff in Hs; rewrite Hs; [done|].
    by rewrite andb_false_r.
  - change (kind <$> Some (LIpv4 i0)) with (Some LK_Ipv4). cbv iota. change (LK_Ipv4 =? LK_Arp) with false.
    change (LK_Ipv4 =? LK_Ipv4) with true. cbv iota. unfold handle_ipv4, indicator_ipv4. rewrite En. cbv zeta.
    erewrite rm_bind_Ok by reflexivity. fold (serves r (ipv4_src i0)). apply negb_true_iff in Hs. by rewrite Hs.
Qed.

(** C19. Frames that are not for the redirector change nothing and send
    nothing. *)
Theorem foreign_frame_ignored (env : Env) (frame : list byte) (r : Redirector) :
  is_foreign r frame = true -> handle_frame env frame r = Done r.
Proof. exact (foreign_frame_same env frame r). Qed.

(** The reply with the hardware address of the program. *)
Lemma send_arp_reply_ok src f :
  let a := fw_hardware_addr_of f src in
  let reply := arp_new_reply (fw_local_hardware_addr f) (fw_local_ip_addr f) a src in
  let e := ethernet_from (mkPEthernet a (fw_local_hardware_addr f) ethertype_arp []) in
  exists f' y, send_arp_reply src f = Done (f', y) /\ answered y
    /\ sent_step f f' [(mkIndicator (LEthernet e) (Some (LArp reply)) None, [])].
Proof.
  intros a reply e. set (x := mkIndicator (LEthernet e) (Some (LArp reply)) None).
  destruct (fw_send_ok x 28 0 f) as (f' & y & E & Hy & Hss & _).
  { constructor; [by exists e|exists (LArp reply); split; [done|by apply arp_layer_ok]|done|ilia]. }
  exists f', y. split; [|done]. unfold send_arp_reply. erewrite fm_bind_Ok by reflexivity. fold a reply.
  by erewrite fm_bind_Ok by reflexivity.
Qed.

(** The reply that the gateway has the hardware address of the program. *)
Record arp_answer (r : Redirector) (gw : Ipv4Addr) (src : Ipv4Addr) (a : MacAddr) (x : Indicator * list byte) : Prop := {
  aa_payload : x.2 = [];
  aa_reply : exists ethernet arp, indicator_ethernet x.1 = Some ethernet /\ indicator_arp x.1 = Some arp
    /\ arp_is_reply arp = true
    /\ (arp_src arp, arp_src_hardware_addr arp) = (gw, fw_local_hardware_addr (rd_tx r))
    /\ (arp_dst arp, arp_dst_hardware_addr arp) = (src, a)
    /\ (ethernet_src ethernet, ethernet_dst ethernet) = (fw_local_hardware_addr (rd_tx r), a)
}.

(** C20. A device that asks for the gateway is answered with the hardware address
    of the program: the reply is handed to the pcap device, whatever that
    answers.  The first device's hardware address is noted; a device that
    comes later is answered at the address that is known for it, which is
    00:00:00:00:00:00 when none was noted. *)
Theorem arp_request_answered (env : Env) (frame : list byte) (i : Indicator) (arp : Arp) (gw : Ipv4Addr) (r : Redirector) :
  rd_ok r -> indicator_from frame = Some i -> ind_network i = Some (LArp arp) -> serves r (arp_src arp) = true ->
  rd_gw_ip_addr r = Some gw -> arp_dst arp = gw -> fw_local_ip_addr (rd_tx r) = gw ->
  let a := if rd_is_tx_src_hardware_addr_set r then fw_hardware_addr_of (rd_tx r) (arp_src arp) else arp_src_hardware_addr arp in
  exists r' l x, handle_frame env frame r = Done r' /\ fw_sent (rd_tx r') = fw_sent (rd_tx r) ++ l ++ [x]
    /\ arp_answer r gw (arp_src arp) a x /\ rd_is_tx_src_hardware_addr_set r' = true /\ rd_ok r'.
Proof.
  intros Hok Hi En Hs Hg Hd Hip a. destruct (join_ok (arp_src arp) (arp_src_hardware_addr arp) r Hok) as (r1 & E1 & Hj & Hset & Hsame & Hnew).
  assert (Ea : fw_hardware_addr_of (rd_tx r1) (arp_src arp) = a).
  { unfold a. destruct (rd_is_tx_src_hardware_addr_set r) eqn:E; [by rewrite Hsame|by apply Hnew]. }
  destruct (turn_joined r1 (jn_ok _ _ Hj)) as (r2 & E2 & Hj2 & Had).
  assert (Ea2 : fw_hardware_addr_of (rd_tx r2) (arp_src arp) = a).
  { unfold fw_addrs in Had. injection Had as Hh _ _. unfold fw_hardware_addr_of in *. by rewrite Hh. }
  pose proof (jn_local _ _ (joined_trans _ _ _ Hj Hj2)) as [= Ehw Elip].
  unfold handle_frame. rewrite Hi. unfold indicator_network_kind. rewrite En.
  change (kind <$> Some (LArp arp)) with (Some LK_Arp). cbv iota. change (LK_Arp =? LK_Arp) with true. cbv iota.
  unfold handle_arp, indicator_arp at 1. rewrite En. erewrite rm_bind_Ok by reflexivity. rewrite Hg. cbv zeta.
  erewrite rm_bind_Ok by reflexivity. fold (serves r (arp_src arp)). rewrite Hs, Hd, Z.eqb_refl. cbn [andb].
  rewrite (rm_bind_Ok _ _ _ _ _ E1).
  destruct (send_arp_reply_ok (arp_src arp) (rd_tx r2)) as (f3 & y & E4 & _ & Hss). rewrite Ea2 in Hss.
  set (reply := arp_new_reply _ _ a _) in Hss. set (e := ethernet_from _) in Hss. set (x := mkIndicator _ _ _) in Hss.
  rewrite (with_tx_turn _ _ _ E2), (on_tx_Done _ _ _ _ E4), outcome_bind_Done, (log_error_arp i arp y En).
  destruct (jn_sent _ _ (joined_trans _ _ _ Hj Hj2)) as [l Hl]. eexists _, l, (x, []). split; [reflexivity|].
  split; [cbn; by rewrite (ss_sent _ _ _ Hss), Hl, <- app_assoc|]. split; [|split].
  - constructor; [done|]. exists e, reply. split; [done|]. split; [done|]. split; [done|]. split.
    + unfold reply, arp_src at 1, arp_src_hardware_addr at 1. cbn. by rewrite Elip, Ehw, Hip.
    + split; [done|]. unfold e. cbn. by rewrite Ehw.
  - pose proof (turn_rest _ _ E2) as [= _ _ _ E5 _]. cbn. congruence.
  - pose proof (jn_ok _ _ Hj2) as Hok2. apply ok_tx; [done|eapply mtus_ok_calm; [by eapply calm_sent|by destruct Hok2]|].
    intros d c u [H1 [H2 H3 H4] H5 H6 H7]. destruct Hss as [_ Em El _ _ _ Es].
    constructor; [by rewrite Es| |done|done|by rewrite El]. constructor; [done|done|]. unfold fw_mtu_of in *. by rewrite Em, El.
Qed.
End dispatch.

(** ** Examples *)

(** A segment with two bytes from 1:1 to 2:2, in a frame with four bytes of
    padding. *)
Definition tcp_headers_example : list byte :=
  [0; 0; 0; 0; 0; 7; 0; 0; 0; 0; 0; 5; 8; 0]
  ++ [69; 0; 0; 42; 0; 0; 0; 0; 64; 6; 0; 0; 0; 0; 0; 1; 0; 0; 0; 2]
  ++ [0; 1; 0; 2; 0; 0; 0; 101; 0; 0; 0; 11; 80; 16; 3; 232; 0; 0; 0; 0].
Definition tcp_frame_example : list byte := tcp_headers_example ++ [7; 8] ++ [0; 0; 0; 0].

Definition indicator_example : Indicator (P := wire) := indicator_parse (ethernet_view tcp_frame_example).
Definition tcp_example : Tcp (P := wire) := default (from_source (tcp_new_ack 1 2 0 0 0 None None)) (indicator_tcp indicator_example).

Definition ipv4_example : Ipv4 (P := wire) := ipv4_parse (ipv4_view (pe_payload (ethernet_view tcp_frame_example))).

Lemma tcp_frame_example_ok : tcp_frame (P := wire) rd_open tcp_frame_example indicator_example tcp_example [7; 8].
Proof.
  constructor.
  - reflexivity.
  - exists ipv4_example. split; [reflexivity|]. split; vm_compute; reflexivity.
  - reflexivity.
  - exists tcp_headers_example, [0; 0; 0; 0]. split; [reflexivity|]. split; vm_compute; reflexivity.
Qed.

Lemma tcp_example_segment : ack_segment tcp_example (1, 1) (2, 2).
Proof. constructor; vm_compute; split || reflexivity; discriminate. Qed.

Lemma carries_example : carries (fun i => 7 + i) (RECV_WINDOW * 2 ^ 0) [] 101 (tcp_sequence tcp_example) [7; 8].
Proof.
  left. exists 0. do 4 (split; [vm_compute; reflexivity || discriminate|]).
  intros i Hi. assert (i = 0 \/ i = 1) as [-> | ->] by (change (len [7; 8]) with 2 in Hi; lia); reflexivity.
Qed.

Lemma rd_open_delivering : delivering (fun i => 7 + i) 101 (RECV_WINDOW * 2 ^ 0) rd_open (1, 1) (2, 2) [] 101.
Proof. eexists _, _, _. apply rd_open_delivers. Qed.

Lemma frame_example_handled : exists r', handle_frame (D := black_hole) (env_example (Ok tt)) tcp_frame_example rd_open = Done r'.
Proof.
  destruct (frame_delivered (D := black_hole) (fun i => 7 + i) 101 (RECV_WINDOW * 2 ^ 0)
    (env_example (Ok tt)) tcp_frame_example indicator_example tcp_example [7; 8] rd_open (1, 1) (2, 2) [] 101)
    as (r' & more & l & x & l' & E & _); [vm_compute; split; discriminate|apply rd_open_delivering|apply tcp_frame_example_ok|
    apply tcp_example_segment|vm_compute; reflexivity|apply carries_example|reflexivity|]. by exists r'.
Qed.

Lemma frame_data_delivered_witness :
  exists r' more l x l',
    handle_frame (D := black_hole) (env_example (Ok tt)) tcp_frame_example rd_open = Done r'
    /\ delivering (fun i => 7 + i) 101 (RECV_WINDOW * 2 ^ 0) r' (1, 1) (2, 2) ([] ++ more) (seq_add 101 (len more))
    /\ [] ++ more = tabulate (len ([] ++ more)) (fun i => 7 + i)
    /\ (tcp_sequence tcp_example = 101 -> len [7; 8] <= len more)
    /\ fw_sent (rd_tx r') = fw_sent (rd_tx rd_open) ++ l ++ x :: l'
    /\ acknowledges (2, 2) (1, 1) (seq_add 101 (len more)) x.
Proof.
  refine (frame_data_delivered (D := black_hole) (fun i => 7 + i) 101 (RECV_WINDOW * 2 ^ 0)
    (env_example (Ok tt)) tcp_frame_example indicator_example tcp_example [7; 8] rd_open (1, 1) (2, 2) [] 101
    _ _ tcp_frame_example_ok tcp_example_segment _ _ _).
  - vm_compute. split; discriminate.
  - apply rd_open_delivering.
  - vm_compute. reflexivity.
  - apply carries_example.
  - reflexivity.
Defined.

(** The same segment from an address that is not served. *)
Definition foreign_frame_example : list byte := ztake 28 tcp_frame_example ++ [1] ++ zdrop 29 tcp_frame_example.

Lemma foreign_frame_ignored_witness :
  handle_frame (D := black_hole) (env_example (Ok tt)) foreign_frame_example rd_open = Done rd_open.
Proof. apply (foreign_frame_ignored (D := black_hole) (env_example (Ok tt)) foreign_frame_example rd_open). vm_compute. reflexivity. Defined.

(** The device 1 asks for the gateway 4, which the program publishes. *)
Definition arp_frame_example : list byte :=
  [255; 255; 255; 255; 255; 255; 0; 0; 0; 0; 0; 5; 8; 6]
  ++ [0; 1; 8; 0; 6; 4; 0; 1; 0; 0; 0; 0; 0; 5; 0; 0; 0; 1; 0; 0; 0; 0; 0; 0; 0; 0; 0; 4].
Definition rd_published : Redirector (P := wire) (N := prefix_network) (C := list_lru) :=
  redirector_new (forwarder_new 1500 7 9) (1, 8) 4 (Some 4) (3, 1080) false false None.
Definition arp_indicator_example : Indicator (P := wire) := indicator_parse (ethernet_view arp_frame_example).
Definition arp_example : Arp := default (arp_new_reply 0 0 0 0) (indicator_arp arp_indicator_example).

Lemma rd_published_ok : rd_ok rd_published.
Proof.
  constructor; [|exact (map_Forall_empty (M := gmap conn_key) _)|exact (map_Forall_empty (M := gmap Z) _)|apply List.Forall_nil|vm_compute; discriminate].
  split; [vm_compute; split; discriminate|]. intros ip. change (41 <= unwrap_or ((∅ : gmap Z Z) !! ip) 1500 <= u16_max).
  rewrite lookup_empty. vm_compute. split; discriminate.
Qed.

Lemma arp_request_answered_witness :
  exists r' l x, handle_frame (D := black_hole) (env_example (Ok tt)) arp_frame_example rd_published = Done r'
    /\ fw_sent (rd_tx r') = fw_sent (rd_tx rd_published) ++ l ++ [x]
    /\ arp_answer rd_published 4 (arp_src arp_example) (arp_src_hardware_addr arp_example) x /\ rd_is_tx_src_hardware_addr_set r' = true
    /\ rd_ok r'.
Proof.
  refine (arp_request_answered (D := black_hole) (env_example (Ok tt)) arp_frame_example
    arp_indicator_example arp_example 4 rd_published rd_published_ok _ _ _ _ _ _);
    [reflexivity|reflexivity|vm_compute; reflexivity|reflexivity|vm_compute; reflexivity|reflexivity].
Defined.
