(* ===== verification/Stream.v ===== *)
(** * What no handler changes

    The settings of the redirector never change, so what a frame is to it can be
    said once for a run; and no handler above IPv4 touches the fragments. *)

From S2P Require Import Prelude SeqArith Ring Queue Window TxState RxState Socks Pnet Wire Layers Packet Frames Forwarder Flow Crates Redirector Preserve Workers Conn Session Dispatch.

Section stream.
Context {P : Pnet} {L : PnetLaws P} {D : Device} {N : IpNetwork} {C : Lru}.

(** ** The settings *)

Definition settings (r : Redirector) : Ipv4Network * Ipv4Addr * option Ipv4Addr * SocketAddrV4 * SocksOption :=
  (rd_src_ip_addr r, rd_local_ip_addr r, rd_gw_ip_addr r, rd_remote r, rd_options r).

(** The settings and the fragments. *)
Definition rest (r : Redirector) : Ipv4Network * Ipv4Addr * option Ipv4Addr * SocketAddrV4 * SocksOption * Defraggler :=
  (settings r, rd_defrag r).

(** Every handler above IPv4 leaves them alone. *)
Lemma run_worker_rest ev r r' : run_worker ev r = Done r' -> rest r' = rest r.
Proof.
  destruct ev as [key now answer|key now|port answer]; cbn [run_worker].
  - destruct (rd_streams r !! key); [|by intros [= <-]]. intros ([w f] & _ & H)%outcome_bind_Done_inv. by injection H as <-.
  - destruct (rd_streams r !! key); [|by intros [= <-]]. intros (f & _ & H)%outcome_bind_Done_inv. by injection H as <-.
  - destruct (rd_datagrams r !! port); [|by intros [= <-]]. intros ([w f] & _ & H)%outcome_bind_Done_inv. by injection H as <-.
Qed.

Lemma rest_turn : preserves rest rm_turn.
Proof. apply preserves_turn; [done|exact run_worker_rest]. Qed.
#[local] Hint Resolve rest_turn : preserves.

Lemma rest_tx {A} (m : FM A) : preserves rest (with_tx m).
Proof. apply preserves_with_tx; [apply rest_turn|]. by apply preserves_on_tx. Qed.
#[local] Hint Resolve rest_tx : preserves.

Lemma rest_clean_up src dst : preserves rest (rd_clean_up src dst).
Proof. unfold rd_clean_up, remove_stream. preserves_tac. Qed.
#[local] Hint Resolve rest_clean_up : preserves.

Lemma rest_fin tcp payload : preserves rest (handle_tcp_fin tcp payload).
Proof. unfold handle_tcp_fin, rm_rx_state, rm_put_rx, rm_stream, rm_put_stream. preserves_tac. Qed.
#[local] Hint Resolve rest_fin : preserves.

Lemma rest_send env key payload : preserves rest (rm_send env key payload).
Proof. unfold rm_send, rm_stream, rm_put_stream. preserves_tac. Qed.
#[local] Hint Resolve rest_send : preserves.

Lemma rest_ack env tcp payload : preserves rest (handle_tcp_ack env tcp payload).
Proof.
  unfold handle_tcp_ack, handle_tcp_data, handle_tcp_ack_only, send_in_order, report_window, fast_retransmit, remove_stream,
    rm_rx_state, rm_put_rx. preserves_tac.
Qed.

Lemma rest_syn env tcp : preserves rest (handle_tcp_syn env tcp).
Proof.
  unfold handle_tcp_syn, connect_stream, rm_await, rm_put_rx, rm_put_stream. preserves_tac.
  all: by apply preserves_forwarder.
Qed.

Lemma rest_tcp env tcp payload : preserves rest (handle_tcp env tcp payload).
Proof. unfold handle_tcp, handle_tcp_rst. preserves_tac; [apply rest_ack|apply rest_syn]. Qed.
#[local] Hint Resolve rest_tcp : preserves.

Lemma rest_udp env udp payload : preserves rest (handle_udp env udp payload).
Proof.
  unfold handle_udp, bind_local_udp_port, associate_udp_port, reuse_udp_port, rm_await, rm_datagram, rm_put_datagram.
  preserves_tac.
Qed.

Lemma rest_icmpv4 icmpv4 : preserves rest (handle_icmpv4 icmpv4).
Proof. unfold handle_icmpv4, unbind_local_udp_port. preserves_tac. Qed.
#[local] Hint Resolve rest_udp rest_icmpv4 : preserves.

Lemma rest_transport env transport payload : preserves rest (handle_transport env transport payload).
Proof. unfold handle_transport. preserves_tac. Qed.

Lemma rest_join src a : preserves rest (join src a).
Proof. unfold join. preserves_tac. Qed.

Lemma settings_rest {A} (m : RM A) : preserves rest m -> preserves settings m.
Proof. intros Hm r r' x E. exact (f_equal fst (Hm r r' x E)). Qed.

(** No handler changes the settings. *)
Lemma settled_frame env frame r r' : handle_frame env frame r = Done r' -> settings r' = settings r.
Proof.
  assert (Ht : forall t payload, preserves settings (handle_transport env t payload)) by (intros; apply settings_rest, rest_transport).
  assert (Hj : forall src a, preserves settings (join src a)) by (intros; apply settings_rest, rest_join).
  assert (Hx : forall A (m : FM A), preserves settings (with_tx m)) by (intros; apply settings_rest, rest_tx).
  assert (Ha : forall i, preserves settings (handle_arp i)) by (intros i; unfold handle_arp; preserves_tac).
  assert (Hi : forall i, preserves settings (handle_ipv4 env i frame)) by (intros i; unfold handle_ipv4, handle_packet; preserves_tac).
  unfold handle_frame. destruct (indicator_from frame) as [i|]; [|by intros [= <-]].
  destruct (indicator_network_kind i) as [t|]; [|by intros [= <-]].
  intros ([r1 x] & E & H)%outcome_bind_Done_inv. apply outcome_bind_Done_inv in H as (u & _ & H). injection H as <-. revert E.
  destruct (t =? LK_Arp); [apply Ha|]. destruct (t =? LK_Ipv4); [apply Hi|done].
Qed.

(** Only the settings decide what a frame is. *)
Lemma serves_settings r r' ip : settings r' = settings r -> serves r' ip = serves r ip.
Proof. intros [= E1 E2 _ _ _]. unfold serves. by rewrite E1, E2. Qed.

Lemma is_foreign_settings r r' frame : settings r' = settings r -> is_foreign r' frame = is_foreign r frame.
Proof.
  intros E. unfold is_foreign. destruct (indicator_from frame) as [i|]; [|done].
  destruct (ind_network i) as [[]|]; try done; rewrite (serves_settings r r') by done; [|done].
  by injection E as _ _ -> _ _.
Qed.

Lemma tcp_frame_settings r r' frame i tcp payload :
  settings r' = settings r -> tcp_frame r frame i tcp payload -> tcp_frame r' frame i tcp payload.
Proof.
  intros E [H1 (ipv4 & H2 & H3 & H4) H5 H6]. constructor; [done| |done|done].
  exists ipv4. by rewrite (serves_settings r r').
Qed.
End stream.
