(* ===== verification/Isolation.v ===== *)
(** * Connections do not disturb each other

    Whatever frame the redirector handles, with an error or without, at most
    the connection of its segment changes, or that of the segment that the frame
    completes when it is a fragment: every other connection keeps what the proxy
    was handed, its receive state and what its state at the forwarder
    acknowledges, reports and can hold.  The statements need no invariant and
    hold for every schedule of the tasks and every answer of the device. *)

From S2P Require Import Prelude SeqArith Ring Queue Window TxState RxState Socks Pnet Wire Layers Packet Frames Forwarder Flow Crates Redirector Preserve Workers Conn Session Dispatch Stream.

Section isolation.
Context {P : Pnet} {L : PnetLaws P} {D : Device} {N : IpNetwork} {C : Lru}.

(** ** Projections *)

(** What belongs to a connection. *)
Definition conn_view (key : conn_key) (r : Redirector)
  : option (SocketAddrV4 * option (list byte)) * option TcpRxState * option tx_view :=
  (sw_view <$> rd_streams r !! key, rd_states r !! key, tx_view_of <$> fw_states (rd_tx r) !! key).

(** What belongs to the UDP ports. *)
Definition bind_view (r : Redirector) : gmap Z (Z * Z * list (list byte)) * gmap SocketAddrV4 Z * LruCache :=
  (dw_view <$> rd_datagrams r, rd_datagram_map r, rd_udp_lru r).

(** ** The forwarder *)

(** A method that does not change what the state of the connection decides. *)
Definition blind (key : conn_key) {A} (m : FM A) : Prop :=
  forall f f' x, m f = Done (f', x) -> tx_view_of <$> fw_states f' !! key = tx_view_of <$> fw_states f !! key.

Lemma blind_bind key {A B} (m : FM A) (k : A -> FM B) : blind key m -> (forall a, blind key (k a)) -> blind key (mbind k m).
Proof.
  intros Hm Hk f f' x. unfold mbind, FM_bind. destruct (m f) as [[f1 [a|e]]| |] eqn:E; [|intros [= <- <-]|done..].
  - intros H. rewrite (Hk a _ _ _ H). by eapply Hm.
  - by eapply Hm.
Qed.

Lemma blind_keeps key {A} (m : FM A) Q : (forall c, keeps c m Q) -> blind key m.
Proof.
  intros Hm f f' x E. pose proof (keeps_frame m Q f f' x (Hm _) E) as Ef.
  destruct (fw_states f !! key) as [s|] eqn:Es, (fw_states f' !! key) as [s'|] eqn:Es'; [|exfalso..|done].
  - cbn. f_equal. eapply frame_view, frame_lookup; [exact Ef|exact Es|exact Es'].
  - injection Ef as _ _ _ _ _ Ef. apply (f_equal (lookup key)) in Ef. by rewrite !lookup_fmap, Es, Es' in Ef.
  - injection Ef as _ _ _ _ _ Ef. apply (f_equal (lookup key)) in Ef. by rewrite !lookup_fmap, Es, Es' in Ef.
Qed.

Lemma blind_lift key {A} (o : outcome A) : blind key (fm_lift o).
Proof. intros f f' x (a & _ & H)%outcome_bind_Done_inv. by injection H as <- <-. Qed.

Lemma blind_ret key {A} (a : A) : blind key (mret a).
Proof. by intros f f' x [= <- <-]. Qed.

Lemma blind_state key k : blind key (fm_state k).
Proof. intros f f' x (a & _ & H)%outcome_bind_Done_inv. by injection H as <- <-. Qed.

Lemma blind_put key k s : k <> key -> blind key (fm_put_state k s).
Proof. intros Hne f f' x [= <- <-]. cbn. by rewrite lookup_insert_ne. Qed.

Lemma blind_update key (g : Forwarder -> Forwarder) :
  (forall f, fw_states (g f) !! key = fw_states f !! key) -> blind key (fm_update g).
Proof. intros Hg f f' x [= <- <-]. by rewrite Hg. Qed.

Lemma blind_state_update key k g : k <> key -> blind key (tx_state_update k g).
Proof.
  intros Hne. apply blind_bind; [apply blind_state|intros s]. apply blind_bind; [apply blind_lift|intros s1]. by apply blind_put.
Qed.

(** A state that is put back with the same view. *)
Lemma blind_same key k (g : TcpTxState -> TcpTxState) :
  (forall s, tx_view_of (g s) = tx_view_of s) -> blind key (s ← fm_state k; fm_put_state k (g s)).
Proof.
  intros Hg f f' x. unfold mbind, FM_bind, fm_state. destruct (fw_states f !! k) as [s|] eqn:Es; cbn; [|done].
  intros [= <- <-]. cbn. destruct (decide (k = key)) as [<-|Hne]; [|by rewrite lookup_insert_ne].
  rewrite lookup_insert_eq, Es. cbn. by rewrite Hg.
Qed.

Create HintDb blind.
#[local] Hint Resolve blind_lift blind_ret blind_state blind_state_update : blind.
#[local] Hint Extern 3 (blind _ _) => (eapply blind_keeps; intros ?; solve [eauto using
  keeps_send_tcp_ack_0, keeps_send_tcp_ack_syn, keeps_send_tcp_ack_rst, keeps_send_tcp_rst, keeps_send_tcp_ack,
  keeps_retransmit_tcp_ack, keeps_retransmit_without, keeps_retransmit_timedout, keeps_send_udp, keeps_forward,
  keeps_send_arp_reply]) : blind.

Lemma fm_state_None key f : fw_states f !! key = None -> fm_state key f = Panic.
Proof. intros E. unfold fm_state. by rewrite E. Qed.

Lemma blind_close key now dst src : blind key (forwarder_close now dst src).
Proof.
  intros f f' x. unfold forwarder_close. set (k := (src, dst)). intros H.
  assert (Hassoc : ((_ ← (s ← fm_state k; fm_put_state k (tx_append_queue_fin s)); send_tcp_ack now dst src) : FM unit) f = Done (f', x)).
  { destruct (fw_states f !! k) as [s|] eqn:Es.
    - rewrite (fm_bind_Ok _ _ _ _ _ (fm_state_Done _ _ _ Es)) in H.
      by erewrite fm_bind_Ok by (rewrite (fm_bind_Ok _ _ _ _ _ (fm_state_Done _ _ _ Es)); reflexivity).
    - pose proof (fm_state_None k f Es) as En. revert H. unfold mbind at 1, FM_bind at 1.
      change (fm_state (src, dst) f) with (fm_state k f). by rewrite En. }
  revert Hassoc. apply blind_bind; [|intros ?; eauto with blind]. apply blind_same. by intros [].
Qed.

Lemma blind_open key now dst src : blind key (forwarder_open now dst src).
Proof.
  unfold forwarder_open. apply blind_bind; [eauto with blind|intros ?]. apply blind_same. by intros [].
Qed.

(** ** The tasks *)

Lemma run_worker_conn key ev r r' : run_worker ev r = Done r' -> conn_view key r' = conn_view key r.
Proof.
  destruct ev as [k now answer|k now|port answer]; cbn [run_worker].
  - destruct (rd_streams r !! k) as [w|] eqn:E; [|by intros [= <-]].
    intros ([w' f] & Ew & H)%outcome_bind_Done_inv. injection H as <-. unfold conn_view. cbn.
    assert (Hf : tx_view_of <$> fw_states f !! key = tx_view_of <$> fw_states (rd_tx r) !! key /\ sw_view w' = sw_view w).
    { revert Ew. unfold stream_task_read. destruct (sw_task w); [|by intros [= <- <-]]. destruct answer as [bytes|e].
      - destruct (sw_is_read_closed w); [by intros [= <- <-]|]. destruct (len bytes =? 0).
        + cbv zeta. destruct (MAX_RECV_ZERO <? _); [|by intros [= <- <-]].
          intros ([f1 x] & Ec & H)%outcome_bind_Done_inv. injection H as <- <-. split; [|done]. exact (blind_close key _ _ _ _ _ _ Ec).
        + intros ([f1 x] & Ec & H)%outcome_bind_Done_inv. injection H as <- <-. split; [|done].
          eapply blind_keeps, Ec. intros c. apply keeps_forward.
      - destruct (bool_decide _); [destruct (sw_is_read_closed w)|]; by intros [= <- <-]. }
    destruct Hf as [-> Hv]. destruct (decide (k = key)) as [<-|Hne]; [|by rewrite lookup_insert_ne].
    rewrite lookup_insert_eq, E. cbn. by rewrite Hv.
  - destruct (rd_streams r !! k) as [w|]; [|by intros [= <-]]. intros (f & Ef & H)%outcome_bind_Done_inv. injection H as <-.
    unfold conn_view. cbn. revert Ef. unfold stream_task_tick. destruct (sw_is_read_closed w); [by intros [= <-]|].
    intros ([f1 x] & Ec & H)%outcome_bind_Done_inv. injection H as <-. f_equal.
    eapply blind_keeps, Ec. intros c. apply keeps_retransmit_timedout.
  - destruct (rd_datagrams r !! port) as [w|]; [|by intros [= <-]]. intros ([w' f] & Ew & H)%outcome_bind_Done_inv. injection H as <-.
    unfold conn_view. cbn. f_equal. revert Ew. unfold datagram_task_recv. destruct (dw_task w); [|by intros [= _ <-]].
    destruct answer as [d|e]; [|destruct (bool_decide _); [destruct (dw_is_closed w)|]; by intros [= _ <-]].
    intros ([[socks buffer] [size addr]] & _ & H)%outcome_bind_Done_inv. revert H. cbv zeta. cbn [dw_is_closed dw_with_buffers].
    destruct (dw_is_closed w); [by intros [= _ <-]|]. intros (payload & _ & H)%outcome_bind_Done_inv.
    revert H. intros ([f1 x] & Ec & H)%outcome_bind_Done_inv. injection H as _ <-.
    eapply blind_keeps, Ec. intros c. apply keeps_send_udp.
Qed.

Lemma run_worker_bind ev r r' : run_worker ev r = Done r' -> bind_view r' = bind_view r.
Proof.
  destruct ev as [k now answer|k now|port answer]; cbn [run_worker].
  - destruct (rd_streams r !! k); [|by intros [= <-]]. intros ([w f] & _ & H)%outcome_bind_Done_inv. by injection H as <-.
  - destruct (rd_streams r !! k); [|by intros [= <-]]. intros (f & _ & H)%outcome_bind_Done_inv. by injection H as <-.
  - destruct (rd_datagrams r !! port) as [w|] eqn:E; [|by intros [= <-]]. intros ([w' f] & Ew & H)%outcome_bind_Done_inv. injection H as <-.
    unfold bind_view. cbn. f_equal. f_equal. rewrite fmap_insert. apply insert_id. rewrite lookup_fmap, E. cbn. f_equal. symmetry.
    revert Ew. unfold datagram_task_recv. destruct (dw_task w); [|by intros [= <- _]].
    destruct answer as [d|e]; [|destruct (bool_decide _); [destruct (dw_is_closed w)|]; by intros [= <- _]].
    intros ([[socks buffer] [size addr]] & _ & H)%outcome_bind_Done_inv. revert H. cbv zeta. cbn [dw_is_closed dw_with_buffers].
    destruct (dw_is_closed w); [by intros [= <- _]|]. intros (payload & _ & H)%outcome_bind_Done_inv.
    revert H. intros ([f1 x] & Ec & H)%outcome_bind_Done_inv. by injection H as <- _.
Qed.

(** ** The handlers of one connection *)

Section one_connection.
Context (key : conn_key).

Lemma conn_turn_kept : preserves (conn_view key) rm_turn.
Proof. apply preserves_turn; [done|exact (run_worker_conn key)]. Qed.
#[local] Hint Resolve conn_turn_kept : preserves.

Lemma conn_tx_kept {A} (m : FM A) : blind key m -> preserves (conn_view key) (with_tx m).
Proof.
  intros Hm. apply preserves_with_tx; [apply conn_turn_kept|]. apply preserves_on_tx. intros r f x E.
  unfold conn_view. cbn. f_equal. by eapply Hm.
Qed.

Context (src dst : SocketAddrV4) (Hne : (src, dst) <> key).

Lemma conn_put_rx_kept s : preserves (conn_view key) (rm_put_rx (src, dst) s).
Proof. apply preserves_update. intros r. unfold conn_view. cbn. by rewrite lookup_insert_ne. Qed.

Lemma conn_put_stream_kept w : preserves (conn_view key) (rm_put_stream (src, dst) w).
Proof. apply preserves_update. intros r. unfold conn_view. cbn. by rewrite lookup_insert_ne. Qed.

Lemma conn_remove_stream_kept : preserves (conn_view key) (remove_stream (src, dst)).
Proof.
  unfold remove_stream. preserves_tac. apply preserves_update. intros r. unfold conn_view. cbn. by rewrite lookup_delete_ne.
Qed.

Lemma conn_delete_rx_kept : preserves (conn_view key) (rm_update (fun r => rd_with_states r (delete (src, dst) (rd_states r)))).
Proof. apply preserves_update. intros r. unfold conn_view. cbn. by rewrite lookup_delete_ne. Qed.

Lemma blind_clean_up : blind key (fm_update (fun f => fw_clean_up f dst src)).
Proof. apply blind_update. intros f. cbn. by rewrite lookup_delete_ne. Qed.

#[local] Hint Resolve conn_tx_kept conn_put_rx_kept conn_put_stream_kept conn_remove_stream_kept conn_delete_rx_kept : preserves.
#[local] Hint Resolve blind_clean_up : blind.
#[local] Hint Extern 4 (preserves _ (with_tx _)) => (apply conn_tx_kept; solve [eauto with blind]) : preserves.
#[local] Hint Extern 3 (blind _ (mbind _ _)) => (apply blind_bind; [|intros ?]; solve [eauto with blind]) : blind.

Lemma conn_clean_up_kept : preserves (conn_view key) (rd_clean_up src dst).
Proof. unfold rd_clean_up. preserves_tac. Qed.
#[local] Hint Resolve conn_clean_up_kept : preserves.

Lemma conn_send_kept env payload : preserves (conn_view key) (rm_send env (src, dst) payload).
Proof. unfold rm_send, rm_stream. preserves_tac. Qed.
#[local] Hint Resolve conn_send_kept : preserves.

Lemma blind_cache_size : blind key (fun f => n ← get_cache_size f dst src; Done (f, Ok (n =? 0))).
Proof. intros f f' x (n & _ & H)%outcome_bind_Done_inv. by injection H as <- <-. Qed.
#[local] Hint Resolve blind_cache_size : blind.

Context (tcp : Tcp) (Hsrc : tcp_source tcp = src) (Hdst : tcp_target tcp = dst).

Lemma conn_fin_kept payload : preserves (conn_view key) (handle_tcp_fin tcp payload).
Proof. unfold handle_tcp_fin, rm_rx_state, rm_stream. rewrite Hsrc, Hdst. preserves_tac. Qed.
#[local] Hint Resolve conn_fin_kept : preserves.

Lemma conn_data_kept env payload : preserves (conn_view key) (handle_tcp_data env tcp payload).
Proof. unfold handle_tcp_data, send_in_order, report_window, rm_rx_state. rewrite Hsrc, Hdst. preserves_tac. Qed.
#[local] Hint Resolve conn_data_kept : preserves.

Lemma conn_ack_only_kept env b : preserves (conn_view key) (handle_tcp_ack_only env tcp b).
Proof. unfold handle_tcp_ack_only, fast_retransmit, rm_rx_state. rewrite Hsrc, Hdst. preserves_tac. Qed.
#[local] Hint Resolve conn_ack_only_kept : preserves.

Lemma conn_ack_kept env payload : preserves (conn_view key) (handle_tcp_ack env tcp payload).
Proof. unfold handle_tcp_ack, rm_rx_state. rewrite Hsrc, Hdst. preserves_tac. Qed.

Lemma blind_admit env wscale recv_wscale sack_perm : blind key (admit_syn env tcp wscale recv_wscale sack_perm).
Proof.
  unfold admit_syn. rewrite Hsrc, Hdst. cbv zeta. apply blind_bind; [auto with blind|intros mss].
  apply blind_bind; [destruct mss; [by apply blind_update|auto with blind]|intros _].
  apply blind_bind; [auto with blind|intros t]. apply blind_update. intros f. cbn. by rewrite lookup_insert_ne.
Qed.
#[local] Hint Resolve blind_admit : blind.

Lemma conn_syn_kept env : preserves (conn_view key) (handle_tcp_syn env tcp).
Proof.
  unfold handle_tcp_syn, connect_stream, rm_await. rewrite Hsrc, Hdst. preserves_tac.
  all: apply preserves_forwarder; intros r f x; unfold stream_worker_connect; destruct (socks_connect _);
    [|by intros [= <- _]]; intros ([f1 y] & E & H)%outcome_bind_Done_inv; unfold conn_view; cbn; f_equal;
    rewrite <- (blind_open key _ _ _ _ _ _ E); by destruct y; injection H as <- _.
Qed.

Lemma conn_tcp_kept env payload : preserves (conn_view key) (handle_tcp env tcp payload).
Proof.
  unfold handle_tcp, handle_tcp_rst. rewrite Hsrc, Hdst. preserves_tac; [apply conn_ack_kept|apply conn_syn_kept].
Qed.
End one_connection.

(** ** The other handlers *)

Section all_connections.
Context (key : conn_key).
#[local] Hint Resolve conn_turn_kept : preserves.
#[local] Hint Extern 4 (preserves (conn_view _) (with_tx _)) =>
  (apply conn_tx_kept; first [solve [eauto with blind] | by apply blind_update]) : preserves.

Lemma conn_udp_kept env udp payload : preserves (conn_view key) (handle_udp env udp payload).
Proof.
  unfold handle_udp, bind_local_udp_port, associate_udp_port, reuse_udp_port, rm_await, rm_datagram, rm_put_datagram.
  preserves_tac.
Qed.

Lemma conn_icmpv4_kept icmpv4 : preserves (conn_view key) (handle_icmpv4 icmpv4).
Proof. unfold handle_icmpv4, unbind_local_udp_port. preserves_tac. Qed.

Lemma conn_join_kept src a : preserves (conn_view key) (join src a).
Proof. unfold join. preserves_tac. Qed.

Lemma conn_arp_kept indicator : preserves (conn_view key) (handle_arp indicator).
Proof. pose proof conn_join_kept as Hj. unfold handle_arp. preserves_tac. Qed.
End all_connections.

(** The connection of a transport layer. *)
Definition transport_key (transport : option Layers) : option conn_key :=
  match transport with Some (LTcp tcp) => Some (tcp_source tcp, tcp_target tcp) | _ => None end.

Lemma transport_isolated env transport payload key :
  transport_key transport <> Some key -> preserves (conn_view key) (handle_transport env transport payload).
Proof.
  intros Hk. unfold handle_transport. pose proof (conn_udp_kept key env) as Hu. pose proof (conn_icmpv4_kept key) as Hi.
  preserves_tac. eapply conn_tcp_kept; [|done|done]. intros E. apply Hk. cbn. by rewrite E.
Qed.

(** The UDP ports and the segments of a connection. *)
Lemma bind_tx_kept {A} (m : FM A) : preserves bind_view (with_tx m).
Proof. apply preserves_with_tx; [apply preserves_turn; [done|exact run_worker_bind]|]. by apply preserves_on_tx. Qed.

Lemma bind_turn_kept : preserves bind_view rm_turn.
Proof. apply preserves_turn; [done|exact run_worker_bind]. Qed.
#[local] Hint Resolve bind_tx_kept bind_turn_kept : preserves.

Lemma bind_fin_kept tcp payload : preserves bind_view (handle_tcp_fin tcp payload).
Proof.
  unfold handle_tcp_fin, rd_clean_up, remove_stream, rm_rx_state, rm_put_rx, rm_stream, rm_put_stream. preserves_tac.
Qed.
#[local] Hint Resolve bind_fin_kept : preserves.

Lemma bind_ack_kept env tcp payload : preserves bind_view (handle_tcp_ack env tcp payload).
Proof.
  unfold handle_tcp_ack, handle_tcp_data, handle_tcp_ack_only, send_in_order, report_window, fast_retransmit,
    rd_clean_up, remove_stream, rm_send, rm_stream, rm_put_stream, rm_rx_state, rm_put_rx. preserves_tac.
Qed.

Lemma bind_syn_kept env tcp : preserves bind_view (handle_tcp_syn env tcp).
Proof.
  unfold handle_tcp_syn, connect_stream, rd_clean_up, remove_stream, rm_await, rm_put_rx, rm_put_stream. preserves_tac.
  all: by apply preserves_forwarder.
Qed.

Lemma bind_tcp_kept env tcp payload : preserves bind_view (handle_tcp env tcp payload).
Proof.
  unfold handle_tcp, handle_tcp_rst, rd_clean_up, remove_stream. preserves_tac; [apply bind_ack_kept|apply bind_syn_kept].
Qed.

(** ** The connection of a frame *)

(** The connection of the segment that a fragment completes, when it does. *)
Definition completed_key (env : Env) (i : Indicator) (frame : list byte) (r : Redirector) : option conn_key :=
  match (n ← indicator_content_len i;
         cut ← slice frame 0 n;
         '(_, x) ← defraggler_add (env_now env) (rd_defrag r) i cut;
         match x with
         | Some frag => '(transport, _) ← fragmentation_concatenate frag; mret (transport_key transport)
         | None => mret None
         end) : outcome (option conn_key)
  with Done k => k | _ => None end.

(** The connection that a frame is about: that of the segment in it or, for a
    fragment, of the segment that it completes; of a source that is served. *)
Definition touched (env : Env) (frame : list byte) (r : Redirector) : option conn_key :=
  match indicator_from frame with
  | Some i =>
      match indicator_ipv4 i with
      | Some ipv4 =>
          if serves r (ipv4_src ipv4) then
            if ipv4_is_fragment ipv4 then completed_key env i frame r else transport_key (ind_transport i)
          else None
      | None => None
      end
  | None => None
  end.

(** A frame that is not for the redirector is about none. *)
Lemma foreign_untouched env frame r : is_foreign r frame = true -> touched env frame r = None.
Proof.
  unfold is_foreign, touched, indicator_ipv4. destruct (indicator_from frame) as [i|]; [|done].
  destruct (ind_network i) as [[]|]; try done. by destruct (serves r _).
Qed.

(** A frame with a whole segment is about its connection, whatever the state. *)
Lemma segment_touched env frame r i tcp payload :
  tcp_frame r frame i tcp payload -> touched env frame r = Some (tcp_source tcp, tcp_target tcp).
Proof.
  intros [Hi (ipv4 & En & Hs & Hf) Et _]. unfold touched, indicator_ipv4. by rewrite Hi, En, Hs, Hf, Et.
Qed.

(** The first step of a handler may change the redirector, but not the
    projection; what follows is to be looked at with the value of the step. *)
Lemma preserves_step {X A B} (p : Redirector -> X) (m : RM A) (k : A -> RM B) r r' x :
  preserves p m -> (forall r1 a, m r = Done (r1, Ok a) -> k a r1 = Done (r', x) -> p r' = p r1) ->
  mbind k m r = Done (r', x) -> p r' = p r.
Proof.
  intros Hm Hk. unfold mbind, RM_bind. destruct (m r) as [[r1 [a|e]]| |] eqn:E; [|intros [= <- <-]|done..].
  - intros H. rewrite (Hk _ _ eq_refl H). by eapply Hm.
  - by eapply Hm.
Qed.

Lemma rm_lift_inv {A} (o : outcome A) r r' a : rm_lift o r = Done (r', Ok a) -> r' = r /\ o = Done a.
Proof. intros (b & E & H)%outcome_bind_Done_inv. by injection H as <- <-. Qed.

Lemma packet_isolated env i ipv4 cut key r r' x :
  (forall transport, (if ipv4_is_fragment ipv4
     then exists d frag payload, defraggler_add (env_now env) (rd_defrag r) i cut = Done (d, Some frag)
            /\ fragmentation_concatenate frag = Done (transport, payload)
     else transport = ind_transport i) -> transport_key transport <> Some key) ->
  handle_packet env i ipv4 cut r = Done (r', x) -> conn_view key r' = conn_view key r.
Proof.
  intros Hk. unfold handle_packet. destruct (ipv4_is_fragment ipv4).
  2: { by apply transport_isolated, Hk. }
  apply preserves_step; [apply preserves_read_pair|]. intros r1 [d frag] ([d1 frag1] & E & H)%outcome_bind_Done_inv.
  injection H as <- -> ->. apply preserves_step; [by apply preserves_update|]. intros r2 u [= <- <-].
  destruct frag as [frag|]; [|by intros [= <- <-]].
  apply preserves_step; [apply preserves_lift|]. intros r3 [transport payload] [-> Ec]%rm_lift_inv.
  eapply transport_isolated, Hk. by exists d, frag, payload.
Qed.

Lemma ipv4_isolated env i ipv4 frame key r r' x :
  indicator_from frame = Some i -> indicator_ipv4 i = Some ipv4 -> touched env frame r <> Some key ->
  handle_ipv4 env i frame r = Done (r', x) -> conn_view key r' = conn_view key r.
Proof.
  intros Hi Hv. unfold touched, completed_key. rewrite Hi, Hv. unfold handle_ipv4. rewrite Hv. cbv zeta.
  intros Hk. apply preserves_step; [apply preserves_get|]. intros r1 b [= <- <-]. fold (serves r (ipv4_src ipv4)) in *.
  destruct (serves r (ipv4_src ipv4)); [|by intros [= <- <-]].
  apply preserves_step; [apply preserves_get|]. intros r1 is_set [= <- <-].
  set (first := if negb (rd_is_tx_src_hardware_addr_set r) then _ else _).
  assert (Hf : forall X (p : Redirector -> X), (forall src a, preserves p (join src a)) -> preserves p first)
    by (intros X p Hj; unfold first; preserves_tac).
  apply preserves_step; [apply Hf, conn_join_kept|]. intros r1 u E1.
  assert (Ed : rd_defrag r1 = rd_defrag r) by exact (f_equal snd (Hf _ rest rest_join _ _ _ E1)).
  apply preserves_step; [apply preserves_lift|]. intros r2 n [-> En]%rm_lift_inv.
  apply preserves_step; [apply preserves_lift|]. intros r2 cut [-> Ec]%rm_lift_inv.
  rewrite En, outcome_bind_Done, Ec, outcome_bind_Done in Hk. apply packet_isolated. intros transport.
  destruct (ipv4_is_fragment ipv4); [|by intros ->]. intros (d & frag & payload & Ea & Et). rewrite Ed in Ea.
  by rewrite Ea, outcome_bind_Done, Et in Hk.
Qed.

(** The same as a lemma, for the runs. *)
Lemma frame_view_kept (env : Env) (frame : list byte) (r r' : Redirector) (key : conn_key) :
  handle_frame env frame r = Done r' -> touched env frame r <> Some key -> conn_view key r' = conn_view key r.
Proof.
  unfold handle_frame. destruct (indicator_from frame) as [i|] eqn:Hi; [|by intros [= <-]].
  destruct (indicator_network_kind i) as [t|] eqn:Et; [|by intros [= <-]].
  intros ([r1 x] & E & H)%outcome_bind_Done_inv Hk. apply outcome_bind_Done_inv in H as (u & _ & H). injection H as <-. revert E.
  destruct (t =? LK_Arp); [apply conn_arp_kept|]. destruct (t =? LK_Ipv4); [|done].
  destruct (indicator_ipv4 i) as [ipv4|] eqn:Hv; [by eapply ipv4_isolated|].
  unfold handle_ipv4. rewrite Hv. by intros [= <- <-].
Qed.

(** ** Theorems *)

(** C5. A frame changes no connection but its own: when the redirector has
    handled it, with success or with an error, every connection other than the
    one the frame is about has the same bytes at the proxy, the same receive
    state and, at the forwarder, the same acknowledgement, window, reports and
    room as before, whatever the tasks of the workers did and whatever the
    device and the proxy answered.  The one it is about, [touched], is that of
    the segment in the frame or, for a fragment, that of the segment that it
    completes; a frame of a source that is not served, one without a segment and
    a fragment that completes none are about no connection. *)
Theorem frame_isolated (env : Env) (frame : list byte) (r r' : Redirector) (key : conn_key) :
  handle_frame env frame r = Done r' -> touched env frame r <> Some key -> conn_view key r' = conn_view key r.
Proof. apply frame_view_kept. Qed.
End isolation.

(** ** Example *)

(** The segment of the example changes its own connection only. *)
Lemma touched_example : touched (env_example (Ok tt)) tcp_frame_example rd_open = Some ((1, 1), (2, 2)).
Proof. vm_compute. reflexivity. Qed.

Lemma frame_isolated_witness :
  exists r', handle_frame (D := black_hole) (env_example (Ok tt)) tcp_frame_example rd_open = Done r'
    /\ conn_view ((1, 1), (2, 3)) r' = conn_view ((1, 1), (2, 3)) rd_open.
Proof.
  destruct frame_example_handled as [r' E]. exists r'. split; [exact E|].
  apply (frame_isolated (D := black_hole) (env_example (Ok tt)) tcp_frame_example rd_open r' ((1, 1), (2, 3)) E).
  rewrite touched_example. discriminate.
Defined.
