(* ===== verification/Ports.v ===== *)
(** * UDP through the redirector

    The ports that the redirector binds for the sources of datagrams: a map
    from the source to the port, an LRU from the port to the source and the
    workers by port.  Binding and unbinding refine operations on one list, the
    bindings with the most recently used first; datagrams of a source go to the
    worker of its port and the answers of the proxy go back. *)

From S2P Require Import Prelude SeqArith Ring Queue Window TxState RxState Socks Pnet Wire Layers Packet Frames Forwarder Flow Crates Redirector Workers.

(** ** The specification *)

(** Bindings, the most recently used first. *)
Definition bindings : Type := list (Z * SocketAddrV4).

Definition port_of (src : SocketAddrV4) (l : bindings) : option Z :=
  fst <$> head (filter (fun e => e.2 = src) l).

(** A source that is bound keeps its port.  Another one gets the port that the
    proxy association gives, while there is room; otherwise the port of the
    least recently used source. *)
Definition bind_spec (cap : Z) (answer : io_result (Z * option SocketAddrV4)) (src : SocketAddrV4) (l : bindings)
  : bindings * io_result Z :=
  match port_of src l with
  | Some port => ((port, src) :: without port l, Ok port)
  | None =>
      match (if len l <? cap then answer else Err (mkIoError EOther "cannot bind UDP port")) with
      | Ok (port, _) => ((port, src) :: l, Ok port)
      | Err e =>
          match last l with
          | Some (port, _) => ((port, src) :: removelast l, Ok port)
          | None => (l, Err e)
          end
      end
  end.

(** The source that each port's answers go to, packed as the code keeps it:
    only the worker of a new port gets the source; a port that changes hands
    keeps its worker and with it the previous source. *)
Definition sources_spec (cap : Z) (answer : io_result (Z * option SocketAddrV4)) (src : SocketAddrV4) (l : bindings)
    (sources : gmap Z Z) : gmap Z Z :=
  match port_of src l with
  | Some _ => sources
  | None =>
      match (if len l <? cap then answer else Err (mkIoError EOther "cannot bind UDP port")) with
      | Ok (port, _) => <[port := socket_addr_v4_to_u64 src]> sources
      | Err _ => sources
      end
  end.

Definition unbind_spec (src : SocketAddrV4) (l : bindings) : bindings :=
  match port_of src l with Some port => without port l | None => l end.

(** ** Lemmas on bindings *)

Lemma elem_of_without e k (l : bindings) : e ∈ without k l <-> e ∈ l /\ e.1 <> k.
Proof. unfold without. rewrite list_elem_of_filter. tauto. Qed.

Lemma without_keys k (l : bindings) : NoDup l.*1 -> NoDup (without k l).*1 /\ k ∉ (without k l).*1.
Proof.
  intros H. split.
  - unfold without. induction l as [|[a v] l IH]; [constructor|]. rewrite fmap_cons in H. apply NoDup_cons in H as [Ha Hl].
    rewrite filter_cons. destruct (decide _); [|by apply IH]. rewrite fmap_cons. apply NoDup_cons. split; [|by apply IH].
    intros (e & E & [_ He]%list_elem_of_filter)%list_elem_of_fmap. apply Ha, list_elem_of_fmap. by exists e.
  - intros (e & E & [_ He]%elem_of_without)%list_elem_of_fmap. congruence.
Qed.

Lemma len_without k v (l : bindings) : NoDup l.*1 -> (k, v) ∈ l -> len (without k l) = len l - 1.
Proof.
  unfold without. induction l as [|[a w] l IH]; [by intros _ ?%elem_of_nil|]. rewrite fmap_cons.
  intros [Ha Hl]%NoDup_cons Hin. rewrite filter_cons, len_cons. cbn [fst]. destruct (decide (a <> k)) as [Hne|Heq].
  - rewrite len_cons, IH; [lia|done|]. apply elem_of_cons in Hin as [[= <- _]|Hin]; [done|done].
  - destruct (decide (a = k)) as [->|]; [|done]. fold (without k l). rewrite without_id by done. lia.
Qed.

Lemma port_of_Some src (l : bindings) port :
  port_of src l = Some port -> (port, src) ∈ l.
Proof.
  unfold port_of. destruct (filter _ l) as [|e k] eqn:E; [done|]. cbn. intros [= <-].
  assert (H : e ∈ filter (fun e => e.2 = src) l) by (rewrite E; apply elem_of_cons; by left).
  apply list_elem_of_filter in H as [Hs Hin]. destruct e. simpl in *. by subst.
Qed.

Lemma port_of_None src (l : bindings) : port_of src l = None -> forall port, (port, src) ∉ l.
Proof.
  unfold port_of. destruct (filter _ l) as [|e k] eqn:E; [|done]. intros _ port Hin.
  assert (H : (port, src) ∈ filter (fun e => e.2 = src) l) by (by apply list_elem_of_filter).
  rewrite E in H. by apply elem_of_nil in H.
Qed.

Lemma exists_last_or_nil {A} (l : list A) : l = [] \/ exists k x, l = k ++ [x].
Proof. destruct l as [|x l] using rev_ind; [by left|right; by eexists _, _]. Qed.

Lemma len_zeros_u16 : len (zeros u16_max) = u16_max.
Proof. rewrite len_zeros. ilia. Qed.

Section ports.
Context {P : Pnet} {L : PnetLaws P} {D : Device} {N : IpNetwork} {C : Lru} {CL : LruLaws C}.

(** ** The invariant *)

Definition items (r : Redirector) : bindings := lru_items (rd_udp_lru r).

(** The map and the LRU hold the same bindings, every port and every source
    once, and every port has its worker. *)
Record ports_ok (r : Redirector) : Prop := {
  po_keys : NoDup (items r).*1;
  po_room : len (items r) <= lru_cap (rd_udp_lru r);
  po_map : forall src port, rd_datagram_map r !! src = Some port <-> (port, src) ∈ items r;
  po_workers : forall port src, (port, src) ∈ items r -> is_Some (rd_datagrams r !! port)
}.

Definition worker_sources (r : Redirector) : gmap Z Z := dw_src <$> rd_datagrams r.

Lemma sources_quiet r r' : quiet r r' -> worker_sources r' = worker_sources r.
Proof.
  intros [_ _ _ Hd _ _ _]. unfold worker_sources.
  assert (E : forall m : gmap Z DatagramWorker, dw_src <$> m = (fun v : Z * Z * list (list byte) => v.1.1) <$> (dw_view <$> m))
    by (intros m; by rewrite <- map_fmap_compose).
  rewrite !E. exact (f_equal (fmap _) Hd).
Qed.

(** The map is the search in the list. *)
Lemma ports_lookup r src : ports_ok r -> rd_datagram_map r !! src = port_of src (items r).
Proof.
  intros [_ _ Hm _]. destruct (port_of src (items r)) as [port|] eqn:E.
  - by apply Hm, port_of_Some.
  - destruct (rd_datagram_map r !! src) as [port|] eqn:Em; [|done]. apply Hm in Em.
    by apply (port_of_None src (items r) E) in Em.
Qed.

Lemma ports_source_unique r port port' src :
  ports_ok r -> (port, src) ∈ items r -> (port', src) ∈ items r -> port = port'.
Proof. intros [_ _ Hm _] H1%Hm H2%Hm. congruence. Qed.

Lemma keys_unique (l : bindings) port src src' :
  NoDup l.*1 -> (port, src) ∈ l -> (port, src') ∈ l -> src = src'.
Proof.
  induction l as [|[a v] l IH]; [by intros _ ?%elem_of_nil|]. rewrite fmap_cons. intros [Ha Hl]%NoDup_cons H1 H2.
  assert (Hno : forall x, (a, x) ∈ l -> False) by (intros x Hx; apply Ha, list_elem_of_fmap; by exists (a, x)).
  apply elem_of_cons in H1 as [[= -> ->]|H1]; apply elem_of_cons in H2 as [E|H2].
  - by injection E.
  - by destruct (Hno _ H2).
  - injection E as -> ->. by destruct (Hno _ H1).
  - by apply IH.
Qed.

(** ** Binding *)

Lemma ports_cons r' port src (l : bindings) :
  items r' = (port, src) :: l -> NoDup l.*1 -> port ∉ l.*1 -> 1 + len l <= lru_cap (rd_udp_lru r') ->
  (forall s p, rd_datagram_map r' !! s = Some p <-> (p, s) = (port, src) \/ (p, s) ∈ l) ->
  (forall p s, (p, s) = (port, src) \/ (p, s) ∈ l -> is_Some (rd_datagrams r' !! p)) -> ports_ok r'.
Proof.
  intros E Hn Hp Hr Hm Hw. constructor; rewrite E.
  - rewrite fmap_cons. by apply NoDup_cons.
  - rewrite len_cons. lia.
  - intros s p. rewrite Hm, elem_of_cons. done.
  - intros p s. rewrite elem_of_cons. apply Hw.
Qed.

(** The invariant of the other components does not see the bindings. *)
Lemma rd_ok_udp r m l : rd_ok r -> rd_ok (rd_with_udp r m l).
Proof. intros Hok. by apply (fits_same 0 r); [done..|apply Hok|]. Qed.

Lemma rd_ok_datagrams r m : rd_ok r -> map_Forall (fun _ w => dw_ok w) m -> rd_ok (rd_with_datagrams r m).
Proof. intros Hok Hm. by apply (fits_same 0 r). Qed.

Lemma ports_quiet r r' : quiet r r' -> ports_ok r -> ports_ok r' /\ items r' = items r.
Proof.
  intros [_ _ _ Hd Hm Hl _] [H1 H2 H3 H4]. assert (Ei : items r' = items r) by (unfold items; by rewrite Hl).
  split; [|done]. constructor; rewrite ?Ei; [done|by rewrite Hl|by rewrite Hm|].
  intros port src Hin. specialize (H4 port src Hin). apply (f_equal (lookup port)) in Hd. rewrite !lookup_fmap in Hd.
  destruct H4 as [w Ew]. rewrite Ew in Hd. destruct (rd_datagrams r' !! port); [done|done].
Qed.

(** A source that is bound: its port becomes the most recently used one. *)
Lemma bind_touch r src port :
  ports_ok r -> port_of src (items r) = Some port ->
  ports_ok (rd_with_udp r (rd_datagram_map r) (lru_get (rd_udp_lru r) port))
  /\ items (rd_with_udp r (rd_datagram_map r) (lru_get (rd_udp_lru r) port)) = (port, src) :: without port (items r).
Proof.
  intros [H1 H2 H3 H4] Hp%port_of_Some.
  assert (Ei : items (rd_with_udp r (rd_datagram_map r) (lru_get (rd_udp_lru r) port))
    = (port, src) :: without port (items r)) by (unfold items; cbn; by apply law_lru_get).
  split; [|done]. destruct (without_keys port (items r) H1) as [Hn Hk].
  assert (Hiff : forall s p, (p, s) ∈ items r <-> (p, s) = (port, src) \/ (p, s) ∈ without port (items r)).
  { intros s p. rewrite elem_of_without. cbn. split.
    - intros Hin. destruct (decide (p = port)) as [->|]; [left|by right].
      by rewrite (keys_unique _ _ _ _ H1 Hin Hp).
    - intros [[= -> ->]|[? _]]; done. }
  eapply ports_cons; [exact Ei|done|done| | |].
  - cbn. rewrite (len_without port src) by done. destruct (law_lru_cap (rd_udp_lru r) port src) as (_ & -> & _). lia.
  - intros s p. cbn. rewrite H3. apply Hiff.
  - intros p s Hin%Hiff. by eapply H4.
Qed.

(** A new port. *)
Lemma bind_new r src port :
  ports_ok r -> port_of src (items r) = None -> len (items r) < lru_cap (rd_udp_lru r) -> port ∉ (items r).*1 ->
  let r' := rd_with_udp (rd_with_datagrams r (<[port := datagram_worker_new src port]> (rd_datagrams r)))
              (<[src := port]> (rd_datagram_map r)) (lru_put (rd_udp_lru r) port src) in
  ports_ok r' /\ items r' = (port, src) :: items r.
Proof.
  intros [H1 H2 H3 H4] Hno Hroom Hp r'.
  assert (Ei : items r' = (port, src) :: items r) by (unfold items, r'; cbn; by apply law_lru_put_new).
  split; [|done]. pose proof (port_of_None _ _ Hno) as Hns.
  eapply ports_cons; [exact Ei|done|done| | |].
  - cbn. destruct (law_lru_cap (rd_udp_lru r) port src) as (-> & _). lia.
  - intros s p. cbn. rewrite lookup_insert_Some, H3. split.
    + intros [[-> ->]|[_ ?]]; [by left|by right].
    + intros [[= -> ->]|Hin]; [by left|]. right. split; [|done]. intros ->. by apply (Hns p).
  - intros p s Hin. cbn. destruct (decide (p = port)) as [->|Hne]; [rewrite lookup_insert_eq; by eexists|].
    rewrite lookup_insert_ne by done. destruct Hin as [[= -> ->]|Hin]; [done|by eapply H4].
Qed.

(** The port of the least recently used source. *)
Lemma bind_reuse r src l port prev :
  ports_ok r -> port_of src (items r) = None -> items r = l ++ [(port, prev)] ->
  let r' := rd_with_udp r (<[src := port]> (delete prev (rd_datagram_map r)))
              (lru_put (lru_pop_lru (rd_udp_lru r)).1 port src) in
  ports_ok r' /\ items r' = (port, src) :: l.
Proof.
  intros [H1 H2 H3 H4] Hno El r'. pose proof (port_of_None _ _ Hno) as Hns.
  destruct (law_lru_pop_lru (rd_udp_lru r) l (port, prev) El) as [Epop _].
  rewrite El in H1, H2, H4, Hns. rewrite fmap_app in H1. apply NoDup_app in H1 as (Hn & Hd & _).
  assert (Hk : port ∉ l.*1) by (intros Hin; apply (Hd _ Hin); cbn; apply elem_of_cons; by left).
  rewrite len_app, len_cons, len_nil in H2.
  destruct (law_lru_cap (rd_udp_lru r) port src) as (_ & _ & _ & Ecap).
  assert (Ei : items r' = (port, src) :: l).
  { unfold items, r'. cbn. rewrite law_lru_put_new; rewrite Epop; [done|done|rewrite Ecap; lia]. }
  split; [|done].
  assert (Hprev : forall p, (p, prev) ∈ l -> False).
  { intros p Hin. assert (E1 : rd_datagram_map r !! prev = Some p) by (apply H3; rewrite El; apply elem_of_app; by left).
    assert (E2 : rd_datagram_map r !! prev = Some port)
      by (apply H3; rewrite El; apply elem_of_app; right; by apply list_elem_of_singleton).
    rewrite E1 in E2. injection E2 as ->. apply Hk, list_elem_of_fmap. by exists (port, prev). }
  eapply ports_cons; [exact Ei|done|done| | |].
  - cbn. destruct (law_lru_cap (lru_pop_lru (rd_udp_lru r)).1 port src) as (-> & _). lia.
  - intros s p. cbn. rewrite lookup_insert_Some, lookup_delete_Some, H3, El, elem_of_app, list_elem_of_singleton. split.
    + intros [[-> ->]|(_ & Hne & [Hin|[= -> ->]])]; [by left|by right|done].
    + intros [[= -> ->]|Hin]; [by left|]. right. split; [intros ->; apply (Hns p); apply elem_of_app; by left|].
      split; [intros ->; by eapply Hprev|by left].
  - intros p s Hin. cbn. destruct Hin as [[= -> ->]|Hin].
    + apply (H4 port prev), elem_of_app. right. by apply list_elem_of_singleton.
    + apply (H4 p s), elem_of_app. by left.
Qed.

Lemma reuse_ok r src e :
  rd_ok r -> ports_ok r -> port_of src (items r) = None ->
  exists r', reuse_udp_port src e r
      = Done (r', match last (items r) with Some (port, _) => Ok port | None => Err e end)
    /\ rd_ok r' /\ ports_ok r' /\ lru_cap (rd_udp_lru r') = lru_cap (rd_udp_lru r)
    /\ items r' = match last (items r) with Some (port, _) => (port, src) :: removelast (items r) | None => items r end
    /\ rd_datagrams r' = rd_datagrams r.
Proof.
  intros Hok Hp Hno. unfold reuse_udp_port. erewrite rm_bind_Ok by reflexivity. rewrite law_lru_len. fold (items r).
  destruct (exists_last_or_nil (items r)) as [El|(l & [port prev] & El)]; rewrite El.
  { exists r. split; [done|]. by rewrite El. }
  rewrite last_snoc, removelast_last, len_app, len_cons, len_nil.
  destruct (Z.eqb_spec (len l + (1 + 0)) 0); [pose proof (len_nonneg l); lia|].
  erewrite rm_bind_Ok by reflexivity. destruct (law_lru_pop_lru (rd_udp_lru r) l (port, prev) El) as [_ Epop].
  erewrite rm_bind_Ok by (apply rm_lift_Done; by rewrite Epop). cbv beta iota.
  erewrite rm_bind_Ok by reflexivity. destruct (bind_reuse r src l port prev Hp Hno El) as [Hp' Ei].
  eexists. split; [reflexivity|]. split; [by apply rd_ok_udp|]. split; [exact Hp'|]. split; [|split; [exact Ei|done]].
  cbn. destruct (law_lru_cap (lru_pop_lru (rd_udp_lru r)).1 port src) as (-> & _).
  by destruct (law_lru_cap (rd_udp_lru r) port src) as (_ & _ & _ & ->).
Qed.

Lemma associate_ok env src r answer :
  rd_ok r -> ports_ok r -> port_of src (items r) = None -> len (items r) < lru_cap (rd_udp_lru r) ->
  socks_bind (rd_remote r) (rd_options r) (env_associate env) (env_reconnect env) = Done answer ->
  (forall port a, answer = Ok (port, a) -> port ∉ (items r).*1) ->
  exists r', associate_udp_port env src r = Done (r', Ok (match answer with Ok (port, _) => Ok port | Err e => Err e end))
    /\ rd_ok r' /\ ports_ok r' /\ lru_cap (rd_udp_lru r') = lru_cap (rd_udp_lru r)
    /\ items r' = match answer with Ok (port, _) => (port, src) :: items r | Err _ => items r end
    /\ worker_sources r' = match answer with Ok (port, _) => <[port := socket_addr_v4_to_u64 src]> (worker_sources r) | Err _ => worker_sources r end.
Proof.
  intros Hok Hp Hno Hroom Hans Hfresh. unfold associate_udp_port, rm_await.
  destruct (turn_quiet r Hok) as (r1 & E1 & Hok1 & Hq & _).
  destruct (ports_quiet r r1 Hq Hp) as [Hp1 Ei1]. pose proof (sources_quiet r r1 Hq) as Es1. destruct Hq as [_ _ _ _ _ El [Er Eo]].
  erewrite rm_bind_Ok by (rewrite (rm_bind_Ok _ _ _ _ _ E1); reflexivity).
  erewrite rm_bind_Ok by (by rewrite Er, Eo, Hans). cbv beta.
  destruct answer as [[port a]|e].
  - erewrite rm_bind_Ok by reflexivity. erewrite rm_bind_Ok by reflexivity.
    destruct (bind_new r1 src port) as [Hp2 Ei2]; [done|by rewrite Ei1|by rewrite Ei1, El|rewrite Ei1; by eapply Hfresh|].
    eexists. split; [reflexivity|]. split; [|split; [exact Hp2|split; [|split; [by rewrite <- Ei1|]]]].
    + apply rd_ok_udp, rd_ok_datagrams; [done|].
      intros k v. cbn. intros [[<- <-]|[_ Ek]]%lookup_insert_Some; [|by eapply (ro_datagrams _ _ Hok1)]. split; apply len_zeros_u16.
    + cbn. destruct (law_lru_cap (rd_udp_lru r1) port src) as (-> & _). by rewrite El.
    + unfold worker_sources. cbn. rewrite fmap_insert. f_equal. exact Es1.
  - exists r1. split; [done|]. split; [done|]. split; [done|]. by rewrite El.
Qed.

(** What the outside promises for a binding: the proxy's answer can be handled,
    and the operating system gives no port that is in use. *)
Record bind_ok (env : Env) (r : Redirector) (answer : io_result (Z * option SocketAddrV4)) : Prop := {
  bo_answer : socks_bind (rd_remote r) (rd_options r) (env_associate env) (env_reconnect env) = Done answer;
  bo_fresh : forall port a, answer = Ok (port, a) -> port ∉ (items r).*1
}.

Lemma bind_refines env src r answer :
  rd_ok r -> ports_ok r -> bind_ok env r answer ->
  let spec := bind_spec (lru_cap (rd_udp_lru r)) answer src (items r) in
  exists r', bind_local_udp_port env src r = Done (r', spec.2)
    /\ items r' = spec.1 /\ lru_cap (rd_udp_lru r') = lru_cap (rd_udp_lru r) /\ rd_ok r' /\ ports_ok r'
    /\ worker_sources r' = sources_spec (lru_cap (rd_udp_lru r)) answer src (items r) (worker_sources r).
Proof.
  intros Hok Hp [Hans Hfresh] spec. unfold spec, bind_spec, sources_spec, bind_local_udp_port.
  erewrite rm_bind_Ok by reflexivity. rewrite (ports_lookup r src Hp).
  destruct (port_of src (items r)) as [port|] eqn:Eno.
  { erewrite rm_bind_Ok by reflexivity. destruct (bind_touch r src port Hp Eno) as [Hp' Ei].
    eexists. split; [reflexivity|]. split; [exact Ei|]. split; [|split; [by apply rd_ok_udp|split; [exact Hp'|done]]].
    cbn. by destruct (law_lru_cap (rd_udp_lru r) port src) as (_ & -> & _). }
  erewrite rm_bind_Ok by reflexivity. rewrite law_lru_len. fold (items r).
  destruct (Z.ltb_spec (len (items r)) (lru_cap (rd_udp_lru r))) as [Hroom|Hfull].
  - destruct (associate_ok env src r answer Hok Hp Eno Hroom Hans Hfresh) as (r1 & E1 & Hok1 & Hp1 & Ec1 & Ei1 & Es1).
    rewrite (rm_bind_Ok _ _ _ _ _ E1). destruct answer as [[port a]|e]; [by exists r1|].
    destruct (reuse_ok r1 src e Hok1 Hp1) as (r2 & E2 & Hok2 & Hp2 & Ec2 & Ei2 & Ed2); [by rewrite Ei1|].
    rewrite Ei1 in E2, Ei2. exists r2. rewrite E2, Ei2, Ec2, Ec1. rewrite <- Es1. unfold worker_sources. rewrite Ed2. by destruct (last (items r)) as [[port prev]|].
  - erewrite rm_bind_Ok by reflexivity.
    destruct (reuse_ok r src (mkIoError EOther "cannot bind UDP port") Hok Hp Eno) as (r2 & E2 & Hok2 & Hp2 & Ec2 & Ei2 & Ed2).
    exists r2. rewrite E2, Ei2, Ec2. unfold worker_sources. rewrite Ed2. by destruct (last (items r)) as [[port prev]|].
Qed.

(** The port that is returned is bound to the source, and has a worker. *)
Lemma bind_spec_bound cap answer src (l : bindings) port :
  (bind_spec cap answer src l).2 = Ok port -> (port, src) ∈ (bind_spec cap answer src l).1.
Proof.
  unfold bind_spec. destruct (port_of src l); [intros [= <-]; apply elem_of_cons; by left|].
  destruct (if len l <? cap then answer else _) as [[q a]|e]; [intros [= <-]; apply elem_of_cons; by left|].
  destruct (last l) as [[q prev]|]; [intros [= <-]; apply elem_of_cons; by left|done].
Qed.

(** Unbinding. *)
Lemma unbind_ok (icmpv4 : Icmpv4) (src : SocketAddrV4) (r : Redirector) :
  rd_ok r -> ports_ok r ->
  icmpv4_is_destination_port_unreachable icmpv4 = true ->
  icmpv4_next_level_layer_kind icmpv4 = Done (Some LK_Udp) -> icmpv4_dst icmpv4 = Done (Some src) ->
  exists r', handle_icmpv4 icmpv4 r = Done (r', Ok tt)
    /\ items r' = unbind_spec src (items r) /\ rd_ok r' /\ ports_ok r'
    /\ port_of src (items r') = None
    /\ forall port, port_of src (items r) = Some port -> rd_datagrams r' !! port = None.
Proof.
  intros Hok Hp Hk Hn Hd. unfold handle_icmpv4. rewrite Hk.
  rewrite (rm_bind_Ok _ _ _ _ _ (rm_lift_Done _ _ _ Hn)). change (LK_Udp =? LK_Udp) with true. cbv iota.
  rewrite (rm_bind_Ok _ _ _ _ _ (rm_lift_Done _ _ _ Hd)). erewrite rm_bind_Ok by (by apply rm_lift_Done).
  unfold unbind_local_udp_port, unbind_spec. erewrite rm_bind_Ok by reflexivity. rewrite (ports_lookup r src Hp).
  destruct (port_of src (items r)) as [port|] eqn:Eno; [|by exists r].
  erewrite rm_bind_Ok by reflexivity. eexists. split; [reflexivity|].
  set (r' := rd_with_udp _ _ _). assert (Ei : items r' = without port (items r)) by (unfold items; cbn; apply law_lru_pop).
  pose proof (port_of_Some _ _ _ Eno) as Hin. pose proof Hp as [H1 H2 H3 H4].
  destruct (without_keys port (items r) H1) as [Hn' Hk'].
  assert (Hp' : ports_ok r').
  { constructor; rewrite ?Ei; [done| | |].
    - rewrite (len_without port src) by done. cbn. destruct (law_lru_cap (rd_udp_lru r) port src) as (_ & _ & -> & _). lia.
    - intros s p. cbn. rewrite lookup_delete_Some, H3, elem_of_without. cbn. split.
      + intros [Hne Hs]. split; [done|]. intros ->. by apply Hne, (keys_unique _ _ _ _ H1 Hin).
      + intros [Hs Hne]. split; [|done]. intros <-. by apply Hne, (ports_source_unique r _ _ src Hp).
    - intros p s [Hs Hne]%elem_of_without. cbn. rewrite lookup_delete_ne by done. by eapply H4. }
  split; [done|]. split; [|split; [done|split]].
  - apply rd_ok_udp, rd_ok_datagrams; [done|]. apply map_Forall_delete, Hok.
  - rewrite Ei. destruct (port_of src (without port (items r))) as [q|] eqn:Eq; [|done].
    apply port_of_Some, elem_of_without in Eq as [Hq Hne]. cbn in Hne.
    by destruct (Hne (ports_source_unique r _ _ src Hp Hq Hin)).
  - intros q [= <-]. cbn. apply lookup_delete_eq.
Qed.

(** A datagram. *)
Lemma udp_sent_ok (env : Env) (udp : Udp) (payload : list byte) (r : Redirector)
    (answer : io_result (Z * option SocketAddrV4)) :
  let src := (udp_src_ip_addr udp, udp_src udp) in
  let dst := (udp_dst_ip_addr udp, udp_dst udp) in
  let spec := bind_spec (lru_cap (rd_udp_lru r)) answer src (items r) in
  rd_ok r -> ports_ok r -> bind_ok env r answer ->
  is_u32 (udp_dst_ip_addr udp) -> is_u16 (udp_dst udp) -> HEADER_SIZE + len payload <= u16_max ->
  exists r' x, handle_udp env udp payload r = Done (r', x)
    /\ items r' = spec.1 /\ rd_ok r' /\ ports_ok r'
    /\ match spec.2 with
       | Err e => x = Err e
       | Ok port =>
           x = (match env_send_to env with Ok _ => Ok tt | Err e => Err e end)
           /\ exists w d, rd_datagrams r' !! port = Some w /\ rd_datagram_map r' !! src = Some port
                /\ last (dw_sent w) = Some d /\ proxy_datagram d dst payload
       end.
Proof.
  intros src dst spec Hok Hp Hb Hip Hport Hlen.
  destruct (bind_refines env src r answer Hok Hp Hb) as (r1 & E1 & Ei1 & _ & Hok1 & Hp1 & _). fold spec in E1, Ei1.
  unfold handle_udp. cbv zeta. fold src. destruct (spec.2) as [port|e] eqn:Es.
  2: { rewrite (rm_bind_Err _ _ _ _ _ E1). by exists r1, (Err e). }
  rewrite (rm_bind_Ok _ _ _ _ _ E1).
  assert (Hin : (port, src) ∈ items r1) by (rewrite Ei1; by apply bind_spec_bound).
  assert (Hw : forall r, ports_ok r -> (port, src) ∈ items r -> exists w, rm_datagram port r = Done (r, Ok w) /\ rd_datagrams r !! port = Some w).
  { intros r0 [_ _ _ H4] H0. destruct (H4 _ _ H0) as [w Ew]. exists w. split; [unfold rm_datagram; by rewrite Ew|done]. }
  destruct (Hw r1 Hp1 Hin) as (w1 & Ew1 & _). rewrite (rm_bind_Ok _ _ _ _ _ Ew1).
  destruct (turn_quiet r1 Hok1) as (r2 & E2 & Hok2 & Hq2 & _).
  destruct (ports_quiet r1 r2 Hq2 Hp1) as [Hp2 Ei2]. unfold rm_await.
  erewrite rm_bind_Ok by (rewrite (rm_bind_Ok _ _ _ _ _ E2); reflexivity).
  destruct (Hw r2 Hp2) as (w2 & Ew2 & El2); [by rewrite Ei2|]. rewrite (rm_bind_Ok _ _ _ _ _ Ew2).
  pose proof (socks_send_to_ok payload dst ltac:(change HEADER_SIZE with 10 in Hlen; ilia)) as Ed.
  erewrite rm_bind_Ok by (apply rm_lift_Done; unfold datagram_worker_send_to; fold dst; by rewrite Ed).
  cbv beta iota. erewrite rm_bind_Ok by reflexivity. eexists _, (match env_send_to env with Ok _ => Ok tt | Err e => Err e end).
  split; [by destruct (env_send_to env)|].
  set (r3 := rd_with_datagrams _ _).
  split; [by rewrite <- Ei1, <- Ei2|]. destruct Hp2 as [K1 K2 K3 K4]. pose proof (ro_datagrams _ _ Hok2) as Hg2.
  split; [|split].
  - apply rd_ok_datagrams; [done|]. intros k v. cbn. intros [[<- <-]|[_ Ek]]%lookup_insert_Some; [exact (Hg2 port w2 El2)|by eapply Hg2].
  - constructor; [done|done|done|]. intros p s Hps. cbn. destruct (decide (p = port)) as [->|Hne].
    + rewrite lookup_insert_eq. by eexists.
    + rewrite lookup_insert_ne by done. by eapply K4.
  - split; [done|]. eexists _, _. split; [cbn; apply lookup_insert_eq|]. split; [apply K3; by rewrite Ei2|].
    split; [cbn; apply last_snoc|]. split; [done|]. split; [done|]. split; [done|exact Ed].
Qed.

(** ** Theorems *)

(** C11. Binding a port refines the operation on the list of bindings: a source
    that is bound keeps its port and becomes the most recently used one; a new
    source gets a new port while there is room and the proxy associates, and
    otherwise the port of the least recently used source; only without any
    binding the error is returned.  The map and the LRU stay consistent and every
    bound port has a worker.  The source that a worker sends its answers to is
    set for a new port only: a port that is reused keeps the worker of the
    previous source, and that source with it. *)
Theorem udp_bind_refines (env : Env) (src : SocketAddrV4) (r : Redirector) (answer : io_result (Z * option SocketAddrV4)) :
  rd_ok r -> ports_ok r -> bind_ok env r answer ->
  let spec := bind_spec (lru_cap (rd_udp_lru r)) answer src (items r) in
  exists r', bind_local_udp_port env src r = Done (r', spec.2)
    /\ items r' = spec.1 /\ lru_cap (rd_udp_lru r') = lru_cap (rd_udp_lru r) /\ rd_ok r' /\ ports_ok r'
    /\ worker_sources r' = sources_spec (lru_cap (rd_udp_lru r)) answer src (items r) (worker_sources r).
Proof. exact (bind_refines env src r answer). Qed.

(** C12. An ICMPv4 message that a port of a source is unreachable removes the
    binding of that source from the map, the LRU and the workers, and no other
    binding. *)
Theorem udp_unbind_refines (icmpv4 : Icmpv4) (src : SocketAddrV4) (r : Redirector) :
  rd_ok r -> ports_ok r ->
  icmpv4_is_destination_port_unreachable icmpv4 = true ->
  icmpv4_next_level_layer_kind icmpv4 = Done (Some LK_Udp) -> icmpv4_dst icmpv4 = Done (Some src) ->
  exists r', handle_icmpv4 icmpv4 r = Done (r', Ok tt)
    /\ items r' = unbind_spec src (items r) /\ rd_ok r' /\ ports_ok r'
    /\ port_of src (items r') = None
    /\ forall port, port_of src (items r) = Some port -> rd_datagrams r' !! port = None.
Proof. exact (unbind_ok icmpv4 src r). Qed.

(** A datagram of the source reaches the proxy: it is handed to the worker
    of the port of its source with the header for its destination, and the
    bindings are those of the specification; it is dropped only when no port
    can be had. *)
Theorem udp_sent_to_proxy (env : Env) (udp : Udp) (payload : list byte) (r : Redirector)
    (answer : io_result (Z * option SocketAddrV4)) :
  let src := (udp_src_ip_addr udp, udp_src udp) in
  let dst := (udp_dst_ip_addr udp, udp_dst udp) in
  let spec := bind_spec (lru_cap (rd_udp_lru r)) answer src (items r) in
  rd_ok r -> ports_ok r -> bind_ok env r answer ->
  is_u32 (udp_dst_ip_addr udp) -> is_u16 (udp_dst udp) -> HEADER_SIZE + len payload <= u16_max ->
  exists r' x, handle_udp env udp payload r = Done (r', x)
    /\ items r' = spec.1 /\ rd_ok r' /\ ports_ok r'
    /\ match spec.2 with
       | Err e => x = Err e
       | Ok port =>
           x = (match env_send_to env with Ok _ => Ok tt | Err e => Err e end)
           /\ exists w d, rd_datagrams r' !! port = Some w /\ rd_datagram_map r' !! src = Some port
                /\ last (dw_sent w) = Some d /\ proxy_datagram d dst payload
       end.
Proof. exact (udp_sent_ok env udp payload r answer). Qed.

(** C15. An answer of the proxy reaches the source: a datagram for the port of a
    running worker that fits the MTU of the worker's source with the headers is
    handed to the device in one frame for that source, from the address in its
    header and with its payload, whatever the device answers. *)
Theorem udp_reply_reaches_source (r : Redirector) (port : Z) (w : DatagramWorker) (d : list byte)
    (addr : SocketAddrV4) (payload : list byte) :
  rd_ok r -> rd_datagrams r !! port = Some w -> dw_task w = true -> dw_is_closed w = false ->
  proxy_datagram d addr payload -> 28 + len payload <= fw_mtu_of (rd_tx r) (sa_ip (datagram_worker_src w)) ->
  exists r' w' i u, run_worker (EvDatagram port (Ok d)) r = Done r' /\ rd_ok r'
    /\ fw_sent (rd_tx r') = fw_sent (rd_tx r) ++ [(i, payload)]
    /\ indicator_udp i = Some u /\ (udp_src_ip_addr u, udp_src u) = addr
    /\ (udp_dst_ip_addr u, udp_dst u) = datagram_worker_src w
    /\ rd_datagrams r' !! port = Some w' /\ dw_view w' = dw_view w /\ dw_task w' = true.
Proof.
  intros Hok Ew Ht Hcl Hd Hfit. pose proof Hd as (Hip & Hport & Hlen & Hs). pose proof (ro_mtus _ _ Hok) as [_ Hm]. pose proof (ro_datagrams _ _ Hok) as Hg.
  destruct (Hg port w Ew) as [Hb1 Hb2].
  destruct (run_worker_quiet 0 (EvDatagram port (Ok d)) r Hok) as (r' & E & Hok' & _); [by exists addr, payload|].
  revert E. cbn [run_worker]. rewrite Ew. unfold datagram_task_recv. rewrite Ht.
  destruct (socks_recv_sent payload (dw_socks_buffer w) (dw_buffer w) addr)
    as (d' & socks & buffer & Ed & Er & Esl & Hls & Hlb); [done..|]. rewrite Hs in Ed. injection Ed as <-.
  rewrite Er, outcome_bind_Done. cbv zeta. cbn [dw_is_closed dw_with_buffers]. rewrite Hcl, Esl, !outcome_bind_Done.
  destruct (send_udp_whole addr (datagram_worker_src w) payload (rd_tx r)) as (f' & i & u & y & E1 & _ & Hss & Hi & Ha & Hb).
  { split; [done|apply Hm]. }
  change (datagram_worker_src (dw_with_buffers w socks buffer)) with (datagram_worker_src w).
  cbn [datagram_forward forwarder_is_datagram]. rewrite E1, !outcome_bind_Done. intros [= <-].
  eexists _, _, i, u. split; [done|]. split; [done|]. split; [apply Hss|]. split; [done|]. split; [done|]. split; [done|].
  split; [cbn; apply lookup_insert_eq|done].
Qed.

(** When a port is taken from the least recently used source, its worker is
    left as it is: the answers to the new source's datagrams still go to the
    previous one. *)
Theorem udp_reuse_keeps_source (env : Env) (src : SocketAddrV4) (r : Redirector) (l : bindings)
    (port : Z) (prev : SocketAddrV4) (w : DatagramWorker) :
  rd_ok r -> ports_ok r -> port_of src (items r) = None -> lru_cap (rd_udp_lru r) <= len (items r) ->
  items r = l ++ [(port, prev)] -> rd_datagrams r !! port = Some w -> datagram_worker_src w = prev ->
  exists r', bind_local_udp_port env src r = Done (r', Ok port)
    /\ rd_datagram_map r' !! src = Some port /\ rd_datagrams r' !! port = Some w
    /\ datagram_worker_src w = prev /\ prev <> src.
Proof.
  intros Hok Hp Hno Hfull El Ew Hprev. unfold bind_local_udp_port. erewrite rm_bind_Ok by reflexivity.
  rewrite (ports_lookup r src Hp), Hno. erewrite rm_bind_Ok by reflexivity. rewrite law_lru_len. fold (items r).
  destruct (Z.ltb_spec (len (items r)) (lru_cap (rd_udp_lru r))); [lia|]. erewrite rm_bind_Ok by reflexivity.
  destruct (reuse_ok r src (mkIoError EOther "cannot bind UDP port") Hok Hp Hno) as (r2 & E2 & Hok2 & Hp2 & _ & Ei2 & Eg2).
  rewrite El, last_snoc in E2, Ei2. exists r2. split; [exact E2|].
  split; [apply Hp2; rewrite Ei2; apply elem_of_cons; by left|]. split; [by rewrite Eg2|]. split; [done|].
  intros ->. apply (port_of_None _ _ Hno port). rewrite El. apply elem_of_app. right. by apply list_elem_of_singleton.
Qed.
End ports.

(** ** Examples *)

(** Two sources are bound, the source 1:11 more recently; there is room for
    [cap] of them. *)
Definition rd_two (cap : Z) : Redirector (P := wire) (N := prefix_network) (C := list_lru) :=
  rd_with_udp
    (rd_with_datagrams rd_idle
       (<[5001 := datagram_worker_new (1, 11) 5001]> {[5002 := datagram_worker_new (1, 12) 5002]}))
    (<[(1, 11) := 5001]> {[(1, 12) := 5002]})
    ((cap, [(5001, (1, 11)); (5002, (1, 12))]) : LruCache (Lru := list_lru)).

Lemma rd_two_ok cap : rd_ok (rd_two cap).
Proof.
  apply rd_ok_udp, rd_ok_datagrams; [apply rd_idle_ok|]. intros k w. cbn. intros [[<- <-]|[_ [<- <-]%lookup_singleton_Some]]%lookup_insert_Some; split; apply len_zeros_u16.
Qed.

Lemma rd_two_ports cap : 2 <= cap -> ports_ok (rd_two cap).
Proof.
  intros H. constructor; unfold items.
  - change (NoDup [5001; 5002]). by apply (bool_decide_unpack _).
  - exact H.
  - intros src port. change (lru_items (rd_udp_lru (rd_two cap))) with [(5001, (1, 11)); (5002, (1, 12))] .
    cbn [rd_two rd_datagram_map rd_with_udp]. rewrite lookup_insert_Some, lookup_singleton_Some, elem_of_cons, list_elem_of_singleton.
    split.
    + intros [[<- <-]|[_ [<- <-]]]; [by left|by right].
    + intros [[= -> ->]|[= -> ->]]; [by left|right; by split].
  - intros port src. change (lru_items (rd_udp_lru (rd_two cap))) with [(5001, (1, 11)); (5002, (1, 12))].
    rewrite elem_of_cons, list_elem_of_singleton. intros [[= -> ->]|[= -> ->]]; by eexists.
Qed.

Lemma rd_two_bind cap : bind_ok (env_example (Ok tt)) (rd_two cap) (Ok (5000, None)).
Proof.
  constructor; [reflexivity|]. intros port a [= <- _]. change (5000 ∉ [5001; 5002]).
  by apply (bool_decide_unpack _).
Qed.

Lemma udp_bind_refines_witness :
  let spec := bind_spec 3 (Ok (5000, None)) (1, 10) (items (rd_two 3)) in
  exists r', bind_local_udp_port (D := black_hole) (env_example (Ok tt)) (1, 10) (rd_two 3) = Done (r', spec.2)
    /\ items r' = spec.1 /\ lru_cap (rd_udp_lru r') = 3 /\ rd_ok r' /\ ports_ok r'
    /\ worker_sources r' = sources_spec 3 (Ok (5000, None)) (1, 10) (items (rd_two 3)) (worker_sources (rd_two 3)).
Proof.
  refine (udp_bind_refines (D := black_hole) (env_example (Ok tt)) (1, 10) (rd_two 3)
    (Ok (5000, None)) (rd_two_ok 3) (rd_two_ports 3 _) (rd_two_bind 3)). lia.
Defined.

(** The datagram 2:2 -> 1:11 found no port. *)
Definition icmp_example : Icmpv4 :=
  mkIcmpv4 (mkPIcmp 3 3 0
    (zeros 4 ++ [69; 0; 0; 28; 0; 0; 0; 0; 64; 17; 0; 0; 0; 0; 0; 2; 0; 0; 0; 1] ++ [0; 2; 0; 11; 0; 8; 0; 0])).

Lemma udp_unbind_refines_witness :
  exists r', handle_icmpv4 (D := black_hole) icmp_example (rd_two 2) = Done (r', Ok tt)
    /\ items r' = unbind_spec (1, 11) (items (rd_two 2)) /\ rd_ok r' /\ ports_ok r'
    /\ port_of (1, 11) (items r') = None
    /\ forall port, port_of (1, 11) (items (rd_two 2)) = Some port -> rd_datagrams r' !! port = None.
Proof.
  refine (udp_unbind_refines (D := black_hole) icmp_example (1, 11) (rd_two 2) (rd_two_ok 2) (rd_two_ports 2 _) _ _ _);
    [lia|vm_compute; reflexivity..].
Defined.

(** A datagram of the source 1:11 for 2:53. *)
Definition udp_example : Udp := mkUdp (mkPUdp 11 53 0 0 []) 1 2.

Lemma udp_sent_to_proxy_witness :
  let spec := bind_spec 3 (Ok (5000, None)) (1, 11) (items (rd_two 3)) in
  exists r' x, handle_udp (D := black_hole) (env_example (Ok tt)) udp_example [7; 8] (rd_two 3) = Done (r', x)
    /\ items r' = spec.1 /\ rd_ok r' /\ ports_ok r'
    /\ match spec.2 with
       | Err e => x = Err e
       | Ok port =>
           x = (match env_send_to (env_example (Ok tt)) with Ok _ => Ok tt | Err e => Err e end)
           /\ exists w d, rd_datagrams r' !! port = Some w /\ rd_datagram_map r' !! (1, 11) = Some port
                /\ last (dw_sent w) = Some d /\ proxy_datagram d (2, 53) [7; 8]
       end.
Proof.
  refine (udp_sent_to_proxy (D := black_hole) (env_example (Ok tt)) udp_example [7; 8] (rd_two 3)
    (Ok (5000, None)) (rd_two_ok 3) (rd_two_ports 3 _) (rd_two_bind 3) _ _ _);
    [lia|vm_compute; split; discriminate..|vm_compute; discriminate].
Defined.

Definition dw_example : DatagramWorker := datagram_worker_new (1, 11) 5001.

Lemma udp_reply_reaches_source_witness :
  exists r' w' i u,
    run_worker (D := black_hole) (EvDatagram 5001 (Ok [0; 0; 0; 1; 0; 0; 0; 2; 0; 53; 7; 8])) (rd_two 3) = Done r' /\ rd_ok r'
    /\ fw_sent (rd_tx r') = fw_sent (rd_tx (rd_two 3)) ++ [(i, [7; 8])]
    /\ indicator_udp i = Some u /\ (udp_src_ip_addr u, udp_src u) = (2, 53)
    /\ (udp_dst_ip_addr u, udp_dst u) = datagram_worker_src dw_example
    /\ rd_datagrams r' !! 5001 = Some w' /\ dw_view w' = dw_view dw_example /\ dw_task w' = true.
Proof.
  refine (udp_reply_reaches_source (D := black_hole) (rd_two 3) 5001 dw_example
    [0; 0; 0; 1; 0; 0; 0; 2; 0; 53; 7; 8] (2, 53) [7; 8] (rd_two_ok 3) _ _ _ _ _); [done|done|done| |vm_compute; discriminate].
  split; [vm_compute; split; discriminate|]. split; [vm_compute; split; discriminate|].
  split; [vm_compute; discriminate|vm_compute; reflexivity].
Defined.

Lemma udp_reuse_keeps_source_witness :
  exists r', bind_local_udp_port (D := black_hole) (env_example (Ok tt)) (1, 10) (rd_two 2) = Done (r', Ok 5002)
    /\ rd_datagram_map r' !! (1, 10) = Some 5002 /\ rd_datagrams r' !! 5002 = Some (datagram_worker_new (1, 12) 5002)
    /\ datagram_worker_src (datagram_worker_new (1, 12) 5002) = (1, 12) /\ (1, 12) <> (1, 10).
Proof.
  refine (udp_reuse_keeps_source (D := black_hole) (env_example (Ok tt)) (1, 10) (rd_two 2)
    [(5001, (1, 11))] 5002 (1, 12) (datagram_worker_new (1, 12) 5002) (rd_two_ok 2) (rd_two_ports 2 _) _ _ _ _ _);
    [lia|done|vm_compute; discriminate|done..].
Defined.
