(* ===== verification/Safety.v ===== *)
(** * The redirector never gets stuck

    What the redirector does with any frame that is not one of those the code
    cannot handle: it returns, on every branch, with success or with an error of
    the proxy or of the device, and its invariant holds again, whatever turns the
    tasks of the workers take.  The conditions are the places where the code
    panics or loops: on a frame those of [frame_ok], on the answer of the proxy to
    an association [bind_ok], and on the datagrams of the proxy that the tasks
    receive [event_ok], which the invariant asks of the schedule. *)

From S2P Require Import Prelude SeqArith Ring Queue Window TxState RxState Socks Pnet Wire Layers Packet PacketText Frames Forwarder Flow Crates Redirector Preserve Workers Conn Session Dispatch Stream Isolation Ports.

Section safety.
Context {P : Pnet} {L : PnetLaws P} {T : PnetTypes P} {D : Device} {N : IpNetwork} {C : Lru} {CL : LruLaws C}.

(** ** Returning with the invariant *)

(** The handler returns and the invariant holds; [Q] of its value when there is
    one. *)
Definition safe {A} (m : RM A) (Q : A -> Redirector -> Prop) (r : Redirector) : Prop :=
  exists r' x, m r = Done (r', x) /\ rd_ok r' /\ forall a, x = Ok a -> Q a r'.

Lemma safe_bind {A B} (m : RM A) (k : A -> RM B) Q R r :
  safe m Q r -> (forall a r', rd_ok r' -> Q a r' -> safe (k a) R r') -> safe (mbind k m) R r.
Proof.
  intros (r1 & x & E & Hok & HQ) Hk. destruct x as [a|e].
  - destruct (Hk a r1 Hok (HQ a eq_refl)) as (r2 & y & E2 & H). exists r2, y. by rewrite (rm_bind_Ok _ _ _ _ _ E).
  - exists r1, (Err e). split; [by rewrite (rm_bind_Err _ _ _ _ _ E)|done].
Qed.

Lemma safe_Done {A} (m : RM A) (Q : A -> Redirector -> Prop) r r' a :
  m r = Done (r', Ok a) -> rd_ok r' -> Q a r' -> safe m Q r.
Proof. intros E Hok HQ. exists r', (Ok a). split; [done|]. split; [done|]. by intros b [= <-]. Qed.

(** Whatever the result is. *)
Lemma safe_result {A} (m : RM A) (Q : A -> Redirector -> Prop) r r' x :
  m r = Done (r', x) -> rd_ok r' -> (forall a, Q a r') -> safe m Q r.
Proof. intros E Hok HQ. by exists r', x. Qed.

Lemma safe_ret {A} (a : A) (Q : A -> Redirector -> Prop) r : rd_ok r -> Q a r -> safe (mret a) Q r.
Proof. by apply safe_Done. Qed.

Lemma safe_weaken {A} (m : RM A) (Q R : A -> Redirector -> Prop) r :
  safe m Q r -> (forall a r', Q a r' -> R a r') -> safe m R r.
Proof. intros (r' & x & E & Hok & HQ) H. exists r', x. split; [done|]. split; [done|]. eauto. Qed.

(** The connection is there. *)
Definition connected (src dst : SocketAddrV4) (r : Redirector) : Prop := exists w s t, conn r src dst w s t.

Lemma connected_ok src dst r : connected src dst r -> rd_ok r.
Proof. intros (w & s & t & Hc). by destruct Hc. Qed.

(** ** Segments without a connection *)

Lemma live_sent f f' l d c u : sent_step f f' l -> live f d c u -> live f' d c u.
Proof.
  intros [_ Em El _ _ _ Es] [H1 [H2 H3 H4] H5 H6 H7]. constructor; [by rewrite Es| |done|done|by rewrite El].
  constructor; [done|done|]. unfold fw_mtu_of in *. by rewrite Em, El.
Qed.

Lemma ok_sent r f' l : rd_ok r -> sent_step (rd_tx r) f' l -> rd_ok (rd_with_tx r f').
Proof.
  intros Hok Hss. apply ok_tx; [done|eapply mtus_ok_calm; [by eapply calm_sent|by destruct Hok]|].
  intros d c u. by eapply live_sent.
Qed.

(** A segment for no connection is answered with a reset. *)
Lemma rst_safe src dst r : rd_ok r -> safe (with_tx (send_tcp_rst dst src)) (fun _ _ => True) r.
Proof.
  intros Hok. destruct (turn_quiet r Hok) as (r1 & E1 & Hok1 & _).
  destruct (send_tcp_rst_ok dst src (rd_tx r1)) as (f' & x & tcp & y & E & _ & Hss & _).
  eapply safe_result; [rewrite (with_tx_turn _ _ _ E1); by apply on_tx_Done| |done]. by eapply ok_sent.
Qed.

(** ** FIN *)

Lemma ack_0_safe src dst r w s t :
  conn r src dst w s t -> safe (with_tx (send_tcp_ack_0 dst src)) (fun _ _ => True) r.
Proof.
  intros Hc. destruct (conn_with_tx (send_tcp_ack_0 dst src) _ _ _ _ _ _ Hc) as (r1 & w1 & t1 & E1 & Hc1 & _).
  destruct (conn_ack_0 _ _ _ _ _ _ Hc1) as (f' & x & y & E & _ & Hc2 & _). rewrite E in E1.
  eapply safe_result; [exact E1|by destruct Hc2|done].
Qed.

Lemma put_rx_safe r src dst w s t s1 :
  conn r src dst w s t -> rx_ok s1 -> rx_wscale s1 = rx_wscale s ->
  safe (rm_put_rx (src, dst) s1) (fun _ r' => conn r' src dst w s1 t) r.
Proof.
  intros Hc Hx Hw. destruct (conn_put_rx r src dst w s t s1 Hc Hx Hw) as [E Hc1].
  eapply safe_Done; [exact E|by destruct Hc1|exact Hc1].
Qed.

Lemma tx_add_ack_ready t n : tx_ready t -> is_u32 n -> tx_ready (tx_add_acknowledgement t n).
Proof.
  intros [[] ? ? ?] Hn. constructor; [constructor|..]; destruct t; try done. by apply seq_add_u32.
Qed.

Lemma clean_up_safe src dst r : rd_ok r -> safe (rd_clean_up src dst) (fun _ r' => gone r' (src, dst)) r.
Proof.
  intros Hok. destruct (clean_up_ok src dst r Hok) as (r' & E & Hok' & Hrv).
  eapply safe_Done; [exact E|done|by eapply removed_gone].
Qed.

(** The FIN that is expected next is acknowledged; then the stream is closed for
    writing, or the connection removed. *)
Lemma admit_fin_safe src dst r w s t (is_readable : bool) :
  conn r src dst w s t ->
  safe (_ ← with_tx (_ ← tx_state_update (src, dst) (fun s => mret (tx_add_acknowledgement s 1)); send_tcp_ack_0 dst src);
        if is_readable then
          stream ← rm_stream (src, dst);
          stream ← rm_lift (stream_worker_shutdown stream);
          rm_put_stream (src, dst) stream
        else rd_clean_up src dst) (fun _ _ => True) r.
Proof.
  intros Hc. set (g := fun s => mret (tx_add_acknowledgement s 1) : outcome TcpTxState).
  destruct (conn_with_tx (_ ← tx_state_update (src, dst) g; send_tcp_ack_0 dst src) _ _ _ _ _ _ Hc)
    as (r1 & w1 & t1 & E1 & Hc1 & _).
  destruct (conn_report r1 src dst w1 s t1 g (tx_add_acknowledgement t1 1) Hc1) as (f2 & x & y & E2 & _ & Hc2 & _);
    [done|apply tx_add_ack_ready; [eapply live_ready, Hc1|done]|by destruct t1|by destruct t1|].
  rewrite E2 in E1. eapply safe_bind; [eapply (safe_result _ (fun _ r' => conn r' src dst w1 s (tx_add_acknowledgement t1 1)));
    [exact E1|by destruct Hc2|by intros _]|]. intros [] r3 Hok3 Hc3. destruct is_readable.
  - destruct (conn_worker _ _ _ _ _ _ Hc3) as [Hd Ho]. destruct (stream_worker_shutdown_ok w1 Ho) as (w2 & Ew & Hd2 & Ho2 & _).
    destruct (conn_put_stream r3 src dst w1 s _ w2 Hc3) as [E4 Hc4]; [done|done|].
    eapply safe_Done; [|exact (cn_ok _ _ _ _ _ _ Hc4)|done].
    rewrite (rm_bind_Ok _ _ _ _ _ (rm_stream_Done _ _ _ (cn_stream _ _ _ _ _ _ Hc3))).
    by rewrite (rm_bind_Ok _ _ _ _ _ (rm_lift_Done _ _ _ Ew)).
  - eapply safe_weaken; [by apply clean_up_safe|done].
Qed.

Lemma fin_safe tcp payload r : rd_ok r -> safe (handle_tcp_fin tcp payload) (fun _ _ => True) r.
Proof.
  intros Hok. unfold handle_tcp_fin. set (src := tcp_source tcp). set (dst := tcp_target tcp). cbv zeta.
  eapply safe_bind; [by eapply (safe_Done _ (fun a r' => r' = r /\ a = rd_streams r !! (src, dst)))|]. intros stream r' _ [-> ->].
  destruct (rd_streams r !! (src, dst)) as [w|] eqn:Ew; [|by apply rst_safe].
  destruct (conn_of r src dst w Hok Ew) as (s & t & Hc). pose proof (conn_rx_ok _ _ _ _ _ _ Hc) as [Hx1 Hx2].
  eapply safe_bind; [by eapply (safe_Done _ (fun a r' => r' = r /\ a = s)); [exact (conn_rx_state _ _ _ _ _ _ Hc)|..]|].
  intros a r' _ [-> ->].
  eapply (safe_bind _ _ (fun s1 r' => conn r' src dst w s1 t)).
  { destruct (tcp_is_fin tcp); [|by apply safe_ret]. set (s1 := rx_set_fin_sequence s _).
    eapply safe_bind; [eapply (put_rx_safe r src dst w s t s1); [done|by constructor|done]|]. intros [] r1 Hok1 Hc1. by apply safe_ret. }
  intros s1 r1 Hok1 Hc1. pose proof (conn_rx_ok _ _ _ _ _ _ Hc1) as [Hy1 Hy2].
  destruct (rx_fin_sequence s1) as [fin|]; [|by apply safe_ret]. destruct (fin =? rx_recv_next s1).
  - eapply safe_bind; [eapply (put_rx_safe r1 src dst w s1 t (rx_add_recv_next (rx_admit_fin s1) 1)); [done|by constructor|done]|].
    intros [] r2 Hok2 Hc2. by eapply admit_fin_safe.
  - destruct (len payload =? 0); [by eapply ack_0_safe|by apply safe_ret].
Qed.

(** ** Data *)

Lemma safe_fail {A} e (Q : A -> Redirector -> Prop) r : rd_ok r -> safe (rm_fail e) Q r.
Proof. intros Hok. by exists r, (Err e). Qed.

Lemma safe_read {A} (m : RM A) (Q : A -> Redirector -> Prop) r a :
  m r = Done (r, Ok a) -> rd_ok r -> Q a r -> safe m (fun b r' => b = a /\ r' = r /\ Q b r') r.
Proof. intros E Hok HQ. by eapply safe_Done. Qed.

(** Data in order is written to the proxy and acknowledged; when the proxy does
    not take it, the connection is reset and removed. *)
Lemma send_in_order_safe env r src dst w s t payload :
  conn r src dst w s t -> safe (send_in_order env src dst s payload) (fun _ r' => connected src dst r') r.
Proof.
  intros Hc. destruct (conn_send env r src dst w s t payload Hc) as (r1 & w1 & t1 & E1 & Hc1 & _).
  unfold send_in_order. cbv zeta.
  eapply safe_bind; [eapply (safe_Done _ (fun a r' => a = _ /\ conn r' src dst w1 s t1)); [exact E1|by destruct Hc1|by split]|].
  intros a r2 Hok2 [-> Hc2]. destruct (stream_worker_send w payload (env_write env)).2 as [[]|e].
  2: { destruct (reset_ok src dst r2 w1 s t1 (A := unit) e Hc2) as (r3 & y & x & l & l' & t' & E3 & Hok3 & _).
       exists r3, (Err y). by split. }
  destruct (rx_window_conn _ _ _ _ _ _ Hc2) as [n En]. pose proof (conn_rx_ok _ _ _ _ _ _ Hc2) as [Hx1 Hx2].
  eapply safe_bind; [eapply (safe_Done _ (fun a r' => conn r' src dst w1 s t1)); [by apply rm_lift_Done|done|done]|].
  intros n' r3 Hok3 Hc3. set (k := as_u32 (len payload)). set (s' := rx_add_recv_next s k).
  eapply safe_bind; [eapply (put_rx_safe r3 src dst w1 s t1 s'); [done|by constructor|done]|]. intros [] r4 Hok4 Hc4.
  set (g := fun s => mret (tx_add_acknowledgement (tx_set_window s n') k) : outcome TcpTxState).
  destruct (conn_with_tx (_ ← tx_state_update (src, dst) g; send_tcp_ack_0 dst src) _ _ _ _ _ _ Hc4)
    as (r5 & w5 & t5 & E5 & Hc5 & _).
  destruct (conn_report r5 src dst w5 s' t5 g (tx_add_acknowledgement (tx_set_window t5 n') k))
    as (f6 & x & y & E6 & _ & Hc6 & _); [done|done|apply tx_report_ready; [eapply live_ready, Hc5|apply as_u32_range]|by destruct t5|by destruct t5|].
  rewrite E6 in E5. eapply safe_result; [exact E5|by destruct Hc6|intros _; by eexists _, _, _].
Qed.

Lemma rx_append_ok r src dst w s t x payload :
  conn r src dst w s t -> in_reach (rx_cache s) x payload ->
  exists s1 ans, rx_append_cache s x payload = Done (s1, ans) /\ rx_ok s1 /\ rx_wscale s1 = rx_wscale s.
Proof.
  intros Hc Hr. pose proof (conn_rx_ok _ _ _ _ _ _ Hc) as [Hx1 Hx2].
  destruct (window_append_safe (rx_cache s) x payload Hx1 Hr) as (w1 & ans & E & Hwf & _).
  exists (rx_with_cache s w1), ans. unfold rx_append_cache. rewrite E. split; [done|]. split; [by constructor|done].
Qed.

Lemma data_safe env tcp payload r src dst w s t :
  conn r src dst w s t -> tcp_source tcp = src -> tcp_target tcp = dst -> in_reach (rx_cache s) (tcp_sequence tcp) payload ->
  safe (handle_tcp_data env tcp payload) (fun _ r' => connected src dst r') r.
Proof.
  intros Hc Esrc Edst Hr. destruct (rx_append_ok r src dst w s t _ _ Hc Hr) as (s1 & ans & Ea & Hx & Hw).
  unfold handle_tcp_data. rewrite Esrc, Edst. cbv zeta.
  eapply safe_bind; [eapply (safe_Done _ (fun a r' => a = s /\ r' = r)); [exact (conn_rx_state _ _ _ _ _ _ Hc)|by destruct Hc|done]|].
  intros a r0 Hok [-> ->].
  eapply safe_bind; [eapply (safe_Done _ (fun a r' => a = (s1, ans) /\ r' = r)); [by apply rm_lift_Done|done|done]|].
  intros a r0 _ [-> ->]. eapply safe_bind; [by eapply (put_rx_safe r src dst w s t s1)|]. intros [] r1 Hok1 Hc1.
  destruct ans as [cont|e]; [|by apply safe_fail].
  destruct (conn_sacks r1 src dst w s1 t (rx_sack_perm s1) (window_filled (rx_cache s1)) Hc1 (window_filled_u32 _))
    as (r2 & w2 & t2 & E2 & Hc2 & _).
  eapply safe_bind; [eapply (safe_Done _ (fun _ r' => conn r' src dst w2 s1 t2)); [exact E2|by destruct Hc2|done]|].
  intros [] r3 Hok3 Hc3. destruct cont as [p|]; [by eapply send_in_order_safe|].
  destruct (report_window_ok r3 src dst w2 s1 t2 Hc3) as (r4 & w4 & t4 & l & x & y & E4 & _ & Hc4 & _).
  eapply safe_result; [exact E4|by destruct Hc4|intros _; by eexists _, _, _].
Qed.

(** ** Segments *)

(** What the code can take in a segment: one of the flags it knows; options that
    can be read, with a window scale and a maximum segment size in range on a
    SYN; on a connection, data that does not lie before the window ([in_reach]). *)
Record segment_ok (env : Env) (r : Redirector) (tcp : Tcp) (payload : list byte) : Prop := {
  sg_flags : tcp_is_rst tcp || tcp_is_ack tcp || tcp_is_syn tcp || tcp_is_fin tcp = true;
  sg_isn : is_u32 (env_isn env);
  sg_syn : tcp_is_ack tcp = false -> tcp_is_syn tcp = true ->
    exists wscale mss sack_perm,
      tcp_wscale tcp = Done wscale /\ (forall w, wscale = Some w -> 0 <= w <= MAX_RECV_WSCALE)
      /\ tcp_mss tcp = Done mss /\ (forall m, mss = Some m -> 1 <= m) /\ tcp_is_sack_perm tcp = Done sack_perm;
  sg_sacks : tcp_is_ack tcp = true -> exists sacks, tcp_sack tcp = Done sacks /\ sacks_opt_u32 sacks;
  sg_data : tcp_is_ack tcp = true -> 0 < len payload ->
    forall s, rd_states r !! (tcp_source tcp, tcp_target tcp) = Some s -> in_reach (rx_cache s) (tcp_sequence tcp) payload
}.

Lemma syn_safe env tcp r wscale mss sack_perm :
  rd_ok r -> syn_ok env tcp wscale mss sack_perm -> safe (handle_tcp_syn env tcp) (fun _ _ => True) r.
Proof.
  intros Hok Hsyn. destruct (rd_streams r !! (tcp_source tcp, tcp_target tcp)) as [w|] eqn:Ew.
  { eapply safe_Done; [|exact Hok|done]. unfold handle_tcp_syn. cbv zeta. erewrite rm_bind_Ok by reflexivity. by lookup_in_goal Ew. }
  destruct (syn_admitted env tcp r wscale mss sack_perm Hok Ew Hsyn) as (r1 & t1 & E1 & Had & Ha1 & Hr1 & Hw1 & _).
  unfold safe. rewrite E1. destruct (socks_connect (env_connect env)) as [u|e] eqn:Ea.
  - destruct (connect_accepted env r1 _ _ t1 _ _ sack_perm u Had Ha1 Hr1 Hw1 Ea)
      as (r2 & y & x & l & l' & t2 & E2 & _ & _ & _ & Hok2 & _). by exists r2, y.
  - destruct (connect_refused env r1 _ _ t1 (rx_fresh (tcp_source tcp) (tcp_target tcp) (seq_succ (tcp_sequence tcp)) (unwrap_or wscale 0) sack_perm) e Had Ea)
      as (r2 & y & x & l & l' & t2 & E2 & _ & _ & _ & Hok2 & _). by exists r2, y.
Qed.

(** What follows the split between data and none. *)
Lemma ack_rest_safe env tcp payload r src dst :
  connected src dst r ->
  safe (_ ← with_tx (send_tcp_ack (env_now env) dst src);
        state ← rm_rx_state (src, dst);
        if tcp_is_fin tcp || bool_decide (is_Some (rx_fin_sequence state)) then handle_tcp_fin tcp payload
        else mret tt) (fun _ _ => True) r.
Proof.
  intros (w & s & t & Hc). destruct (conn_flush (env_now env) r src dst w s t Hc) as (r1 & w1 & t1 & y & E1 & _ & Hc1 & _).
  eapply safe_bind; [eapply (safe_result _ (fun _ r' => conn r' src dst w1 s t1)); [exact E1|by destruct Hc1|by intros _]|].
  intros [] r2 Hok2 Hc2.
  eapply safe_bind; [eapply (safe_Done _ (fun _ r' => rd_ok r')); [exact (conn_rx_state _ _ _ _ _ _ Hc2)|done|done]|].
  intros s2 r3 Hok3 _. destruct (_ || _); [by apply fin_safe|by apply safe_ret].
Qed.

Lemma ack_safe env tcp payload r :
  rd_ok r -> tcp_is_rst tcp = false -> tcp_is_ack tcp = true -> layer_typed (LTcp tcp) -> segment_ok env r tcp payload ->
  safe (handle_tcp env tcp payload) (fun _ _ => True) r.
Proof.
  intros Hok Hrst Hack (Hseq & Hnum & Hwin) [_ _ _ Hsk Hdata]. set (src := tcp_source tcp). set (dst := tcp_target tcp).
  destruct (rd_streams r !! (src, dst)) as [w|] eqn:Ew.
  2: { destruct (rst_safe src dst r Hok) as (r' & x & E & H). exists r', x. split; [|done]. unfold handle_tcp.
       rewrite Hrst, Hack. unfold handle_tcp_ack. cbv zeta. erewrite rm_bind_Ok by reflexivity. fold src dst. by lookup_in_goal Ew. }
  destruct (conn_of r src dst w Hok Ew) as (s & t & Hc). assert (Ha : ack_segment tcp src dst) by by constructor.
  unfold safe. rewrite (handle_tcp_ack_begin env tcp payload r src dst w s t Hc Ha).
  destruct (conn_acknowledge (env_now env) tcp r src dst w s t Hc Ha) as (r1 & w1 & t0 & t1 & E1 & Hc1 & _).
  apply (safe_bind _ _ (fun _ r' => conn r' src dst w1 s t1)); [eapply safe_Done; [exact E1|by destruct Hc1|done]|].
  intros [] r2 Hok2 Hc2. eapply (safe_bind _ _ (fun (go : bool) r' => if go then connected src dst r' else True)).
  - destruct (Z.ltb_spec 0 (len payload)) as [Hp|Hp].
    + eapply safe_bind; [eapply (data_safe env tcp payload r2 src dst w1 s t1); [done|done|done|]|].
      * apply Hdata; [done|done|]. by destruct Hc.
      * intros [] r3 Hok3 Hc3. by apply safe_ret.
    + destruct (Hsk Hack) as (sacks & Esk & Hu32).
      destruct (ack_only_ok env tcp (negb (sw_is_write_closed w)) sacks r2 src dst w1 s t1 Hc2 eq_refl eq_refl Esk Hu32)
        as (r3 & x & E3 & [(-> & _ & _ & Hok3 & _)|(w3 & s3 & t3 & Hc3 & _ & _ & Hx & _)]).
      * by eapply safe_Done.
      * exists r3, x. split; [done|]. split; [by destruct Hc3|]. intros go ->. destruct Hx as [[= ->]|(e & ? & _)]; [|done]. by eexists _, _, _.
  - intros [] r3 Hok3 Hgo; [by apply ack_rest_safe|by apply safe_ret].
Qed.

Lemma tcp_safe env tcp payload r :
  rd_ok r -> layer_typed (LTcp tcp) -> segment_ok env r tcp payload -> safe (handle_tcp env tcp payload) (fun _ _ => True) r.
Proof.
  intros Hok Hty Hsg. destruct (tcp_is_rst tcp) eqn:Hrst.
  { unfold safe, handle_tcp. rewrite Hrst. eapply safe_weaken; [by apply clean_up_safe|done]. }
  destruct (tcp_is_ack tcp) eqn:Hack; [by apply ack_safe|].
  unfold handle_tcp. rewrite Hrst, Hack. destruct (tcp_is_syn tcp) eqn:Hsyn.
  - destruct (sg_syn _ _ _ _ Hsg Hack Hsyn) as (wscale & mss & sack_perm & H1 & H2 & H3 & H4 & H5).
    destruct Hty as (T1 & _ & T3). eapply (syn_safe env tcp r wscale mss sack_perm); [done|]. constructor; [done|done|apply Hsg|done..].
  - pose proof (sg_flags _ _ _ _ Hsg) as Hf. rewrite Hrst, Hack, Hsyn in Hf. cbn in Hf. rewrite Hf. by apply fin_safe.
Qed.

(** ** The whole invariant *)

(** The invariant of the connections and the workers, that of the bindings and
    that of the fragments. *)
Record sound (r : Redirector) : Prop := {
  sd_ok : rd_ok r;
  sd_ports : ports_ok r;
  sd_defrag : defrag_ok (rd_defrag r)
}.

(** The handler returns, with success or an error, and the invariant holds. *)
Definition returns {A} (m : RM A) (r : Redirector) : Prop := exists r' x, m r = Done (r', x) /\ sound r'.

Lemma ports_view r r' : bind_view r' = bind_view r -> ports_ok r -> ports_ok r'.
Proof.
  intros [= Hd Hm Hl] [H1 H2 H3 H4]. assert (Ei : items r' = items r) by (unfold items; by rewrite Hl).
  constructor; rewrite ?Ei; [done|by rewrite Hl|by rewrite Hm|].
  intros port src Hin. destruct (H4 port src Hin) as [w Ew]. apply (f_equal (lookup port)) in Hd. rewrite !lookup_fmap, Ew in Hd.
  by destruct (rd_datagrams r' !! port).
Qed.

Lemma defrag_rest {A} (m : RM A) r r' x : preserves rest m -> m r = Done (r', x) -> rd_defrag r' = rd_defrag r.
Proof. intros Hm E. exact (f_equal snd (Hm _ _ _ E)). Qed.

Lemma returns_kept {A} (m : RM A) (Q : A -> Redirector -> Prop) r :
  sound r -> preserves bind_view m -> preserves rest m -> safe m Q r -> returns m r.
Proof.
  intros [Hok Hp Hd] Hb Hr (r' & x & E & Hok' & _). exists r', x. split; [done|]. constructor; [done| |].
  - eapply ports_view; [by eapply Hb|done].
  - by rewrite (defrag_rest _ _ _ _ Hr E).
Qed.

(** ** Datagrams and errors *)

(** What the code can take in a datagram: the header for the proxy has room, and
    the proxy's answer to an association can be handled. *)
Record datagram_ok (env : Env) (r : Redirector) (udp : Udp) (payload : list byte) : Prop := {
  dg_size : HEADER_SIZE + len payload <= u16_max;
  dg_bind : exists answer, bind_ok env r answer
}.

Lemma udp_returns env udp payload r :
  sound r -> layer_typed (LUdp udp) -> datagram_ok env r udp payload -> returns (handle_udp env udp payload) r.
Proof.
  intros [Hok Hp Hd] [H1 H2] [H3 [answer H4]].
  destruct (udp_sent_ok env udp payload r answer Hok Hp H4 H1 H2 H3) as (r' & x & E & _ & Hok' & Hp' & _).
  exists r', x. split; [done|]. constructor; [done|done|]. by rewrite (defrag_rest _ _ _ _ (rest_udp _ _ _) E).
Qed.

(** What the code can take in an ICMPv4 message: the packet that it quotes can
    be read, with the ports when it is a UDP datagram, and a new MTU leaves room
    for the headers and a byte. *)
Record icmpv4_ok (icmpv4 : Icmpv4) : Prop := {
  ic_unreachable : icmpv4_is_destination_port_unreachable icmpv4 = true ->
    exists ipv4 transport, icmpv4_parse_payload icmpv4 = Some (ipv4, transport)
      /\ (ipv4_next_level_layer_kind ipv4 = Some LK_Udp -> exists udp, transport = Some (LUdp udp));
  ic_mtu : icmpv4_is_fragmentation_required icmpv4 = true ->
    is_Some (icmpv4_parse_payload icmpv4) /\ exists mtu, icmpv4_next_hop_mtu icmpv4 = Done (Some mtu) /\ 41 <= mtu
}.

Lemma returns_same {A} (m : RM A) r a : sound r -> m r = Done (r, Ok a) -> returns m r.
Proof. intros Hs E. by exists r, (Ok a). Qed.

Lemma mtu_safe ip mtu r :
  rd_ok r -> 41 <= mtu -> safe (with_tx (fm_update (fun f => (set_src_mtu f ip mtu).1))) (fun _ _ => True) r.
Proof.
  intros Hok Hm. destruct (turn_quiet r Hok) as (r1 & E1 & Hok1 & _).
  destruct (live_set_mtu (rd_tx r1) ip mtu (ro_mtus _ _ Hok1) Hm) as [Hm' Hl].
  eapply safe_Done; [rewrite (with_tx_turn _ _ _ E1); by apply on_tx_Done| |done]. by apply ok_tx.
Qed.

Lemma icmpv4_returns icmpv4 r : sound r -> icmpv4_ok icmpv4 -> returns (handle_icmpv4 icmpv4) r.
Proof.
  intros Hs [Hu Hm]. destruct (icmpv4_is_destination_port_unreachable icmpv4) eqn:Eu.
  - destruct (Hu eq_refl) as (ipv4 & transport & Ep & Hudp).
    assert (Eq : forall A (f : Ipv4 -> option Layers -> option A), icmpv4_quoted icmpv4 f = Done (f ipv4 transport))
      by (intros A f; unfold icmpv4_quoted; rewrite Eu; cbn [orb]; by rewrite Ep).
    destruct (ipv4_next_level_layer_kind ipv4) as [k|] eqn:Ek.
    2: { eapply returns_same; [done|]. unfold handle_icmpv4. rewrite Eu. unfold icmpv4_next_level_layer_kind. by rewrite Eq, Ek. }
    destruct (Z.eqb_spec k LK_Udp) as [->|Hne].
    2: { eapply returns_same; [done|]. unfold handle_icmpv4. rewrite Eu. unfold icmpv4_next_level_layer_kind.
         rewrite Eq, Ek. erewrite rm_bind_Ok by reflexivity. cbv beta iota. by apply Z.eqb_neq in Hne as ->. }
    destruct (Hudp eq_refl) as [udp ->]. destruct Hs as [Hok Hp Hd].
    destruct (unbind_ok icmpv4 (udp_dst_ip_addr udp, udp_dst udp) r Hok Hp Eu) as (r' & E & _ & Hok' & Hp' & _);
      [unfold icmpv4_next_level_layer_kind; by rewrite Eq, Ek|unfold icmpv4_dst; by rewrite Eq|].
    exists r', (Ok tt). split; [done|]. constructor; [done|done|]. by rewrite (defrag_rest _ _ _ _ (rest_icmpv4 _) E).
  - unfold handle_icmpv4. rewrite Eu. destruct (icmpv4_is_fragmentation_required icmpv4) eqn:Ef; [|by eapply returns_same].
    destruct (Hm eq_refl) as [[[ipv4 transport] Ep] (mtu & Em & Hmtu)].
    assert (Ed : icmpv4_dst_ip_addr icmpv4 = Done (Some (ipv4_dst ipv4)))
      by (unfold icmpv4_dst_ip_addr, icmpv4_quoted; rewrite Ef, orb_true_r; by rewrite Ep).
    assert (Hret : returns (with_tx (fm_update (fun f => (set_src_mtu f (ipv4_dst ipv4) mtu).1))) r).
    { eapply returns_kept; [done|apply bind_tx_kept|apply rest_tx|apply mtu_safe; [apply Hs|done]]. }
    destruct Hret as (r' & x & E & Hs'). exists r', x. split; [|done]. rewrite Em. erewrite rm_bind_Ok by reflexivity.
    erewrite rm_bind_Ok by reflexivity. rewrite Ed. erewrite rm_bind_Ok by reflexivity. by erewrite rm_bind_Ok by reflexivity.
Qed.

(** ** The layer above IPv4 *)

Definition transport_ok (env : Env) (r : Redirector) (transport : option Layers) (payload : outcome (list byte)) : Prop :=
  match transport with
  | Some (LIcmpv4 icmpv4) => icmpv4_ok icmpv4
  | Some (LTcp tcp) => exists data, payload = Done data /\ segment_ok env r tcp data
  | Some (LUdp udp) => exists data, payload = Done data /\ datagram_ok env r udp data
  | Some _ => False
  | None => True
  end.

(** It looks at the receive states, the bindings and the proxy. *)
Lemma transport_ok_same env r r' transport payload :
  rd_states r' = rd_states r -> rd_udp_lru r' = rd_udp_lru r ->
  rd_remote r' = rd_remote r -> rd_options r' = rd_options r ->
  transport_ok env r transport payload -> transport_ok env r' transport payload.
Proof.
  intros Es El Er Eo. destruct transport as [[]|]; cbn; try done.
  - intros (data & E & [H1 H2 H3 H4 H5]). exists data. split; [done|]. constructor; try done. by rewrite Es.
  - intros (data & E & [H2 (answer & [H3 H4])]). exists data. split; [done|]. constructor; [done|].
    exists answer. constructor; [by rewrite Er, Eo|]. unfold items. by rewrite El.
Qed.

Lemma transport_returns env transport payload r :
  sound r -> (forall l, transport = Some l -> layer_typed l) -> transport_ok env r transport payload ->
  returns (handle_transport env transport payload) r.
Proof.
  intros Hs Hty Ht. destruct transport as [[]|]; try done; cbn [handle_transport] in *.
  - by apply icmpv4_returns.
  - destruct Ht as (data & -> & Hg).
    assert (Hret : returns (handle_tcp env t data) r)
      by (eapply returns_kept; [done|apply bind_tcp_kept|apply rest_tcp|apply tcp_safe; [apply Hs|by apply Hty|done]]).
    destruct Hret as (r' & x & E & H). exists r', x. split; [|done]. by erewrite rm_bind_Ok by reflexivity.
  - destruct Ht as (data & -> & Hg). destruct (udp_returns env u data r Hs (Hty _ eq_refl) Hg) as (r' & x & E & H).
    exists r', x. split; [|done]. by erewrite rm_bind_Ok by reflexivity.
  - by apply (returns_same _ _ tt).
Qed.

(** ** Fragments *)

(** The datagram that a group holds, when it is complete. *)
Definition completed_ok (env : Env) (r : Redirector) (f : Fragmentation) : Prop :=
  let data := ztake (fg_length f) (fg_buffer f) in
  let transport := parse_transport (ipv4_next_level_protocol (fg_ipv4 f)) data (fg_ipv4 f) in
  exists header, opt_layer_len transport = Done header /\ 0 <= header <= fg_length f
    /\ transport_ok env r transport (Done (zdrop header data)).

Lemma concatenate_ok env r f :
  group_ok f -> fg_length f <= u16_max -> completed_ok env r f ->
  exists transport payload, fragmentation_concatenate f = Done (transport, payload)
    /\ (forall l, transport = Some l -> layer_typed l) /\ transport_ok env r transport (Done payload).
Proof.
  intros [Hb Hl0 _ Hy Hty] Hl (header & Eh & Hh & Ht). unfold fragmentation_concatenate.
  ostep slice_Done by ilia. rewrite Z.sub_0_r, (zdrop_0 0) by lia. cbv zeta. rewrite Eh, outcome_bind_Done.
  ostep slice_Done by ilia. eexists _, _. split; [reflexivity|].
  split; [intros l; apply parse_transport_typed; [unfold ztake; by apply Forall_take|done]|].
  replace (ztake (fg_length f - header) (zdrop header (fg_buffer f))) with (zdrop header (ztake (fg_length f) (fg_buffer f))); [done|].
  apply zat_ext; rewrite len_zdrop, !len_ztake, ?len_zdrop; [lia|]. intros i Hi.
  rewrite zat_zdrop, !zat_ztake, zat_zdrop by lia. done.
Qed.

(** ** Frames *)

(** What the code can take in an IPv4 packet: the frame is as long as the header
    says; a fragment fits, and the datagram that it completes can be taken. *)
Record packet_ok (env : Env) (r : Redirector) (i : Indicator) (ipv4 : Ipv4) (frame : list byte) (n : Z) : Prop := {
  pk_content : indicator_content_len i = Done n /\ 0 <= n <= len frame;
  pk_whole : ipv4_is_fragment ipv4 = false ->
    transport_ok env r (ind_transport i) (m ← indicator_len i; slice (ztake n frame) m n);
  pk_fragment : ipv4_is_fragment ipv4 = true -> fragment_fits (rd_defrag r) i (ztake n frame);
  pk_completed : ipv4_is_fragment ipv4 = true ->
    forall d f, defraggler_add (env_now env) (rd_defrag r) i (ztake n frame) = Done (d, Some f) -> completed_ok env r f
}.

Record frame_ok (env : Env) (r : Redirector) (frame : list byte) : Prop := {
  fk_bytes : Forall is_u8 frame;
  fk_packet : forall i ipv4, indicator_from frame = Some i -> indicator_ipv4 i = Some ipv4 ->
    serves r (ipv4_src ipv4) = true -> exists n, packet_ok env r i ipv4 frame n
}.

(** A frame that is not for the redirector can be anything. *)
Lemma foreign_ok env r frame : Forall is_u8 frame -> is_foreign r frame = true -> frame_ok env r frame.
Proof.
  intros Hb Hf. constructor; [done|]. intros i ipv4 Hi Hv Hs. unfold is_foreign in Hf. rewrite Hi in Hf.
  unfold indicator_ipv4 in Hv. destruct (ind_network i) as [[]|]; try done. injection Hv as ->. by rewrite Hs in Hf.
Qed.

(** An error can be logged. *)
Lemma log_error_Done frame i x : Forall is_u8 frame -> indicator_from frame = Some i -> log_error i x = Done tt.
Proof. intros Hb Hi. destruct x; [done|]. destruct (brief_Done frame i Hb Hi) as [t Et]. unfold log_error. by rewrite Et. Qed.

Lemma joined_sound r r' : sound r -> joined r r' -> sound r'.
Proof.
  intros [Hok Hp Hd] Hj. pose proof (jn_udp _ _ Hj) as (E1 & E2 & E3 & _). constructor; [apply Hj| |by rewrite (jn_defrag _ _ Hj)].
  eapply ports_view; [|exact Hp]. unfold bind_view. by rewrite E1, E2, E3.
Qed.

Lemma joined_transport env r r' transport payload :
  joined r r' -> transport_ok env r transport payload -> transport_ok env r' transport payload.
Proof. intros Hj. pose proof (jn_udp _ _ Hj) as (_ & _ & E1 & E2 & E3). apply transport_ok_same; [apply Hj|done..]. Qed.

Lemma joined_completed env r r' f : joined r r' -> completed_ok env r f -> completed_ok env r' f.
Proof.
  intros Hj (header & E & Hh & Ht). exists header. split; [done|]. split; [done|]. by eapply joined_transport.
Qed.

Lemma completed_defrag env r d f : completed_ok env r f -> completed_ok env (rd_with_defrag r d) f.
Proof.
  intros (header & E & Hh & Ht). exists header. split; [done|]. split; [done|].
  by apply (transport_ok_same env r).
Qed.

Lemma sound_defrag r d : sound r -> defrag_ok d -> sound (rd_with_defrag r d).
Proof.
  intros [Hok Hp Hd] Hd'. constructor; [|by destruct Hp|done]. by apply (fits_same 0 r); [done..|apply Hok|].
Qed.

(** A fragment: the group takes it, and a datagram that is complete goes on. *)
Lemma packet_returns env r i ipv4 frame n :
  sound r -> Forall is_u8 frame -> indicator_from frame = Some i -> packet_ok env r i ipv4 frame n ->
  returns (handle_packet env i ipv4 (ztake n frame)) r.
Proof.
  intros Hs Hb Hi [[Hn Hle] Hw Hf Hc]. destruct (indicator_typed frame i Hb Hi) as [Hth Htl]. unfold handle_packet. destruct (ipv4_is_fragment ipv4).
  2: { apply transport_returns; [done|done|]. replace (len (ztake n frame)) with n by (rewrite len_ztake; lia). by apply Hw. }
  specialize (Hf eq_refl). specialize (Hc eq_refl). set (data := ztake n frame) in *.
  assert (Hbd : Forall is_u8 data) by (unfold data, ztake; by apply Forall_take).
  destruct (defraggler_add_ok (env_now env) (rd_defrag r) i data (sd_defrag _ Hs) Hth Hbd Hf) as (d & x & E & Hd & Hx).
  pose proof (sound_defrag r d Hs Hd) as Hs1. unfold returns. erewrite rm_bind_Ok by (by rewrite E).
  cbv beta iota. erewrite rm_bind_Ok by reflexivity. destruct x as [f|]; [|by exists (rd_with_defrag r d), (Ok tt)].
  destruct (Hx f eq_refl) as [Hg Hl].
  destruct (concatenate_ok env (rd_with_defrag r d) f Hg Hl) as (transport & payload & Ec & Hty & Ht).
  { apply completed_defrag. by eapply Hc. }
  rewrite (rm_bind_Ok _ _ _ _ _ (rm_lift_Done _ _ _ Ec)). by apply transport_returns.
Qed.

Lemma joined_packet env r r' i ipv4 frame n : joined r r' -> packet_ok env r i ipv4 frame n -> packet_ok env r' i ipv4 frame n.
Proof.
  intros Hj [H1 H2 H3 H4]. constructor; [done| |by rewrite (jn_defrag _ _ Hj)|].
  - intros Hf. eapply joined_transport; [done|by apply H2].
  - rewrite (jn_defrag _ _ Hj). intros Hf d f E. eapply joined_completed; [done|by eapply H4].
Qed.

Lemma ipv4_returns env r frame i :
  sound r -> indicator_from frame = Some i -> frame_ok env r frame -> returns (handle_ipv4 env i frame) r.
Proof.
  intros Hs Hi Hf. destruct (indicator_ipv4 i) as [ipv4|] eqn:Ei.
  2: { apply (returns_same _ _ tt); [done|]. unfold handle_ipv4. by rewrite Ei. }
  destruct (serves r (ipv4_src ipv4)) eqn:Hv.
  2: { apply (returns_same _ _ tt); [done|]. unfold handle_ipv4. rewrite Ei. cbv zeta. erewrite rm_bind_Ok by reflexivity.
       fold (serves r (ipv4_src ipv4)). by rewrite Hv. }
  destruct (fk_packet _ _ _ Hf i ipv4 Hi Ei Hv) as (n & Hp). pose proof (pk_content _ _ _ _ _ _ Hp) as [Hn Hle].
  destruct (handle_ipv4_served env frame r i ipv4 n (sd_ok _ Hs) Hi Ei Hv Hn Hle) as (r1 & Hj & E).
  unfold returns. rewrite E. apply packet_returns; [by eapply joined_sound|apply Hf|done|by eapply joined_packet].
Qed.

Lemma arp_returns r i : sound r -> returns (handle_arp i) r.
Proof.
  intros Hs. unfold handle_arp, returns. erewrite rm_bind_Ok by reflexivity.
  destruct (rd_gw_ip_addr r) as [gw|]; [|by apply (returns_same _ _ tt)].
  destruct (indicator_arp i) as [arp|]; [|by apply (returns_same _ _ tt)].
  cbv zeta. erewrite rm_bind_Ok by reflexivity. destruct (_ && _); [|by apply (returns_same _ _ tt)].
  destruct (join_ok (arp_src arp) (arp_src_hardware_addr arp) r (sd_ok _ Hs)) as (r1 & E1 & Hj & _).
  rewrite (rm_bind_Ok _ _ _ _ _ E1). destruct (turn_joined r1 (jn_ok _ _ Hj)) as (r2 & E2 & Hj2 & _).
  pose proof (joined_sound _ _ Hs (joined_trans _ _ _ Hj Hj2)) as [Hok2 Hp2 Hd2].
  destruct (send_arp_reply_ok (arp_src arp) (rd_tx r2)) as (f' & y & E3 & _ & Hss).
  eexists _, _. split; [rewrite (with_tx_turn _ _ _ E2); by apply on_tx_Done|].
  constructor; [by eapply ok_sent|by destruct Hp2|done].
Qed.

Lemma frame_returns env frame r : sound r -> frame_ok env r frame -> exists r', handle_frame env frame r = Done r' /\ sound r'.
Proof.
  intros Hs Hf. unfold handle_frame. destruct (indicator_from frame) as [i|] eqn:Hi; [|by exists r].
  destruct (indicator_network_kind i) as [t|] eqn:Et; [|by exists r].
  destruct (Z.eqb_spec t LK_Arp) as [->|Hna].
  { destruct (arp_returns r i Hs) as (r' & x & -> & H). exists r'. by rewrite outcome_bind_Done, (log_error_Done _ _ _ (fk_bytes _ _ _ Hf) Hi). }
  assert (t = LK_Ipv4) as ->.
  { pose proof (indicator_from_network _ _ Hi) as Hk. unfold indicator_network_kind in Et.
    destruct (ind_network i) as [[]|]; try done; by injection Et as <-. }
  destruct (ipv4_returns env r frame i Hs Hi Hf) as (r' & x & E & H). exists r'.
  change (LK_Ipv4 =? LK_Ipv4) with true. cbv iota. by rewrite E, outcome_bind_Done, (log_error_Done _ _ _ (fk_bytes _ _ _ Hf) Hi).
Qed.

(** ** Runs *)

(** Every frame that the device delivers is one that the code can take, in the
    state in which it comes. *)
Fixpoint acceptable (answers : list (Env * io_result (list byte))) (r : Redirector) : Prop :=
  match answers with
  | [] => True
  | (env, Ok frame) :: answers =>
      frame_ok env r frame /\ forall r', handle_frame env frame r = Done r' -> acceptable answers r'
  | (_, Err e) :: answers => err_kind e = ETimedOut -> acceptable answers r
  end.

(** The first error of the device that is not a timeout. *)
Fixpoint stops_at (answers : list (Env * io_result (list byte))) : io_result unit :=
  match answers with
  | [] => Ok tt
  | (_, Ok _) :: answers => stops_at answers
  | (_, Err e) :: answers => if bool_decide (err_kind e = ETimedOut) then stops_at answers else Err e
  end.

(** ** Theorems *)

(** C4. The redirector does not get stuck on a frame that the code can take: on
    every branch it returns, without a panic and without a loop, with success or
    with an error of the proxy or of the device, the error can be logged, and the
    invariant of the connections, of the bindings and of the fragments holds
    again.

    A frame can be taken ([frame_ok]) when it is not of a served source, or when
    it is as long as its IPv4 header says and: a segment has one of the flags
    ACK, SYN, RST and FIN and options that can be read, on a SYN a window scale of
    at most 8 and no maximum segment size of 0, and on a connection its data does
    not end before the window, nor wrap when it begins before it; a datagram leaves room for the header of the proxy, and the proxy
    answers an association with an address that [bind] handles and the system
    with a fresh port ([bind_ok]); an ICMPv4 error quotes a packet that can be
    read and a new MTU of at least 41; a fragment ends within 65535 bytes, and the
    datagram that it completes can be taken.  The tasks take any turns of a
    schedule that the invariant allows: any data, ends and errors of the streams,
    and any errors and well-formed IPv4 datagrams of the proxy ([event_ok]). *)
Theorem frame_safe (env : Env) (frame : list byte) (r : Redirector) :
  sound r -> frame_ok env r frame -> exists r', handle_frame env frame r = Done r' /\ sound r'.
Proof. exact (frame_returns env frame r). Qed.

(** C3. Nor in a run: when each frame is one that the code can take in the state
    in which it comes ([frame_ok], with the limits that [frame_safe] lists on
    segments, datagrams, fragments, quoted packets, the answers of the proxy to
    associations and the datagrams of the proxy in the turns of the tasks), the
    loop of [open] comes to the end of what the device delivers, or to the error
    at which it stops, without a panic and without an endless loop, whatever the
    device answers when frames are sent, and the invariant holds. *)
Theorem open_safe (answers : list (Env * io_result (list byte))) (r : Redirector) :
  sound r -> acceptable answers r ->
  exists r', redirector_open answers r = Done (r', stops_at answers) /\ sound r'.
Proof.
  revert r. induction answers as [|[env [frame|e]] answers IH]; intros r Hs Ha; cbn [redirector_open stops_at].
  - by exists r.
  - destruct Ha as [Hf Ha]. destruct (frame_returns env frame r Hs Hf) as (r1 & E1 & Hs1). rewrite E1, outcome_bind_Done.
    apply IH; [done|by apply Ha].
  - case_bool_decide as Hk; [by apply IH, Ha|by exists r].
Qed.
End safety.

(** ** Examples *)

Lemma rd_open_sound : sound rd_open.
Proof.
  constructor; [exact (cn_ok _ _ _ _ _ _ rd_open_conn)| |exact (map_Forall_empty (M := gmap frag_key) _)].
  assert (E : items rd_open = []) by reflexivity. constructor; rewrite E; [constructor|vm_compute; discriminate| |by intros ? ? ?%elem_of_nil].
  intros src port. split; [|by intros ?%elem_of_nil]. change (rd_datagram_map rd_open) with (∅ : gmap SocketAddrV4 Z). by rewrite lookup_empty.
Qed.

Lemma tcp_example_ok : segment_ok (env_example (Ok tt)) rd_open tcp_example [7; 8].
Proof.
  constructor.
  - vm_compute. reflexivity.
  - vm_compute. split; discriminate.
  - intros H. by vm_compute in H.
  - intros _. exists None. split; [vm_compute; reflexivity|exact I].
  - intros _ _ s. change (rd_states rd_open) with ({[key_example := rx_example]} : gmap conn_key TcpRxState).
    intros [_ <-]%lookup_singleton_Some. split; [vm_compute; split; discriminate|].
    split; [split; vm_compute; [reflexivity|discriminate]|]. left. vm_compute. reflexivity.
Qed.

Lemma tcp_frame_example_accepted : frame_ok (env_example (Ok tt)) rd_open tcp_frame_example.
Proof.
  split; [apply (bool_decide_unpack _); vm_compute; exact I|]. intros i ipv4 Hi. change (indicator_from tcp_frame_example) with (Some indicator_example) in Hi. injection Hi as <-.
  change (indicator_ipv4 indicator_example) with (Some ipv4_example). intros [= <-] _. exists 56.
  assert (Ef : ipv4_is_fragment ipv4_example = false) by (vm_compute; reflexivity).
  constructor; [|intros _|by rewrite Ef..].
  - split; [vm_compute; reflexivity|]. split; vm_compute; discriminate.
  - exists [7; 8]. split; [vm_compute; reflexivity|]. exact tcp_example_ok.
Qed.

Lemma frame_safe_witness :
  exists r', handle_frame (D := black_hole) (env_example (Ok tt)) tcp_frame_example rd_open = Done r' /\ sound r'.
Proof.
  exact (frame_safe (D := black_hole) (env_example (Ok tt)) tcp_frame_example rd_open
    rd_open_sound tcp_frame_example_accepted).
Defined.

(** The segment, a timeout, a frame that is not for the redirector and an error
    of the device. *)
Definition answers_example : list (Env * io_result (list byte)) :=
  [(env_example (Ok tt), Ok tcp_frame_example); (env_example (Ok tt), Err (mkIoError ETimedOut "timeout"));
   (env_example (Ok tt), Ok foreign_frame_example); (env_example (Ok tt), Err (mkIoError EOther "device"))].

Lemma answers_example_acceptable : acceptable (D := black_hole) answers_example rd_open.
Proof.
  split; [exact tcp_frame_example_accepted|]. intros r' E _. split; [|intros r2 _ H; discriminate].
  pose proof (settled_frame (D := black_hole) _ _ _ _ E) as Hset.
  apply foreign_ok; [apply (bool_decide_unpack _); vm_compute; exact I|].
  etrans; [exact (is_foreign_settings rd_open r' foreign_frame_example Hset)|vm_compute; reflexivity].
Qed.

Lemma open_safe_witness :
  exists r', redirector_open (D := black_hole) answers_example rd_open = Done (r', stops_at answers_example) /\ sound r'.
Proof.
  exact (open_safe (D := black_hole) answers_example rd_open rd_open_sound answers_example_acceptable).
Defined.
