(* ===== verification/Delivery.v ===== *)
(** * Runs of the redirector

    The loop of [open] over many frames: a source that sends its stream in order
    has all of it delivered to the proxy, whatever frames of other connections,
    of other sources and of other protocols and whatever timeouts come in
    between. *)

From S2P Require Import Prelude SeqArith Ring Queue Window TxState RxState Socks Pnet Wire Layers Packet PacketText Frames Forwarder Flow Crates Redirector Preserve Workers Conn Session Dispatch Stream Isolation Ports Safety.

Section delivery.
Context {P : Pnet} {L : PnetLaws P} {T : PnetTypes P} {D : Device} {N : IpNetwork} {C : Lru} {CL : LruLaws C}.

(** ** A stream in order *)

(** The stream begins with the bytes. *)
Definition extends (data : list byte) (f : Z -> byte) : Prop := forall i, 0 <= i < len data -> zat data i = f i.

(** The connection has received exactly [out], whatever follows in the
    stream. *)
Definition received (isn capacity : Z) (r : Redirector) (src dst : SocketAddrV4) (out : list byte) (next : Z) : Prop :=
  forall f, extends out f -> delivering f isn capacity r src dst out next.

(** A frame with the next part of the stream, and what the outside answers. *)
Record next_frame (r : Redirector) (src dst : SocketAddrV4) (capacity next : Z) (env : Env) (frame payload : list byte) : Prop := {
  nf_frame : exists i tcp, tcp_frame r frame i tcp payload /\ ack_segment tcp src dst /\ tcp_is_fin tcp = false
               /\ tcp_sequence tcp = next;
  nf_size : 0 < len payload <= capacity;
  nf_written : env_write env = WriteAll
}.

(** What the device delivers: parts of the stream in order, frames about any
    other connection or none that the code can take, and timeouts.  What a frame
    is about and whether the code can take it depends on the state in which it
    comes. *)
Fixpoint sends_in_order (answers : list (Env * io_result (list byte))) (r : Redirector) (src dst : SocketAddrV4)
    (capacity next : Z) (data : list byte) : Prop :=
  match answers with
  | [] => data = []
  | (env, Ok frame) :: answers =>
      (frame_ok env r frame /\ touched env frame r <> Some (src, dst)
       /\ forall r', handle_frame env frame r = Done r' -> sends_in_order answers r' src dst capacity next data)
      \/ (exists payload rest, data = payload ++ rest /\ next_frame r src dst capacity next env frame payload
          /\ forall r', handle_frame env frame r = Done r' ->
               sends_in_order answers r' src dst capacity (seq_add next (len payload)) rest)
  | (_, Err e) :: answers => err_kind e = ETimedOut /\ sends_in_order answers r src dst capacity next data
  end.

(** A stream that begins with the bytes and goes on as one likes. *)
Definition stream_of (data : list byte) (rest : byte) (i : Z) : byte := if i <? len data then zat data i else rest.

Lemma stream_of_extends data rest : extends data (stream_of data rest).
Proof. intros i Hi. unfold stream_of. destruct (Z.ltb_spec i (len data)); [done|lia]. Qed.

Lemma extends_app data more f : extends (data ++ more) f -> extends data f.
Proof.
  intros H i Hi. rewrite <- H by (rewrite len_app; pose proof (len_nonneg more); lia).
  rewrite zat_app by lia. destruct (Z.ltb_spec i (len data)); [done|lia].
Qed.

Lemma extends_tabulate data more f n :
  extends (data ++ more) f -> 0 <= n <= len (data ++ more) -> tabulate n f = ztake n (data ++ more).
Proof.
  intros H Hn. apply zat_ext; [rewrite len_tabulate, len_ztake; lia|]. intros i Hi. rewrite len_tabulate in Hi.
  rewrite zat_tabulate, zat_ztake by lia. symmetry. apply H. lia.
Qed.

Lemma delivering_next f isn capacity r src dst out next : delivering f isn capacity r src dst out next -> is_u32 next.
Proof.
  intros (w & s & t & Hd). rewrite <- (dl_ack _ _ _ _ _ _ _ _ _ _ _ Hd).
  apply (tr_wf _ (live_ready _ _ _ _ (cn_live _ _ _ _ _ _ (dl_conn _ _ _ _ _ _ _ _ _ _ _ Hd)))).
Qed.

(** What the proxy has is in the redirector, whatever stream is meant. *)
Lemma delivering_same f f' isn capacity r src dst out out' next next' :
  delivering f isn capacity r src dst out next -> delivering f' isn capacity r src dst out' next' -> out = out'.
Proof.
  intros (w & s & t & Hd) (w' & s' & t' & Hd').
  pose proof (cn_stream _ _ _ _ _ _ (dl_conn _ _ _ _ _ _ _ _ _ _ _ Hd)) as E.
  pose proof (cn_stream _ _ _ _ _ _ (dl_conn _ _ _ _ _ _ _ _ _ _ _ Hd')) as E'.
  pose proof (dl_written _ _ _ _ _ _ _ _ _ _ _ Hd) as Ho. pose proof (dl_written _ _ _ _ _ _ _ _ _ _ _ Hd') as Ho'. congruence.
Qed.

Lemma next_frame_delivered f env frame payload r src dst isn capacity out next :
  is_u32 isn -> received isn capacity r src dst out next -> next_frame r src dst capacity next env frame payload ->
  extends (out ++ payload) f ->
  exists r' more, handle_frame env frame r = Done r'
    /\ delivering f isn capacity r' src dst (out ++ more) (seq_add next (len more))
    /\ out ++ more = tabulate (len (out ++ more)) f /\ len payload <= len more.
Proof.
  intros Hisn Hr [(i & tcp & Hf & Ha & Hfin & Hseq) Hsz Hw] He. specialize (Hr f (extends_app _ _ _ He)).
  destruct (frame_delivered f isn capacity env frame i tcp payload r src dst out next)
    as (r' & more & l & x & l' & E & Hd & Ht & Hl & _); [done..| |done|].
  - left. exists 0. pose proof (delivering_next _ _ _ _ _ _ _ _ Hr) as Hn.
    split; [rewrite Hseq; seq_lia|]. split; [lia|]. split; [lia|]. split; [lia|].
    intros k Hk. rewrite <- He by (rewrite len_app; pose proof (len_nonneg out); lia).
    pose proof (len_nonneg out). rewrite zat_app by lia. destruct (Z.ltb_spec (len out + 0 + k) (len out)); [lia|].
    f_equal. lia.
  - exists r', more. split; [done|]. split; [done|]. split; [done|by apply Hl].
Qed.

Lemma next_frame_received env frame payload r src dst isn capacity out next :
  is_u32 isn -> received isn capacity r src dst out next -> next_frame r src dst capacity next env frame payload ->
  exists r', handle_frame env frame r = Done r'
    /\ received isn capacity r' src dst (out ++ payload) (seq_add next (len payload)).
Proof.
  intros Hisn Hr Hf. pose proof (next_frame_delivered (stream_of (out ++ payload) 0) _ _ _ _ _ _ _ _ _ _ Hisn Hr Hf
    (stream_of_extends _ _)) as (r' & more & E & Hd & Ht & Hl).
  pose proof (next_frame_delivered (stream_of (out ++ payload) 1) _ _ _ _ _ _ _ _ _ _ Hisn Hr Hf
    (stream_of_extends _ _)) as (r1 & more1 & E1 & Hd1 & Ht1 & _). rewrite E in E1. injection E1 as <-.
  pose proof (delivering_same _ _ _ _ _ _ _ _ _ _ _ Hd Hd1) as Esame. apply app_inv_head in Esame as <-.
  set (n := len (out ++ more)) in *. assert (Hn : n <= len (out ++ payload)).
  { destruct (Z.le_gt_cases n (len (out ++ payload))) as [|Hgt]; [done|]. exfalso. pose proof (len_nonneg (out ++ payload)).
    assert (Ez : zat (tabulate n (stream_of (out ++ payload) 0)) (len (out ++ payload))
      = zat (tabulate n (stream_of (out ++ payload) 1)) (len (out ++ payload))) by congruence.
    rewrite !zat_tabulate in Ez by lia. unfold stream_of in Ez.
    destruct (Z.ltb_spec (len (out ++ payload)) (len (out ++ payload))); [lia|done]. }
  assert (Em : more = payload).
  { apply (app_inv_head out). rewrite Ht. rewrite (extends_tabulate out payload); [|apply stream_of_extends|].
    - apply ztake_all. unfold n in *. rewrite !len_app in *. lia.
    - pose proof (len_nonneg (out ++ more)). lia. }
  subst more. exists r'. split; [done|]. intros f He.
  destruct (next_frame_delivered f _ _ _ _ _ _ _ _ _ _ Hisn Hr Hf He) as (r2 & more2 & E2 & Hd2 & _).
  rewrite E in E2. injection E2 as <-. pose proof (delivering_same _ _ _ _ _ _ _ _ _ _ _ Hd Hd2) as Es.
  by apply app_inv_head in Es as <-.
Qed.

(** ** The frames in between *)

(** A whole segment leaves the bindings and the fragments alone. *)
Lemma segment_sound env frame i tcp payload r r' :
  sound r -> tcp_frame r frame i tcp payload -> handle_frame env frame r = Done r' -> rd_ok r' -> sound r'.
Proof.
  intros Hs Hf E Hok. destruct (handle_frame_tcp env frame r i tcp payload (sd_ok _ Hs) Hf) as (r1 & Hj & E1). rewrite E1 in E.
  apply outcome_bind_Done_inv in E as ([r2 x] & E2 & E). rewrite (log_error_tcp _ _ _ _ _ x Hf), outcome_bind_Done in E. injection E as <-.
  destruct (joined_sound _ _ Hs Hj) as [_ Hp Hd]. constructor; [done|eapply ports_view; [|exact Hp]; by eapply bind_tcp_kept|].
  by rewrite (defrag_rest _ _ _ _ (rest_tcp _ _ _) E2).
Qed.

(** Only the view of a connection decides what it has received. *)
Lemma delivering_view f isn capacity r r' src dst out next :
  rd_ok r' -> conn_view (src, dst) r' = conn_view (src, dst) r ->
  delivering f isn capacity r src dst out next -> delivering f isn capacity r' src dst out next.
Proof.
  intros Hok Hv (w & s & t & [[Hw Hs Ht _] H2 H3 H4 H5 H6 H7]). apply lv_state in Ht.
  assert (V1 : sw_view <$> rd_streams r' !! (src, dst) = Some (sw_view w))
    by (etrans; [exact (f_equal (fun v => v.1.1) Hv)|exact (f_equal (fmap sw_view) Hw)]).
  apply fmap_Some in V1 as (w' & Ew & V1). destruct (conn_of r' src dst w' Hok Ew) as (s' & t' & Hc).
  assert (V2 : Some s' = Some s) by exact (eq_trans (eq_sym (cn_state _ _ _ _ _ _ Hc)) (eq_trans (f_equal (fun v => v.1.2) Hv) Hs)).
  assert (V3 : Some (tx_view_of t') = Some (tx_view_of t)).
  { refine (eq_trans (eq_sym (f_equal (fmap (M := option) tx_view_of) (lv_state _ _ _ _ (cn_live _ _ _ _ _ _ Hc)))) _).
    exact (eq_trans (f_equal snd Hv) (f_equal (fmap (M := option) tx_view_of) Ht)). }
  injection V2 as ->. apply (inj Some) in V3. injection V1 as _ V1. exists w', s, t'.
  constructor; [done|congruence|done..|by rewrite (view_ack _ _ V3)].
Qed.

Lemma received_view isn capacity r r' src dst out next :
  rd_ok r' -> conn_view (src, dst) r' = conn_view (src, dst) r ->
  received isn capacity r src dst out next -> received isn capacity r' src dst out next.
Proof. intros Hok Hv Hr f He. eapply delivering_view; [done|exact Hv|by apply Hr]. Qed.

Lemma received_ok isn capacity r src dst out next : received isn capacity r src dst out next -> rd_ok r.
Proof. intros Hr. eapply delivering_ok, (Hr (stream_of out 0)), stream_of_extends. Qed.

(** A whole segment that the code can take. *)
Lemma segment_frame_ok env r frame i tcp payload :
  Forall is_u8 frame -> tcp_frame r frame i tcp payload -> segment_ok env r tcp payload -> frame_ok env r frame.
Proof.
  intros Hb [Hi (ipv4 & En & Hv & Hf) Et (headers & padding & -> & Hl & Hc)] Hg. constructor; [done|].
  intros i' ipv4' Hi' Hv' _. rewrite Hi in Hi'. injection Hi' as <-. unfold indicator_ipv4 in Hv'. rewrite En in Hv'.
  injection Hv' as <-. pose proof (len_nonneg headers). pose proof (len_nonneg payload). pose proof (len_nonneg padding).
  exists (len headers + len payload). constructor; [|intros _|by rewrite Hf..].
  - split; [done|]. rewrite !len_app. lia.
  - rewrite Et. exists payload. split; [|done]. pose proof (packet_payload i headers payload padding Hl) as Hp.
    by replace (len (ztake _ _)) with (len headers + len payload) in Hp by (rewrite len_ztake, !len_app; lia).
Qed.

(** ** Theorem *)

(** C1. The whole stream reaches the proxy: when the source sends it in order,
    in segments of any size that fit the window and that the proxy takes, the
    loop of the redirector comes to the end of what the device delivers without
    a panic, the proxy has been handed exactly the bytes that were sent, and the
    invariant of the redirector holds.  In between come timeouts and any frames
    about other connections, sources and protocols that the code can take
    ([frame_ok]), with whatever the proxy and the device answer to them; the
    tasks of the workers take any turns of a schedule that the invariant allows
    before the critical sections of the handlers and while these wait; and the
    device may fail to send any frame.  The segments of the stream have the
    numbers that the code expects, and of its own connection the source sends
    nothing else meanwhile. *)
Theorem stream_in_order_delivered (isn capacity : Z) (r : Redirector) (src dst : SocketAddrV4) (out : list byte) (next : Z)
    (answers : list (Env * io_result (list byte))) (data : list byte) :
  is_u32 isn -> sound r -> received isn capacity r src dst out next ->
  sends_in_order answers r src dst capacity next data ->
  exists r' next' w, redirector_open answers r = Done (r', Ok tt) /\ sound r'
    /\ received isn capacity r' src dst (out ++ data) next'
    /\ rd_streams r' !! (src, dst) = Some w /\ sw_stream_tx w = Some (out ++ data).
Proof.
  intros Hisn. revert r out next data. induction answers as [|[env [frame|e]] answers IH]; intros r out next data Hs Hr; cbn [sends_in_order redirector_open].
  - intros ->. rewrite app_nil_r. destruct (Hr (stream_of out 0) (stream_of_extends _ _)) as (w & s & t & [Hc Hw _ _ _ _ _]).
    exists r, next, w. split; [done|]. split; [done|]. split; [done|]. split; [by destruct Hc|done].
  - intros [(Hf & Hne & Hn)|(payload & rest & -> & Hf & Hn)].
    + destruct (frame_returns env frame r Hs Hf) as (r1 & E1 & Hs1). rewrite E1, outcome_bind_Done.
      apply (IH r1 out next); [done| |by apply Hn]. eapply received_view; [apply Hs1| |exact Hr]. by eapply frame_view_kept.
    + destruct (next_frame_received env frame payload r src dst isn capacity out next Hisn Hr Hf) as (r1 & E1 & Hr1).
      rewrite E1, outcome_bind_Done. rewrite app_assoc. eapply IH; [|done|by apply Hn].
      destruct Hf as [(i & tcp & Hf & _) _ _]. eapply segment_sound; [done|done|done|by eapply received_ok].
  - intros [He Hn]. rewrite bool_decide_true by done. by apply (IH r out next).
Qed.
End delivery.

(** ** Examples *)

(** The next segment, with one byte. *)
Definition second_headers : list byte :=
  [0; 0; 0; 0; 0; 7; 0; 0; 0; 0; 0; 5; 8; 0]
  ++ [69; 0; 0; 41; 0; 0; 0; 0; 64; 6; 0; 0; 0; 0; 0; 1; 0; 0; 0; 2]
  ++ [0; 1; 0; 2; 0; 0; 0; 103; 0; 0; 0; 11; 80; 16; 3; 232; 0; 0; 0; 0].
Definition second_frame : list byte := second_headers ++ [9] ++ [0; 0; 0; 0; 0].
Definition second_indicator : Indicator (P := wire) := indicator_parse (ethernet_view second_frame).
Definition second_tcp : Tcp (P := wire) := default (from_source (tcp_new_ack 1 2 0 0 0 None None)) (indicator_tcp second_indicator).
Definition second_ipv4 : Ipv4 (P := wire) := ipv4_parse (ipv4_view (pe_payload (ethernet_view second_frame))).

Lemma second_frame_ok : tcp_frame (P := wire) rd_open second_frame second_indicator second_tcp [9].
Proof.
  constructor.
  - reflexivity.
  - exists second_ipv4. split; [reflexivity|]. split; vm_compute; reflexivity.
  - reflexivity.
  - exists second_headers, [0; 0; 0; 0; 0]. split; [reflexivity|]. split; vm_compute; reflexivity.
Qed.

(** A segment of another connection of the same source, which there is not. *)
Definition other_headers : list byte :=
  [0; 0; 0; 0; 0; 7; 0; 0; 0; 0; 0; 5; 8; 0]
  ++ [69; 0; 0; 40; 0; 0; 0; 0; 64; 6; 0; 0; 0; 0; 0; 1; 0; 0; 0; 2]
  ++ [0; 1; 0; 3; 0; 0; 0; 50; 0; 0; 0; 11; 80; 16; 3; 232; 0; 0; 0; 0].
Definition other_frame : list byte := other_headers ++ [] ++ [0; 0; 0; 0; 0; 0].
Definition other_indicator : Indicator (P := wire) := indicator_parse (ethernet_view other_frame).
Definition other_tcp : Tcp (P := wire) := default (from_source (tcp_new_ack 1 2 0 0 0 None None)) (indicator_tcp other_indicator).
Definition other_ipv4 : Ipv4 (P := wire) := ipv4_parse (ipv4_view (pe_payload (ethernet_view other_frame))).

Lemma other_frame_ok : tcp_frame (P := wire) rd_open other_frame other_indicator other_tcp [].
Proof.
  constructor.
  - reflexivity.
  - exists other_ipv4. split; [reflexivity|]. split; vm_compute; reflexivity.
  - reflexivity.
  - exists other_headers, [0; 0; 0; 0; 0; 0]. split; [reflexivity|]. split; vm_compute; reflexivity.
Qed.

Lemma other_segment_ok r : segment_ok (env_example (Ok tt)) r other_tcp [].
Proof.
  constructor.
  - vm_compute. reflexivity.
  - vm_compute. split; discriminate.
  - intros H. by vm_compute in H.
  - intros _. exists None. split; [vm_compute; reflexivity|exact I].
  - intros _ H. by vm_compute in H.
Qed.

Definition run_example : list (Env * io_result (list byte)) :=
  [(env_example (Ok tt), Ok tcp_frame_example); (env_example (Ok tt), Ok other_frame);
   (env_example (Ok tt), Err (mkIoError ETimedOut "")); (env_example (Ok tt), Ok foreign_frame_example);
   (env_example (Ok tt), Ok second_frame)].

Lemma run_example_ok : sends_in_order (D := black_hole) run_example rd_open (1, 1) (2, 2) 65535 101 ([7; 8] ++ [9] ++ []).
Proof.
  right. exists [7; 8], [9]. split; [reflexivity|]. split.
  { constructor; [|vm_compute; split; [reflexivity|discriminate]|reflexivity].
    exists indicator_example, tcp_example. split; [apply tcp_frame_example_ok|]. split; [apply tcp_example_segment|].
    split; vm_compute; reflexivity. }
  intros r1 E1. pose proof (settled_frame (D := black_hole) _ _ _ _ E1) as S1. left.
  pose proof (tcp_frame_settings _ _ _ _ _ _ S1 other_frame_ok) as Hf. split.
  { eapply segment_frame_ok; [apply (bool_decide_unpack _); vm_compute; exact I|exact Hf|apply other_segment_ok]. }
  split; [rewrite (segment_touched _ _ _ _ _ _ Hf); vm_compute; discriminate|].
  intros r2 E2. pose proof (eq_trans (settled_frame (D := black_hole) _ _ _ _ E2) S1) as S2. split; [reflexivity|]. left.
  assert (Hg : is_foreign r2 foreign_frame_example = true)
    by (etrans; [exact (is_foreign_settings rd_open r2 foreign_frame_example S2)|vm_compute; reflexivity]).
  split; [apply foreign_ok; [apply (bool_decide_unpack _); vm_compute; exact I|exact Hg]|].
  split; [by rewrite (foreign_untouched _ _ _ Hg)|].
  intros r3 E3. pose proof (eq_trans (settled_frame (D := black_hole) _ _ _ _ E3) S2) as S3.
  right. exists [9], []. split; [reflexivity|]. split; [|reflexivity].
  constructor; [|vm_compute; split; [reflexivity|discriminate]|reflexivity].
  exists second_indicator, second_tcp. split; [exact (tcp_frame_settings _ _ _ _ _ _ S3 second_frame_ok)|].
  split; [constructor; vm_compute; split || reflexivity; discriminate|]. split; vm_compute; reflexivity.
Qed.

Lemma stream_in_order_delivered_witness :
  exists r' next' w, redirector_open (D := black_hole) run_example rd_open = Done (r', Ok tt) /\ sound r'
    /\ received 101 65535 r' (1, 1) (2, 2) ([] ++ [7; 8; 9]) next'
    /\ rd_streams r' !! ((1, 1), (2, 2)) = Some w /\ sw_stream_tx w = Some ([] ++ [7; 8; 9]).
Proof.
  refine (stream_in_order_delivered (D := black_hole) 101 65535 rd_open (1, 1) (2, 2) [] 101
    run_example [7; 8; 9] _ rd_open_sound _ run_example_ok).
  - vm_compute. split; discriminate.
  - intros f _. eexists _, _, _. apply rd_open_delivers.
Defined.
