(* ===== verification/Datagram.v ===== *)
(** * Datagrams from the wire to the proxy

    What happens to the UDP datagrams of the source, from the bytes of their
    frames on: a datagram in one frame is handed to the proxy, and so is one
    whose fragments arrive in any order. *)

From S2P Require Import Prelude SeqArith Ring Queue Window TxState RxState Socks Pnet Wire Layers Packet PacketText Frames Forwarder Flow Crates Redirector Preserve Workers Conn Session Dispatch Stream Isolation Ports Safety.

Section datagram.
Context {P : Pnet} {L : PnetLaws P} {T : PnetTypes P} {D : Device} {N : IpNetwork} {C : Lru} {CL : LruLaws C}.

(** ** Handing over *)

(** The bindings are those of the specification, and when the source has a port
    the worker of that port was handed the datagram for [dst] last. *)
Definition handed (r r' : Redirector) (answer : io_result (Z * option SocketAddrV4)) (src dst : SocketAddrV4)
    (payload : list byte) : Prop :=
  let spec := bind_spec (lru_cap (rd_udp_lru r)) answer src (items r) in
  items r' = spec.1
  /\ forall port, spec.2 = Ok port ->
       exists w d, rd_datagrams r' !! port = Some w /\ rd_datagram_map r' !! src = Some port
         /\ last (dw_sent w) = Some d /\ proxy_datagram d dst payload.

(** A redirector with the same bindings and the same proxy. *)
Definition same_ports (r r' : Redirector) : Prop := bind_view r' = bind_view r /\ settings r' = settings r.

Lemma same_ports_trans r r1 r2 : same_ports r r1 -> same_ports r1 r2 -> same_ports r r2.
Proof. intros [A1 B1] [A2 B2]. split; [exact (eq_trans A2 A1)|exact (eq_trans B2 B1)]. Qed.

Lemma joined_ports r r' : joined r r' -> same_ports r r'.
Proof.
  intros Hj. pose proof (jn_udp _ _ Hj) as (E1 & E2 & E3 & E4 & E5). pose proof (jn_settings _ _ Hj) as [= E6 E7 E8].
  split; [unfold bind_view; by rewrite E1, E2, E3|unfold settings; by rewrite E4, E5, E6, E7, E8].
Qed.

Lemma same_ports_bind env r r' answer : same_ports r r' -> bind_ok env r answer -> bind_ok env r' answer.
Proof.
  intros [[= _ _ El] [= _ _ _ Er Eo]] [H1 H2]. constructor; [by rewrite Er, Eo|]. unfold items. by rewrite El.
Qed.

Lemma same_ports_handed r r1 r2 answer src dst payload :
  same_ports r r1 -> handed r1 r2 answer src dst payload -> handed r r2 answer src dst payload.
Proof. intros [[= _ _ El] _]. unfold handed, items. by rewrite El. Qed.

Lemma udp_handed env udp payload r answer :
  sound r -> bind_ok env r answer -> is_u32 (udp_dst_ip_addr udp) -> is_u16 (udp_dst udp) -> HEADER_SIZE + len payload <= u16_max ->
  exists r' x, handle_udp env udp payload r = Done (r', x) /\ sound r'
    /\ handed r r' answer (udp_src_ip_addr udp, udp_src udp) (udp_dst_ip_addr udp, udp_dst udp) payload
    /\ rd_defrag r' = rd_defrag r.
Proof.
  intros [Hok Hp Hd] Hb H1 H2 H3.
  destruct (udp_sent_ok env udp payload r answer Hok Hp Hb H1 H2 H3) as (r' & x & E & Ei & Hok' & Hp' & Hm).
  pose proof (defrag_rest _ _ _ _ (rest_udp env udp payload) E) as Ed. exists r', x. split; [done|].
  split; [constructor; [done|done|by rewrite Ed]|]. split; [|done]. split; [done|]. intros port Es. rewrite Es in Hm. apply Hm.
Qed.

(** ** Fragments *)

(** The frame that arrives is the fragment at [range] of the datagram. *)
Record fragment_arrives (r : Redirector) (data : list byte) (key : frag_key) (start : Instant)
    (a : Env * list byte) (range : Z * Z) : Prop := {
  fa_bytes : Forall is_u8 a.2;
  fa_packet : exists i ipv4 n, indicator_from a.2 = Some i /\ indicator_ipv4 i = Some ipv4
    /\ serves r (ipv4_src ipv4) = true /\ ipv4_is_fragment ipv4 = true /\ ipv4_next_level_protocol ipv4 = protocol_udp
    /\ indicator_content_len i = Done n /\ 0 <= n <= len a.2
    /\ fragment_frame data key start (env_now a.1, i, ztake n a.2) range
}.

(** The header of a fragment of this datagram. *)
Definition udp_header (src dst : SocketAddrV4) (ipv4 : Ipv4) : Prop :=
  ipv4_next_level_protocol ipv4 = protocol_udp /\ (ipv4_src ipv4, ipv4_dst ipv4) = (sa_ip src, sa_ip dst).

(** A fragment of a datagram fits. *)
Lemma fragment_frame_fits Q data key start base l d a range :
  len data <= u16_max -> 0 <= range_sum l <= u16_max -> base !! key = None ->
  group_state Q data key start base l d -> fragment_frame data key start a range -> fragment_fits d a.1.2 a.2.
Proof.
  destruct a as [[now i] frame]. cbn [fst snd]. intros Hd Hs Hb Hg (e & ipv4 & n & Ee & Ei & Hk & En & Hh & Hm & Hfr & _).
  destruct Hfr as (v & Ev & -> & _ & Hr & _). rewrite Ei in Ev. injection Ev as <-. cbn [snd] in Hr. rewrite len_zdrop in Hr.
  constructor; [done| |].
  - intros v. rewrite Ei. intros [= <-]. exists e, n. split; [done|]. split; [done|]. split; [done|]. lia.
  - intros v f. rewrite Ei. intros [= <-]. rewrite Hk. destruct Hg as [[_ ->]|(g & -> & Hinv & _)]; [by rewrite Hb|].
    rewrite lookup_insert_eq. intros [= <-]. rewrite (fi_length _ _ _ Hinv). ilia.
Qed.

Section gather.
Context (src dst : SocketAddrV4) (id : Z) (data payload : list byte) (start : Instant).
Context (Hdata : udp_datagram (sa_port src) (sa_port dst) payload data) (Hsize : HEADER_SIZE + len payload <= u16_max).
Context (Hdst : is_u32 (sa_ip dst) /\ is_u16 (sa_port dst)).
Let key : frag_key := (sa_ip src, sa_ip dst, LK_Ipv4, id).

(** Between two fragments: the group has those at the ranges [l]. *)
Record gathering (r0 r : Redirector) (l : list (Z * Z)) : Prop := {
  ga_sound : sound r;
  ga_ports : same_ports r0 r;
  ga_base : frags (rd_defrag r0) !! key = None;
  ga_group : group_state (udp_header src dst) data key start (frags (rd_defrag r0)) l (rd_defrag r)
}.

(** A fragment reaches the group. *)
Lemma gather_add r0 r l a range todo :
  gathering r0 r l -> fragment_arrives r0 data key start a range -> tiles (l ++ range :: todo) (len data) ->
  (l = [] -> env_now a.1 = start) ->
  exists i r1 d f,
    indicator_from a.2 = Some i /\ same_ports r0 r1 /\ sound (rd_with_defrag r1 d)
    /\ frag_inv data (range :: l) f /\ udp_header src dst (fg_ipv4 f)
    /\ handle_frame a.1 a.2 r
       = ('(r', x) ← match (if bool_decide (todo = []) then Some f else None) with
                     | None => mret tt
                     | Some frag => '(transport, payload) ← rm_lift (fragmentation_concatenate frag);
                                    handle_transport a.1 transport (mret payload)
                     end (rd_with_defrag r1 d); _ ← log_error i x; mret r')
    /\ if bool_decide (todo = []) then frags d = frags (rd_defrag r0)
       else gathering r0 (rd_with_defrag r1 d) (range :: l).
Proof.
  intros [Hs Hp Hnone Hg] [Hbytes (i & ipv4 & n & Hi & Ei & Hv & Hf & Hpr & Hn & Hle & Hfr)] Ht Hst.
  pose proof (ud_len _ _ _ _ Hdata) as Hdl. pose proof (len_nonneg payload). change HEADER_SIZE with 10 in Hsize.
  assert (Hv' : serves r (ipv4_src ipv4) = true) by (by rewrite (serves_settings r0) by apply Hp).
  destruct (handle_ipv4_served a.1 a.2 r i ipv4 n (sd_ok _ Hs) Hi Ei Hv' Hn Hle) as (r1 & Hj & E).
  pose proof (joined_sound _ _ Hs Hj) as Hs1. rewrite <- (jn_defrag _ _ Hj) in Hg.
  destruct (defrag_step (udp_header src dst) data key start (frags (rd_defrag r0)) l todo (rd_defrag r1)
    (env_now a.1, i, ztake n a.2) range) as (d & f & Ed & Hinv & Hq & Hd); [ilia|done|done|done|done|done| |].
  { intros v Ev. cbn in Ev. rewrite Ei in Ev. injection Ev as <-. split; [done|].
    destruct Hfr as (e & v & m & _ & Ev & Hk & _). rewrite Ei in Ev. injection Ev as <-. by injection Hk as -> -> _. }
  cbn [fst snd] in Ed. exists i, r1, d, f. split; [done|].
  assert (Hp1 : same_ports r0 r1) by (eapply same_ports_trans; [exact Hp|by apply joined_ports]).
  assert (Hdo : defrag_ok d).
  { destruct (defraggler_add_ok (env_now a.1) (rd_defrag r1) i (ztake n a.2) (sd_defrag _ Hs1)) as (d' & x & Ed' & Hd' & _).
    - exact (proj1 (indicator_typed a.2 i Hbytes Hi)).
    - unfold ztake. by apply Forall_take.
    - pose proof (proj1 (tiles_sum _ _ _ Ht)).
      eapply (fragment_frame_fits _ data key start _ l _ (env_now a.1, i, ztake n a.2)); [ilia|ilia|exact Hnone|exact Hg|exact Hfr].
    - rewrite Ed in Ed'. by injection Ed' as <- _. }
  pose proof (sound_defrag r1 d Hs1 Hdo) as Hs2. split; [done|]. split; [done|]. split; [done|]. split; [done|]. split.
  - rewrite (handle_frame_ipv4 a.1 a.2 r i ipv4 Hi Ei), E. unfold handle_packet. rewrite Hf.
    erewrite rm_bind_Ok by (by rewrite Ed). cbv beta iota. by erewrite rm_bind_Ok by reflexivity.
  - case_bool_decide; [done|]. constructor; [done|exact Hp1|done|exact Hd].
Qed.

(** Another one is still missing. *)
Lemma gather_more r0 r l a range todo :
  gathering r0 r l -> fragment_arrives r0 data key start a range -> tiles (l ++ range :: todo) (len data) ->
  (l = [] -> env_now a.1 = start) -> todo <> [] ->
  exists r', handle_frame a.1 a.2 r = Done r' /\ gathering r0 r' (range :: l).
Proof.
  intros Hg Ha Ht Hst Hne. destruct (gather_add r0 r l a range todo Hg Ha Ht Hst) as (i & r1 & d & f & _ & _ & _ & _ & _ & E & H).
  rewrite bool_decide_false in E, H by done. by exists (rd_with_defrag r1 d).
Qed.

(** The last one: the datagram is complete and goes to the proxy. *)
Lemma gather_last r0 r l a range answer :
  gathering r0 r l -> fragment_arrives r0 data key start a range -> tiles (l ++ [range]) (len data) ->
  (l = [] -> env_now a.1 = start) -> bind_ok a.1 r0 answer ->
  exists r', handle_frame a.1 a.2 r = Done r' /\ sound r' /\ frags (rd_defrag r') = frags (rd_defrag r0)
    /\ handed r0 r' answer src dst payload.
Proof.
  intros Hg Ha Ht Hst Hb. pose proof (ud_len _ _ _ _ Hdata) as Hdl. pose proof (len_nonneg payload). change HEADER_SIZE with 10 in Hsize.
  destruct (gather_add r0 r l a range [] Hg Ha Ht Hst) as (i & r1 & d & f & Hi & Hp & Hs & Hinv & [Hq1 Hq2] & E & Hbase).
  rewrite bool_decide_true in E, Hbase by done. eapply tiles_perm in Ht; [|symmetry; apply Permutation_middle]. rewrite app_nil_r in Ht.
  destruct (concatenate_datagram f _ _ payload data (frag_inv_datagram data _ f ltac:(ilia) Ht Hinv) Hdata Hq1)
    as (u & Ec & Es & Ed & E1 & E2). injection Hq2 as E3 E4.
  assert (Hp2 : same_ports r0 (rd_with_defrag r1 d)) by exact Hp.
  destruct (udp_handed a.1 u payload (rd_with_defrag r1 d) answer Hs) as (r' & x & E5 & Hs' & Hh & Edf).
  { by eapply same_ports_bind. }
  { rewrite E2, E4. apply Hdst. }
  { rewrite Ed. apply Hdst. }
  { exact Hsize. }
  exists r'. split; [|split; [done|split; [by rewrite Edf|]]].
  - rewrite E. erewrite rm_bind_Ok by (by apply rm_lift_Done). cbv beta iota. cbn [handle_transport].
    erewrite rm_bind_Ok by reflexivity. rewrite E5, outcome_bind_Done. by rewrite (log_error_Done a.2 i x (fa_bytes _ _ _ _ _ _ Ha) Hi).
  - eapply same_ports_handed; [exact Hp2|]. rewrite E1, E3, E2, E4, Es, Ed in Hh.
    assert (Esa : forall a : SocketAddrV4, (sa_ip a, sa_port a) = a) by (by intros []). by rewrite !Esa in Hh.
Qed.

(** The loop of [open] over the fragments. *)
Definition delivers_frames (frames : list (Env * list byte)) : list (Env * io_result (list byte)) :=
  map (fun a => (a.1, Ok a.2)) frames.

Lemma gather_run r0 r l frames ranges answer :
  gathering r0 r l -> Forall2 (fragment_arrives r0 data key start) frames ranges -> ranges <> [] ->
  tiles (l ++ ranges) (len data) -> (l = [] -> forall a rest, frames = a :: rest -> env_now a.1 = start) ->
  (forall a, last frames = Some a -> bind_ok a.1 r0 answer) ->
  exists r', redirector_open (delivers_frames frames) r = Done (r', Ok tt) /\ sound r'
    /\ frags (rd_defrag r') = frags (rd_defrag r0) /\ handed r0 r' answer src dst payload.
Proof.
  revert r l ranges. induction frames as [|a frames IH]; intros r l ranges Hg Hf Hne Ht Hst Hb;
    inversion Hf as [|? range ? todo Ha Hrest]; subst; [done|].
  assert (Hst' : l = [] -> env_now a.1 = start) by (intros Hl; by eapply Hst). cbn [delivers_frames map redirector_open].
  destruct (decide (todo = [])) as [->|Htodo].
  - inversion Hrest; subst.
    destruct (gather_last r0 r l a range answer Hg Ha Ht Hst') as (r' & -> & H); [by apply Hb|]. by exists r'.
  - destruct (gather_more r0 r l a range todo Hg Ha Ht Hst' Htodo) as (r1 & -> & Hg1). rewrite outcome_bind_Done.
    apply (IH r1 (range :: l) todo Hg1 Hrest Htodo); [|done|].
    + eapply tiles_perm; [|exact Ht]. simpl. symmetry. apply Permutation_middle.
    + intros b Hlast. apply Hb. by destruct frames.
Qed.
End gather.

(** ** Theorems *)

(** C13. A datagram in one frame reaches the proxy: whatever the padding of the
    frame, its payload is handed to the worker of the port of its source, with
    the header for its destination, and the bindings are those of the
    specification; the invariant holds again. *)
Theorem frame_datagram_sent (env : Env) (frame : list byte) (i : Indicator) (udp : Udp) (payload : list byte)
    (r : Redirector) (answer : io_result (Z * option SocketAddrV4)) :
  sound r -> Forall is_u8 frame -> whole_frame r frame i (LUdp udp) payload -> bind_ok env r answer ->
  HEADER_SIZE + len payload <= u16_max ->
  exists r', handle_frame env frame r = Done r' /\ sound r'
    /\ handed r r' answer (udp_src_ip_addr udp, udp_src udp) (udp_dst_ip_addr udp, udp_dst udp) payload.
Proof.
  intros Hs Hb Hf Ha H3.
  destruct (proj2 (indicator_typed frame i Hb (wf_parse _ _ _ _ _ Hf)) _ (wf_transport _ _ _ _ _ Hf)) as [H1 H2]. destruct (handle_frame_whole env frame r i _ payload (sd_ok _ Hs) Hf) as (r1 & Hj & ->).
  pose proof (joined_ports _ _ Hj) as Hp.
  destruct (udp_handed env udp payload r1 answer) as (r' & x & E & Hs' & Hh & _);
    [by eapply joined_sound|by eapply same_ports_bind|done..|].
  exists r'. split; [|split; [done|by eapply same_ports_handed]]. cbn [handle_transport].
  erewrite rm_bind_Ok by reflexivity. rewrite E, outcome_bind_Done.
  by rewrite (log_error_Done frame i x Hb (wf_parse _ _ _ _ _ Hf)).
Qed.

(** C14. A datagram in fragments reaches the proxy: when its fragments arrive in
    any order, each once and within the expiry of their group, the redirector
    takes them without a panic, hands the whole payload to the worker of the
    port of its source with the last one, and keeps no trace of them; the groups
    of other datagrams are untouched and the invariant holds. *)
Theorem fragments_datagram_sent (src dst : SocketAddrV4) (id : Z) (data payload : list byte) (start : Instant)
    (r : Redirector) (frames : list (Env * list byte)) (ranges : list (Z * Z)) (answer : io_result (Z * option SocketAddrV4)) :
  let key := (sa_ip src, sa_ip dst, LK_Ipv4, id) in
  sound r -> udp_datagram (sa_port src) (sa_port dst) payload data -> HEADER_SIZE + len payload <= u16_max ->
  is_u32 (sa_ip dst) /\ is_u16 (sa_port dst) -> frags (rd_defrag r) !! key = None ->
  tiles ranges (len data) -> Forall2 (fragment_arrives r data key start) frames ranges ->
  (forall a rest, frames = a :: rest -> env_now a.1 = start) -> (forall a, last frames = Some a -> bind_ok a.1 r answer) ->
  exists r', redirector_open (delivers_frames frames) r = Done (r', Ok tt) /\ sound r'
    /\ frags (rd_defrag r') = frags (rd_defrag r) /\ handed r r' answer src dst payload.
Proof.
  intros key Hs Hd Hsz Hdst Hnone Ht Hf Hst Hb. pose proof (ud_len _ _ _ _ Hd) as Hdl. pose proof (len_nonneg payload).
  apply (gather_run src dst id data payload start Hd Hsz Hdst r r [] frames ranges answer); [|done| |done|done|done].
  - constructor; [done|done|done|by left].
  - intros ->. destruct Ht as (k & Hk & Hc). apply Permutation_nil_l in Hk. subst k. simpl in Hc. lia.
Qed.
End datagram.

(** ** Examples *)

Lemma rd_two_sound : sound (rd_two 3).
Proof. constructor; [apply rd_two_ok|apply rd_two_ports; lia|exact (map_Forall_empty (M := gmap frag_key) _)]. Qed.

(** The headers of an IPv4 packet of [n] bytes of UDP from 1 to 2. *)
Definition udp_headers (n flags offset : Z) : list byte :=
  [0; 0; 0; 0; 0; 7; 0; 0; 0; 0; 0; 5; 8; 0]
  ++ [69; 0; 0; 20 + n; 0; 7; flags; offset; 64; 17; 0; 0; 0; 0; 0; 1; 0; 0; 0; 2].

(** A datagram with two bytes from 1:11 to 2:53, in a frame with padding. *)
Definition udp_frame_example : list byte := udp_headers 10 0 0 ++ [0; 11; 0; 53; 0; 10; 0; 0] ++ [7; 8] ++ [0; 0; 0].
Definition udp_indicator_example : Indicator (P := wire) := indicator_parse (ethernet_view udp_frame_example).
Definition udp_parsed_example : Udp := default (mkUdp (mkPUdp 0 0 0 0 []) 0 0) (indicator_udp udp_indicator_example).

Lemma udp_frame_example_ok : whole_frame (P := wire) (rd_two 3) udp_frame_example udp_indicator_example (LUdp udp_parsed_example) [7; 8].
Proof.
  constructor.
  - reflexivity.
  - eexists. split; [reflexivity|]. split; vm_compute; reflexivity.
  - reflexivity.
  - exists (udp_headers 10 0 0 ++ [0; 11; 0; 53; 0; 10; 0; 0]), [0; 0; 0]. split; [reflexivity|]. split; vm_compute; reflexivity.
Qed.

Lemma frame_datagram_sent_witness :
  exists r', handle_frame (D := black_hole) (env_example (Ok tt)) udp_frame_example (rd_two 3) = Done r' /\ sound r'
    /\ handed (rd_two 3) r' (Ok (5000, None)) (udp_src_ip_addr udp_parsed_example, udp_src udp_parsed_example)
         (udp_dst_ip_addr udp_parsed_example, udp_dst udp_parsed_example) [7; 8].
Proof.
  refine (frame_datagram_sent (D := black_hole) (env_example (Ok tt)) udp_frame_example
    udp_indicator_example udp_parsed_example [7; 8] (rd_two 3) (Ok (5000, None)) rd_two_sound _ udp_frame_example_ok (rd_two_bind 3) _).
  - apply (bool_decide_unpack _). vm_compute. exact I.
  - vm_compute. discriminate.
Defined.

(** A datagram with ten bytes whose last two arrive first. *)
Definition fragments_payload : list byte := [1; 2; 3; 4; 5; 6; 7; 8; 9; 10].
Definition fragments_data : list byte := [0; 11; 0; 53; 0; 18; 0; 0] ++ fragments_payload.
Definition fragments_example : list (Env * list byte) :=
  [(env_example (Ok tt), udp_headers 2 0 2 ++ [9; 10] ++ [0; 0]);
   (env_example (Ok tt), udp_headers 16 32 0 ++ ztake 16 fragments_data)].

Lemma fragments_example_ok :
  Forall2 (fragment_arrives (P := wire) (rd_two 3) fragments_data (1, 2, LK_Ipv4, 7) (env_now (env_example (Ok tt))))
    fragments_example [(16, 18); (0, 16)].
Proof.
  apply List.Forall2_cons; [|apply List.Forall2_cons; [|apply List.Forall2_nil]].
  - constructor; [apply (bool_decide_unpack _); vm_compute; exact I|]. eexists _, _, 36.
    do 2 (split; [reflexivity|]). do 4 (split; [vm_compute; reflexivity|]). split; [vm_compute; split; discriminate|].
    eexists _, _, 20. do 2 (split; [reflexivity|]). do 2 (split; [vm_compute; reflexivity|]).
    split; [vm_compute; split; discriminate|]. split; [vm_compute; discriminate|]. split; [|vm_compute; discriminate].
    eexists. split; [reflexivity|]. repeat (split; [vm_compute; reflexivity || discriminate|]). vm_compute. reflexivity.
  - constructor; [apply (bool_decide_unpack _); vm_compute; exact I|]. eexists _, _, 50.
    do 2 (split; [reflexivity|]). do 4 (split; [vm_compute; reflexivity|]). split; [vm_compute; split; discriminate|].
    eexists _, _, 20. do 2 (split; [reflexivity|]). do 2 (split; [vm_compute; reflexivity|]).
    split; [vm_compute; split; discriminate|]. split; [vm_compute; discriminate|]. split; [|vm_compute; discriminate].
    eexists. split; [reflexivity|]. repeat (split; [vm_compute; reflexivity || discriminate|]). vm_compute. reflexivity.
Qed.

Lemma fragments_datagram_sent_witness :
  exists r', redirector_open (D := black_hole) (delivers_frames fragments_example) (rd_two 3) = Done (r', Ok tt) /\ sound r'
    /\ frags (rd_defrag r') = frags (rd_defrag (rd_two 3)) /\ handed (rd_two 3) r' (Ok (5000, None)) (1, 11) (2, 53) fragments_payload.
Proof.
  refine (fragments_datagram_sent (D := black_hole) (1, 11) (2, 53) 7 fragments_data fragments_payload
    (env_now (env_example (Ok tt))) (rd_two 3) fragments_example [(16, 18); (0, 16)] (Ok (5000, None)) rd_two_sound
    _ _ _ _ _ fragments_example_ok _ _).
  - constructor; reflexivity.
  - vm_compute. discriminate.
  - split; vm_compute; split; discriminate.
  - reflexivity.
  - exists [(0, 16); (16, 18)]. split; [apply Permutation_swap|vm_compute; repeat split].
  - intros a rest [= <- _]. reflexivity.
  - intros a [= <-]. exact (rd_two_bind 3).
Defined.
