(* ===== verification/CacheText.v ===== *)
(** * Texts of the caches, and the tests of the repository

    [Display] of [Queue] and [Window], and the unit tests of cache/mod.rs, which
    compare these texts, evaluated on the model. *)

From S2P Require Import Prelude SeqArith Ring Queue Window Text.

(** The index of the last byte. *)
Definition last_index (buffer : list byte) (tail : Z) : Z :=
  unwrap_or (checked_sub tail 1) (unwrap_or (checked_sub (len buffer) 1) 0).

(** The bytes in brackets, with what [before] and [after] put around each. *)
Definition show_buffer (buffer : list byte) (before after : Z -> text) : text :=
  lit "["
  ++ text_join (lit ", ") (imap (fun i b => before (Z.of_nat i) ++ decimal b ++ after (Z.of_nat i)) buffer)
  ++ lit "]".

Definition queue_text (q : Queue) : text :=
  let tail := last_index (q_buffer q) (queue_tail q) in
  show_buffer (q_buffer q)
    (fun i => if i =? q_head q then lit "<" else [])
    (fun i => if i =? tail then lit ">" else []).

(** The indices where a range begins and ends. *)
Definition edge_indices (w : Window) (e : Z * Z) : outcome (Z * Z) :=
  distance ← match checked_sub e.1 (w_sequence w) with
             | Some d => mret d
             | None => int_add u64_max e.1 (u32_max - w_sequence w)
             end;
  begin ← match checked_add usize_max distance (w_head w) with
          | Some b => mret b
          | None => int_sub (w_head w) (usize_max - distance)
          end;
  stop ← match checked_add usize_max begin e.2 with
         | Some s => mret s
         | None => int_sub e.2 (usize_max - begin)
         end;
  last ← int_sub (len (w_buffer w)) 1;
  mret (begin, unwrap_or (checked_sub (unwrap_or (checked_sub stop (len (w_buffer w))) stop) 1) last).

Definition window_text (w : Window) : outcome text :=
  let tail := last_index (w_buffer w) (window_tail w) in
  edges ← (fix go (es : list (Z * Z)) : outcome (list (Z * Z)) :=
             match es with
             | [] => mret []
             | e :: es => x ← edge_indices w e; l ← go es; mret (x :: l)
             end) (w_edges w);
  mret (show_buffer (w_buffer w)
    (fun i => (if i =? w_head w then lit "<" else []) ++ (if bool_decide (i ∈ edges.*1) then lit "<" else []))
    (fun i => (if bool_decide (i ∈ edges.*2) then lit ">" else []) ++ (if i =? tail then lit ">" else []))).

(** ** The tests of the queue *)

(** [(a..b)]. *)
Definition bytes (a b : Z) : list byte := seqZ a (b - a).

(** [append(...).unwrap()] and [invalidate_to]. *)
Definition append_test (q : Queue) (a b : Z) : outcome Queue :=
  '(q, r) ← queue_append 0 q (bytes a b) 0; _ ← unwrap_io r; mret q.
Definition invalidate_test (q : Queue) (n : Z) : outcome Queue :=
  '(q, _) ← queue_invalidate_to 0 q n; mret q.

Example queue_append_overflow :
  (q ← queue_with_capacity 9 0; q ← append_test q 0 8; q ← invalidate_test q 2; q ← append_test q 8 10;
   q ← invalidate_test q 6; q ← append_test q 10 15; mret (queue_text q))
  = Done (lit "[9, 10, 11, 12, 13, 14>, <6, 7, 8]").
Proof. vm_compute. reflexivity. Qed.

Example queue_append_overflow_overlapped :
  (q ← queue_with_capacity 9 0; q ← append_test q 0 8; q ← invalidate_test q 3; q ← append_test q 8 11;
   q ← invalidate_test q 6; q ← append_test q 11 15; mret (queue_text q))
  = Done (lit "[9, 10, 11, 12, 13, 14>, <6, 7, 8]").
Proof. vm_compute. reflexivity. Qed.

Example queue_append_overflow_overlapped_2 :
  (q ← queue_with_capacity 9 0; q ← append_test q 0 8; q ← invalidate_test q 6; q ← append_test q 8 14;
   q ← append_test q 14 15; mret (queue_text q))
  = Done (lit "[9, 10, 11, 12, 13, 14>, <6, 7, 8]").
Proof. vm_compute. reflexivity. Qed.

(** ** The tests of the window *)

Definition insert_test (w : Window) (sequence a b : Z) : outcome Window :=
  '(w, r) ← window_append w sequence (bytes a b); _ ← unwrap_io r; mret w.

Example window_append_in_order :
  (w ← insert_test (window_with_capacity 9 0) 0 0 8; w ← insert_test w 12 12 14; w ← insert_test w 8 8 12;
   w ← insert_test w 15 15 16; window_text w)
  = Done (lit "[8, 9, 10, 11, 12, 13, <6, <15>>]").
Proof. vm_compute. reflexivity. Qed.

Example window_append_overflow :
  (w ← insert_test (window_with_capacity 9 0) 6 6 8; w ← insert_test w 0 0 5; w ← insert_test w 8 8 10;
   w ← insert_test w 10 10 14; window_text w)
  = Done (lit "[9, 10, 11, 12, 13>>, <0, <6, 7, 8]").
Proof. vm_compute. reflexivity. Qed.

Example window_append_overflow_overlapped :
  (w ← insert_test (window_with_capacity 9 0) 6 6 8; w ← insert_test w 0 0 5; w ← insert_test w 8 8 11;
   w ← insert_test w 11 11 14; window_text w)
  = Done (lit "[9, 10, 11, 12, 13>>, <0, <6, 7, 8]").
Proof. vm_compute. reflexivity. Qed.

Example window_append_overflow_overlapped_2 :
  (w ← insert_test (window_with_capacity 9 0) 7 7 8; w ← insert_test w 0 0 6; w ← insert_test w 8 8 14;
   w ← insert_test w 14 14 15; window_text w)
  = Done (lit "[9, 10, 11, 12, 13, 14>>, <0, <7, 8]").
Proof. vm_compute. reflexivity. Qed.

Example window_append_prev_and_next :
  (w ← insert_test (window_with_capacity 8 0) 4 4 6; w ← insert_test w 0 0 2; w ← insert_test w 0 0 3;
   w ← insert_test w 1 11 13; window_text w)
  = Done (lit "[0, 1, 2, <0, <4, 5>>]").
Proof. vm_compute. reflexivity. Qed.
