(* ===== verification/Interface.v ===== *)
(** * Network interfaces

    [pcap::Interface], the list of the interfaces that the program can listen on
    and the choice of one (pcap/mod.rs, and [interfaces] and [interface] of
    lib.rs).  What the crates [pnet_datalink], [interfaces] and [netifs] report
    is an argument, as is the channel of a device. *)

From S2P Require Import Prelude Socks Text Pnet Crates.

(** ** What the crates report *)

(** [datalink::Channel]: an Ethernet channel with its halves, or another one. *)
Inductive Channel (Sender Receiver : Type) : Type :=
| Channel_Ethernet (tx : Sender) (rx : Receiver)
| Channel_Other.
Arguments Channel_Ethernet {_ _}. Arguments Channel_Other {_ _}.

Section interface.
Context `{N : IpNetwork}.

(** [ipnetwork::IpNetwork]. *)
Inductive IpNet : Set :=
| IpNet_V4 (network : Ipv4Network)
| IpNet_V6 (ip prefix : Z).

(** [pnet::datalink::NetworkInterface], with what its flags say. *)
Record NetworkInterface : Set := mkNetworkInterface {
  ni_name : string;
  ni_mac : option MacAddr;
  ni_ips : list IpNet;
  ni_is_up : bool;
  ni_is_loopback : bool
}.

(** An interface of the crate [interfaces]: its name and the answer of
    [get_mtu]. *)
Record CInterface : Set := mkCInterface { ci_name : string; ci_mtu : option Z }.

(** An interface of the crate [netifs]. *)
Record SysInterface : Set := mkSysInterface {
  si_name : string; si_display_name : string; si_mtu : Z; si_is_up : bool; si_is_loopback : bool }.

(** ** [Interface] *)

Record Interface : Set := mkInterface {
  if_name : string;
  if_alias : option string;
  if_hardware_addr : MacAddr;
  if_ip_addrs : list Ipv4Addr;
  if_mtu : Z;
  if_is_up : bool;
  if_is_loopback : bool
}.

Definition interface_new : Interface := mkInterface "" None 0 [] 0 false false.

Definition interface_ip_addr (i : Interface) : option Ipv4Addr :=
  if 0 <? len (if_ip_addrs i) then head (if_ip_addrs i) else None.

(** The interface that an entry of the device list becomes, if any: it needs a
    hardware address and an IPv4 address. *)
Definition interface_of (inter : NetworkInterface) : option Interface :=
  match ni_mac inter with
  | None => None
  | Some mac =>
      let ip_addrs := omap (fun ip => match ip with IpNet_V4 ipv4 => Some (network_ip ipv4) | IpNet_V6 _ _ => None end)
                        (ni_ips inter) in
      if len ip_addrs <=? 0 then None
      else Some (mkInterface (ni_name inter) (if_alias interface_new) mac ip_addrs (if_mtu interface_new)
                   (ni_is_up inter) (ni_is_loopback inter))
  end.

(** [mark_interfaces], on systems other than Windows. *)
Definition mark_interface (inter : CInterface) (i : Interface) : Interface :=
  if bool_decide (if_name i = ci_name inter) then
    match ci_mtu inter with
    | Some mtu => mkInterface (if_name i) (if_alias i) (if_hardware_addr i) (if_ip_addrs i) mtu
                    (if_is_up i) (if_is_loopback i)
    | None => i
    end
  else i.
Definition mark_interfaces (sys_inters : option (list CInterface)) (ifs : list Interface) : list Interface :=
  match sys_inters with
  | Some sys_inters => fold_left (fun ifs inter => map (mark_interface inter) ifs) sys_inters ifs
  | None => ifs
  end.

(** [str::ends_with]. *)
Definition ends_with (s t : string) : bool :=
  bool_decide (lit t = drop (length (lit s) - length (lit t))%nat (lit s)).

(** [mark_interfaces], on Windows. *)
Definition mark_interface_windows (inter : SysInterface) (i : Interface) : Interface :=
  if ends_with (if_name i) (si_name inter) then
    mkInterface (if_name i) (Some (si_display_name inter)) (if_hardware_addr i) (if_ip_addrs i) (si_mtu inter)
      (si_is_up inter) (si_is_loopback inter)
  else i.
Definition mark_interfaces_windows (sys_inters : option (list SysInterface)) (ifs : list Interface) : list Interface :=
  match sys_inters with
  | Some sys_inters => fold_left (fun ifs inter => map (mark_interface_windows inter) ifs) sys_inters ifs
  | None => ifs
  end.

(** [pcap::interfaces]; [mark] is the variant of [mark_interfaces] of the
    system, with what the system reports. *)
Definition pcap_interfaces (mark : list Interface -> list Interface) (inters : list NetworkInterface) : list Interface :=
  mark (omap interface_of inters).

Definition interfaces (mark : list Interface -> list Interface) (inters : list NetworkInterface) : list Interface :=
  List.filter (fun inter => if_is_up inter && negb (if_is_loopback inter)) (pcap_interfaces mark inters).

Definition interface (mark : list Interface -> list Interface) (inters : list NetworkInterface) (name : option string)
  : option Interface :=
  let inters :=
    match name with
    | Some name => List.filter (fun inter => bool_decide (if_name inter = name)) (interfaces mark inters)
    | None => interfaces mark inters
    end in
  match inters with [inter] => Some inter | _ => None end.

(** ** Opening *)

Definition BUFFER_SIZE : Z := 256 * 1024.

(** [datalink::channel] is [channel], with the sizes of the buffers. *)
Definition interface_open {Sender Receiver} (inters : list NetworkInterface)
    (channel : NetworkInterface -> Z -> Z -> io_result (Channel Sender Receiver)) (i : Interface)
  : io_result (Sender * Receiver) :=
  match head (List.filter (fun current_inter => bool_decide (ni_name current_inter = if_name i)) inters) with
  | None => Err (mkIoError ENotFound "interface not found")
  | Some inter =>
      match channel inter BUFFER_SIZE BUFFER_SIZE with
      | Err e => Err e
      | Ok (Channel_Ethernet tx rx) => Ok (tx, rx)
      | Ok Channel_Other => Err (mkIoError EOther "unknown link type")
      end
  end.

(** [Display], with the text of a hardware address. *)
Definition interface_text (mac_text : MacAddr -> text) (i : Interface) : text :=
  let name := match if_alias i with
              | Some alias => lit (if_name i) ++ lit " (" ++ lit alias ++ lit ")"
              | None => lit (if_name i)
              end in
  let ip_addrs := text_join (lit ", ") (map ipv4_text (if_ip_addrs i)) in
  let flags := if if_is_loopback i then lit " (Loopback)" else [] in
  name ++ lit " [" ++ mac_text (if_hardware_addr i) ++ lit "]" ++ flags ++ lit ": " ++ ip_addrs.

(** ** The choice, as a search in the list of the devices *)

Definition v4_addrs (ni : NetworkInterface) : list Ipv4Addr :=
  omap (fun ip => match ip with IpNet_V4 ipv4 => Some (network_ip ipv4) | IpNet_V6 _ _ => None end) (ni_ips ni).

Definition usable (name : option string) (ni : NetworkInterface) : bool :=
  match ni_mac ni with Some _ => true | None => false end
  && (0 <? len (v4_addrs ni)) && ni_is_up ni && negb (ni_is_loopback ni)
  && match name with Some name => bool_decide (ni_name ni = name) | None => true end.

(** The last MTU that the system reports for a name. *)
Definition system_mtu (sys : option (list CInterface)) (name : string) : Z :=
  unwrap_or (last (omap (fun c => if decide (name = ci_name c) then ci_mtu c else None) (default [] sys))) 0.

Definition described (sys : option (list CInterface)) (ni : NetworkInterface) : Interface :=
  mkInterface (ni_name ni) None (unwrap_or (ni_mac ni) 0) (v4_addrs ni) (system_mtu sys (ni_name ni))
    (ni_is_up ni) (ni_is_loopback ni).

(** ** Lemmas *)

(** Marking one interface with all that the system reports. *)
Definition mark_all (sys : option (list CInterface)) (i : Interface) : Interface :=
  fold_left (fun i inter => mark_interface inter i) (default [] sys) i.

Lemma fold_left_map {A B} (f : B -> A -> A) (l : list B) (k : list A) :
  fold_left (fun k b => map (f b) k) l k = map (fun a => fold_left (fun a b => f b a) l a) k.
Proof.
  revert k. induction l as [|b l IH]; intros k; cbn [fold_left]; [by rewrite map_id|]. rewrite IH. by rewrite map_map.
Qed.

Lemma mark_interfaces_map sys ifs : mark_interfaces sys ifs = map (mark_all sys) ifs.
Proof.
  unfold mark_interfaces, mark_all. destruct sys as [l|]; cbn [default from_option id]; [apply fold_left_map|].
  cbn [fold_left]. by rewrite map_id.
Qed.

Lemma mark_all_exact sys i :
  mark_all sys i = mkInterface (if_name i) (if_alias i) (if_hardware_addr i) (if_ip_addrs i)
    (unwrap_or (last (omap (fun c => if decide (if_name i = ci_name c) then ci_mtu c else None) (default [] sys)))
       (if_mtu i)) (if_is_up i) (if_is_loopback i).
Proof.
  unfold mark_all. destruct sys as [l|]; cbn [default from_option id]; [|by destruct i]. revert i.
  induction l as [|c l IH]; intros i; [by destruct i|]. cbn [fold_left]. rewrite IH. unfold mark_interface.
  cbn [omap list_omap]. destruct (decide (if_name i = ci_name c)) as [E|E].
  - rewrite bool_decide_true by done. destruct (ci_mtu c) as [m|]; [|done]. cbn [if_name if_mtu].
    set (k := omap _ l). rewrite last_cons. by destruct (last k).
  - by rewrite bool_decide_false.
Qed.

Lemma interface_of_spec ni :
  interface_of ni = match ni_mac ni with
                    | Some mac => if 0 <? len (v4_addrs ni)
                                  then Some (mkInterface (ni_name ni) None mac (v4_addrs ni) 0 (ni_is_up ni) (ni_is_loopback ni))
                                  else None
                    | None => None
                    end.
Proof.
  unfold interface_of. destruct (ni_mac ni) as [mac|]; [|done]. fold (v4_addrs ni).
  destruct (Z.leb_spec (len (v4_addrs ni)) 0), (Z.ltb_spec 0 (len (v4_addrs ni))); done || lia.
Qed.

Lemma described_mark sys ni mac :
  ni_mac ni = Some mac ->
  mark_all sys (mkInterface (ni_name ni) None mac (v4_addrs ni) 0 (ni_is_up ni) (ni_is_loopback ni)) = described sys ni.
Proof. intros E. rewrite mark_all_exact. unfold described, system_mtu. by rewrite E. Qed.

(** The interfaces to choose from. *)
Lemma candidates_exact sys inters name :
  match name with
  | Some name => List.filter (fun i => bool_decide (if_name i = name)) (interfaces (mark_interfaces sys) inters)
  | None => interfaces (mark_interfaces sys) inters
  end = map (described sys) (List.filter (usable name) inters).
Proof.
  unfold interfaces, pcap_interfaces. rewrite mark_interfaces_map.
  induction inters as [|ni inters IH]; [by destruct name|]. cbn [omap list_omap List.filter].
  rewrite interface_of_spec. unfold usable at 1. destruct (ni_mac ni) as [mac|] eqn:E; [|done].
  destruct (0 <? len (v4_addrs ni)); [|done]. cbn [map]. rewrite (described_mark sys ni mac E). cbn [List.filter andb].
  change (if_is_up (described sys ni)) with (ni_is_up ni). change (if_is_loopback (described sys ni)) with (ni_is_loopback ni).
  destruct (ni_is_up ni && negb (ni_is_loopback ni)) eqn:Eu.
  - cbn [andb]. destruct name as [name|].
    + cbn [List.filter]. change (if_name (described sys ni)) with (ni_name ni).
      destruct (bool_decide (ni_name ni = name)); cbn [map]; by rewrite IH.
    + cbn [map]. by rewrite IH.
  - exact IH.
Qed.

(** What marking keeps, on every system. *)
Class KeepsAddresses (mark : list Interface -> list Interface) : Prop :=
  keeps_addresses : forall ifs, map if_ip_addrs (mark ifs) = map if_ip_addrs ifs.

Lemma fold_keeps {B} (f : B -> Interface -> Interface) (l : list B) (ifs : list Interface) :
  (forall b i, if_ip_addrs (f b i) = if_ip_addrs i) ->
  map if_ip_addrs (fold_left (fun ifs b => map (f b) ifs) l ifs) = map if_ip_addrs ifs.
Proof.
  intros H. revert ifs. induction l as [|b l IH]; intros ifs; [done|]. cbn [fold_left]. rewrite IH, map_map.
  apply map_ext. intros i. apply H.
Qed.

#[export] Instance mark_keeps sys : KeepsAddresses (mark_interfaces sys).
Proof.
  intros ifs. destruct sys; [|done]. apply fold_keeps. intros b i. unfold mark_interface.
  destruct (bool_decide _); [by destruct (ci_mtu b)|done].
Qed.

#[export] Instance mark_windows_keeps sys : KeepsAddresses (mark_interfaces_windows sys).
Proof.
  intros ifs. destruct sys; [|done]. apply fold_keeps. intros b i. unfold mark_interface_windows.
  by destruct (ends_with _ _).
Qed.

Lemma interface_In mark inters name i : interface mark inters name = Some i -> In i (pcap_interfaces mark inters).
Proof.
  unfold interface. set (l := match name with Some _ => _ | None => _ end).
  assert (Hl : forall j, In j l -> In j (pcap_interfaces mark inters)).
  { intros j Hj. assert (Hj' : In j (interfaces mark inters)).
    { unfold l in Hj. destruct name; [by apply filter_In in Hj as [Hj _]|done]. }
    unfold interfaces in Hj'. by apply filter_In in Hj' as [? _]. }
  destruct l as [|j [|k l]]; [done| |done]. intros [= ->]. apply Hl. by left.
Qed.

(** The chosen interface has an address. *)
Lemma interface_addr mark {K : KeepsAddresses mark} inters name i :
  interface mark inters name = Some i -> exists ip, interface_ip_addr i = Some ip /\ In ip (if_ip_addrs i)
    /\ exists ni, In ni inters /\ if_ip_addrs i = v4_addrs ni.
Proof.
  intros H%interface_In. apply (in_map if_ip_addrs) in H. unfold pcap_interfaces in H. rewrite keeps_addresses in H.
  apply in_map_iff in H as (j & Ej & Hj). assert (Hn : exists ni, In ni inters /\ interface_of ni = Some j).
  { apply list_elem_of_In, list_elem_of_omap in Hj as (ni & Hni & E). exists ni. split; [by apply list_elem_of_In|done]. }
  destruct Hn as (ni & Hni & E). rewrite interface_of_spec in E. destruct (ni_mac ni) as [mac|]; [|done].
  destruct (Z.ltb_spec 0 (len (v4_addrs ni))) as [Hl|]; [|done]. injection E as <-. cbn in Ej.
  unfold interface_ip_addr. rewrite <- Ej. destruct (Z.ltb_spec 0 (len (v4_addrs ni))); [|lia].
  destruct (v4_addrs ni) as [|ip ips] eqn:Ev; [done|]. exists ip. split; [done|]. split; [by left|].
  exists ni. by rewrite Ev.
Qed.

(** ** Theorems *)

(** C22. The interface that is chosen is the only device that is up, is no
    loopback, has a hardware address and an IPv4 address and the name that was
    asked for, if any, with the last MTU that the system reports for its name;
    without exactly one such device there is none.  On the systems other than
    Windows, whose [mark_interfaces] this is. *)
Theorem interface_exact (sys : option (list CInterface)) (inters : list NetworkInterface) (name : option string) :
  interface (mark_interfaces sys) inters name
  = match List.filter (usable name) inters with [ni] => Some (described sys ni) | _ => None end.
Proof.
  unfold interface. cbv zeta. rewrite candidates_exact. by destruct (List.filter (usable name) inters) as [|? [|? ?]].
Qed.

(** When names are unique, opening the interface that was chosen opens the
    device that it describes, with buffers of 256 KiB. *)
Theorem interface_open_device {Sender Receiver} (sys : option (list CInterface)) (inters : list NetworkInterface)
    (name : option string) (channel : NetworkInterface -> Z -> Z -> io_result (Channel Sender Receiver)) (i : Interface) :
  NoDup (map ni_name inters) -> interface (mark_interfaces sys) inters name = Some i ->
  exists ni, i = described sys ni /\ In ni inters /\ usable name ni = true
    /\ interface_open inters channel i
       = match channel ni (256 * 1024) (256 * 1024) with
         | Ok (Channel_Ethernet tx rx) => Ok (tx, rx)
         | Ok Channel_Other => Err (mkIoError EOther "unknown link type")
         | Err e => Err e
         end.
Proof.
  intros Hd. unfold interface. cbv zeta. rewrite candidates_exact.
  destruct (List.filter (usable name) inters) as [|ni [|? ?]] eqn:E; [done| |done]. intros [= <-]. exists ni.
  assert (Hin : In ni (List.filter (usable name) inters)) by (rewrite E; by left).
  apply filter_In in Hin as [Hin Hu]. split; [done|]. split; [done|]. split; [done|].
  unfold interface_open. change (if_name (described sys ni)) with (ni_name ni).
  replace (head _) with (Some ni); [by destruct (channel ni _ _) as [[]|]|].
  clear E Hu. induction inters as [|a l IH]; [done|]. cbn [map] in Hd. apply NoDup_cons in Hd as [Ha Hl]. cbn [List.filter].
  destruct Hin as [->|Hin]; [by rewrite bool_decide_true|]. rewrite bool_decide_false; [by apply IH|].
  intros Hn. apply Ha. rewrite Hn. apply list_elem_of_In. by apply in_map.
Qed.
End interface.

(** ** Examples *)

Definition inters_example : list (NetworkInterface (N := prefix_network)) :=
  [mkNetworkInterface "lo" (Some 0) [IpNet_V4 (2130706433, 24)] true true;
   mkNetworkInterface "eth0" (Some 7) [IpNet_V6 1 64; IpNet_V4 (9, 8)] true false;
   mkNetworkInterface "eth1" (Some 8) [IpNet_V6 2 64] true false].

Definition sys_example : option (list CInterface) := Some [mkCInterface "eth0" (Some 1500); mkCInterface "lo" None].

Definition channel_example (ni : NetworkInterface (N := prefix_network)) (w r : Z) : io_result (Channel unit unit) :=
  Ok (Channel_Ethernet tt tt).

Lemma interface_open_device_witness :
  exists ni, described sys_example (nth 1 inters_example (mkNetworkInterface "" None [] false false)) = described sys_example ni
    /\ In ni inters_example /\ usable None ni = true
    /\ interface_open inters_example channel_example
         (described sys_example (nth 1 inters_example (mkNetworkInterface "" None [] false false)))
       = match channel_example ni (256 * 1024) (256 * 1024) with
         | Ok (Channel_Ethernet tx rx) => Ok (tx, rx)
         | Ok Channel_Other => Err (mkIoError EOther "unknown link type")
         | Err e => Err e
         end.
Proof.
  refine (interface_open_device sys_example inters_example None channel_example _ _ _).
  - by apply (bool_decide_unpack _).
  - reflexivity.
Defined.
