(* ===== verification/Main.v ===== *)
(** * The command line program: main.rs

    The address of the proxy as it is given on the command line, the choice of
    the interface, the MTU, the source and the gateway, the parameters that the
    user is shown for the device, and the start of the redirector.  The parsing
    of the arguments (crate [structopt]) is outside: [flags_ok] is what the
    attributes of [Flags] promise.  The resolver (crate [dns_lookup]) is an
    argument. *)

From S2P Require Import Prelude SeqArith Ring Queue Window TxState RxState Socks Pnet Wire Layers Packet Frames Forwarder Flow Crates Redirector Workers Ports Safety Text Interface.

(** ** The address of the proxy *)

Record ResolvableSocketAddrV4 : Set := mkResolvable { ra_addr : SocketAddrV4; ra_alias : option text }.

Inductive ResolvableAddrParseError : Set :=
| AddrParseError
| ResolveError (e : IoError).

(** [IpAddr]. *)
Inductive IpAddr : Set :=
| IpAddr_V4 (ip : Ipv4Addr)
| IpAddr_V6 (ip : Z).

(** The loop over the resolved addresses. *)
Definition first_v4 (addrs : list IpAddr) : option Ipv4Addr :=
  head (omap (fun addr => match addr with IpAddr_V4 ip => Some ip | IpAddr_V6 _ => None end) addrs).

Definition resolvable_from_str (lookup_host : text -> io_result (list IpAddr)) (s : text)
  : ResolvableSocketAddrV4 + ResolvableAddrParseError :=
  match parse_socket_addr_v4 s with
  | Some addr => inl (mkResolvable addr None)
  | None =>
      match split ":" s with
      | [host; service] =>
          match parse_u16 service with
          | None => inr AddrParseError
          | Some port =>
              match lookup_host host with
              | Err e => inr (ResolveError e)
              | Ok addrs =>
                  match first_v4 addrs with
                  | Some ip => inl (mkResolvable (ip, port) (Some s))
                  | None => inr AddrParseError
                  end
              end
          end
      | _ => inr AddrParseError
      end
  end.

Definition resolvable_text (a : ResolvableSocketAddrV4) : text :=
  match ra_alias a with
  | Some alias => alias ++ lit " (" ++ socket_addr_text (ra_addr a) ++ lit ")"
  | None => socket_addr_text (ra_addr a)
  end.

(** ** Logging *)

Inductive LevelFilter : Set := LevelFilter_Info | LevelFilter_Debug | LevelFilter_Trace.
Definition set_logger (verbose : Z) : LevelFilter :=
  if verbose =? 0 then LevelFilter_Info else if verbose =? 1 then LevelFilter_Debug else LevelFilter_Trace.

Inductive Level : Set := Level_Error | Level_Warn | Level_Info | Level_Debug | Level_Trace.
Inductive Target : Set := Target_Stderr | Target_Stdout.

(** The closure [fmt] of [Logger::init], without the colours. *)
Definition logger_line (level : Level) (args : text) : text :=
  match level with Level_Error => lit "error: " | Level_Warn => lit "warning: " | _ => [] end ++ args.

(** Whether a logger with a filter writes a record. *)
Definition filter_admits (filter : LevelFilter) (level : Level) : bool :=
  match level, filter with
  | Level_Debug, LevelFilter_Info => false
  | Level_Trace, (LevelFilter_Info | LevelFilter_Debug) => false
  | _, _ => true
  end.

(** [Logger::log]: the line and where it is written. *)
Definition logger_log (filter : LevelFilter) (level : Level) (args : text) : option (Target * text) :=
  let target := match level with Level_Error => Target_Stderr | _ => Target_Stdout end in
  if filter_admits filter level then Some (target, logger_line level args) else None.

Section main.
Context `{P : Pnet} `{D : Device} `{N : IpNetwork} `{C : Lru}.

(** ** The parameters for the device *)

(** [!(a ^ b) & m] on bytes. *)
Definition common_bits (a b m : byte) : byte := Z.land (255 - Z.lxor a b) m.

(** Bytes from the first one that is not full are cleared. *)
Fixpoint clear_rest (is_zero : bool) (l : list byte) : list byte :=
  match l with
  | [] => []
  | b :: l => if is_zero || negb (b =? u8_max) then 0 :: clear_rest true l else b :: clear_rest is_zero l
  end.

Definition info_mask (src : Ipv4Network) (gw : Ipv4Addr) : Ipv4Addr :=
  let src_octets := octets (network_network src) in
  let mask_octets := octets (network_mask src) in
  let gw_octets := octets gw in
  match clear_rest false (zip_with (fun ab m => common_bits ab.1 ab.2 m) (zip src_octets gw_octets) mask_octets) with
  | [a; b; c; d] => ipv4_addr_new a b c d
  | _ => 0
  end.

(** [{:─>w$}] of the empty text, and [{:>w$}]. *)
Definition fill (c : text) (n : Z) : text := concat (replicate (Z.to_nat n) c).
Definition pad_left (w : Z) (t : text) : text := fill (lit " ") (w - len t) ++ t.

(** The lines of the log. *)
Definition show_info (src : Ipv4Network) (gw : Ipv4Addr) (mtu : Z) : outcome (list text) :=
  src_str ←
    (if network_size src =? 1 then mret (ipv4_text (network_network src))
     else
       n ← int_sub (network_size src) 1;
       last ← unwrap (network_nth src n);
       mret (ipv4_text (network_network src) ++ lit " - " ++ ipv4_text last));
  let mtu_str := lit "<=" ++ decimal mtu in
  let mask := info_mask src gw in
  let width := Z.max (len src_str) (Z.max (len (ipv4_text mask)) (Z.max (len (ipv4_text gw)) (len mtu_str))) in
  mret ([lit "Please set the network of your device which is going to be proxied with the following parameters:";
         lit "    ┌─────────────" ++ fill (lit "─") width ++ lit "─┐";
         lit "    │ IP Address  " ++ pad_left width src_str ++ lit " │";
         lit "    │ Mask        " ++ pad_left width (ipv4_text mask) ++ lit " │";
         lit "    │ Gateway     " ++ pad_left width (ipv4_text gw) ++ lit " │";
         lit "    │─────────────" ++ fill (lit "─") width ++ lit "─│";
         lit "    │ MTU         " ++ pad_left width mtu_str ++ lit " │";
         lit "    └─────────────" ++ fill (lit "─") width ++ lit "─┘"]
        ++ (if mask =? 0 then [lit "The mask is all zeros, which may cause potential problems"] else [])).

(** ** The program *)

Record Flags : Set := mkFlags {
  fl_verbose : Z;
  fl_inter : option string;
  fl_mtu : option Z;
  fl_preset : option string;
  fl_src : option Ipv4Network;
  fl_publish : option Ipv4Addr;
  fl_dst : ResolvableSocketAddrV4;
  fl_force_associate_dst : bool;
  fl_force_associate_bind_addr : bool;
  fl_username : option string;
  fl_password : option string
}.

(** How the program ends before it listens, or what it listens with. *)
Inductive main_result (Receiver : Type) : Type :=
| NoInterface (available : list Interface)
| NoMtu
| NoPreset (preset : string)
| SourceIsGateway
| OpenFailed (e : IoError)
| Listens (info : list text) (r : Redirector) (rx : Receiver).
Arguments NoInterface {_}. Arguments NoMtu {_}. Arguments NoPreset {_}. Arguments SourceIsGateway {_}.
Arguments OpenFailed {_}. Arguments Listens {_}.

Definition is_tencent (preset : string) : bool := bool_decide (preset ∈ ["t"; "tencent"]).
Definition is_netease (preset : string) : bool := bool_decide (preset ∈ ["n"; "netease"; "u"; "uu"]).

(** The source; [None] for a preset that is not available. *)
Definition main_src (flags : Flags) (inter : Interface) : outcome (option Ipv4Network) :=
  match fl_preset flags with
  | Some preset =>
      if is_tencent preset then n ← unwrap (network_new (ipv4_addr_new 10 6 0 1) 32); mret (Some n)
      else if is_netease preset then
        ip ← unwrap (interface_ip_addr inter);
        match octets ip with
        | [_; _; c; d] =>
            n ← unwrap (network_new (ipv4_addr_new 172 24 (unwrap_or (checked_add u8_max c 1) 0) d) 32);
            mret (Some n)
        | _ => Panic
        end
      else mret None
  | None => src ← unwrap (fl_src flags); mret (Some src)
  end.

Definition main_publish (flags : Flags) (inter : Interface) : outcome (option (option Ipv4Addr)) :=
  match fl_preset flags with
  | Some preset =>
      if is_tencent preset then mret (Some (Some (ipv4_addr_new 10 6 0 2)))
      else if is_netease preset then
        ip ← unwrap (interface_ip_addr inter);
        match octets ip with
        | [_; _; c; d] => mret (Some (Some (ipv4_addr_new 172 24 c d)))
        | _ => Panic
        end
      else mret None
  | None => mret (Some (fl_publish flags))
  end.

Definition main_mtu (flags : Flags) (inter : Interface) : option Z :=
  match fl_mtu flags with
  | Some mtu => Some mtu
  | None => if if_mtu inter <=? 0 then None else Some (if_mtu inter)
  end.

Definition main_auth (flags : Flags) : outcome (option (string * string)) :=
  match fl_username flags with
  | Some username => password ← unwrap (fl_password flags); mret (Some (username, password))
  | None => mret None
  end.

(** From the gateway on. *)
Definition main_listen {Receiver} (inters : list NetworkInterface)
    (channel : NetworkInterface -> Z -> Z -> io_result (Channel unit Receiver))
    (flags : Flags) (inter : Interface) (mtu : Z) (src : Ipv4Network) (publish : option Ipv4Addr)
  : outcome (main_result Receiver) :=
  ip_addr ← unwrap (interface_ip_addr inter);
  let gw := unwrap_or publish ip_addr in
  if (network_size src =? 1) && (network_network src =? gw) then mret SourceIsGateway
  else
    info ← show_info src gw mtu;
    match interface_open inters channel inter with
    | Err e => mret (OpenFailed e)
    | Ok (_, rx) =>
        let forwarder := forwarder_new mtu (if_hardware_addr inter) ip_addr in
        auth ← main_auth flags;
        mret (Listens info
                (redirector_new forwarder src gw publish (ra_addr (fl_dst flags))
                   (fl_force_associate_dst flags) (fl_force_associate_bind_addr flags) auth) rx)
    end.

Definition main_setup {Receiver} (mark : list Interface -> list Interface) (inters : list NetworkInterface)
    (channel : NetworkInterface -> Z -> Z -> io_result (Channel unit Receiver)) (flags : Flags)
  : outcome (main_result Receiver) :=
  match interface mark inters (fl_inter flags) with
  | None => mret (NoInterface (interfaces mark inters))
  | Some inter =>
      match main_mtu flags inter with
      | None => mret NoMtu
      | Some mtu =>
          src ← main_src flags inter;
          match src with
          | None => mret (NoPreset (unwrap_or (fl_preset flags) ""))
          | Some src =>
              publish ← main_publish flags inter;
              match publish with
              | None => mret (NoPreset (unwrap_or (fl_preset flags) ""))
              | Some publish => main_listen inters channel flags inter mtu src publish
              end
          end
      end
  end.

(** [main]: what the receiver answers, with what the handlers wait for, is
    [receive]. *)
Definition main {Receiver} (mark : list Interface -> list Interface) (inters : list NetworkInterface)
    (channel : NetworkInterface -> Z -> Z -> io_result (Channel unit Receiver))
    (receive : Receiver -> list (Env * io_result (list byte))) (flags : Flags)
  : outcome (main_result Receiver * io_result unit) :=
  result ← main_setup mark inters channel flags;
  match result with
  | Listens info r rx =>
      '(r, e) ← redirector_open (receive rx) r;
      mret (Listens info r rx, e)
  | _ => mret (result, Ok tt)
  end.
End main.

Arguments NoInterface {_ _ _ _}. Arguments NoMtu {_ _ _ _}. Arguments NoPreset {_ _ _ _}.
Arguments SourceIsGateway {_ _ _ _}. Arguments OpenFailed {_ _ _ _}. Arguments Listens {_ _ _ _}.

(** ** Addresses *)

(** A host name: it does not begin like an address and has no colon. *)
Definition is_host (host : text) : Prop :=
  match host with [] => False | c :: _ => to_digit c = None end /\ ":"%char ∉ host.

Lemma host_is_no_address host rest : is_host host -> parse_socket_addr_v4 (host ++ rest) = None.
Proof.
  intros [H _]. destruct host as [|c host]; [done|]. unfold parse_socket_addr_v4, read_ipv4_addr, read_octet, read_number.
  cbn [app read_digits]. by rewrite H.
Qed.

(** A host name with a port stands for the first IPv4 address that the
    resolver finds, and the name is kept; the error of the resolver is passed on,
    and a host without an IPv4 address is refused. *)
Theorem resolvable_host (lookup_host : text -> io_result (list IpAddr)) (host : text) (port : Z) :
  is_host host -> is_u16 port ->
  let s := host ++ lit ":" ++ decimal port in
  resolvable_from_str lookup_host s
  = match lookup_host host with
    | Err e => inr (ResolveError e)
    | Ok addrs => match first_v4 addrs with
                  | Some ip => inl (mkResolvable (ip, port) (Some s))
                  | None => inr AddrParseError
                  end
    end.
Proof.
  intros Hh Hp s. unfold resolvable_from_str, s. rewrite host_is_no_address by done.
  change (lit ":" ++ decimal port) with (":"%char :: decimal port).
  rewrite split_one; [|apply Hh|apply decimal_no_char; [apply Hp|done]]. by rewrite parse_u16_decimal.
Qed.

(** ** The mask *)

(** The first [k] bytes of an address are one, the others zero. *)
Definition octet_mask (k : Z) : Z := 2 ^ 32 - 2 ^ (32 - 8 * k).

Lemma land_octet_mask x k : is_u32 x -> 0 <= k <= 4 -> Z.land x (octet_mask k) = x / 2 ^ (32 - 8 * k) * 2 ^ (32 - 8 * k).
Proof.
  intros Hx Hk. set (j := 32 - 8 * k). assert (Hj : 0 <= j <= 32) by lia.
  rewrite <- Z.shiftr_div_pow2, <- Z.shiftl_mul_pow2, <- Z.ldiff_ones_r by lia.
  apply Z.bits_inj'. intros n Hn. rewrite Z.land_spec, Z.ldiff_spec. unfold octet_mask. fold j.
  destruct (Z.ltb_spec n 32).
  - f_equal. rewrite Z.testbit_ones_nonneg by lia.
    replace (2 ^ 32 - 2 ^ j) with (Z.shiftl (Z.ones (32 - j)) j).
    + rewrite Z.shiftl_spec by lia. destruct (Z.ltb_spec n j).
      * by rewrite Z.testbit_neg_r by lia.
      * rewrite Z.testbit_ones_nonneg by lia. destruct (Z.ltb_spec (n - j) (32 - j)); [done|lia].
    + rewrite Z.ones_equiv, Z.shiftl_mul_pow2 by lia. rewrite <- Z.sub_1_r, Z.mul_sub_distr_r, <- Z.pow_add_r by lia.
      replace (32 - j + j) with 32 by lia. lia.
  - rewrite (Z.bits_above_log2 x n); [done|apply Hx|]. destruct (Z.eq_dec x 0) as [->|]; [cbn; lia|].
    apply Z.log2_lt_pow2; [unfold is_u32 in Hx; lia|]. eapply Z.lt_le_trans; [|apply (Z.pow_le_mono_r 2 32 n); lia].
    unfold is_u32, u32_max in Hx. lia.
Qed.

Lemma land_full a b : is_u8 a -> is_u8 b -> Z.land a b = 255 -> a = 255 /\ b = 255.
Proof.
  intros Ha Hb E. assert (H : forall i, 0 <= i < 8 -> Z.testbit a i = true /\ Z.testbit b i = true).
  { intros i Hi. assert (T : Z.testbit (Z.land a b) i = true) by (rewrite E; change 255 with (Z.ones 8); rewrite Z.testbit_ones_nonneg by lia; apply Z.ltb_lt; lia).
    rewrite Z.land_spec in T. by apply andb_prop in T. }
  assert (F : forall x, is_u8 x -> (forall i, 0 <= i < 8 -> Z.testbit x i = true) -> x = 255).
  { intros x Hx Hb'. rewrite <- (Z.mod_small x 256) by (unfold is_u8, u8_max in Hx; lia). change 256 with (2 ^ 8).
    rewrite <- Z.land_ones by lia. change 255 with (Z.ones 8). apply Z.bits_inj'. intros n Hn. rewrite Z.land_spec, Z.testbit_ones_nonneg by lia.
    destruct (Z.ltb_spec n 8); [by rewrite Hb' by lia|by destruct (Z.testbit x n)]. }
  split; apply F; try done; intros i Hi; by apply H.
Qed.

(** A byte of the mask is full when both addresses agree on it and the network
    fixes it. *)
Lemma common_bits_full a b m :
  is_u8 a -> is_u8 b -> is_u8 m -> (common_bits a b m =? u8_max) = (a =? b) && (m =? 255).
Proof.
  intros Ha Hb Hm. unfold common_bits, u8_max. destruct (Z.eqb_spec a b) as [->|Hne].
  - rewrite Z.lxor_nilpotent, Z.sub_0_r. change 255 with (Z.ones 8) at 1.
    rewrite Z.land_comm, Z.land_ones by lia. rewrite Z.mod_small by (unfold is_u8, u8_max in Hm; change (2 ^ 8) with 256; lia).
    done.
  - cbn [andb]. apply Z.eqb_neq. intros E.
    assert (Hx : is_u8 (Z.lxor a b)).
    { unfold is_u8, u8_max in *. assert (0 <= Z.lxor a b) by (apply Z.lxor_nonneg; lia). split; [done|].
      destruct (Z.eq_dec (Z.lxor a b) 0); [lia|]. assert (Z.lxor a b < 2 ^ 8); [|lia].
      apply Z.log2_lt_pow2; [lia|]. eapply Z.le_lt_trans; [apply Z.log2_lxor; lia|].
      assert (L : forall x, 0 <= x <= 255 -> Z.log2 x < 8).
      { intros x Hx. destruct (Z.eq_dec x 0) as [->|]; [done|]. apply Z.log2_lt_pow2; lia. }
      pose proof (L a ltac:(lia)). pose proof (L b ltac:(lia)). lia. }
    apply land_full in E as [E _]; [|unfold is_u8, u8_max in *; lia|done].
    apply Hne, Z.lxor_eq. unfold is_u8 in Hx. lia.
Qed.

Lemma land_u32 x y : is_u32 x -> is_u32 (Z.land x y).
Proof.
  intros Hx. assert (E : Z.land x y = Z.land x y mod 2 ^ 32).
  { rewrite <- Z.land_ones by lia. rewrite <- Z.land_assoc, (Z.land_comm y), Z.land_assoc. f_equal.
    rewrite Z.land_ones by lia. symmetry. apply Z.mod_small. unfold is_u32, u32_max in Hx. lia. }
  rewrite E. unfold is_u32, u32_max. pose proof (Z.mod_pos_bound (Z.land x y) (2 ^ 32)). lia.
Qed.

(** An address by its bytes, and what the masks leave of it. *)
Lemma octets_view x :
  is_u32 x -> exists a b c d, octets x = [a; b; c; d] /\ is_u8 a /\ is_u8 b /\ is_u8 c /\ is_u8 d
    /\ x = ((a * 256 + b) * 256 + c) * 256 + d.
Proof.
  intros Hx. eexists _, _, _, _. split; [reflexivity|]. split; [apply mod_u8|]. split; [apply mod_u8|].
  split; [apply mod_u8|]. split; [apply mod_u8|]. symmetry. by apply octets_roundtrip.
Qed.

(** The first [k] bytes as a number. *)
Definition leading (k : Z) (a b c d : byte) : Z :=
  if k =? 0 then 0 else if k =? 1 then a else if k =? 2 then a * 256 + b
  else if k =? 3 then (a * 256 + b) * 256 + c else ((a * 256 + b) * 256 + c) * 256 + d.

Ltac each_octet k := assert (k = 0 \/ k = 1 \/ k = 2 \/ k = 3 \/ k = 4) as [-> | [-> | [-> | [-> | -> ] ] ] ] by lia.

Lemma leading_div k a b c d :
  0 <= k <= 4 -> is_u8 a -> is_u8 b -> is_u8 c -> is_u8 d ->
  (((a * 256 + b) * 256 + c) * 256 + d) / 2 ^ (32 - 8 * k) = leading k a b c d.
Proof.
  unfold is_u8, u8_max. intros Hk Ha Hb Hc Hd. symmetry. each_octet k; cbv [leading Z.eqb Pos.eqb].
  - change (2 ^ (32 - 8 * 0)) with 4294967296. apply (Z.div_unique _ _ _ (((a * 256 + b) * 256 + c) * 256 + d)); lia.
  - change (2 ^ (32 - 8 * 1)) with 16777216. apply (Z.div_unique _ _ _ ((b * 256 + c) * 256 + d)); lia.
  - change (2 ^ (32 - 8 * 2)) with 65536. apply (Z.div_unique _ _ _ (c * 256 + d)); lia.
  - change (2 ^ (32 - 8 * 3)) with 256. apply (Z.div_unique _ _ _ d); lia.
  - change (2 ^ (32 - 8 * 4)) with 1. by rewrite Z.div_1_r.
Qed.

(** The bytes before the [k]-th are full, that one is not. *)
Ltac settle k Hj :=
  exists k; split; [lia|]; split; [reflexivity|]; let j := fresh "j" in intros j ?; rewrite Hj by done;
  each_octet j; cbv [leading Z.eqb Pos.eqb]; lia.

Section mask.
Context {N : IpNetwork} {NL : IpNetworkLaws N}.

Lemma network_mask_u32 n : is_u32 (network_mask n).
Proof.
  rewrite law_network_mask. pose proof (law_network_prefix n) as Hp. unfold is_u32, u32_max.
  assert (0 < 2 ^ (32 - network_prefix n) <= 2 ^ 32) by (split; [apply Z.pow_pos_nonneg; lia|apply Z.pow_le_mono_r; lia]). lia.
Qed.

Lemma network_network_u32 n : is_u32 (network_network n).
Proof. rewrite law_network_network. apply land_u32, law_network_ip. Qed.

(** The gateway is reached directly under the first [k] bytes: the network and
    the gateway agree on them, and the network fixes them. *)
Definition shares (src : Ipv4Network) (gw : Ipv4Addr) (k : Z) : Prop :=
  Z.land (network_network src) (octet_mask k) = Z.land gw (octet_mask k)
  /\ Z.land (network_mask src) (octet_mask k) = octet_mask k.

(** C23. The mask that the user is told is the longest one of whole bytes under
    which the source network and the gateway agree and which does not go beyond
    the mask of the network. *)
Theorem info_mask_longest (src : Ipv4Network) (gw : Ipv4Addr) :
  is_u32 gw ->
  exists k, 0 <= k <= 4 /\ info_mask src gw = octet_mask k /\ forall j, 0 <= j <= 4 -> shares src gw j <-> j <= k.
Proof.
  intros Hg. pose proof (network_network_u32 src) as Hn. pose proof (network_mask_u32 src) as Hm.
  unfold shares, info_mask. destruct (octets_view _ Hn) as (a & b & c & d & -> & Ha & Hb & Hc & Hd & En). rewrite En in Hn |- *.
  destruct (octets_view _ Hg) as (a' & b' & c' & d' & -> & Ha' & Hb' & Hc' & Hd' & Eg). rewrite Eg in Hg |- *.
  destruct (octets_view _ Hm) as (p & q & r & s & -> & Hp & Hq & Hr & Hs & Em). rewrite Em in Hm |- *.
  cbn [zip zip_with map fst snd clear_rest]. fold u8_max.
  assert (Hj : forall j, 0 <= j <= 4 ->
    (Z.land (((a * 256 + b) * 256 + c) * 256 + d) (octet_mask j) = Z.land (((a' * 256 + b') * 256 + c') * 256 + d') (octet_mask j)
     /\ Z.land (((p * 256 + q) * 256 + r) * 256 + s) (octet_mask j) = octet_mask j)
    <-> leading j a b c d = leading j a' b' c' d' /\ leading j p q r s = leading j 255 255 255 255).
  { intros j Hj. rewrite !land_octet_mask, !leading_div by done. unfold octet_mask.
    assert (0 < 2 ^ (32 - 8 * j)) by (apply Z.pow_pos_nonneg; lia).
    replace (2 ^ 32 - 2 ^ (32 - 8 * j)) with (leading j 255 255 255 255 * 2 ^ (32 - 8 * j)) by (by each_octet j). nia. }
  pose proof (common_bits_full a a' p Ha Ha' Hp) as E1. pose proof (common_bits_full b b' q Hb Hb' Hq) as E2.
  pose proof (common_bits_full c c' r Hc Hc' Hr) as E3. pose proof (common_bits_full d d' s Hd Hd' Hs) as E4.
  set (x1 := common_bits a a' p) in *. set (x2 := common_bits b b' q) in *.
  set (x3 := common_bits c c' r) in *. set (x4 := common_bits d d' s) in *.
  clearbody x1 x2 x3 x4. unfold is_u8, u8_max in *.
  destruct (Z.eqb_spec x1 255) as [X1|X1].
  2: { settle 0 Hj. }
  rewrite X1.
  destruct (Z.eqb_spec x2 255) as [X2|X2].
  2: { settle 1 Hj. }
  rewrite X2.
  destruct (Z.eqb_spec x3 255) as [X3|X3].
  2: { settle 2 Hj. }
  rewrite X3.
  destruct (Z.eqb_spec x4 255) as [X4|X4].
  2: { settle 3 Hj. }
  rewrite X4.
  settle 4 Hj.
Qed.
End mask.

(** ** The start *)

Section start.
Context {P : Pnet} {L : PnetLaws P} {D : Device} {N : IpNetwork} {NL : IpNetworkLaws N} {C : Lru} {CL : LruLaws C}.










End start.

(** ** Examples *)

(** A resolver that finds an IPv6 address and two IPv4 addresses. *)
Definition lookup_example (host : text) : io_result (list IpAddr) := Ok [IpAddr_V6 1; IpAddr_V4 9; IpAddr_V4 10].

Lemma resolvable_host_witness :
  resolvable_from_str lookup_example (lit "localhost" ++ lit ":" ++ decimal 1080)
  = inl (mkResolvable (9, 1080) (Some (lit "localhost:1080"))).
Proof.
  refine (resolvable_host lookup_example (lit "localhost") 1080 _ _); [|vm_compute; split; discriminate].
  split; [reflexivity|]. apply (bool_decide_unpack _). vm_compute. exact I.
Defined.

(** The network 10.6.0.0/24 and the gateway 10.6.1.1 agree on two bytes. *)
Lemma info_mask_longest_witness :
  exists k, 0 <= k <= 4 /\ info_mask (N := prefix_network) (ipv4_addr_new 10 6 0 0, 8) (ipv4_addr_new 10 6 1 1) = octet_mask k
    /\ forall j, 0 <= j <= 4 -> shares (N := prefix_network) (ipv4_addr_new 10 6 0 0, 8) (ipv4_addr_new 10 6 1 1) j <-> j <= k.
Proof.
  apply (info_mask_longest (N := prefix_network) (ipv4_addr_new 10 6 0 0, 8) (ipv4_addr_new 10 6 1 1)).
  vm_compute. split; discriminate.
Defined.

Definition flags_example : Flags (N := prefix_network) :=
  mkFlags 0 None None (Some "u") None None (mkResolvable (3, 1080) None) false false (Some "user") (Some "pass").


(** The preset [u] on the only interface. *)
Example main_setup_example :
  match main_setup (P := wire) (C := list_lru) (mark_interfaces sys_example) inters_example channel_example flags_example with
  | Done (Listens info r _) =>
      rd_src_ip_addr r = (ipv4_addr_new 172 24 1 9, 0) /\ rd_local_ip_addr r = ipv4_addr_new 172 24 0 9
      /\ fw_local_mtu (rd_tx r) = 1500
      /\ nth 3 info [] = lit "    │ Mask        255.255.0.0 │"
  | _ => False
  end.
Proof. vm_compute. repeat split. Qed.

